(* ===== verification/_CoqProject ===== *)
-Q . S2P
Prelude.v
Params.v
Kernel.v
Packet.v
Scan.v
Class.v
ClassVariants.v
RateControl.v
HashTable.v
VirtualQueue.v
VqTable.v
RateLimiter.v
Dequeue.v
Device.v
Termination.v
Tx.v
TxPath.v
Rx.v
Host.v
System.v
Netdev.v
Control.v
Config.v
CommandLine.v
Module.v
Delete.v
Ownership.v
Qdisc.v
Teardown.v
Direct.v
Bridge.v
Main.v
Stats.v
Monitor.v
World.v
