(* ===== verification/Prelude.v ===== *)
(** * EyeQ: a verification of the traffic-isolation kernel module

    EyeQ (perfiso) is a Linux kernel module that gives every traffic class of a
    host (a tenant, told apart by an address, a firewall mark or a port) its
    share of the network in both directions, without help from the switches.

    ** The program and how its parts interact

    - On the way out the hook calls [iso_tx] (tx.c).  It finds the class of the
      packet, finds or creates the state of the destination within the class,
      and enqueues the packet on the rate limiter of that state (rl.c).  A rate
      limiter is a token bucket with a queue per CPU.  The limiter of a
      destination hands its packets to the limiter of the class, and that one
      hands them to the driver.  A queue that waits for tokens is on the active
      list of its CPU, which a timer and a tasklet serve.
    - On the way in the hook calls [iso_rx] (rx.c).  It counts the packet,
      accounts it to the virtual queue of its class (vq.c), and sends the
      class's advertised rate back to the sender in a feedback packet.  A
      feedback packet that arrives sets the rate of the limiter of the
      destination it came from.
    - Periodically [iso_txc_tick] divides the transmit rate among the classes
      that are active, and [iso_vq_drain] and [iso_rx_rcp_update] move the
      advertised rates by the control law
      [rate * (3 * capacity - measured) / (2 * capacity)].
    - rc.c is the older controller of a destination's rate: cut on feedback,
      fast recovery, additive increase.

    ** Files

    - Prelude: C integers and their wraps, the result type [outcome] (a value,
      a fault, a sleep without end, or a loop that ran out of fuel) with its monad, heaps and checked
      dereference, per-CPU variables, and shared lemmas and tactics.
    - Params: params.h, the globals and [iso_params_init] of params.c.  The
      tunables are the class [params]; [params_ok] is the range in which the
      theorems hold, and the shipped values [default_params] are in it.
    - Kernel: packets, and the kernel routines the module calls as the fields of
      the class [Kernel], with their documented behaviour as [KernelLaws];
      [ref_kernel] satisfies it.
    - Packet: [skb_size], the ECN and feedback helpers of rl.h, rx.h and tx.h.
    - Scan: [sscanf] and [sprintf] of the kernel for the formats of class.h and
      params.c, and [scan_into], which faults when a word overruns its array.
    - Class and ClassVariants: class.h.  The operations of a classifier are the
      class [IsoClass], its laws [IsoClassLaws]; the builds of the header are
      instances (address, mark and port in Class, Ethernet address and device in
      ClassVariants).
    - RateControl: rc.h, rc.c.
    - HashTable: hash chains beside a list, as txc_bucket/txc_list and
      vq_bucket/vq_list, and the invariant that makes them a finite map.
    - VirtualQueue and VqTable: vq.h, vq.c, [iso_vq_install] of rx.c.
    - RateLimiter: rl.h and the operations of rl.c on one rate limiter.
    - Dequeue: [iso_rl_dequeue], [iso_rl_timeout], [iso_rl_xmit_tasklet],
      [iso_rl_prep], [iso_rl_exit] of rl.c over a world of rate limiters and
      per-CPU control blocks, and the invariant [world_ok].
    - Device: sequences of packets, timers, tasklets and rate changes on any
      CPUs, and what holds of all of them.
    - Termination: the loops of Dequeue end, with the result of the model.
    - Tx and TxPath: tx.h, tx.c (contexts, classes, destination states, the tick
      and [iso_tx]).
    - Rx and Host: rx.h, rx.c, the creation and removal of the contexts, and
      both directions together.
    - System: packets in both directions, timers, tasklets and the allocator of
      the classes, in any order.
    - Netdev: qdisc.h, [iso_txctx_dev], [iso_rxctx_dev], [iso_search_netdev],
      [iso_enabled]; a device with its root discipline and the two contexts.
    - Control: the handlers of the files under /sys/module/perfiso/parameters
      (params.c), each from the written text to the contexts.
    - Config: the abstract configuration of a device (maps from classes to
      weights, caps and associations), the abstract commands, and the refinement
      of each command by the operations of Control; [ctl_ok] is the invariant.
    - CommandLine: from the text of a command to its refinement, and what
      malformed, overlong and misdirected lines do.
    - Module: packets, timers and commands of one device in any order.
    - Delete: what the two deletions leave behind, and what a virtual queue of weight 0
      or without its per-CPU statistics does to the packets of its class.
    - Ownership: every destination state and rate limiter of a device is held by
      one class, once, and every event and command keeps it so.
    - Qdisc: qdisc.c, attaching and destroying the discipline, its classes, and
      the hooks of both directions.
    - Teardown: deleting the discipline ([mq_destroy], [iso_tx_exit],
      [iso_rx_exit]) frees what Ownership says is held.
    - Direct: direct.c, the hooks of the build for one device.
    - Bridge: bridge.c, the hooks of the build for a bridge.
    - Main: main.c, [iso_stats_init] and [iso_stats_exit], in both builds.
    - Stats: the text of both statistics files (stats.c and the functions that
      print a class, a virtual queue, a rate limiter and a controller).
    - Monitor: tools/monitor/pimonitor.cc, which reads the file that Stats writes
      and prints rates, with the words of [fscanf], the fixed arrays, the two
      samples and double-precision arithmetic.
    - World: several devices, the control files, packets, timers, attachments and
      deletions of the discipline in any order.

    ** How the code is rendered

    A struct is a record; a pointer is an address in a [gmap] heap and a
    dereference of an address that is not there is an [Oops], as are a division
    by zero, a NULL dereference and a write past an array.  A per-CPU variable is
    a function of the CPU number.  A w-bit C integer is a [Z], with [u32], [u64], [s32], [s64] at the
    places where C converts or can wrap, and division as C's.  A list or hash
    chain of the kernel is the list of the addresses on it.  A function of C
    that returns through several effects becomes a function of the state to
    [outcome] of the state.

    A call is atomic on its CPU: the locks and the disabled bottom halves of the
    source make it so for the data that one CPU owns.  What other CPUs decide
    is read from an environment: in Dequeue the class [Oracle] gives the clock
    and whether a try-lock succeeds at every use, and [iso_rc_rx] takes the
    effect of the other CPUs between its first test and the lock as an argument.
    The tests that other functions repeat under a lock are there as in the source; with atomic
    calls they agree with the first ones.  The handlers of the control files run
    one after the other: one that finds [config_mutex] taken sleeps, and returns only
    if a signal interrupts it ([sys_signal]).

    ** Fuel

    Loops over lists are structural.  [iso_rl_dequeue] recurses from a limiter
    to its parent and the class's limiter has none, so two levels are enough.
    Its inner loop takes a packet off per round and its fuel is the length of
    the queue.  The tasklet stops once its counter passes 500, and the counter grows by
    two per round, so 251 rounds are enough.  The theorems of Device,
    TxPath and Host prove that these calls return a value, so the fuel is never
    what ends a loop.

    ** Theorems

    - Isolation and progress of the transmit queues (Device): a class
      never exceeds its highest rate times the elapsed time plus the tokens it
      started with; no queue with packets is forgotten; the hierarchy is a FIFO;
      byte counts are exact; the tasklet serves the
      active list in turns.
    - Safety of both packet paths and of every interleaving of them with the
      timers, the tasklets, the allocator and the commands that create and
      configure (TxPath, Host, Module), and of all devices of a machine
      together with the attachment and the deletion of disciplines and with lines that
      are refused (World); the one fault that can happen is characterised exactly, and the
      settings change only by commands.  These theorems are about lines whose words fit
      the handlers' arrays and exclude the deletions, the virtual-queue weight 0, a virtual
      queue without per-CPU memory, a malformed recompute_dev line and the attachments whose error
      path faults: each of those is the subject of a theorem of its own (Delete,
      CommandLine, Qdisc).
    - Refinement: a command line does to the named device what the abstract
      command says (CommandLine); the hashed lookups are linear searches
      (Config).
    - Termination of the transmit loops (Termination).
    - Teardown: after any run, every object of a device is freed exactly once
      (Ownership, Teardown).
    - The monitor (Monitor): on the files that the module writes it reports the
      differences of the samples, class by class; on any other text it stops.
    - The life of a device under the discipline (Qdisc): attaching it gives a
      device that satisfies the invariant of the control plane; what a failed
      attempt leaves; where a packet ends in either direction.
    - Loading and unloading (Main): all registrations or none.
    - The statistics files (Stats): reading them does not fault, and the rows of
      the program-friendly one can be read back.
    - Control laws with their bounds and their wrap-around (RateControl,
      VirtualQueue, Tx, Rx), and division of the capacity without
      oversubscription (VqTable, Tx).
    - Tables as finite maps, round trips of the class syntax and of feedback
      packets (VqTable, TxPath, Class, ClassVariants, Packet).
    - Behaviour that the code does not mean to have, as theorems about the same
      definitions: a lookup that confuses destinations of a bucket or returns
      a list head as a state, freed memory left reachable by the deletions,
      divisions by a zero weight, subtractions that wrap, a mutex that is not
      released, arrays that are overrun, an error path that crashes, a GSO size
      that is not restored.

    ** Not modelled

    The install functions of tx.c for the builds that classify by device or by
    Ethernet address, which call [iso_txc_find] and [iso_txc_alloc] without the
    context and do not compile, and [iso_search_netdev] of the build without the
    discipline, which names a variable that params.c does not declare; the loop
    over destination states that [iso_txc_show] prints only under PERDESTSTATE;
    the locks of the driver's queues; the callbacks of qdisc.c that do nothing
    ([eyeq_local_init], [eyeq_local_destroy], [iso_dequeue], [mq_put]); the tables
    of callbacks that stats.c and qdisc.c give to the kernel, and the kernel's
    sysctl, seq_file and queueing-discipline cores beyond what is stated where
    they are used; the scripts.  Concurrency is modelled as the order of atomic
    calls, with the exceptions above. *)

From Stdlib Require Export ZArith Lia Bool.
From stdpp Require Export base list gmap.

#[export] Set Default Goal Selector "!".

Open Scope Z_scope.

(** ** Machine integers

    A C integer is a [Z]; every place where the C abstract machine converts or
    computes at a width applies the wrap of that width.  The kernel is built
    with wrapping signed arithmetic, so [int] overflow is two's complement. *)

Definition two8 : Z := 256.
Definition two16 : Z := 65536.
Definition two31 : Z := 2147483648.
Definition two32 : Z := 4294967296.
Definition two63 : Z := 9223372036854775808.
Definition two64 : Z := 18446744073709551616.

Definition u8 (x : Z) : Z := x mod 256.
Definition u16 (x : Z) : Z := x mod 65536.
Definition u32 (x : Z) : Z := x mod 4294967296.
Definition u64 (x : Z) : Z := x mod 18446744073709551616.
Definition s32 (x : Z) : Z := (x + 2147483648) mod 4294967296 - 2147483648.
Definition s64 (x : Z) : Z :=
  (x + 9223372036854775808) mod 18446744073709551616 - 9223372036854775808.

Definition is_u8 (x : Z) : Prop := 0 <= x < 256.
Definition is_u16 (x : Z) : Prop := 0 <= x < 65536.
Definition is_u32 (x : Z) : Prop := 0 <= x < 4294967296.
Definition is_u64 (x : Z) : Prop := 0 <= x < 18446744073709551616.
Definition is_s32 (x : Z) : Prop := -2147483648 <= x < 2147483648.
Definition is_s64 (x : Z) : Prop :=
  -9223372036854775808 <= x < 9223372036854775808.

(** C's [max]/[min] at a given type: [min_t(type, x, y)] converts both sides. *)
Definition min_t (conv : Z -> Z) (x y : Z) : Z := Z.min (conv x) (conv y).
Definition max_t (conv : Z -> Z) (x y : Z) : Z := Z.max (conv x) (conv y).

Lemma u8_range x : is_u8 (u8 x).
Proof. apply Z.mod_pos_bound. reflexivity. Qed.
Lemma u16_range x : is_u16 (u16 x).
Proof. apply Z.mod_pos_bound. reflexivity. Qed.
Lemma u32_range x : is_u32 (u32 x).
Proof. apply Z.mod_pos_bound. reflexivity. Qed.
Lemma u64_range x : is_u64 (u64 x).
Proof. apply Z.mod_pos_bound. reflexivity. Qed.
Lemma s32_range x : is_s32 (s32 x).
Proof.
  unfold is_s32, s32.
  pose proof (Z.mod_pos_bound (x + 2147483648) 4294967296 eq_refl). lia.
Qed.
Lemma s64_range x : is_s64 (s64 x).
Proof.
  unfold is_s64, s64.
  pose proof (Z.mod_pos_bound (x + 9223372036854775808) 18446744073709551616 eq_refl).
  lia.
Qed.

Lemma u8_small x : 0 <= x < 256 -> u8 x = x.
Proof. apply Z.mod_small. Qed.
Lemma u16_small x : 0 <= x < 65536 -> u16 x = x.
Proof. apply Z.mod_small. Qed.
Lemma u32_small x : 0 <= x < 4294967296 -> u32 x = x.
Proof. apply Z.mod_small. Qed.
Lemma u64_small x : 0 <= x < 18446744073709551616 -> u64 x = x.
Proof. apply Z.mod_small. Qed.
Lemma s32_small x : -2147483648 <= x < 2147483648 -> s32 x = x.
Proof. intros H. unfold s32. rewrite Z.mod_small; lia. Qed.
Lemma s64_small x :
  -9223372036854775808 <= x < 9223372036854775808 -> s64 x = x.
Proof. intros H. unfold s64. rewrite Z.mod_small; lia. Qed.

Lemma u64_neg x : -18446744073709551616 <= x < 0 -> u64 x = x + 18446744073709551616.
Proof.
  intros H. unfold u64. rewrite <- (Z.mod_add x 1 18446744073709551616) by lia.
  rewrite Z.mod_small; lia.
Qed.

Lemma u32_neg x : -4294967296 <= x < 0 -> u32 x = x + 4294967296.
Proof.
  intros H. unfold u32. rewrite <- (Z.mod_add x 1 4294967296) by lia.
  rewrite Z.mod_small; lia.
Qed.

Lemma u32_le_self x : 0 <= x -> u32 x <= x.
Proof. intros. apply Z.mod_le; lia. Qed.
Lemma u64_le_self x : 0 <= x -> u64 x <= x.
Proof. intros. apply Z.mod_le; lia. Qed.

Lemma u32_idem x : u32 (u32 x) = u32 x.
Proof. apply u32_small, u32_range. Qed.
Lemma u64_idem x : u64 (u64 x) = u64 x.
Proof. apply u64_small, u64_range. Qed.

Lemma u64_add_l a b : u64 (u64 a + b) = u64 (a + b).
Proof. unfold u64. apply Zplus_mod_idemp_l. Qed.
Lemma u64_add_r a b : u64 (a + u64 b) = u64 (a + b).
Proof. unfold u64. apply Zplus_mod_idemp_r. Qed.
Lemma u64_sub_l a b : u64 (u64 a - b) = u64 (a - b).
Proof. unfold u64. apply Zminus_mod_idemp_l. Qed.
Lemma u64_sub_r a b : u64 (a - u64 b) = u64 (a - b).
Proof. unfold u64. apply Zminus_mod_idemp_r. Qed.
Lemma u32_add_l a b : u32 (u32 a + b) = u32 (a + b).
Proof. unfold u32. apply Zplus_mod_idemp_l. Qed.
Lemma u32_add_r a b : u32 (a + u32 b) = u32 (a + b).
Proof. unfold u32. apply Zplus_mod_idemp_r. Qed.

Global Opaque u8 u16 u32 u64 s32 s64.

(** [wrap] removes every wrap whose argument [lia] sees to be in range;
    [ranges] adds the range of every remaining wrap to the context. *)
Ltac wrap1 :=
  match goal with
  | |- context [u8 ?x] => rewrite (u8_small x) by lia
  | |- context [u16 ?x] => rewrite (u16_small x) by lia
  | |- context [u32 ?x] => rewrite (u32_small x) by lia
  | |- context [u64 ?x] => rewrite (u64_small x) by lia
  | |- context [s32 ?x] => rewrite (s32_small x) by lia
  | |- context [s64 ?x] => rewrite (s64_small x) by lia
  end.
Ltac wrap := repeat wrap1.

Ltac range_of t H :=
  lazymatch goal with
  | _ : H |- _ => fail
  | _ => assert H by t
  end.
Ltac ranges1 :=
  match goal with
  | |- context [u8 ?x] => range_of ltac:(apply u8_range) (is_u8 (u8 x))
  | |- context [u16 ?x] => range_of ltac:(apply u16_range) (is_u16 (u16 x))
  | |- context [u32 ?x] => range_of ltac:(apply u32_range) (is_u32 (u32 x))
  | |- context [u64 ?x] => range_of ltac:(apply u64_range) (is_u64 (u64 x))
  | |- context [s32 ?x] => range_of ltac:(apply s32_range) (is_s32 (s32 x))
  | |- context [s64 ?x] => range_of ltac:(apply s64_range) (is_s64 (s64 x))
  end.
Ltac ranges :=
  repeat ranges1;
  unfold is_u8, is_u16, is_u32, is_u64, is_s32, is_s64 in *.

(** Case analysis on the boolean tests of [Z] that the code branches on. *)
Ltac zcase1 :=
  match goal with
  | |- context [Z.ltb ?a ?b] => destruct (Z.ltb_spec a b)
  | |- context [Z.leb ?a ?b] => destruct (Z.leb_spec a b)
  | |- context [Z.eqb ?a ?b] => destruct (Z.eqb_spec a b)
  end; cbn [andb orb negb].
Ltac zcases := repeat zcase1.

Create HintDb eyeq.
Create Rewrite HintDb eyeq.
#[export] Hint Resolve u8_range u16_range u32_range u64_range s32_range s64_range : eyeq.
#[export] Hint Rewrite u32_idem u64_idem u64_add_l u64_add_r u64_sub_l u64_sub_r
  u32_add_l u32_add_r : eyeq.

(** ** Bitwise bounds *)

Lemma lor_lt_pow2 k x y :
  0 <= k -> 0 <= x < 2 ^ k -> 0 <= y < 2 ^ k -> 0 <= Z.lor x y < 2 ^ k.
Proof.
  intros Hk Hx Hy.
  assert (Hn : 0 <= Z.lor x y) by (apply Z.lor_nonneg; lia).
  split; [done|].
  assert (Hlog : forall z, 0 <= z < 2 ^ k -> 0 < z -> Z.log2 z < k).
  { intros z Hz Hp. apply Z.log2_lt_pow2; lia. }
  destruct (Z.eq_dec x 0) as [->|Hx0]; [rewrite Z.lor_0_l; lia|].
  destruct (Z.eq_dec y 0) as [->|Hy0]; [rewrite Z.lor_0_r; lia|].
  apply Z.log2_lt_pow2; [apply Z.le_neq; split; [done|]|].
  - intros E. symmetry in E. apply Z.lor_eq_0_iff in E. lia.
  - rewrite Z.log2_lor by lia. apply Z.max_lub_lt; apply Hlog; lia.
Qed.

Lemma lor_land_absorb x y : Z.lor x (Z.land x y) = x.
Proof.
  apply Z.bits_inj'. intros n _. rewrite Z.lor_spec, Z.land_spec.
  by destruct (Z.testbit x n).
Qed.

Lemma land_lor_absorb x y : Z.land (Z.lor x y) y = y.
Proof.
  apply Z.bits_inj'. intros n _. rewrite Z.land_spec, Z.lor_spec.
  by destruct (Z.testbit x n), (Z.testbit y n).
Qed.

(** ** Faults

    A kernel computation returns a value or stops in one of the ways the
    processor or the memory system stops it, or sleeps for ever. *)

Inductive fault :=
| DivideError     (** integer division by zero *)
| BadPointer      (** dereference of NULL, of freed memory or of a pointer
                      that is not the address of an object of the type *)
| StackSmash      (** a write past the end of a local array *)
| Uninitialised   (** a read of a local variable before it is written *)
| Asleep          (** a sleep on a taken semaphore that no signal interrupts *)
| OutOfFuel.      (** the model's iteration bound; the theorems show it is never reached *)

Inductive outcome (A : Type) :=
| Ok (a : A)
| Oops (f : fault).
Arguments Ok {A} a.
Arguments Oops {A} f.

#[export] Instance outcome_ret : MRet outcome := fun _ a => Ok a.
#[export] Instance outcome_bind : MBind outcome := fun _ _ k c =>
  match c with Ok a => k a | Oops f => Oops f end.

Lemma bind_ok {A B} (c : outcome A) (k : A -> outcome B) b :
  (c ≫= k) = Ok b <-> exists a, c = Ok a /\ k a = Ok b.
Proof.
  destruct c as [a|f]; cbn.
  - split; [eauto|]. intros (a' & [= <-] & H). exact H.
  - split; [discriminate|]. intros (a' & H & _). discriminate.
Qed.

(** C's [/] on operands that are already converted to the common unsigned
    type (truncation and floor agree on it). *)
Definition div_u (a b : Z) : outcome Z :=
  if b =? 0 then Oops DivideError else Ok (a / b).

Lemma div_u_ok a b : b <> 0 -> div_u a b = Ok (a / b).
Proof. intros H. unfold div_u. destruct (Z.eqb_spec b 0); [contradiction|done]. Qed.

(** ** Per-CPU data: one instance for every CPU number *)

Definition percpu (A : Type) : Type := nat -> A.

Definition pc_set {A} (i : nat) (v : A) (m : percpu A) : percpu A :=
  fun j => if Nat.eqb j i then v else m j.

Lemma pc_set_eq {A} i (v : A) m : pc_set i v m i = v.
Proof. unfold pc_set. by rewrite Nat.eqb_refl. Qed.
Lemma pc_set_ne {A} i j (v : A) m : j <> i -> pc_set i v m j = m j.
Proof. intros H. unfold pc_set. by destruct (Nat.eqb_spec j i). Qed.

#[export] Hint Rewrite @pc_set_eq : eyeq.

(** A [for_each_cpu] loop that rewrites each CPU's instance with [f]. *)
Definition pc_update {A} (f : A -> A) (cpus : list nat) (m : percpu A) : percpu A :=
  fold_left (fun m i => pc_set i (f (m i)) m) cpus m.

Lemma pc_update_notin {A} (f : A -> A) cpus m j : j ∉ cpus -> pc_update f cpus m j = m j.
Proof.
  unfold pc_update. revert m. induction cpus as [|i cpus IH]; intros m Hj; [done|].
  cbn. rewrite not_elem_of_cons in Hj. destruct Hj as [Hne Hj].
  rewrite IH by done. by apply pc_set_ne.
Qed.

Lemma pc_update_in {A} (f : A -> A) cpus m j :
  NoDup cpus -> j ∈ cpus -> pc_update f cpus m j = f (m j).
Proof.
  unfold pc_update. revert m. induction cpus as [|i cpus IH]; intros m Hnd Hj.
  - by apply not_elem_of_nil in Hj.
  - cbn. apply NoDup_cons in Hnd as [Hni Hnd].
    destruct (decide (j = i)) as [->|Hne].
    + pose proof (pc_update_notin f cpus (pc_set i (f (m i)) m) i Hni) as H.
      unfold pc_update in H. rewrite H. apply pc_set_eq.
    + apply elem_of_cons in Hj as [|Hj]; [done|]. rewrite IH by done. by rewrite pc_set_ne.
Qed.

(** [for_each_cpu(i) acc += f(ptr(i))] at a width. *)
Definition pc_sum {A} (wrapw : Z -> Z) (f : A -> Z) (m : percpu A) (cpus : list nat) : Z :=
  fold_left (fun acc i => wrapw (acc + f (m i))) cpus 0.

(** ** Sums over lists *)

Fixpoint sumZ (l : list Z) : Z :=
  match l with [] => 0 | x :: l' => x + sumZ l' end.

Lemma sumZ_app l1 l2 : sumZ (l1 ++ l2) = sumZ l1 + sumZ l2.
Proof. induction l1; cbn; lia. Qed.

Lemma sumZ_map_le {A} (f g : A -> Z) l :
  (forall x, x ∈ l -> f x <= g x) -> sumZ (map f l) <= sumZ (map g l).
Proof.
  induction l as [|x l IH]; intros H; cbn; [lia|].
  pose proof (H x (list_elem_of_here x l)).
  specialize (IH ltac:(intros; apply H; by apply list_elem_of_further)). lia.
Qed.

Lemma sumZ_nonneg l : Forall (fun x => 0 <= x) l -> 0 <= sumZ l.
Proof. induction 1; cbn; lia. Qed.

Lemma elem_le_sumZ x l : Forall (fun y => 0 <= y) l -> x ∈ l -> x <= sumZ l.
Proof.
  intros Hl. induction Hl as [|y l Hy Hl IH]; intros Hx; [by apply not_elem_of_nil in Hx|].
  pose proof (sumZ_nonneg _ Hl). cbn. apply elem_of_cons in Hx as [->|Hx]; [lia|]. specialize (IH Hx). lia.
Qed.

Lemma fold_left_u64_sum {A} (f : A -> Z) l acc :
  fold_left (fun a x => u64 (a + f x)) l (u64 acc) = u64 (acc + sumZ (map f l)).
Proof.
  revert acc. induction l as [|x l IH]; intros acc; cbn.
  - f_equal. lia.
  - rewrite u64_add_l, IH. f_equal. lia.
Qed.

Lemma fold_left_u32_sum {A} (f : A -> Z) l acc :
  fold_left (fun a x => u32 (a + f x)) l (u32 acc) = u32 (acc + sumZ (map f l)).
Proof.
  revert acc. induction l as [|x l IH]; intros acc; cbn.
  - f_equal. lia.
  - rewrite u32_add_l, IH. f_equal. lia.
Qed.

Lemma pc_sum_u64 {A} (f : A -> Z) (m : percpu A) cpus :
  pc_sum u64 f m cpus = u64 (sumZ (map (fun i => f (m i)) cpus)).
Proof.
  unfold pc_sum. replace 0 with (u64 0) at 1 by (apply u64_small; lia).
  by rewrite (fold_left_u64_sum (fun i => f (m i))).
Qed.

Lemma pc_sum_u32 {A} (f : A -> Z) (m : percpu A) cpus :
  pc_sum u32 f m cpus = u32 (sumZ (map (fun i => f (m i)) cpus)).
Proof.
  unfold pc_sum. replace 0 with (u32 0) at 1 by (apply u32_small; lia).
  by rewrite (fold_left_u32_sum (fun i => f (m i))).
Qed.

(** ** The heap

    Objects live in finite maps from addresses; a pointer that is not in the
    domain (NULL, freed, or never the address of such an object) faults when it
    is dereferenced. *)

Abbreviation loc := positive.

Definition deref `{Countable L} {A} (h : gmap L A) (p : L) : outcome A :=
  match h !! p with Some v => Ok v | None => Oops BadPointer end.

Lemma deref_ok `{Countable L} {A} (h : gmap L A) p v : h !! p = Some v -> deref h p = Ok v.
Proof. unfold deref. by intros ->. Qed.

(** A loop that may stop with a fault. *)
Fixpoint foldM {A B} (f : B -> A -> outcome B) (l : list A) (b : B) : outcome B :=
  match l with
  | [] => mret b
  | a :: l' => b' ← f b a; foldM f l' b'
  end.

Lemma foldM_app {A B} (f : B -> A -> outcome B) l1 l2 b :
  foldM f (l1 ++ l2) b = (b' ← foldM f l1 b; foldM f l2 b').
Proof.
  revert b. induction l1 as [|a l1 IH]; intros b; [done|]. cbn.
  destruct (f b a); cbn; [apply IH|done].
Qed.

(** [list_for_each_entry(p, l)] with a body that rewrites the object at [p]. *)
Definition for_each_ptr {A} (g : A -> outcome A) (l : list loc) (h : gmap loc A)
    : outcome (gmap loc A) :=
  foldM (fun h p => v ← deref h p; v' ← g v; mret (<[p := v']> h)) l h.

Definition live {A} (h : gmap loc A) (l : list loc) : Prop :=
  Forall (fun p => is_Some (h !! p)) l.

Lemma live_lookup {A} (h : gmap loc A) l p : live h l -> p ∈ l -> is_Some (h !! p).
Proof. unfold live. rewrite Forall_forall. auto. Qed.

Lemma live_insert {A} (h : gmap loc A) l p v : live h l -> live (<[p := v]> h) l.
Proof.
  unfold live. rewrite !Forall_forall. intros H q Hq. destruct (decide (p = q)) as [->|].
  - rewrite lookup_insert_eq. eauto.
  - rewrite lookup_insert_ne by done. auto.
Qed.

Lemma for_each_ptr_spec {A} (g : A -> outcome A) (g' : A -> A) l (h : gmap loc A) :
  NoDup l -> live h l -> (forall p v, p ∈ l -> h !! p = Some v -> g v = Ok (g' v)) ->
  exists h', for_each_ptr g l h = Ok h' /\
    forall p, h' !! p = if decide (p ∈ l) then g' <$> h !! p else h !! p.
Proof.
  unfold for_each_ptr. revert h. induction l as [|q l IH]; intros h Hnd Hlive Hg.
  - exists h. split; [done|]. intros p. rewrite decide_False; [done|]. apply not_elem_of_nil.
  - apply NoDup_cons in Hnd as [Hq Hnd]. apply Forall_cons in Hlive as [[v Hv] Hlive].
    cbn. rewrite (deref_ok h q v) by done. cbn.
    rewrite (Hg q v) by (done || by apply list_elem_of_here). cbn.
    destruct (IH (<[q := g' v]> h)) as (h' & Heq & Hh').
    + done.
    + by apply live_insert.
    + intros p w Hp. assert (p <> q) by (intros ->; done). rewrite lookup_insert_ne by done.
      intros Hw. apply (Hg p); [by apply list_elem_of_further|done].
    + exists h'. split; [done|]. intros p. rewrite Hh'.
      destruct (decide (p = q)) as [->|Hne].
      * rewrite decide_False by done. rewrite decide_True by apply list_elem_of_here.
        by rewrite lookup_insert_eq, Hv.
      * rewrite lookup_insert_ne by done.
        destruct (decide (p ∈ l)) as [Hin|Hin].
        -- by rewrite decide_True by (by apply list_elem_of_further).
        -- rewrite decide_False; [done|]. by rewrite not_elem_of_cons.
Qed.

(** The sum of [g] over the objects of a list. *)
Definition heap_sum {A} (g : A -> Z) (h : gmap loc A) (l : list loc) : Z :=
  sumZ (map (fun p => match h !! p with Some v => g v | None => 0 end) l).

Lemma heap_sum_ext {A B} (g : A -> Z) (g' : B -> Z) (h : gmap loc A) (h' : gmap loc B) l :
  (forall p, p ∈ l -> g <$> h !! p = g' <$> h' !! p) -> heap_sum g h l = heap_sum g' h' l.
Proof.
  intros E. unfold heap_sum. f_equal. apply map_ext_in. intros p Hp%list_elem_of_In. specialize (E p Hp).
  destruct (h !! p), (h' !! p); cbn in E; congruence.
Qed.

(** Rewriting one object changes the sum by the difference. *)
Lemma heap_sum_insert {A} (g : A -> Z) (h : gmap loc A) l p v v' :
  NoDup l -> p ∈ l -> h !! p = Some v -> heap_sum g (<[p := v']> h) l = heap_sum g h l - g v + g v'.
Proof.
  intros Hnd Hp Hv. induction Hnd as [|q l Hq Hnd IH]; [by apply not_elem_of_nil in Hp|].
  unfold heap_sum in *. cbn [map sumZ]. destruct (decide (q = p)) as [->|Hne].
  - rewrite lookup_insert_eq, Hv. pose proof (heap_sum_ext g g (<[p := v']> h) h l) as E.
    unfold heap_sum in E. rewrite E; [lia|]. intros r Hr. rewrite lookup_insert_ne; [done|]. congruence.
  - rewrite lookup_insert_ne by done. apply elem_of_cons in Hp as [?|Hp]; [done|]. rewrite (IH Hp). lia.
Qed.

Lemma heap_sum_app {A} (g : A -> Z) (h : gmap loc A) l1 l2 :
  heap_sum g h (l1 ++ l2) = heap_sum g h l1 + heap_sum g h l2.
Proof. unfold heap_sum. by rewrite map_app, sumZ_app. Qed.

Lemma heap_sum_bounds {A} (g : A -> Z) (h : gmap loc A) l a :
  (forall p v, p ∈ l -> h !! p = Some v -> 0 <= g v <= a) -> 0 <= a ->
  0 <= heap_sum g h l <= a * Z.of_nat (length l).
Proof.
  intros Hg Ha. unfold heap_sum. induction l as [|p l IH]; cbn [map sumZ length]; [lia|].
  specialize (IH ltac:(intros q v Hq; apply Hg; by apply list_elem_of_further)).
  destruct (h !! p) as [v|] eqn:Hv; [|lia]. specialize (Hg p v (list_elem_of_here _ _) Hv). lia.
Qed.

(** ** Integer shares *)

(** Flooring each share of [d] never gives out more than [d]. *)
Lemma sum_shares_le d (ws : list Z) W :
  0 < W -> 0 <= d -> sumZ ws <= W -> Forall (fun w => 0 <= w) ws ->
  sumZ (map (fun w => d * w / W) ws) <= d.
Proof.
  intros HW Hd Hsum Hall.
  enough (W * sumZ (map (fun w => d * w / W) ws) <= d * sumZ ws) by nia.
  clear Hsum. induction Hall as [|w ws Hw Hall IH]; cbn; [lia|].
  pose proof (Z.mul_div_le (d * w) W HW). lia.
Qed.

(** ... and loses less than one unit per share. *)
Lemma sum_shares_ge d (ws : list Z) W :
  0 < W -> 0 <= d -> sumZ ws = W -> Forall (fun w => 0 <= w) ws ->
  d < sumZ (map (fun w => d * w / W) ws) + Z.of_nat (length ws) \/ ws = [].
Proof.
  intros HW Hd Hsum Hall. destruct ws as [|w0 ws0]; [by right|left].
  remember (w0 :: ws0) as ws eqn:E. assert (Hlen : (1 <= length ws)%nat) by (subst; cbn; lia).
  clear E w0 ws0.
  enough (d * sumZ ws < W * (sumZ (map (fun w => d * w / W) ws) + Z.of_nat (length ws))) by nia.
  clear Hsum. revert Hlen. induction Hall as [|w ws Hw Hall IH]; cbn; [lia|]. intros _.
  pose proof (Z.mod_pos_bound (d * w) W HW). pose proof (Z_div_mod_eq_full (d * w) W).
  destruct ws as [|w1 ws1]; [cbn; lia|].
  specialize (IH ltac:(cbn; lia)). cbn [length] in *. lia.
Qed.
