(* ===== verification/Params.v ===== *)
(** * Tunables and constants (params.h, the declarations of params.c)

    The tunables are C globals that the administrator can write at run time.
    They are the fields of the class [params]; code that reads a tunable is
    parametric in the instance, so every theorem holds for the values current
    at the call.  [default_params] is the initialisation of params.c. *)

From stdpp Require Import strings.
From S2P Require Import Prelude.

Open Scope Z_scope.

Class params := {
  ISO_FALPHA : Z;
  ISO_MAX_TX_RATE : Z;
  ISO_VQ_DRAIN_RATE_MBPS : Z;
  ISO_MAX_BURST_TIME_US : Z;
  ISO_MIN_BURST_BYTES : Z;
  ISO_RATEMEASURE_INTERVAL_US : Z;
  ISO_TOKENBUCKET_TIMEOUT_NS : Z;
  ISO_TOKENBUCKET_MARK_THRESH_BYTES : Z;
  ISO_TOKENBUCKET_DROP_THRESH_BYTES : Z;
  ISO_VQ_MARK_THRESH_BYTES : Z;
  ISO_VQ_MAX_BYTES : Z;
  ISO_RFAIR_INITIAL : Z;
  ISO_MIN_RFAIR : Z;
  ISO_RFAIR_INCREMENT : Z;
  ISO_RFAIR_DECREASE_INTERVAL_US : Z;
  ISO_RFAIR_INCREASE_INTERVAL_US : Z;
  ISO_RFAIR_FEEDBACK_TIMEOUT_US : Z;
  ISO_RFAIR_FEEDBACK_TIMEOUT_DEFAULT_RATE : Z;
  IsoGlobalEnabled : Z;
  IsoAutoGenerateFeedback : Z;
  ISO_FEEDBACK_INTERVAL_US : Z;
  ISO_FEEDBACK_INTERVAL_BYTES : Z;
  ISO_FEEDBACK_PACKET_IPPROTO : Z;
  ISO_RL_UPDATE_INTERVAL_US : Z;
  ISO_BURST_FACTOR : Z;
  ISO_VQ_UPDATE_INTERVAL_US : Z;
  ISO_TXC_UPDATE_INTERVAL_US : Z;
  ISO_VQ_REFRESH_INTERVAL_US : Z;
  ISO_MAX_QUEUE_LEN_BYTES : Z;
  ISO_TX_MARK_THRESH : Z;
  ISO_GSO_THRESH_RATE : Z;
  ISO_GSO_MIN_SPLIT_BYTES : Z;
  ISO_ECN_MARK_THRESH_BYTES : Z;
  ISO_VQ_HRCP_US : Z
}.

Definition default_params : params := {|
  ISO_FALPHA := 8;
  ISO_MAX_TX_RATE := 9800;
  ISO_VQ_DRAIN_RATE_MBPS := 9000;
  ISO_MAX_BURST_TIME_US := 150;
  ISO_MIN_BURST_BYTES := 65536;
  ISO_RATEMEASURE_INTERVAL_US := 1000 * 100;
  ISO_TOKENBUCKET_TIMEOUT_NS := 50 * 1000;
  ISO_TOKENBUCKET_MARK_THRESH_BYTES := 512 * 1024;
  ISO_TOKENBUCKET_DROP_THRESH_BYTES := 512 * 1024;
  ISO_VQ_MARK_THRESH_BYTES := 128 * 1024;
  ISO_VQ_MAX_BYTES := 256 * 1024;
  ISO_RFAIR_INITIAL := 5000;
  ISO_MIN_RFAIR := 10;
  ISO_RFAIR_INCREMENT := 10;
  ISO_RFAIR_DECREASE_INTERVAL_US := 120;
  ISO_RFAIR_INCREASE_INTERVAL_US := 120;
  ISO_RFAIR_FEEDBACK_TIMEOUT_US := 1000 * 1000;
  ISO_RFAIR_FEEDBACK_TIMEOUT_DEFAULT_RATE := 10;
  IsoGlobalEnabled := 1;
  IsoAutoGenerateFeedback := 1;
  ISO_FEEDBACK_INTERVAL_US := 100;
  ISO_FEEDBACK_INTERVAL_BYTES := 10000;
  ISO_FEEDBACK_PACKET_IPPROTO := 143;
  ISO_RL_UPDATE_INTERVAL_US := 20;
  ISO_BURST_FACTOR := 8;
  ISO_VQ_UPDATE_INTERVAL_US := 200;
  ISO_TXC_UPDATE_INTERVAL_US := 200;
  ISO_VQ_REFRESH_INTERVAL_US := 500;
  ISO_MAX_QUEUE_LEN_BYTES := 128 * 1024;
  ISO_TX_MARK_THRESH := 100 * 1024;
  ISO_GSO_THRESH_RATE := 1000;
  ISO_GSO_MIN_SPLIT_BYTES := 10000;
  ISO_ECN_MARK_THRESH_BYTES := 30 * 1500;
  ISO_VQ_HRCP_US := 1000
|}.

Definition ISO_FEEDBACK_PACKET_SIZE : Z := 64.
Definition ISO_FEEDBACK_HEADER_SIZE : Z := 20.
Definition ISO_FEEDBACK_PACKET_TTL : Z := 64.

Definition ISO_MAX_TX_BUCKETS : Z := 256.
Definition ISO_MAX_RL_BUCKETS : Z := 256.
Definition ISO_MAX_STATE_BUCKETS : Z := 256.
Definition ISO_MAX_VQ_BUCKETS : Z := 256.

Definition ISO_IDLE_TIMEOUT_US : Z := 100 * 1000 * 10 * 1000.
Definition ISO_IDLE_RATE : Z := 2500.
Definition ISO_GSO_MAX_SIZE : Z := 32767.

(** The values under which the rate computations stay inside their C types:
    what the shipped configuration satisfies and what an administrator has to
    keep.  Each theorem that needs it says so. *)
Class params_ok {P : params} : Prop := {
  pok_min_rfair : 2 <= ISO_MIN_RFAIR <= 2500;
  pok_min_rfair_tx : ISO_MIN_RFAIR <= ISO_MAX_TX_RATE;
  pok_min_rfair_vq : ISO_MIN_RFAIR <= ISO_VQ_DRAIN_RATE_MBPS;
  pok_max_tx : ISO_MAX_TX_RATE <= 20000;
  pok_drain : ISO_VQ_DRAIN_RATE_MBPS <= ISO_MAX_TX_RATE;
  pok_initial : ISO_MIN_RFAIR <= ISO_RFAIR_INITIAL <= ISO_MAX_TX_RATE;
  pok_increment : 0 <= ISO_RFAIR_INCREMENT <= 20000;
  pok_burst : 0 <= ISO_MAX_BURST_TIME_US <= 10000;
  pok_burst_factor : 0 < ISO_BURST_FACTOR <= 1024;
  pok_min_burst : 0 < ISO_MIN_BURST_BYTES <= 1048576;
  pok_queue : 0 < ISO_MAX_QUEUE_LEN_BYTES <= 16777216;
  pok_vq_int : 0 < ISO_VQ_UPDATE_INTERVAL_US < 2147483648;
  pok_txc_int : 0 < ISO_TXC_UPDATE_INTERVAL_US < 2147483648;
  pok_dec_int : 0 < ISO_RFAIR_DECREASE_INTERVAL_US < 2147483648;
  pok_inc_int : 0 < ISO_RFAIR_INCREASE_INTERVAL_US < 2147483648;
  pok_rl_int : 0 <= ISO_RL_UPDATE_INTERVAL_US < 2147483648;
  pok_ecn : 0 <= ISO_ECN_MARK_THRESH_BYTES <= 131072
}.
Arguments params_ok P : clear implicits.

#[export] Instance default_params_ok : params_ok default_params.
Proof. split; cbn; lia. Qed.

(** Puts the bounds on the tunables into the context. *)
Ltac param_fact L := let H := fresh "Hpar" in pose proof L as H.
Ltac pok :=
  match goal with
  | PO : params_ok ?P |- _ =>
      param_fact (@pok_min_rfair P PO);
      param_fact (@pok_min_rfair_tx P PO);
      param_fact (@pok_min_rfair_vq P PO);
      param_fact (@pok_max_tx P PO);
      param_fact (@pok_drain P PO);
      param_fact (@pok_initial P PO);
      param_fact (@pok_increment P PO);
      param_fact (@pok_burst P PO);
      param_fact (@pok_burst_factor P PO);
      param_fact (@pok_min_burst P PO);
      param_fact (@pok_queue P PO);
      param_fact (@pok_vq_int P PO);
      param_fact (@pok_txc_int P PO);
      param_fact (@pok_dec_int P PO);
      param_fact (@pok_inc_int P PO);
      param_fact (@pok_rl_int P PO);
      param_fact (@pok_ecn P PO)
  end.

(** ** The sysctl table *)

(** A pointer to a tunable ([int *ptr]). *)
Inductive param_ptr :=
| p_ISO_MAX_TX_RATE | p_ISO_VQ_DRAIN_RATE_MBPS | p_ISO_MAX_BURST_TIME_US
| p_ISO_MIN_BURST_BYTES | p_ISO_RATEMEASURE_INTERVAL_US | p_ISO_TOKENBUCKET_TIMEOUT_NS
| p_ISO_TOKENBUCKET_MARK_THRESH_BYTES | p_ISO_TOKENBUCKET_DROP_THRESH_BYTES
| p_ISO_VQ_MARK_THRESH_BYTES | p_ISO_VQ_MAX_BYTES | p_ISO_RFAIR_INITIAL
| p_ISO_MIN_RFAIR | p_ISO_RFAIR_FEEDBACK_TIMEOUT_US
| p_ISO_RFAIR_FEEDBACK_TIMEOUT_DEFAULT_RATE | p_IsoGlobalEnabled
| p_IsoAutoGenerateFeedback | p_ISO_FEEDBACK_PACKET_IPPROTO | p_ISO_FEEDBACK_INTERVAL_US
| p_ISO_FEEDBACK_INTERVAL_BYTES | p_ISO_RL_UPDATE_INTERVAL_US | p_ISO_VQ_UPDATE_INTERVAL_US
| p_ISO_TXC_UPDATE_INTERVAL_US | p_ISO_VQ_REFRESH_INTERVAL_US | p_ISO_MAX_QUEUE_LEN_BYTES
| p_ISO_TX_MARK_THRESH | p_ISO_ECN_MARK_THRESH_BYTES | p_ISO_VQ_HRCP_US.

#[export] Instance param_ptr_eq_dec : EqDecision param_ptr.
Proof. solve_decision. Defined.

Record iso_param := { ip_name : string; ip_ptr : option param_ptr }.

Open Scope string_scope.

(** The initialised prefix of [struct iso_param iso_params[64]]; C zero-fills
    the rest of the array. *)
Definition iso_params_init_list : list iso_param := [
  {| ip_name := "ISO_MAX_TX_RATE"; ip_ptr := Some p_ISO_MAX_TX_RATE |};
  {| ip_name := "ISO_VQ_DRAIN_RATE_MBPS"; ip_ptr := Some p_ISO_VQ_DRAIN_RATE_MBPS |};
  {| ip_name := "ISO_MAX_BURST_TIME_US"; ip_ptr := Some p_ISO_MAX_BURST_TIME_US |};
  {| ip_name := "ISO_MIN_BURST_BYTES"; ip_ptr := Some p_ISO_MIN_BURST_BYTES |};
  {| ip_name := "ISO_RATEMEASURE_INTERVAL_US"; ip_ptr := Some p_ISO_RATEMEASURE_INTERVAL_US |};
  {| ip_name := "ISO_TOKENBUCKET_TIMEOUT_NS"; ip_ptr := Some p_ISO_TOKENBUCKET_TIMEOUT_NS |};
  {| ip_name := "ISO_TOKENBUCKET_MARK_THRESH_BYTES";
     ip_ptr := Some p_ISO_TOKENBUCKET_MARK_THRESH_BYTES |};
  {| ip_name := "ISO_TOKENBUCKET_DROP_THRESH_BYTES";
     ip_ptr := Some p_ISO_TOKENBUCKET_DROP_THRESH_BYTES |};
  {| ip_name := "ISO_VQ_MARK_THRESH_BYTES"; ip_ptr := Some p_ISO_VQ_MARK_THRESH_BYTES |};
  {| ip_name := "ISO_VQ_MAX_BYTES"; ip_ptr := Some p_ISO_VQ_MAX_BYTES |};
  {| ip_name := "ISO_RFAIR_INITIAL"; ip_ptr := Some p_ISO_RFAIR_INITIAL |};
  {| ip_name := "ISO_MIN_RFAIR"; ip_ptr := Some p_ISO_MIN_RFAIR |};
  {| ip_name := "ISO_RFAIR_FEEDBACK_TIMEOUT"; ip_ptr := Some p_ISO_RFAIR_FEEDBACK_TIMEOUT_US |};
  {| ip_name := "ISO_RFAIR_FEEDBACK_TIMEOUT_DEFAULT_RATE";
     ip_ptr := Some p_ISO_RFAIR_FEEDBACK_TIMEOUT_DEFAULT_RATE |};
  {| ip_name := "IsoGlobalEnabled"; ip_ptr := Some p_IsoGlobalEnabled |};
  {| ip_name := "IsoAutoGenerateFeedback"; ip_ptr := Some p_IsoAutoGenerateFeedback |};
  {| ip_name := "ISO_FEEDBACK_PACKET_IPPROTO"; ip_ptr := Some p_ISO_FEEDBACK_PACKET_IPPROTO |};
  {| ip_name := "ISO_FEEDBACK_INTERVAL_US"; ip_ptr := Some p_ISO_FEEDBACK_INTERVAL_US |};
  {| ip_name := "ISO_FEEDBACK_INTERVAL_BYTES"; ip_ptr := Some p_ISO_FEEDBACK_INTERVAL_BYTES |};
  {| ip_name := "ISO_RL_UPDATE_INTERVAL_US"; ip_ptr := Some p_ISO_RL_UPDATE_INTERVAL_US |};
  {| ip_name := "ISO_VQ_UPDATE_INTERVAL_US"; ip_ptr := Some p_ISO_VQ_UPDATE_INTERVAL_US |};
  {| ip_name := "ISO_TXC_UPDATE_INTERVAL_US"; ip_ptr := Some p_ISO_TXC_UPDATE_INTERVAL_US |};
  {| ip_name := "ISO_VQ_REFRESH_INTERVAL_US"; ip_ptr := Some p_ISO_VQ_REFRESH_INTERVAL_US |};
  {| ip_name := "ISO_MAX_QUEUE_LEN_BYTES"; ip_ptr := Some p_ISO_MAX_QUEUE_LEN_BYTES |};
  {| ip_name := "ISO_TX_MARK_THRESH"; ip_ptr := Some p_ISO_TX_MARK_THRESH |};
  {| ip_name := "ISO_ECN_MARK_THRESH_BYTES"; ip_ptr := Some p_ISO_ECN_MARK_THRESH_BYTES |};
  {| ip_name := "ISO_VQ_HRCP_US"; ip_ptr := Some p_ISO_VQ_HRCP_US |};
  {| ip_name := ""; ip_ptr := None |} ].

Definition iso_params : list iso_param :=
  iso_params_init_list ++
  replicate (64 - length iso_params_init_list) {| ip_name := ""; ip_ptr := None |}.

(** [struct ctl_table], the fields the module writes. *)
Record ctl_table := {
  ct_procname : option string;
  ct_data : option param_ptr;
  ct_maxlen : Z;
  ct_mode : Z;
  ct_proc_dointvec : bool   (** [proc_handler == proc_dointvec] *)
}.
Definition ctl_zero : ctl_table :=
  {| ct_procname := None; ct_data := None; ct_maxlen := 0; ct_mode := 0;
     ct_proc_dointvec := false |}.

(** The loop of [iso_params_init]: fill entry [i] from [iso_params[i]] until
    the first NULL pointer or 32 entries. *)
Fixpoint iso_params_fill (i n : nat) (table : list ctl_table) : list ctl_table :=
  match n with
  | O => table
  | S n' =>
      match iso_params !! i with
      | Some {| ip_name := nm; ip_ptr := Some ptr |} =>
          iso_params_fill (S i) n'
            (<[i := {| ct_procname := Some nm; ct_data := Some ptr; ct_maxlen := 4;
                       ct_mode := 420; ct_proc_dointvec := true |}]> table)
      | _ => table
      end
  end.

(** [iso_params_init]: the table handed to [register_sysctl_paths], whose
    success is the environment's choice, and the return value. *)
Definition iso_params_init (register_ok : bool) : list ctl_table * Z :=
  let table := replicate 32 ctl_zero in
  let table := iso_params_fill 0 32 table in
  if register_ok then (table, 0) else (table, -1).
Close Scope string_scope.

(** ** Properties *)

(** The entry of [table] for a sysctl name. *)
Definition sysctl_lookup (nm : string) (table : list ctl_table) : option param_ptr :=
  match List.find (fun e => bool_decide (ct_procname e = Some nm)) table with
  | Some e => ct_data e
  | None => None
  end.

Definition exported_names : list string :=
  map ip_name (filter (fun q => is_Some (ip_ptr q)) iso_params_init_list).

Lemma iso_params_table_ok :
  let t := fst (iso_params_init true) in
  length t = 32%nat /\
  t !! 27%nat = Some ctl_zero /\
  forallb (fun q =>
    match ip_ptr q with
    | Some p => bool_decide (sysctl_lookup (ip_name q) t = Some p)
    | None => true
    end) iso_params = true.
Proof. vm_compute. auto. Qed.

(** The sysctl table has one entry per tunable, with distinct names that point to their
    variables, ends in a zero entry within its 32 slots, and initialisation returns 0 exactly
    when registration succeeds. *)
Theorem iso_params_init_exports (register_ok : bool) :
  let '(t, r) := iso_params_init register_ok in
  length t = 32%nat /\
  NoDup exported_names /\
  (forall q p, q ∈ iso_params -> ip_ptr q = Some p ->
     sysctl_lookup (ip_name q) t = Some p) /\
  t !! length exported_names = Some ctl_zero /\
  (r = 0 <-> register_ok = true).
Proof.
  destruct iso_params_table_ok as (Hlen & Hz & Hall).
  assert (Hnd : NoDup exported_names) by (apply (bool_decide_unpack _); vm_compute; exact I).
  rewrite forallb_forall in Hall.
  assert (Hq : forall q p, q ∈ iso_params -> ip_ptr q = Some p ->
    sysctl_lookup (ip_name q) (fst (iso_params_init true)) = Some p).
  { intros q p Hin Hp. apply list_elem_of_In in Hin. specialize (Hall q Hin).
    rewrite Hp in Hall. by apply bool_decide_eq_true in Hall. }
  destruct register_ok; cbn [iso_params_init fst] in *;
    (split; [exact Hlen|]; split; [exact Hnd|]; split; [exact Hq|];
     split; [exact Hz|]; split; intros; [reflexivity || discriminate..]).
Qed.
