(* ===== verification/Kernel.v ===== *)
(** * The kernel interface the module is compiled against

    Packets as the kernel represents them, and the kernel routines the module
    calls.  A routine is a field of the class [Kernel]: no definition is given
    for it here.  [KernelLaws] states the documented behaviour that some
    theorems use, and [ref_kernel] is one concrete kernel that satisfies it. *)

From S2P Require Import Prelude.

Open Scope Z_scope.

(** [struct iphdr] (without options). *)
Record iphdr := {
  iph_ihl : Z;
  iph_version : Z;
  iph_tos : Z;        (** u8 *)
  iph_tot_len : Z;    (** be16 *)
  iph_id : Z;         (** be16 *)
  iph_frag_off : Z;   (** be16 *)
  iph_ttl : Z;        (** u8 *)
  iph_protocol : Z;   (** u8 *)
  iph_check : Z;      (** be16 *)
  iph_saddr : Z;      (** be32 *)
  iph_daddr : Z       (** be32 *)
}.

(** [struct ethhdr]; an address is its six octets as a number. *)
Record ethhdr := {
  h_dest : Z;
  h_source : Z;
  h_proto : Z         (** be16 *)
}.

Inductive pkt_type_t := PACKET_HOST | PACKET_OUTGOING | PACKET_LOOPBACK.

(** The part of [struct sk_buff] and of the headers it carries that the module
    reads or writes.  [skb_iph] is what [ip_hdr(skb)] points to and
    [skb_l4_dest] the destination port that [tcp_hdr]/[udp_hdr] would show. *)
Record sk_buff := {
  skb_len : Z;              (** unsigned int *)
  skb_eth : ethhdr;
  skb_iph : iphdr;
  skb_l4_dest : Z;          (** be16 *)
  skb_mark : Z;             (** u32 *)
  skb_dev : nat;            (** the device, by its index *)
  skb_pkt_type : pkt_type_t;
  skb_protocol : Z;         (** be16 *)
  skb_queue_mapping : nat
}.

Definition ETH_HLEN : Z := 14.
Definition ETH_P_IP : Z := 2048.
Definition IPPROTO_TCP : Z := 6.
Definition IPPROTO_UDP : Z := 17.
Definition INET_ECN_ECT_0 : Z := 2.

(** The result of [skb_gso_segment]: an ERR_PTR, or a list of segments linked
    by [next] (the empty list is the NULL pointer). *)
Inductive gso_result :=
| GsoErr
| GsoSegs (segs : list sk_buff).

Class Kernel := {
  little_endian : bool;
  possible_cpus : list nat;
  online_cpus : list nat;
  ktime_us_delta : Z -> Z -> Z;                  (** later, earlier; s64 *)
  jhash_1word : Z -> Z -> Z;                     (** value, initval; u32 *)
  ipv4_change_dsfield : iphdr -> Z -> Z -> iphdr;
  ipv4_copy_dscp : Z -> iphdr -> iphdr;
  ip_send_check : iphdr -> iphdr;
  skb_trim : sk_buff -> Z -> sk_buff;
  skb_pull : sk_buff -> Z -> sk_buff;
  skb_push : sk_buff -> Z -> sk_buff;
  skb_gso_segment : sk_buff -> gso_result
}.

(** Everything of an IP header but the two fields the DS-field and checksum
    routines write. *)
Definition iph_rest (h : iphdr) : list Z :=
  [iph_ihl h; iph_version h; iph_tot_len h; iph_id h; iph_frag_off h; iph_ttl h;
   iph_protocol h; iph_saddr h; iph_daddr h].

Class KernelLaws {K : Kernel} : Prop := {
  online_nodup : NoDup online_cpus;
  possible_nodup : NoDup possible_cpus;
  online_possible i : i ∈ online_cpus -> i ∈ possible_cpus;
  (** µs between two ktime values, for an interval that is not negative *)
  ktime_us_delta_forward later earlier :
    earlier <= later -> ktime_us_delta later earlier = (later - earlier) / 1000;
  (** an interval of more than a microsecond into the past is negative *)
  ktime_us_delta_backward later earlier :
    later + 1000 <= earlier ->
    -9223372036854775808 <= ktime_us_delta later earlier <= -1;
  (** dsfield.h: the new DS field is [(tos & mask) | value] *)
  change_dsfield_tos h mask value :
    iph_tos (ipv4_change_dsfield h mask value) =
    u8 (Z.lor (Z.land (iph_tos h) mask) value);
  change_dsfield_rest h mask value :
    iph_rest (ipv4_change_dsfield h mask value) = iph_rest h;
  (** inet_ecn.h: copy the DSCP bits, keep the ECN bits *)
  copy_dscp_tos dscp h :
    iph_tos (ipv4_copy_dscp dscp h) =
    u8 (Z.lor (Z.land (iph_tos h) 3) (Z.land dscp 252));
  copy_dscp_rest dscp h : iph_rest (ipv4_copy_dscp dscp h) = iph_rest h;
  (** ip_send_check only writes the checksum *)
  send_check_tos h : iph_tos (ip_send_check h) = iph_tos h;
  send_check_rest h : iph_rest (ip_send_check h) = iph_rest h;
  (** skb_pull and skb_push move the data pointer and adjust [len] *)
  skb_pull_eq skb n : skb_pull skb n = {| skb with skb_len := u32 (skb_len skb - n) |};
  skb_push_eq skb n : skb_push skb n = {| skb with skb_len := u32 (skb_len skb + n) |};
  (** software segmentation (no TSO feature is passed) gives an error or a list
      of segments, none larger than the packet *)
  gso_segs_nonempty skb : skb_gso_segment skb <> GsoSegs [];
  gso_segs_len skb segs :
    skb_gso_segment skb = GsoSegs segs ->
    Forall (fun s => 0 <= skb_len s <= Z.max 0 (skb_len skb)) segs
}.
Arguments KernelLaws K : clear implicits.

(** ** Byte order *)

Definition bswap16 (x : Z) : Z :=
  Z.lor (Z.shiftl (Z.land x 255) 8) (Z.land (Z.shiftr x 8) 255).

Definition bswap32 (x : Z) : Z :=
  Z.lor (Z.shiftl (Z.land x 255) 24)
  (Z.lor (Z.shiftl (Z.land (Z.shiftr x 8) 255) 16)
  (Z.lor (Z.shiftl (Z.land (Z.shiftr x 16) 255) 8)
         (Z.land (Z.shiftr x 24) 255))).

Definition htons {K : Kernel} (x : Z) : Z := if little_endian then bswap16 (u16 x) else u16 x.
Definition htonl {K : Kernel} (x : Z) : Z := if little_endian then bswap32 x else x.
Definition ntohl {K : Kernel} (x : Z) : Z := htonl x.

(** Bytes of a 32-bit word, most significant first. *)
Definition word_of_bytes (a b c d : Z) : Z := a * 16777216 + b * 65536 + c * 256 + d.

Lemma land_255 x : Z.land x 255 = x mod 256.
Proof. change 255 with (Z.ones 8). by rewrite Z.land_ones by lia. Qed.

Lemma testbit_above b k n : 0 <= k <= n -> 0 <= b < 2 ^ k -> Z.testbit b n = false.
Proof.
  intros Hk Hb. apply Z.testbit_false; [lia|].
  rewrite Z.div_small; [done|]. split; [lia|].
  apply Z.lt_le_trans with (2 ^ k); [lia|]. apply Z.pow_le_mono_r; lia.
Qed.

Lemma land_shiftl_low a b k :
  0 <= k -> 0 <= b < 2 ^ k -> Z.land (Z.shiftl a k) b = 0.
Proof.
  intros Hk Hb. apply Z.bits_inj'. intros n Hn. rewrite Z.land_spec, Z.bits_0.
  destruct (Z.ltb_spec n k).
  - by rewrite Z.shiftl_spec_low by lia.
  - rewrite (testbit_above b k n) by lia. apply andb_false_r.
Qed.

Lemma lor_shiftl_add a b k :
  0 <= k -> 0 <= b < 2 ^ k -> Z.lor (Z.shiftl a k) b = a * 2 ^ k + b.
Proof.
  intros Hk Hb. rewrite <- Z.shiftl_mul_pow2 by lia.
  rewrite <- Z.lxor_lor by (apply land_shiftl_low; lia).
  symmetry. apply Z.add_nocarry_lxor. apply land_shiftl_low; lia.
Qed.

(** The bytes of a 32-bit word, and the word they make. *)
Definition byte_of (k x : Z) : Z := x / 2 ^ (8 * k) mod 256.

Lemma byte_of_range k x : 0 <= byte_of k x < 256.
Proof. apply Z.mod_pos_bound. lia. Qed.

Lemma word_of_bytes_of x :
  is_u32 x -> word_of_bytes (byte_of 3 x) (byte_of 2 x) (byte_of 1 x) (byte_of 0 x) = x.
Proof.
  unfold is_u32, word_of_bytes, byte_of. intros H.
  change (2 ^ (8 * 3)) with 16777216. change (2 ^ (8 * 2)) with 65536.
  change (2 ^ (8 * 1)) with 256. change (2 ^ (8 * 0)) with 1.
  rewrite Z.div_1_r. Z.div_mod_to_equations. lia.
Qed.

Lemma byte_of_word a b c d :
  0 <= a < 256 -> 0 <= b < 256 -> 0 <= c < 256 -> 0 <= d < 256 ->
  byte_of 3 (word_of_bytes a b c d) = a /\ byte_of 2 (word_of_bytes a b c d) = b /\
  byte_of 1 (word_of_bytes a b c d) = c /\ byte_of 0 (word_of_bytes a b c d) = d.
Proof.
  unfold word_of_bytes, byte_of. intros.
  change (2 ^ (8 * 3)) with 16777216. change (2 ^ (8 * 2)) with 65536.
  change (2 ^ (8 * 1)) with 256. change (2 ^ (8 * 0)) with 1.
  rewrite Z.div_1_r. repeat split; Z.div_mod_to_equations; lia.
Qed.

Lemma lor_bytes a b c d :
  0 <= b < 256 -> 0 <= c < 256 -> 0 <= d < 256 ->
  Z.lor (Z.shiftl a 24) (Z.lor (Z.shiftl b 16) (Z.lor (Z.shiftl c 8) d)) =
  word_of_bytes a b c d.
Proof.
  intros Hb Hc Hd. rewrite (lor_shiftl_add c d 8) by lia.
  rewrite (lor_shiftl_add b _ 16) by (change (2 ^ 8) with 256; change (2 ^ 16) with 65536; lia).
  rewrite (lor_shiftl_add a _ 24)
    by (change (2 ^ 8) with 256; change (2 ^ 16) with 65536; change (2 ^ 24) with 16777216; lia).
  change (2 ^ 8) with 256. change (2 ^ 16) with 65536. change (2 ^ 24) with 16777216.
  unfold word_of_bytes. lia.
Qed.

Lemma bswap32_bytes x :
  bswap32 x = word_of_bytes (byte_of 0 x) (byte_of 1 x) (byte_of 2 x) (byte_of 3 x).
Proof.
  unfold bswap32. rewrite !land_255, !Z.shiftr_div_pow2 by lia.
  rewrite lor_bytes by (apply Z.mod_pos_bound; lia).
  unfold byte_of. change (2 ^ (8 * 0)) with 1. by rewrite Z.div_1_r.
Qed.

Lemma word_of_bytes_u32 a b c d :
  0 <= a < 256 -> 0 <= b < 256 -> 0 <= c < 256 -> 0 <= d < 256 ->
  is_u32 (word_of_bytes a b c d).
Proof. unfold word_of_bytes, is_u32. lia. Qed.

Lemma bswap32_range x : is_u32 (bswap32 x).
Proof. rewrite bswap32_bytes. apply word_of_bytes_u32; apply byte_of_range. Qed.

Lemma bswap32_invol x : is_u32 x -> bswap32 (bswap32 x) = x.
Proof.
  intros Hx. rewrite (bswap32_bytes (bswap32 x)), (bswap32_bytes x).
  destruct (byte_of_word (byte_of 0 x) (byte_of 1 x) (byte_of 2 x) (byte_of 3 x))
    as (-> & -> & -> & ->); try apply byte_of_range.
  by apply word_of_bytes_of.
Qed.

Lemma bswap16_div x : 0 <= x < 65536 -> bswap16 x = x mod 256 * 256 + x / 256.
Proof.
  intros H. unfold bswap16. rewrite !land_255, Z.shiftr_div_pow2 by lia.
  rewrite lor_shiftl_add by (try apply Z.mod_pos_bound; lia).
  change (2 ^ 8) with 256. rewrite (Z.mod_small (x / 256)); [done|].
  Z.div_mod_to_equations; lia.
Qed.

Lemma bswap16_invol x : 0 <= x < 65536 -> bswap16 (bswap16 x) = x.
Proof.
  intros H. rewrite (bswap16_div x) by lia.
  rewrite bswap16_div; Z.div_mod_to_equations; lia.
Qed.

Section ByteOrder.
Context {K : Kernel}.

Lemma htonl_range x : is_u32 x -> is_u32 (htonl x).
Proof. unfold htonl. destruct little_endian; [intros _; apply bswap32_range|done]. Qed.

Lemma htonl_invol x : is_u32 x -> htonl (htonl x) = x.
Proof. unfold htonl. destruct little_endian; [apply bswap32_invol|done]. Qed.

Lemma htons_range x : is_u16 (htons x).
Proof.
  unfold htons, is_u16. pose proof (u16_range x) as H. unfold is_u16 in H.
  destruct little_endian; [|lia]. rewrite bswap16_div by lia.
  Z.div_mod_to_equations; lia.
Qed.

Lemma htons_invol x : is_u16 x -> htons (htons x) = x.
Proof.
  intros Hx. pose proof (htons_range x) as Hr. unfold htons in *. unfold is_u16 in *.
  rewrite (u16_small x) in * by lia.
  destruct little_endian; rewrite u16_small by lia; [by apply bswap16_invol|done].
Qed.

(** [eth_hdr(skb)->h_proto == __constant_htons(ETH_P_IP)] *)
Definition is_ip (skb : sk_buff) : bool := h_proto (skb_eth skb) =? htons ETH_P_IP.
End ByteOrder.

(** ** A concrete kernel *)

Definition ref_change_dsfield (h : iphdr) (mask value : Z) : iphdr :=
  {| h with iph_tos := u8 (Z.lor (Z.land (iph_tos h) mask) value) |}.

Definition ref_kernel : Kernel := {|
  little_endian := true;
  possible_cpus := [0; 1; 2; 3]%nat;
  online_cpus := [0; 1]%nat;
  ktime_us_delta later earlier :=
    Z.max (-9223372036854775808) ((later - earlier) / 1000);
  jhash_1word v initval := u32 (v * 2654435761 + initval);
  ipv4_change_dsfield := ref_change_dsfield;
  ipv4_copy_dscp dscp h := ref_change_dsfield h 3 (Z.land dscp 252);
  ip_send_check h := h;
  skb_trim skb n := {| skb with skb_len := Z.min (skb_len skb) n |};
  skb_pull skb n := {| skb with skb_len := u32 (skb_len skb - n) |};
  skb_push skb n := {| skb with skb_len := u32 (skb_len skb + n) |};
  skb_gso_segment skb :=
    if skb_len skb <? 0 then GsoErr
    else GsoSegs [{| skb with skb_len := skb_len skb - skb_len skb / 2 |};
                  {| skb with skb_len := skb_len skb / 2 |}]
|}.

#[export] Instance ref_kernel_laws : KernelLaws ref_kernel.
Proof.
  split; try reflexivity.
  - apply (bool_decide_unpack _). vm_compute. exact I.
  - apply (bool_decide_unpack _). vm_compute. exact I.
  - intros i Hi. cbn in *. rewrite !elem_of_cons in *. tauto.
  - intros later earlier H. cbn. rewrite Z.max_r; [done|].
    transitivity 0; [lia|]. apply Z.div_pos; lia.
  - intros later earlier H. cbn. split; [lia|]. apply Z.max_lub; [lia|].
    Z.div_mod_to_equations; lia.
  - intros skb. cbn. destruct (_ <? _); discriminate.
  - intros skb segs. cbn. destruct (Z.ltb_spec (skb_len skb) 0) as [|H]; [discriminate|].
    intros [= <-]. repeat constructor; cbn; Z.div_mod_to_equations; lia.
Qed.
