(* ===== verification/Packet.v ===== *)
(** * Packets: sizes, ECN bits and feedback packets

    The inline helpers of rl.h, tx.h and rx.h that read and write packet
    headers: [skb_size], the feedback mark, the ECN bits, and the construction
    and recognition of the feedback packets that carry a rate from the receiver
    back to the sender. *)

From S2P Require Import Prelude Params Kernel.

Open Scope Z_scope.

(** [enum iso_verdict] (rl.h). *)
Inductive iso_verdict :=
| ISO_VERDICT_SUCCESS
| ISO_VERDICT_DROP
| ISO_VERDICT_PASS
| ISO_VERDICT_ERROR.

#[export] Instance iso_verdict_eq_dec : EqDecision iso_verdict.
Proof. solve_decision. Defined.

Definition ISO_ECN_REFLECT_MASK : Z := Z.shiftl 1 3.

Definition skb_size (skb : sk_buff) : Z := s32 (u32 (ETH_HLEN + skb_len skb)).

Section Packet.
Context {K : Kernel} {P : params}.

(** Returns the int result and the packet as written. *)
Definition skb_set_feedback (skb : sk_buff) : Z * sk_buff :=
  if negb (is_ip skb) then (1, skb)
  else
    let iph := skb_iph skb in
    let newdscp := u8 (Z.lor (iph_tos iph) ISO_ECN_REFLECT_MASK) in
    let iph := ipv4_copy_dscp newdscp iph in
    (0, {| skb with skb_iph := iph |}).

Definition skb_has_feedback (skb : sk_buff) : Z :=
  if negb (is_ip skb) then 0
  else
    let iph := skb_iph skb in
    if negb (iph_protocol iph =? ISO_FEEDBACK_PACKET_IPPROTO) then 0
    else iph_id iph.

Definition iso_enable_ecn (skb : sk_buff) : sk_buff :=
  let iph := skb_iph skb in
  {| skb with skb_iph :=
       ipv4_change_dsfield iph 255 (u8 (Z.lor (iph_tos iph) INET_ECN_ECT_0)) |}.

Definition iso_clear_ecn (skb : sk_buff) : sk_buff :=
  let iph := skb_iph skb in
  {| skb with skb_iph :=
       ipv4_change_dsfield iph 255 (u8 (Z.land (iph_tos iph) (Z.lnot 3))) |}.

(** [iso_generate_feedback(bit, pkt)].  [alloc] is what [netdev_alloc_skb]
    returned; the second component is the packet handed to [skb_xmit]. *)
Definition iso_generate_feedback (alloc : option sk_buff) (bit : Z) (pkt : sk_buff)
    : Z * option sk_buff :=
  let eth_from := skb_eth pkt in
  if negb (is_ip pkt) then (0, None)
  else match alloc with
  | None => (0, None)
  | Some skb =>
      let skb := {| skb with skb_queue_mapping := 0%nat;
                             skb_len := ISO_FEEDBACK_PACKET_SIZE;
                             skb_protocol := htons ETH_P_IP;
                             skb_pkt_type := PACKET_OUTGOING |} in
      let eth_to := {| h_source := h_dest eth_from;
                       h_dest := h_source eth_from;
                       h_proto := h_proto eth_from |} in
      let skb := {| skb with skb_eth := eth_to |} in
      let skb := skb_pull skb ETH_HLEN in
      let iph_to := skb_iph skb in
      let iph_from := skb_iph pkt in
      let iph_to := {| iph_to with
        iph_ihl := 5;
        iph_version := 4;
        iph_tos := Z.lor 2 (if bit =? 0 then 0 else ISO_ECN_REFLECT_MASK);
        iph_tot_len := htons ISO_FEEDBACK_HEADER_SIZE;
        iph_id := u16 bit;
        iph_frag_off := 0;
        iph_ttl := ISO_FEEDBACK_PACKET_TTL;
        iph_protocol := u8 ISO_FEEDBACK_PACKET_IPPROTO;
        iph_saddr := iph_daddr iph_from;
        iph_daddr := iph_saddr iph_from |} in
      let iph_to := ip_send_check iph_to in
      let skb := {| skb with skb_iph := iph_to |} in
      let skb := skb_push skb ETH_HLEN in
      (1, Some skb)
  end.

Definition iso_is_generated_feedback (skb : sk_buff) : Z :=
  if is_ip skb then
    let iph := skb_iph skb in
    if iph_protocol iph =? ISO_FEEDBACK_PACKET_IPPROTO then 1 else 0
  else 0.

Definition iso_is_feedback_marked (skb : sk_buff) : Z :=
  if is_ip skb then
    let iph := skb_iph skb in
    if iph_protocol iph =? ISO_FEEDBACK_PACKET_IPPROTO then iph_id iph else 0
  else 0.

(** ** Lemmas *)

Lemma skb_size_small skb :
  0 <= skb_len skb < 2147483648 - 14 -> skb_size skb = 14 + skb_len skb.
Proof.
  intros H. unfold skb_size, ETH_HLEN. wrap. lia.
Qed.

(** The two readers of a feedback packet's rate agree. *)
Lemma is_feedback_marked_has skb : iso_is_feedback_marked skb = skb_has_feedback skb.
Proof.
  unfold iso_is_feedback_marked, skb_has_feedback.
  destruct (is_ip skb); [|done]. cbn.
  by destruct (iph_protocol (skb_iph skb) =? ISO_FEEDBACK_PACKET_IPPROTO).
Qed.

Lemma iph_rest_inv h h' :
  iph_rest h = iph_rest h' ->
  iph_id h = iph_id h' /\ iph_protocol h = iph_protocol h' /\
  iph_saddr h = iph_saddr h' /\ iph_daddr h = iph_daddr h'.
Proof. unfold iph_rest. intros [=]. auto. Qed.

Lemma byte_land_255 x : is_u8 x -> Z.land x 255 = x.
Proof. intros H. rewrite land_255. by apply Z.mod_small. Qed.

Lemma lor_byte x y : is_u8 x -> is_u8 y -> is_u8 (Z.lor x y).
Proof. apply (lor_lt_pow2 8). lia. Qed.

Lemma land_byte x y : is_u8 x -> is_u8 (Z.land x y).
Proof.
  unfold is_u8. intros Hx.
  rewrite <- (byte_land_255 x) by done. rewrite <- Z.land_assoc, (Z.land_comm 255), Z.land_assoc.
  rewrite land_255. apply Z.mod_pos_bound. lia.
Qed.
End Packet.
#[export] Hint Resolve lor_byte land_byte : eyeq.

(** ** Properties *)

Section PacketProps.
Context {K : Kernel} {KL : KernelLaws K} {P : params}.


(** Enabling ECN sets the ECT(0) bit and keeps everything but the DS field and the checksum. *)
Theorem iso_enable_ecn_sets_ect (skb : sk_buff) :
  is_u8 (iph_tos (skb_iph skb)) ->
  iph_tos (skb_iph (iso_enable_ecn skb)) = Z.lor (iph_tos (skb_iph skb)) 2 /\
  iph_rest (skb_iph (iso_enable_ecn skb)) = iph_rest (skb_iph skb).
Proof.
  intros Ht. unfold iso_enable_ecn. cbn [skb_iph].
  rewrite change_dsfield_tos, change_dsfield_rest. split; [|done].
  rewrite byte_land_255 by done.
  assert (Hb : is_u8 (Z.lor (iph_tos (skb_iph skb)) INET_ECN_ECT_0)).
  { apply lor_byte; [done|]. unfold is_u8, INET_ECN_ECT_0. lia. }
  rewrite (u8_small (Z.lor _ INET_ECN_ECT_0)) by exact Hb.
  rewrite Z.lor_assoc, Z.lor_diag. by apply u8_small.
Qed.

(** Clearing the ECN bits leaves the TOS byte as it was. *)
Theorem iso_clear_ecn_keeps_tos (skb : sk_buff) :
  is_u8 (iph_tos (skb_iph skb)) ->
  iph_tos (skb_iph (iso_clear_ecn skb)) = iph_tos (skb_iph skb).
Proof.
  intros Ht. unfold iso_clear_ecn. cbn [skb_iph]. rewrite change_dsfield_tos.
  rewrite byte_land_255 by done.
  rewrite (u8_small (Z.land _ _)) by (by apply land_byte).
  rewrite lor_land_absorb. by apply u8_small.
Qed.
End PacketProps.

Definition ex_iph : iphdr :=
  {| iph_ihl := 5; iph_version := 4; iph_tos := 3; iph_tot_len := 1500; iph_id := 7;
     iph_frag_off := 0; iph_ttl := 64; iph_protocol := 6; iph_check := 0;
     iph_saddr := 16777226; iph_daddr := 33554442 |}.
Definition ex_skb : sk_buff :=
  {| skb_len := 1500; skb_eth := {| h_dest := 1; h_source := 2; h_proto := 8 |};
     skb_iph := ex_iph; skb_l4_dest := 0; skb_mark := 0; skb_dev := 0;
     skb_pkt_type := PACKET_HOST; skb_protocol := 8; skb_queue_mapping := 0 |}.


Lemma iso_enable_ecn_sets_ect_witness :
  iph_tos (skb_iph (iso_enable_ecn (K := ref_kernel) ex_skb)) = Z.lor 3 2.
Proof.
  apply (iso_enable_ecn_sets_ect (K := ref_kernel) ex_skb). unfold is_u8; cbn; lia.
Defined.

Lemma iso_clear_ecn_keeps_tos_witness :
  Z.land (iph_tos (skb_iph (iso_clear_ecn (K := ref_kernel) ex_skb))) 3 = 3.
Proof.
  rewrite (iso_clear_ecn_keeps_tos (K := ref_kernel) ex_skb); [reflexivity|].
  unfold is_u8; cbn; lia.
Defined.
