(* ===== verification/Scan.v ===== *)
(** * C strings: the [sscanf] and [sprintf] conversions the module uses

    A C string is the list of its characters.  [sscanf] interprets a format as
    the kernel's [vsscanf] does: white space in the format skips white space of
    the input, any other character must match, a conversion skips white space
    and stops the scan when the input does not start with what it reads.  The
    result is the list of the values converted, so its length is the return
    value of the C function. *)

From Stdlib Require Import Ascii String.
From S2P Require Import Prelude.

Open Scope Z_scope.

Abbreviation cstring := (list ascii).

Definition code (c : ascii) : Z := Z.of_nat (nat_of_ascii c).
Definition char (n : Z) : ascii := ascii_of_nat (Z.to_nat n).

Definition isdigit (c : ascii) : bool := (48 <=? code c) && (code c <=? 57).
Definition isspace (c : ascii) : bool :=
  (code c =? 32) || ((9 <=? code c) && (code c <=? 13)).
Definition digit_val (c : ascii) : Z := code c - 48.

Fixpoint skip_spaces (s : cstring) : cstring :=
  match s with
  | c :: s' => if isspace c then skip_spaces s' else s
  | [] => []
  end.

(** [simple_strtoull] in base 10: the value of the longest prefix of digits. *)
Fixpoint scan_digits (acc : Z) (s : cstring) : Z * cstring :=
  match s with
  | c :: s' => if isdigit c then scan_digits (u64 (acc * 10 + digit_val c)) s' else (acc, s)
  | [] => (acc, [])
  end.

(** [%s]: the longest prefix without white space. *)
Fixpoint scan_word (s : cstring) : cstring * cstring :=
  match s with
  | c :: s' => if isspace c then ([], s) else let '(w, r) := scan_word s' in (c :: w, r)
  | [] => ([], [])
  end.

Inductive fmt :=
| FLit (c : ascii)   (** a character that must match *)
| FSpace             (** white space *)
| FUint              (** %u *)
| FInt               (** %d *)
| FStr.              (** %s *)

Inductive value :=
| VInt (z : Z)
| VStr (s : cstring).

Definition starts_digit (s : cstring) : bool :=
  match s with c :: _ => isdigit c | [] => false end.

Fixpoint sscanf (s : cstring) (f : list fmt) : list value :=
  match f with
  | [] => []
  | FSpace :: f' => sscanf (skip_spaces s) f'
  | FLit c :: f' =>
      match s with
      | c' :: s' => if Ascii.eqb c c' then sscanf s' f' else []
      | [] => []
      end
  | FUint :: f' =>
      let s := skip_spaces s in
      if starts_digit s then
        let '(n, r) := scan_digits 0 s in VInt (u32 n) :: sscanf r f'
      else []
  | FInt :: f' =>
      let s := skip_spaces s in
      match s with
      | c :: s' =>
          if Ascii.eqb c "-"%char then
            if starts_digit s' then
              let '(n, r) := scan_digits 0 s' in VInt (s32 (- n)) :: sscanf r f'
            else []
          else if isdigit c then
            let '(n, r) := scan_digits 0 s in VInt (s32 n) :: sscanf r f'
          else []
      | [] => []
      end
  | FStr :: f' =>
      match skip_spaces s with
      | [] => []
      | s => let '(w, r) := scan_word s in VStr w :: sscanf r f'
      end
  end.

(** A format as it is written in C. *)
Fixpoint fmt_of (s : string) : list fmt :=
  match s with
  | EmptyString => []
  | String "%" (String "s" r) => FStr :: fmt_of r
  | String "%" (String "d" r) => FInt :: fmt_of r
  | String "%" (String "u" r) => FUint :: fmt_of r
  | String c r => (if isspace c then FSpace else FLit c) :: fmt_of r
  end.

(** Whether a converted string, with its terminator, overruns an array of [n]
    bytes. *)
Definition overruns (n : nat) (v : value) : bool :=
  match v with VStr w => Nat.leb n (length w) | VInt _ => false end.

(** [sscanf] whose [%s] conversions go to local arrays of [n] bytes: the kernel's
    [%s] has no bound. *)
Definition scan_into (n : nat) (s : cstring) (f : list fmt) : outcome (list value) :=
  let vs := sscanf s f in
  if existsb (overruns n) vs then Oops StackSmash else Ok vs.

(** [%u]: decimal digits, most significant first. *)
Fixpoint dec_digits (fuel : nat) (n : Z) : cstring :=
  match fuel with
  | O => []
  | S k => if n <? 10 then [char (48 + n)]
           else dec_digits k (n / 10) ++ [char (48 + n mod 10)]
  end.

Definition sprintf_u (n : Z) : cstring := dec_digits 20 n.
Definition sprintf_d (n : Z) : cstring :=
  if n <? 0 then "-"%char :: dec_digits 20 (- n) else dec_digits 20 n.

(** ** Printing then scanning a number gives the number *)

Lemma code_char n : 0 <= n < 256 -> code (char n) = n.
Proof. intros H. unfold code, char. rewrite nat_ascii_embedding; lia. Qed.

Lemma isdigit_char n : 0 <= n < 10 -> isdigit (char (48 + n)) = true.
Proof. intros H. unfold isdigit. rewrite code_char by lia. lia. Qed.

Lemma digit_val_char n : 0 <= n < 10 -> digit_val (char (48 + n)) = n.
Proof. intros H. unfold digit_val. rewrite code_char by lia. lia. Qed.

Lemma digit_not_space c : isdigit c = true -> isspace c = false.
Proof. unfold isdigit, isspace. intros H. lia. Qed.

Definition dec_value (acc : Z) (s : cstring) : Z :=
  fold_left (fun a c => u64 (a * 10 + digit_val c)) s acc.

Lemma scan_digits_app acc ds r :
  forallb isdigit ds = true -> starts_digit r = false ->
  scan_digits acc (ds ++ r) = (dec_value acc ds, r).
Proof.
  revert acc. induction ds as [|c ds IH]; intros acc Hds Hr.
  - cbn. destruct r as [|c r]; [done|]. cbn in *. by rewrite Hr.
  - cbn in *. apply andb_prop in Hds as [Hc Hds]. rewrite Hc. by rewrite IH.
Qed.

Lemma dec_digits_digits fuel n : 0 <= n -> forallb isdigit (dec_digits fuel n) = true.
Proof.
  revert n. induction fuel as [|k IH]; intros n Hn; [done|]. cbn.
  destruct (Z.ltb_spec n 10).
  - cbn. rewrite isdigit_char by lia. done.
  - rewrite forallb_app, IH by (apply Z.div_pos; lia). cbn.
    rewrite isdigit_char by (apply Z.mod_pos_bound; lia). done.
Qed.

Lemma dec_digits_value fuel n :
  0 <= n < 18446744073709551616 -> n < 10 ^ Z.of_nat fuel ->
  dec_value 0 (dec_digits fuel n) = n.
Proof.
  revert n. induction fuel as [|k IH]; intros n Hn Hf.
  - change (10 ^ Z.of_nat 0) with 1 in Hf. cbn. lia.
  - cbn [dec_digits]. destruct (Z.ltb_spec n 10) as [Hlt|Hge].
    + cbn. rewrite digit_val_char by lia. wrap. done.
    + rewrite Nat2Z.inj_succ, Z.pow_succ_r in Hf by lia.
      unfold dec_value in *. rewrite fold_left_app, IH.
      * cbn. rewrite digit_val_char by (apply Z.mod_pos_bound; lia).
        rewrite u64_small; [|lia || (Z.div_mod_to_equations; lia)].
        Z.div_mod_to_equations; lia.
      * Z.div_mod_to_equations; lia.
      * Z.div_mod_to_equations; lia.
Qed.

Lemma sprintf_u_nonempty n : 0 <= n -> starts_digit (sprintf_u n) = true.
Proof.
  intros Hn. unfold sprintf_u. generalize 19%nat; intros k.
  pose proof (dec_digits_digits (S k) n Hn) as Hd.
  assert (Hne : dec_digits (S k) n <> []).
  { cbn. destruct (n <? 10); [done|]. by destruct (dec_digits k (n / 10)). }
  destruct (dec_digits (S k) n) as [|c l]; [done|]. cbn in *. by apply andb_prop in Hd as [].
Qed.

Lemma starts_digit_app s r : starts_digit s = true -> starts_digit (s ++ r) = true.
Proof. by destruct s. Qed.

Lemma skip_spaces_digit s : starts_digit s = true -> skip_spaces s = s.
Proof. destruct s as [|c s]; [done|]. cbn. intros H. by rewrite digit_not_space. Qed.

Lemma scan_sprintf_u n r :
  0 <= n < 18446744073709551616 -> starts_digit r = false ->
  scan_digits 0 (sprintf_u n ++ r) = (n, r).
Proof.
  intros Hn Hr. unfold sprintf_u.
  rewrite scan_digits_app by (try done; apply dec_digits_digits; lia).
  rewrite dec_digits_value; [done|lia|].
  change (10 ^ Z.of_nat 20) with 100000000000000000000. lia.
Qed.

Lemma sscanf_uint n r f :
  0 <= n < 4294967296 -> starts_digit r = false ->
  sscanf (sprintf_u n ++ r) (FUint :: f) = VInt n :: sscanf r f.
Proof.
  intros Hn Hr. cbn [sscanf].
  pose proof (starts_digit_app (sprintf_u n) r (sprintf_u_nonempty n ltac:(lia))) as Hs.
  rewrite skip_spaces_digit, Hs by done.
  rewrite scan_sprintf_u by (done || lia). by rewrite u32_small by lia.
Qed.

Lemma starts_digit_not_minus s :
  starts_digit s = true -> exists c s', s = c :: s' /\ Ascii.eqb c "-"%char = false /\ isdigit c = true.
Proof.
  destruct s as [|c s]; [done|]. cbn. intros H. exists c, s. split; [done|]. split; [|done].
  destruct (Ascii.eqb_spec c "-"%char) as [->|]; [|done]. vm_compute in H. discriminate.
Qed.

Lemma sscanf_int n r f :
  -2147483648 <= n < 2147483648 -> starts_digit r = false ->
  sscanf (sprintf_d n ++ r) (FInt :: f) = VInt n :: sscanf r f.
Proof.
  intros Hn Hr. unfold sprintf_d. destruct (Z.ltb_spec n 0).
  - cbn [sscanf app skip_spaces]. change (isspace "-"%char) with false. cbn [Ascii.eqb].
    change (Ascii.eqb "-"%char "-"%char) with true. cbv iota.
    change (dec_digits 20 (- n)) with (sprintf_u (- n)).
    rewrite starts_digit_app by (apply sprintf_u_nonempty; lia).
    rewrite scan_sprintf_u by (done || lia). by rewrite s32_small, Z.opp_involutive by lia.
  - change (dec_digits 20 n) with (sprintf_u n).
    pose proof (starts_digit_app (sprintf_u n) r (sprintf_u_nonempty n ltac:(lia))) as Hs.
    cbn [sscanf]. rewrite skip_spaces_digit by done.
    pose proof (scan_sprintf_u n r ltac:(lia) Hr) as Hscan.
    destruct (starts_digit_not_minus _ Hs) as (c & s' & Heq & Hm & Hd).
    rewrite Heq in *. rewrite Hm, Hd, Hscan. by rewrite s32_small by lia.
Qed.

(** Every [%u] of a format without other conversions yields a u32. *)
Definition fmt_unsigned (f : fmt) : bool :=
  match f with FInt | FStr => false | _ => true end.
Definition value_u32 (v : value) : Prop :=
  match v with VInt z => is_u32 z | VStr _ => False end.

Lemma sscanf_unsigned s f : forallb fmt_unsigned f = true -> Forall value_u32 (sscanf s f).
Proof.
  revert s. induction f as [|x f IH]; intros s Hf; [constructor|].
  cbn in Hf. apply andb_prop in Hf as [Hx Hf]. destruct x; try done; cbn.
  - destruct s as [|c' s]; [constructor|]. destruct (Ascii.eqb c c'); [auto|constructor].
  - auto.
  - destruct (starts_digit _); [|constructor].
    destruct (scan_digits 0 (skip_spaces s)) as [n r]. constructor; [apply u32_range|auto].
Qed.

(** ** A conversion is no longer than its input *)

Lemma skip_spaces_length s : (length (skip_spaces s) <= length s)%nat.
Proof. induction s as [|c s IH]; [done|]. cbn. destruct (isspace c); cbn; lia. Qed.

Lemma scan_digits_length acc s : (length (scan_digits acc s).2 <= length s)%nat.
Proof.
  revert acc. induction s as [|c s IH]; intros acc; [done|]. cbn.
  destruct (isdigit c); [|done]. specialize (IH (u64 (acc * 10 + digit_val c))). lia.
Qed.

Lemma scan_word_length s :
  (length (scan_word s).1 + length (scan_word s).2 = length s)%nat.
Proof.
  induction s as [|c s IH]; [done|]. cbn. destruct (isspace c); [done|].
  destruct (scan_word s) as [w r]. cbn in *. lia.
Qed.

Definition fits (n : nat) (v : value) : Prop :=
  match v with VStr w => (length w <= n)%nat | VInt _ => True end.

Lemma fits_le n m v : (n <= m)%nat -> fits n v -> fits m v.
Proof. destruct v; cbn; lia. Qed.

Lemma sscanf_fits f : forall s, Forall (fits (length s)) (sscanf s f).
Proof.
  induction f as [|x f IH]; intros s; [constructor|].
  assert (Hle : forall r, (length r <= length s)%nat -> Forall (fits (length s)) (sscanf r f)).
  { intros r Hr. eapply Forall_impl; [apply IH|]. intros v. by apply fits_le. }
  pose proof (skip_spaces_length s) as Hsk. destruct x; cbn [sscanf].
  - destruct s as [|c' s]; [constructor|]. destruct (Ascii.eqb c c'); [apply Hle; cbn; lia|constructor].
  - by apply Hle.
  - destruct (starts_digit _); [|constructor].
    pose proof (scan_digits_length 0 (skip_spaces s)). destruct (scan_digits 0 (skip_spaces s)) as [n r].
    constructor; [done|]. apply Hle. cbn in *. lia.
  - destruct (skip_spaces s) as [|c s'] eqn:E; [constructor|]. cbn in Hsk. destruct (Ascii.eqb c _).
    + destruct (starts_digit s'); [|constructor]. pose proof (scan_digits_length 0 s').
      destruct (scan_digits 0 s') as [n r]. constructor; [done|]. apply Hle. cbn in *. lia.
    + destruct (isdigit c); [|constructor]. pose proof (scan_digits_length 0 (c :: s')).
      destruct (scan_digits 0 (c :: s')) as [n r]. constructor; [done|]. apply Hle. cbn in *. lia.
  - destruct (skip_spaces s) as [|c s'] eqn:E; [constructor|].
    pose proof (scan_word_length (c :: s')). destruct (scan_word (c :: s')) as [w r].
    cbn [fst snd] in *. constructor; [cbn; lia|]. apply Hle. lia.
Qed.

(** An input shorter than the arrays does not overrun them. *)
Lemma scan_into_short n s f : (length s < n)%nat -> scan_into n s f = Ok (sscanf s f).
Proof.
  intros Hn. unfold scan_into. replace (existsb (overruns n) (sscanf s f)) with false; [done|].
  symmetry. apply not_true_iff_false. intros Hx. apply existsb_exists in Hx as (v & Hv & Ho).
  pose proof (sscanf_fits f s) as Hf. rewrite Forall_forall in Hf.
  specialize (Hf v ltac:(by apply list_elem_of_In)). destruct v; cbn in *; [done|]. apply Nat.leb_le in Ho. lia.
Qed.
