(* ===== verification/Class.v ===== *)
(** * Traffic classes (class.h)

    class.h selects at compile time how a packet is mapped to a class.  The
    operations are the class [IsoClass] (the "ops" structure the header asks
    for); each variant of the header is a module and an instance.  The tables
    of classes and virtual queues are proved against the laws [IsoClassLaws].
    The shipped Makefile compiles the [Ipaddr] variant.  The variants by device
    and by Ethernet address are in ClassVariants. *)

From Stdlib Require Import Ascii String.
From S2P Require Import Prelude Params Kernel Packet Scan.

Open Scope Z_scope.

Class IsoClass := {
  op_txc_classify : sk_buff -> Z;
  op_rx_classify : sk_buff -> Z;
  op_cmp : Z -> Z -> Z;
  op_hash : Z -> Z;
  op_show : Z -> cstring;
  op_parse : cstring -> Z
}.

(** What the tables rely on: on values of the class type, [cmp] decides
    equality, and every class the module computes is such a value. *)
Class IsoClassLaws {C : IsoClass} (valid : Z -> Prop) : Prop := {
  cmp_zero a b : valid a -> valid b -> (op_cmp a b = 0 <-> a = b);
  parse_valid s : valid (op_parse s)
}.
Arguments IsoClassLaws C valid : clear implicits.

Lemma s32_u32_zero x : - 4294967296 < x < 4294967296 -> s32 (u32 x) = 0 -> x = 0.
Proof.
  intros Hx H. Transparent s32 u32. unfold s32, u32 in H. Opaque s32 u32.
  Z.div_mod_to_equations; lia.
Qed.

Lemma u32_s32 x : u32 (s32 x) = u32 x.
Proof.
  Transparent s32 u32. unfold s32, u32. Opaque s32 u32.
  rewrite <- Zminus_mod_idemp_l, Z.mod_mod, Zminus_mod_idemp_l by lia. f_equal. lia.
Qed.

(** The comparison [a - b] of u32 classes, returned as an int. *)
Definition cmp_u32 (a b : Z) : Z := s32 (u32 (a - b)).

Lemma cmp_u32_zero a b : is_u32 a -> is_u32 b -> (cmp_u32 a b = 0 <-> a = b).
Proof.
  unfold is_u32, cmp_u32. intros Ha Hb. split.
  - intros H. apply s32_u32_zero in H; lia.
  - intros ->. rewrite Z.sub_diag. reflexivity.
Qed.

(** ** ISO_TX_CLASS_IPADDR *)
Module Ipaddr.
Section Ipaddr.
Context {K : Kernel}.

Definition iso_txc_classify (skb : sk_buff) : Z :=
  let addr := 0 in
  let addr := if is_ip skb then iph_saddr (skb_iph skb) else addr in
  addr.

Definition iso_class_cmp (a b : Z) : Z := cmp_u32 a b.

Definition iso_class_hash (klass : Z) : Z := jhash_1word klass 3735928559.

Definition dot : ascii := "."%char.

Definition iso_class_show (klass : Z) : cstring :=
  let addr := htonl klass in
  sprintf_u (Z.shiftr (Z.land addr 4278190080) 24) ++ dot ::
  sprintf_u (Z.shiftr (Z.land addr 16711680) 16) ++ dot ::
  sprintf_u (Z.shiftr (Z.land addr 65280) 8) ++ dot ::
  sprintf_u (Z.land addr 255).

Definition iso_class_parse (ipaddr : cstring) : Z :=
  let addr := 0 in
  let addr :=
    match sscanf ipaddr [FUint; FLit dot; FUint; FLit dot; FUint; FLit dot; FUint] with
    | [VInt oct0; VInt oct1; VInt oct2; VInt oct3] =>
        Z.lor (u32 (Z.shiftl oct0 24))
          (Z.lor (u32 (Z.shiftl oct1 16)) (Z.lor (u32 (Z.shiftl oct2 8)) oct3))
    | _ => addr
    end in
  htonl addr.

Definition iso_rx_classify (skb : sk_buff) : Z :=
  let klass := 0 in
  if is_ip skb then iph_daddr (skb_iph skb) else klass.

#[export] Instance ops : IsoClass := {|
  op_txc_classify := iso_txc_classify;
  op_rx_classify := iso_rx_classify;
  op_cmp := iso_class_cmp;
  op_hash := iso_class_hash;
  op_show := iso_class_show;
  op_parse := iso_class_parse
|}.
End Ipaddr.
End Ipaddr.

(** ** ISO_TX_CLASS_MARK *)
Module Mark.
Definition iso_txc_classify (skb : sk_buff) : Z := skb_mark skb.
Definition iso_class_cmp (a b : Z) : Z := cmp_u32 a b.
Definition iso_class_hash (klass : Z) : Z := klass.
Definition iso_class_show (klass : Z) : cstring := sprintf_d (s32 klass).
Definition iso_class_parse (hwaddr : cstring) : Z :=
  let ret := 0 in
  let ret := match sscanf hwaddr [FInt] with [VInt n] => n | _ => ret end in
  u32 ret.
Definition iso_rx_classify (skb : sk_buff) : Z := skb_mark skb.

#[export] Instance ops : IsoClass := {|
  op_txc_classify := iso_txc_classify;
  op_rx_classify := iso_rx_classify;
  op_cmp := iso_class_cmp;
  op_hash := iso_class_hash;
  op_show := iso_class_show;
  op_parse := iso_class_parse
|}.
End Mark.

(** ** ISO_TX_CLASS_L4PORT *)
Module L4port.
Section L4port.
Context {K : Kernel}.

Definition iso_txc_classify (skb : sk_buff) : Z :=
  let port := 0 in
  if is_ip skb then
    let iph := skb_iph skb in
    if iph_protocol iph =? IPPROTO_TCP then skb_l4_dest skb
    else if iph_protocol iph =? IPPROTO_UDP then skb_l4_dest skb
    else port
  else port.
Definition iso_class_cmp (a b : Z) : Z := cmp_u32 a b.
Definition iso_class_hash (klass : Z) : Z := jhash_1word klass 3735928559.
Definition iso_class_show (klass : Z) : cstring := sprintf_u (htons klass).
Definition iso_class_parse (portnum : cstring) : Z :=
  let port := 0 in
  let port := match sscanf portnum [FUint] with [VInt n] => n | _ => port end in
  htons port.
Definition iso_rx_classify (skb : sk_buff) : Z := iso_txc_classify skb.

#[export] Instance ops : IsoClass := {|
  op_txc_classify := iso_txc_classify;
  op_rx_classify := iso_rx_classify;
  op_cmp := iso_class_cmp;
  op_hash := iso_class_hash;
  op_show := iso_class_show;
  op_parse := iso_class_parse
|}.
End L4port.
End L4port.

(** ** The laws, and parsing what was shown *)

Section Laws.
Context {K : Kernel}.

Lemma ipaddr_parse_range s : is_u32 (Ipaddr.iso_class_parse s).
Proof.
  unfold Ipaddr.iso_class_parse. apply htonl_range.
  assert (H0 : is_u32 0) by (unfold is_u32; lia).
  pose proof (sscanf_unsigned s
    [FUint; FLit Ipaddr.dot; FUint; FLit Ipaddr.dot; FUint; FLit Ipaddr.dot; FUint]
    eq_refl) as Hall.
  destruct (sscanf s _) as [|[a|?] [|[b|?] [|[c|?] [|[d|?] [|? ?]]]]]; try exact H0.
  rewrite !Forall_cons in Hall. destruct Hall as (_ & _ & _ & Hd & _). cbn in Hd.
  repeat apply (lor_lt_pow2 32); try lia; try apply u32_range. exact Hd.
Qed.

#[export] Instance ipaddr_laws : IsoClassLaws Ipaddr.ops is_u32.
Proof. split; [apply cmp_u32_zero|apply ipaddr_parse_range]. Qed.

#[export] Instance mark_laws : IsoClassLaws Mark.ops is_u32.
Proof. split; [apply cmp_u32_zero|intros; apply u32_range]. Qed.

Lemma u16_is_u32 x : is_u16 x -> is_u32 x.
Proof. unfold is_u16, is_u32. lia. Qed.

#[export] Instance l4port_laws : IsoClassLaws L4port.ops is_u32.
Proof.
  split; [apply cmp_u32_zero|].
  intros s. apply u16_is_u32, htons_range.
Qed.

(** The four octets that [iso_class_show] prints are the bytes of the word. *)
Lemma mask_byte x k :
  0 <= k -> is_u32 x ->
  Z.shiftr (Z.land x (Z.shiftl 255 (8 * k))) (8 * k) = byte_of k x.
Proof.
  intros Hk Hx. rewrite Z.shiftr_land, Z.shiftr_shiftl_l, Z.sub_diag, Z.shiftl_0_r by lia.
  rewrite land_255, Z.shiftr_div_pow2 by lia. reflexivity.
Qed.

Lemma ipaddr_show_bytes klass :
  is_u32 klass ->
  Ipaddr.iso_class_show klass =
    sprintf_u (byte_of 3 (htonl klass)) ++ Ipaddr.dot ::
    sprintf_u (byte_of 2 (htonl klass)) ++ Ipaddr.dot ::
    sprintf_u (byte_of 1 (htonl klass)) ++ Ipaddr.dot ::
    sprintf_u (byte_of 0 (htonl klass)) ++ [].
Proof.
  intros Hk. pose proof (htonl_range klass Hk) as Hr. unfold Ipaddr.iso_class_show.
  change 4278190080 with (Z.shiftl 255 (8 * 3)). change 24 with (8 * 3).
  change 16711680 with (Z.shiftl 255 (8 * 2)). change 16 with (8 * 2).
  change 65280 with (Z.shiftl 255 (8 * 1)).
  change (Z.shiftr (Z.land (htonl klass) (Z.shiftl 255 (8 * 1))) 8)
    with (Z.shiftr (Z.land (htonl klass) (Z.shiftl 255 (8 * 1))) (8 * 1)).
  rewrite !mask_byte by (done || lia). rewrite app_nil_r.
  replace (Z.land (htonl klass) 255) with (byte_of 0 (htonl klass)); [done|].
  rewrite land_255. unfold byte_of. change (2 ^ (8 * 0)) with 1. by rewrite Z.div_1_r.
Qed.

Lemma shiftl_byte_u32 b k : 0 <= b < 256 -> 0 <= k <= 24 -> u32 (Z.shiftl b k) = Z.shiftl b k.
Proof.
  intros Hb Hk. apply u32_small. rewrite Z.shiftl_mul_pow2 by lia.
  assert (0 < 2 ^ k) by (apply Z.pow_pos_nonneg; lia).
  assert (2 ^ k <= 2 ^ 24) by (apply Z.pow_le_mono_r; lia).
  change (2 ^ 24) with 16777216 in *. nia.
Qed.

Lemma ipaddr_parse_bytes a b c d :
  0 <= a < 256 -> 0 <= b < 256 -> 0 <= c < 256 -> 0 <= d < 256 ->
  Ipaddr.iso_class_parse
    (sprintf_u a ++ Ipaddr.dot :: sprintf_u b ++ Ipaddr.dot :: sprintf_u c ++
     Ipaddr.dot :: sprintf_u d ++ []) = htonl (word_of_bytes a b c d).
Proof.
  intros Ha Hb Hc Hd. unfold Ipaddr.iso_class_parse.
  assert (Hlit : forall s f, sscanf (Ipaddr.dot :: s) (FLit Ipaddr.dot :: f) = sscanf s f)
    by reflexivity.
  rewrite sscanf_uint, Hlit by (reflexivity || lia).
  rewrite sscanf_uint, Hlit by (reflexivity || lia).
  rewrite sscanf_uint, Hlit by (reflexivity || lia).
  rewrite sscanf_uint by (reflexivity || lia). cbn [sscanf].
  rewrite !shiftl_byte_u32 by lia. by rewrite lor_bytes by lia.
Qed.

(** C34: Parsing the printed form of an IP address class gives the class back, for every 32-bit
    address. *)
Theorem ipaddr_parse_show (klass : Z) :
  is_u32 klass -> Ipaddr.iso_class_parse (Ipaddr.iso_class_show klass) = klass.
Proof.
  intros Hk. rewrite ipaddr_show_bytes by done.
  rewrite ipaddr_parse_bytes by apply byte_of_range.
  rewrite word_of_bytes_of by (by apply htonl_range). by apply htonl_invol.
Qed.

Lemma mark_parse_show klass :
  is_u32 klass -> Mark.iso_class_parse (Mark.iso_class_show klass) = klass.
Proof.
  intros Hk. unfold Mark.iso_class_parse, Mark.iso_class_show.
  rewrite <- (app_nil_r (sprintf_d _)).
  pose proof (s32_range klass) as Hr. unfold is_s32 in Hr.
  rewrite sscanf_int by (reflexivity || lia). cbn. rewrite u32_s32. by apply u32_small.
Qed.

Lemma l4port_parse_show klass :
  is_u16 klass -> L4port.iso_class_parse (L4port.iso_class_show klass) = klass.
Proof.
  intros Hk. unfold L4port.iso_class_parse, L4port.iso_class_show.
  rewrite <- (app_nil_r (sprintf_u _)).
  pose proof (htons_range klass) as Hr. unfold is_u16 in Hr.
  rewrite sscanf_uint by (reflexivity || lia). cbn. by apply htons_invol.
Qed.

(** Parsing the printed form gives the class back for every 32-bit mark and every 16-bit port. *)
Theorem mark_l4port_parse_show (klass : Z) :
  (is_u32 klass -> Mark.iso_class_parse (Mark.iso_class_show klass) = klass) /\
  (is_u16 klass -> L4port.iso_class_parse (L4port.iso_class_show klass) = klass).
Proof. split; [apply mark_parse_show|apply l4port_parse_show]. Qed.
End Laws.

Lemma ipaddr_parse_show_witness :
  Ipaddr.iso_class_parse (K := ref_kernel)
    (Ipaddr.iso_class_show (K := ref_kernel) 33686018) = 33686018.
Proof. apply (ipaddr_parse_show (K := ref_kernel) 33686018). unfold is_u32; lia. Defined.

Lemma mark_l4port_parse_show_witness :
  Mark.iso_class_parse (Mark.iso_class_show 4294967290) = 4294967290 /\
  L4port.iso_class_parse (K := ref_kernel) (L4port.iso_class_show (K := ref_kernel) 20480) = 20480.
Proof.
  split.
  - apply (mark_l4port_parse_show (K := ref_kernel) 4294967290). unfold is_u32; lia.
  - apply (mark_l4port_parse_show (K := ref_kernel) 20480). unfold is_u16; lia.
Defined.

Example ipaddr_show_example :
  Ipaddr.iso_class_show (K := ref_kernel) 16777226 = list_ascii_of_string "10.0.0.1".
Proof. reflexivity. Qed.
