(* ===== verification/ClassVariants.v ===== *)
(** * Classes by Ethernet address and by device (class.h)

    The two variants of class.h whose classes are not plain numbers: a source
    address of six octets, kept as the 48-bit number whose first octet is the
    most significant, and the address of a [struct net_device].  What they use
    of the kernel is [MacKernel] and [DevKernel]. *)

From Stdlib Require Import Ascii String.
From S2P Require Import Prelude Params Kernel Packet Scan Class.

Open Scope Z_scope.

(** [%02x] of an octet. *)
Definition hex_digit (n : Z) : ascii := if n <? 10 then char (48 + n) else char (87 + n).
Definition sprintf_02x (n : Z) : cstring := [hex_digit (n / 16); hex_digit (n mod 16)].

(** The value of a hexadecimal digit. *)
Definition hex_val (c : ascii) : option Z :=
  let n := code c in
  if (48 <=? n) && (n <=? 57) then Some (n - 48)
  else if (97 <=? n) && (n <=? 102) then Some (n - 87)
  else if (65 <=? n) && (n <=? 70) then Some (n - 55)
  else None.

Definition colon : ascii := ":"%char.

(** [memcmp] of two buffers of the same length. *)
Fixpoint memcmp (a b : list Z) : Z :=
  match a, b with
  | x :: a, y :: b => if x =? y then memcmp a b else x - y
  | _, _ => 0
  end.

Definition ETH_ALEN : nat := 6.

(** What the Ethernet classes use: [jhash] of a buffer with an initial value, and
    [mac_pton], which writes six octets or nothing. *)
Class MacKernel := {
  jhash : list Z -> Z -> Z;
  mac_pton : cstring -> option (list Z)
}.

(** [mac_pton] reads six groups of two hexadecimal digits, separated by colons. *)
Class MacKernelLaws (M : MacKernel) : Prop := {
  mac_pton_octets s l : mac_pton s = Some l -> length l = ETH_ALEN /\ Forall (fun o => 0 <= o < 256) l;
  mac_pton_reads a0 a1 b0 b1 c0 c1 d0 d1 e0 e1 f0 f1 va0 va1 vb0 vb1 vc0 vc1 vd0 vd1 ve0 ve1 vf0 vf1 :
    map hex_val [a0; a1; b0; b1; c0; c1; d0; d1; e0; e1; f0; f1] =
      map Some [va0; va1; vb0; vb1; vc0; vc1; vd0; vd1; ve0; ve1; vf0; vf1] ->
    mac_pton [a0; a1; colon; b0; b1; colon; c0; c1; colon; d0; d1; colon; e0; e1; colon; f0; f1] =
      Some [va0 * 16 + va1; vb0 * 16 + vb1; vc0 * 16 + vc1; vd0 * 16 + vd1; ve0 * 16 + ve1; vf0 * 16 + vf1]
}.

(** ** ISO_TX_CLASS_ETHER_SRC *)
Module EtherSrc.
Section EtherSrc.
Context {M : MacKernel}.

(** The octets of a class, and the class of six octets. *)
Definition addr (klass : Z) : list Z :=
  [byte_of 5 klass; byte_of 4 klass; byte_of 3 klass; byte_of 2 klass; byte_of 1 klass; byte_of 0 klass].
Definition of_octets (l : list Z) : Z := fold_left (fun acc o => acc * 256 + o) l 0.

Definition iso_txc_classify (skb : sk_buff) : Z := h_source (skb_eth skb).
Definition iso_class_cmp (a b : Z) : Z := memcmp (addr a) (addr b).
Definition iso_class_hash (klass : Z) : Z := jhash (addr klass) 0.

Definition iso_class_show (klass : Z) : cstring :=
  match addr klass with
  | [o0; o1; o2; o3; o4; o5] =>
      sprintf_02x o0 ++ colon :: sprintf_02x o1 ++ colon :: sprintf_02x o2 ++ colon ::
      sprintf_02x o3 ++ colon :: sprintf_02x o4 ++ colon :: sprintf_02x o5
  | _ => []
  end.

Definition iso_class_parse (hwaddr : cstring) : Z :=
  let ret := 0 in
  match mac_pton hwaddr with Some l => of_octets l | None => ret end.

Definition iso_rx_classify (skb : sk_buff) : Z := h_dest (skb_eth skb).

#[export] Instance ops : IsoClass := {|
  op_txc_classify := iso_txc_classify;
  op_rx_classify := iso_rx_classify;
  op_cmp := iso_class_cmp;
  op_hash := iso_class_hash;
  op_show := iso_class_show;
  op_parse := iso_class_parse
|}.
End EtherSrc.
End EtherSrc.

(** ** ISO_TX_CLASS_DEV *)

(** What the device classes use: where a device is, [dev_get_by_name_rcu] (0 is
    NULL), and [%p]. *)
Class DevKernel := {
  dev_addr : nat -> Z;
  dev_get_by_name_rcu : cstring -> Z;
  sprintf_p : Z -> cstring
}.

Module Dev.
Section Dev.
Context {D : DevKernel}.

(** The reference counts of the devices, by address. *)
Local Abbreviation refcnts := (gmap Z Z).

Definition dev_put (dev : Z) (r : refcnts) : outcome refcnts :=
  match r !! dev with
  | Some n => mret (<[dev := n - 1]> r)
  | None => Oops BadPointer
  end.

Definition iso_txc_classify (pkt : sk_buff) : Z := dev_addr (skb_dev pkt).
Definition iso_class_free (klass : Z) (r : refcnts) : outcome refcnts := dev_put klass r.
Definition iso_class_cmp (a b : Z) : Z := s32 (u64 (a - b)).
Definition iso_class_hash (klass : Z) : Z := u32 (Z.shiftr klass 12).
Definition iso_class_show (klass : Z) : cstring := sprintf_p klass.

(** [iso_class_parse(devname)]; the lookup takes no reference. *)
Definition iso_class_parse (devname : cstring) (r : refcnts) : outcome (Z * refcnts) :=
  let dev := dev_get_by_name_rcu devname in
  r ← dev_put dev r;
  mret (dev, r).

Definition iso_rx_classify (skb : sk_buff) : Z := dev_addr (skb_dev skb).
End Dev.
End Dev.

(** ** Ethernet addresses *)

Definition is_mac (klass : Z) : Prop := 0 <= klass < 2 ^ 48.

Lemma memcmp_zero a : forall b, length a = length b -> memcmp a b = 0 <-> a = b.
Proof.
  induction a as [|x a IH]; intros [|y b] Hl; try discriminate Hl; [done|]. cbn [memcmp]. injection Hl as Hl.
  destruct (Z.eqb_spec x y) as [->|Hne].
  - rewrite (IH b Hl). split; [by intros ->|by intros [= ->]].
  - split; [lia|]. intros [= ->]. done.
Qed.

Lemma of_octets_addr klass : is_mac klass -> EtherSrc.of_octets (EtherSrc.addr klass) = klass.
Proof.
  unfold is_mac, EtherSrc.of_octets, EtherSrc.addr, byte_of. intros H. cbn [fold_left].
  change (8 * 5) with 40. change (8 * 4) with 32. change (8 * 3) with 24. change (8 * 2) with 16.
  change (8 * 1) with 8. change (8 * 0) with 0. change (2 ^ 48) with 281474976710656 in H.
  change (2 ^ 40) with 1099511627776. change (2 ^ 32) with 4294967296. change (2 ^ 24) with 16777216.
  change (2 ^ 16) with 65536. change (2 ^ 8) with 256. change (2 ^ 0) with 1.
  Z.div_mod_to_equations. lia.
Qed.

Lemma of_octets_mac l : length l = ETH_ALEN -> Forall (fun o => 0 <= o < 256) l -> is_mac (EtherSrc.of_octets l).
Proof.
  destruct l as [|a [|b [|c [|d [|e [|f [|]]]]]]]; try discriminate. intros _ H. rewrite !Forall_cons in H.
  unfold is_mac, EtherSrc.of_octets. cbn [fold_left]. change (2 ^ 48) with 281474976710656. lia.
Qed.

Lemma hex_val_digit n : 0 <= n < 16 -> hex_val (hex_digit n) = Some n.
Proof.
  intros Hn. assert (E : forallb (fun k => bool_decide (hex_val (hex_digit k) = Some k)) (map Z.of_nat (seq 0 16)) = true)
    by (vm_compute; reflexivity).
  rewrite forallb_forall in E. specialize (E n). rewrite bool_decide_eq_true in E. apply E.
  apply in_map_iff. exists (Z.to_nat n). split; [lia|]. apply in_seq. lia.
Qed.

Lemma byte_of_bound k x : 0 <= byte_of k x / 16 < 16 /\ 0 <= byte_of k x mod 16 < 16 /\
  byte_of k x / 16 * 16 + byte_of k x mod 16 = byte_of k x.
Proof. pose proof (byte_of_range k x). Z.div_mod_to_equations. lia. Qed.

Section Ether.
Context {M : MacKernel} {ML : MacKernelLaws M}.

#[export] Instance ether_laws : IsoClassLaws EtherSrc.ops is_mac.
Proof.
  split.
  - intros a b Ha Hb. change (EtherSrc.iso_class_cmp a b = 0 <-> a = b). unfold EtherSrc.iso_class_cmp.
    rewrite memcmp_zero by done. split; [|by intros ->]. intros E.
    by rewrite <-(of_octets_addr a Ha), <-(of_octets_addr b Hb), E.
  - intros s. change (is_mac (EtherSrc.iso_class_parse s)). unfold EtherSrc.iso_class_parse.
    destruct (mac_pton s) as [l|] eqn:E; [|unfold is_mac; lia].
    apply mac_pton_octets in E as [Hl Ho]. by apply of_octets_mac.
Qed.

(** Parsing the printed form of an Ethernet address class gives the class back. *)
Theorem ether_parse_show klass :
  is_mac klass -> EtherSrc.iso_class_parse (EtherSrc.iso_class_show klass) = klass.
Proof.
  intros Hk. unfold EtherSrc.iso_class_parse, EtherSrc.iso_class_show, sprintf_02x. cbn [EtherSrc.addr app].
  pose proof (byte_of_bound 0 klass). pose proof (byte_of_bound 1 klass). pose proof (byte_of_bound 2 klass).
  pose proof (byte_of_bound 3 klass). pose proof (byte_of_bound 4 klass). pose proof (byte_of_bound 5 klass).
  erewrite mac_pton_reads by (cbn [map]; rewrite !hex_val_digit by tauto; reflexivity).
  repeat match goal with H : _ /\ _ /\ _ = _ |- _ => destruct H as (_ & _ & ->) end.
  exact (of_octets_addr klass Hk).
Qed.
End Ether.

(** ** Devices *)

(** The comparison of device classes looks at the low 32 bits of the addresses only, so two
    devices 4 GB apart compare equal. *)
Theorem dev_cmp_exact a b : Dev.iso_class_cmp a b = 0 <-> u32 a = u32 b.
Proof.
  unfold Dev.iso_class_cmp. Transparent s32 u32 u64. unfold s32, u32, u64. Opaque s32 u32 u64.
  split; intros H; Z.div_mod_to_equations; lia.
Qed.

(** Parsing the name of a device that does not exist dereferences NULL; creating and freeing a
    class for a device that exists drops two references to it and takes none. *)
Theorem dev_class_references {D : DevKernel} (devname : cstring) (r : gmap Z Z) :
  let dev := dev_get_by_name_rcu devname in
  match r !! dev with
  | None => Dev.iso_class_parse devname r = Oops BadPointer
  | Some n =>
      exists r', Dev.iso_class_parse devname r = Ok (dev, r') /\ r' !! dev = Some (n - 1) /\
        exists r'', Dev.iso_class_free dev r' = Ok r'' /\ r'' !! dev = Some (n - 2) /\
          forall d, d <> dev -> r'' !! d = r !! d
  end.
Proof.
  intros dev. unfold Dev.iso_class_parse, Dev.iso_class_free, Dev.dev_put. fold dev.
  destruct (r !! dev) as [n|] eqn:E; [|done]. cbn [mbind outcome_bind mret outcome_ret].
  eexists. split; [reflexivity|]. rewrite lookup_insert_eq. split; [done|]. eexists. split; [reflexivity|].
  rewrite lookup_insert_eq. split; [f_equal; lia|]. intros d Hd. by rewrite !lookup_insert_ne by done.
Qed.

(** ** A parser of addresses *)

Definition ref_mac_pton (s : cstring) : option (list Z) :=
  match s with
  | a0 :: a1 :: x1 :: b0 :: b1 :: x2 :: c0 :: c1 :: x3 :: d0 :: d1 :: x4 :: e0 :: e1 :: x5 :: f0 :: f1 :: _ =>
      match map hex_val [a0; a1; b0; b1; c0; c1; d0; d1; e0; e1; f0; f1],
            forallb (Ascii.eqb colon) [x1; x2; x3; x4; x5] with
      | [Some va0; Some va1; Some vb0; Some vb1; Some vc0; Some vc1; Some vd0; Some vd1; Some ve0; Some ve1;
         Some vf0; Some vf1], true =>
          Some [va0 * 16 + va1; vb0 * 16 + vb1; vc0 * 16 + vc1; vd0 * 16 + vd1; ve0 * 16 + ve1; vf0 * 16 + vf1]
      | _, _ => None
      end
  | _ => None
  end.

#[export] Instance ref_mac : MacKernel := {|
  jhash := fold_left (fun h o => u32 (h * 31 + o));
  mac_pton := ref_mac_pton
|}.

Lemma hex_val_range c v : hex_val c = Some v -> 0 <= v < 16.
Proof. unfold hex_val. repeat case_match; intros [= <-]; lia. Qed.

#[export] Instance ref_mac_laws : MacKernelLaws ref_mac.
Proof.
  split.
  - intros s l. cbn [mac_pton ref_mac]. unfold ref_mac_pton.
    do 17 (destruct s as [|? s]; [done|]). cbn [map].
    repeat match goal with |- context [hex_val ?c] => destruct (hex_val c) eqn:?; [|done] end.
    destruct (forallb _ _); [|done]. intros [= <-]. split; [done|].
    repeat match goal with H : hex_val _ = Some _ |- _ => apply hex_val_range in H end.
    repeat constructor; lia.
  - intros * H. cbn [map] in H. injection H. intros. cbn [mac_pton ref_mac]. unfold ref_mac_pton. cbn [map].
    repeat match goal with H : hex_val _ = Some _ |- _ => rewrite H; clear H end. done.
Qed.

Lemma ether_parse_show_witness :
  EtherSrc.iso_class_show 1108152157446 = list_ascii_of_string "01:02:03:04:05:06" /\
  EtherSrc.iso_class_parse (M := ref_mac) (list_ascii_of_string "01:02:03:04:05:06") = 1108152157446.
Proof.
  split; [vm_compute; reflexivity|].
  exact (ether_parse_show (M := ref_mac) 1108152157446 ltac:(unfold is_mac; lia)).
Defined.
