(* ===== verification/RateControl.v ===== *)
(** * The AIMD rate controller (rc.h, rc.c)

    A destination's rate [rfair] moves between [ISO_MIN_RFAIR] and
    [ISO_MAX_TX_RATE]: a feedback packet cuts it, the absence of feedback
    recovers it towards the rate before the cut and then increases it
    additively.  Updates are guarded by an optimistic test, a try-lock and a
    second test under the lock. *)

From S2P Require Import Prelude Params Kernel Packet.

Open Scope Z_scope.

Record iso_rc_stats := { rcs_num_marked : Z; rcs_num_rx : Z }.

Inductive iso_rc := RC_FAST_RECOVERY | RC_AI.

#[export] Instance iso_rc_eq_dec : EqDecision iso_rc.
Proof. solve_decision. Defined.

Record iso_rc_state := {
  rc_rfair : Z;                     (** u64, Mb/s *)
  rc_rfair_target : Z;              (** u64 *)
  rc_state : iso_rc;
  rc_alpha : Z;                     (** u64 *)
  rc_count : Z;                     (** int *)
  rc_stats : percpu iso_rc_stats;
  rc_last_rfair_change_time : Z;    (** ktime_t *)
  rc_last_rfair_decrease_time : Z;
  rc_last_feedback_time : Z
}.

Section RateControl.
Context {K : Kernel} {P : params}.

(** The three times are the three calls of [ktime_get]. *)
Definition iso_rc_init (t1 t2 t3 : Z) (rc : iso_rc_state) : iso_rc_state :=
  {| rc_rfair := u64 ISO_RFAIR_INITIAL;
     rc_rfair_target := u64 ISO_RFAIR_INITIAL;
     rc_alpha := 0;
     rc_count := 0;
     rc_state := RC_AI;
     rc_last_rfair_change_time := t1;
     rc_last_rfair_decrease_time := t2;
     rc_last_feedback_time := t3;
     rc_stats := pc_update (fun _ => {| rcs_num_marked := 0; rcs_num_rx := 0 |})
                   possible_cpus (rc_stats rc) |}.

Definition iso_rc_tx (rc : iso_rc_state) (skb : sk_buff) : Z := 0.

Definition iso_rc_do_ai (rc : iso_rc_state) : iso_rc_state :=
  {| rc with rc_rfair :=
       Z.min (u64 ISO_MAX_TX_RATE) (u64 (rc_rfair rc + u64 ISO_RFAIR_INCREMENT)) |}.

Definition iso_rc_do_md (rc : iso_rc_state) : outcome iso_rc_state :=
  let den := u64 (s32 (2048 * ISO_FALPHA)) in
  r ← div_u (u64 (rc_rfair rc * u64 (den - rc_alpha rc))) den;
  mret {| rc with rc_rfair := Z.max (u64 ISO_MIN_RFAIR) r |}.

Definition MUL31 (x : Z) : Z := u64 (u64 (Z.shiftl x 5) - x).
Definition DIV32 (x : Z) : Z := Z.shiftr x 5.
Definition EWMA_G32 (old new : Z) : Z := DIV32 (u64 (MUL31 old + new)).

Definition iso_rc_do_alpha (rc : iso_rc_state) : iso_rc_state :=
  let num_marked := pc_sum u64 rcs_num_marked (rc_stats rc) online_cpus in
  let num_rx := pc_sum u64 rcs_num_rx (rc_stats rc) online_cpus in
  let stats := pc_update (fun _ => {| rcs_num_marked := 0; rcs_num_rx := 0 |})
                 online_cpus (rc_stats rc) in
  let frac := if num_rx =? 0 then 0 else u64 (1024 * num_marked) / num_rx in
  {| rc with rc_stats := stats; rc_alpha := EWMA_G32 (rc_alpha rc) frac |}.

(** After a long idle period the rate restarts at [ISO_IDLE_RATE]. *)
Definition iso_rc_idle_reset (idle : bool) (rc : iso_rc_state) : iso_rc_state :=
  if idle && (ISO_IDLE_RATE <? rc_rfair rc)
  then {| rc with rc_rfair := ISO_IDLE_RATE; rc_rfair_target := ISO_IDLE_RATE |}
  else rc.

(** The locked section of a marked packet, between the second test and
    [done_decrease]. *)
Definition iso_rc_decrease (marked now : Z) (rc : iso_rc_state) : iso_rc_state :=
  let idle := ISO_IDLE_TIMEOUT_US <? ktime_us_delta now (rc_last_rfair_change_time rc) in
  let rc := iso_rc_idle_reset idle rc in
  let target := rc_rfair rc in
  let rc := {| rc with rc_count := 0; rc_alpha := u64 marked |} in
  let rc := {| rc with rc_rfair := u64 (rc_rfair rc * u64 (s32 (512 - marked))) / 512 |} in
  let rc := {| rc with rc_rfair := Z.max (u64 ISO_MIN_RFAIR) (rc_rfair rc) |} in
  {| rc with rc_last_rfair_decrease_time := now;
             rc_state := RC_FAST_RECOVERY;
             rc_rfair_target := target |}.

(** The locked section of an unmarked packet, up to [done_increase]. *)
Definition iso_rc_increase (dt : Z) (rc : iso_rc_state) : iso_rc_state :=
  let idle := u64 ISO_IDLE_TIMEOUT_US <? dt in
  let rc := iso_rc_idle_reset idle rc in
  if bool_decide (rc_state rc = RC_FAST_RECOVERY) && (rc_count rc <? 5) then
    {| rc with rc_rfair := u64 (rc_rfair rc + rc_rfair_target rc) / 2;
               rc_count := s32 (rc_count rc + 1) |}
  else
    let rc := {| rc with rc_state := RC_AI; rc_count := 0 |} in
    let rc := iso_rc_do_ai rc in
    {| rc with rc_rfair_target := rc_rfair rc |}.

(** [iso_rc_rx(rc, skb)] on [cpu].  [now] is the value of [ktime_get],
    [trylock] whether the spin lock was free, and [others] what the other CPUs
    did to the shared structure between the optimistic test and the lock. *)
Definition iso_rc_rx (others : iso_rc_state -> iso_rc_state) (trylock : bool)
    (now : Z) (cpu : nat) (rc : iso_rc_state) (skb : sk_buff) : Z * iso_rc_state :=
  let marked := skb_has_feedback skb in
  let st := rc_stats rc cpu in
  let st := {| st with rcs_num_rx := u64 (rcs_num_rx st + 1) |} in
  let rc := {| rc with rc_stats := pc_set cpu st (rc_stats rc) |} in
  if negb (marked =? 0) then
    let dt := u64 (ktime_us_delta now (rc_last_rfair_decrease_time rc)) in
    let st := {| st with rcs_num_marked := u64 (rcs_num_marked st + 1) |} in
    let rc := {| rc with rc_stats := pc_set cpu st (rc_stats rc) |} in
    if u64 ISO_RFAIR_DECREASE_INTERVAL_US <? dt then
      if negb trylock then (0, rc)
      else
        let rc := others rc in
        let dt := u64 (ktime_us_delta now (rc_last_rfair_decrease_time rc)) in
        let rc := if dt <? u64 ISO_RFAIR_DECREASE_INTERVAL_US then rc
                  else iso_rc_decrease marked now rc in
        (1, {| rc with rc_last_rfair_change_time := now |})
    else (0, rc)
  else
    let dt := u64 (ktime_us_delta now (rc_last_rfair_change_time rc)) in
    if u64 ISO_RFAIR_INCREASE_INTERVAL_US <? dt then
      if negb trylock then (0, rc)
      else
        let rc := others rc in
        let dt := u64 (ktime_us_delta now (rc_last_rfair_change_time rc)) in
        let rc := if dt <? u64 ISO_RFAIR_INCREASE_INTERVAL_US then rc
                  else iso_rc_increase dt rc in
        (1, {| rc with rc_last_rfair_change_time := now |})
    else (0, rc).
End RateControl.

(** ** The rate stays between its bounds *)

Section RateControlProps.
Context {K : Kernel} {P : params} {PO : params_ok P}.

Record rc_ok (rc : iso_rc_state) : Prop := {
  rc_ok_rfair : ISO_MIN_RFAIR <= rc_rfair rc <= ISO_MAX_TX_RATE;
  rc_ok_target : ISO_MIN_RFAIR <= rc_rfair_target rc <= ISO_MAX_TX_RATE;
  rc_ok_count : 0 <= rc_count rc <= 5
}.

Lemma iso_rc_init_ok t1 t2 t3 rc : rc_ok (iso_rc_init t1 t2 t3 rc).
Proof. pok. split; cbn; wrap; lia. Qed.

Lemma idle_reset_ok idle rc : rc_ok rc -> rc_ok (iso_rc_idle_reset idle rc).
Proof.
  pok. intros [Hr Ht Hc]. unfold iso_rc_idle_reset, ISO_IDLE_RATE.
  destruct idle; cbn; [|by split]. destruct (Z.ltb_spec 2500 (rc_rfair rc)); [|by split].
  split; cbn; lia.
Qed.

Lemma idle_reset_le idle rc : rc_rfair (iso_rc_idle_reset idle rc) <= rc_rfair rc.
Proof.
  unfold iso_rc_idle_reset, ISO_IDLE_RATE.
  destruct idle; cbn; [|lia]. destruct (Z.ltb_spec 2500 (rc_rfair rc)); cbn; lia.
Qed.

(** The cut, as arithmetic on the rate after the idle reset. *)
Lemma rc_cut_eq marked r :
  0 <= marked <= 512 -> 0 <= r <= 20000 ->
  u64 (r * u64 (s32 (512 - marked))) / 512 = r * (512 - marked) / 512.
Proof. intros Hm Hr. rewrite s32_small by lia.
  rewrite (u64_small (512 - marked)) by lia. by rewrite u64_small by nia. Qed.

Lemma rc_cut_le marked r : 0 <= marked <= 512 -> 0 <= r -> r * (512 - marked) / 512 <= r.
Proof. intros Hm Hr. apply Z.div_le_upper_bound; nia. Qed.

Lemma iso_rc_decrease_ok marked now rc :
  0 <= marked <= 512 -> rc_ok rc -> rc_ok (iso_rc_decrease marked now rc).
Proof.
  pok. intros Hm Hok. unfold iso_rc_decrease. cbv zeta.
  set (r := iso_rc_idle_reset _ rc).
  assert (Hr : rc_ok r) by (by apply idle_reset_ok). clearbody r. destruct Hr as [Hr Ht Hc].
  split; cbn; [|lia|lia].
  rewrite rc_cut_eq, u64_small by lia.
  pose proof (rc_cut_le marked (rc_rfair r) Hm). lia.
Qed.

Lemma iso_rc_increase_ok dt rc : rc_ok rc -> rc_ok (iso_rc_increase dt rc).
Proof.
  pok. intros Hok. unfold iso_rc_increase. cbv zeta.
  set (r := iso_rc_idle_reset _ rc).
  assert (Hr : rc_ok r) by (by apply idle_reset_ok). clearbody r. destruct Hr as [Hr Ht Hc].
  destruct (bool_decide _ && _) eqn:E.
  - apply andb_prop in E as [_ E]. apply Z.ltb_lt in E.
    split; cbn; [|lia|rewrite s32_small by lia; lia].
    rewrite u64_small by lia. Z.div_mod_to_equations; lia.
  - split; cbn; [| |lia]; rewrite (u64_small ISO_RFAIR_INCREMENT), !u64_small by lia; lia.
Qed.

(** C11: Whatever the other CPUs do that keeps the controller well-formed, a received packet
    keeps the rate and its target between ISO_MIN_RFAIR and ISO_MAX_TX_RATE, for feedback values
    up to 512. *)
Theorem iso_rc_rx_bounds (others : iso_rc_state -> iso_rc_state) (trylock : bool)
    (now : Z) (cpu : nat) (rc : iso_rc_state) (skb : sk_buff) :
  rc_ok rc ->
  (forall r, rc_ok r -> rc_ok (others r)) ->
  0 <= skb_has_feedback skb <= 512 ->
  rc_ok (snd (iso_rc_rx others trylock now cpu rc skb)).
Proof.
  intros Hok Hoth Hm. unfold iso_rc_rx.
  assert (Hst : forall s, rc_ok {| rc with rc_stats := s |}) by (intros s; by destruct Hok).
  assert (Htime : forall r t, rc_ok r -> rc_ok {| r with rc_last_rfair_change_time := t |})
    by (intros r t Hr; by destruct Hr).
  destruct (negb (skb_has_feedback skb =? 0));
    repeat (match goal with |- context [if ?b then _ else _] => destruct b end; cbn [snd]);
    try apply Htime; try apply Hoth; auto using iso_rc_decrease_ok, iso_rc_increase_ok.
Qed.

(** The rate that a cut starts from: a controller that did not change for longer than
    [ISO_IDLE_TIMEOUT_US] restarts at [ISO_IDLE_RATE] when it was above it. *)
Definition rc_base (now : Z) (rc : iso_rc_state) : Z :=
  if decide (ISO_IDLE_TIMEOUT_US < ktime_us_delta now (rc_last_rfair_change_time rc))
  then Z.min (rc_rfair rc) ISO_IDLE_RATE else rc_rfair rc.

(** C12: A cut with feedback m of 512 (0 < m <= 512) makes the rate max(ISO_MIN_RFAIR, base *
    (512 - m) / 512), where base is the current rate, or at most ISO_IDLE_RATE when the rate
    last changed more than ISO_IDLE_TIMEOUT_US ago; the rate never goes up, base becomes the
    target of fast recovery, which starts anew, and the time of the cut is recorded. *)
Theorem iso_rc_decrease_control_law (marked now : Z) (rc : iso_rc_state) :
  rc_ok rc -> 0 < marked <= 512 ->
  let rc' := iso_rc_decrease marked now rc in
  rc_rfair rc' = Z.max ISO_MIN_RFAIR (rc_base now rc * (512 - marked) / 512) /\
  rc_rfair rc' <= rc_rfair rc /\
  rc_rfair_target rc' = rc_base now rc /\
  rc_state rc' = RC_FAST_RECOVERY /\ rc_count rc' = 0 /\
  rc_last_rfair_decrease_time rc' = now.
Proof.
  pok. intros Hok Hm. cbv zeta. unfold iso_rc_decrease. set (idle := ISO_IDLE_TIMEOUT_US <? _).
  assert (Hb : rc_rfair (iso_rc_idle_reset idle rc) = rc_base now rc).
  { unfold iso_rc_idle_reset, rc_base, idle. destruct (Z.ltb_spec ISO_IDLE_TIMEOUT_US (ktime_us_delta now (rc_last_rfair_change_time rc)));
      [rewrite decide_True by done|by rewrite decide_False by lia].
    cbn [andb]. destruct (Z.ltb_spec ISO_IDLE_RATE (rc_rfair rc)); cbn [rc_rfair]; lia. }
  pose proof (idle_reset_le idle rc) as Hle. destruct (idle_reset_ok idle rc Hok) as [Hr Ht Hc]. rewrite Hb in *.
  cbn [rc_rfair rc_rfair_target rc_state rc_count rc_last_rfair_decrease_time]. rewrite ?Hb, rc_cut_eq, u64_small by lia.
  pose proof (rc_cut_le marked (rc_base now rc) ltac:(lia) ltac:(lia)). repeat split; lia.
Qed.

(** One recovery step without idling. *)
Lemma recovery_step dt rc :
  rc_ok rc -> rc_state rc = RC_FAST_RECOVERY -> rc_count rc < 5 ->
  dt <= ISO_IDLE_TIMEOUT_US ->
  let rc' := iso_rc_increase dt rc in
  rc_rfair rc' = (rc_rfair rc + rc_rfair_target rc) / 2 /\
  rc_rfair_target rc' = rc_rfair_target rc /\
  rc_state rc' = RC_FAST_RECOVERY /\ rc_count rc' = rc_count rc + 1.
Proof.
  pok. intros [Hr Ht Hc] Hs Hcount Hdt. cbv zeta. unfold iso_rc_increase.
  unfold ISO_IDLE_TIMEOUT_US in *. rewrite (u64_small (100 * 1000 * 10 * 1000)) by lia.
  replace (100 * 1000 * 10 * 1000 <? dt) with false by (symmetry; apply Z.ltb_ge; lia).
  cbn [iso_rc_idle_reset andb]. rewrite bool_decide_true by done.
  replace (rc_count rc <? 5) with true by (symmetry; by apply Z.ltb_lt). cbn.
  rewrite s32_small, u64_small by lia. done.
Qed.

(** A recovery step after idling. *)
Lemma recovery_restart dt rc :
  rc_state rc = RC_FAST_RECOVERY -> rc_count rc < 5 -> ISO_IDLE_TIMEOUT_US < dt -> ISO_IDLE_RATE < rc_rfair rc ->
  rc_rfair (iso_rc_increase dt rc) = ISO_IDLE_RATE /\ rc_rfair_target (iso_rc_increase dt rc) = ISO_IDLE_RATE.
Proof.
  intros Hs Hc Hdt Hr. unfold iso_rc_increase, iso_rc_idle_reset, ISO_IDLE_TIMEOUT_US in *.
  rewrite (u64_small (100 * 1000 * 10 * 1000)) by lia. rewrite (proj2 (Z.ltb_lt _ dt)), (proj2 (Z.ltb_lt _ (rc_rfair rc))) by lia.
  cbn [andb rc_state rc_count]. rewrite bool_decide_true by done. rewrite (proj2 (Z.ltb_lt (rc_count rc) 5)) by lia.
  cbn [andb rc_rfair rc_rfair_target]. unfold ISO_IDLE_RATE. by rewrite u64_small by lia.
Qed.

(** The rate controller after a list of unmarked intervals. *)
Definition recover (dts : list Z) (rc : iso_rc_state) : iso_rc_state :=
  fold_left (fun rc dt => iso_rc_increase dt rc) dts rc.

Lemma recover_gap dts rc :
  rc_ok rc -> rc_state rc = RC_FAST_RECOVERY ->
  rc_rfair rc <= rc_rfair_target rc ->
  rc_count rc + Z.of_nat (length dts) <= 5 ->
  Forall (fun dt => dt <= ISO_IDLE_TIMEOUT_US) dts ->
  let rc' := recover dts rc in
  rc_rfair_target rc' = rc_rfair_target rc /\
  rc_rfair rc <= rc_rfair rc' <= rc_rfair_target rc /\
  2 ^ Z.of_nat (length dts) * (rc_rfair_target rc - rc_rfair rc') <=
    (rc_rfair_target rc - rc_rfair rc) + 2 ^ Z.of_nat (length dts) - 1 /\
  rc_count rc' = rc_count rc + Z.of_nat (length dts).
Proof.
  revert rc. induction dts as [|dt dts IH]; intros rc Hok Hs Hle Hcount Hall; cbv zeta.
  - cbn -[Z.pow]. change (2 ^ 0) with 1. lia.
  - inversion Hall as [|? ? Hdt Hall']; subst. clear Hall.
    cbn [length] in Hcount |- *. rewrite Nat2Z.inj_succ in Hcount |- *.
    destruct (recovery_step dt rc Hok Hs ltac:(lia) Hdt) as (Hr & Ht & Hst & Hc).
    pose proof (iso_rc_increase_ok dt rc Hok) as Hok'.
    cbn [recover fold_left]. change (fold_left (fun rc dt => iso_rc_increase dt rc) dts
      (iso_rc_increase dt rc)) with (recover dts (iso_rc_increase dt rc)).
    assert (Hmid : rc_rfair rc <= rc_rfair (iso_rc_increase dt rc) <= rc_rfair_target rc /\
      2 * (rc_rfair_target rc - rc_rfair (iso_rc_increase dt rc)) <=
      rc_rfair_target rc - rc_rfair rc + 1) by (rewrite Hr; Z.div_mod_to_equations; lia).
    destruct (IH (iso_rc_increase dt rc) Hok' Hst ltac:(lia) ltac:(lia) Hall')
      as (It & Ir & Ig & Ic).
    rewrite Z.pow_succ_r by lia. repeat split; lia.
Qed.

(** C13: After a cut, five increases that each come within ISO_IDLE_TIMEOUT_US of the last
    change bring the rate to within 1/32 of the gap plus one of the target without overshooting
    it, and the next such increase is additive; an increase that comes later, in fast recovery
    with a rate above ISO_IDLE_RATE, instead restarts the rate and the target at ISO_IDLE_RATE. *)
Theorem recovery_converges (dts : list Z) (rc : iso_rc_state) :
  rc_ok rc -> rc_state rc = RC_FAST_RECOVERY -> rc_count rc = 0 ->
  rc_rfair rc <= rc_rfair_target rc ->
  length dts = 5%nat -> Forall (fun dt => dt <= ISO_IDLE_TIMEOUT_US) dts ->
  let rc' := recover dts rc in
  rc_rfair rc <= rc_rfair rc' <= rc_rfair_target rc /\
  rc_rfair_target rc - rc_rfair rc' <= (rc_rfair_target rc - rc_rfair rc) / 32 + 1 /\
  (forall dt, dt <= ISO_IDLE_TIMEOUT_US ->
     rc_state (iso_rc_increase dt rc') = RC_AI /\
     rc_rfair (iso_rc_increase dt rc') =
       Z.min ISO_MAX_TX_RATE (rc_rfair rc' + ISO_RFAIR_INCREMENT)) /\
  (forall dt r, rc_ok r -> rc_state r = RC_FAST_RECOVERY -> rc_count r < 5 ->
     ISO_IDLE_TIMEOUT_US < dt -> ISO_IDLE_RATE < rc_rfair r ->
     rc_rfair (iso_rc_increase dt r) = ISO_IDLE_RATE /\ rc_rfair_target (iso_rc_increase dt r) = ISO_IDLE_RATE).
Proof.
  pok. intros Hok Hs Hc Hle Hlen Hall rc'.
  destruct (recover_gap dts rc Hok Hs Hle ltac:(lia) Hall) as (Ht & Hr & Hg & Hcnt).
  fold rc' in Ht, Hr, Hg, Hcnt. rewrite Hlen in *.
  change (2 ^ Z.of_nat 5) with 32 in Hg.
  split; [done|]. split; [Z.div_mod_to_equations; lia|]. split; [|intros dt r _; apply recovery_restart].
  intros dt Hdt. unfold iso_rc_increase, ISO_IDLE_TIMEOUT_US in *.
  rewrite (u64_small (100 * 1000 * 10 * 1000)) by lia.
  replace (100 * 1000 * 10 * 1000 <? dt) with false by (symmetry; apply Z.ltb_ge; lia).
  cbn [iso_rc_idle_reset andb].
  replace (rc_count rc' <? 5) with false by (symmetry; apply Z.ltb_ge; lia).
  rewrite andb_false_r. cbn. pose proof (rc_ok_rfair rc Hok). pose proof (rc_ok_target rc Hok).
  rewrite (u64_small ISO_RFAIR_INCREMENT), !u64_small by lia. done.
Qed.
End RateControlProps.

(** ** Two CPUs in the window between the optimistic test and the lock *)

Section RateControlRace.
Context {K : Kernel} {KL : KernelLaws K} {P : params} {PO : params_ok P}.

(** [rc] after the statistics of a marked packet, the state on which the
    optimistic test of [iso_rc_rx] runs. *)
Definition rc_count_marked (cpu : nat) (rc : iso_rc_state) : iso_rc_state :=
  let st := rc_stats rc cpu in
  let st := {| rcs_num_rx := u64 (rcs_num_rx st + 1);
               rcs_num_marked := u64 (rcs_num_marked st + 1) |} in
  {| rc with rc_stats := pc_set cpu st
       (pc_set cpu {| st with rcs_num_marked := rcs_num_marked (rc_stats rc cpu) |} (rc_stats rc)) |}.

Lemma dt_forward now t :
  t <= now -> (now - t) / 1000 < 18446744073709551616 ->
  u64 (ktime_us_delta now t) = (now - t) / 1000.
Proof.
  intros Hle Hlt. rewrite ktime_us_delta_forward by done. apply u64_small.
  split; [apply Z.div_pos; lia|done].
Qed.

(** A time stamp in the future of [now] makes the unsigned difference huge. *)
Lemma dt_backward now t :
  now + 1000 <= t -> 9223372036854775808 <= u64 (ktime_us_delta now t).
Proof.
  intros Hle. pose proof (ktime_us_delta_backward now t Hle). rewrite u64_neg; lia.
Qed.

Lemma iso_rc_rx_marked_locked others now cpu rc skb :
  skb_has_feedback skb <> 0 ->
  rc_last_rfair_decrease_time rc <= now ->
  ISO_RFAIR_DECREASE_INTERVAL_US < (now - rc_last_rfair_decrease_time rc) / 1000 < 2 ^ 60 ->
  let rc1 := others (rc_count_marked cpu rc) in
  iso_rc_rx others true now cpu rc skb =
  (1, let rc2 := if u64 (ktime_us_delta now (rc_last_rfair_decrease_time rc1)) <?
                    u64 ISO_RFAIR_DECREASE_INTERVAL_US
                 then rc1 else iso_rc_decrease (skb_has_feedback skb) now rc1 in
      {| rc2 with rc_last_rfair_change_time := now |}).
Proof.
  intros Hm Hle Hdt. pose proof pok_dec_int. change (2 ^ 60) with 1152921504606846976 in Hdt.
  cbv zeta. unfold iso_rc_rx.
  replace (skb_has_feedback skb =? 0) with false by (symmetry; by apply Z.eqb_neq).
  cbn [negb rc_last_rfair_decrease_time]. rewrite dt_forward by lia.
  rewrite (u64_small ISO_RFAIR_DECREASE_INTERVAL_US) by lia.
  replace (ISO_RFAIR_DECREASE_INTERVAL_US <? _) with true by (symmetry; apply Z.ltb_lt; lia).
  reflexivity.
Qed.

(** C14: When another CPU cut the rate between the optimistic test and the lock, and not after
    this CPU read the clock, the second test under the lock prevents a second cut. *)
Theorem concurrent_cut_once (others : iso_rc_state -> iso_rc_state) (now tB : Z)
    (cpu : nat) (rc : iso_rc_state) (skb : sk_buff) :
  skb_has_feedback skb <> 0 ->
  rc_last_rfair_decrease_time rc <= now ->
  ISO_RFAIR_DECREASE_INTERVAL_US < (now - rc_last_rfair_decrease_time rc) / 1000 < 2 ^ 60 ->
  let rcB := others (rc_count_marked cpu rc) in
  rc_last_rfair_decrease_time rcB = tB -> tB <= now ->
  (now - tB) / 1000 < ISO_RFAIR_DECREASE_INTERVAL_US ->
  let rc' := snd (iso_rc_rx others true now cpu rc skb) in
  rc_rfair rc' = rc_rfair rcB /\ rc_rfair_target rc' = rc_rfair_target rcB /\
  rc_state rc' = rc_state rcB /\ rc_last_rfair_decrease_time rc' = tB.
Proof.
  intros Hm Hle Hdt rcB HtB HleB HdtB. pose proof pok_dec_int. cbv zeta.
  rewrite iso_rc_rx_marked_locked by done. fold rcB. cbn [snd]. rewrite HtB.
  rewrite dt_forward by lia.
  rewrite (u64_small ISO_RFAIR_DECREASE_INTERVAL_US) by lia.
  replace (_ <? ISO_RFAIR_DECREASE_INTERVAL_US) with true by (symmetry; apply Z.ltb_lt; lia).
  cbn. auto.
Qed.

(** When another CPU cut the rate with a clock reading a microsecond or more later than this
    CPU's, the unsigned time difference wraps, the second test passes and the rate is cut a
    second time. *)
Theorem concurrent_cut_twice (others : iso_rc_state -> iso_rc_state) (now tB : Z)
    (cpu : nat) (rc : iso_rc_state) (skb : sk_buff) :
  skb_has_feedback skb <> 0 ->
  rc_last_rfair_decrease_time rc <= now ->
  ISO_RFAIR_DECREASE_INTERVAL_US < (now - rc_last_rfair_decrease_time rc) / 1000 < 2 ^ 60 ->
  let rcB := others (rc_count_marked cpu rc) in
  rc_last_rfair_decrease_time rcB = tB -> now + 1000 <= tB ->
  rc_rfair (snd (iso_rc_rx others true now cpu rc skb)) =
  rc_rfair (iso_rc_decrease (skb_has_feedback skb) now rcB).
Proof.
  intros Hm Hle Hdt rcB HtB HleB. pose proof pok_dec_int.
  rewrite iso_rc_rx_marked_locked by done. fold rcB. cbn [snd]. rewrite HtB.
  pose proof (dt_backward now tB HleB).
  rewrite (u64_small ISO_RFAIR_DECREASE_INTERVAL_US) by lia.
  replace (_ <? ISO_RFAIR_DECREASE_INTERVAL_US) with false by (symmetry; apply Z.ltb_ge; lia).
  reflexivity.
Qed.

(** ** The marked fraction *)

Lemma ewma32_le old new :
  0 <= old <= 1024 -> 0 <= new <= 1024 -> 0 <= EWMA_G32 old new <= 1024.
Proof.
  intros Ho Hn. unfold EWMA_G32, MUL31, DIV32.
  rewrite Z.shiftl_mul_pow2, Z.shiftr_div_pow2 by lia. change (2 ^ 5) with 32.
  wrap. Z.div_mod_to_equations; lia.
Qed.

(** The moving average of marked packets stays a fraction of 1024 and the per-CPU counters are
    reset. *)
Theorem iso_rc_do_alpha_fraction (rc : iso_rc_state) :
  0 <= rc_alpha rc <= 1024 ->
  Forall (fun i => 0 <= rcs_num_marked (rc_stats rc i) <= rcs_num_rx (rc_stats rc i)) online_cpus ->
  1024 * sumZ (map (fun i => rcs_num_rx (rc_stats rc i)) online_cpus) < 18446744073709551616 ->
  let rc' := iso_rc_do_alpha rc in
  0 <= rc_alpha rc' <= 1024 /\
  (forall i, i ∈ online_cpus ->
     rcs_num_rx (rc_stats rc' i) = 0 /\ rcs_num_marked (rc_stats rc' i) = 0).
Proof.
  intros Ha Hall Hsum rc'. unfold rc', iso_rc_do_alpha. cbn [rc_alpha rc_stats].
  rewrite !pc_sum_u64.
  set (M := sumZ (map (fun i => rcs_num_marked (rc_stats rc i)) online_cpus)).
  set (N := sumZ (map (fun i => rcs_num_rx (rc_stats rc i)) online_cpus)) in *.
  assert (HMN : 0 <= M <= N).
  { unfold M, N. clear - Hall. induction Hall; cbn; lia. }
  split.
  - apply ewma32_le; [done|]. rewrite !(u64_small N), !(u64_small M) by lia.
    destruct (Z.eqb_spec N 0); [lia|].
    rewrite u64_small by lia. split; [apply Z.div_pos; lia|].
    apply Z.div_le_upper_bound; lia.
  - intros i Hi. by rewrite pc_update_in by (apply online_nodup || done).
Qed.
End RateControlRace.

(** A feedback value above 512 makes the unsigned factor wrap and the cut raises the rate above
    ISO_MAX_TX_RATE. *)
Theorem iso_rc_decrease_overflow :
  exists rc : iso_rc_state,
    rc_ok (P := default_params) rc /\
    ISO_MAX_TX_RATE (params := default_params) <
      rc_rfair (iso_rc_decrease (K := ref_kernel) (P := default_params) 600 0 rc).
Proof.
  exists {| rc_rfair := 5000; rc_rfair_target := 5000; rc_state := RC_AI; rc_alpha := 0;
            rc_count := 0; rc_stats := fun _ => {| rcs_num_marked := 0; rcs_num_rx := 0 |};
            rc_last_rfair_change_time := 0; rc_last_rfair_decrease_time := 0;
            rc_last_feedback_time := 0 |}.
  split; [split; cbn; lia|]. vm_compute. reflexivity.
Qed.

(** ** Witnesses *)

Definition ex_rc : iso_rc_state :=
  {| rc_rfair := 5000; rc_rfair_target := 5000; rc_state := RC_AI; rc_alpha := 0;
     rc_count := 0; rc_stats := fun _ => {| rcs_num_marked := 0; rcs_num_rx := 0 |};
     rc_last_rfair_change_time := 0; rc_last_rfair_decrease_time := 0;
     rc_last_feedback_time := 0 |}.

(** A feedback packet with mark 256. *)
Definition ex_fb : sk_buff :=
  {| ex_skb with skb_iph := {| ex_iph with iph_protocol := 143; iph_id := 256 |} |}.

Lemma ex_rc_ok : rc_ok (P := default_params) ex_rc.
Proof. split; cbn; lia. Qed.

Lemma iso_rc_rx_bounds_witness :
  rc_ok (P := default_params)
    (snd (iso_rc_rx (K := ref_kernel) (P := default_params) (fun r => r) true 500000 0 ex_rc ex_fb)).
Proof.
  apply (iso_rc_rx_bounds (K := ref_kernel) (P := default_params)).
  - apply ex_rc_ok.
  - auto.
  - vm_compute; split; discriminate.
Defined.

(** A cut of a controller in use, and of one that rested for more than 1000 s. *)
Lemma iso_rc_decrease_control_law_witness :
  rc_rfair (iso_rc_decrease (K := ref_kernel) (P := default_params) 256 500000 ex_rc) = 2500 /\
  rc_rfair (iso_rc_decrease (K := ref_kernel) (P := default_params) 256 2000000000000 ex_rc) = 1250.
Proof.
  destruct (iso_rc_decrease_control_law (K := ref_kernel) (P := default_params) 256 500000 ex_rc)
    as (H1 & _); [apply ex_rc_ok|lia|].
  destruct (iso_rc_decrease_control_law (K := ref_kernel) (P := default_params) 256 2000000000000 ex_rc)
    as (H2 & _); [apply ex_rc_ok|lia|].
  split; [rewrite H1|rewrite H2]; vm_compute; reflexivity.
Defined.

Definition ex_rc_cut : iso_rc_state :=
  {| ex_rc with rc_rfair := 2500; rc_state := RC_FAST_RECOVERY |}.

Lemma recovery_converges_witness :
  rc_rfair (recover (P := default_params) [200; 200; 200; 200; 200] ex_rc_cut) <= 5000 /\
  5000 - rc_rfair (recover (P := default_params) [200; 200; 200; 200; 200] ex_rc_cut) <= 79.
Proof.
  destruct (recovery_converges (P := default_params) [200; 200; 200; 200; 200] ex_rc_cut)
    as (H1 & H2 & _).
  - split; cbn; lia.
  - reflexivity.
  - reflexivity.
  - cbn; lia.
  - reflexivity.
  - repeat constructor; vm_compute; discriminate.
  - split; [apply H1|exact H2].
Defined.

(** CPU 1 cuts the rate at time [t] before CPU 0 takes the lock. *)
Definition ex_other (t : Z) (rc : iso_rc_state) : iso_rc_state :=
  snd (iso_rc_rx (K := ref_kernel) (P := default_params) (fun r => r) true t 1 rc ex_fb).

Lemma concurrent_cut_once_witness :
  rc_rfair (snd (iso_rc_rx (K := ref_kernel) (P := default_params)
    (ex_other 499000) true 500000 0 ex_rc ex_fb)) = 2500.
Proof.
  destruct (concurrent_cut_once (K := ref_kernel) (P := default_params)
    (ex_other 499000) 500000 499000 0 ex_rc ex_fb) as (-> & _);
    try (vm_compute; reflexivity); try (vm_compute; discriminate).
  split; vm_compute; reflexivity.
Defined.

Lemma concurrent_cut_twice_witness :
  rc_rfair (snd (iso_rc_rx (K := ref_kernel) (P := default_params)
    (ex_other 502000) true 500000 0 ex_rc ex_fb)) = 1250.
Proof.
  rewrite (concurrent_cut_twice (K := ref_kernel) (P := default_params)
    (ex_other 502000) 500000 502000 0 ex_rc ex_fb);
    try (vm_compute; reflexivity); try (vm_compute; discriminate).
  split; vm_compute; reflexivity.
Defined.

Lemma iso_rc_do_alpha_fraction_witness :
  0 <= rc_alpha (iso_rc_do_alpha (K := ref_kernel) ex_rc) <= 1024.
Proof.
  apply (iso_rc_do_alpha_fraction (K := ref_kernel) ex_rc).
  - cbn; lia.
  - repeat constructor; cbn; lia.
  - cbn; lia.
Defined.
