(* ===== verification/HashTable.v ===== *)
(** * Class tables

    The module keeps its transmit classes and its virtual queues in an array of
    hash chains and, next to it, in a list of all objects.  This file has the
    chain search both [iso_txc_find] and [iso_vq_find] perform and the
    invariant that makes such a table a finite map from classes to objects. *)

From S2P Require Import Prelude Params Kernel Packet Scan Class.

Open Scope Z_scope.

(** [struct hlist_head bucket[N]]. *)
Abbreviation buckets := (Z -> list loc).

Definition no_buckets : buckets := fun _ => [].

(** [hlist_add_head(&p->hash_node, &bucket[b])] *)
Definition hlist_add_head (b : Z) (p : loc) (bk : buckets) : buckets :=
  fun i => if i =? b then p :: bk i else bk i.

(** [hlist_del(&p->hash_node)] for an object of chain [b]. *)
Definition hlist_del (b : Z) (p : loc) (bk : buckets) : buckets :=
  fun i => if i =? b then filter (fun q => q <> p) (bk i) else bk i.

Section HashTable.
Context {C : IsoClass} {A : Type} (key : A -> Z).

(** [hlist_for_each_entry(x, head) if (iso_class_cmp(x->klass, klass) == 0) return x;
    return NULL] *)
Fixpoint chain_find (h : gmap loc A) (chain : list loc) (klass : Z) : outcome (option loc) :=
  match chain with
  | [] => mret None
  | p :: chain' =>
      v ← deref h p;
      if op_cmp (key v) klass =? 0 then mret (Some p) else chain_find h chain' klass
  end.

Lemma chain_find_some h chain klass p :
  chain_find h chain klass = Ok (Some p) ->
  exists v, h !! p = Some v /\ op_cmp (key v) klass = 0.
Proof.
  induction chain as [|q chain IH]; cbn; [discriminate|].
  unfold deref. destruct (h !! q) as [v|] eqn:Hv; [|discriminate]. cbn.
  destruct (Z.eqb_spec (op_cmp (key v) klass) 0); [|auto]. intros [= <-]. eauto.
Qed.

(** On a chain of live objects the search returns, with a member of the chain. *)
Lemma chain_find_live h chain klass :
  live h chain -> exists r, chain_find h chain klass = Ok r /\ forall p, r = Some p -> p ∈ chain.
Proof.
  intros Hl. induction Hl as [|q chain [v Hv] Hl IH]; cbn; [by exists None|].
  rewrite (deref_ok h q v) by done. cbn. destruct (_ =? 0).
  - exists (Some q). split; [done|]. intros p [= <-]. apply list_elem_of_here.
  - destruct IH as (r & E & Hr). exists r. split; [done|]. intros p Hp.
    apply list_elem_of_further. auto.
Qed.

(** A chain that still holds a freed object faults when the search reaches it. *)
Lemma chain_find_dangling h chain klass p :
  chain_find h chain klass = Ok (Some p) ->
  chain_find (delete p h) chain klass = Oops BadPointer.
Proof.
  intros H. destruct (chain_find_some _ _ _ _ H) as (w & Hw & Hcmp). revert H.
  induction chain as [|q chain IH]; cbn; [discriminate|].
  unfold deref. destruct (decide (q = p)) as [->|Hne].
  - by rewrite lookup_delete_eq.
  - rewrite lookup_delete_ne by done.
    destruct (h !! q) as [v|] eqn:Hv; [|discriminate]. cbn.
    destruct (op_cmp (key v) klass =? 0); [|done]. intros [= ->]. done.
Qed.

(** [iso_class_hash(klass) & (N - 1)] *)
Definition chain_of (n klass : Z) : Z := Z.land (op_hash klass) (n - 1).

Context (n : Z) {valid : Z -> Prop} {L : IsoClassLaws C valid}.

(** The table [bk] indexes exactly the objects of [l], each class at most once. *)
Record table_ok (l : list loc) (bk : buckets) (h : gmap loc A) : Prop := {
  tok_nodup : NoDup l;
  tok_live : live h l;
  tok_valid p v : p ∈ l -> h !! p = Some v -> valid (key v);
  tok_chain p b : p ∈ bk b <-> p ∈ l /\ exists v, h !! p = Some v /\ chain_of n (key v) = b;
  tok_unique p q v w : p ∈ l -> q ∈ l -> h !! p = Some v -> h !! q = Some w ->
    key v = key w -> p = q
}.

Lemma chain_find_spec h chain klass :
  live h chain -> valid klass ->
  (forall p v, p ∈ chain -> h !! p = Some v -> valid (key v)) ->
  match chain_find h chain klass with
  | Ok (Some p) => p ∈ chain /\ exists v, h !! p = Some v /\ key v = klass
  | Ok None => forall p v, p ∈ chain -> h !! p = Some v -> key v <> klass
  | Oops _ => False
  end.
Proof.
  unfold live. intros Hlive Hk. induction Hlive as [|q chain [v Hv] Hlive IH]; intros Hvalid; cbn.
  - intros p v Hp. by apply not_elem_of_nil in Hp.
  - rewrite (deref_ok h q v) by done. cbn.
    assert (Hvk : valid (key v)) by (apply (Hvalid q); [apply list_elem_of_here|done]).
    destruct (Z.eqb_spec (op_cmp (key v) klass) 0) as [E|E].
    + assert (key v = klass) by (apply (cmp_zero (valid := valid)); done). split; [apply list_elem_of_here|eauto].
    + assert (Hne : key v <> klass) by (intros <-; by apply E, (cmp_zero (valid := valid))).
      specialize (IH ltac:(intros; eapply Hvalid; eauto using list_elem_of_further)).
      destruct (chain_find h chain klass) as [[p|]|f]; [| |done].
      * destruct IH as [Hp Hx]. split; [by apply list_elem_of_further|done].
      * intros p w Hp Hw. apply elem_of_cons in Hp as [->|Hp]; [congruence|eauto].
Qed.

(** In a well-formed table the search is the lookup of the class among all
    objects. *)
Lemma table_find l bk h klass :
  table_ok l bk h -> valid klass ->
  exists r, chain_find h (bk (chain_of n klass)) klass = Ok r /\
    match r with
    | Some p => p ∈ l /\ exists v, h !! p = Some v /\ key v = klass
    | None => forall p v, p ∈ l -> h !! p = Some v -> key v <> klass
    end.
Proof.
  intros T Hk.
  assert (Hlive : live h (bk (chain_of n klass))).
  { apply Forall_forall. intros p Hp. apply (tok_chain _ _ _ T) in Hp as [Hp _].
    exact (live_lookup _ _ _ (tok_live _ _ _ T) Hp). }
  pose proof (chain_find_spec h (bk (chain_of n klass)) klass Hlive Hk) as H.
  specialize (H ltac:(intros p v Hp Hv; apply (tok_chain _ _ _ T) in Hp as [Hp _];
                      exact (tok_valid _ _ _ T p v Hp Hv))).
  destruct (chain_find _ _ _) as [[p|]|f]; [| |done]; eexists; (split; [done|]).
  - destruct H as [Hp Hx]. apply (tok_chain _ _ _ T) in Hp as [Hp _]. done.
  - intros p v Hp Hv E. apply (H p v); [|done|done].
    apply (tok_chain _ _ _ T). split; [done|]. exists v. by rewrite E.
Qed.

Lemma table_find_unique l bk h klass p v :
  table_ok l bk h -> valid klass -> p ∈ l -> h !! p = Some v -> key v = klass ->
  chain_find h (bk (chain_of n klass)) klass = Ok (Some p).
Proof.
  intros T Hk Hp Hv Hkey. destruct (table_find l bk h klass T Hk) as (r & -> & Hr).
  destruct r as [q|].
  - destruct Hr as (Hq & w & Hw & Hkw). do 2 f_equal.
    eapply (tok_unique _ _ _ T); eauto. congruence.
  - by destruct (Hr p v).
Qed.

Lemma table_nil bk : (forall b, bk b = []) -> table_ok [] bk ∅.
Proof.
  intros Hbk. split; try (intros; exfalso; by eapply not_elem_of_nil).
  - constructor.
  - constructor.
  - intros p b. rewrite Hbk. split; [intros H; by apply not_elem_of_nil in H|].
    intros [H _]. by apply not_elem_of_nil in H.
Qed.

Lemma table_empty : table_ok [] no_buckets ∅.
Proof. by apply table_nil. Qed.

(** Adding an object with a new class, as [iso_txc_alloc] and [iso_vq_alloc] do. *)
Lemma table_add l bk h p v :
  table_ok l bk h -> h !! p = None -> valid (key v) ->
  (forall q w, q ∈ l -> h !! q = Some w -> key w <> key v) ->
  table_ok (l ++ [p]) (hlist_add_head (chain_of n (key v)) p bk) (<[p := v]> h).
Proof.
  intros T Hfresh Hval Hnew.
  assert (Hpl : p ∉ l).
  { intros Hp. destruct (live_lookup _ _ _ (tok_live _ _ _ T) Hp) as [w Hw]. congruence. }
  assert (Hl : forall q, q ∈ l -> <[p := v]> h !! q = h !! q)
    by (intros q Hq; apply lookup_insert_ne; congruence).
  split.
  - apply NoDup_app. split; [apply (tok_nodup _ _ _ T)|]. split; [|apply NoDup_singleton].
    intros q Hq Hin. apply list_elem_of_singleton in Hin. congruence.
  - apply Forall_app. split; [apply live_insert, (tok_live _ _ _ T)|].
    constructor; [|constructor]. rewrite lookup_insert_eq. eauto.
  - intros q w Hq Hw. apply elem_of_app in Hq as [Hq|Hq].
    + rewrite Hl in Hw by done. exact (tok_valid _ _ _ T q w Hq Hw).
    + apply list_elem_of_singleton in Hq as ->. rewrite lookup_insert_eq in Hw. congruence.
  - intros q b. unfold hlist_add_head. rewrite elem_of_app, list_elem_of_singleton.
    destruct (decide (q = p)) as [->|Hne].
    + rewrite lookup_insert_eq. split.
      * intros Hq. split; [by right|]. exists v. split; [done|].
        destruct (Z.eqb_spec b (chain_of n (key v))) as [|Hb]; [done|].
        apply (tok_chain _ _ _ T) in Hq as [Hq _]. done.
      * intros (_ & w & [= <-] & <-). rewrite Z.eqb_refl. apply list_elem_of_here.
    + rewrite lookup_insert_ne by done.
      assert (Heq : q ∈ (if b =? chain_of n (key v) then p :: bk b else bk b) <-> q ∈ bk b).
      { destruct (b =? _); [|done]. rewrite elem_of_cons. tauto. }
      rewrite Heq, (tok_chain _ _ _ T). tauto.
  - intros q r w x Hq Hr Hw Hx Hkey. rewrite elem_of_app, list_elem_of_singleton in Hq, Hr.
    destruct Hq as [Hq| ->], Hr as [Hr| ->]; try done.
    + rewrite Hl in Hw, Hx by done. exact (tok_unique _ _ _ T q r w x Hq Hr Hw Hx Hkey).
    + rewrite Hl in Hw by done. rewrite lookup_insert_eq in Hx. injection Hx as <-.
      by destruct (Hnew q w Hq Hw).
    + rewrite Hl in Hx by done. rewrite lookup_insert_eq in Hw. injection Hw as <-.
      by destruct (Hnew r x Hr Hx).
Qed.

(** Rewriting objects without changing their class keeps the table. *)
Lemma table_same_keys l bk h h' :
  table_ok l bk h ->
  (forall p, key <$> h' !! p = key <$> h !! p) ->
  table_ok l bk h'.
Proof.
  intros T Hk.
  assert (Hback : forall p v, h' !! p = Some v -> exists w, h !! p = Some w /\ key w = key v).
  { intros p v Hv. specialize (Hk p). rewrite Hv in Hk. cbn in Hk.
    destruct (h !! p) as [w|]; [|discriminate]. exists w. split; [done|]. by injection Hk. }
  assert (Hforth : forall p v, h !! p = Some v -> exists w, h' !! p = Some w /\ key w = key v).
  { intros p v Hv. specialize (Hk p). rewrite Hv in Hk. cbn in Hk.
    destruct (h' !! p) as [w|]; [|discriminate]. exists w. split; [done|]. by injection Hk. }
  split.
  - apply (tok_nodup _ _ _ T).
  - eapply Forall_impl; [apply (tok_live _ _ _ T)|]. intros p [v Hv].
    destruct (Hforth p v Hv) as (w & Hw & _). eauto.
  - intros p v Hp Hv. destruct (Hback p v Hv) as (w & Hw & <-).
    exact (tok_valid _ _ _ T p w Hp Hw).
  - intros p b. rewrite (tok_chain _ _ _ T). split; intros (Hp & v & Hv & E).
    + destruct (Hforth p v Hv) as (w & Hw & Hkw). split; [done|]. exists w. by rewrite Hkw.
    + destruct (Hback p v Hv) as (w & Hw & Hkw). split; [done|]. exists w. by rewrite Hkw.
  - intros p q v w Hp Hq Hv Hw E.
    destruct (Hback p v Hv) as (v' & Hv' & Ev). destruct (Hback q w Hw) as (w' & Hw' & Ew).
    eapply (tok_unique _ _ _ T); eauto. congruence.
Qed.

(** ** The finite map a table stands for *)

(** The map from classes to what [f] shows of their objects. *)
Definition table_view {B} (f : A -> B) (l : list loc) (h : gmap loc A) : gmap Z B :=
  list_to_map (omap (fun p => (fun v => (key v, f v)) <$> h !! p) l).

Lemma view_elem {B} (f : A -> B) (l : list loc) (h : gmap loc A) k b :
  (k, b) ∈ omap (fun p => (fun v => (key v, f v)) <$> h !! p) l <->
  exists p v, p ∈ l /\ h !! p = Some v /\ key v = k /\ f v = b.
Proof.
  rewrite list_elem_of_omap. split.
  - intros (p & Hp & (v & Hv & E)%fmap_Some). injection E as -> ->. eauto 6.
  - intros (p & v & Hp & Hv & <- & <-). exists p. by rewrite Hv.
Qed.

Lemma view_nodup {B} (f : A -> B) (l : list loc) (h : gmap loc A) :
  NoDup l ->
  (forall p q v w, p ∈ l -> q ∈ l -> h !! p = Some v -> h !! q = Some w -> key v = key w -> p = q) ->
  NoDup (omap (fun p => (fun v => (key v, f v)) <$> h !! p) l).*1.
Proof.
  induction 1 as [|p l Hp Hnd IH]; intros Hu; [constructor|]. cbn.
  assert (IH' := IH ltac:(intros q r v w Hq Hr; apply Hu; by apply list_elem_of_further)).
  destruct (h !! p) as [v|] eqn:Hv; [|exact IH']. cbn. constructor; [|exact IH'].
  rewrite list_elem_of_fmap. intros ([k b] & Hk & Hin). cbn in Hk. subst k.
  apply view_elem in Hin as (q & w & Hq & Hw & Hkw & _).
  assert (p = q) as ->; [|done].
  apply (Hu p q v w); [apply list_elem_of_here|by apply list_elem_of_further|done|done|done].
Qed.

Lemma view_lookup {B} (f : A -> B) l bk h k b :
  table_ok l bk h ->
  table_view f l h !! k = Some b <-> exists p v, p ∈ l /\ h !! p = Some v /\ key v = k /\ f v = b.
Proof.
  intros T. unfold table_view. rewrite <- elem_of_list_to_map, view_elem; [done|].
  apply view_nodup; [apply (tok_nodup _ _ _ T)|apply (tok_unique _ _ _ T)].
Qed.

(** Views that agree on the objects of the list are equal. *)
Lemma view_ext {B} (f g : A -> B) l h h' :
  (forall p, p ∈ l -> (fun v => (key v, f v)) <$> h' !! p = (fun v => (key v, g v)) <$> h !! p) ->
  table_view f l h' = table_view g l h.
Proof.
  intros E. unfold table_view. f_equal. induction l as [|p l IH]; [done|]. cbn.
  rewrite (E p (list_elem_of_here _ _)), IH; [done|]. intros q Hq. apply E. by apply list_elem_of_further.
Qed.

Lemma view_insert {B} (f : A -> B) l bk h p v v' :
  table_ok l bk h -> p ∈ l -> h !! p = Some v -> key v' = key v ->
  table_view f l (<[p := v']> h) = <[key v := f v']> (table_view f l h).
Proof.
  intros T Hp Hv Hk.
  assert (T' : table_ok l bk (<[p := v']> h)).
  { apply (table_same_keys _ _ h); [done|]. intros q. destruct (decide (p = q)) as [<-|];
      [by rewrite lookup_insert_eq, Hv; cbn; rewrite Hk|by rewrite lookup_insert_ne]. }
  apply map_eq. intros k. apply option_eq. intros b. rewrite (view_lookup f l bk) by done.
  destruct (decide (key v = k)) as [<-|Hne].
  - rewrite lookup_insert_eq. split.
    + intros (q & w & Hq & Hw & Hkw & <-). destruct (decide (p = q)) as [<-|Hpq].
      * rewrite lookup_insert_eq in Hw. congruence.
      * rewrite lookup_insert_ne in Hw by done. by destruct Hpq; apply (tok_unique _ _ _ T p q v w).
    + intros [= <-]. exists p, v'. by rewrite lookup_insert_eq.
  - rewrite lookup_insert_ne, (view_lookup f l bk) by done.
    split; intros (q & w & Hq & Hw & Hkw & E); exists q, w; (destruct (decide (p = q)) as [<-|Hpq];
      [exfalso; rewrite ?lookup_insert_eq in Hw; congruence|]);
      rewrite lookup_insert_ne in *; done.
Qed.

Lemma view_add {B} (f : A -> B) l bk h p v :
  table_ok l bk h -> h !! p = None -> valid (key v) ->
  (forall q w, q ∈ l -> h !! q = Some w -> key w <> key v) ->
  table_view f (l ++ [p]) (<[p := v]> h) = <[key v := f v]> (table_view f l h).
Proof.
  intros T Hp Hval Hnew. pose proof (table_add l bk h p v T Hp Hval Hnew) as T'.
  apply map_eq. intros k. apply option_eq. intros b. rewrite (view_lookup f _ _ _ k b T').
  destruct (decide (key v = k)) as [<-|Hne].
  - rewrite lookup_insert_eq. split.
    + intros (q & w & Hq & Hw & Hkw & <-). apply elem_of_app in Hq as [Hq|Hq%list_elem_of_singleton]; [|subst q].
      * rewrite lookup_insert_ne in Hw; [by destruct (Hnew q w)|]. intros ->.
        destruct (live_lookup _ _ _ (tok_live _ _ _ T) Hq) as [x Hx]. congruence.
      * rewrite lookup_insert_eq in Hw. congruence.
    + intros [= <-]. exists p, v. rewrite lookup_insert_eq, elem_of_app, list_elem_of_singleton. auto.
  - rewrite lookup_insert_ne, (view_lookup f l bk h k b T) by done.
    assert (Hpq : forall q, q ∈ l -> p <> q).
    { intros q Hq ->. destruct (live_lookup _ _ _ (tok_live _ _ _ T) Hq) as [x Hx]. congruence. }
    split.
    + intros (q & w & Hq & Hw & Hkw & E). apply elem_of_app in Hq as [Hq|Hq%list_elem_of_singleton]; [|subst q].
      * rewrite lookup_insert_ne in Hw by auto. eauto 6.
      * rewrite lookup_insert_eq in Hw. congruence.
    + intros (q & w & Hq & Hw & Hkw & E). exists q, w. rewrite elem_of_app, lookup_insert_ne by auto. auto.
Qed.

(** Searching the whole list instead of a chain. *)
Definition linear_find (l : list loc) (h : gmap loc A) (klass : Z) : option loc :=
  List.find (fun p => match h !! p with Some v => key v =? klass | None => false end) l.

Lemma find_linear l bk h klass :
  table_ok l bk h -> valid klass -> chain_find h (bk (chain_of n klass)) klass = Ok (linear_find l h klass).
Proof.
  intros T Hk. unfold linear_find. destruct (List.find _ l) as [p|] eqn:E.
  - apply find_some in E as [Hp%list_elem_of_In Hv]. destruct (h !! p) as [v|] eqn:Ev; [|done].
    apply Z.eqb_eq in Hv. by apply (table_find_unique l bk h klass p v).
  - destruct (table_find l bk h klass T Hk) as (r & -> & Hr). destruct r as [p|]; [|done].
    destruct Hr as (Hp%list_elem_of_In & v & Hv & Hkv). exfalso.
    pose proof (find_none _ _ E p Hp) as H. cbn in H. rewrite Hv, Hkv, Z.eqb_refl in H. discriminate.
Qed.

(** The search of a chain is the lookup in the map. *)
Lemma find_view {B} (f : A -> B) l bk h klass :
  table_ok l bk h -> valid klass ->
  exists r, chain_find h (bk (chain_of n klass)) klass = Ok r /\
    match r with
    | Some p => p ∈ l /\ exists v, h !! p = Some v /\ key v = klass /\ table_view f l h !! klass = Some (f v)
    | None => table_view f l h !! klass = None
    end.
Proof.
  intros T Hk. destruct (table_find l bk h klass T Hk) as (r & E & Hr). exists r. split; [done|].
  destruct r as [p|].
  - destruct Hr as (Hp & v & Hv & Hkv). split; [done|]. exists v. split; [done|]. split; [done|].
    apply (view_lookup f l bk); eauto 6.
  - apply eq_None_not_Some. intros [b Hb]. apply (view_lookup f l bk) in Hb as (p & v & Hp & Hv & Hkv & _); [|done].
    by apply (Hr p v).
Qed.
End HashTable.
