(* ===== verification/VirtualQueue.v ===== *)
(** * Virtual queues (vq.h, vq.c)

    A virtual queue measures the traffic a class receives and computes the rate
    that is fed back to the senders.  This file has the structure, its
    initialisation, the per-packet accounting and the control step; the table
    of virtual queues of a device is in VqTable. *)

From S2P Require Import Prelude Params Kernel Packet.

Open Scope Z_scope.

Record iso_vq_stats := {
  vqs_bytes_queued : Z;                    (** u64 *)
  vqs_network_marked : Z;                  (** u64 *)
  vqs_rx_packets : Z;                      (** u64 *)
  vqs_rx_bytes : Z;                        (** u64 *)
  vqs_last_feedback_gen_time : Z;          (** ktime_t *)
  vqs_rx_since_last_feedback : Z;          (** u32 *)
  vqs_rx_marked_since_last_feedback : Z    (** u32 *)
}.

Record iso_vq := {
  vq_enabled : Z;                          (** u8 *)
  vq_is_static : Z;                        (** u8 *)
  vq_rate : Z;                             (** u64 *)
  vq_total_bytes_queued : Z;               (** u64 *)
  vq_feedback_rate : Z;                    (** u64 *)
  vq_rx_rate : Z;                          (** u64 *)
  vq_last_rx_bytes : Z;                    (** u64 *)
  vq_weight : Z;                           (** u64 *)
  vq_alpha : Z;                            (** u32 *)
  vq_last_update_time : Z;                 (** ktime_t *)
  vq_last_borrow_time : Z;                 (** ktime_t *)
  vq_percpu_stats : option (percpu iso_vq_stats);   (** NULL when the allocation failed *)
  vq_klass : Z;
  vq_refcnt : Z                            (** atomic_t *)
}.

Definition ECN_ALPHA_FRAC_SHIFT : Z := 10.
Definition MUL15 (x : Z) : Z := u32 (u32 (Z.shiftl x 4) - x).
Definition DIV16 (x : Z) : Z := Z.shiftr x 4.
Definition EWMA_G16 (old new : Z) : Z := DIV16 (u32 (MUL15 old + new)).

Definition ENOMEM : Z := 12.
Definition EINVAL : Z := 22.

Definition zero_vq_stats : iso_vq_stats := {|
  vqs_bytes_queued := 0; vqs_network_marked := 0; vqs_rx_packets := 0; vqs_rx_bytes := 0;
  vqs_last_feedback_gen_time := 0; vqs_rx_since_last_feedback := 0;
  vqs_rx_marked_since_last_feedback := 0 |}.

Section VirtualQueue.
Context {K : Kernel} {P : params}.

(** [stats] is what [alloc_percpu] returned. *)
Definition iso_vq_init (now : Z) (stats : option (percpu iso_vq_stats)) (vq : iso_vq)
    : Z * iso_vq :=
  let vq := {| vq with
    vq_enabled := 1;
    vq_is_static := 0;
    vq_rate := u64 ISO_MIN_RFAIR;
    vq_total_bytes_queued := 0;
    vq_feedback_rate := u64 ISO_MIN_RFAIR;
    vq_last_rx_bytes := 0;
    vq_rx_rate := 0;
    vq_weight := 1;
    vq_alpha := 0;
    vq_last_update_time := now;
    vq_last_borrow_time := now;
    vq_percpu_stats := stats |} in
  match stats with
  | None => (- ENOMEM, vq)
  | Some st =>
      let st := pc_update (fun s => {| s with
                  vqs_bytes_queued := 0;
                  vqs_network_marked := 0;
                  vqs_rx_bytes := 0;
                  vqs_rx_packets := 0;
                  vqs_rx_since_last_feedback := 0;
                  vqs_rx_marked_since_last_feedback := 0 |}) possible_cpus st in
      (0, {| vq with vq_percpu_stats := Some st; vq_refcnt := 0 |})
  end.

(** The int [rx_rate] of the control step, from the bytes since the last step. *)
Definition vq_measured_rate (diff dt : Z) : outcome Z :=
  q ← div_u (u64 (Z.shiftl diff 3)) dt;
  mret (s32 q).

(** The ECN1 correction: the rate mismatch implied by the marked fraction. *)
Definition vq_ecn_correct (frac den rate dt rx_rate : Z) : outcome Z :=
  if frac =? 0 then mret rx_rate
  else
    q ← div_u (u32 (u32 (s32 (Z.shiftl ISO_ECN_MARK_THRESH_BYTES 3)) * u32 (den + frac))) den;
    q ← div_u q dt;
    let rx_rate := s32 (u64 (u64 rx_rate + q)) in
    mret (min_t s32 rx_rate (u64 (3 * rate))).

(** The new feedback rate. *)
Definition vq_feedback_step (fb rate rx_rate : Z) : outcome Z :=
  if ISO_VQ_DRAIN_RATE_MBPS <=? ISO_MAX_TX_RATE then
    let rate2 := u32 (u64 (Z.shiftl rate 1)) in
    q ← div_u (u64 (fb * u64 (u64 (rate2 + rate) - u64 rx_rate))) rate2;
    let fb := min_t u64 rate q in
    let fb := max_t u64 ISO_MIN_RFAIR fb in
    mret fb
  else mret (u64 ISO_MAX_TX_RATE).

(** [iso_vq_drain(vq, dt)]; [now] is its [ktime_get] and [rcp_rate] the field
    of the receive context. *)
Definition iso_vq_drain (rcp_rate now dt : Z) (vq : iso_vq) : outcome iso_vq :=
  let dt2 := u64 (ktime_us_delta now (vq_last_update_time vq)) in
  if dt2 <? u64 ISO_VQ_UPDATE_INTERVAL_US then mret vq
  else
    let vq := {| vq with vq_last_update_time := now |} in
    match vq_percpu_stats vq with
    | None => Oops BadPointer
    | Some stats =>
        let rx_bytes := pc_sum u64 vqs_rx_bytes stats online_cpus in
        let rx_pkts := pc_sum u32 vqs_rx_since_last_feedback stats online_cpus in
        let rx_marked := pc_sum u32 vqs_rx_marked_since_last_feedback stats online_cpus in
        let stats := pc_update (fun s => {| s with
                       vqs_bytes_queued := 0;
                       vqs_rx_since_last_feedback := 0;
                       vqs_rx_marked_since_last_feedback := 0 |}) online_cpus stats in
        let vq := {| vq with vq_percpu_stats := Some stats |} in
        let rx_pkts := if rx_pkts =? 0 then 1 else rx_pkts in
        let rate := u64 (vq_weight vq * rcp_rate) in
        let rate := if vq_is_static vq =? 0 then rate else min_t u64 rate (vq_rate vq) in
        let diff := u64 (rx_bytes - vq_last_rx_bytes vq) in
        rx_rate ← vq_measured_rate diff dt;
        frac ← div_u (u32 (Z.shiftl rx_marked ECN_ALPHA_FRAC_SHIFT)) rx_pkts;
        let den := Z.shiftl 1 ECN_ALPHA_FRAC_SHIFT in
        let frac := min_t u32 den frac in
        let vq := {| vq with vq_alpha := EWMA_G16 (vq_alpha vq) frac |} in
        rx_rate ← vq_ecn_correct frac den rate dt rx_rate;
        fb ← vq_feedback_step (vq_feedback_rate vq) rate rx_rate;
        mret {| vq with vq_feedback_rate := fb;
                        vq_rx_rate := u64 rx_rate;
                        vq_last_rx_bytes := rx_bytes |}
    end.

(** Rewrite this CPU's statistics. *)
Definition vq_stats_update (cpu : nat) (f : iso_vq_stats -> iso_vq_stats) (vq : iso_vq)
    : outcome iso_vq :=
  match vq_percpu_stats vq with
  | None => Oops BadPointer
  | Some st => mret {| vq with vq_percpu_stats := Some (pc_set cpu (f (st cpu)) st) |}
  end.

(** [iso_vq_enqueue(vq, pkt)] on [cpu]; [now] and [now'] are the readings of
    [ktime_get] here and in [iso_vq_drain], [trylock] the outcome of the
    try-lock. *)
Definition iso_vq_enqueue (rcp_rate now now' : Z) (trylock : bool) (cpu : nat)
    (pkt : sk_buff) (vq : iso_vq) : outcome iso_vq :=
  let len := u32 (skb_size pkt) in
  vq ← vq_stats_update cpu (fun st => {| st with
         vqs_rx_since_last_feedback := u32 (vqs_rx_since_last_feedback st + 1);
         vqs_rx_packets := u64 (vqs_rx_packets st + 1) |}) vq;
  vq ← (if is_ip pkt && (Z.land (iph_tos (skb_iph pkt)) 3 =? 3) then
          vq_stats_update cpu (fun st => {| st with
            vqs_network_marked := u64 (vqs_network_marked st + 1);
            vqs_rx_marked_since_last_feedback :=
              u32 (vqs_rx_marked_since_last_feedback st + 1) |}) vq
        else mret vq);
  let dt := u64 (ktime_us_delta now (vq_last_update_time vq)) in
  vq ← (if u64 ISO_VQ_UPDATE_INTERVAL_US <? dt then
          if trylock then iso_vq_drain rcp_rate now' dt vq else mret vq
        else mret vq);
  vq_stats_update cpu (fun st => {| st with
    vqs_bytes_queued := u64 (vqs_bytes_queued st + len);
    vqs_rx_bytes := u64 (vqs_rx_bytes st + len) |}) vq.

(** [iso_vq_over_limits] returns the u64 feedback rate as an int. *)
Definition iso_vq_over_limits (vq : iso_vq) : Z := s32 (vq_feedback_rate vq).
End VirtualQueue.

(** ** The control law *)

Section ControlLaw.
Context {K : Kernel} {P : params} {PO : params_ok P}.

(** The rate a virtual queue is entitled to: its weight's share of the
    advertised rate, capped by a static rate. *)
Definition vq_fair_rate (rcp_rate : Z) (vq : iso_vq) : Z :=
  let rate := u64 (vq_weight vq * rcp_rate) in
  if vq_is_static vq =? 0 then rate else min_t u64 rate (vq_rate vq).

(** Rates up to this bound keep the control step inside 64 bits; the largest
    weight times the largest configured rate is below a third of it. *)
Definition max_rate : Z := 67108864.

Lemma rate2_eq rate : 0 <= rate <= max_rate -> u32 (u64 (Z.shiftl rate 1)) = 2 * rate.
Proof.
  unfold max_rate. intros H. rewrite Z.shiftl_mul_pow2 by lia. change (2 ^ 1) with 2.
  wrap. lia.
Qed.

Lemma drain_le_max : (ISO_VQ_DRAIN_RATE_MBPS <=? ISO_MAX_TX_RATE) = true.
Proof. pok. by apply Z.leb_le. Qed.

(** Whatever was measured, the step does not fault and its result is clamped. *)
Lemma vq_feedback_step_clamped fb rate rx_rate :
  1 <= rate <= max_rate ->
  exists fb', vq_feedback_step fb rate rx_rate = Ok fb' /\
    ISO_MIN_RFAIR <= fb' <= Z.max ISO_MIN_RFAIR rate.
Proof.
  pok. intros Hr. unfold vq_feedback_step. rewrite drain_le_max, rate2_eq by lia.
  rewrite div_u_ok by lia. cbn. eexists. split; [reflexivity|].
  unfold min_t, max_t. rewrite (u64_small ISO_MIN_RFAIR) by lia.
  unfold max_rate in Hr. rewrite (u64_small rate) by lia.
  match goal with |- context [Z.min rate (u64 ?x)] => pose proof (u64_range x) as Hq end.
  unfold is_u64 in Hq. rewrite u64_small by lia. lia.
Qed.

(** Inside the control range the C arithmetic is the integer formula. *)
Lemma vq_feedback_step_eq fb rate rx_rate :
  1 <= rate <= max_rate -> 0 <= fb <= max_rate -> 0 <= rx_rate <= 3 * rate ->
  vq_feedback_step fb rate rx_rate =
  Ok (Z.max ISO_MIN_RFAIR (Z.min rate (fb * (3 * rate - rx_rate) / (2 * rate)))).
Proof.
  pok. unfold max_rate. intros Hr Hf Hx. unfold vq_feedback_step.
  rewrite drain_le_max, rate2_eq by (unfold max_rate; lia).
  rewrite (u64_small (2 * rate + rate)), (u64_small rx_rate) by lia.
  replace (2 * rate + rate - rx_rate) with (3 * rate - rx_rate) by lia.
  rewrite (u64_small (3 * rate - rx_rate)) by lia.
  assert (Hm : 0 <= fb * (3 * rate - rx_rate) <= 67108864 * 201326592) by nia.
  rewrite (u64_small (fb * (3 * rate - rx_rate))) by lia.
  rewrite div_u_ok by lia. cbn. unfold min_t, max_t.
  assert (Hd : 0 <= fb * (3 * rate - rx_rate) / (2 * rate) <= 67108864 * 201326592).
  { split; [apply Z.div_pos; lia|]. apply Z.div_le_upper_bound; nia. }
  rewrite (u64_small ISO_MIN_RFAIR), (u64_small rate), (u64_small (_ / _)) by lia.
  rewrite u64_small by lia. done.
Qed.

Lemma mul_div_le a b c : 0 < c -> 0 <= a -> b <= c -> a * b / c <= a.
Proof. intros Hc Ha Hb. apply Z.div_le_upper_bound; nia. Qed.
Lemma mul_div_ge a b c : 0 < c -> 0 <= a -> c <= b -> a <= a * b / c.
Proof. intros Hc Ha Hb. apply Z.div_le_lower_bound; nia. Qed.

(** C15: For a fair rate of at least 1, a measured rate up to three times the fair rate and an
    advertised rate fb of at least ISO_MIN_RFAIR, the new advertised rate is max(ISO_MIN_RFAIR,
    min(rate, fb * (3 * rate - rx) / (2 * rate))). When fb is at most the fair rate it goes up
    if less than the fair rate arrives, down if more arrives, and stays if they are equal; when
    the fair rate has dropped below fb it does not go up, and it becomes the fair rate (at least
    ISO_MIN_RFAIR) if no more than that arrives. *)
Theorem vq_feedback_control_law (fb rate rx_rate : Z) :
  1 <= rate <= max_rate -> ISO_MIN_RFAIR <= fb <= max_rate ->
  0 <= rx_rate <= 3 * rate ->
  exists fb',
    vq_feedback_step fb rate rx_rate = Ok fb' /\
    fb' = Z.max ISO_MIN_RFAIR (Z.min rate (fb * (3 * rate - rx_rate) / (2 * rate))) /\
    (fb <= rate ->
       (rx_rate <= rate -> fb <= fb') /\ (rate <= rx_rate -> fb' <= fb) /\ (rx_rate = rate -> fb' = fb)) /\
    (rate < fb -> fb' <= fb /\ (rx_rate <= rate -> fb' = Z.max ISO_MIN_RFAIR rate)).
Proof.
  pok. intros Hr Hf Hx. rewrite vq_feedback_step_eq by lia.
  eexists. split; [reflexivity|]. split; [done|].
  assert (H1 : rx_rate <= rate -> fb <= fb * (3 * rate - rx_rate) / (2 * rate))
    by (intros; apply mul_div_ge; lia).
  assert (H2 : rate <= rx_rate -> fb * (3 * rate - rx_rate) / (2 * rate) <= fb)
    by (intros; apply mul_div_le; lia).
  repeat split; intros; lia.
Qed.

(** A measured rate above three times the fair rate wraps around the unsigned subtraction, and
    the virtual queue advertises its full fair rate instead of cutting it. *)
Theorem vq_feedback_overload_wraps (fb rate rx_rate : Z) :
  1 <= rate <= max_rate -> 1 <= fb <= max_rate ->
  3 * rate < rx_rate < 2147483648 ->
  vq_feedback_step fb rate rx_rate = Ok (Z.max ISO_MIN_RFAIR rate).
Proof.
  pok. unfold max_rate. intros Hr Hf Hx. unfold vq_feedback_step.
  rewrite drain_le_max, rate2_eq by (unfold max_rate; lia).
  rewrite (u64_small (2 * rate + rate)), (u64_small rx_rate) by lia.
  rewrite (u64_neg (2 * rate + rate - rx_rate)) by lia.
  set (k := rx_rate - 3 * rate).
  assert (Hfk : 0 < fb * k <= 67108864 * 2147483648) by (unfold k; nia).
  assert (Hprod : u64 (fb * (2 * rate + rate - rx_rate + 18446744073709551616)) =
                  18446744073709551616 - fb * k).
  { replace (fb * (2 * rate + rate - rx_rate + 18446744073709551616))
      with (- (fb * k) + fb * 18446744073709551616) by (unfold k; ring).
    Transparent u64. unfold u64. Opaque u64. rewrite Z.mod_add by lia.
    rewrite <- (Z.mod_add _ 1) by lia. rewrite Z.mod_small; lia. }
  rewrite Hprod, div_u_ok by lia. cbn. unfold min_t, max_t.
  assert (Hbig : rate <= (18446744073709551616 - fb * k) / (2 * rate) <= 18446744073709551615).
  { split; [apply Z.div_le_lower_bound; nia|]. apply Z.div_le_upper_bound; nia. }
  rewrite (u64_small ISO_MIN_RFAIR), (u64_small rate), (u64_small (_ / _)) by lia.
  rewrite Z.min_l by lia. rewrite u64_small by lia. done.
Qed.

(** ** The whole control step *)

Record vq_ok (vq : iso_vq) : Prop := {
  vq_ok_stats : is_Some (vq_percpu_stats vq);
  vq_ok_alpha : 0 <= vq_alpha vq <= 1024;
  vq_ok_fb : ISO_MIN_RFAIR <= vq_feedback_rate vq <= max_rate;
  vq_ok_weight : 1 <= vq_weight vq <= 1024;
  vq_ok_rate : vq_is_static vq <> 0 -> 1 <= vq_rate vq < 18446744073709551616
}.

Lemma vq_fair_rate_range rcp_rate vq :
  vq_ok vq -> 1 <= rcp_rate <= 20000 -> 1 <= vq_fair_rate rcp_rate vq <= max_rate.
Proof.
  intros [_ _ _ Hw Hs] Hr. unfold vq_fair_rate, max_rate, min_t.
  rewrite (u64_small (vq_weight vq * rcp_rate)) by nia.
  destruct (Z.eqb_spec (vq_is_static vq) 0) as [|Hne]; [nia|].
  specialize (Hs Hne). rewrite !u64_small by nia. nia.
Qed.

Lemma ewma16_le old new :
  0 <= old <= 1024 -> 0 <= new <= 1024 -> 0 <= EWMA_G16 old new <= 1024.
Proof.
  intros Ho Hn. unfold EWMA_G16, MUL15, DIV16.
  rewrite Z.shiftl_mul_pow2, Z.shiftr_div_pow2 by lia. change (2 ^ 4) with 16.
  wrap. Z.div_mod_to_equations; lia.
Qed.

Lemma vq_measured_rate_ok diff dt : dt <> 0 -> exists r, vq_measured_rate diff dt = Ok r.
Proof. intros H. unfold vq_measured_rate. rewrite div_u_ok by done. cbn. eauto. Qed.

Lemma vq_ecn_correct_ok frac rate dt rx :
  dt <> 0 -> exists r, vq_ecn_correct frac 1024 rate dt rx = Ok r.
Proof.
  intros H. unfold vq_ecn_correct. destruct (frac =? 0); [cbn; eauto|].
  rewrite div_u_ok by lia. cbn. rewrite div_u_ok by done. cbn. eauto.
Qed.

(** Everything of [iso_vq_drain] but the feedback step: some rate was measured
    and some fraction of marks, and the counters of the online CPUs are reset. *)
Lemma iso_vq_drain_shape rcp_rate now dt vq st :
  u64 ISO_VQ_UPDATE_INTERVAL_US <= u64 (ktime_us_delta now (vq_last_update_time vq)) ->
  vq_percpu_stats vq = Some st -> dt <> 0 ->
  exists rx_rate frac st',
    0 <= frac <= 1024 /\
    iso_vq_drain rcp_rate now dt vq =
      (fb ← vq_feedback_step (vq_feedback_rate vq) (vq_fair_rate rcp_rate vq) rx_rate;
       mret {| vq with vq_last_update_time := now;
                       vq_percpu_stats := Some st';
                       vq_alpha := EWMA_G16 (vq_alpha vq) frac;
                       vq_feedback_rate := fb;
                       vq_rx_rate := u64 rx_rate;
                       vq_last_rx_bytes := pc_sum u64 vqs_rx_bytes st online_cpus |}) /\
    (forall i, vqs_rx_bytes (st' i) = vqs_rx_bytes (st i)).
Proof.
  intros Hlate Hst Hdt. unfold iso_vq_drain.
  replace (_ <? u64 ISO_VQ_UPDATE_INTERVAL_US) with false by (symmetry; by apply Z.ltb_ge).
  cbn [vq_percpu_stats vq_weight vq_is_static vq_rate vq_last_rx_bytes vq_alpha vq_feedback_rate].
  rewrite Hst.
  set (pkts := pc_sum u32 vqs_rx_since_last_feedback st online_cpus).
  match goal with |- context [vq_measured_rate ?d dt] =>
    destruct (vq_measured_rate_ok d dt Hdt) as [r0 Hr0] end.
  rewrite Hr0. cbn [mbind outcome_bind].
  rewrite div_u_ok by (destruct (Z.eqb_spec pkts 0); lia). cbn [mbind outcome_bind].
  change (Z.shiftl 1 ECN_ALPHA_FRAC_SHIFT) with 1024.
  set (frac := min_t u32 1024 _).
  destruct (vq_ecn_correct_ok frac (vq_fair_rate rcp_rate vq) dt r0 Hdt) as [r Hr].
  unfold vq_fair_rate in Hr at 1. rewrite Hr. cbn [mbind outcome_bind].
  exists r, frac. eexists. split; [|split; [reflexivity|]].
  - unfold frac, min_t. rewrite (u32_small 1024) by lia.
    match goal with |- context [Z.min 1024 (u32 ?x)] => pose proof (u32_range x) as Hq end.
    unfold is_u32 in Hq. lia.
  - intros i. generalize online_cpus. intros cpus. clear. revert st.
    induction cpus as [|c cpus IH]; intros st; [done|].
    cbn [pc_update fold_left]. unfold pc_update in IH. rewrite IH.
    unfold pc_set. destruct (Nat.eqb_spec i c) as [->|]; done.
Qed.

Lemma iso_vq_drain_ok rcp_rate now dt vq :
  vq_ok vq -> 1 <= rcp_rate <= 20000 -> dt <> 0 ->
  exists vq', iso_vq_drain rcp_rate now dt vq = Ok vq' /\ vq_ok vq' /\
    (vq' = vq \/ ISO_MIN_RFAIR <= vq_feedback_rate vq' <=
                 Z.max ISO_MIN_RFAIR (vq_fair_rate rcp_rate vq)) /\
    (forall st, vq_percpu_stats vq = Some st ->
       exists st', vq_percpu_stats vq' = Some st' /\
         forall i, vqs_rx_bytes (st' i) = vqs_rx_bytes (st i)).
Proof.
  pok. intros Hok Hrcp Hdt.
  destruct (Z.lt_ge_cases (u64 (ktime_us_delta now (vq_last_update_time vq)))
              (u64 ISO_VQ_UPDATE_INTERVAL_US)) as [Hearly|Hlate].
  - exists vq. unfold iso_vq_drain.
    replace (_ <? u64 ISO_VQ_UPDATE_INTERVAL_US) with true by (symmetry; by apply Z.ltb_lt).
    split; [done|]. split; [done|]. split; [by left|]. eauto.
  - destruct (vq_ok_stats vq Hok) as [st Hst].
    destruct (iso_vq_drain_shape rcp_rate now dt vq st Hlate Hst Hdt)
      as (rx & frac & st' & Hfrac & Heq & Hbytes).
    pose proof (vq_fair_rate_range rcp_rate vq Hok Hrcp) as Hrate.
    destruct (vq_feedback_step_clamped (vq_feedback_rate vq) _ rx Hrate) as (fb & Hfb & Hcl).
    rewrite Heq, Hfb. cbn. eexists. split; [reflexivity|].
    unfold max_rate in Hrate.
    split; [|split; [by right|]].
    + destruct Hok as [_ Ha _ Hw Hs]. split; cbn; auto.
      * by apply ewma16_le.
      * unfold max_rate. lia.
    + intros st0 Hst0. assert (st0 = st) as -> by congruence. exists st'. auto.
Qed.

(** Draining a well-formed virtual queue never faults, keeps it well-formed, and leaves the
    advertised rate unchanged or between ISO_MIN_RFAIR and the fair rate of the queue. *)
Theorem iso_vq_drain_bounds (rcp_rate now dt : Z) (vq : iso_vq) :
  vq_ok vq -> 1 <= rcp_rate <= 20000 -> dt <> 0 ->
  exists vq', iso_vq_drain rcp_rate now dt vq = Ok vq' /\ vq_ok vq' /\
    (vq' = vq \/ ISO_MIN_RFAIR <= vq_feedback_rate vq' <=
                 Z.max ISO_MIN_RFAIR (vq_fair_rate rcp_rate vq)).
Proof.
  intros Hok Hr Hdt. destruct (iso_vq_drain_ok rcp_rate now dt vq Hok Hr Hdt)
    as (vq' & H1 & H2 & H3 & _). eauto.
Qed.

(** Draining a dynamic virtual queue of weight zero divides by zero. *)
Theorem iso_vq_drain_zero_weight (rcp_rate now dt : Z) (vq : iso_vq) :
  vq_weight vq = 0 -> is_Some (vq_percpu_stats vq) -> dt <> 0 ->
  u64 ISO_VQ_UPDATE_INTERVAL_US <= u64 (ktime_us_delta now (vq_last_update_time vq)) ->
  vq_is_static vq = 0 ->
  iso_vq_drain rcp_rate now dt vq = Oops DivideError.
Proof.
  intros Hw [st Hst] Hdt Hlate Hs.
  destruct (iso_vq_drain_shape rcp_rate now dt vq st Hlate Hst Hdt)
    as (rx & frac & st' & _ & -> & _).
  unfold vq_feedback_step, vq_fair_rate. rewrite Hw, Hs, drain_le_max. reflexivity.
Qed.
End ControlLaw.

(** ** Accounting of a received packet *)

Section Accounting.
Context {K : Kernel} {P : params} {PO : params_ok P}.

Definition vq_rx_bytes (vq : iso_vq) (i : nat) : option Z :=
  (fun st => vqs_rx_bytes (st i)) <$> vq_percpu_stats vq.

Lemma vq_stats_update_ok cpu f vq :
  vq_ok vq ->
  exists vq', vq_stats_update cpu f vq = Ok vq' /\ vq_ok vq' /\
    vq_last_update_time vq' = vq_last_update_time vq /\
    (forall st, vq_percpu_stats vq = Some st ->
       vq_percpu_stats vq' = Some (pc_set cpu (f (st cpu)) st)).
Proof.
  intros [[st Hst] Ha Hf Hw Hr]. unfold vq_stats_update. rewrite Hst. cbn.
  eexists. split; [reflexivity|]. split; [|split; [done|]].
  - split; cbn; eauto.
  - intros st' [= <-]. done.
Qed.

(** Updates of the other counters keep the byte counter of every CPU. *)
Ltac rx_kept :=
  unfold pc_set;
  match goal with |- context [Nat.eqb ?i ?cpu] => destruct (Nat.eqb_spec i cpu) as [->|] end;
  cbn; rewrite ?Nat.eqb_refl; reflexivity.

(** The optional drain in the middle of [iso_vq_enqueue]. *)
Lemma vq_maybe_drain_ok rcp_rate now now' (trylock : bool) vq st :
  vq_ok vq -> 1 <= rcp_rate <= 20000 -> vq_percpu_stats vq = Some st ->
  let dt := u64 (ktime_us_delta now (vq_last_update_time vq)) in
  exists vq' st',
    (if u64 ISO_VQ_UPDATE_INTERVAL_US <? dt then
       if trylock then iso_vq_drain rcp_rate now' dt vq else mret vq
     else mret vq) = Ok vq' /\
    vq_ok vq' /\ vq_percpu_stats vq' = Some st' /\
    (forall i, vqs_rx_bytes (st' i) = vqs_rx_bytes (st i)).
Proof.
  intros Hok Hrcp Hst dt.
  destruct (Z.ltb_spec (u64 ISO_VQ_UPDATE_INTERVAL_US) dt) as [Hlt|]; [|exists vq, st; auto].
  destruct trylock; [|exists vq, st; auto].
  pose proof (u64_range ISO_VQ_UPDATE_INTERVAL_US) as Hr. unfold is_u64 in Hr.
  destruct (iso_vq_drain_ok rcp_rate now' dt vq Hok Hrcp ltac:(lia))
    as (vq' & Heq & Hok' & _ & Hst').
  destruct (Hst' st Hst) as (st' & H1 & H2). exists vq', st'. auto.
Qed.

Lemma iso_vq_enqueue_ok rcp_rate now now' trylock cpu pkt vq :
  vq_ok vq -> 1 <= rcp_rate <= 20000 ->
  exists vq', iso_vq_enqueue rcp_rate now now' trylock cpu pkt vq = Ok vq' /\ vq_ok vq' /\
    forall i b, vq_rx_bytes vq i = Some b ->
      vq_rx_bytes vq' i =
        Some (if Nat.eqb i cpu then u64 (b + u32 (skb_size pkt)) else b).
Proof.
  intros Hok Hrcp. unfold iso_vq_enqueue.
  destruct (vq_ok_stats vq Hok) as [st0 Hst0].
  match goal with |- context [vq_stats_update cpu ?f vq ≫= _] =>
    destruct (vq_stats_update_ok cpu f vq Hok) as (vq1 & E1 & Hok1 & _ & Hs1) end.
  rewrite E1. cbn [mbind outcome_bind]. specialize (Hs1 _ Hst0).
  assert (exists vq2 st2,
    (if is_ip pkt && (Z.land (iph_tos (skb_iph pkt)) 3 =? 3) then
          vq_stats_update cpu (fun st => {| st with
            vqs_network_marked := u64 (vqs_network_marked st + 1);
            vqs_rx_marked_since_last_feedback :=
              u32 (vqs_rx_marked_since_last_feedback st + 1) |}) vq1
        else mret vq1) = Ok vq2 /\ vq_ok vq2 /\ vq_percpu_stats vq2 = Some st2 /\
    forall i, vqs_rx_bytes (st2 i) = vqs_rx_bytes (st0 i))
    as (vq2 & st2 & E2 & Hok2 & Hs2 & Hb2).
  { destruct (is_ip pkt && _).
    - match goal with |- context [vq_stats_update cpu ?f vq1] =>
        destruct (vq_stats_update_ok cpu f vq1 Hok1) as (vq2 & E2 & Hok2 & _ & Hs2) end.
      exists vq2. eexists. split; [done|]. split; [done|]. split; [by apply Hs2|].
      intros i. rx_kept.
    - exists vq1. eexists. split; [done|]. split; [done|]. split; [done|].
      intros i. rx_kept. }
  rewrite E2. cbn [mbind outcome_bind].
  destruct (vq_maybe_drain_ok rcp_rate now now' trylock vq2 st2 Hok2 Hrcp Hs2)
    as (vq3 & st3 & E3 & Hok3 & Hs3 & Hb3).
  rewrite E3. cbn [mbind outcome_bind].
  match goal with |- context [vq_stats_update cpu ?f vq3] =>
    destruct (vq_stats_update_ok cpu f vq3 Hok3) as (vq4 & E4 & Hok4 & _ & Hs4) end.
  exists vq4. split; [done|]. split; [done|]. specialize (Hs4 _ Hs3).
  intros i b. unfold vq_rx_bytes. rewrite Hst0, Hs4. cbn. intros [= <-]. unfold pc_set.
  destruct (Nat.eqb_spec i cpu) as [->|]; cbn; by rewrite Hb3, Hb2.
Qed.
(** The class of a virtual queue never changes. *)
Lemma vq_stats_update_klass cpu f vq vq' : vq_stats_update cpu f vq = Ok vq' -> vq_klass vq' = vq_klass vq.
Proof. unfold vq_stats_update. destruct (vq_percpu_stats vq); [|discriminate]. by intros [= <-]. Qed.

Lemma iso_vq_drain_klass rcp_rate now dt vq vq' :
  iso_vq_drain rcp_rate now dt vq = Ok vq' -> vq_klass vq' = vq_klass vq.
Proof.
  unfold iso_vq_drain. destruct (_ <? _); [by intros [= <-]|]. cbn [vq_percpu_stats].
  destruct (vq_percpu_stats vq); [|discriminate]. intros H.
  do 4 (apply bind_ok in H as (? & _ & H)). by injection H as <-.
Qed.

Lemma iso_vq_enqueue_klass rcp_rate now now' trylock cpu pkt vq vq' :
  iso_vq_enqueue rcp_rate now now' trylock cpu pkt vq = Ok vq' -> vq_klass vq' = vq_klass vq.
Proof.
  unfold iso_vq_enqueue. intros H. apply bind_ok in H as (vq1 & E1 & H).
  apply bind_ok in H as (vq2 & E2 & H). apply bind_ok in H as (vq3 & E3 & E4).
  rewrite (vq_stats_update_klass _ _ _ _ E4). apply vq_stats_update_klass in E1.
  assert (vq_klass vq2 = vq_klass vq1) as E2'.
  { destruct (_ && _); [by eapply vq_stats_update_klass|by injection E2 as <-]. }
  assert (vq_klass vq3 = vq_klass vq2) as E3'.
  { destruct (_ <? _); [destruct trylock; [by eapply iso_vq_drain_klass|]|]; by injection E3 as <-. }
  congruence.
Qed.

(** Accounting a packet to a well-formed virtual queue never faults, keeps the queue well-formed
    and its class, and adds the packet's size to the byte counter of this CPU only. *)
Theorem iso_vq_enqueue_accounts (rcp_rate now now' : Z) (trylock : bool) (cpu : nat)
    (pkt : sk_buff) (vq : iso_vq) :
  vq_ok vq -> 1 <= rcp_rate <= 20000 ->
  exists vq', iso_vq_enqueue rcp_rate now now' trylock cpu pkt vq = Ok vq' /\ vq_ok vq' /\
    vq_klass vq' = vq_klass vq /\
    forall i b, vq_rx_bytes vq i = Some b ->
      vq_rx_bytes vq' i =
        Some (if Nat.eqb i cpu then u64 (b + u32 (skb_size pkt)) else b).
Proof.
  intros Hok Hr. destruct (iso_vq_enqueue_ok rcp_rate now now' trylock cpu pkt vq Hok Hr) as (vq' & E & H1 & H2).
  exists vq'. split; [done|]. split; [done|]. split; [by eapply iso_vq_enqueue_klass|done].
Qed.
End Accounting.

(** ** Witnesses *)

Definition ex_vq : iso_vq := {|
  vq_enabled := 1; vq_is_static := 0; vq_rate := 10; vq_total_bytes_queued := 0;
  vq_feedback_rate := 1000; vq_rx_rate := 0; vq_last_rx_bytes := 0; vq_weight := 1;
  vq_alpha := 0; vq_last_update_time := 0; vq_last_borrow_time := 0;
  vq_percpu_stats := Some (fun _ => zero_vq_stats); vq_klass := 0; vq_refcnt := 0 |}.

Lemma ex_vq_ok : vq_ok (P := default_params) ex_vq.
Proof. split; cbn; eauto; unfold max_rate; try lia. Qed.

Lemma vq_feedback_control_law_witness :
  vq_feedback_step (P := default_params) 1000 9000 9000 = Ok 1000 /\
  vq_feedback_step (P := default_params) 9000 5000 4000 = Ok 5000.
Proof.
  destruct (vq_feedback_control_law (P := default_params) 1000 9000 9000)
    as (fb' & H1 & _ & H2 & _); try (unfold max_rate; cbn; lia).
  destruct (vq_feedback_control_law (P := default_params) 9000 5000 4000)
    as (fb2 & H3 & _ & _ & H4); try (unfold max_rate; cbn; lia).
  split; [rewrite H1|rewrite H3]; f_equal; [apply H2; [lia|reflexivity]|apply H4; lia].
Defined.

Lemma vq_feedback_overload_wraps_witness :
  vq_feedback_step (P := default_params) 100 1000 9000 = Ok 1000.
Proof.
  apply (vq_feedback_overload_wraps (P := default_params) 100 1000 9000); unfold max_rate; lia.
Defined.

Lemma iso_vq_drain_bounds_witness :
  exists vq', iso_vq_drain (K := ref_kernel) (P := default_params) 9000 300000 300 ex_vq = Ok vq'.
Proof.
  destruct (iso_vq_drain_bounds (K := ref_kernel) (P := default_params) 9000 300000 300 ex_vq)
    as (vq' & H & _); [apply ex_vq_ok|lia|lia|].
  exists vq'. exact H.
Defined.

Lemma iso_vq_drain_zero_weight_witness :
  iso_vq_drain (K := ref_kernel) (P := default_params) 9000 300000 300
    {| ex_vq with vq_weight := 0 |} = Oops DivideError.
Proof.
  apply (iso_vq_drain_zero_weight (K := ref_kernel) (P := default_params));
    [reflexivity|eexists; reflexivity|lia|vm_compute; discriminate|reflexivity].
Defined.

Lemma iso_vq_enqueue_accounts_witness :
  exists vq', iso_vq_enqueue (K := ref_kernel) (P := default_params)
    9000 300000 300000 true 1 ex_skb ex_vq = Ok vq' /\ vq_rx_bytes vq' 1 = Some 1514.
Proof.
  destruct (iso_vq_enqueue_accounts (K := ref_kernel) (P := default_params)
    9000 300000 300000 true 1 ex_skb ex_vq) as (vq' & H1 & _ & _ & H2); [apply ex_vq_ok|lia|].
  exists vq'. split; [exact H1|exact (H2 1%nat 0 eq_refl)].
Defined.
