(* ===== verification/VqTable.v ===== *)
(** * The virtual queues of a device (rx.h, vq.h, vq.c, iso_vq_install of rx.c)

    The receive context of a device, the list and hash table of its virtual
    queues, and the operations that create, find, delete them and divide the
    drain rate among them. *)

From S2P Require Import Prelude Params Kernel Packet Scan Class HashTable VirtualQueue.

Open Scope Z_scope.

Record iso_rx_stats := { rxs_rx_bytes : Z; rxs_rx_packets : Z }.

Record iso_rx_context := {
  rxc_vq_last_update_time : Z;                     (** ktime_t *)
  rxc_vq_list : list loc;
  rxc_vq_bucket : buckets;
  rxc_vq_active_rate : Z;                          (** atomic_t *)
  rxc_stats : option (percpu iso_rx_stats);
  rxc_global_stats : iso_rx_stats;
  rxc_global_stats_last : iso_rx_stats;
  rxc_last_stats_update_time : Z;                  (** ktime_t *)
  rxc_last_rcp_time : Z;                           (** ktime_t *)
  rxc_rcp_rate : Z;                                (** u32 *)
  rxc_rx_rate : Z                                  (** u32 *)
}.

(** A receive context with the virtual queues that point back to it. *)
Record rx_state := {
  rx_ctx : iso_rx_context;
  rx_vqs : gmap loc iso_vq
}.

(** What the allocators return to one [iso_vq_alloc]: the contents of the
    memory from [kmalloc] (arbitrary) or NULL, and the zeroed per-CPU area. *)
Record vq_alloc_env := {
  va_kmalloc : option iso_vq;
  va_percpu : option (percpu iso_vq_stats);
  va_now : Z
}.

Section VqTable.
Context {K : Kernel} {P : params} {C : IsoClass}.

Definition iso_vqs_init (now : Z) (ctx : iso_rx_context) : iso_rx_context :=
  {| ctx with rxc_vq_list := [];
              rxc_vq_last_update_time := now;
              rxc_vq_active_rate := 0;
              rxc_vq_bucket := fun i =>
                if (0 <=? i) && (i <? ISO_MAX_VQ_BUCKETS) then [] else rxc_vq_bucket ctx i |}.

Definition iso_vq_find (klass : Z) (s : rx_state) : outcome (option loc) :=
  let head := rxc_vq_bucket (rx_ctx s) (chain_of ISO_MAX_VQ_BUCKETS klass) in
  chain_find vq_klass (rx_vqs s) head klass.

(** The first loop of [iso_vq_calculate_rates]. *)
Definition vq_total_weight (l : list loc) (h : gmap loc iso_vq) : outcome Z :=
  foldM (fun total p => vq ← deref h p; mret (u32 (total + vq_weight vq))) l 0.

(** The body of its second loop. *)
Definition vq_share (total_weight : Z) (vq : iso_vq) : outcome iso_vq :=
  if negb (vq_is_static vq =? 0) then mret vq
  else
    r ← div_u (u64 (u64 ISO_VQ_DRAIN_RATE_MBPS * vq_weight vq)) total_weight;
    mret {| vq with vq_rate := r |}.

Definition iso_vq_calculate_rates (s : rx_state) : outcome rx_state :=
  let l := rxc_vq_list (rx_ctx s) in
  total_weight ← vq_total_weight l (rx_vqs s);
  if 0 <? total_weight then
    h ← for_each_ptr (vq_share total_weight) l (rx_vqs s);
    mret {| s with rx_vqs := h |}
  else mret s.

Definition iso_vq_alloc (e : vq_alloc_env) (klass : Z) (s : rx_state)
    : outcome (option loc * rx_state) :=
  match va_kmalloc e with
  | None => mret (None, s)
  | Some mem =>
      let p := fresh (dom (rx_vqs s)) in
      let '(_, vq) := iso_vq_init (va_now e) (va_percpu e) mem in
      let vq := {| vq with vq_klass := klass |} in
      let ctx := rx_ctx s in
      let s := {| rx_vqs := <[p := vq]> (rx_vqs s);
                  rx_ctx := {| ctx with
                    rxc_vq_list := rxc_vq_list ctx ++ [p];
                    rxc_vq_bucket :=
                      hlist_add_head (chain_of ISO_MAX_VQ_BUCKETS klass) p (rxc_vq_bucket ctx) |} |} in
      s ← iso_vq_calculate_rates s;
      mret (Some p, s)
  end.

Definition iso_vq_free (p : loc) (s : rx_state) : outcome rx_state :=
  vq ← deref (rx_vqs s) p;
  if 0 <? vq_refcnt vq then mret s
  else
    let ctx := rx_ctx s in
    mret {| rx_ctx := {| ctx with rxc_vq_list := filter (fun q => q <> p) (rxc_vq_list ctx) |};
            rx_vqs := delete p (rx_vqs s) |}.

Definition iso_vqs_exit (s : rx_state) : outcome rx_state :=
  foldM (fun s p => iso_vq_free p s) (rxc_vq_list (rx_ctx s)) s.

Definition iso_vq_install (e : vq_alloc_env) (_klass : cstring) (s : rx_state)
    : outcome (Z * rx_state) :=
  let klass := op_parse _klass in
  vq ← iso_vq_find klass s;
  match vq with
  | Some _ => mret (-1, s)
  | None =>
      '(vq, s) ← iso_vq_alloc e klass s;
      match vq with
      | None => mret (-1, s)
      | Some _ => mret (0, s)
      end
  end.
End VqTable.

(** ** The table is a map from classes to virtual queues *)

Section VqTableProps.
Context {K : Kernel} {P : params} {C : IsoClass} {valid : Z -> Prop} {L : IsoClassLaws C valid}.

Definition vqt_ok (s : rx_state) : Prop :=
  table_ok (C := C) vq_klass ISO_MAX_VQ_BUCKETS (valid := valid)
    (rxc_vq_list (rx_ctx s)) (rxc_vq_bucket (rx_ctx s)) (rx_vqs s).

(** The weights of the objects of a list. *)
Definition vq_weights (h : gmap loc iso_vq) (l : list loc) : list Z :=
  map (fun p => match h !! p with Some vq => vq_weight vq | None => 0 end) l.

Lemma vq_total_weight_eq l h :
  live h l -> vq_total_weight l h = Ok (u32 (sumZ (vq_weights h l))).
Proof.
  intros Hl. unfold vq_total_weight.
  enough (H : forall acc, foldM (fun total p => vq ← deref h p; mret (u32 (total + vq_weight vq)))
    l (u32 acc) = Ok (u32 (acc + sumZ (vq_weights h l)))).
  { specialize (H 0). rewrite (u32_small 0) in H by lia. by rewrite H, Z.add_0_l. }
  induction Hl as [|p l [vq Hvq] Hl IH]; intros acc; cbn.
  - by rewrite Z.add_0_r.
  - rewrite (deref_ok h p vq), Hvq by done. cbn. rewrite u32_add_l, IH. do 2 f_equal. unfold vq_weights. lia.
Qed.

(** The share as a total function. *)
Definition vq_shared (total : Z) (vq : iso_vq) : iso_vq :=
  if negb (vq_is_static vq =? 0) then vq
  else {| vq with vq_rate := u64 (u64 ISO_VQ_DRAIN_RATE_MBPS * vq_weight vq) / total |}.

Lemma vq_share_shared total vq : 0 < total -> vq_share total vq = Ok (vq_shared total vq).
Proof.
  intros Ht. unfold vq_share, vq_shared. destruct (negb _); [done|].
  rewrite div_u_ok by lia. done.
Qed.

Lemma vq_shared_klass total vq : vq_klass (vq_shared total vq) = vq_klass vq.
Proof. unfold vq_shared. by destruct (negb _). Qed.

(** Recomputing the rates never faults on a well-formed table and only changes
    the rates. *)
Lemma calculate_rates_shape s :
  NoDup (rxc_vq_list (rx_ctx s)) -> live (rx_vqs s) (rxc_vq_list (rx_ctx s)) ->
  exists h, iso_vq_calculate_rates s = Ok {| rx_ctx := rx_ctx s; rx_vqs := h |} /\
    exists total,
      total = u32 (sumZ (vq_weights (rx_vqs s) (rxc_vq_list (rx_ctx s)))) /\
      forall p, h !! p =
        if decide (p ∈ rxc_vq_list (rx_ctx s)) then
          (fun vq => if 0 <? total then vq_shared total vq else vq) <$> rx_vqs s !! p
        else rx_vqs s !! p.
Proof.
  intros Hnd Hl. unfold iso_vq_calculate_rates. rewrite vq_total_weight_eq by done.
  cbn [mbind outcome_bind]. set (total := u32 _).
  destruct (Z.ltb_spec 0 total) as [Ht|Ht].
  - destruct (for_each_ptr_spec (vq_share total) (vq_shared total) _ _ Hnd Hl) as (h & -> & Hh).
    { intros. by apply vq_share_shared. }
    exists h. split; [done|]. exists total. split; [done|]. intros p. rewrite Hh.
    by rewrite (proj2 (Z.ltb_lt 0 total) Ht).
  - exists (rx_vqs s). split; [by destruct s|]. exists total. split; [done|]. intros p.
    rewrite (proj2 (Z.ltb_ge 0 total) Ht).
    destruct (decide _); [|done]. by rewrite option_fmap_id.
Qed.

Lemma calculate_rates_ok s :
  vqt_ok s -> exists s', iso_vq_calculate_rates s = Ok s' /\ vqt_ok s' /\
    rx_ctx s' = rx_ctx s /\ (forall p, vq_klass <$> rx_vqs s' !! p = vq_klass <$> rx_vqs s !! p).
Proof.
  intros T. destruct (calculate_rates_shape s (tok_nodup _ _ _ _ _ T) (tok_live _ _ _ _ _ T))
    as (h & Heq & total & _ & Hh).
  assert (Hk : forall p, vq_klass <$> h !! p = vq_klass <$> rx_vqs s !! p).
  { intros p. rewrite Hh. destruct (decide _); [|done].
    destruct (rx_vqs s !! p) as [vq|]; [|done]. cbn.
    destruct (0 <? total); [|done]. by rewrite vq_shared_klass. }
  eexists. split; [exact Heq|]. split; [|done].
  by apply (table_same_keys _ _ _ _ (rx_vqs s)).
Qed.

Lemma alloc_ok e klass s mem :
  vqt_ok s -> valid klass -> va_kmalloc e = Some mem ->
  (forall p vq, p ∈ rxc_vq_list (rx_ctx s) -> rx_vqs s !! p = Some vq -> vq_klass vq <> klass) ->
  exists p s', iso_vq_alloc e klass s = Ok (Some p, s') /\ vqt_ok s' /\
    rx_vqs s !! p = None /\
    rxc_vq_list (rx_ctx s') = rxc_vq_list (rx_ctx s) ++ [p] /\
    (forall q, q <> p -> vq_klass <$> rx_vqs s' !! q = vq_klass <$> rx_vqs s !! q) /\
    vq_klass <$> rx_vqs s' !! p = Some klass.
Proof.
  intros T Hk Hmem Hnew. unfold iso_vq_alloc. rewrite Hmem.
  set (p := fresh (dom (rx_vqs s))).
  assert (Hp : rx_vqs s !! p = None).
  { apply not_elem_of_dom. apply is_fresh. }
  destruct (iso_vq_init (va_now e) (va_percpu e) mem) as [ret vq0].
  set (vq := {| vq0 with vq_klass := klass |}).
  match goal with |- context [iso_vq_calculate_rates ?x] => set (s1 := x) end.
  assert (T1 : vqt_ok s1)
    by exact (table_add vq_klass ISO_MAX_VQ_BUCKETS _ _ _ p vq T Hp Hk Hnew).
  destruct (calculate_rates_ok s1 T1) as (s2 & Heq & T2 & Hctx & Hkeys).
  rewrite Heq. exists p, s2. split; [done|]. split; [done|]. split; [done|].
  split; [by rewrite Hctx|]. split.
  - intros q Hq. rewrite Hkeys. cbn. by rewrite lookup_insert_ne.
  - rewrite Hkeys. cbn. by rewrite lookup_insert_eq.
Qed.

(** Installing a virtual queue keeps the table a map from classes to queues: a new class is
    added and found afterwards, an existing class or a failed allocation gives -1 and no change,
    and installed classes stay where they are. *)
Theorem iso_vq_install_spec (e : vq_alloc_env) (name : cstring) (s : rx_state) :
  vqt_ok s ->
  exists r s', iso_vq_install e name s = Ok (r, s') /\ vqt_ok s' /\
    (* an installed class stays where it is *)
    (forall k p, valid k -> iso_vq_find k s = Ok (Some p) -> iso_vq_find k s' = Ok (Some p)) /\
    match iso_vq_find (op_parse name) s with
    | Ok None =>
        match va_kmalloc e with
        | Some _ => r = 0 /\ exists p, iso_vq_find (op_parse name) s' = Ok (Some p) /\
                                       rx_vqs s !! p = None
        | None => r = -1 /\ s' = s
        end
    | _ => r = -1 /\ s' = s
    end.
Proof.
  intros T. unfold iso_vq_install.
  pose proof (parse_valid (valid := valid) name) as Hval.
  destruct (table_find vq_klass _ _ _ _ _ T Hval) as (r0 & Hfind & Hr0).
  assert (Hfind' : iso_vq_find (op_parse name) s = Ok r0) by exact Hfind.
  rewrite Hfind'. cbn [mbind outcome_bind]. destruct r0 as [p|].
  - exists (-1), s. auto.
  - destruct (va_kmalloc e) as [mem|] eqn:Hmem.
    + destruct (alloc_ok e (op_parse name) s mem T Hval Hmem Hr0)
        as (p & s' & -> & T' & Hp & Hlist & Hother & Hpk).
      cbn. exists 0, s'. split; [done|]. split; [done|].
      assert (Hpl : p ∈ rxc_vq_list (rx_ctx s')).
      { rewrite Hlist. apply elem_of_app. right. by apply list_elem_of_singleton. }
      split.
      * intros k q Hk Hq. destruct (table_find vq_klass _ _ _ _ k T Hk) as (r & Er & Hr).
        unfold iso_vq_find in Hq. rewrite Er in Hq. injection Hq as ->.
        destruct Hr as (Hql & v & Hv & Hkv).
        assert (q <> p) by congruence.
        specialize (Hother q ltac:(done)). rewrite Hv in Hother. cbn in Hother.
        destruct (rx_vqs s' !! q) as [v'|] eqn:Hv'; [|discriminate]. injection Hother as Hkv'.
        apply (table_find_unique vq_klass _ _ _ _ k q v' T' Hk); [|done|congruence].
        rewrite Hlist. apply elem_of_app. by left.
      * split; [done|]. exists p. split; [|done].
        destruct (rx_vqs s' !! p) as [v|] eqn:Hv; [|discriminate]. injection Hpk as Hpk.
        by apply (table_find_unique vq_klass _ _ _ _ _ p v T' Hval).
    + unfold iso_vq_alloc. rewrite Hmem. cbn. exists (-1), s. auto.
Qed.

(** ** Dividing the drain rate *)

(** The rates of the queues whose rate is not set by the administrator. *)
Definition dynamic_rates (h : gmap loc iso_vq) (l : list loc) : list Z :=
  map (fun p => match h !! p with
                | Some vq => if vq_is_static vq =? 0 then vq_rate vq else 0
                | None => 0
                end) l.

Lemma vq_weights_shares d W h l :
  map (fun w => d * w / W) (vq_weights h l) =
  map (fun p => d * match h !! p with Some vq => vq_weight vq | None => 0 end / W) l.
Proof. unfold vq_weights. by rewrite map_map. Qed.

(** C16: Recomputing the rates gives each dynamic virtual queue the drain rate times its weight
    over the total weight, and together they do not exceed the drain rate. *)
Theorem iso_vq_rates_no_oversubscription (s : rx_state) :
  vqt_ok s ->
  0 <= ISO_VQ_DRAIN_RATE_MBPS < 2147483648 ->
  (forall p vq, rx_vqs s !! p = Some vq -> 0 <= vq_weight vq <= 1024) ->
  let l := rxc_vq_list (rx_ctx s) in
  let W := sumZ (vq_weights (rx_vqs s) l) in
  0 < W < 4294967296 ->
  exists s', iso_vq_calculate_rates s = Ok s' /\ vqt_ok s' /\
    (forall p vq, p ∈ l -> rx_vqs s !! p = Some vq -> vq_is_static vq = 0 ->
       vq_rate <$> rx_vqs s' !! p = Some (ISO_VQ_DRAIN_RATE_MBPS * vq_weight vq / W)) /\
    sumZ (dynamic_rates (rx_vqs s') l) <= ISO_VQ_DRAIN_RATE_MBPS.
Proof.
  intros T HD Hw l W HW.
  destruct (calculate_rates_shape s (tok_nodup _ _ _ _ _ T) (tok_live _ _ _ _ _ T))
    as (h & Heq & total & Htot & Hh).
  destruct (calculate_rates_ok s T) as (s' & Heq' & T' & _).
  rewrite Heq in Heq'. injection Heq' as <-. clear T.
  fold l W in Htot. rewrite u32_small in Htot by lia. subst total. fold l in Hh.
  replace (0 <? W) with true in Hh by (symmetry; apply Z.ltb_lt; lia).
  assert (Hshare : forall vq, 0 <= vq_weight vq <= 1024 ->
    u64 (u64 ISO_VQ_DRAIN_RATE_MBPS * vq_weight vq) / W = ISO_VQ_DRAIN_RATE_MBPS * vq_weight vq / W).
  { intros vq Hvq. rewrite (u64_small ISO_VQ_DRAIN_RATE_MBPS) by lia. by rewrite u64_small by nia. }
  eexists. split; [exact Heq|]. split; [exact T'|]. cbn. split.
  - intros p vq Hp Hvq Hs. rewrite Hh, decide_True, Hvq by done. cbn. unfold vq_shared.
    rewrite Hs. cbn. rewrite Hshare; [done|eauto].
  - transitivity (sumZ (map (fun w => ISO_VQ_DRAIN_RATE_MBPS * w / W) (vq_weights (rx_vqs s) l))).
    + rewrite vq_weights_shares. apply sumZ_map_le. intros p Hp.
      rewrite Hh, decide_True by done. destruct (rx_vqs s !! p) as [vq|] eqn:Hvq; cbn.
      * unfold vq_shared. destruct (vq_is_static vq =? 0) eqn:E; cbn; rewrite E.
        -- rewrite Hshare by eauto. lia.
        -- apply Z.div_pos; [|lia]. specialize (Hw p vq Hvq). nia.
      * apply Z.div_pos; lia.
    + apply sum_shares_le; try lia.
      unfold vq_weights. apply Forall_map, Forall_forall. intros p _. cbn.
      destruct (rx_vqs s !! p) as [vq|] eqn:Hvq; [|lia]. specialize (Hw p vq Hvq). lia.
Qed.

(** Freeing an unreferenced virtual queue leaves it in its hash chain, so the next lookup of its
    class dereferences freed memory. *)
Theorem iso_vq_free_leaves_dangling_entry (s : rx_state) (klass : Z) (p : loc) (vq : iso_vq) :
  iso_vq_find klass s = Ok (Some p) -> rx_vqs s !! p = Some vq -> vq_refcnt vq <= 0 ->
  exists s', iso_vq_free p s = Ok s' /\ rx_vqs s' !! p = None /\
    iso_vq_find klass s' = Oops BadPointer.
Proof.
  intros Hf Hp Hr. unfold iso_vq_free. rewrite (deref_ok _ _ _ Hp). cbn [mbind outcome_bind].
  replace (0 <? vq_refcnt vq) with false by (symmetry; by apply Z.ltb_ge).
  eexists. split; [reflexivity|]. cbn. split; [apply lookup_delete_eq|].
  unfold iso_vq_find in *. cbn. by apply chain_find_dangling.
Qed.
End VqTableProps.

(** ** Witnesses *)

Definition ex_rx_ctx : iso_rx_context := {|
  rxc_vq_last_update_time := 0; rxc_vq_list := []; rxc_vq_bucket := no_buckets;
  rxc_vq_active_rate := 0; rxc_stats := Some (fun _ => {| rxs_rx_bytes := 0; rxs_rx_packets := 0 |});
  rxc_global_stats := {| rxs_rx_bytes := 0; rxs_rx_packets := 0 |};
  rxc_global_stats_last := {| rxs_rx_bytes := 0; rxs_rx_packets := 0 |};
  rxc_last_stats_update_time := 0; rxc_last_rcp_time := 0; rxc_rcp_rate := 9000;
  rxc_rx_rate := 0 |}.
Definition ex_rx0 : rx_state := {| rx_ctx := ex_rx_ctx; rx_vqs := ∅ |}.
Definition ex_rx1 : rx_state :=
  {| rx_ctx := {| ex_rx_ctx with rxc_vq_list := [1%positive];
                  rxc_vq_bucket := hlist_add_head (chain_of (C := Mark.ops) ISO_MAX_VQ_BUCKETS 7)
                                     1%positive no_buckets |};
     rx_vqs := {[ 1%positive := {| ex_vq with vq_klass := 7 |} ]} |}.

Lemma ex_rx1_ok : vqt_ok (C := Mark.ops) (valid := is_u32) ex_rx1.
Proof.
  change ex_rx1 with {| rx_ctx := rx_ctx ex_rx1;
    rx_vqs := <[1%positive := {| ex_vq with vq_klass := 7 |}]> ∅ |}.
  apply (table_add (C := Mark.ops) vq_klass ISO_MAX_VQ_BUCKETS (valid := is_u32) [] no_buckets ∅
           1%positive {| ex_vq with vq_klass := 7 |}).
  - apply table_empty.
  - reflexivity.
  - unfold is_u32; cbn; lia.
  - intros q w Hq. by apply not_elem_of_nil in Hq.
Qed.

Definition ex_vq_env : vq_alloc_env :=
  {| va_kmalloc := Some ex_vq; va_percpu := Some (fun _ => zero_vq_stats); va_now := 0 |}.

Lemma iso_vq_install_spec_witness :
  exists r s', iso_vq_install (K := ref_kernel) (P := default_params) (C := Mark.ops)
    ex_vq_env (sprintf_d 9) ex_rx1 = Ok (r, s') /\ r = 0.
Proof.
  destruct (iso_vq_install_spec (K := ref_kernel) (P := default_params) (C := Mark.ops)
    (valid := is_u32) ex_vq_env (sprintf_d 9) ex_rx1 ex_rx1_ok) as (r & s' & H1 & _ & _ & H2).
  assert (E : iso_vq_find (C := Mark.ops) (op_parse (IsoClass := Mark.ops) (sprintf_d 9)) ex_rx1 = Ok None)
    by (vm_compute; reflexivity).
  rewrite E in H2. destruct H2 as [H2 _]. exists r, s'. split; [exact H1|exact H2].
Defined.

Lemma iso_vq_rates_no_oversubscription_witness :
  exists s', iso_vq_calculate_rates (P := default_params) ex_rx1 = Ok s' /\
    sumZ (dynamic_rates (rx_vqs s') [1%positive]) <= 9000.
Proof.
  destruct (iso_vq_rates_no_oversubscription (P := default_params) (C := Mark.ops)
    (valid := is_u32) ex_rx1 ex_rx1_ok) as (s' & H1 & _ & _ & H2).
  - cbn; lia.
  - intros p vq. unfold ex_rx1. cbn [rx_vqs].
    rewrite lookup_singleton. case_decide; [|discriminate]. intros [= <-]. cbn; lia.
  - vm_compute. split; reflexivity.
  - exists s'. split; [exact H1|exact H2].
Defined.

Lemma iso_vq_free_leaves_dangling_entry_witness :
  exists s', iso_vq_free 1%positive ex_rx1 = Ok s' /\
    iso_vq_find (C := Mark.ops) 7 s' = Oops BadPointer.
Proof.
  destruct (iso_vq_free_leaves_dangling_entry (C := Mark.ops) ex_rx1 7 1%positive
    {| ex_vq with vq_klass := 7 |}) as (s' & H1 & _ & H2);
    [vm_compute; reflexivity|reflexivity|cbn; lia|].
  exists s'. split; [exact H1|exact H2].
Defined.
