(* ===== verification/RateLimiter.v ===== *)
(** * Rate limiters: the token bucket and its queues (rl.h, rl.c)

    A rate limiter has a shared pool of tokens (bytes) that the clock refills
    at [rate] Mb/s, and one packet queue per CPU with tokens borrowed from the
    pool.  This file has the operations on one rate limiter; the transmit loop,
    which moves packets between rate limiters and to the driver, is in
    Dequeue. *)

From S2P Require Import Prelude Params Kernel Packet.

Open Scope Z_scope.

(** [struct iso_rl_queue].  Its [cpu] and [rl] fields are its position in the
    per-CPU array of its rate limiter; membership of [active_list] is recorded
    by the list itself ([cb_active_list]). *)
Record iso_rl_queue := {
  rlq_list : list sk_buff;
  rlq_first_pkt_size : Z;     (** int *)
  rlq_bytes_enqueued : Z;     (** u64 *)
  rlq_bytes_xmit : Z;         (** u64 *)
  rlq_feedback_backlog : Z;   (** u64 *)
  rlq_tokens : Z              (** u64 *)
}.

Record iso_rl := {
  rl_rate : Z;                    (** u32, Mb/s *)
  rl_ip : Z;                      (** le32 *)
  rl_total_tokens : Z;            (** u64 *)
  rl_accum_xmit : Z;              (** u64 *)
  rl_accum_enqueued : Z;          (** u64 *)
  rl_last_update_time : Z;        (** ktime_t *)
  rl_last_rate_update_time : Z;   (** ktime_t *)
  rl_queue : percpu iso_rl_queue;
  rl_txc : option loc             (** the class whose rate limiter is the parent *)
}.

Definition MIN_PKT_SIZE : Z := 600.

(** Rewrite the queue of one CPU. *)
Definition set_queue (cpu : nat) (q : iso_rl_queue) (rl : iso_rl) : iso_rl :=
  {| rl with rl_queue := pc_set cpu q (rl_queue rl) |}.

Section RateLimiter.
Context {K : Kernel} {P : params}.

(** The per-CPU area [queue0] comes from [alloc_percpu]; the two times are the
    two calls of [ktime_get]. *)
Definition iso_rl_init (t1 t2 : Z) (queue0 : percpu iso_rl_queue) (rl : iso_rl) : iso_rl :=
  {| rl with
     rl_rate := u32 ISO_RFAIR_INITIAL;
     rl_total_tokens := 15000;
     rl_last_update_time := t1;
     rl_last_rate_update_time := t2;
     rl_accum_xmit := 0;
     rl_accum_enqueued := 0;
     rl_queue := pc_update (fun _ => {|
                   rlq_list := [];
                   rlq_first_pkt_size := 0;
                   rlq_bytes_enqueued := 0;
                   rlq_bytes_xmit := 0;
                   rlq_feedback_backlog := 0;
                   rlq_tokens := 0 |}) possible_cpus queue0;
     rl_txc := None |}.

Definition iso_rl_should_refill (now : Z) (rl : iso_rl) : bool :=
  ISO_RL_UPDATE_INTERVAL_US <? ktime_us_delta now (rl_last_update_time rl).

Definition iso_rl_singleq_burst (rl : iso_rl) : outcome Z :=
  div_u (Z.shiftr (u32 (rl_rate rl * u32 ISO_MAX_BURST_TIME_US)) 3) (u32 ISO_BURST_FACTOR).

Definition iso_rl_accum (rl : iso_rl) : iso_rl :=
  let xmit := pc_sum u64 rlq_bytes_xmit (rl_queue rl) online_cpus in
  let queued := pc_sum u64 rlq_bytes_enqueued (rl_queue rl) online_cpus in
  {| rl with rl_accum_xmit := xmit; rl_accum_enqueued := queued |}.

(** The most tokens the pool may hold at a rate. *)
Definition iso_rl_cap (rate : Z) : Z :=
  Z.max (Z.shiftr (u32 (rate * u32 ISO_MAX_BURST_TIME_US)) 3) (u32 ISO_MIN_BURST_BYTES).

(** The steps of [iso_rl_clock]: an idle limiter restarts at [ISO_IDLE_RATE] ... *)
Definition rl_idle_restart (us : Z) (rl : iso_rl) : iso_rl :=
  if (u64 ISO_IDLE_TIMEOUT_US <? us) && (u32 ISO_IDLE_RATE <? rl_rate rl)
  then {| rl with rl_rate := ISO_IDLE_RATE |} else rl.

(** ... the rate is halved when no feedback has arrived for a while ... *)
Definition rl_feedback_decay (now : Z) (rl : iso_rl) : iso_rl :=
  let us2 := u64 (ktime_us_delta now (rl_last_rate_update_time rl)) in
  if u64 ISO_RFAIR_FEEDBACK_TIMEOUT_US <? us2 then
    let rate := Z.shiftr (rl_rate rl) 1 in
    {| rl with rl_rate := u32 (max_t s32 2 rate); rl_last_rate_update_time := now |}
  else rl.

(** ... and the pool is refilled up to its cap. *)
Definition rl_refill (us : Z) (rl : iso_rl) : iso_rl :=
  let total_tokens := u64 (rl_total_tokens rl + Z.shiftr (u64 (rl_rate rl * us)) 3) in
  {| rl with rl_total_tokens := Z.min (iso_rl_cap (rl_rate rl)) total_tokens |}.

(** [iso_rl_clock(rl)]; [now0] is the reading in [iso_rl_should_refill]. *)
Definition iso_rl_clock (now0 now : Z) (rl : iso_rl) : iso_rl :=
  if negb (iso_rl_should_refill now0 rl) then rl
  else
    let us := u64 (ktime_us_delta now (rl_last_update_time rl)) in
    let rl := rl_idle_restart us rl in
    let rl := rl_feedback_decay now rl in
    let rl := rl_refill us rl in
    {| rl with rl_last_update_time := now |}.

(** [__skb_queue_tail] and the byte count. *)
Definition queue_tail (pkt : sk_buff) (q : iso_rl_queue) : iso_rl_queue :=
  {| q with rlq_list := rlq_list q ++ [pkt];
            rlq_bytes_enqueued := u64 (rlq_bytes_enqueued q + u64 (skb_size pkt)) |}.

(** The loop over the segments of a GSO packet: a segment that finds the queue
    full is freed. *)
Fixpoint enqueue_segments (segs : list sk_buff) (q : iso_rl_queue) : iso_rl_queue :=
  match segs with
  | [] => q
  | skb :: next =>
      let q := if rlq_bytes_enqueued q <? u64 ISO_MAX_QUEUE_LEN_BYTES
               then queue_tail skb q else q in
      enqueue_segments next q
  end.

(** [iso_rl_enqueue(rl, pkt, cpu)]; the times are the readings of
    [iso_rl_clock].  A DROP verdict leaves [pkt] to the caller. *)
Definition iso_rl_enqueue (now0 now : Z) (rl : iso_rl) (pkt : sk_buff) (cpu : nat)
    : outcome (iso_verdict * iso_rl) :=
  let rl := iso_rl_clock now0 now rl in
  let q := rl_queue rl cpu in
  let len := skb_size pkt in
  if (u32 ISO_GSO_THRESH_RATE <? rl_rate rl) || (len <=? ISO_GSO_MIN_SPLIT_BYTES) then
    let over := u64 ISO_MAX_QUEUE_LEN_BYTES <? u64 (rlq_bytes_enqueued q + u64 len) in
    let diff := s32 (s32 (s32 (rlq_bytes_enqueued q) + len) - ISO_MAX_QUEUE_LEN_BYTES) in
    if over && ((len <? diff) || (s32 (diff - len) <? MIN_PKT_SIZE)) then
      mret (ISO_VERDICT_DROP, rl)
    else
      let pkt := if over then skb_trim pkt (u32 diff) else pkt in
      let bytes := u64 (rlq_bytes_enqueued q + u64 (skb_size pkt)) in
      let pkt' :=
        if bool_decide (rl_txc rl = None) && (u64 ISO_TX_MARK_THRESH <? bytes) && is_ip pkt
        then {| pkt with skb_iph := ipv4_change_dsfield (skb_iph pkt) 0 3 |} else pkt in
      let q := {| q with rlq_list := rlq_list q ++ [pkt']; rlq_bytes_enqueued := bytes |} in
      mret (ISO_VERDICT_SUCCESS, set_queue cpu q rl)
  else
    match skb_gso_segment pkt with
    | GsoErr => mret (ISO_VERDICT_ERROR, rl)
    | GsoSegs [] => Oops BadPointer
    | GsoSegs segs => mret (ISO_VERDICT_SUCCESS, set_queue cpu (enqueue_segments segs q) rl)
    end.

Definition iso_rl_has_space_for (rl : iso_rl) (pkt : sk_buff) (cpu : nat) : bool :=
  let q := rl_queue rl cpu in
  let len := u32 (skb_size pkt) in
  u64 (rlq_bytes_enqueued q + len) <? u64 ISO_MAX_QUEUE_LEN_BYTES.

(** [iso_rl_borrow_tokens(rl, q)] for the queue of [cpu]: the returned timeout
    flag and the rate limiter. *)
Definition iso_rl_borrow_tokens (trylock exiting : bool) (cpu : nat) (rl : iso_rl)
    : outcome (Z * iso_rl) :=
  let timeout := 1 in
  if negb trylock then mret (timeout, rl)
  else
    let q := rl_queue rl cpu in
    burst ← iso_rl_singleq_burst rl;
    let borrow := Z.max burst (u64 (rlq_first_pkt_size q)) in
    let borrow := rl_total_tokens rl in
    let '(timeout, rl) :=
      if borrow <=? rl_total_tokens rl then
        let rl := {| rl with rl_total_tokens := u64 (rl_total_tokens rl - borrow) |} in
        let q := {| q with rlq_tokens := u64 (rlq_tokens q + borrow) |} in
        (0, set_queue cpu q rl)
      else (timeout, rl) in
    let timeout := if exiting then 0 else timeout in
    mret (timeout, rl).
End RateLimiter.

(** One packet leaves the queue of [cpu]: [__skb_dequeue] and the accounting of
    the transmit loop of [iso_rl_dequeue]. *)
Definition rl_pop (cpu : nat) (rl : iso_rl) : iso_rl :=
  let q := rl_queue rl cpu in
  set_queue cpu {| q with rlq_list := tail (rlq_list q) |} rl.

Definition rl_account (cpu : nat) (size : Z) (rl : iso_rl) : iso_rl :=
  let q := rl_queue rl cpu in
  set_queue cpu {| q with rlq_tokens := u64 (rlq_tokens q - size);
                          rlq_bytes_enqueued := u64 (rlq_bytes_enqueued q - size);
                          rlq_bytes_xmit := u64 (rlq_bytes_xmit q + size) |} rl.

Definition rl_send_head (cpu : nat) (size : Z) (rl : iso_rl) : iso_rl :=
  rl_account cpu size (rl_pop cpu rl).

(** [q->first_pkt_size = size] *)
Definition rl_set_first (cpu : nat) (size : Z) (rl : iso_rl) : iso_rl :=
  let q := rl_queue rl cpu in
  set_queue cpu {| q with rlq_first_pkt_size := s32 size |} rl.

(** The queue of [cpu] after a packet left. *)
Lemma send_head_queue cpu size rl :
  rl_queue (rl_send_head cpu size rl) cpu =
  let q := rl_queue rl cpu in
  {| q with rlq_list := tail (rlq_list q);
            rlq_tokens := u64 (rlq_tokens q - size);
            rlq_bytes_enqueued := u64 (rlq_bytes_enqueued q - size);
            rlq_bytes_xmit := u64 (rlq_bytes_xmit q + size) |}.
Proof.
  unfold rl_send_head, rl_account, rl_pop, set_queue. cbn [rl_queue].
  rewrite !pc_set_eq. reflexivity.
Qed.

Lemma send_head_other cpu size rl i :
  i <> cpu -> rl_queue (rl_send_head cpu size rl) i = rl_queue rl i.
Proof.
  intros Hi. unfold rl_send_head, rl_account, rl_pop, set_queue. cbn [rl_queue].
  by rewrite !pc_set_ne by done.
Qed.

(** ** The clock *)

Section Clock.
Context {K : Kernel} {KL : KernelLaws K} {P : params}.

Lemma shiftr1_le x : 0 <= x -> 0 <= Z.shiftr x 1 <= x.
Proof.
  intros Hx. rewrite Z.shiftr_div_pow2 by lia. change (2 ^ 1) with 2.
  Z.div_mod_to_equations; lia.
Qed.

Lemma idle_restart_rate us rl :
  0 <= rl_rate rl -> 0 <= rl_rate (rl_idle_restart us rl) <= rl_rate rl.
Proof.
  intros Hr. unfold rl_idle_restart, ISO_IDLE_RATE. rewrite (u32_small 2500) by lia.
  destruct (_ && (2500 <? rl_rate rl)) eqn:E; [|lia].
  apply andb_prop in E as [_ E]. apply Z.ltb_lt in E. cbn. lia.
Qed.

Lemma feedback_decay_rate now rl :
  0 <= rl_rate rl < 2147483648 ->
  0 <= rl_rate (rl_feedback_decay now rl) <= Z.max 2 (rl_rate rl).
Proof.
  intros Hr. unfold rl_feedback_decay. destruct (_ <? _); [|lia].
  cbn [rl_rate]. pose proof (shiftr1_le (rl_rate rl) ltac:(lia)). unfold max_t.
  rewrite (s32_small 2), (s32_small (Z.shiftr (rl_rate rl) 1)), u32_small by lia. lia.
Qed.

Lemma decay_keeps us now rl :
  rl_total_tokens (rl_feedback_decay now (rl_idle_restart us rl)) = rl_total_tokens rl /\
  rl_last_update_time (rl_feedback_decay now (rl_idle_restart us rl)) = rl_last_update_time rl /\
  rl_queue (rl_feedback_decay now (rl_idle_restart us rl)) = rl_queue rl /\
  rl_txc (rl_feedback_decay now (rl_idle_restart us rl)) = rl_txc rl.
Proof.
  unfold rl_feedback_decay, rl_idle_restart. destruct (_ && _), (_ <? _); done.
Qed.

(** The rate after the decay rules of [iso_rl_clock]. *)
Lemma clock_rate now0 now rl :
  0 <= rl_rate rl < 2147483648 ->
  0 <= rl_rate (iso_rl_clock now0 now rl) <= Z.max 2 (rl_rate rl).
Proof.
  intros Hr. unfold iso_rl_clock. destruct (negb _); [lia|]. cbv zeta. cbn [rl_rate rl_refill].
  set (us := u64 _). pose proof (idle_restart_rate us rl ltac:(lia)).
  pose proof (feedback_decay_rate now (rl_idle_restart us rl) ltac:(lia)). lia.
Qed.

(** What a refill adds is at most the rate times the time since the last one,
    and the pool never exceeds the cap of the current rate. *)
Lemma clock_tokens now0 now rl :
  0 <= rl_total_tokens rl -> 0 <= rl_rate rl < 2147483648 ->
  rl_last_update_time rl <= now -> now - rl_last_update_time rl < 2 ^ 62 ->
  let rl' := iso_rl_clock now0 now rl in
  0 <= rl_total_tokens rl' /\
  8000 * (rl_total_tokens rl' - rl_total_tokens rl) <=
    rl_rate rl' * (rl_last_update_time rl' - rl_last_update_time rl) /\
  (rl_last_update_time rl' = rl_last_update_time rl \/
   rl_last_update_time rl' = now /\ rl_total_tokens rl' <= iso_rl_cap (rl_rate rl')).
Proof.
  intros Ht Hr Hle Hlt rl'. pose proof (clock_rate now0 now rl Hr) as Hrate. fold rl' in Hrate.
  change (2 ^ 62) with 4611686018427387904 in Hlt. revert Hrate. subst rl'. unfold iso_rl_clock.
  destruct (negb _); [intros; split; [done|]; split; [lia|by left]|].
  rewrite (ktime_us_delta_forward now (rl_last_update_time rl)) by done.
  assert (Hus : 0 <= (now - rl_last_update_time rl) / 1000 < 4611686018427388) by
    (Z.div_mod_to_equations; lia).
  rewrite (u64_small ((now - rl_last_update_time rl) / 1000)) by lia.
  set (us := (now - rl_last_update_time rl) / 1000) in *.
  cbv zeta. destruct (decay_keeps us now rl) as (Et & El & _).
  set (rl2 := rl_feedback_decay now (rl_idle_restart us rl)) in *. clearbody rl2.
  unfold rl_refill. cbn [rl_rate rl_total_tokens rl_last_update_time]. rewrite Et. intros Hrate.
  assert (Hcap : 0 <= iso_rl_cap (rl_rate rl2)).
  { unfold iso_rl_cap. pose proof (u32_range ISO_MIN_BURST_BYTES) as H. unfold is_u32 in H. lia. }
  assert (Hprod : 0 <= rl_rate rl2 * us) by nia.
  pose proof (u64_le_self _ Hprod) as Hu. pose proof (u64_range (rl_rate rl2 * us)) as Hu0.
  unfold is_u64 in Hu0. rewrite Z.shiftr_div_pow2 by lia. change (2 ^ 3) with 8.
  set (add := u64 (rl_rate rl2 * us) / 8).
  assert (Hadd : 0 <= add /\ 8 * add <= rl_rate rl2 * us) by (unfold add; Z.div_mod_to_equations; lia).
  assert (Hsum : 0 <= rl_total_tokens rl + add) by lia.
  pose proof (u64_le_self _ Hsum) as Hs. pose proof (u64_range (rl_total_tokens rl + add)) as Hs0.
  unfold is_u64 in Hs0.
  assert (H1000 : 1000 * us <= now - rl_last_update_time rl)
    by (unfold us; Z.div_mod_to_equations; lia).
  split; [lia|]. split; [nia|]. right. split; [done|]. lia.
Qed.
End Clock.

(** ** The queue limit *)

Section Enqueue.
Context {K : Kernel} {P : params} {PO : params_ok P}.

(** The largest packet: 64 KB of payload, and headers. *)
Definition MAX_SKB_BYTES : Z := 131072.

Definition pkt_ok (pkt : sk_buff) : Prop := 0 <= skb_len pkt <= MAX_SKB_BYTES - ETH_HLEN.

Lemma pkt_ok_size pkt : pkt_ok pkt -> 0 <= skb_size pkt <= MAX_SKB_BYTES.
Proof.
  unfold pkt_ok, skb_size, MAX_SKB_BYTES, ETH_HLEN. intros H.
  rewrite u32_small, s32_small by lia. lia.
Qed.

(** A queue whose byte count is the sum of its packets, within its limit up to
    the last packet. *)
Record queue_ok (q : iso_rl_queue) : Prop := {
  qok_bytes : rlq_bytes_enqueued q = sumZ (map skb_size (rlq_list q));
  qok_sizes : Forall pkt_ok (rlq_list q);
  qok_limit : rlq_bytes_enqueued q <= ISO_MAX_QUEUE_LEN_BYTES + MAX_SKB_BYTES
}.

Lemma sizes_sum_nonneg l : Forall pkt_ok l -> 0 <= sumZ (map skb_size l).
Proof. intros H. induction H as [|pkt l Hp%pkt_ok_size _ IH]; cbn; lia. Qed.

Lemma queue_ok_range q : queue_ok q -> 0 <= rlq_bytes_enqueued q <= 16777216 + MAX_SKB_BYTES.
Proof.
  intros [Hb Hs Hm]. pok. pose proof (sizes_sum_nonneg _ Hs). lia.
Qed.

(** The test that should let a packet be trimmed is never false: a packet that
    does not fit is dropped. *)
Lemma over_limit_drops bytes len :
  0 <= bytes < 1073741824 -> 0 <= len < 1073741824 -> 0 < ISO_MAX_QUEUE_LEN_BYTES < 1073741824 ->
  bytes + len < 1073741824 ->
  let diff := s32 (s32 (s32 bytes + len) - ISO_MAX_QUEUE_LEN_BYTES) in
  (len <? diff) || (s32 (diff - len) <? MIN_PKT_SIZE) = true.
Proof.
  intros Hb Hl Hm Hs. cbv zeta. rewrite (s32_small bytes), (s32_small (bytes + len)) by lia.
  rewrite (s32_small (bytes + len - ISO_MAX_QUEUE_LEN_BYTES)) by lia.
  rewrite s32_small by lia. unfold MIN_PKT_SIZE.
  destruct (Z.ltb_spec len (bytes + len - ISO_MAX_QUEUE_LEN_BYTES)); [done|].
  cbn. apply Z.ltb_lt. lia.
Qed.

Lemma clock_queue now0 now rl : rl_queue (iso_rl_clock now0 now rl) = rl_queue rl.
Proof.
  unfold iso_rl_clock. destruct (negb _); [done|]. cbv zeta. cbn [rl_queue rl_refill].
  apply decay_keeps.
Qed.

Lemma clock_txc now0 now rl : rl_txc (iso_rl_clock now0 now rl) = rl_txc rl.
Proof.
  unfold iso_rl_clock. destruct (negb _); [done|]. cbv zeta. cbn [rl_txc rl_refill].
  apply decay_keeps.
Qed.

(** Marking rewrites the IP header only. *)
Lemma size_mark pkt h : skb_size {| pkt with skb_iph := h |} = skb_size pkt.
Proof. reflexivity. Qed.

Lemma queue_ok_tail pkt q h :
  queue_ok q -> pkt_ok pkt -> rlq_bytes_enqueued q <= ISO_MAX_QUEUE_LEN_BYTES ->
  queue_ok {| q with rlq_list := rlq_list q ++ [{| pkt with skb_iph := h |}];
                     rlq_bytes_enqueued := u64 (rlq_bytes_enqueued q + u64 (skb_size pkt)) |}.
Proof.
  intros Hq Hp Hlt. pose proof (queue_ok_range q Hq) as Hr. destruct Hq as [Hb Hs Hm].
  pose proof (pkt_ok_size _ Hp) as Hp'. unfold MAX_SKB_BYTES in *.
  rewrite (u64_small (skb_size pkt)), u64_small by lia. split; cbn.
  - rewrite map_app, sumZ_app, Hb. cbn. rewrite size_mark. lia.
  - apply Forall_app. split; [done|]. by constructor.
  - unfold MAX_SKB_BYTES. lia.
Qed.

Lemma skb_iph_same pkt : {| pkt with skb_iph := skb_iph pkt |} = pkt.
Proof. by destruct pkt. Qed.

Lemma queue_ok_segments segs : forall q,
  queue_ok q -> Forall pkt_ok segs -> queue_ok (enqueue_segments segs q).
Proof.
  induction segs as [|s segs IH]; intros q Hq Hs; [done|].
  apply Forall_cons in Hs as [Hp Hs]. cbn [enqueue_segments]. apply IH; [|done]. pok.
  destruct (Z.ltb_spec (rlq_bytes_enqueued q) (u64 ISO_MAX_QUEUE_LEN_BYTES)) as [Hlt|]; [|done].
  rewrite u64_small in Hlt by lia.
  pose proof (queue_ok_tail s q (skb_iph s) Hq Hp ltac:(lia)) as H. by rewrite skb_iph_same in H.
Qed.

(** The test that sends a packet down the path without segmentation. *)
Definition goes_whole (now0 now : Z) (rl : iso_rl) (pkt : sk_buff) : Prop :=
  u32 ISO_GSO_THRESH_RATE < rl_rate (iso_rl_clock now0 now rl) \/
  skb_size pkt <= ISO_GSO_MIN_SPLIT_BYTES.

Lemma goes_whole_test now0 now rl pkt :
  goes_whole now0 now rl pkt ->
  (u32 ISO_GSO_THRESH_RATE <? rl_rate (iso_rl_clock now0 now rl)) ||
  (skb_size pkt <=? ISO_GSO_MIN_SPLIT_BYTES) = true.
Proof.
  intros H. apply orb_true_iff. destruct H; [left; by apply Z.ltb_lt|right; by apply Z.leb_le].
Qed.

(** A packet that fits is appended, with at most its IP header rewritten. *)
Lemma enqueue_fits now0 now rl pkt cpu :
  queue_ok (rl_queue rl cpu) -> pkt_ok pkt -> goes_whole now0 now rl pkt ->
  rlq_bytes_enqueued (rl_queue rl cpu) + skb_size pkt <= ISO_MAX_QUEUE_LEN_BYTES ->
  exists h rl',
    iso_rl_enqueue now0 now rl pkt cpu = Ok (ISO_VERDICT_SUCCESS, rl') /\
    (h = skb_iph pkt \/ h = ipv4_change_dsfield (skb_iph pkt) 0 3) /\
    rlq_list (rl_queue rl' cpu) = rlq_list (rl_queue rl cpu) ++ [{| pkt with skb_iph := h |}] /\
    queue_ok (rl_queue rl' cpu) /\
    rlq_bytes_enqueued (rl_queue rl' cpu) = rlq_bytes_enqueued (rl_queue rl cpu) + skb_size pkt /\
    (forall i, i <> cpu -> rl_queue rl' i = rl_queue rl i).
Proof.
  intros Hq Hlen Hwhole Hfit. pose proof (queue_ok_range _ Hq) as Hr. pok.
  unfold iso_rl_enqueue. rewrite clock_queue. set (q := rl_queue rl cpu) in *.
  rewrite goes_whole_test by done. pose proof (pkt_ok_size _ Hlen) as Hlen'. unfold MAX_SKB_BYTES in Hlen', Hr.
  set (bytes := u64 (rlq_bytes_enqueued q + u64 (skb_size pkt))).
  assert (Ebytes : bytes = rlq_bytes_enqueued q + skb_size pkt)
    by (unfold bytes; rewrite (u64_small (skb_size pkt)), u64_small by lia; done).
  rewrite (u64_small ISO_MAX_QUEUE_LEN_BYTES) by lia.
  replace (ISO_MAX_QUEUE_LEN_BYTES <? bytes) with false by (symmetry; apply Z.ltb_ge; lia).
  cbv iota. cbn [andb]. fold bytes. set (mark := bool_decide _ && _ && _).
  set (h := if mark then ipv4_change_dsfield (skb_iph pkt) 0 3 else skb_iph pkt).
  exists h. eexists. split; [reflexivity|]. split; [unfold h; destruct mark; auto|].
  assert (Hpkt : (if mark then {| pkt with skb_iph := ipv4_change_dsfield (skb_iph pkt) 0 3 |}
                  else pkt) = {| pkt with skb_iph := h |}) by (unfold h; destruct mark, pkt; done).
  unfold set_queue. cbn [rl_queue]. rewrite pc_set_eq, Hpkt. split; [done|].
  split; [by apply queue_ok_tail; [| |lia]|]. split; [exact Ebytes|].
  intros i Hi. rewrite pc_set_ne by done. by rewrite clock_queue.
Qed.

(** A packet that does not fit is dropped. *)
Lemma enqueue_overflows now0 now rl pkt cpu :
  queue_ok (rl_queue rl cpu) -> pkt_ok pkt -> goes_whole now0 now rl pkt ->
  ISO_MAX_QUEUE_LEN_BYTES < rlq_bytes_enqueued (rl_queue rl cpu) + skb_size pkt ->
  iso_rl_enqueue now0 now rl pkt cpu = Ok (ISO_VERDICT_DROP, iso_rl_clock now0 now rl).
Proof.
  intros Hq Hlen Hwhole Hover. pose proof (queue_ok_range _ Hq) as Hr. pok.
  apply pkt_ok_size in Hlen. unfold MAX_SKB_BYTES in *. unfold iso_rl_enqueue. rewrite clock_queue.
  rewrite goes_whole_test by done. rewrite over_limit_drops by lia. rewrite andb_true_r.
  rewrite (u64_small (skb_size pkt)), (u64_small (_ + _)), (u64_small ISO_MAX_QUEUE_LEN_BYTES) by lia.
  by replace (ISO_MAX_QUEUE_LEN_BYTES <? _) with true by (symmetry; by apply Z.ltb_lt).
Qed.

(** Whatever happens to the packet, the queues stay in order. *)
Lemma enqueue_queue_ok {KL : KernelLaws K} now0 now rl pkt cpu v rl' :
  (forall i, queue_ok (rl_queue rl i)) -> pkt_ok pkt ->
  iso_rl_enqueue now0 now rl pkt cpu = Ok (v, rl') -> forall i, queue_ok (rl_queue rl' i).
Proof.
  intros Hq Hp E. destruct (decide (u32 ISO_GSO_THRESH_RATE < rl_rate (iso_rl_clock now0 now rl) \/
    skb_size pkt <= ISO_GSO_MIN_SPLIT_BYTES)) as [Hw|Hw].
  - destruct (Z.le_gt_cases (rlq_bytes_enqueued (rl_queue rl cpu) + skb_size pkt) ISO_MAX_QUEUE_LEN_BYTES) as [Hf|Hf].
    + destruct (enqueue_fits now0 now rl pkt cpu (Hq cpu) Hp Hw Hf) as (h & rl2 & E2 & _ & _ & Hok & _ & Ho).
      rewrite E2 in E. injection E as <- <-. intros i.
      destruct (decide (i = cpu)) as [->|Hi]; [done|]. rewrite Ho by done. apply Hq.
    + rewrite enqueue_overflows in E by done. injection E as <- <-. intros i. rewrite clock_queue. apply Hq.
  - unfold iso_rl_enqueue in E. rewrite clock_queue in E.
    replace ((u32 ISO_GSO_THRESH_RATE <? _) || _) with false in E
      by (symmetry; apply orb_false_iff; split; [apply Z.ltb_ge|apply Z.leb_gt]; lia).
    destruct (skb_gso_segment pkt) as [|segs] eqn:Egso.
    + injection E as <- <-. intros i. rewrite clock_queue. apply Hq.
    + assert (Hs : Forall pkt_ok segs).
      { pose proof (gso_segs_len pkt segs Egso) as Hl. eapply Forall_impl; [exact Hl|].
        intros s H. unfold pkt_ok in *. lia. }
      destruct segs as [|s segs]; [discriminate|]. injection E as <- <-. intros i.
      unfold set_queue, pc_set. cbn [rl_queue]. rewrite clock_queue.
      destruct (i =? cpu)%nat; [|apply Hq]. by apply (queue_ok_segments (s :: segs)).
Qed.

(** A packet without the two header fields that marking writes. *)
Definition strip (pkt : sk_buff) : sk_buff :=
  {| pkt with skb_iph := (let h := skb_iph pkt in {| h with iph_tos := 0; iph_check := 0 |}) |}.

(** A packet that is never segmented. *)
Definition small (pkt : sk_buff) : Prop := skb_size pkt <= ISO_GSO_MIN_SPLIT_BYTES.

Lemma strip_mark {KL : KernelLaws K} pkt h :
  h = skb_iph pkt \/ h = ipv4_change_dsfield (skb_iph pkt) 0 3 ->
  strip {| pkt with skb_iph := h |} = strip pkt.
Proof.
  intros H. assert (E : iph_rest h = iph_rest (skb_iph pkt))
    by (destruct H as [->| ->]; [done|apply change_dsfield_rest]).
  unfold strip. cbn [skb_iph]. f_equal. destruct h, (skb_iph pkt). unfold iph_rest in E. cbn in *.
  injection E as -> -> -> -> -> -> -> -> ->. done.
Qed.

(** A packet for which the parent has space is appended to its queue. *)
Lemma relay_small {KL : KernelLaws K} now0 now g pkt cpu v g' :
  queue_ok (rl_queue g cpu) -> pkt_ok pkt -> small pkt -> iso_rl_has_space_for g pkt cpu = true ->
  iso_rl_enqueue now0 now g pkt cpu = Ok (v, g') ->
  v = ISO_VERDICT_SUCCESS /\
  map strip (rlq_list (rl_queue g' cpu)) = map strip (rlq_list (rl_queue g cpu)) ++ [strip pkt].
Proof.
  intros Hq Hp Hsm Hsp E. pose proof (queue_ok_range _ Hq) as Hr. pose proof (pkt_ok_size _ Hp) as Hs. pok.
  unfold iso_rl_has_space_for in Hsp. unfold MAX_SKB_BYTES in *.
  rewrite (u32_small (skb_size pkt)), (u64_small (_ + _)), (u64_small ISO_MAX_QUEUE_LEN_BYTES) in Hsp by lia.
  apply Z.ltb_lt in Hsp.
  destruct (enqueue_fits now0 now g pkt cpu Hq Hp (or_intror Hsm) ltac:(lia)) as (h & g2 & E2 & Hh & Hl & _).
  rewrite E2 in E. injection E as <- <-. split; [done|]. rewrite Hl, map_app. cbn. by rewrite strip_mark.
Qed.

(** A full queue takes no segment. *)
Lemma enqueue_segments_full segs q :
  ISO_MAX_QUEUE_LEN_BYTES <= rlq_bytes_enqueued q -> enqueue_segments segs q = q.
Proof.
  intros Hge. induction segs as [|y segs IH]; [done|]. cbn [enqueue_segments]. pok.
  rewrite (u64_small ISO_MAX_QUEUE_LEN_BYTES) by lia.
  by replace (rlq_bytes_enqueued q <? _) with false by (symmetry; apply Z.ltb_ge; lia).
Qed.

(** The segments that are queued are the first ones, up to the one that fills the queue. *)
Lemma enqueue_segments_prefix segs : forall q,
  queue_ok q -> Forall pkt_ok segs ->
  exists added, added `prefix_of` segs /\ rlq_list (enqueue_segments segs q) = rlq_list q ++ added /\
    (added <> segs -> ISO_MAX_QUEUE_LEN_BYTES <= rlq_bytes_enqueued q + sumZ (map skb_size added)).
Proof.
  induction segs as [|x segs IH]; intros q Hq Hs.
  { exists []. split; [done|]. by rewrite app_nil_r. }
  apply Forall_cons in Hs as [Hp Hs].
  cbn [enqueue_segments]. pose proof (queue_ok_range q Hq) as Hr. pose proof (pkt_ok_size _ Hp) as Hp'. pok.
  unfold MAX_SKB_BYTES in *. rewrite (u64_small ISO_MAX_QUEUE_LEN_BYTES) by lia.
  destruct (Z.ltb_spec (rlq_bytes_enqueued q) ISO_MAX_QUEUE_LEN_BYTES) as [Hlt|Hge].
  - assert (Hq' : queue_ok (queue_tail x q)).
    { pose proof (queue_ok_tail x q (skb_iph x) Hq Hp ltac:(lia)) as H. by rewrite skb_iph_same in H. }
    destruct (IH (queue_tail x q) Hq' Hs) as (added & [k ->] & -> & Hfull). exists (x :: added). split; [by exists k|].
    cbn [queue_tail rlq_list rlq_bytes_enqueued map sumZ] in *. rewrite <-app_assoc. split; [done|].
    rewrite (u64_small (skb_size x)), u64_small in Hfull by lia. intros Hne. specialize (Hfull ltac:(congruence)). lia.
  - exists []. split; [apply prefix_nil|]. split; [by rewrite enqueue_segments_full, app_nil_r|cbn; lia].
Qed.

(** What a verdict says of a packet offered to the queue [q], and of what is appended to it: the
    packet, or its segments up to the one that fills the queue, or nothing. *)
Definition admitted (q : iso_rl_queue) (pkt : sk_buff) (v : iso_verdict) (added : list sk_buff) : Prop :=
  match v with
  | ISO_VERDICT_SUCCESS =>
      (exists pkt', added = [pkt'] /\ strip pkt' = strip pkt /\
        rlq_bytes_enqueued q + skb_size pkt <= ISO_MAX_QUEUE_LEN_BYTES) \/
      (exists segs, ~ small pkt /\ skb_gso_segment pkt = GsoSegs segs /\ added `prefix_of` segs /\
        (added <> segs -> ISO_MAX_QUEUE_LEN_BYTES <= rlq_bytes_enqueued q + sumZ (map skb_size added)))
  | ISO_VERDICT_DROP => added = [] /\ ISO_MAX_QUEUE_LEN_BYTES < rlq_bytes_enqueued q + skb_size pkt
  | ISO_VERDICT_ERROR => added = [] /\ ~ small pkt /\ skb_gso_segment pkt = GsoErr
  | ISO_VERDICT_PASS => False
  end.

Lemma enqueue_admits {KL : KernelLaws K} now0 now rl pkt cpu v rl' :
  queue_ok (rl_queue rl cpu) -> pkt_ok pkt -> iso_rl_enqueue now0 now rl pkt cpu = Ok (v, rl') ->
  exists added, admitted (rl_queue rl cpu) pkt v added /\
    rlq_list (rl_queue rl' cpu) = rlq_list (rl_queue rl cpu) ++ added.
Proof.
  intros Hq Hp E. destruct (decide (u32 ISO_GSO_THRESH_RATE < rl_rate (iso_rl_clock now0 now rl) \/
    skb_size pkt <= ISO_GSO_MIN_SPLIT_BYTES)) as [Hw|Hw].
  - destruct (Z.le_gt_cases (rlq_bytes_enqueued (rl_queue rl cpu) + skb_size pkt) ISO_MAX_QUEUE_LEN_BYTES) as [Hf|Hf].
    + destruct (enqueue_fits now0 now rl pkt cpu Hq Hp Hw Hf) as (h & rl2 & E2 & Hh & Hl & _).
      rewrite E2 in E. injection E as <- <-. eexists. split; [|exact Hl]. left. eexists. split; [done|].
      split; [by apply strip_mark|done].
    + rewrite enqueue_overflows in E by done. injection E as <- <-. exists []. split; [split; [done|lia]|].
      by rewrite clock_queue, app_nil_r.
  - unfold iso_rl_enqueue in E. rewrite clock_queue in E.
    replace ((u32 ISO_GSO_THRESH_RATE <? _) || _) with false in E
      by (symmetry; apply orb_false_iff; split; [apply Z.ltb_ge|apply Z.leb_gt]; lia).
    assert (Hsm : ~ small pkt) by (unfold small; lia).
    destruct (skb_gso_segment pkt) as [|segs] eqn:Egso.
    + injection E as <- <-. exists []. split; [by split; [|split]|]. by rewrite clock_queue, app_nil_r.
    + assert (Hs : Forall pkt_ok segs).
      { pose proof (gso_segs_len pkt segs Egso) as Hl. eapply Forall_impl; [exact Hl|].
        intros s H. unfold pkt_ok in *. lia. }
      destruct segs as [|s segs]; [discriminate|]. injection E as <- <-.
      destruct (enqueue_segments_prefix (s :: segs) (rl_queue rl cpu) Hq Hs) as (added & Hpre & El & Hfull).
      exists added. split; [right; by exists (s :: segs)|].
      unfold set_queue. cbn [rl_queue]. by rewrite pc_set_eq.
Qed.

(** A packet that is not segmented is appended to the queue of its CPU exactly when it fits,
    with at most the DS field rewritten, and otherwise dropped without a change to the queues:
    the branch that would trim it is never taken. *)
Theorem iso_rl_enqueue_whole_packet (now0 now : Z) (rl : iso_rl) (pkt : sk_buff) (cpu : nat) :
  queue_ok (rl_queue rl cpu) -> pkt_ok pkt -> goes_whole now0 now rl pkt ->
  let q := rl_queue rl cpu in
  if rlq_bytes_enqueued q + skb_size pkt <=? ISO_MAX_QUEUE_LEN_BYTES then
    exists h rl',
      iso_rl_enqueue now0 now rl pkt cpu = Ok (ISO_VERDICT_SUCCESS, rl') /\
      (h = skb_iph pkt \/ h = ipv4_change_dsfield (skb_iph pkt) 0 3) /\
      rlq_list (rl_queue rl' cpu) = rlq_list q ++ [{| pkt with skb_iph := h |}] /\
      queue_ok (rl_queue rl' cpu) /\
      rlq_bytes_enqueued (rl_queue rl' cpu) = rlq_bytes_enqueued q + skb_size pkt /\
      (forall i, i <> cpu -> rl_queue rl' i = rl_queue rl i)
  else
    iso_rl_enqueue now0 now rl pkt cpu = Ok (ISO_VERDICT_DROP, iso_rl_clock now0 now rl).
Proof.
  intros Hq Hlen Hwhole q.
  destruct (Z.leb_spec (rlq_bytes_enqueued q + skb_size pkt) ISO_MAX_QUEUE_LEN_BYTES) as [Hfit|Hover].
  - by apply enqueue_fits.
  - by apply enqueue_overflows.
Qed.

Lemma queue_ok_ext q q' :
  rlq_list q' = rlq_list q -> rlq_bytes_enqueued q' = rlq_bytes_enqueued q -> queue_ok q -> queue_ok q'.
Proof. intros El Eb [H1 H2 H3]. split; by rewrite ?El, ?Eb. Qed.

Lemma queue_head_ok q pkt rest : queue_ok q -> rlq_list q = pkt :: rest -> pkt_ok pkt.
Proof. intros [_ Hs _] El. rewrite El in Hs. by apply Forall_cons in Hs as [? _]. Qed.

Lemma set_first_bytes cpu z rl i :
  rlq_bytes_enqueued (rl_queue (rl_set_first cpu z rl) i) = rlq_bytes_enqueued (rl_queue rl i).
Proof.
  unfold rl_set_first, set_queue, pc_set. cbn [rl_queue].
  destruct (Nat.eqb_spec i cpu) as [->|]; reflexivity.
Qed.

(** Sending the head keeps the count. *)
Lemma send_head_queue_ok cpu rl pkt rest :
  (forall i, queue_ok (rl_queue rl i)) -> rlq_list (rl_queue rl cpu) = pkt :: rest ->
  forall i, queue_ok (rl_queue (rl_send_head cpu (u32 (skb_size pkt)) rl) i).
Proof.
  intros Hq Hl i. destruct (decide (i = cpu)) as [->|Hi]; [|rewrite send_head_other by done; apply Hq].
  pose proof (queue_ok_range _ (Hq cpu)) as Hr. destruct (Hq cpu) as [Hb Hs Hm].
  rewrite send_head_queue. rewrite Hl in Hb, Hs. apply Forall_cons in Hs as [Hp Hs]. cbn in Hb.
  pose proof (sizes_sum_nonneg _ Hs). apply pkt_ok_size in Hp. unfold MAX_SKB_BYTES in Hp, Hr, Hm.
  rewrite (u32_small (skb_size pkt)) by lia.
  split; cbn [rlq_list rlq_bytes_enqueued]; rewrite ?Hl; cbn [tail];
    [rewrite u64_small by lia; lia|done|rewrite u64_small by lia; unfold MAX_SKB_BYTES; lia].
Qed.
End Enqueue.

(** ** Conformance: a rate limiter never sends faster than its rate *)

Section Conformance.
Context {K : Kernel} {KL : KernelLaws K} {P : params}.

Lemma segments_tokens segs q : rlq_tokens (enqueue_segments segs q) = rlq_tokens q.
Proof.
  revert q. induction segs as [|s segs IH]; intros q; [done|]. cbn [enqueue_segments].
  rewrite IH. destruct (_ <? _); reflexivity.
Qed.

Lemma enqueue_frame now0 now rl pkt cpu v rl' :
  iso_rl_enqueue now0 now rl pkt cpu = Ok (v, rl') ->
  let c := iso_rl_clock now0 now rl in
  rl_rate rl' = rl_rate c /\ rl_total_tokens rl' = rl_total_tokens c /\
  rl_last_update_time rl' = rl_last_update_time c /\ rl_txc rl' = rl_txc rl /\
  (forall i, rlq_tokens (rl_queue rl' i) = rlq_tokens (rl_queue rl i)).
Proof.
  intros H c. unfold iso_rl_enqueue in H. fold c in H.
  assert (Hq : rl_queue c = rl_queue rl) by apply clock_queue.
  assert (Hx : rl_txc c = rl_txc rl) by apply clock_txc. clearbody c.
  assert (Hset : forall q', rlq_tokens q' = rlq_tokens (rl_queue c cpu) ->
    forall i, rlq_tokens (rl_queue (set_queue cpu q' c) i) = rlq_tokens (rl_queue rl i)).
  { intros q' Hq' i. unfold set_queue, pc_set. cbn [rl_queue].
    destruct (Nat.eqb_spec i cpu) as [->|]; cbn [rlq_tokens]; rewrite ?Hq', Hq; reflexivity. }
  destruct (_ || _); [destruct (_ && _)|destruct (skb_gso_segment pkt) as [|[|s segs]]];
    try discriminate; injection H as <- <-; cbn [set_queue rl_rate rl_total_tokens rl_last_update_time rl_txc];
    repeat (split; [done|]); try (by rewrite Hq); apply Hset;
    try apply (segments_tokens (_ :: _)); done.
Qed.

Lemma borrow_frame trylock exiting cpu rl t rl' :
  iso_rl_borrow_tokens trylock exiting cpu rl = Ok (t, rl') ->
  rl_rate rl' = rl_rate rl /\ rl_last_update_time rl' = rl_last_update_time rl /\
  rl_txc rl' = rl_txc rl /\
  (rl' = rl \/
   rl_total_tokens rl' = 0 /\
   rl_queue rl' = pc_set cpu
     (let q := rl_queue rl cpu in
      {| q with rlq_tokens := u64 (rlq_tokens q + rl_total_tokens rl) |}) (rl_queue rl)).
Proof.
  unfold iso_rl_borrow_tokens. destruct trylock; cbn [negb]; [|intros [= <- <-]; auto].
  destruct (iso_rl_singleq_burst rl); [|discriminate]. cbn [mbind outcome_bind].
  rewrite Z.leb_refl, Z.sub_diag. intros [= <- <-]. cbn. rewrite (u64_small 0) by lia. auto 10.
Qed.

Lemma enqueue_other now0 now rl pkt cpu v rl' i :
  iso_rl_enqueue now0 now rl pkt cpu = Ok (v, rl') -> i <> cpu ->
  rl_queue rl' i = rl_queue rl i.
Proof.
  intros H Hi. rewrite <- (clock_queue now0 now rl). unfold iso_rl_enqueue in H.
  destruct (_ || _); [destruct (_ && _)|destruct (skb_gso_segment pkt) as [|[|s segs]]];
    try discriminate; injection H as <- <-; try done; by apply pc_set_ne.
Qed.

Lemma set_first_list cpu z rl i :
  rlq_list (rl_queue (rl_set_first cpu z rl) i) = rlq_list (rl_queue rl i).
Proof.
  unfold rl_set_first, set_queue, pc_set. cbn [rl_queue].
  destruct (Nat.eqb_spec i cpu) as [->|]; reflexivity.
Qed.

(** The steps of one rate limiter, labelled with the bytes that leave it.  The
    control plane may set any rate up to [R]. *)
Inductive rl_step (R : Z) : iso_rl -> Z -> iso_rl -> Prop :=
| step_clock now0 now rl :
    rl_last_update_time rl <= now -> now - rl_last_update_time rl < 2 ^ 62 ->
    rl_step R rl 0 (iso_rl_clock now0 now rl)
| step_enqueue now0 now rl pkt cpu v rl' :
    rl_last_update_time rl <= now -> now - rl_last_update_time rl < 2 ^ 62 ->
    iso_rl_enqueue now0 now rl pkt cpu = Ok (v, rl') -> rl_step R rl 0 rl'
| step_borrow trylock exiting cpu rl t rl' :
    cpu ∈ possible_cpus ->
    iso_rl_borrow_tokens trylock exiting cpu rl = Ok (t, rl') -> rl_step R rl 0 rl'
| step_first_size cpu z rl :
    rl_step R rl 0 (rl_set_first cpu z rl)
| step_send cpu size rl :
    cpu ∈ possible_cpus -> 0 <= size <= rlq_tokens (rl_queue rl cpu) ->
    rl_step R rl size (rl_send_head cpu size rl)
| step_set_rate r t rl :
    0 <= r <= R ->
    rl_step R rl 0 {| rl with rl_rate := r; rl_last_rate_update_time := t |}.

Inductive rl_run (R : Z) : iso_rl -> Z -> iso_rl -> Prop :=
| run_nil rl : rl_run R rl 0 rl
| run_cons rl1 n rl2 m rl3 :
    rl_step R rl1 n rl2 -> rl_run R rl2 m rl3 -> rl_run R rl1 (n + m) rl3.

Record rl_wf (R : Z) (rl : iso_rl) : Prop := {
  wf_rate : 0 <= rl_rate rl <= R;
  wf_total : 0 <= rl_total_tokens rl;
  wf_tokens i : is_u64 (rlq_tokens (rl_queue rl i))
}.

(** All the tokens of a rate limiter: the pool and what the CPUs borrowed. *)
Definition rl_pool (rl : iso_rl) : Z :=
  rl_total_tokens rl + sumZ (map (fun i => rlq_tokens (rl_queue rl i)) possible_cpus).

Lemma sum_pc_set (f : iso_rl_queue -> Z) cpu v (m : percpu iso_rl_queue) cpus :
  NoDup cpus -> cpu ∈ cpus ->
  sumZ (map (fun i => f (pc_set cpu v m i)) cpus) =
  sumZ (map (fun i => f (m i)) cpus) - f (m cpu) + f v.
Proof.
  induction cpus as [|c cpus IH]; intros Hnd Hin; [by apply not_elem_of_nil in Hin|].
  apply NoDup_cons in Hnd as [Hc Hnd]. cbn. destruct (decide (c = cpu)) as [->|Hne].
  - rewrite pc_set_eq.
    assert (E : map (fun i => f (pc_set cpu v m i)) cpus = map (fun i => f (m i)) cpus).
    { apply map_ext_in. intros i Hi. apply list_elem_of_In in Hi.
      rewrite pc_set_ne; [done|]. by intros ->. }
    rewrite E. lia.
  - rewrite pc_set_ne by done. apply elem_of_cons in Hin as [->|Hin]; [done|].
    rewrite IH by done. lia.
Qed.

Lemma set_first_tokens cpu z rl i :
  rlq_tokens (rl_queue (rl_set_first cpu z rl) i) = rlq_tokens (rl_queue rl i).
Proof.
  unfold rl_set_first, set_queue, pc_set. cbn [rl_queue].
  destruct (Nat.eqb_spec i cpu) as [->|]; reflexivity.
Qed.

(** Sending takes the bytes out of the tokens of the CPU. *)
Lemma send_head_pool cpu size rl :
  cpu ∈ possible_cpus ->
  0 <= size <= rlq_tokens (rl_queue rl cpu) -> is_u64 (rlq_tokens (rl_queue rl cpu)) ->
  rl_pool (rl_send_head cpu size rl) = rl_pool rl - size.
Proof.
  intros Hcpu Hs Hu. unfold is_u64 in Hu. unfold rl_pool.
  assert (E : forall i, rlq_tokens (rl_queue (rl_send_head cpu size rl) i) =
    rlq_tokens (pc_set cpu (rl_queue (rl_send_head cpu size rl) cpu) (rl_queue rl) i)).
  { intros i. destruct (decide (i = cpu)) as [->|Hi]; [by rewrite pc_set_eq|].
    by rewrite pc_set_ne, send_head_other. }
  rewrite (map_ext _ _ E), (sum_pc_set rlq_tokens) by (done || apply possible_nodup).
  rewrite send_head_queue. cbn [rlq_tokens]. rewrite u64_small by lia.
  cbn [rl_send_head rl_account rl_pop set_queue rl_total_tokens]. lia.
Qed.

(** Every step keeps [8000 * (pool + sent) - R * last_update_time] from growing. *)
Lemma rl_step_potential R rl n rl' :
  2 <= R < 2147483648 -> rl_wf R rl -> rl_step R rl n rl' ->
  rl_wf R rl' /\ rl_last_update_time rl <= rl_last_update_time rl' /\ 0 <= n /\
  8000 * (rl_pool rl' + n - rl_pool rl) <=
    R * (rl_last_update_time rl' - rl_last_update_time rl).
Proof.
  intros HR [Hr Ht Hk] Hstep.
  assert (Hclock : forall now0 now, rl_last_update_time rl <= now ->
    now - rl_last_update_time rl < 2 ^ 62 ->
    let c := iso_rl_clock now0 now rl in
    0 <= rl_rate c <= R /\ 0 <= rl_total_tokens c /\
    rl_last_update_time rl <= rl_last_update_time c /\
    8000 * (rl_total_tokens c - rl_total_tokens rl) <=
      R * (rl_last_update_time c - rl_last_update_time rl)).
  { intros now0 now Hle Hlt c.
    pose proof (clock_rate now0 now rl ltac:(lia)) as Hcr.
    destruct (clock_tokens now0 now rl Ht ltac:(lia) Hle Hlt) as (H1 & H2 & H3).
    fold c in Hcr, H1, H2, H3.
    assert (rl_last_update_time rl <= rl_last_update_time c) by (destruct H3 as [->|[-> _]]; lia).
    repeat split; try lia. nia. }
  destruct Hstep as [now0 now rl Hle Hlt|now0 now rl pkt cpu v rl' Hle Hlt He
    |l e cpu rl t rl' Hcpu Hb|cpu z rl|cpu size rl Hcpu Hsize|r t rl Hrate].
  - destruct (Hclock now0 now Hle Hlt) as (Hr' & Ht' & Hl & Hp). unfold rl_pool.
    assert (Hq : rl_queue (iso_rl_clock now0 now rl) = rl_queue rl) by apply clock_queue.
    split; [split; try lia; intros i; rewrite Hq; apply Hk|]. rewrite Hq. lia.
  - destruct (Hclock now0 now Hle Hlt) as (Hr' & Ht' & Hl & Hp).
    destruct (enqueue_frame _ _ _ _ _ _ _ He) as (E1 & E2 & E3 & _ & E5).
    split; [split; [by rewrite E1|by rewrite E2|intros i; rewrite E5; apply Hk]|].
    rewrite E3. split; [done|]. split; [lia|]. unfold rl_pool.
    rewrite (map_ext _ _ E5), E2. lia.
  - destruct (borrow_frame _ _ _ _ _ _ Hb) as (E1 & E2 & _ & [->|[E3 E4]]).
    + split; [by split|]. lia.
    + cbv zeta in E4. pose proof (Hk cpu) as Hkc. unfold is_u64 in Hkc.
      assert (Hle : u64 (rlq_tokens (rl_queue rl cpu) + rl_total_tokens rl) <=
                    rlq_tokens (rl_queue rl cpu) + rl_total_tokens rl) by (apply u64_le_self; lia).
      split; [split; [by rewrite E1|lia|]|].
      * intros i. rewrite E4. unfold pc_set. destruct (i =? cpu)%nat; [apply u64_range|apply Hk].
      * rewrite E2. split; [lia|]. split; [lia|]. unfold rl_pool. rewrite E3, E4.
        rewrite (sum_pc_set rlq_tokens) by (done || apply possible_nodup). cbn [rlq_tokens]. lia.
  - split; [split; [done|done|intros i; rewrite set_first_tokens; apply Hk]|].
    cbn [rl_set_first set_queue rl_last_update_time]. unfold rl_pool.
    rewrite (map_ext _ _ (set_first_tokens cpu z rl)).
    cbn [rl_set_first set_queue rl_total_tokens]. lia.
  - pose proof (Hk cpu) as Hkc. unfold is_u64 in Hkc.
    split; [split; [done|done|]|].
    + intros i. destruct (decide (i = cpu)) as [->|Hi]; [|rewrite send_head_other by done; apply Hk].
      rewrite send_head_queue. cbn [rlq_tokens]. rewrite u64_small by lia. unfold is_u64. lia.
    + cbn [rl_send_head rl_account rl_pop set_queue rl_last_update_time]. split; [lia|].
      split; [lia|]. pose proof (send_head_pool cpu size rl Hcpu ltac:(lia) (Hk cpu)). lia.
  - split; [split; [cbn; lia|done|done]|]. cbn [rl_last_update_time]. unfold rl_pool.
    cbn [rl_queue rl_total_tokens]. lia.
Qed.

Lemma pool_nonneg R rl : rl_wf R rl -> 0 <= rl_pool rl.
Proof.
  intros [_ Ht Hk]. unfold rl_pool.
  assert (0 <= sumZ (map (fun i => rlq_tokens (rl_queue rl i)) possible_cpus)); [|lia].
  apply sumZ_nonneg, Forall_map, Forall_forall. intros i _. specialize (Hk i).
  unfold is_u64 in Hk. lia.
Qed.

Lemma rl_run_potential R rl n rl' :
  2 <= R < 2147483648 -> rl_wf R rl -> rl_run R rl n rl' ->
  rl_wf R rl' /\ 0 <= n /\
  8000 * (rl_pool rl' + n - rl_pool rl) <=
    R * (rl_last_update_time rl' - rl_last_update_time rl).
Proof.
  intros HR Hwf Hrun. induction Hrun as [rl|rl1 n rl2 m rl3 Hs Hrun IH]; [split; [done|lia]|].
  destruct (rl_step_potential R rl1 n rl2 HR Hwf Hs) as (Hwf2 & Hl & Hn & Hp).
  destruct (IH Hwf2) as (Hwf3 & Hm & Hp'). split; [done|]. lia.
Qed.

(** What a run sends is bounded by the tokens at its start and the rate times the
    time it covers. *)
Lemma rl_run_conformance (R : Z) (rl rl' : iso_rl) (sent : Z) :
  2 <= R < 2147483648 -> rl_wf R rl -> rl_run R rl sent rl' ->
  8000 * sent <=
    8000 * rl_pool rl + R * (rl_last_update_time rl' - rl_last_update_time rl).
Proof.
  intros HR Hwf Hrun. destruct (rl_run_potential R rl sent rl' HR Hwf Hrun) as (Hwf' & _ & Hp).
  pose proof (pool_nonneg R rl' Hwf'). lia.
Qed.
End Conformance.

(** ** Examples *)

(** A rate limiter as [iso_rl_init] leaves it. *)
Definition ex_fresh_rl : iso_rl :=
  iso_rl_init (K := ref_kernel) (P := default_params) 0 0
    (fun _ => {| rlq_list := []; rlq_first_pkt_size := 0; rlq_bytes_enqueued := 0; rlq_bytes_xmit := 0;
                 rlq_feedback_backlog := 0; rlq_tokens := 0 |})
    {| rl_rate := 0; rl_ip := 0; rl_total_tokens := 0; rl_accum_xmit := 0; rl_accum_enqueued := 0;
       rl_last_update_time := 0; rl_last_rate_update_time := 0; rl_queue := fun _ =>
         {| rlq_list := []; rlq_first_pkt_size := 0; rlq_bytes_enqueued := 0; rlq_bytes_xmit := 0;
            rlq_feedback_backlog := 0; rlq_tokens := 0 |}; rl_txc := None |}.

Lemma iso_rl_enqueue_whole_packet_witness :
  exists h rl', iso_rl_enqueue (K := ref_kernel) (P := default_params) 0 1000 ex_fresh_rl ex_skb 1%nat =
    Ok (ISO_VERDICT_SUCCESS, rl') /\
    rlq_list (rl_queue rl' 1%nat) = [{| ex_skb with skb_iph := h |}].
Proof.
  pose proof (iso_rl_enqueue_whole_packet (K := ref_kernel) (P := default_params)
    0 1000 ex_fresh_rl ex_skb 1%nat) as H.
  destruct H as (h & rl' & H1 & _ & H2 & _).
  - split; [reflexivity|constructor|vm_compute; discriminate].
  - split; vm_compute; discriminate.
  - right. vm_compute. discriminate.
  - exists h, rl'. split; [exact H1|exact H2].
Defined.
