(* ===== verification/Dequeue.v ===== *)
(** * Transmission: the dequeue loop, the timer and the tasklet (rl.c)

    Rate limiters form two levels: the limiter of a destination hands packets to
    the limiter embedded in its traffic class ([&rl->txc->rl]), which hands them
    to the driver.  Queues that wait for tokens sit on the active list of their
    CPU, served by a tasklet that a timer schedules. *)

From S2P Require Import Prelude Params Kernel Packet RateLimiter.

Open Scope Z_scope.

(** The address of a rate limiter: allocated on its own ([inl]), or the [rl]
    field of the traffic class at an address ([inr]). *)
Abbreviation rlptr := (loc + loc)%type.

(** What the code reads from its environment, in order: [ktime_get()] and the
    result of [spin_trylock] on a rate limiter's lock. *)
Class Oracle := {
  clock : nat -> Z;
  trylock : nat -> bool
}.

(** Time does not run backwards, and stays in the range of [ktime_t]. *)
Class ClockLaws {Env : Oracle} : Prop := {
  clock_mono n : clock n <= clock (S n);
  clock_range n : 0 <= clock n < 2 ^ 62
}.
Arguments ClockLaws Env : clear implicits.

(** [struct iso_rl_cb]: whether the timer is armed and the tasklet scheduled,
    and the queues of this CPU that wait (each named by its rate limiter). *)
Record iso_rl_cb := {
  cb_timer : bool;
  cb_xmit_timeout : bool;
  cb_active_list : list rlptr;
  cb_last : Z;                 (** ktime_t *)
  cb_avg_us : Z;               (** u64 *)
  cb_tx_bytes : Z              (** u64 *)
}.

(** The rate limiters and control blocks of a device.  [w_xmit] is the list of
    packets given to [skb_xmit], each with the rate limiter that sent it;
    [w_reads] and [w_tries] count the readings of the environment. *)
Record rl_world := {
  w_rls : gmap rlptr iso_rl;
  w_cbs : percpu iso_rl_cb;
  w_xmit : list (rlptr * sk_buff);
  w_reads : nat;
  w_tries : nat;
  w_exiting : bool             (** [iso_exiting] *)
}.

Definition set_rl (p : rlptr) (rl : iso_rl) (w : rl_world) : rl_world :=
  {| w with w_rls := <[p := rl]> (w_rls w) |}.

Definition set_cb (cpu : nat) (cb : iso_rl_cb) (w : rl_world) : rl_world :=
  {| w with w_cbs := pc_set cpu cb (w_cbs w) |}.

Definition budget : Z := 500.

Section Dequeue.
Context {K : Kernel} {P : params} {Env : Oracle}.

(** [iso_rl_clock(rl)] *)
Definition w_clock (p : rlptr) (w : rl_world) : outcome rl_world :=
  rl ← deref (w_rls w) p;
  let r := w_reads w in
  mret (set_rl p (iso_rl_clock (clock r) (clock (S r)) rl) {| w with w_reads := S (S r) |}).

(** [iso_rl_enqueue(rl, pkt, cpu)] *)
Definition w_enqueue (p : rlptr) (pkt : sk_buff) (cpu : nat) (w : rl_world)
    : outcome (iso_verdict * rl_world) :=
  rl ← deref (w_rls w) p;
  let r := w_reads w in
  '(verdict, rl) ← iso_rl_enqueue (clock r) (clock (S r)) rl pkt cpu;
  mret (verdict, set_rl p rl {| w with w_reads := S (S r) |}).

(** [iso_rl_borrow_tokens(rl, q)] *)
Definition w_borrow (p : rlptr) (cpu : nat) (w : rl_world) : outcome (Z * rl_world) :=
  rl ← deref (w_rls w) p;
  let t := w_tries w in
  '(timeout, rl) ← iso_rl_borrow_tokens (trylock t) (w_exiting w) cpu rl;
  mret (timeout, set_rl p rl {| w with w_tries := S t |}).

(** [cb->tx_bytes += size] *)
Definition cb_count (cpu : nat) (size : Z) (w : rl_world) : rl_world :=
  let cb := w_cbs w cpu in
  set_cb cpu {| cb with cb_tx_bytes := u64 (cb_tx_bytes cb + size) |} w.

(** [skb_xmit(pkt)] *)
Definition w_skb_xmit (p : rlptr) (pkt : sk_buff) (w : rl_world) : rl_world :=
  {| w with w_xmit := w_xmit w ++ [(p, pkt)] |}.

(** The body of the transmit loop up to the packet's accounting: the packet goes
    to the driver or to the parent; [None] is the [break] of a full parent. *)
Definition dequeue_one (p : rlptr) (cpu : nat) (pkt : sk_buff) (size : Z) (w : rl_world)
    : outcome (option rl_world) :=
  rl ← deref (w_rls w) p;
  match rl_txc rl with
  | None =>
      let w := w_skb_xmit p pkt (set_rl p (rl_pop cpu rl) w) in
      rl ← deref (w_rls w) p;
      mret (Some (cb_count cpu size (set_rl p (rl_account cpu size rl) w)))
  | Some txc =>
      parent ← deref (w_rls w) (inr txc);
      if iso_rl_has_space_for parent pkt cpu then
        '(_, w) ← w_enqueue (inr txc) pkt cpu (set_rl p (rl_pop cpu rl) w);
        rl ← deref (w_rls w) p;
        mret (Some (set_rl p (rl_account cpu size rl) w))
      else mret None
  end.

(** The transmit loop; returns [timeout], [sum] and the state. *)
Fixpoint dequeue_loop (fuel : nat) (p : rlptr) (cpu : nat) (pkt : sk_buff) (size sum : Z)
    (w : rl_world) : outcome (Z * Z * rl_world) :=
  match fuel with
  | O => Oops OutOfFuel
  | S fuel =>
      rl ← deref (w_rls w) p;
      if (size <=? rlq_tokens (rl_queue rl cpu)) && (sum <=? u64 (s32 (ISO_MIN_BURST_BYTES * 2)))
      then
        sent ← dequeue_one p cpu pkt size w;
        match sent with
        | None => mret (1, sum, w)
        | Some w =>
            rl ← deref (w_rls w) p;
            match rlq_list (rl_queue rl cpu) with
            | [] => mret (0, sum, w)
            | pkt :: _ =>
                let size := u32 (skb_size pkt) in
                let sum := u64 (sum + size) in
                dequeue_loop fuel p cpu pkt size sum (set_rl p (rl_set_first cpu size rl) w)
            end
        end
      else mret (1, sum, w)
  end.

(** From [skq = &q->list] to the label [unlock]. *)
Definition dequeue_burst (p : rlptr) (cpu : nat) (w : rl_world) : outcome (Z * Z * rl_world) :=
  rl ← deref (w_rls w) p;
  let skq := rlq_list (rl_queue rl cpu) in
  match skq with
  | [] => mret (0, 0, w)
  | pkt :: _ =>
      let size := u32 (skb_size pkt) in
      dequeue_loop (length skq) p cpu pkt size size (set_rl p (rl_set_first cpu size rl) w)
  end.

(** The code after the label [timeout]. *)
Definition dequeue_arm (timeout : Z) (p : rlptr) (cpu : nat) (w : rl_world) : rl_world :=
  if negb (timeout =? 0) && negb (w_exiting w) then
    let cb := w_cbs w cpu in
    let l := cb_active_list cb in
    let l := if bool_decide (p ∈ l) then l else l ++ [p] in
    set_cb cpu {| cb with cb_active_list := l; cb_timer := true |} w
  else w.

(** [iso_rl_dequeue(q)] for the queue of the rate limiter [p] on [cpu]; [depth]
    bounds the recursion into parents. *)
Fixpoint iso_rl_dequeue (depth : nat) (p : rlptr) (cpu : nat) (w : rl_world)
    : outcome (Z * rl_world) :=
  match depth with
  | O => Oops OutOfFuel
  | S depth =>
      rl ← deref (w_rls w) p;
      let q := rl_queue rl cpu in
      '(timeout, w) ← (if rlq_tokens q <? u64 (rlq_first_pkt_size q)
                       then w_borrow p cpu w else mret (0, w));
      if negb (timeout =? 0) then mret (0, dequeue_arm timeout p cpu w)
      else
        '(timeout, sum, w) ← dequeue_burst p cpu w;
        rl ← deref (w_rls w) p;
        w ← match rl_txc rl with
            | None => mret w
            | Some txc => '(_, w) ← iso_rl_dequeue depth (inr txc) cpu w; mret w
            end;
        mret (u32 sum, dequeue_arm timeout p cpu w)
  end.

(** A leaf and its class. *)
Definition levels : nat := 2.

(** [iso_rl_timeout], the timer's handler: the timer is not restarted. *)
Definition iso_rl_timeout (cpu : nat) (w : rl_world) : rl_world :=
  let cb := w_cbs w cpu in
  set_cb cpu {| cb with cb_timer := false; cb_xmit_timeout := true |} w.

(** The entry after [p] on an active list; [None] is the list head. *)
Fixpoint list_next (p : rlptr) (l : list rlptr) : option rlptr :=
  match l with
  | [] => None
  | x :: l => if decide (x = p) then head l else list_next p l
  end.

(** [list_del_init(&q->active_list)] *)
Definition active_del (p : rlptr) (cpu : nat) (w : rl_world) : rl_world :=
  let cb := w_cbs w cpu in
  set_cb cpu {| cb with cb_active_list := filter (fun x => x <> p) (cb_active_list cb) |} w.

(** [list_for_each_entry_safe(q, qtmp, &cb->active_list, active_list)] of the
    tasklet, from the cursor [pos]. *)
Fixpoint xmit_loop (fuel : nat) (cpu : nat) (first pos : option rlptr) (count sent : Z)
    (w : rl_world) : outcome rl_world :=
  match pos with
  | None => mret w
  | Some q =>
      match fuel with
      | O => Oops OutOfFuel
      | S fuel =>
          let qtmp := list_next q (cb_active_list (w_cbs w cpu)) in
          let count := count + 1 in
          if bool_decide (qtmp = first) || (budget <? count) ||
             (u32 (s32 (2 * ISO_MIN_BURST_BYTES)) <? sent)
          then mret w
          else
            let count := count + 1 in
            let w := active_del q cpu w in
            w ← w_clock q w;
            '(n, w) ← iso_rl_dequeue levels q cpu w;
            xmit_loop fuel cpu first qtmp count (u32 (sent + n)) w
      end
  end.

(** The loop ends after 250 rounds: [count] grows by two in each. *)
Definition xmit_fuel : nat := 251.

(** [iso_rl_xmit_tasklet(cb)]; the softirq has cleared the scheduled bit. *)
Definition iso_rl_xmit_tasklet (cpu : nat) (w : rl_world) : outcome rl_world :=
  let cb := w_cbs w cpu in
  let w := set_cb cpu {| cb with cb_xmit_timeout := false |} w in
  if w_exiting w then mret w
  else
    let cb := w_cbs w cpu in
    let last := cb_last cb in
    let now := clock (w_reads w) in
    let w := set_cb cpu {| cb with cb_last := now; cb_avg_us := u64 (ktime_us_delta now last) |}
               {| w with w_reads := S (w_reads w) |} in
    let first := head (cb_active_list (w_cbs w cpu)) in
    w ← xmit_loop xmit_fuel cpu first first 0 0 w;
    let cb := w_cbs w cpu in
    if negb (bool_decide (cb_active_list cb = [])) && negb (w_exiting w)
    then mret (set_cb cpu {| cb with cb_timer := true |} w)
    else mret w.

(** [iso_rl_prep]: [None] when the per-CPU area cannot be allocated (the code
    returns -1). *)
Definition iso_rl_prep (alloc : option (percpu iso_rl_cb)) (r : nat) : option (percpu iso_rl_cb) :=
  match alloc with
  | None => None
  | Some rlcb =>
      Some (snd (fold_left (fun '(r, m) cpu =>
        (S r, pc_set cpu {| cb_timer := false; cb_xmit_timeout := false; cb_active_list := [];
                            cb_last := clock r; cb_avg_us := 0; cb_tx_bytes := 0 |} m))
        possible_cpus (r, rlcb)))
  end.

(** [iso_rl_exit]: [tasklet_kill] and [hrtimer_cancel] on every CPU. *)
Definition iso_rl_exit (w : rl_world) : rl_world :=
  {| w with w_cbs := pc_update (fun cb =>
       {| cb with cb_xmit_timeout := false; cb_timer := false |}) possible_cpus (w_cbs w) |}.
End Dequeue.

(** ** What an operation may do to a device *)

Section Evolution.
Context {K : Kernel} {KL : KernelLaws K} {P : params} {Env : Oracle} {CL : ClockLaws Env}.

Definition active (w : rl_world) (cpu : nat) : list rlptr := cb_active_list (w_cbs w cpu).

(** Well-formedness: the rate limiters are well-formed and were last updated in
    the past; the byte counts of the queues are those of their packets; a parent exists and has no parent; the active lists hold live
    queues, once each. *)
Record world_ok (R : Z) (w : rl_world) : Prop := {
  wok_rl p rl : w_rls w !! p = Some rl ->
    rl_wf R rl /\ 0 <= rl_last_update_time rl <= clock (w_reads w);
  wok_queue p rl i : w_rls w !! p = Some rl -> queue_ok (rl_queue rl i);
  wok_parent p rl t : w_rls w !! p = Some rl -> rl_txc rl = Some t ->
    exists g, w_rls w !! inr t = Some g /\ rl_txc g = None;
  wok_active cpu p : p ∈ active w cpu -> is_Some (w_rls w !! p);
  wok_nodup cpu : NoDup (active w cpu)
}.

(** The bytes of the packets that the rate limiter [p] gave to the driver. *)
Definition bytes_of (p : rlptr) (l : list (rlptr * sk_buff)) : Z :=
  sumZ (map (fun x => if decide (x.1 = p) then u32 (skb_size x.2) else 0) l).

Lemma bytes_of_app p l1 l2 : bytes_of p (l1 ++ l2) = bytes_of p l1 + bytes_of p l2.
Proof. unfold bytes_of. by rewrite map_app, sumZ_app. Qed.

(** How one rate limiter evolves: through steps that respect its tokens,
    [l] being what the device sends; only the queues of [cpu] of the limiters
    in [T] change their packets. *)
Record rl_ev (R : Z) (T : list rlptr) (cpu : nat) (l : list (rlptr * sk_buff)) (p : rlptr)
    (rl rl' : iso_rl) : Prop := {
  rle_run : exists n, rl_run R rl n rl' /\ (rl_txc rl = None -> n = bytes_of p l);
  rle_txc : rl_txc rl' = rl_txc rl;
  rle_frame i : p ∉ T \/ i <> cpu -> rlq_list (rl_queue rl' i) = rlq_list (rl_queue rl i)
}.

Record ev (R : Z) (T : list rlptr) (cpu : nat) (w w' : rl_world) : Prop := {
  ev_ok : world_ok R w';
  ev_reads : (w_reads w <= w_reads w')%nat;
  ev_exiting : w_exiting w' = w_exiting w;
  ev_cbs i : i <> cpu -> w_cbs w' i = w_cbs w i;
  ev_dom p : w_rls w' !! p = None <-> w_rls w !! p = None;
  ev_rls : exists l, w_xmit w' = w_xmit w ++ l /\
    forall p rl, w_rls w !! p = Some rl ->
      exists rl', w_rls w' !! p = Some rl' /\ rl_ev R T cpu l p rl rl'
}.

(** The active list of a CPU only grows at its end, and a list with entries stays
    timed. *)
Definition timed (cpu : nat) (w : rl_world) : Prop :=
  w_exiting w = false -> active w cpu <> [] ->
  cb_timer (w_cbs w cpu) = true \/ cb_xmit_timeout (w_cbs w cpu) = true.

Record waits (cpu : nat) (w w' : rl_world) : Prop := {
  waits_active : active w cpu `prefix_of` active w' cpu;
  waits_timed : timed cpu w -> timed cpu w'
}.

#[global] Instance waits_refl cpu : Reflexive (waits cpu).
Proof. by split. Qed.
#[global] Instance waits_trans cpu : Transitive (waits cpu).
Proof. intros w1 w2 w3 [H1 H2] [H3 H4]. split; [by etransitivity|auto]. Qed.

Lemma waits_in cpu w w' p : waits cpu w w' -> p ∈ active w cpu -> p ∈ active w' cpu.
Proof. intros [[k ->] _] Hp. apply elem_of_app. by left. Qed.

Lemma rl_run_app R rl1 n rl2 m rl3 :
  rl_run R rl1 n rl2 -> rl_run R rl2 m rl3 -> rl_run R rl1 (n + m) rl3.
Proof.
  intros H. revert m rl3. induction H as [rl|rl1 n rl2 k rl3 Hs Hr IH]; intros m rl4 Hm.
  - by rewrite Z.add_0_l.
  - rewrite <- Z.add_assoc. by eapply run_cons; [|apply IH].
Qed.

Lemma rl_run_one R rl n rl' : rl_step R rl n rl' -> rl_run R rl n rl'.
Proof. intros H. rewrite <- (Z.add_0_r n). eapply run_cons; [done|constructor]. Qed.

Lemma ev_refl R T cpu w : world_ok R w -> ev R T cpu w w.
Proof.
  intros Hok. split; [done|done|done|done|done|]. exists []. split; [by rewrite app_nil_r|].
  intros p rl Hp. exists rl. split; [done|]. split; [|done|done].
  exists 0. split; [constructor|done].
Qed.

Lemma ev_trans R T cpu w1 w2 w3 : ev R T cpu w1 w2 -> ev R T cpu w2 w3 -> ev R T cpu w1 w3.
Proof.
  intros [Hok1 Hr1 He1 Hc1 Hd1 (l1 & Hx1 & Hl1)] [Hok2 Hr2 He2 Hc2 Hd2 (l2 & Hx2 & Hl2)].
  split; [done|lia|congruence|intros i Hi; by rewrite Hc2, Hc1|intros p; by rewrite Hd2|].
  exists (l1 ++ l2). split; [by rewrite Hx2, Hx1, app_assoc|].
  intros p rl Hp. destruct (Hl1 p rl Hp) as (rl' & Hp' & [(n & Hn & En) Ht Hf]).
  destruct (Hl2 p rl' Hp') as (rl'' & Hp'' & [(m & Hm & Em) Ht' Hf']).
  exists rl''. split; [done|]. split.
  - exists (n + m). split; [by eapply rl_run_app|]. intros HN. rewrite bytes_of_app.
    rewrite En by done. rewrite Em by congruence. done.
  - congruence.
  - intros i Hi. by rewrite Hf', Hf.
Qed.

Lemma ev_weaken R T T' cpu w w' : T ⊆ T' -> ev R T cpu w w' -> ev R T' cpu w w'.
Proof.
  intros HT [Hok Hr He Hc Hd (l & Hx & Hl)]. split; auto. exists l. split; [done|].
  intros p rl Hp. destruct (Hl p rl Hp) as (rl' & Hp' & [Hn Ht Hf]).
  exists rl'. split; [done|]. split; [done|done|]. intros i [Hi|Hi]; apply Hf; auto.
Qed.

(** One step of one rate limiter; [l] is what it sends. *)
Lemma ev_step R T cpu w w' p rl n rl' l :
  2 <= R < 2147483648 -> world_ok R w -> w_rls w !! p = Some rl -> rl_step R rl n rl' ->
  rl_txc rl' = rl_txc rl -> rl_last_update_time rl' <= clock (w_reads w') ->
  (forall i, queue_ok (rl_queue rl' i)) ->
  (forall i, p ∉ T \/ i <> cpu -> rlq_list (rl_queue rl' i) = rlq_list (rl_queue rl i)) ->
  w_rls w' = <[p := rl']> (w_rls w) -> (w_reads w <= w_reads w')%nat ->
  w_exiting w' = w_exiting w -> (forall i, i <> cpu -> w_cbs w' i = w_cbs w i) ->
  active w' cpu = active w cpu ->
  w_xmit w' = w_xmit w ++ l -> (rl_txc rl = None -> n = bytes_of p l) ->
  (forall q, q <> p -> bytes_of q l = 0) ->
  ev R T cpu w w'.
Proof.
  intros HR Hok Hp Hs Ht Htime Hqs Hf Hrls Hr He Hc Ha Hx Hn Hz.
  destruct (wok_rl R w Hok p rl Hp) as [Hwf Hlast].
  destruct (rl_step_potential R rl n rl' HR Hwf Hs) as (Hwf' & Hmono & _).
  assert (Hact : forall i, active w' i = active w i).
  { intros i. destruct (decide (i = cpu)) as [->|Hi]; [done|]. unfold active. by rewrite Hc. }
  assert (Hclk : clock (w_reads w) <= clock (w_reads w')).
  { clear -Hr CL. induction Hr as [|m Hm IH]; [done|]. pose proof (clock_mono m). lia. }
  split; [|done|done|done| |].
  - split.
    + intros q rq. rewrite Hrls. destruct (decide (p = q)) as [->|Hne].
      * rewrite lookup_insert_eq. intros [= <-]. split; [done|lia].
      * rewrite lookup_insert_ne by done. intros Hq.
        destruct (wok_rl R w Hok q rq Hq) as [? ?]. split; [done|lia].
    + intros q rq i. rewrite Hrls. destruct (decide (p = q)) as [->|Hne].
      * rewrite lookup_insert_eq. intros [= <-]. apply Hqs.
      * rewrite lookup_insert_ne by done. by apply (wok_queue R w Hok q).
    + intros q rq t Hq Htq.
      assert (exists r0, w_rls w !! q = Some r0 /\ rl_txc r0 = Some t) as (r0 & Hq0 & Ht0).
      { rewrite Hrls in Hq. destruct (decide (p = q)) as [->|Hne].
        - rewrite lookup_insert_eq in Hq. injection Hq as <-. exists rl. split; congruence.
        - rewrite lookup_insert_ne in Hq by done. eauto. }
      destruct (wok_parent R w Hok q r0 t Hq0 Ht0) as (g & Hg & Hgt).
      rewrite Hrls. destruct (decide (p = inr t)) as [->|Hne].
      * rewrite lookup_insert_eq. exists rl'. split; congruence.
      * rewrite lookup_insert_ne by done. eauto.
    + intros i q. rewrite Hact, Hrls. intros Hq. destruct (decide (p = q)) as [->|Hne].
      * rewrite lookup_insert_eq. eauto.
      * rewrite lookup_insert_ne by done. by eapply wok_active.
    + intros i. rewrite Hact. by eapply wok_nodup.
  - intros q. rewrite Hrls. destruct (decide (p = q)) as [->|Hne].
    + rewrite lookup_insert_eq. split; congruence.
    + by rewrite lookup_insert_ne.
  - exists l. split; [done|]. intros q rq Hq. rewrite Hrls.
    destruct (decide (p = q)) as [->|Hne].
    + rewrite lookup_insert_eq. assert (rq = rl) as -> by congruence.
      exists rl'. split; [done|]. split; [|done|done]. exists n. split; [by apply rl_run_one|done].
    + rewrite lookup_insert_ne by done. exists rq. split; [done|]. split; [|done|done].
      exists 0. split; [constructor|]. intros _. symmetry. by apply Hz.
Qed.
End Evolution.

(** ** The operations that the loops are made of *)

Section Operations.
Context {K : Kernel} {KL : KernelLaws K} {P : params} {PO : params_ok P}.
Context {Env : Oracle} {CL : ClockLaws Env}.
Context (R : Z) (HR : 2 <= R < 2147483648) (cpu : nat) (Hcpu : cpu ∈ possible_cpus).

Lemma reading_time w p rl :
  world_ok R w -> w_rls w !! p = Some rl ->
  rl_last_update_time rl <= clock (S (w_reads w)) /\
  clock (S (w_reads w)) - rl_last_update_time rl < 2 ^ 62.
Proof.
  intros Hok Hp. destruct (wok_rl R w Hok p rl Hp) as [_ Hl].
  pose proof (clock_mono (w_reads w)). pose proof (clock_range (S (w_reads w))). lia.
Qed.

Lemma clock_last now0 now rl :
  rl_last_update_time rl <= now -> rl_last_update_time (iso_rl_clock now0 now rl) <= now.
Proof. intros H. unfold iso_rl_clock. destruct (negb _); [done|]. cbn. lia. Qed.

Lemma ev_clock T w p rl :
  world_ok R w -> w_rls w !! p = Some rl ->
  exists w', w_clock p w = Ok w' /\ ev R T cpu w w' /\ w_cbs w' = w_cbs w.
Proof.
  intros Hok Hp. unfold w_clock. rewrite (deref_ok _ _ _ Hp). cbn [mbind outcome_bind].
  eexists. split; [reflexivity|]. split; [|done].
  destruct (reading_time w p rl Hok Hp) as [H1 H2].
  eapply ev_step with (p := p) (l := []) (n := 0)
    (rl' := iso_rl_clock (clock (w_reads w)) (clock (S (w_reads w))) rl); try done.
  - by apply step_clock.
  - apply clock_txc.
  - cbn [w_reads set_rl]. pose proof (clock_mono (S (w_reads w))).
    pose proof (clock_last (clock (w_reads w)) _ rl H1). lia.
  - intros i. rewrite clock_queue. by apply (wok_queue R w Hok p).
  - intros i _. by rewrite clock_queue.
  - cbn. lia.
  - cbn. by rewrite app_nil_r.
Qed.

(** Enqueueing never faults; it appends to the queue of its CPU. *)
Lemma ev_enqueue T w p rl pkt :
  world_ok R w -> w_rls w !! p = Some rl -> p ∈ T -> pkt_ok pkt ->
  exists v w', w_enqueue p pkt cpu w = Ok (v, w') /\ ev R T cpu w w' /\
    w_cbs w' = w_cbs w /\ w_xmit w' = w_xmit w /\
    (forall q, q <> p -> w_rls w' !! q = w_rls w !! q) /\
    exists rl', iso_rl_enqueue (clock (w_reads w)) (clock (S (w_reads w))) rl pkt cpu = Ok (v, rl') /\
      w_rls w' !! p = Some rl'.
Proof.
  intros Hok Hp HT Hpkt. unfold w_enqueue. rewrite (deref_ok _ _ _ Hp). cbn [mbind outcome_bind].
  set (r := w_reads w).
  assert (exists v rl', iso_rl_enqueue (clock r) (clock (S r)) rl pkt cpu = Ok (v, rl'))
    as (v & rl' & He).
  { unfold iso_rl_enqueue. destruct (_ || _); [destruct (_ && _); eauto|].
    pose proof (gso_segs_nonempty pkt). destruct (skb_gso_segment pkt) as [|[|s segs]]; eauto. done. }
  rewrite He. cbn [mbind outcome_bind]. do 2 eexists. split; [reflexivity|].
  split; [|split; [done|split; [done|split; [intros q Hq; cbn; by rewrite lookup_insert_ne|]]];
    exists rl'; split; [reflexivity|apply lookup_insert_eq]].
  destruct (reading_time w p rl Hok Hp) as [H1 H2]. fold r in H1, H2.
  destruct (enqueue_frame _ _ _ _ _ _ _ He) as (_ & _ & E3 & E4 & _).
  eapply ev_step with (p := p) (l := []) (n := 0) (rl' := rl'); try done.
  - by eapply step_enqueue.
  - cbn [w_reads set_rl]. rewrite E3. pose proof (clock_mono (S r)).
    pose proof (clock_last (clock r) _ rl H1). lia.
  - eapply enqueue_queue_ok; [|done|exact He]. intros i. by apply (wok_queue R w Hok p).
  - intros i [Hi|Hi]; [done|]. by rewrite (enqueue_other _ _ _ _ _ _ _ i He).
  - cbn. lia.
  - cbn. by rewrite app_nil_r.
Qed.

Lemma ev_borrow T w p rl :
  world_ok R w -> w_rls w !! p = Some rl ->
  exists t w', w_borrow p cpu w = Ok (t, w') /\ ev R T cpu w w' /\ w_cbs w' = w_cbs w /\
    w_xmit w' = w_xmit w.
Proof.
  intros Hok Hp. unfold w_borrow. rewrite (deref_ok _ _ _ Hp). cbn [mbind outcome_bind].
  assert (exists t rl', iso_rl_borrow_tokens (trylock (w_tries w)) (w_exiting w) cpu rl = Ok (t, rl'))
    as (t & rl' & Hb).
  { unfold iso_rl_borrow_tokens. destruct (negb _); [eauto|]. unfold iso_rl_singleq_burst. pok.
    rewrite (u32_small ISO_BURST_FACTOR) by lia. rewrite div_u_ok by lia. cbn [mbind outcome_bind]. rewrite Z.leb_refl. eauto. }
  rewrite Hb. cbn [mbind outcome_bind]. do 2 eexists. split; [reflexivity|].
  split; [|split; done].
  destruct (borrow_frame _ _ _ _ _ _ Hb) as (_ & E2 & E3 & Hq).
  eapply ev_step with (p := p) (l := []) (n := 0) (rl' := rl'); try done.
  - by eapply step_borrow.
  - rewrite E2. cbn. destruct (wok_rl R w Hok p rl Hp) as [_ Hl]. lia.
  - intros i. apply (queue_ok_ext (rl_queue rl i)); [| |by apply (wok_queue R w Hok p)];
      (destruct Hq as [->|[_ ->]]; [done|]; unfold pc_set; by destruct (Nat.eqb_spec i cpu) as [->|]).
  - intros i _. destruct Hq as [->|[_ ->]]; [done|]. unfold pc_set.
    destruct (Nat.eqb_spec i cpu) as [->|]; done.
  - cbn. by rewrite app_nil_r.
Qed.

Lemma ev_first T w p rl z :
  world_ok R w -> w_rls w !! p = Some rl -> ev R T cpu w (set_rl p (rl_set_first cpu z rl) w).
Proof.
  intros Hok Hp. destruct (wok_rl R w Hok p rl Hp) as [_ Hl].
  eapply ev_step with (p := p) (l := []) (n := 0) (rl' := rl_set_first cpu z rl); try done.
  - apply step_first_size.
  - cbn. lia.
  - intros i. apply (queue_ok_ext (rl_queue rl i)); [apply set_first_list|apply set_first_bytes|].
    by apply (wok_queue R w Hok p).
  - intros i _. apply set_first_list.
  - cbn. by rewrite app_nil_r.
Qed.

(** A root's packet goes to the driver. *)
Lemma ev_send_root T w p rl pkt rest :
  world_ok R w -> w_rls w !! p = Some rl -> p ∈ T ->
  rlq_list (rl_queue rl cpu) = pkt :: rest ->
  u32 (skb_size pkt) <= rlq_tokens (rl_queue rl cpu) ->
  ev R T cpu w (cb_count cpu (u32 (skb_size pkt))
    (set_rl p (rl_send_head cpu (u32 (skb_size pkt)) rl) (w_skb_xmit p pkt w))).
Proof.
  intros Hok Hp HT Hlist Hsz. destruct (wok_rl R w Hok p rl Hp) as [_ Hl].
  pose proof (u32_range (skb_size pkt)) as Hu. unfold is_u32 in Hu.
  eapply ev_step with (p := p) (l := [(p, pkt)]) (n := u32 (skb_size pkt))
    (rl' := rl_send_head cpu (u32 (skb_size pkt)) rl); try done.
  - apply step_send; [done|lia].
  - cbn. lia.
  - apply (send_head_queue_ok cpu rl pkt rest); [|done]. intros i. by apply (wok_queue R w Hok p).
  - intros i [Hi|Hi]; [done|]. by rewrite send_head_other.
  - intros i Hi. cbn. by rewrite pc_set_ne.
  - unfold active. cbn. by rewrite pc_set_eq.
  - intros _. unfold bytes_of. cbn. rewrite decide_True by done. lia.
  - intros q Hq. unfold bytes_of. cbn. by rewrite decide_False.
Qed.

(** A leaf's packet was given to its parent. *)
Lemma ev_send_leaf T w p rl t pkt rest :
  world_ok R w -> w_rls w !! p = Some rl -> p ∈ T ->
  rlq_list (rl_queue rl cpu) = pkt :: rest -> rl_txc rl = Some t ->
  u32 (skb_size pkt) <= rlq_tokens (rl_queue rl cpu) ->
  ev R T cpu w (set_rl p (rl_send_head cpu (u32 (skb_size pkt)) rl) w).
Proof.
  intros Hok Hp HT Hlist Ht Hsz. destruct (wok_rl R w Hok p rl Hp) as [_ Hl].
  pose proof (u32_range (skb_size pkt)) as Hu. unfold is_u32 in Hu.
  eapply ev_step with (p := p) (l := []) (n := u32 (skb_size pkt))
    (rl' := rl_send_head cpu (u32 (skb_size pkt)) rl); try done.
  - apply step_send; [done|lia].
  - cbn. lia.
  - apply (send_head_queue_ok cpu rl pkt rest); [|done]. intros i. by apply (wok_queue R w Hok p).
  - intros i [Hi|Hi]; [done|]. by rewrite send_head_other.
  - cbn. by rewrite app_nil_r.
  - intros E. congruence.
Qed.
End Operations.

(** ** The transmit loop *)

Section Loop.
Context {K : Kernel} {KL : KernelLaws K} {P : params} {PO : params_ok P}.
Context {Env : Oracle} {CL : ClockLaws Env}.
Context (R : Z) (HR : 2 <= R < 2147483648) (cpu : nat) (Hcpu : cpu ∈ possible_cpus).

Lemma waits_same w w' :
  active w' cpu = active w cpu -> cb_timer (w_cbs w' cpu) = cb_timer (w_cbs w cpu) ->
  cb_xmit_timeout (w_cbs w' cpu) = cb_xmit_timeout (w_cbs w cpu) ->
  w_exiting w' = w_exiting w -> waits cpu w w'.
Proof.
  intros Ha Ht Hx He. split; [by rewrite Ha|].
  unfold timed. by rewrite Ha, Ht, Hx, He.
Qed.

Lemma waits_cbs T w w' : ev R T cpu w w' -> w_cbs w' = w_cbs w -> waits cpu w w'.
Proof. intros He Hc. apply waits_same; unfold active; rewrite ?Hc; try done. apply He. Qed.

(** A rate limiter and its parent. *)
Definition family (p : rlptr) (rl : iso_rl) : list rlptr :=
  p :: match rl_txc rl with Some t => [inr t] | None => [] end.

Lemma family_self p rl : p ∈ family p rl.
Proof. apply list_elem_of_here. Qed.

Lemma family_parent p rl t : rl_txc rl = Some t -> inr t ∈ family p rl.
Proof. intros H. unfold family. rewrite H. apply list_elem_of_further, list_elem_of_here. Qed.

(** The packets in the queue of a rate limiter. *)
Definition qlist (w : rl_world) (p : rlptr) : list sk_buff :=
  match w_rls w !! p with Some rl => rlq_list (rl_queue rl cpu) | None => [] end.

Lemma qlist_some w p rl : w_rls w !! p = Some rl -> qlist w p = rlq_list (rl_queue rl cpu).
Proof. unfold qlist. by intros ->. Qed.

(** Where the packets [sent] leaving the queue of [p] go: from a root to the
    driver; from a leaf, those that are not segmented to the end of the parent's
    queue. *)
Definition handed_over (p : rlptr) (rl : iso_rl) (sent : list sk_buff) (w w' : rl_world) : Prop :=
  match rl_txc rl with
  | None => w_xmit w' = w_xmit w ++ map (pair p) sent
  | Some t => w_xmit w' = w_xmit w /\
      (Forall small sent ->
       map strip (qlist w' (inr t)) = map strip (qlist w (inr t)) ++ map strip sent)
  end.

Lemma handed_over_nil p rl w w' :
  w_xmit w' = w_xmit w -> (forall q, q <> p -> qlist w' q = qlist w q) ->
  (forall t, rl_txc rl = Some t -> inr t <> p) -> handed_over p rl [] w w'.
Proof.
  intros Hx Hq Ht. unfold handed_over. destruct (rl_txc rl) as [t|]; cbn; rewrite ?app_nil_r; [|done].
  rewrite Hq by auto. done.
Qed.

Lemma handed_over_app p rl s1 s2 w1 w2 w3 :
  handed_over p rl s1 w1 w2 -> handed_over p rl s2 w2 w3 -> handed_over p rl (s1 ++ s2) w1 w3.
Proof.
  unfold handed_over. destruct (rl_txc rl) as [t|].
  - intros [Hx1 H1] [Hx2 H2]. split; [congruence|]. intros [Hs1 Hs2]%Forall_app.
    by rewrite H2, H1, map_app, app_assoc.
  - intros -> ->. by rewrite map_app, app_assoc.
Qed.

(** A parent is not its own child. *)
Lemma parent_ne w p rl t : world_ok R w -> w_rls w !! p = Some rl -> rl_txc rl = Some t -> inr t <> p.
Proof. intros Hok Hp Ht. destruct (wok_parent R w Hok p rl t Hp Ht) as (g & Hg & Hgt). congruence. Qed.

Lemma qlist_set_ne w p q rl : q <> p -> qlist (set_rl p rl w) q = qlist w q.
Proof. intros H. unfold qlist, set_rl. cbn. by rewrite lookup_insert_ne. Qed.

Lemma dequeue_one_ok w p rl pkt rest :
  world_ok R w -> w_rls w !! p = Some rl -> rlq_list (rl_queue rl cpu) = pkt :: rest ->
  u32 (skb_size pkt) <= rlq_tokens (rl_queue rl cpu) ->
  dequeue_one p cpu pkt (u32 (skb_size pkt)) w = Ok None \/
  exists w' rl', dequeue_one p cpu pkt (u32 (skb_size pkt)) w = Ok (Some w') /\
    ev R (family p rl) cpu w w' /\ waits cpu w w' /\ w_rls w' !! p = Some rl' /\
    rl_txc rl' = rl_txc rl /\ rlq_list (rl_queue rl' cpu) = rest /\ handed_over p rl [pkt] w w'.
Proof.
  intros Hok Hp Hl Hsz. unfold dequeue_one. rewrite (deref_ok _ _ _ Hp). cbn [mbind outcome_bind].
  assert (Hrest : rlq_list (rl_queue (rl_send_head cpu (u32 (skb_size pkt)) rl) cpu) = rest)
    by (rewrite send_head_queue; cbn; by rewrite Hl).
  destruct (rl_txc rl) as [t|] eqn:Ht.
  - destruct (wok_parent R w Hok p rl t Hp Ht) as (g & Hg & Hgt).
    rewrite (deref_ok _ _ _ Hg). cbn [mbind outcome_bind].
    destruct (iso_rl_has_space_for g pkt cpu) eqn:Espace; [|by left]. right.
    assert (Hne : inr t <> p) by congruence.
    assert (Hpkt : pkt_ok pkt) by (eapply queue_head_ok; [|exact Hl]; by apply (wok_queue R w Hok p)).
    destruct (ev_enqueue R HR cpu (family p rl) w (inr t) g pkt Hok Hg (family_parent p rl t Ht) Hpkt)
      as (v & w1 & He & Hev & Hcb & Hx & Hother & g' & Heg & Hg').
    assert (He' : w_enqueue (inr t) pkt cpu (set_rl p (rl_pop cpu rl) w) =
      Ok (v, set_rl p (rl_pop cpu rl) w1)).
    { unfold w_enqueue in He |- *. cbn [w_rls set_rl w_reads].
      unfold deref in He |- *. rewrite lookup_insert_ne by done. rewrite Hg in He |- *.
      cbn [mbind outcome_bind] in He |- *.
      destruct (iso_rl_enqueue _ _ g pkt cpu) as [[v0 g0]|]; [|discriminate].
      injection He as <- <-. cbn [mbind outcome_bind]. unfold set_rl, mret, outcome_ret. cbn.
      do 3 f_equal. by rewrite insert_insert_ne. }
    rewrite He'. cbn [mbind outcome_bind]. unfold deref. cbn [w_rls set_rl].
    rewrite lookup_insert_eq. cbn [mbind outcome_bind].
    pose proof (Hother p ltac:(done)) as Hp1. rewrite Hp in Hp1.
    eexists; exists (rl_send_head cpu (u32 (skb_size pkt)) rl). split; [reflexivity|]. unfold handed_over, set_rl.
    cbn [w_rls w_cbs w_xmit w_reads w_tries w_exiting].
    rewrite insert_insert_eq, lookup_insert_eq, Ht.
    split; [eapply ev_trans; [done|];
      eapply (ev_send_leaf R HR cpu Hcpu (family p rl) w1 p rl t pkt rest);
      [apply Hev|done|apply family_self|done|done|done]|].
    split; [apply waits_same; unfold active; cbn; rewrite ?Hcb; try done; apply Hev|].
    split; [reflexivity|]. split; [done|]. split; [done|]. split; [done|]. intros [Hsm _]%Forall_cons.
    unfold qlist at 1. cbn [w_rls]. rewrite lookup_insert_ne, Hg', (qlist_some w _ g Hg) by done.
    eapply relay_small; try done. by apply (wok_queue R w Hok (inr t)).
  - right. unfold deref. cbn [w_rls set_rl w_skb_xmit]. rewrite lookup_insert_eq.
    cbn [mbind outcome_bind]. eexists; exists (rl_send_head cpu (u32 (skb_size pkt)) rl). split; [reflexivity|].
    pose proof (ev_send_root R HR cpu Hcpu (family p rl) w p rl pkt rest Hok Hp (family_self p rl) Hl Hsz) as Hev.
    unfold cb_count, set_cb, set_rl, w_skb_xmit, handed_over in Hev |- *.
    cbn [w_rls w_cbs w_xmit w_reads w_tries w_exiting] in Hev |- *.
    rewrite insert_insert_eq, lookup_insert_eq, Ht. fold (rl_send_head cpu (u32 (skb_size pkt)) rl).
    split; [done|]. split; [|done].
    apply waits_same; unfold active; cbn; by rewrite ?pc_set_eq.
Qed.

Lemma dequeue_loop_ok fuel : forall w p rl pkt rest sum,
  world_ok R w -> w_rls w !! p = Some rl -> rlq_list (rl_queue rl cpu) = pkt :: rest ->
  (length (pkt :: rest) <= fuel)%nat ->
  exists timeout sum' w' rl' sent,
    dequeue_loop fuel p cpu pkt (u32 (skb_size pkt)) sum w = Ok (timeout, sum', w') /\
    ev R (family p rl) cpu w w' /\ waits cpu w w' /\ w_rls w' !! p = Some rl' /\
    rl_txc rl' = rl_txc rl /\ pkt :: rest = sent ++ rlq_list (rl_queue rl' cpu) /\
    handed_over p rl sent w w' /\ (timeout = 0 -> rlq_list (rl_queue rl' cpu) = []).
Proof.
  induction fuel as [|fuel IH]; intros w p rl pkt rest sum Hok Hp Hl Hfuel; [cbn in Hfuel; lia|].
  assert (Hstop : exists timeout sum' w' rl' sent,
    Ok (1, sum, w) = Ok (timeout, sum', w') /\ ev R (family p rl) cpu w w' /\ waits cpu w w' /\
    w_rls w' !! p = Some rl' /\ rl_txc rl' = rl_txc rl /\
    pkt :: rest = sent ++ rlq_list (rl_queue rl' cpu) /\ handed_over p rl sent w w' /\
    (timeout = 0 -> rlq_list (rl_queue rl' cpu) = [])).
  { exists 1, sum, w, rl, []. rewrite Hl.
    split; [done|]. split; [by apply ev_refl|]. split; [done|]. split; [done|].
    split; [done|]. split; [done|]. split; [|done].
    apply handed_over_nil; [done|done|]. intros t. exact (parent_ne w p rl t Hok Hp). }
  cbn [dequeue_loop]. rewrite (deref_ok _ _ _ Hp). cbn [mbind outcome_bind].
  destruct (_ && _) eqn:Econd; [|done]. apply andb_prop in Econd as [Hsz _].
  apply Z.leb_le in Hsz.
  destruct (dequeue_one_ok w p rl pkt rest Hok Hp Hl Hsz)
    as [->|(w1 & rl1 & -> & Hev & Hw & Hp1 & Ht1 & Hl1 & Hx1)]; [done|].
  cbn [mbind outcome_bind]. rewrite (deref_ok _ _ _ Hp1). cbn [mbind outcome_bind]. rewrite Hl1.
  assert (Hfam : forall rlx, rl_txc rlx = rl_txc rl -> family p rlx = family p rl)
    by (intros rlx E; unfold family; by rewrite E).
  destruct rest as [|pkt2 rest].
  - exists 0, sum, w1, rl1, [pkt]. rewrite Hl1. done.
  - pose proof (ev_ok _ _ _ _ _ Hev) as Hok1.
    pose proof (ev_first R HR cpu (family p rl) w1 p rl1 (u32 (skb_size pkt2)) Hok1 Hp1) as Hev2.
    set (w2 := set_rl p (rl_set_first cpu (u32 (skb_size pkt2)) rl1) w1) in *.
    assert (Hp2 : w_rls w2 !! p = Some (rl_set_first cpu (u32 (skb_size pkt2)) rl1))
      by apply lookup_insert_eq.
    destruct (IH w2 p _ pkt2 rest (u64 (sum + u32 (skb_size pkt2))) (ev_ok _ _ _ _ _ Hev2) Hp2)
      as (to & sum' & w' & rl' & sent & E & Hev3 & Hw3 & Hp3 & Ht3 & Hl3 & Hx3 & Hto).
    { by rewrite set_first_list. }
    { cbn in *. lia. }
    exists to, sum', w', rl', (pkt :: sent). split; [exact E|].
    rewrite (Hfam (rl_set_first cpu (u32 (skb_size pkt2)) rl1)) in Hev3 by done.
    split; [by eapply ev_trans; [|eapply ev_trans]|].
    split; [etransitivity; [done|]; etransitivity; [eapply waits_cbs; done|done]|].
    split; [done|]. split; [by rewrite Ht3|]. split; [cbn; by rewrite Hl3|].
    split; [|done]. apply (handed_over_app p rl [pkt] sent w w1 w'); [done|].
    apply (handed_over_app p rl [] sent w1 w2 w').
    + apply handed_over_nil; [done|intros q; apply qlist_set_ne|]. intros t. exact (parent_ne w p rl t Hok Hp).
    + unfold handed_over in *. cbn [rl_set_first set_queue rl_txc] in Hx3. by rewrite Ht1 in Hx3.
Qed.
End Loop.

(** ** The whole of [iso_rl_dequeue] *)

Section WholeDequeue.
Context {K : Kernel} {KL : KernelLaws K} {P : params} {PO : params_ok P}.
Context {Env : Oracle} {CL : ClockLaws Env}.
Context (R : Z) (HR : 2 <= R < 2147483648) (cpu : nat) (Hcpu : cpu ∈ possible_cpus).

(** No packet of the queue is stranded: if it has packets it is on the list. *)
Definition served (p : rlptr) (w : rl_world) : Prop :=
  w_exiting w = false -> forall rl, w_rls w !! p = Some rl ->
  rlq_list (rl_queue rl cpu) <> [] -> p ∈ active w cpu.

(** Only the control block of [cpu] changes, keeping the list well-formed. *)
Lemma ev_set_cb T w cb :
  world_ok R w -> NoDup (cb_active_list cb) ->
  (forall p, p ∈ cb_active_list cb -> is_Some (w_rls w !! p)) ->
  ev R T cpu w (set_cb cpu cb w).
Proof.
  intros Hok Hnd Hlive. pose proof (ev_refl R T cpu w Hok) as [_ _ _ _ Hd Hr].
  split; [|done|done| |done|done].
  - destruct Hok as [H1 H1' H2 H3 H4]. split; [done|done|done| |].
    + intros i p. unfold active, set_cb. cbn [w_cbs w_rls]. destruct (decide (i = cpu)) as [->|Hi].
      * rewrite pc_set_eq. apply Hlive.
      * rewrite pc_set_ne by done. apply H3.
    + intros i. unfold active, set_cb. cbn [w_cbs]. destruct (decide (i = cpu)) as [->|Hi].
      * by rewrite pc_set_eq.
      * rewrite pc_set_ne by done. apply H4.
  - intros i Hi. unfold set_cb. cbn. by rewrite pc_set_ne.
Qed.

Lemma arm_ok T timeout p w :
  world_ok R w -> is_Some (w_rls w !! p) ->
  ev R T cpu w (dequeue_arm timeout p cpu w) /\ waits cpu w (dequeue_arm timeout p cpu w) /\
  w_rls (dequeue_arm timeout p cpu w) = w_rls w /\ w_xmit (dequeue_arm timeout p cpu w) = w_xmit w /\
  (timeout <> 0 -> w_exiting w = false -> p ∈ active (dequeue_arm timeout p cpu w) cpu).
Proof.
  intros Hok Hp. unfold dequeue_arm. destruct (Z.eqb_spec timeout 0) as [->|Hto]; cbn [negb andb].
  { split; [by apply ev_refl|]. split; [done|]. split; [done|]. split; [done|]. by intros []. }
  destruct (w_exiting w) eqn:Hex; cbn [negb].
  { split; [by apply ev_refl|]. split; [done|]. split; [done|]. split; [done|]. discriminate. }
  set (l := if bool_decide _ then _ else _).
  assert (Hl : p ∈ l /\ active w cpu `prefix_of` l /\ NoDup l /\
    forall x, x ∈ l -> x ∈ active w cpu \/ x = p).
  { unfold l. pose proof (wok_nodup R w Hok cpu) as Hnd. unfold active in *.
    case_bool_decide as Hin; [auto|]. repeat split.
    - apply elem_of_app. right. by apply list_elem_of_singleton.
    - by eexists.
    - apply NoDup_app. split; [done|]. split; [|apply NoDup_singleton].
      intros x Hx ->%list_elem_of_singleton. done.
    - intros x [| ->%list_elem_of_singleton]%elem_of_app; auto. }
  destruct Hl as (Hpl & Hincl & Hnd & Hback). clearbody l.
  split; [apply ev_set_cb; [done|done|]|].
  - intros x Hx. apply Hback in Hx as [Hx| ->]; [by eapply wok_active|done].
  - split; [|split; [done|split; [done|]]].
    + split; unfold timed, active; cbn; rewrite pc_set_eq; cbn; auto.
    + intros _ _. unfold active. cbn. by rewrite pc_set_eq.
Qed.

Lemma dequeue_burst_ok w p rl :
  world_ok R w -> w_rls w !! p = Some rl ->
  exists timeout sum w' rl' sent,
    dequeue_burst p cpu w = Ok (timeout, sum, w') /\
    ev R (family p rl) cpu w w' /\ waits cpu w w' /\ w_rls w' !! p = Some rl' /\
    rl_txc rl' = rl_txc rl /\
    rlq_list (rl_queue rl cpu) = sent ++ rlq_list (rl_queue rl' cpu) /\
    handed_over cpu p rl sent w w' /\ (timeout = 0 -> rlq_list (rl_queue rl' cpu) = []).
Proof.
  intros Hok Hp. unfold dequeue_burst. rewrite (deref_ok _ _ _ Hp). cbn [mbind outcome_bind].
  destruct (rlq_list (rl_queue rl cpu)) as [|pkt rest] eqn:Hl.
  - exists 0, 0, w, rl, []. rewrite Hl. split; [done|]. split; [by apply ev_refl|].
    split; [done|]. split; [done|]. split; [done|]. split; [done|]. split; [|done].
    apply handed_over_nil; [done|done|]. intros t. exact (parent_ne R w p rl t Hok Hp).
  - set (size := u32 (skb_size pkt)).
    pose proof (ev_first R HR cpu (family p rl) w p rl size Hok Hp) as Hev.
    set (w1 := set_rl p (rl_set_first cpu size rl) w) in *.
    destruct (dequeue_loop_ok R HR cpu Hcpu (length (pkt :: rest)) w1 p
      (rl_set_first cpu size rl) pkt rest size) as
      (to & sum & w' & rl' & sent & E & Hev' & Hw & Hp' & Ht & Hl' & Hx & Hto).
    { apply Hev. } { apply lookup_insert_eq. } { by rewrite set_first_list. } { done. }
    exists to, sum, w', rl', sent. split; [exact E|].
    split; [by eapply ev_trans|].
    split; [etransitivity; [by eapply waits_cbs|done]|].
    split; [done|]. split; [done|]. split; [done|]. split; [|done].
    apply (handed_over_app cpu p rl [] sent w w1 w'); [|done].
    apply handed_over_nil; [done|intros q; apply qlist_set_ne|]. intros t. exact (parent_ne R w p rl t Hok Hp).
Qed.

Definition height (rl : iso_rl) : nat := match rl_txc rl with Some _ => 2 | None => 1 end.

(** [ev] keeps a queue that it does not touch served. *)
Lemma served_ev T w w' q :
  ev R T cpu w w' -> waits cpu w w' -> q ∉ T -> served q w -> served q w'.
Proof.
  intros [_ _ He _ Hd (l & _ & Hl)] Hw Hq Hs Hex rl' Hrl' Hne.
  rewrite He in Hex. apply (waits_in _ w); [done|].
  destruct (w_rls w !! q) as [rl|] eqn:Hrl; [|apply Hd in Hrl; congruence].
  destruct (Hl q rl Hrl) as (rl2 & Hrl2 & [_ _ Hf]). assert (rl2 = rl') as -> by congruence.
  apply (Hs Hex rl Hrl). rewrite <- Hf by auto. done.
Qed.

Lemma served_empty w p rl : w_rls w !! p = Some rl -> rlq_list (rl_queue rl cpu) = [] -> served p w.
Proof. intros Hp Hl _ rl' Hp' Hne. congruence. Qed.

(** Where the packets that left the queue of [p] are after the parent was
    triggered: what a leaf hands over queues up behind the parent's packets, and
    the parent sends from the front. *)
Definition delivered (p : rlptr) (rl : iso_rl) (sent : list sk_buff) (w w' : rl_world) : Prop :=
  match rl_txc rl with
  | None => w_xmit w' = w_xmit w ++ map (pair p) sent
  | Some t => Forall small sent -> exists out,
      w_xmit w' = w_xmit w ++ map (pair (inr t)) out /\
      map strip (qlist cpu w (inr t)) ++ map strip sent =
      map strip out ++ map strip (qlist cpu w' (inr t))
  end.

Lemma qlist_same w w' p : w_rls w' = w_rls w -> qlist cpu w' p = qlist cpu w p.
Proof. unfold qlist. by intros ->. Qed.

Lemma qlist_ev T w w' p : ev R T cpu w w' -> p ∉ T -> qlist cpu w' p = qlist cpu w p.
Proof.
  intros [_ _ _ _ Hd (l & _ & Hl)] Hp. unfold qlist. destruct (w_rls w !! p) as [rl|] eqn:E.
  - destruct (Hl p rl E) as (rl' & -> & [_ _ Hf]). by apply Hf; left.
  - apply Hd in E. by rewrite E.
Qed.

(** What a dequeue with enough depth does: it returns, keeps the device
    well-formed, serves its queue and keeps the parent's served; a prefix of the
    queue leaves, from a root to the driver. *)
Definition dequeue_spec (depth : nat) (w : rl_world) (p : rlptr) (rl : iso_rl) : Prop :=
  exists n w' rl' sent,
    iso_rl_dequeue depth p cpu w = Ok (n, w') /\
    ev R (family p rl) cpu w w' /\ waits cpu w w' /\ w_rls w' !! p = Some rl' /\
    rlq_list (rl_queue rl cpu) = sent ++ rlq_list (rl_queue rl' cpu) /\
    delivered p rl sent w w' /\
    served p w' /\ (forall t, rl_txc rl = Some t -> served (inr t) w -> served (inr t) w').

(** The attempt to borrow at the start. *)
Lemma borrow_phase_ok w p rl :
  world_ok R w -> w_rls w !! p = Some rl ->
  exists to w1 rl1,
    (if rlq_tokens (rl_queue rl cpu) <? u64 (rlq_first_pkt_size (rl_queue rl cpu))
     then w_borrow p cpu w else mret (0, w)) = Ok (to, w1) /\
    ev R [] cpu w w1 /\ waits cpu w w1 /\ w_xmit w1 = w_xmit w /\
    w_rls w1 !! p = Some rl1 /\ rl_txc rl1 = rl_txc rl /\
    rlq_list (rl_queue rl1 cpu) = rlq_list (rl_queue rl cpu).
Proof.
  intros Hok Hp.
  assert (exists to w1, (if rlq_tokens (rl_queue rl cpu) <? u64 (rlq_first_pkt_size (rl_queue rl cpu))
      then w_borrow p cpu w else mret (0, w)) = Ok (to, w1) /\
      ev R [] cpu w w1 /\ w_cbs w1 = w_cbs w /\ w_xmit w1 = w_xmit w)
    as (to & w1 & E & Hev & Hcb & Hx).
  { destruct (_ <? _); [by apply ev_borrow with (rl := rl)|].
    exists 0, w. split; [done|]. split; [by apply ev_refl|done]. }
  destruct (ev_rls _ _ _ _ _ Hev) as (l1 & _ & Hl1).
  destruct (Hl1 p rl Hp) as (rl1 & Hp1 & [_ Ht1 Hf1]).
  exists to, w1, rl1. split; [done|]. split; [done|]. split; [by eapply waits_cbs|].
  split; [done|]. split; [done|]. split; [done|]. apply Hf1. left. apply not_elem_of_nil.
Qed.

(** Triggering the parent's dequeue. *)
Lemma trigger_ok depth w p rl rl0 :
  world_ok R w -> w_rls w !! p = Some rl -> rl_txc rl = rl_txc rl0 ->
  (forall t g, rl_txc rl = Some t -> w_rls w !! inr t = Some g -> rl_txc g = None ->
    dequeue_spec depth w (inr t) g) ->
  exists w3 rl3, (match rl_txc rl with None => mret w
      | Some txc => '(_, w) ← iso_rl_dequeue depth (inr txc) cpu w; mret w end) = Ok w3 /\
    ev R (family p rl0) cpu w w3 /\ waits cpu w w3 /\ w_rls w3 !! p = Some rl3 /\
    rlq_list (rl_queue rl3 cpu) = rlq_list (rl_queue rl cpu) /\
    match rl_txc rl0 with
    | None => w3 = w
    | Some t => served (inr t) w3 /\ exists out, w_xmit w3 = w_xmit w ++ map (pair (inr t)) out /\
        qlist cpu w (inr t) = out ++ qlist cpu w3 (inr t)
    end.
Proof.
  intros Hok Hp Ht0 Hrec. assert (Hfam : family p rl0 = family p rl) by (unfold family; by rewrite Ht0).
  rewrite <- Ht0, Hfam. destruct (rl_txc rl) as [t|] eqn:Ht.
  - destruct (wok_parent R w Hok p rl t Hp Ht) as (g & Hg & Hgt).
    destruct (Hrec t g eq_refl Hg Hgt) as (n & w3 & g' & out & -> & Hev & Hw & Hg' & Hlg & Hdel & Hs & _).
    cbn [mbind outcome_bind]. exists w3. destruct (ev_rls _ _ _ _ _ Hev) as (l & _ & Hl).
    destruct (Hl p rl Hp) as (rl3 & Hp3 & [_ _ Hf]). exists rl3. split; [done|].
    assert (Hone : forall x, x ∈ family (inr t) g -> x = inr t).
    { intros x. unfold family. rewrite Hgt. apply list_elem_of_singleton. }
    split; [eapply ev_weaken; [|done]; intros x ->%Hone; by apply family_parent|].
    split; [done|]. split; [done|]. split; [apply Hf; left; intros ->%Hone; congruence|].
    split; [done|]. unfold delivered in Hdel. rewrite Hgt in Hdel. exists out. split; [done|].
    by rewrite (qlist_some cpu w _ g Hg), (qlist_some cpu w3 _ g' Hg').
  - exists w, rl. split; [done|]. split; [by apply ev_refl|]. done.
Qed.

Lemma iso_rl_dequeue_ok depth : forall w p rl,
  world_ok R w -> w_rls w !! p = Some rl -> (height rl <= depth)%nat -> dequeue_spec depth w p rl.
Proof.
  induction depth as [|depth IH]; intros w p rl Hok Hp Hdepth;
    [unfold height in Hdepth; destruct (rl_txc rl); lia|].
  unfold dequeue_spec. cbn [iso_rl_dequeue]. rewrite (deref_ok _ _ _ Hp). cbn [mbind outcome_bind].
  destruct (borrow_phase_ok w p rl Hok Hp) as (to & w1 & rl1 & -> & Hev1 & Hw1 & Hx1 & Hp1 & Ht1 & Hl1).
  cbn [mbind outcome_bind]. pose proof (ev_ok _ _ _ _ _ Hev1) as Hok1.
  assert (Hfam : family p rl1 = family p rl) by (unfold family; by rewrite Ht1).
  apply (ev_weaken R [] (family p rl)) in Hev1 as Hev1'; [|apply list_subseteq_nil].
  destruct (Z.eqb_spec to 0) as [->|Hto]; cbn [negb].
  - destruct (dequeue_burst_ok w1 p rl1 Hok1 Hp1) as
      (to2 & sum & w2 & rl2 & sent & -> & Hev2 & Hw2 & Hp2 & Ht2 & Hl2 & Hx2 & Hto2).
    cbn [mbind outcome_bind]. rewrite (deref_ok _ _ _ Hp2). cbn [mbind outcome_bind].
    rewrite Hfam in Hev2. rewrite Hl1 in Hl2. pose proof (ev_ok _ _ _ _ _ Hev2) as Hok2.
    destruct (trigger_ok depth w2 p rl2 rl Hok2 Hp2 ltac:(congruence)) as
      (w3 & rl3 & -> & Hev3 & Hw3 & Hp3 & Hl3 & Hpar).
    { intros t g Ht Hg Hgt. apply IH; [done|done|]. unfold height in *.
      rewrite Hgt. rewrite <- Ht1, <- Ht2, Ht in Hdepth. lia. }
    cbn [mbind outcome_bind].
    destruct (arm_ok (family p rl) to2 p w3 (ev_ok _ _ _ _ _ Hev3) ltac:(eauto))
      as (Hev4 & Hw4 & Hr4 & Hx4 & Ha4).
    eexists _, (dequeue_arm to2 p cpu w3), rl3, sent. split; [reflexivity|].
    split; [eauto using ev_trans|]. split; [by do 3 (etransitivity; [eassumption|])|].
    split; [by rewrite Hr4|]. split; [by rewrite Hl2, Hl3|]. split; [|split].
    + unfold delivered, handed_over in *. rewrite Ht1 in Hx2. destruct (rl_txc rl) as [t|].
      * destruct Hpar as [_ (out & Hx3 & Hq3)], Hx2 as [Hx2 Hq2]. intros Hsm. exists out.
        rewrite Hx4, Hx3, Hx2, Hx1. split; [done|]. rewrite (qlist_same w3 _ _ Hr4).
        rewrite <- (qlist_ev [] w w1 _ Hev1 (not_elem_of_nil _)), <- Hq2 by done.
        by rewrite Hq3, map_app.
      * subst w3. by rewrite Hx4, Hx2, Hx1.
    + intros Hex rl' Hp' Hne. rewrite (ev_exiting _ _ _ _ _ Hev4) in Hex.
      apply Ha4; [|done]. intros E. rewrite Hr4 in Hp'. assert (rl' = rl3) as -> by congruence.
      rewrite Hl3 in Hne. by apply Hne, Hto2.
    + intros t Ht _ Hex rl' Hp' Hne. apply (waits_in _ _ _ _ Hw4). rewrite (ev_exiting _ _ _ _ _ Hev4) in Hex.
      rewrite Hr4 in Hp'. rewrite Ht in Hpar. by apply (proj1 Hpar Hex rl').
  - destruct (arm_ok (family p rl) to p w1 Hok1 ltac:(eauto)) as (Hev2 & Hw2 & Hr2 & Hx2 & Ha2).
    eexists _, (dequeue_arm to p cpu w1), rl1, []. split; [reflexivity|].
    split; [by eapply ev_trans|]. split; [by etransitivity|]. rewrite Hr2.
    split; [done|]. split; [by rewrite Hl1|]. split; [|split].
    + unfold delivered. destruct (rl_txc rl) as [t|]; [|by rewrite Hx2, Hx1, app_nil_r].
      intros _. exists []. rewrite Hx2, Hx1, !app_nil_r. split; [done|].
      by rewrite (qlist_same w1 _ _ Hr2), (qlist_ev [] w w1 _ Hev1 (not_elem_of_nil _)).
    + intros Hex rl' _ _. apply Ha2; [done|]. by rewrite <- (ev_exiting _ _ _ _ _ Hev2).
    + intros t Ht Hs. pose proof (served_ev [] w w1 (inr t) Hev1 Hw1 (not_elem_of_nil _) Hs) as Hs1.
      intros Hex rl' Hp' Hne. rewrite Hr2 in Hp'. apply (waits_in _ _ _ _ Hw2).
      rewrite (ev_exiting _ _ _ _ _ Hev2) in Hex. by apply (Hs1 Hex rl').
Qed.
End WholeDequeue.
