(* ===== verification/Device.v ===== *)
(** * A device in operation: the tasklet and sequences of events

    Packets arrive from the stack, timers fire, tasklets run and the control
    plane sets rates, in any order and on any CPU.  The theorems here are about
    every such sequence: it never faults or loops, no queue with packets is
    forgotten, and a class never exceeds its rate. *)

From S2P Require Import Prelude Params Kernel Packet RateLimiter Dequeue.

Open Scope Z_scope.

(** ** The tasklet *)

Section Tasklet.
Context {K : Kernel} {KL : KernelLaws K} {P : params} {PO : params_ok P}.
Context {Env : Oracle} {CL : ClockLaws Env}.
Context (R : Z) (HR : 2 <= R < 2147483648) (cpu : nat) (Hcpu : cpu ∈ possible_cpus).

(** The loop of the tasklet stops at this entry. *)
Definition xmit_stop (w : rl_world) (first : option rlptr) (q : rlptr) (count sent : Z) : bool :=
  bool_decide (list_next q (active w cpu) = first) || (budget <? count + 1) ||
  (u32 (s32 (2 * ISO_MIN_BURST_BYTES)) <? sent).

(** A round of the tasklet, on its own: the head of the active list is taken off, refilled and
    served; [sent] counts the bytes. *)
Definition serve_head (sent : Z) (w : rl_world) : outcome (Z * rl_world) :=
  match active w cpu with
  | [] => mret (sent, w)
  | q :: _ =>
      w ← w_clock q (active_del q cpu w);
      '(n, w) ← iso_rl_dequeue levels q cpu w;
      mret (u32 (sent + n), w)
  end.

Fixpoint serve_heads (k : nat) (sent : Z) (w : rl_world) : outcome (Z * rl_world) :=
  match k with
  | O => mret (sent, w)
  | S k => '(sent, w) ← serve_head sent w; serve_heads k sent w
  end.

(** In [k] rounds from [w] the entries [l] have their turn, one after another: before round [i]
    the entries that had none yet are in front, in order. *)
Definition turns (k : nat) (sent : Z) (w : rl_world) (l : list rlptr) : Prop :=
  forall i, (i <= k)%nat -> exists si wi, serve_heads i sent w = Ok (si, wi) /\ drop i l `prefix_of` active wi cpu.

(** Why the loop ends after [k] rounds in [w']: the last round served the only entry there was, or
    the test of the loop at the next entry says so. *)
Definition stopped (k : nat) (first : option rlptr) (count sent : Z) (w : rl_world) (sent' : Z) (w' : rl_world) : Prop :=
  (exists j sj wj q, k = S j /\ serve_heads j sent w = Ok (sj, wj) /\ active wj cpu = [q]) \/
  match active w' cpu with
  | [] => True
  | q :: _ => xmit_stop w' first q (count + 2 * Z.of_nat k) sent' = true
  end.

Lemma filter_head (x : rlptr) l : NoDup (x :: l) -> filter (fun y => y <> x) (x :: l) = l.
Proof.
  intros [Hx Hnd]%NoDup_cons. rewrite filter_cons_False by tauto.
  clear Hnd. induction l as [|y l IH]; [done|]. apply not_elem_of_cons in Hx as [Hy Hx].
  rewrite filter_cons_True by done. by rewrite IH.
Qed.

(** A reading of the clock. *)
Lemma ev_read T w : world_ok R w -> ev R T cpu w {| w with w_reads := S (w_reads w) |}.
Proof.
  intros Hok. pose proof (ev_refl R T cpu w Hok) as [_ _ _ _ Hd Hr]. destruct Hok as [H1 H1' H2 H3 H4].
  split; [|cbn; lia|done|done|done|done]. split; [|done|done|done|done].
  intros p rl Hp. destruct (H1 p rl Hp) as [? ?]. split; [done|]. cbn.
  pose proof (clock_mono (w_reads w)). lia.
Qed.

(** One round: the head of the active list is taken off, refilled and served. *)
Lemma xmit_round_ok w q l :
  world_ok R w -> active w cpu = q :: l -> (forall p, served cpu p w) ->
  exists T n w1 w2, w_clock q (active_del q cpu w) = Ok w1 /\
    iso_rl_dequeue levels q cpu w1 = Ok (n, w2) /\ ev R T cpu w w2 /\
    l `prefix_of` active w2 cpu /\ (forall p, served cpu p w2).
Proof.
  intros Hok Hact Hs.
  pose proof (wok_nodup R w Hok cpu) as Hnd. rewrite Hact in Hnd.
  assert (Hdel : active (active_del q cpu w) cpu = l).
  { unfold active_del, set_cb, active. cbn [w_cbs]. rewrite pc_set_eq. cbn [cb_active_list].
    fold (active w cpu). rewrite Hact. by apply filter_head. }
  destruct (wok_active R w Hok cpu q) as [rl Hq]; [rewrite Hact; apply list_elem_of_here|].
  assert (Hev0 : ev R [] cpu w (active_del q cpu w)).
  { apply ev_set_cb; [done| |]; cbn [cb_active_list]; fold (active w cpu); rewrite Hact, filter_head by done.
    - by apply NoDup_cons in Hnd as [_ ?].
    - intros p Hp. apply (wok_active R w Hok cpu). rewrite Hact. by apply list_elem_of_further. }
  destruct (ev_clock R HR cpu [] (active_del q cpu w) q rl (ev_ok _ _ _ _ _ Hev0) Hq)
    as (w1 & E1 & Hev1 & Hcb1).
  pose proof (ev_trans _ _ _ _ _ _ Hev0 Hev1) as Hev01.
  destruct (ev_rls _ _ _ _ _ Hev01) as (l1 & _ & Hl1).
  destruct (Hl1 q rl Hq) as (rl1 & Hq1 & [_ _ _]).
  destruct (iso_rl_dequeue_ok R HR cpu Hcpu levels w1 q rl1 (ev_ok _ _ _ _ _ Hev1) Hq1) as
    (n & w2 & rl2 & sent & E2 & Hev2 & Hw2 & _ & _ & _ & Hsq & Hsp).
  { unfold height, levels. destruct (rl_txc rl1); lia. }
  exists (family q rl1), n, w1, w2. split; [done|]. split; [done|].
  split; [eapply ev_trans; [|done]; eapply ev_weaken; [|done]; apply list_subseteq_nil|].
  assert (Ha1 : active w1 cpu = l) by (unfold active; rewrite Hcb1; exact Hdel).
  split; [rewrite <- Ha1; apply Hw2|].
  assert (Hs1 : forall p, p <> q -> served cpu p w1).
  { intros p Hne Hex rlp Hp Hl. destruct (w_rls w !! p) as [rl0|] eqn:H0;
      [|apply (ev_dom _ _ _ _ _ Hev01) in H0; congruence].
    destruct (Hl1 p rl0 H0) as (rlp' & Hp' & [_ _ Hf]). assert (rlp' = rlp) as -> by congruence.
    rewrite (Hf cpu (or_introl (not_elem_of_nil p))) in Hl.
    rewrite (ev_exiting _ _ _ _ _ Hev01) in Hex. pose proof (Hs p Hex rl0 H0 Hl) as Hin.
    rewrite Ha1. rewrite Hact in Hin. by apply elem_of_cons in Hin as [?|?]. }
  intros p. destruct (decide (p = q)) as [->|Hne]; [done|].
  destruct (decide (p ∈ family q rl1)) as [Hin|Hin].
  - unfold family in Hin. apply elem_of_cons in Hin as [->|Hin]; [done|].
    destruct (rl_txc rl1) as [t|] eqn:Ht; [|by apply not_elem_of_nil in Hin].
    apply list_elem_of_singleton in Hin as ->. apply (Hsp t eq_refl). by apply Hs1.
  - eapply served_ev; [done|done|done|]. by apply Hs1.
Qed.

(** The first entry is always served. *)
Lemma xmit_first_runs w q l :
  active w cpu = q :: l -> NoDup (q :: l) -> xmit_stop w (Some q) q 0 0 = false.
Proof.
  intros Hact [Hq _]%NoDup_cons. unfold xmit_stop. rewrite Hact. cbn [list_next].
  rewrite decide_True by done. pok.
  rewrite (s32_small (2 * ISO_MIN_BURST_BYTES)), u32_small by lia.
  rewrite bool_decide_eq_false_2 by (destruct l; [done|]; intros [= ->]; apply Hq, list_elem_of_here).
  cbn [orb]. apply Z.ltb_ge. lia.
Qed.

Lemma turns_step k sent w q l l' n w1 w2 :
  active w cpu = q :: l -> w_clock q (active_del q cpu w) = Ok w1 -> iso_rl_dequeue levels q cpu w1 = Ok (n, w2) ->
  l `prefix_of` l' -> turns k (u32 (sent + n)) w2 l' -> turns (S k) sent w (q :: l).
Proof.
  intros Hact E1 E2 [app ->] Ht [|i] Hi; cbn [serve_heads]; [exists sent, w; by rewrite Hact|].
  destruct (Ht i ltac:(lia)) as (si & wi & Ei & Hpre). exists si, wi. unfold serve_head.
  rewrite Hact, E1. cbn [mbind outcome_bind]. rewrite E2. cbn [mbind outcome_bind mret outcome_ret]. split; [done|]. cbn [drop].
  etransitivity; [|exact Hpre]. rewrite drop_app. by eexists.
Qed.

(** The loop returns within its budget, and makes rounds until one of its tests ends it. *)
Lemma xmit_loop_ok fuel : forall first count sent w,
  world_ok R w -> (forall p, served cpu p w) -> 502 <= count + 2 * Z.of_nat fuel -> (0 < fuel)%nat ->
  exists T w' k sent',
    xmit_loop fuel cpu first (head (active w cpu)) count sent w = Ok w' /\ ev R T cpu w w' /\
    (forall p, served cpu p w') /\
    serve_heads k sent w = Ok (sent', w') /\ turns k sent w (active w cpu) /\ stopped k first count sent w sent' w' /\
    (k = 0%nat -> forall q, head (active w cpu) = Some q -> xmit_stop w first q count sent = true).
Proof.
  induction fuel as [|fuel IH]; intros first count sent w Hok Hs Hfuel Hpos; [lia|].
  assert (H0 : turns 0 sent w (active w cpu)) by (intros i Hi; assert (i = 0%nat) as -> by lia; by exists sent, w).
  destruct (active w cpu) as [|q l] eqn:Hact; cbn [head xmit_loop].
  { exists [], w, 0%nat, sent. split; [done|]. split; [by apply ev_refl|]. split; [done|]. split; [done|]. split; [done|].
    split; [right; by rewrite Hact|done]. }
  change (bool_decide (list_next q (cb_active_list (w_cbs w cpu)) = first) || (budget <? count + 1) ||
    (u32 (s32 (2 * ISO_MIN_BURST_BYTES)) <? sent)) with (xmit_stop w first q count sent).
  fold (active w cpu). destruct (xmit_stop w first q count sent) eqn:Estop.
  { exists [], w, 0%nat, sent. split; [done|]. split; [by apply ev_refl|]. split; [done|]. split; [done|]. split; [done|].
    split; [right; rewrite Hact; by rewrite Z.add_0_r|]. by intros _ q' [= <-]. }
  destruct (xmit_round_ok w q l Hok Hact Hs) as (T & n & w1 & w2 & E1 & E2 & Hev & Hpre & Hs2).
  assert (Eh : forall k, serve_heads (S k) sent w = serve_heads k (u32 (sent + n)) w2).
  { intros k. cbn [serve_heads]. unfold serve_head. rewrite Hact, E1. cbn [mbind outcome_bind]. rewrite E2. done. }
  rewrite E1. cbn [mbind outcome_bind]. rewrite E2. cbn [mbind outcome_bind].
  rewrite Hact. cbn [list_next]. rewrite decide_True by done. destruct l as [|q2 l].
  - cbn [head]. exists T, w2, 1%nat, (u32 (sent + n)). split; [by destruct fuel|]. split; [done|]. split; [done|]. split; [by rewrite Eh|].
    split; [|split; [left; by exists 0%nat, sent, w, q|discriminate]]. eapply turns_step; [done..| |].
    { apply Hpre. } intros i Hi. assert (i = 0%nat) as -> by lia. by exists (u32 (sent + n)), w2.
  - cbn [head]. destruct Hpre as [app Hpre]. assert (Hhd : Some q2 = head (active w2 cpu)) by (by rewrite Hpre). rewrite Hhd.
    assert (Hcount : count + 1 <= 500).
    { unfold xmit_stop in Estop. apply orb_false_iff in Estop as [Estop _].
      apply orb_false_iff in Estop as [_ Estop]. unfold budget in Estop. by apply Z.ltb_ge in Estop. }
    destruct (IH first (count + 1 + 1) (u32 (sent + n)) w2 (ev_ok _ _ _ _ _ Hev) Hs2) as
      (T2 & w' & k & sent' & -> & Hev2 & Hs' & Ek & Ht & Hst & _); [lia|lia|].
    exists (T ++ T2), w', (S k), sent'. split; [done|]. split; [eapply ev_trans; (eapply ev_weaken; [|done])|].
    { intros x Hx. apply elem_of_app. by left. } { intros x Hx. apply elem_of_app. by right. }
    split; [done|]. split; [by rewrite Eh|]. split; [eapply turns_step; [done..| |exact Ht]; by exists app|].
    split; [|discriminate]. destruct Hst as [(j & sj & wj & q' & -> & Ej & Hj)|Hst].
    { left. exists (S j), sj, wj, q'. by rewrite Eh. }
    right. replace (count + 2 * Z.of_nat (S k)) with (count + 1 + 1 + 2 * Z.of_nat k) by lia. exact Hst.
Qed.

(** The tasklet up to its loop. *)
Definition tasklet_start (w : rl_world) : rl_world :=
  let cb := w_cbs w cpu in
  let w := set_cb cpu {| cb with cb_xmit_timeout := false |} w in
  let cb := w_cbs w cpu in
  let now := clock (w_reads w) in
  set_cb cpu {| cb with cb_last := now; cb_avg_us := u64 (ktime_us_delta now (cb_last cb)) |}
    {| w with w_reads := S (w_reads w) |}.

(** The rounds of one run of the tasklet. *)
Definition rounds (w w' : rl_world) (k : nat) : Prop :=
  exists sent w1, serve_heads k 0 (tasklet_start w) = Ok (sent, w1) /\ turns k 0 (tasklet_start w) (active w cpu) /\
    stopped k (head (active w cpu)) 0 0 (tasklet_start w) sent w1 /\
    (w' = w1 \/ w' = set_cb cpu (let cb := w_cbs w1 cpu in {| cb with cb_timer := true |}) w1).

Lemma tasklet_ok w :
  world_ok R w -> (forall p, served cpu p w) ->
  exists T w', iso_rl_xmit_tasklet cpu w = Ok w' /\ ev R T cpu w w' /\ timed cpu w' /\
    (forall p, served cpu p w') /\
    (w_exiting w = false -> active w cpu <> [] -> exists k, (1 <= k)%nat /\ rounds w w' k).
Proof.
  intros Hok Hs. unfold rounds, iso_rl_xmit_tasklet.
  set (w1 := set_cb cpu _ w).
  assert (Ha1 : active w1 cpu = active w cpu)
    by (unfold active, w1, set_cb; cbn [w_cbs]; by rewrite pc_set_eq).
  assert (Hev1 : ev R [] cpu w w1).
  { apply ev_set_cb; [done|apply (wok_nodup R w Hok cpu)|apply (wok_active R w Hok cpu)]. }
  assert (Hs1 : forall p, served cpu p w1) by (intros p Hex; rewrite Ha1; by apply Hs).
  change (w_exiting w1) with (w_exiting w). destruct (w_exiting w) eqn:Hex.
  { exists [], w1. split; [done|]. split; [done|]. split; [|done]. intros He.
    change (w_exiting w1) with (w_exiting w) in He. congruence. }
  pose proof (ev_read [] w1 (ev_ok _ _ _ _ _ Hev1)) as Hev2.
  set (w2 := set_cb cpu _ {| w_rls := _ |}).
  assert (w2 = tasklet_start w) as -> by (unfold w2, tasklet_start, set_cb; cbn [w_exiting]; by rewrite Hex). set (w2 := tasklet_start w).
  assert (Ha2 : active w2 cpu = active w cpu)
    by (rewrite <- Ha1; unfold active, w2, tasklet_start, set_cb; cbn [w_cbs]; by rewrite pc_set_eq).
  assert (Hev3 : ev R [] cpu w w2).
  { eapply ev_trans; [exact Hev1|]. eapply ev_trans; [exact Hev2|]. pose proof (ev_ok _ _ _ _ _ Hev1) as Hok1.
    apply ev_set_cb; [apply Hev2|apply (wok_nodup R w1 Hok1 cpu)|apply (wok_active R w1 Hok1 cpu)]. }
  assert (Hs2 : forall p, served cpu p w2) by (intros p _; rewrite Ha2; by apply Hs).
  clearbody w2. fold (active w2 cpu).
  destruct (xmit_loop_ok xmit_fuel (head (active w2 cpu)) 0 0 w2 (ev_ok _ _ _ _ _ Hev3) Hs2) as
    (T & w3 & k & sent & -> & Hev4 & Hs3 & Ek & Ht & Hst & Hk); [unfold xmit_fuel; lia|unfold xmit_fuel; lia|].
  cbn [mbind outcome_bind].
  assert (Hev5 : ev R T cpu w w3)
    by (eapply ev_trans; [eapply ev_weaken; [|exact Hev3]; apply list_subseteq_nil|exact Hev4]).
  assert (Hk1 : active w cpu <> [] -> (1 <= k)%nat).
  { intros Hne. destruct k; [|lia]. rewrite Ha2 in Hk.
    destruct (active w cpu) as [|q l] eqn:Hact; [done|]. specialize (Hk eq_refl q eq_refl).
    pose proof (wok_nodup R w Hok cpu) as Hnd. rewrite Hact in Hnd.
    cbn [head] in Hk. rewrite (xmit_first_runs w2 q l Ha2 Hnd) in Hk. discriminate. }
  rewrite Ha2 in Ht, Hst. rewrite (ev_exiting _ _ _ _ _ Hev5), Hex, andb_true_r.
  case_bool_decide as Hnil; cbn [negb].
  - exists T, w3. split; [done|]. split; [done|]. split; [by intros _ Hne|]. split; [done|]. eauto 12.
  - pose proof (ev_ok _ _ _ _ _ Hev5) as Hok3. set (w4 := set_cb cpu _ w3).
    assert (Ha4 : active w4 cpu = active w3 cpu)
      by (unfold active, w4, set_cb; cbn [w_cbs]; by rewrite pc_set_eq).
    exists T, w4. split; [done|].
    split; [eapply ev_trans; [done|]; apply ev_set_cb;
      [done|apply (wok_nodup R w3 Hok3 cpu)|apply (wok_active R w3 Hok3 cpu)]|].
    split; [intros _ _; left; unfold w4, set_cb; cbn [w_cbs]; by rewrite pc_set_eq|].
    split; [intros p Hex4; rewrite Ha4; by apply Hs3|]. eauto 12.
Qed.

(** The timer runs whenever the tasklet leaves entries behind. *)
Lemma tasklet_rearms w w' :
  iso_rl_xmit_tasklet cpu w = Ok w' -> w_exiting w = false -> w_exiting w' = false ->
  active w' cpu <> [] -> cb_timer (w_cbs w' cpu) = true.
Proof.
  unfold iso_rl_xmit_tasklet. intros E Hex Hex' Hne.
  change (w_exiting (set_cb cpu _ w)) with (w_exiting w) in E. rewrite Hex in E.
  apply bind_ok in E as (w3 & _ & E).
  case_bool_decide as Hnil; cbn [negb andb] in E.
  - injection E as <-. done.
  - destruct (w_exiting w3) eqn:H3; cbn in E; injection E as <-; [congruence|].
    unfold set_cb. cbn [w_cbs]. by rewrite pc_set_eq.
Qed.
End Tasklet.

(** ** Events *)

Section Events.
Context {K : Kernel} {KL : KernelLaws K} {P : params} {PO : params_ok P}.
Context {Env : Oracle} {CL : ClockLaws Env}.

(** What happens to the rate limiters of a device: the end of [iso_tx], a timer,
    a tasklet, and the control plane's writes to a rate. *)
Inductive event :=
| Transmit (p : rlptr) (pkt : sk_buff) (cpu : nat)
| TimerFires (cpu : nat)
| TaskletRuns (cpu : nat)
| SetRate (p : rlptr) (rate t : Z).

(** [iso_rl_enqueue(rl, skb, cpu)] and [iso_rl_dequeue] of the same queue. *)
Definition tx_submit (p : rlptr) (pkt : sk_buff) (cpu : nat) (w : rl_world)
    : outcome (iso_verdict * rl_world) :=
  '(verdict, w) ← w_enqueue p pkt cpu w;
  '(_, w) ← iso_rl_dequeue levels p cpu w;
  mret (verdict, w).

Definition handle (w : rl_world) (e : event) : outcome rl_world :=
  match e with
  | Transmit p pkt cpu => '(_, w) ← tx_submit p pkt cpu w; mret w
  | TimerFires cpu => mret (iso_rl_timeout cpu w)
  | TaskletRuns cpu => iso_rl_xmit_tasklet cpu w
  | SetRate p rate t =>
      rl ← deref (w_rls w) p;
      mret (set_rl p {| rl with rl_rate := rate; rl_last_rate_update_time := t |} w)
  end.

Definition run (es : list event) (w : rl_world) : outcome rl_world := foldM handle es w.

(** Events name CPUs and rate limiters of the device, and rates up to [R]. *)
Definition event_ok (R : Z) (w : rl_world) (e : event) : Prop :=
  match e with
  | Transmit p pkt cpu => cpu ∈ possible_cpus /\ pkt_ok pkt /\ is_Some (w_rls w !! p)
  | TimerFires cpu | TaskletRuns cpu => cpu ∈ possible_cpus
  | SetRate p rate _ => is_Some (w_rls w !! p) /\ 0 <= rate <= R
  end.

Record device_inv (R : Z) (w : rl_world) : Prop := {
  dinv_ok : world_ok R w;
  dinv_served cpu p : cpu ∈ possible_cpus -> served cpu p w;
  dinv_timed cpu : cpu ∈ possible_cpus -> timed cpu w
}.

(** What every rate limiter of a device did between two states. *)
Record conforms (R : Z) (w w' : rl_world) : Prop := {
  conf_dom p : w_rls w' !! p = None <-> w_rls w !! p = None;
  conf_rls : exists l, w_xmit w' = w_xmit w ++ l /\
    forall p rl, w_rls w !! p = Some rl -> exists rl' n,
      w_rls w' !! p = Some rl' /\ rl_run R rl n rl' /\ rl_txc rl' = rl_txc rl /\
      (rl_txc rl = None -> n = bytes_of p l)
}.

Lemma ev_conforms R T cpu w w' : ev R T cpu w w' -> conforms R w w'.
Proof.
  intros [_ _ _ _ Hd (l & Hx & Hl)]. split; [done|]. exists l. split; [done|].
  intros p rl Hp. destruct (Hl p rl Hp) as (rl' & Hp' & [(n & Hn & En) Ht _]). eauto 10.
Qed.

#[global] Instance conforms_refl R : Reflexive (conforms R).
Proof.
  intros w. split; [done|]. exists []. split; [by rewrite app_nil_r|].
  intros p rl Hp. exists rl, 0. split; [done|]. split; [constructor|]. done.
Qed.

#[global] Instance conforms_trans R : Transitive (conforms R).
Proof.
  intros w1 w2 w3 [Hd1 (l1 & Hx1 & Hl1)] [Hd2 (l2 & Hx2 & Hl2)].
  split; [intros p; by rewrite Hd2|]. exists (l1 ++ l2). split; [by rewrite Hx2, Hx1, app_assoc|].
  intros p rl Hp. destruct (Hl1 p rl Hp) as (rl' & n & Hp' & Hn & Ht & En).
  destruct (Hl2 p rl' Hp') as (rl'' & m & Hp'' & Hm & Ht' & Em).
  exists rl'', (n + m). split; [done|]. split; [by eapply rl_run_app|]. split; [congruence|].
  intros HN. rewrite bytes_of_app, En by done. rewrite Em by congruence. done.
Qed.

(** What happens on one CPU does not strand the queues of another. *)
Lemma other_cpus_kept R T cpu w w' i :
  ev R T cpu w w' -> i <> cpu ->
  ((forall p, served i p w) -> forall p, served i p w') /\ (timed i w -> timed i w').
Proof.
  intros [_ _ He Hc Hd (l & _ & Hl)] Hi. unfold timed, served, active.
  rewrite (Hc i Hi), He. split; [|done]. intros Hs p Hex rl' Hp' Hne.
  destruct (w_rls w !! p) as [rl|] eqn:Hp; [|apply Hd in Hp; congruence].
  destruct (Hl p rl Hp) as (rl2 & Hp2 & [_ _ Hf]). assert (rl2 = rl') as -> by congruence.
  apply (Hs p Hex rl Hp). by rewrite <- (Hf i (or_intror Hi)).
Qed.

Lemma device_inv_ev R T cpu w w' :
  device_inv R w -> ev R T cpu w w' -> (forall p, served cpu p w') -> timed cpu w' ->
  device_inv R w'.
Proof.
  intros [Hok Hs Ht] Hev Hs' Ht'. split; [apply Hev| |].
  - intros i p Hi. destruct (decide (i = cpu)) as [->|Hne]; [done|].
    apply (proj1 (other_cpus_kept R T cpu w w' i Hev Hne)). intros q. by apply Hs.
  - intros i Hi. destruct (decide (i = cpu)) as [->|Hne]; [done|].
    apply (other_cpus_kept R T cpu w w' i Hev Hne). by apply Ht.
Qed.

Lemma tx_submit_ok R w p pkt cpu :
  2 <= R < 2147483648 -> device_inv R w -> cpu ∈ possible_cpus -> pkt_ok pkt ->
  is_Some (w_rls w !! p) ->
  exists v w', tx_submit p pkt cpu w = Ok (v, w') /\ device_inv R w' /\ conforms R w w'.
Proof.
  intros HR Hinv Hcpu Hpkt [rl Hp]. pose proof Hinv as [Hok Hs Ht]. unfold tx_submit.
  destruct (ev_enqueue R HR cpu [p] w p rl pkt Hok Hp (list_elem_of_here _ _) Hpkt) as
    (v & w1 & -> & Hev1 & Hcb1 & Hx1 & Hother).
  cbn [mbind outcome_bind]. destruct (ev_rls _ _ _ _ _ Hev1) as (l1 & _ & Hl1).
  destruct (Hl1 p rl Hp) as (rl1 & Hp1 & [_ Ht1 _]).
  pose proof (waits_cbs R cpu [p] w w1 Hev1 Hcb1) as Hw1.
  assert (Hs1 : forall q, q <> p -> served cpu q w1).
  { intros q Hq. eapply served_ev; [exact Hev1|done| |by apply Hs].
    by rewrite list_elem_of_singleton. }
  destruct (iso_rl_dequeue_ok R HR cpu Hcpu levels w1 p rl1 (ev_ok _ _ _ _ _ Hev1) Hp1) as
    (n & w2 & rl2 & sent & -> & Hev2 & Hw2 & _ & _ & _ & Hsp & Hsg).
  { unfold height, levels. destruct (rl_txc rl1); lia. }
  cbn [mbind outcome_bind]. exists v, w2. split; [done|].
  assert (Hev : ev R (family p rl1) cpu w w2).
  { eapply ev_trans; [|done]. eapply ev_weaken; [|done].
    intros x ->%list_elem_of_singleton. apply family_self. }
  split; [|by eapply ev_conforms].
  eapply device_inv_ev; [done|done| |by apply Hw2, Hw1, Ht].
  intros q. destruct (decide (q = p)) as [->|Hne]; [done|].
  destruct (decide (q ∈ family p rl1)) as [Hin|Hin]; [|eapply served_ev; [exact Hev2|done|done|by apply Hs1]].
  unfold family in Hin. apply elem_of_cons in Hin as [->|Hin]; [done|].
  destruct (rl_txc rl1) as [t|] eqn:Etxc; [|by apply not_elem_of_nil in Hin].
  apply list_elem_of_singleton in Hin as ->. apply (Hsg t eq_refl). by apply Hs1.
Qed.

(** The way of a packet that is offered to a leaf: what it adds to the queue leaves in order, and
    what left was handed over to the parent. *)
Definition submitted (r : loc) (pkt : sk_buff) (cpu : nat) (v : iso_verdict) (w w' : rl_world) : Prop :=
  exists rl rl' added moved,
    w_rls w !! inl r = Some rl /\ w_rls w' !! inl r = Some rl' /\
    admitted (rl_queue rl cpu) pkt v added /\
    rlq_list (rl_queue rl cpu) ++ added = moved ++ rlq_list (rl_queue rl' cpu) /\
    delivered cpu (inl r) rl moved w w'.

Lemma tx_submit_flow R w r pkt cpu v w' :
  2 <= R < 2147483648 -> world_ok R w -> cpu ∈ possible_cpus -> pkt_ok pkt ->
  tx_submit (inl r) pkt cpu w = Ok (v, w') -> submitted r pkt cpu v w w'.
Proof.
  intros HR Hok Hcpu Hpkt E. unfold tx_submit in E. apply bind_ok in E as ([v1 w1] & E1 & E).
  destruct (w_rls w !! inl r) as [rl|] eqn:Hp; [|by unfold w_enqueue, deref in E1; rewrite Hp in E1].
  destruct (ev_enqueue R HR cpu [inl r] w (inl r) rl pkt Hok Hp (list_elem_of_here _ _) Hpkt) as
    (v2 & w2 & E2 & Hev & _ & Hx & _ & rl1 & E3 & Hp1).
  rewrite E2 in E1. injection E1 as -> ->.
  destruct (enqueue_admits _ _ rl pkt cpu v1 rl1 (wok_queue R w Hok (inl r) rl cpu Hp) Hpkt E3) as (added & Ha & El).
  destruct (ev_rls _ _ _ _ _ Hev) as (l & _ & Hl). destruct (Hl _ rl Hp) as (rl2 & Hp2 & [_ Ht _]).
  assert (rl2 = rl1) as -> by congruence.
  destruct (iso_rl_dequeue_ok R HR cpu Hcpu levels w1 (inl r) rl1 (ev_ok _ _ _ _ _ Hev) Hp1) as
    (n & w3 & rl' & moved & E4 & _ & _ & Hp' & Hl' & Hd & _).
  { unfold height, levels. destruct (rl_txc rl1); lia. }
  rewrite E4 in E. injection E as <- <-.
  exists rl, rl', added, moved. split; [done|]. split; [done|]. split; [done|]. split; [by rewrite <-El|].
  unfold delivered in *. rewrite Ht, Hx in Hd. destruct (rl_txc rl) as [t|]; [|done].
  by rewrite (qlist_ev R cpu [inl r] w w1 (inr t) Hev) in Hd by (by rewrite list_elem_of_singleton).
Qed.

Lemma timeout_ok R w cpu :
  device_inv R w -> device_inv R (iso_rl_timeout cpu w) /\ conforms R w (iso_rl_timeout cpu w).
Proof.
  intros Hinv. pose proof Hinv as [Hok Hs Ht]. unfold iso_rl_timeout. set (w' := set_cb cpu _ w).
  assert (Hev : ev R [] cpu w w')
    by (apply ev_set_cb; [done|apply (wok_nodup R w Hok cpu)|apply (wok_active R w Hok cpu)]).
  assert (Ha : forall i, active w' i = active w i).
  { intros i. unfold active, w', set_cb. cbn [w_cbs]. unfold pc_set.
    by destruct (Nat.eqb_spec i cpu) as [->|]. }
  split; [|by eapply ev_conforms]. split; [apply Hev| |].
  - intros i p Hi Hex. rewrite Ha. by apply Hs.
  - intros i Hi. destruct (decide (i = cpu)) as [->|Hne].
    + intros _ _. right. unfold w', set_cb. cbn [w_cbs]. by rewrite pc_set_eq.
    + apply (other_cpus_kept R [] cpu w w' i Hev Hne). by apply Ht.
Qed.

Lemma handle_ok R w e :
  2 <= R < 2147483648 -> device_inv R w -> event_ok R w e ->
  exists w', handle w e = Ok w' /\ device_inv R w' /\ conforms R w w'.
Proof.
  intros HR Hinv He. destruct e as [p pkt cpu|cpu|cpu|p rate t]; cbn [handle event_ok] in *.
  - destruct He as (Hcpu & Hpkt & Hp).
    destruct (tx_submit_ok R w p pkt cpu HR Hinv Hcpu Hpkt Hp) as (v & w' & -> & H1 & H2).
    cbn. eauto.
  - eexists. split; [reflexivity|]. by apply timeout_ok.
  - pose proof Hinv as [Hok Hs Ht].
    destruct (tasklet_ok R HR cpu He w Hok (fun p => Hs cpu p He)) as (T & w' & -> & Hev & Ht' & Hs' & _).
    exists w'. split; [done|]. split; [by eapply device_inv_ev|by eapply ev_conforms].
  - destruct He as [[rl Hp] Hr]. rewrite (deref_ok _ _ _ Hp). cbn [mbind outcome_bind].
    eexists. split; [reflexivity|]. pose proof Hinv as [Hok Hs Ht]. set (w' := set_rl _ _ _).
    assert (Hev : forall cpu, ev R [] cpu w w').
    { intros cpu. destruct (wok_rl R w Hok p rl Hp) as [_ Hl].
      eapply ev_step with (p := p) (l := []) (n := 0)
        (rl' := {| rl with rl_rate := rate; rl_last_rate_update_time := t |}); try done.
      - by apply step_set_rate.
      - cbn. lia.
      - intros i. exact (wok_queue R w Hok p rl i Hp).
      - cbn. by rewrite app_nil_r. }
    split; [|by eapply (ev_conforms R [] 0%nat)]. split; [apply (Hev 0%nat)| |done].
    intros cpu q Hcpu. eapply served_ev; [apply Hev|by eapply waits_cbs|apply not_elem_of_nil|by apply Hs].
Qed.

Lemma event_ok_conforms R w w' e : conforms R w w' -> event_ok R w e -> event_ok R w' e.
Proof.
  intros [_ (l & _ & Hl)]. assert (Hlive : forall p, is_Some (w_rls w !! p) -> is_Some (w_rls w' !! p)).
  { intros p [rl Hp]. destruct (Hl p rl Hp) as (rl' & n & Hp' & _). eauto. }
  destruct e; cbn; intros He; [destruct He as (? & ? & ?)| | |destruct He]; auto.
Qed.

Lemma run_ok R es : forall w,
  2 <= R < 2147483648 -> device_inv R w -> Forall (event_ok R w) es ->
  exists w', run es w = Ok w' /\ device_inv R w' /\ conforms R w w'.
Proof.
  induction es as [|e es IH]; intros w HR Hinv He; [by exists w|].
  apply Forall_cons in He as [He Hes]. cbn. fold (run es).
  destruct (handle_ok R w e HR Hinv He) as (w1 & -> & Hinv1 & Hc1). cbn [mbind outcome_bind].
  destruct (IH w1 HR Hinv1) as (w2 & E & Hinv2 & Hc2).
  { eapply Forall_impl; [done|]. intros x. by apply event_ok_conforms. }
  exists w2. split; [exact E|]. split; [done|]. by etransitivity.
Qed.
End Events.

(** ** Theorems *)

Section Theorems.
Context {K : Kernel} {KL : KernelLaws K} {P : params} {PO : params_ok P}.
Context {Env : Oracle} {CL : ClockLaws Env}.

(** C2: Every sequence of events runs to completion (no fault, no loop out of fuel), keeps the
    device invariant, and afterwards every queue that holds packets is on the active list of its
    CPU and the timer is armed or the tasklet scheduled, unless the module is exiting. *)
Theorem device_never_strands (R : Z) (w : rl_world) (es : list event) :
  2 <= R < 2147483648 -> device_inv R w -> Forall (event_ok R w) es ->
  exists w', run es w = Ok w' /\ device_inv R w' /\
    forall cpu p rl, cpu ∈ possible_cpus -> w_exiting w' = false ->
      w_rls w' !! p = Some rl -> rlq_list (rl_queue rl cpu) <> [] ->
      p ∈ cb_active_list (w_cbs w' cpu) /\
      (cb_timer (w_cbs w' cpu) = true \/ cb_xmit_timeout (w_cbs w' cpu) = true).
Proof.
  intros HR Hinv He. destruct (run_ok R es w HR Hinv He) as (w' & E & Hinv' & _).
  exists w'. split; [done|]. split; [done|]. intros cpu p rl Hcpu Hex Hp Hne.
  pose proof (dinv_served R w' Hinv' cpu p Hcpu Hex rl Hp Hne) as Hin. split; [exact Hin|].
  apply (dinv_timed R w' Hinv' cpu Hcpu Hex). intros E'. rewrite E' in Hin. by apply not_elem_of_nil in Hin.
Qed.

(** C1: Over any sequence of packets, timers, tasklets and rate changes on any CPUs, the bytes
    that a class's rate limiter gives to the driver are at most the tokens it had at the start
    plus the highest rate R set for it times the elapsed time: 8000 * bytes <= 8000 * tokens + R
    (Mb/s) * elapsed (ns). *)
Theorem class_rate_conformance (R : Z) (w : rl_world) (es : list event) (p : rlptr) (rl : iso_rl) :
  2 <= R < 2147483648 -> device_inv R w -> Forall (event_ok R w) es ->
  w_rls w !! p = Some rl -> rl_txc rl = None ->
  exists w' l, run es w = Ok w' /\ w_xmit w' = w_xmit w ++ l /\
    8000 * bytes_of p l <=
      8000 * rl_pool rl + R * (clock (w_reads w') - rl_last_update_time rl).
Proof.
  intros HR Hinv He Hp Hroot. destruct (run_ok R es w HR Hinv He) as (w' & E & Hinv' & [_ (l & Hx & Hl)]).
  destruct (Hl p rl Hp) as (rl' & n & Hp' & Hn & _ & En).
  exists w', l. split; [done|]. split; [done|]. rewrite <- En by done.
  pose proof (rl_run_conformance R rl rl' n HR (proj1 (wok_rl R w (dinv_ok R w Hinv) p rl Hp)) Hn).
  destruct (wok_rl R w' (dinv_ok R w' Hinv') p rl' Hp') as [_ Hlast]. nia.
Qed.

(** Dequeueing a class's queue returns, and the packets that leave it are a prefix of the queue,
    given to the driver in order. *)
Theorem root_dequeue_fifo (R : Z) (w : rl_world) (p : rlptr) (rl : iso_rl) (cpu : nat) :
  2 <= R < 2147483648 -> world_ok R w -> cpu ∈ possible_cpus ->
  w_rls w !! p = Some rl -> rl_txc rl = None ->
  exists n w' rl' sent, iso_rl_dequeue levels p cpu w = Ok (n, w') /\
    w_rls w' !! p = Some rl' /\
    rlq_list (rl_queue rl cpu) = sent ++ rlq_list (rl_queue rl' cpu) /\
    w_xmit w' = w_xmit w ++ map (pair p) sent.
Proof.
  intros HR Hok Hcpu Hp Hroot.
  destruct (iso_rl_dequeue_ok R HR cpu Hcpu levels w p rl Hok Hp) as
    (n & w' & rl' & sent & E & _ & _ & Hp' & Hl & Hx & _).
  { unfold height, levels. rewrite Hroot. lia. }
  exists n, w', rl', sent. split; [done|]. split; [done|]. split; [done|].
  unfold delivered in Hx. by rewrite Hroot in Hx.
Qed.

(** C5: A run of the tasklet on a non-empty active list is a sequence of k >= 1 rounds, each of
    which takes the head off the list, refills its tokens and serves it: before round i the
    first i entries have had their turn and the rest are in front, in order. It stops only
    because the last round served the only entry, or because the test of the loop says so (the
    next entry is the first one again, the budget of 500, or the limit on the bytes); if entries
    remain, the timer is armed. *)
Theorem tasklet_round_robin (R : Z) (w : rl_world) (cpu : nat) :
  2 <= R < 2147483648 -> device_inv R w -> cpu ∈ possible_cpus ->
  w_exiting w = false -> cb_active_list (w_cbs w cpu) <> [] ->
  exists w' k, iso_rl_xmit_tasklet cpu w = Ok w' /\ (1 <= k)%nat /\ rounds cpu w w' k /\
    (cb_active_list (w_cbs w' cpu) <> [] -> cb_timer (w_cbs w' cpu) = true).
Proof.
  intros HR Hinv Hcpu Hex Hne. pose proof Hinv as [Hok Hs Ht].
  destruct (tasklet_ok R HR cpu Hcpu w Hok (fun p => Hs cpu p Hcpu)) as
    (T & w' & E & Hev & Ht' & Hs' & Hk).
  destruct (Hk Hex Hne) as (k & Hk1 & Hr). exists w', k. split; [done|]. split; [done|]. split; [done|].
  apply (tasklet_rearms cpu w w' E Hex). by rewrite (ev_exiting _ _ _ _ _ Hev).
Qed.

(** C3: Dequeueing a destination's queue of packets that are not segmented returns, moves a
    prefix of the queue behind the packets of the class's queue, and the class sends from the
    front: nothing is lost, duplicated or reordered between the two levels and the driver (up to
    the ECN mark in the header). *)
Theorem hierarchy_fifo (R : Z) (w : rl_world) (p : rlptr) (rl g : iso_rl) (t : loc) (cpu : nat) :
  2 <= R < 2147483648 -> world_ok R w -> cpu ∈ possible_cpus ->
  w_rls w !! p = Some rl -> rl_txc rl = Some t -> w_rls w !! inr t = Some g ->
  Forall small (rlq_list (rl_queue rl cpu)) ->
  exists n w' rl' g' moved out, iso_rl_dequeue levels p cpu w = Ok (n, w') /\
    w_rls w' !! p = Some rl' /\ w_rls w' !! inr t = Some g' /\
    rlq_list (rl_queue rl cpu) = moved ++ rlq_list (rl_queue rl' cpu) /\
    w_xmit w' = w_xmit w ++ map (pair (inr t)) out /\
    map strip (rlq_list (rl_queue g cpu)) ++ map strip moved =
    map strip out ++ map strip (rlq_list (rl_queue g' cpu)).
Proof.
  intros HR Hok Hcpu Hp Ht Hg Hsm.
  destruct (iso_rl_dequeue_ok R HR cpu Hcpu levels w p rl Hok Hp) as
    (n & w' & rl' & moved & E & Hev & _ & Hp' & Hl & Hx & _).
  { unfold height, levels. rewrite Ht. lia. }
  destruct (ev_rls _ _ _ _ _ Hev) as (l & _ & Hrls). destruct (Hrls _ g Hg) as (g' & Hg' & _).
  unfold delivered in Hx. rewrite Ht, (qlist_some cpu w _ g Hg), (qlist_some cpu w' _ g' Hg') in Hx.
  rewrite Hl in Hsm. destruct (Hx (proj1 (proj1 (Forall_app _ _ _) Hsm))) as (out & Hxm & Hq).
  exists n, w', rl', g', moved, out. done.
Qed.

(** C4: After any sequence of events the byte count of every queue is the sum of the sizes of
    its packets, and at most the queue limit plus one packet; so the count never underflows when
    packets leave. *)
Theorem queue_accounting (R : Z) (w : rl_world) (es : list event) :
  2 <= R < 2147483648 -> device_inv R w -> Forall (event_ok R w) es ->
  exists w', run es w = Ok w' /\
    forall p rl cpu, w_rls w' !! p = Some rl ->
      rlq_bytes_enqueued (rl_queue rl cpu) = sumZ (map skb_size (rlq_list (rl_queue rl cpu))) /\
      0 <= rlq_bytes_enqueued (rl_queue rl cpu) <= ISO_MAX_QUEUE_LEN_BYTES + MAX_SKB_BYTES.
Proof.
  intros HR Hinv He. destruct (run_ok R es w HR Hinv He) as (w' & E & Hinv' & _).
  exists w'. split; [done|]. intros p rl cpu Hp.
  pose proof (wok_queue R w' (dinv_ok R w' Hinv') p rl cpu Hp) as Hq.
  pose proof (queue_ok_range _ Hq). destruct Hq. split; [done|]. lia.
Qed.
End Theorems.

(** ** A device with one class and one destination *)

Definition ex_env : Oracle := {|
  clock n := Z.min (1000000 * Z.of_nat n) 2305843009213693952;
  trylock _ := true
|}.

#[export] Instance ex_env_laws : ClockLaws ex_env.
Proof. split; intros n; cbn [clock ex_env]; lia. Qed.

Definition ex_queue0 : iso_rl_queue := {|
  rlq_list := []; rlq_first_pkt_size := 0; rlq_bytes_enqueued := 0; rlq_bytes_xmit := 0;
  rlq_feedback_backlog := 0; rlq_tokens := 0 |}.

Definition ex_rl (txc : option loc) (l : list sk_buff) : iso_rl := {|
  rl_rate := 500; rl_ip := 0; rl_total_tokens := 15000; rl_accum_xmit := 0; rl_accum_enqueued := 0;
  rl_last_update_time := 0; rl_last_rate_update_time := 0;
  rl_queue := pc_set 1 {| ex_queue0 with rlq_list := l;
                          rlq_bytes_enqueued := sumZ (map skb_size l) |} (fun _ => ex_queue0);
  rl_txc := txc |}.

Definition ex_cb0 : iso_rl_cb := {|
  cb_timer := false; cb_xmit_timeout := false; cb_active_list := []; cb_last := 0; cb_avg_us := 0;
  cb_tx_bytes := 0 |}.

(** A packet waits on CPU 1 in the queue of the destination; the rate limiter at 5
    is in stock. *)
Definition ex_world : rl_world := {|
  w_rls := <[inr 1%positive := ex_rl None []]> (<[inl 2%positive := ex_rl (Some 1%positive) [ex_skb]]>
             (<[inl 5%positive := ex_rl (Some 1%positive) []]> ∅));
  w_cbs := pc_set 1 {| ex_cb0 with cb_timer := true; cb_active_list := [inl 2%positive] |} (fun _ => ex_cb0);
  w_xmit := []; w_reads := 1; w_tries := 0; w_exiting := false |}.

Lemma ex_world_lookup p rl :
  w_rls ex_world !! p = Some rl ->
  p = inr 1%positive /\ rl = ex_rl None [] \/
  p = inl 2%positive /\ rl = ex_rl (Some 1%positive) [ex_skb] \/
  p = inl 5%positive /\ rl = ex_rl (Some 1%positive) [].
Proof.
  cbn [w_rls ex_world]. rewrite !lookup_insert_Some, lookup_empty.
  intros [[-> <-]|(_ & [[-> <-]|(_ & [[-> <-]|(_ & H)])])]; [auto|auto|auto|discriminate].
Qed.

Lemma ex_queue_ok txc l i :
  Forall pkt_ok l -> sumZ (map skb_size l) <= 131072 ->
  queue_ok (P := default_params) (rl_queue (ex_rl txc l) i) /\
  is_u64 (rlq_tokens (rl_queue (ex_rl txc l) i)).
Proof.
  intros Hl Hs. unfold ex_rl. cbn [rl_queue]. unfold pc_set.
  destruct (i =? 1)%nat; (split; [split|unfold is_u64; cbn; lia]); cbn [rlq_list rlq_bytes_enqueued ex_queue0];
    try done; unfold MAX_SKB_BYTES; cbn; lia.
Qed.

Lemma ex_world_ok : world_ok (P := default_params) (Env := ex_env) 10000 ex_world.
Proof.
  assert (Hq : forall p rl i, w_rls ex_world !! p = Some rl ->
    queue_ok (P := default_params) (rl_queue rl i) /\ is_u64 (rlq_tokens (rl_queue rl i))).
  { intros p rl i [[_ ->]|[[_ ->]|[_ ->]]]%ex_world_lookup; apply ex_queue_ok;
      first [done|vm_compute; discriminate|by repeat constructor]. }
  split.
  - intros p rl Hp. split; [split|].
    + apply ex_world_lookup in Hp as [[_ ->]|[[_ ->]|[_ ->]]]; cbn; lia.
    + apply ex_world_lookup in Hp as [[_ ->]|[[_ ->]|[_ ->]]]; cbn; lia.
    + intros i. by eapply Hq.
    + apply ex_world_lookup in Hp as [[_ ->]|[[_ ->]|[_ ->]]]; cbn; lia.
  - intros p rl i Hp. by eapply Hq.
  - intros p rl t [[-> ->]|[[-> ->]|[-> ->]]]%ex_world_lookup; [discriminate| |]; intros [= <-];
      by exists (ex_rl None []).
  - intros cpu p. unfold active, ex_world, pc_set. cbn [w_cbs]. destruct (cpu =? 1)%nat; cbn [cb_active_list ex_cb0].
    + intros ->%list_elem_of_singleton. done.
    + by intros ?%not_elem_of_nil.
  - intros cpu. unfold active, ex_world, pc_set. cbn [w_cbs]. destruct (cpu =? 1)%nat; cbn [cb_active_list ex_cb0].
    + apply NoDup_singleton.
    + constructor.
Qed.

Lemma ex_world_inv : device_inv (K := ref_kernel) (P := default_params) (Env := ex_env) 10000 ex_world.
Proof.
  split; [apply ex_world_ok| |].
  - intros cpu p _ _ rl [[-> ->]|[[-> ->]|[-> ->]]]%ex_world_lookup; unfold active, ex_world, ex_rl, pc_set;
      cbn [rl_queue w_cbs]; destruct (cpu =? 1)%nat; cbn [rlq_list ex_queue0 cb_active_list]; try done.
    intros _. by apply list_elem_of_singleton.
  - intros cpu _ _. unfold active, ex_world, pc_set. cbn [w_cbs].
    destruct (cpu =? 1)%nat; cbn [cb_active_list ex_cb0]; [by left|done].
Qed.

(** Rounds of the timer and the tasklet: each limiter first finds out the size of
    its packet, then borrows tokens for it; the destination hands the packet to
    the class, the class to the driver. *)
Definition ex_events : list event :=
  [TimerFires 1; TaskletRuns 1; TimerFires 1; TaskletRuns 1; TimerFires 1; TaskletRuns 1;
   TimerFires 1; TaskletRuns 1; SetRate (inr 1%positive) 9000 77;
   Transmit (inl 2%positive) ex_skb 0].

Lemma ex_events_ok : Forall (event_ok (K := ref_kernel) 10000 ex_world) ex_events.
Proof.
  assert (H1 : (1%nat ∈ possible_cpus (Kernel := ref_kernel))) by (apply (bool_decide_unpack _); done).
  assert (H0 : (0%nat ∈ possible_cpus (Kernel := ref_kernel))) by (apply (bool_decide_unpack _); done).
  repeat constructor; try done; try (vm_compute; discriminate); eexists; vm_compute; reflexivity.
Qed.

Lemma device_never_strands_witness :
  exists w', run (K := ref_kernel) (P := default_params) (Env := ex_env) ex_events ex_world = Ok w' /\
    device_inv (K := ref_kernel) (P := default_params) (Env := ex_env) 10000 w'.
Proof.
  destruct (device_never_strands (K := ref_kernel) (P := default_params) (Env := ex_env)
    10000 ex_world ex_events ltac:(lia) ex_world_inv ex_events_ok) as (w' & H1 & H2 & _).
  exists w'. split; [exact H1|exact H2].
Defined.

Lemma class_rate_conformance_witness :
  exists w' l, run (K := ref_kernel) (P := default_params) (Env := ex_env) ex_events ex_world = Ok w' /\
    w_xmit w' = l /\ map (fun x => strip x.2) l = [strip ex_skb] /\
    8000 * bytes_of (inr 1%positive) l <= 8000 * 15000 + 10000 * clock (Oracle := ex_env) (w_reads w').
Proof.
  destruct (class_rate_conformance (K := ref_kernel) (P := default_params) (Env := ex_env)
    10000 ex_world ex_events (inr 1%positive) (ex_rl None []) ltac:(lia) ex_world_inv ex_events_ok
    eq_refl eq_refl) as (w' & l & H1 & H2 & H3).
  exists w', l. split; [exact H1|]. split; [exact H2|]. split.
  - assert (E : (fun w => map (fun x => strip x.2) (w_xmit w)) <$>
      match run (K := ref_kernel) (P := default_params) (Env := ex_env) ex_events ex_world with
      | Ok w => Some w | Oops _ => None end = Some [strip ex_skb]) by (vm_compute; reflexivity).
    rewrite H1 in E. cbn [fmap option_fmap option_map] in E. injection E as E. rewrite H2 in E. exact E.
  - cbn [rl_last_update_time ex_rl] in H3. change (rl_pool (ex_rl None [])) with 15000 in H3. lia.
Defined.

Lemma root_dequeue_fifo_witness :
  exists n w', iso_rl_dequeue (K := ref_kernel) (P := default_params) (Env := ex_env)
    levels (inr 1%positive) 1%nat ex_world = Ok (n, w').
Proof.
  destruct (root_dequeue_fifo (K := ref_kernel) (P := default_params) (Env := ex_env)
    10000 ex_world (inr 1%positive) (ex_rl None []) 1%nat ltac:(lia) ex_world_ok
    ltac:(apply (bool_decide_unpack _); vm_compute; exact I) eq_refl eq_refl) as (n & w' & rl' & sent & H & _).
  exists n, w'. exact H.
Defined.

Lemma tasklet_round_robin_witness :
  exists w' k, iso_rl_xmit_tasklet (K := ref_kernel) (P := default_params) (Env := ex_env) 1%nat ex_world = Ok w' /\
    (1 <= k)%nat /\ rounds (K := ref_kernel) (P := default_params) (Env := ex_env) 1%nat ex_world w' k.
Proof.
  destruct (tasklet_round_robin (K := ref_kernel) (P := default_params) (Env := ex_env)
    10000 ex_world 1%nat ltac:(lia) ex_world_inv
    ltac:(apply (bool_decide_unpack _); vm_compute; exact I) eq_refl ltac:(discriminate))
    as (w' & k & H1 & H2 & H3 & _).
  exists w', k. split; [exact H1|]. split; [exact H2|exact H3].
Defined.

Lemma hierarchy_fifo_witness :
  exists n w' moved, iso_rl_dequeue (K := ref_kernel) (P := default_params) (Env := ex_env)
    levels (inl 2%positive) 1%nat ex_world = Ok (n, w') /\ [ex_skb] = moved ++ qlist 1%nat w' (inl 2%positive).
Proof.
  destruct (hierarchy_fifo (K := ref_kernel) (P := default_params) (Env := ex_env)
    10000 ex_world (inl 2%positive) (ex_rl (Some 1%positive) [ex_skb]) (ex_rl None []) 1%positive 1%nat
    ltac:(lia) ex_world_ok ltac:(apply (bool_decide_unpack _); vm_compute; exact I)
    eq_refl eq_refl eq_refl) as (n & w' & rl' & g' & moved & out & H1 & H2 & _ & H3 & _).
  - repeat constructor. vm_compute. discriminate.
  - exists n, w', moved. split; [exact H1|]. rewrite (qlist_some 1%nat w' _ rl' H2). exact H3.
Defined.

Lemma queue_accounting_witness :
  exists w', run (K := ref_kernel) (P := default_params) (Env := ex_env) ex_events ex_world = Ok w'.
Proof.
  destruct (queue_accounting (K := ref_kernel) (P := default_params) (Env := ex_env)
    10000 ex_world ex_events ltac:(lia) ex_world_inv ex_events_ok) as (w' & H & _).
  exists w'. exact H.
Defined.
