(* ===== verification/Termination.v ===== *)
(** * Termination of the transmit loops (rl.c)

    The loops of [iso_rl_dequeue] and of the tasklet, and the recursion into the
    parent, are bounded in the model by fuel.  On a well-formed device the fuel
    that the model gives is enough, and more does not change the result: the
    loops of the code end, with that result. *)

From S2P Require Import Prelude Params Kernel Packet Scan RateControl RateLimiter Dequeue Device.

Open Scope Z_scope.

Section Termination.
Context {K : Kernel} {P : params} {Env : Oracle}.

(** More fuel does not change a result. *)
Lemma dequeue_loop_mono fuel : forall fuel' p cpu pkt size sum w r,
  (fuel <= fuel')%nat -> dequeue_loop fuel p cpu pkt size sum w = Ok r -> dequeue_loop fuel' p cpu pkt size sum w = Ok r.
Proof.
  induction fuel as [|fuel IH]; intros fuel' p cpu pkt size sum w r Hle E; [discriminate E|].
  destruct fuel' as [|fuel']; [lia|]. cbn [dequeue_loop] in *. apply bind_ok in E as (rl & -> & E). cbn [mbind outcome_bind].
  destruct (_ && _); [|done]. apply bind_ok in E as (sent & -> & E). cbn [mbind outcome_bind].
  destruct sent as [w1|]; [|done]. apply bind_ok in E as (rl1 & -> & E). cbn [mbind outcome_bind].
  destruct (rlq_list (rl_queue rl1 cpu)) as [|pkt1 rest]; [done|]. apply IH; [lia|done].
Qed.

Lemma dequeue_mono depth : forall depth' p cpu w r,
  (depth <= depth')%nat -> iso_rl_dequeue depth p cpu w = Ok r -> iso_rl_dequeue depth' p cpu w = Ok r.
Proof.
  induction depth as [|depth IH]; intros depth' p cpu w r Hle E; [discriminate E|].
  destruct depth' as [|depth']; [lia|]. cbn [iso_rl_dequeue] in *. apply bind_ok in E as (rl & -> & E). cbn [mbind outcome_bind].
  apply bind_ok in E as ([to w1] & -> & E). cbn [mbind outcome_bind]. destruct (negb (to =? 0)); [done|].
  apply bind_ok in E as ([[to2 sum] w2] & -> & E). cbn [mbind outcome_bind].
  apply bind_ok in E as (rl2 & -> & E). cbn [mbind outcome_bind].
  destruct (rl_txc rl2) as [t|]; [|done]. apply bind_ok in E as (w3 & E3 & E). apply bind_ok in E3 as ([n w4] & E4 & E3).
  rewrite (IH depth' _ _ _ (n, w4)) by (lia || done). cbn [mbind outcome_bind]. rewrite E3. done.
Qed.

Lemma xmit_loop_mono fuel : forall fuel' cpu first pos count sent w r,
  (fuel <= fuel')%nat -> xmit_loop fuel cpu first pos count sent w = Ok r -> xmit_loop fuel' cpu first pos count sent w = Ok r.
Proof.
  induction fuel as [|fuel IH]; intros fuel' cpu first pos count sent w r Hle E;
    (destruct pos as [q|]; [|by destruct fuel'; cbn [xmit_loop] in *]); [discriminate E|].
  destruct fuel' as [|fuel']; [lia|]. cbn [xmit_loop] in *. destruct (_ || _); [done|].
  apply bind_ok in E as (w1 & -> & E). cbn [mbind outcome_bind].
  apply bind_ok in E as ([n w2] & -> & E). cbn [mbind outcome_bind]. apply IH; [lia|done].
Qed.
End Termination.

Section TerminationOk.
Context {K : Kernel} {KL : KernelLaws K} {P : params} {PO : params_ok P} {Env : Oracle} {CL : ClockLaws Env}.

(** C22: On a well-formed device the loop of the tasklet, the dequeue with its recursion into
    the class's queue, and the transmit loop all end: the fuel of the model is enough and any
    larger fuel gives the same result. *)
Theorem transmit_loops_terminate R cpu w :
  2 <= R < 2147483648 -> device_inv R w -> cpu ∈ possible_cpus ->
  (exists w', forall fuel, (xmit_fuel <= fuel)%nat ->
     xmit_loop fuel cpu (head (active w cpu)) (head (active w cpu)) 0 0 w = Ok w') /\
  (forall p rl, w_rls w !! p = Some rl -> exists r, forall depth, (levels <= depth)%nat -> iso_rl_dequeue depth p cpu w = Ok r) /\
  (forall p rl pkt rest sum, w_rls w !! p = Some rl -> rlq_list (rl_queue rl cpu) = pkt :: rest ->
     exists r, forall fuel, (length (pkt :: rest) <= fuel)%nat ->
       dequeue_loop fuel p cpu pkt (u32 (skb_size pkt)) sum w = Ok r).
Proof.
  intros HR Hdev Hcpu. pose proof (dinv_ok R w Hdev) as Hok. split; [|split].
  - destruct (xmit_loop_ok R HR cpu Hcpu xmit_fuel (head (active w cpu)) 0 0 w) as (T & w' & k & sent' & E & _);
      [done|intros p; by apply (dinv_served R w Hdev)|unfold xmit_fuel; lia|unfold xmit_fuel; lia|].
    exists w'. intros fuel Hle. by apply (xmit_loop_mono xmit_fuel).
  - intros p rl Hp. assert (Hh : (height rl <= levels)%nat) by (unfold height, levels; destruct (rl_txc rl); lia).
    destruct (iso_rl_dequeue_ok R HR cpu Hcpu levels w p rl Hok Hp Hh) as (sum & w' & rl' & sent & E & _).
    eexists. intros depth Hle. by apply (dequeue_mono levels).
  - intros p rl pkt rest sum Hp Hl.
    destruct (dequeue_loop_ok R HR cpu Hcpu (length (pkt :: rest)) w p rl pkt rest sum Hok Hp Hl) as (to & sum' & w' & rl' & sent & E & _); [lia|].
    eexists. intros fuel Hle. by apply (dequeue_loop_mono (length (pkt :: rest))).
Qed.
End TerminationOk.

Lemma transmit_loops_terminate_witness :
  exists w', forall fuel, (251 <= fuel)%nat ->
    xmit_loop (K := ref_kernel) (P := default_params) (Env := ex_env) fuel 1 (head (active ex_world 1)) (head (active ex_world 1)) 0 0 ex_world = Ok w'.
Proof.
  destruct (transmit_loops_terminate (K := ref_kernel) (P := default_params) (Env := ex_env) 10000 1 ex_world ltac:(lia) ex_world_inv)
    as [H _]; [apply (bool_decide_unpack _); vm_compute; exact I|exact H].
Defined.
