(* ===== verification/Tx.v ===== *)
(** * The transmit side of a device (tx.h, tx.c)

    The transmit context keeps the traffic classes of a device in a hash table
    and a list.  A class has a rate limiter of its own, and for every
    destination a state and a rate limiter below the class's, taken from
    preallocated lists. *)

From S2P Require Import Prelude Params Kernel Packet Scan Class RateControl HashTable VirtualQueue.
From S2P Require Import VqTable RateLimiter Dequeue Device.

Open Scope Z_scope.

(** A C pointer to an object on the heap.  [Wild] is a non-NULL pointer that is
    not the address of one: a list cursor that has run back to the list head. *)
Inductive cptr := NULL | At (p : loc) | Wild.

Definition deref_ptr {A} (h : gmap loc A) (p : cptr) : outcome A :=
  match p with At l => deref h l | NULL | Wild => Oops BadPointer end.

Record iso_per_dest_state := {
  ps_ip_key : Z;                       (** u32 *)
  ps_rl : cptr;
  ps_tx_rc : iso_rc_state
}.

(** [struct iso_tx_class]; its field [rl] is the rate limiter [inr] of the
    class's address. *)
Record iso_tx_class := {
  txc_klass : Z;
  txc_rl_bucket : buckets;
  txc_state_bucket : buckets;
  txc_vq : option loc;
  txc_prealloc_state_list : list loc;
  txc_prealloc_rl_list : list loc;
  txc_freelist_count : Z;              (** int *)
  txc_weight : Z;                      (** int *)
  txc_active : Z;                      (** int *)
  txc_tx_rate : Z;                     (** u32 *)
  txc_tx_rate_smooth : Z;              (** u32 *)
  txc_min_rate : Z;                    (** u32 *)
  txc_max_rate : Z;                    (** u32 *)
  txc_is_static : Z;                   (** u8 *)
  txc_allocator : bool                 (** the work is scheduled *)
}.

Record iso_tx_context := {
  txx_bucket : buckets;
  txx_txc_list : list loc;
  txx_last_update_time : Z;            (** ktime_t *)
  txx_total_weight : Z;                (** int *)
  txx_tx_bytes : Z;                    (** u64 *)
  txx_tx_rate : Z;                     (** u32 *)
  txx_rate : Z                         (** u32 *)
}.

(** A transmit context with its classes, destination states and rate limiters. *)
Record tx_state := {
  tx_ctx : iso_tx_context;
  tx_txcs : gmap loc iso_tx_class;
  tx_states : gmap loc iso_per_dest_state;
  tx_w : rl_world
}.

Inductive iso_create_t := ISO_DONT_CREATE_RL | ISO_CREATE_RL.

#[export] Instance iso_create_t_eq_dec : EqDecision iso_create_t.
Proof. solve_decision. Defined.

Definition set_txc (p : loc) (txc : iso_tx_class) (s : tx_state) : tx_state :=
  {| s with tx_txcs := <[p := txc]> (tx_txcs s) |}.

Definition set_w (w : rl_world) (s : tx_state) : tx_state := {| s with tx_w := w |}.

(** What the allocators return to one round of [iso_txc_prealloc]: addresses not
    in use, with arbitrary contents, or NULL; [pa_times] are the readings of
    the clock in the initialisers. *)
Record prealloc_env := {
  pa_state : option (loc * iso_per_dest_state);
  pa_stats : option (percpu iso_rc_stats);
  pa_rl : option (loc * iso_rl);
  pa_queue : option (percpu iso_rl_queue);
  pa_times : nat -> Z
}.

(** The same for one [iso_txc_alloc]. *)
Record txc_alloc_env := {
  ta_txc : option (loc * iso_tx_class);
  ta_rl : iso_rl;
  ta_queue : option (percpu iso_rl_queue);
  ta_times : nat -> Z;
  ta_prealloc : list prealloc_env
}.

Section Tx.
Context {K : Kernel} {P : params} {C : IsoClass} {Env : Oracle}.

Definition iso_txc_find (klass : Z) (s : tx_state) : outcome (option loc) :=
  chain_find txc_klass (tx_txcs s) (txx_bucket (tx_ctx s) (chain_of ISO_MAX_TX_BUCKETS klass)) klass.

(** ** Rates *)

(** The body of the loop of [iso_txc_recompute_rates]. *)
Definition txc_recompute (total_weight : Z) (s : tx_state) (p : loc) : outcome tx_state :=
  txc ← deref (tx_txcs s) p;
  let min_rate := u32 (Z.quot (s32 (txc_weight txc * ISO_MAX_TX_RATE)) total_weight) in
  rl ← deref (w_rls (tx_w s)) (inr p);
  let rate := if negb (txc_is_static txc =? 0)
              then u32 (min_t u64 (txc_max_rate txc) min_rate) else min_rate in
  mret (set_w (set_rl (inr p) {| rl with rl_rate := rate |} (tx_w s))
              (set_txc p {| txc with txc_min_rate := min_rate |} s)).

Definition iso_txc_recompute_rates (s : tx_state) : outcome tx_state :=
  let total_weight := txx_total_weight (tx_ctx s) in
  if total_weight =? 0 then mret s
  else foldM (txc_recompute total_weight) (txx_txc_list (tx_ctx s)) s.

Definition iso_txctx_accum (s : tx_state) : tx_state :=
  let ctx := tx_ctx s in
  {| s with tx_ctx := {| ctx with
       txx_tx_bytes := pc_sum u64 cb_tx_bytes (w_cbs (tx_w s)) online_cpus |} |}.

(** The weighted RCP step of [iso_txc_tick]. *)
Definition txx_rcp_step (rate tx_rate : Z) : outcome Z :=
  q ← div_u (u32 (rate * u32 (s32 (3 * ISO_MAX_TX_RATE) - tx_rate)))
            (u32 (s32 (Z.shiftl ISO_MAX_TX_RATE 1)));
  let rate := u32 (min_t u64 ISO_MAX_TX_RATE q) in
  mret (u32 (max_t u64 ISO_MIN_RFAIR rate)).

(** The rate a class gets from the context's. *)
Definition txc_rate (rate : Z) (txc : iso_tx_class) : Z :=
  let r := u32 (rate * u32 (txc_weight txc)) in
  let r := u32 (min_t u64 ISO_MAX_TX_RATE r) in
  let r := u32 (max_t u64 (txc_min_rate txc) r) in
  if negb (txc_is_static txc =? 0) then u32 (min_t u64 (txc_max_rate txc) r) else r.

(** The body of the loop of [iso_txc_tick]. *)
Definition txc_tick (dt rate : Z) (s : tx_state) (p : loc) : outcome tx_state :=
  txc ← deref (tx_txcs s) p;
  rl ← deref (w_rls (tx_w s)) (inr p);
  let last_xmit := rl_accum_xmit rl in
  let rl := iso_rl_accum rl in
  tx_rate ← div_u (u64 (Z.shiftl (u64 (rl_accum_xmit rl - last_xmit)) 3)) dt;
  let tx_rate := u32 tx_rate in
  let smooth := u32 (u32 (txc_tx_rate_smooth txc * 15) + tx_rate) / 16 in
  let rl := {| rl with rl_rate := txc_rate rate txc |} in
  mret (set_w (set_rl (inr p) rl (tx_w s))
              (set_txc p {| txc with txc_tx_rate := tx_rate; txc_tx_rate_smooth := smooth |} s)).

(** [iso_txc_tick(context)]; [trylock] is whether [txc_spinlock] was free. *)
Definition iso_txc_tick (trylock : bool) (s : tx_state) : outcome tx_state :=
  let w := tx_w s in
  let now := clock (w_reads w) in
  let s := set_w {| w with w_reads := S (w_reads w) |} s in
  let ctx := tx_ctx s in
  let dt := u64 (ktime_us_delta now (txx_last_update_time ctx)) in
  if dt <? u64 ISO_TXC_UPDATE_INTERVAL_US then mret s
  else if negb trylock then mret s
  else
    let dt := u64 (ktime_us_delta now (txx_last_update_time ctx)) in
    if dt <? u64 ISO_TXC_UPDATE_INTERVAL_US then mret s
    else
    let last_xmit := txx_tx_bytes ctx in
    let s := iso_txctx_accum {| s with tx_ctx := {| ctx with txx_last_update_time := now |} |} in
    let ctx := tx_ctx s in
    tx_rate ← div_u (u64 (Z.shiftl (u64 (txx_tx_bytes ctx - last_xmit)) 3)) dt;
    let tx_rate := u32 tx_rate in
    rate ← txx_rcp_step (txx_rate ctx) tx_rate;
    let s := {| s with tx_ctx := {| ctx with txx_tx_rate := tx_rate; txx_rate := rate |} |} in
    foldM (txc_tick dt rate) (txx_txc_list ctx) s.

(** ** Destinations *)

(** [hlist_for_each_entry_rcu(state, node, head, hash_node) if (state->ip_key == ip) break;]
    from the cursor [cur]: the cursor after the loop, which stays on the last
    entry when none matches. *)
Fixpoint state_scan (h : gmap loc iso_per_dest_state) (chain : list loc) (ip : Z) (cur : cptr)
    : outcome cptr :=
  match chain with
  | [] => mret cur
  | p :: chain' =>
      state ← deref h p;
      if ps_ip_key state =? ip then mret (At p) else state_scan h chain' ip (At p)
  end.

(** The search of [iso_pick_rl], which jumps out on a match. *)
Fixpoint rl_scan (m : gmap rlptr iso_rl) (chain : list loc) (ip : Z) : outcome (option loc) :=
  match chain with
  | [] => mret None
  | p :: chain' =>
      rl ← deref m (inl p);
      if rl_ip rl =? ip then mret (Some p) else rl_scan m chain' ip
  end.

(** [iso_pick_rl(txc, ip)] *)
Definition iso_pick_rl (pc : loc) (ip : Z) (s : tx_state) : outcome (cptr * tx_state) :=
  txc ← deref (tx_txcs s) pc;
  let b := Z.land (jhash_1word ip 4207868622) (ISO_MAX_RL_BUCKETS - 1) in
  found ← rl_scan (w_rls (tx_w s)) (txc_rl_bucket txc b) ip;
  match found with
  | Some p => mret (At p, s)
  | None =>
      match txc_prealloc_rl_list txc with
      | [] => mret (Wild, s)
      | p :: rest =>
          rl ← deref (w_rls (tx_w s)) (inl p);
          let txc := {| txc with txc_rl_bucket := hlist_add_head b p (txc_rl_bucket txc);
                                 txc_prealloc_rl_list := rest |} in
          mret (At p, set_w (set_rl (inl p) {| rl with rl_ip := ip |} (tx_w s)) (set_txc pc txc s))
      end
  end.

(** The bucket of a destination. *)
Definition state_hash (ip : Z) : Z := Z.land (jhash_1word ip 4207861421) (ISO_MAX_STATE_BUCKETS - 1).

(** The first entry of the preallocated states becomes the state of [ip]; the
    times are the readings in [iso_rc_init]. *)
Definition state_create (t : nat -> Z) (pc : loc) (ip : Z) (s : tx_state) : outcome (cptr * tx_state) :=
  txc ← deref (tx_txcs s) pc;
  match txc_prealloc_state_list txc with
  | [] => mret (Wild, s)
  | p :: rest =>
      state ← deref (tx_states s) p;
      let state := {| state with ps_ip_key := ip |} in
      '(rl, s) ← iso_pick_rl pc ip s;
      let state := {| state with ps_rl := rl |} in
      match rl with
      | NULL => mret (At p, {| s with tx_states := <[p := state]> (tx_states s) |})
      | _ =>
          let state := {| state with ps_tx_rc :=
                            iso_rc_init (t 0%nat) (t 1%nat) (t 2%nat) (ps_tx_rc state) |} in
          let s := {| s with tx_states := <[p := state]> (tx_states s) |} in
          txc ← deref (tx_txcs s) pc;
          mret (At p, set_txc pc {| txc with
            txc_state_bucket := hlist_add_head (state_hash ip) p (txc_state_bucket txc);
            txc_prealloc_state_list := rest;
            txc_freelist_count := s32 (txc_freelist_count txc - 1) |} s)
      end
  end.

(** [if(txc->freelist_count <= 10) schedule_work(&txc->allocator)] *)
Definition maybe_schedule (pc : loc) (s : tx_state) : outcome tx_state :=
  txc ← deref (tx_txcs s) pc;
  if txc_freelist_count txc <=? 10
  then mret (set_txc pc {| txc with txc_allocator := true |} s)
  else mret s.

(** [iso_state_get(txc, skb, rx, create_flags)]; [trylock] is whether the class's
    [writelock] was free. *)
Definition iso_state_get (trylock : bool) (t : nat -> Z) (pc : loc) (skb : sk_buff) (rx : bool)
    (create_flags : iso_create_t) (s : tx_state) : outcome (cptr * tx_state) :=
  if negb (is_ip skb) then mret (NULL, s)
  else
    let ip := if rx then ntohl (iph_saddr (skb_iph skb)) else ntohl (iph_daddr (skb_iph skb)) in
    txc ← deref (tx_txcs s) pc;
    let head := txc_state_bucket txc (state_hash ip) in
    state ← state_scan (tx_states s) head ip NULL;
    match state with
    | NULL =>
        if bool_decide (create_flags = ISO_DONT_CREATE_RL) || negb trylock then mret (NULL, s)
        else
          state ← state_scan (tx_states s) head ip NULL;
          match state with
          | NULL =>
              '(state, s) ← state_create t pc ip s;
              s ← maybe_schedule pc s;
              mret (state, s)
          | _ => mret (state, s)
          end
    | _ => mret (state, s)
    end.

(** ** Classes *)

(** [iso_state_init(state)]; the times are the readings in [iso_rc_init]. *)
Definition iso_state_init (t : nat -> Z) (state : iso_per_dest_state) : iso_per_dest_state :=
  {| state with ps_rl := NULL; ps_tx_rc := iso_rc_init (t 0%nat) (t 1%nat) (t 2%nat) (ps_tx_rc state) |}.

(** One round of the loop of [iso_txc_prealloc]; [false] is its [break]. *)
Definition prealloc_one (pc : loc) (e : prealloc_env) (s : tx_state) : outcome (bool * tx_state) :=
  match pa_state e, pa_stats e, pa_rl e with
  | Some (ps, state), Some stats, Some (pr, rl) =>
      let t := pa_times e in
      let rc := ps_tx_rc state in
      let state := iso_state_init t {| state with ps_tx_rc := {| rc with rc_stats := stats |} |} in
      match pa_queue e with
      | None => Oops BadPointer
      | Some queue =>
          let rl := iso_rl_init (t 3%nat) (t 4%nat) queue rl in
          let rl := {| rl with rl_txc := Some pc |} in
          txc ← deref (tx_txcs s) pc;
          let txc := {| txc with
            txc_freelist_count := s32 (txc_freelist_count txc + 1);
            txc_prealloc_state_list := txc_prealloc_state_list txc ++ [ps];
            txc_prealloc_rl_list := txc_prealloc_rl_list txc ++ [pr] |} in
          let s := set_w (set_rl (inl pr) rl (tx_w s)) (set_txc pc txc s) in
          mret (true, {| s with tx_states := <[ps := state]> (tx_states s) |})
      end
  | _, _, _ => mret (false, s)
  end.

(** [iso_txc_prealloc(txc, num)]: the rounds are the entries of [es]. *)
Fixpoint iso_txc_prealloc (pc : loc) (es : list prealloc_env) (s : tx_state) : outcome tx_state :=
  match es with
  | [] => mret s
  | e :: es =>
      '(more, s) ← prealloc_one pc e s;
      if (more : bool) then iso_txc_prealloc pc es s else mret s
  end.

(** [iso_txc_allocator(work)], run by the work queue, which clears the request;
    [es] are the 32 rounds. *)
Definition iso_txc_allocator (pc : loc) (es : list prealloc_env) (s : tx_state) : outcome tx_state :=
  txc ← deref (tx_txcs s) pc;
  iso_txc_prealloc pc es (set_txc pc {| txc with txc_allocator := false |} s).

(** [iso_txc_init], apart from the initialisation of the rate limiter. *)
Definition iso_txc_init (txc : iso_tx_class) : iso_tx_class :=
  {| txc with
     txc_rl_bucket := fun i => if (0 <=? i) && (i <? ISO_MAX_RL_BUCKETS) then [] else txc_rl_bucket txc i;
     txc_state_bucket := fun i => if (0 <=? i) && (i <? ISO_MAX_STATE_BUCKETS) then [] else txc_state_bucket txc i;
     txc_prealloc_state_list := [];
     txc_prealloc_rl_list := [];
     txc_vq := None;
     txc_freelist_count := 0;
     txc_weight := 1;
     txc_active := 0;
     txc_tx_rate := 0;
     txc_min_rate := u32 ISO_MAX_TX_RATE;
     txc_tx_rate_smooth := 0;
     txc_max_rate := u32 ISO_MAX_TX_RATE;
     txc_is_static := 0;
     txc_allocator := false |}.

(** [iso_txc_alloc(klass, context)] *)
Definition iso_txc_alloc (e : txc_alloc_env) (klass : Z) (s : tx_state)
    : outcome (option loc * tx_state) :=
  match ta_txc e with
  | None => mret (None, s)
  | Some (p, mem) =>
      match ta_queue e with
      | None => Oops BadPointer
      | Some queue =>
          let txc := iso_txc_init mem in
          let txc := {| txc with txc_klass := klass |} in
          let rl := iso_rl_init (ta_times e 0%nat) (ta_times e 1%nat) queue (ta_rl e) in
          let s := set_w (set_rl (inr p) rl (tx_w s)) (set_txc p txc s) in
          s ← iso_txc_prealloc p (ta_prealloc e) s;
          txc ← deref (tx_txcs s) p;
          let ctx := tx_ctx s in
          let s := {| s with tx_ctx := {| ctx with
            txx_bucket := hlist_add_head (chain_of ISO_MAX_TX_BUCKETS klass) p (txx_bucket ctx);
            txx_txc_list := txx_txc_list ctx ++ [p];
            txx_total_weight := s32 (txx_total_weight ctx + txc_weight txc) |} |} in
          s ← iso_txc_recompute_rates s;
          mret (Some p, s)
      end
  end.

(** [iso_txc_install(klass, context)] (the build classes by address, port or mark
    share [iso_txc_mark_install]). *)
Definition iso_txc_install (e : txc_alloc_env) (klass : cstring) (s : tx_state)
    : outcome (Z * tx_state) :=
  let m := op_parse klass in
  txc ← iso_txc_find m s;
  match txc with
  | Some _ => mret (-1, s)
  | None =>
      '(txc, s) ← iso_txc_alloc e m s;
      match txc with
      | None => mret (-1, s)
      | Some _ => mret (0, s)
      end
  end.

(** ** The packet path *)

(** [iso_tx(skb, out, context)] on [cpu]; [ticklock] is whether [txc_spinlock] was
    free. *)
Definition iso_tx (ticklock : bool) (cpu : nat) (skb : sk_buff) (s : tx_state)
    : outcome (iso_verdict * tx_state) :=
  s ← iso_txc_tick ticklock s;
  txc ← iso_txc_find (op_txc_classify skb) s;
  match txc with
  | None => mret (ISO_VERDICT_PASS, s)
  | Some pc =>
      '(state, s) ← iso_state_get false (fun _ => 0) pc skb false ISO_DONT_CREATE_RL s;
      match state with
      | NULL => mret (ISO_VERDICT_PASS, s)
      | _ =>
          state ← deref_ptr (tx_states s) state;
          match ps_rl state with
          | At p =>
              '(verdict, w) ← tx_submit (inl p) (iso_enable_ecn skb) cpu (tx_w s);
              mret (verdict, set_w w s)
          | NULL | Wild => Oops BadPointer
          end
      end
  end.
End Tx.

(** ** The rates of a context *)

Section TxRates.
Context {P : params} {PO : params_ok P}.

Lemma max_tx_facts : 2 <= ISO_MAX_TX_RATE <= 20000.
Proof. pok. lia. Qed.

(** The result is within its bounds whatever was measured. *)
Lemma txx_rcp_step_ok rate tx_rate :
  exists r, txx_rcp_step rate tx_rate = Ok r /\ ISO_MIN_RFAIR <= r <= ISO_MAX_TX_RATE.
Proof.
  pose proof max_tx_facts. pok. unfold txx_rcp_step. rewrite Z.shiftl_mul_pow2 by lia. change (2 ^ 1) with 2.
  rewrite (s32_small (ISO_MAX_TX_RATE * 2)), (u32_small (ISO_MAX_TX_RATE * 2)) by lia.
  rewrite div_u_ok by lia. cbn [mbind outcome_bind]. eexists. split; [reflexivity|].
  pose proof (u32_range (rate * u32 (s32 (3 * ISO_MAX_TX_RATE) - tx_rate))) as Hr. unfold is_u32 in Hr.
  set (x := u32 (rate * _)) in *. assert (0 <= x / (ISO_MAX_TX_RATE * 2)) by (apply Z.div_pos; lia).
  unfold min_t, max_t. rewrite (u64_small ISO_MAX_TX_RATE), (u64_small ISO_MIN_RFAIR) by lia.
  assert (x / (ISO_MAX_TX_RATE * 2) <= x) by (apply Z.div_le_upper_bound; nia).
  rewrite (u64_small (x / _)) by lia.
  rewrite (u32_small (Z.min _ _)) by lia. rewrite (u64_small (Z.min _ _)) by lia.
  rewrite u32_small by lia. lia.
Qed.

(** The weighted RCP step of the transmit context is clamp(rate * (3 * max - tx) / (2 * max)):
    it raises the rate when the device sends below its maximum, lowers it above, and keeps it at
    the maximum, without overflow, for measured rates up to three times the maximum. *)
Theorem txx_rcp_step_control_law (rate tx_rate : Z) :
  ISO_MIN_RFAIR <= rate <= ISO_MAX_TX_RATE -> 0 <= tx_rate <= 3 * ISO_MAX_TX_RATE ->
  exists r, txx_rcp_step rate tx_rate = Ok r /\
    r = Z.max ISO_MIN_RFAIR
          (Z.min ISO_MAX_TX_RATE (rate * (3 * ISO_MAX_TX_RATE - tx_rate) / (2 * ISO_MAX_TX_RATE))) /\
    (tx_rate <= ISO_MAX_TX_RATE -> rate <= r) /\
    (ISO_MAX_TX_RATE <= tx_rate -> r <= rate) /\
    (tx_rate = ISO_MAX_TX_RATE -> r = rate).
Proof.
  intros Hrate Htx. pose proof max_tx_facts. pok.
  assert (E : txx_rcp_step rate tx_rate = Ok (Z.max ISO_MIN_RFAIR
    (Z.min ISO_MAX_TX_RATE (rate * (3 * ISO_MAX_TX_RATE - tx_rate) / (2 * ISO_MAX_TX_RATE))))).
  { unfold txx_rcp_step. rewrite Z.shiftl_mul_pow2 by lia. change (2 ^ 1) with 2.
    rewrite (s32_small (ISO_MAX_TX_RATE * 2)), (u32_small (ISO_MAX_TX_RATE * 2)) by lia.
    rewrite (s32_small (3 * _)), (u32_small (3 * ISO_MAX_TX_RATE - tx_rate)) by lia.
    rewrite (u32_small (rate * _)) by nia. rewrite div_u_ok by lia. cbn [mbind outcome_bind].
    rewrite (Z.mul_comm ISO_MAX_TX_RATE 2).
    set (x := rate * _ / _). assert (0 <= x) by (apply Z.div_pos; nia).
    assert (x <= 2 * ISO_MAX_TX_RATE * ISO_MAX_TX_RATE) by (apply Z.div_le_upper_bound; nia).
    unfold min_t, max_t. rewrite (u64_small ISO_MAX_TX_RATE), (u64_small ISO_MIN_RFAIR), (u64_small x) by nia.
    rewrite (u32_small (Z.min _ _)), (u64_small (Z.min _ _)), u32_small by lia. done. }
  eexists. split; [exact E|]. split; [done|].
  assert (Hup : tx_rate <= ISO_MAX_TX_RATE ->
    rate <= rate * (3 * ISO_MAX_TX_RATE - tx_rate) / (2 * ISO_MAX_TX_RATE))
    by (intros; apply mul_div_ge; lia).
  assert (Hdown : ISO_MAX_TX_RATE <= tx_rate ->
    rate * (3 * ISO_MAX_TX_RATE - tx_rate) / (2 * ISO_MAX_TX_RATE) <= rate)
    by (intros; apply mul_div_le; lia).
  lia.
Qed.

(** The settings of a class that the control plane allows. *)
Record class_ok (txc : iso_tx_class) : Prop := {
  cok_weight : 0 <= txc_weight txc <= 1024;
  cok_min : 0 <= txc_min_rate txc <= ISO_MAX_TX_RATE;
  cok_max : 0 <= txc_max_rate txc < 4294967296
}.

Lemma txc_rate_eq rate txc :
  class_ok txc -> 0 <= rate <= ISO_MAX_TX_RATE ->
  let r := Z.max (txc_min_rate txc) (Z.min ISO_MAX_TX_RATE (rate * txc_weight txc)) in
  txc_rate rate txc = if txc_is_static txc =? 0 then r else Z.min (txc_max_rate txc) r.
Proof.
  intros [Hw Hmin Hmax] Hr. pose proof max_tx_facts. cbv zeta. unfold txc_rate, min_t, max_t.
  rewrite (u32_small (txc_weight txc)), (u32_small (rate * _)) by nia.
  rewrite (u64_small ISO_MAX_TX_RATE), (u64_small (rate * _)) by nia.
  set (a := Z.min ISO_MAX_TX_RATE _). assert (0 <= a <= ISO_MAX_TX_RATE) by nia. clearbody a.
  rewrite (u32_small a), (u64_small a), (u64_small (txc_min_rate txc)) by lia.
  set (b := Z.max _ a). assert (0 <= b <= ISO_MAX_TX_RATE) by lia. clearbody b.
  rewrite (u32_small b) by lia. destruct (_ =? 0); cbn [negb]; [done|].
  rewrite (u64_small b), (u64_small (txc_max_rate txc)), u32_small by lia. done.
Qed.

Lemma txc_rate_range rate txc :
  class_ok txc -> 0 <= rate <= ISO_MAX_TX_RATE -> 0 <= txc_rate rate txc <= ISO_MAX_TX_RATE.
Proof.
  intros Hc Hr. pose proof max_tx_facts. rewrite txc_rate_eq by done. destruct Hc as [Hw Hmin Hmax].
  assert (0 <= rate * txc_weight txc) by nia. destruct (_ =? 0); lia.
Qed.
End TxRates.

(** ** Loops over the classes *)

Section ClassLoop.

(** A loop that rewrites each class and its rate limiter with [f]. *)
Lemma class_loop (body : tx_state -> loc -> outcome tx_state)
    (f : iso_tx_class -> iso_rl -> iso_tx_class * iso_rl) (Q : iso_tx_class -> Prop) l :
  (forall s p txc rl, Q txc -> tx_txcs s !! p = Some txc -> w_rls (tx_w s) !! inr p = Some rl ->
    body s p = Ok (set_w (set_rl (inr p) (f txc rl).2 (tx_w s)) (set_txc p (f txc rl).1 s))) ->
  NoDup l -> forall s,
  (forall p, p ∈ l -> is_Some (tx_txcs s !! p) /\ is_Some (w_rls (tx_w s) !! inr p)) ->
  (forall p txc, p ∈ l -> tx_txcs s !! p = Some txc -> Q txc) ->
  exists txcs rls, let w := tx_w s in
    foldM body l s = Ok {| s with tx_txcs := txcs; tx_w := {| w with w_rls := rls |} |} /\
    (forall p, p ∉ l -> txcs !! p = tx_txcs s !! p) /\
    (forall q, (forall p, p ∈ l -> q <> inr p) -> rls !! q = w_rls (tx_w s) !! q) /\
    forall p txc rl, p ∈ l -> tx_txcs s !! p = Some txc -> w_rls (tx_w s) !! inr p = Some rl ->
      txcs !! p = Some (f txc rl).1 /\ rls !! inr p = Some (f txc rl).2.
Proof.
  intros Hbody Hnd. induction Hnd as [|p l Hp Hnd IH]; intros s Hlive HQ.
  - exists (tx_txcs s), (w_rls (tx_w s)). split; [by destruct s as [? ? ? []]|].
    split; [done|]. split; [done|]. intros p txc rl H. by apply not_elem_of_nil in H.
  - destruct (Hlive p (list_elem_of_here _ _)) as [[txc Htxc] [rl Hrl]].
    cbn [foldM]. rewrite (Hbody s p txc rl (HQ p txc (list_elem_of_here _ _) Htxc) Htxc Hrl). cbn [mbind outcome_bind].
    set (s1 := set_w _ _).
    destruct (IH s1) as (txcs & rls & E & Hout & Hrls & Hin).
    { intros q Hq. destruct (Hlive q (list_elem_of_further _ _ _ Hq)) as [H1 H2].
      assert (q <> p) by congruence. cbn [s1 set_w set_txc set_rl tx_txcs tx_w w_rls].
      by rewrite !lookup_insert_ne by congruence. }
    { intros q txq Hq. assert (q <> p) by congruence. cbn. rewrite lookup_insert_ne by congruence.
      apply HQ. by apply list_elem_of_further. }
    exists txcs, rls. split; [exact E|]. split; [|split].
    + intros q Hq. apply not_elem_of_cons in Hq as [Hne Hq]. rewrite Hout by done. cbn.
      by rewrite lookup_insert_ne.
    + intros q Hq. rewrite Hrls by (intros r Hr; apply Hq; by apply list_elem_of_further). cbn.
      rewrite lookup_insert_ne; [done|]. apply not_eq_sym, Hq, list_elem_of_here.
    + intros q txq rlq Hq Htq Hrq. destruct (decide (q = p)) as [->|Hne].
      * assert (txq = txc /\ rlq = rl) as [-> ->] by (split; congruence).
        rewrite Hout by done. rewrite Hrls by (intros r Hr [= ->]; done).
        cbn. by rewrite !lookup_insert_eq.
      * apply elem_of_cons in Hq as [?|Hq]; [done|]. apply Hin; [done| |]; cbn;
          by rewrite lookup_insert_ne by congruence.
Qed.
End ClassLoop.

Section ClassRates.
Context {K : Kernel} {KL : KernelLaws K} {P : params} {PO : params_ok P} {Env : Oracle} {CL : ClockLaws Env}.

Definition txc_weights (h : gmap loc iso_tx_class) (l : list loc) : list Z :=
  map (fun p => match h !! p with Some txc => txc_weight txc | None => 0 end) l.

Definition min_rates (h : gmap loc iso_tx_class) (l : list loc) : list Z :=
  map (fun p => match h !! p with Some txc => txc_min_rate txc | None => 0 end) l.

(** The classes of a device are on its list once, live, with allowed settings. *)
Record classes_ok (s : tx_state) : Prop := {
  cls_nodup : NoDup (txx_txc_list (tx_ctx s));
  cls_live p : p ∈ txx_txc_list (tx_ctx s) ->
    is_Some (tx_txcs s !! p) /\ is_Some (w_rls (tx_w s) !! inr p);
  cls_ok p txc : tx_txcs s !! p = Some txc -> class_ok txc
}.

(** What recomputation does to a class. *)
Definition recomputed (W : Z) (txc : iso_tx_class) (rl : iso_rl) : iso_tx_class * iso_rl :=
  let m := txc_weight txc * ISO_MAX_TX_RATE / W in
  ({| txc with txc_min_rate := m |},
   {| rl with rl_rate := if txc_is_static txc =? 0 then m else Z.min (txc_max_rate txc) m |}).

Lemma txc_recompute_eq W s p txc rl :
  0 < W < 2147483648 -> class_ok txc ->
  tx_txcs s !! p = Some txc -> w_rls (tx_w s) !! inr p = Some rl ->
  txc_recompute W s p = Ok (set_w (set_rl (inr p) (recomputed W txc rl).2 (tx_w s))
                                  (set_txc p (recomputed W txc rl).1 s)).
Proof.
  intros HW [Hw Hmin Hmax] Htxc Hrl. pose proof max_tx_facts.
  unfold txc_recompute, recomputed. rewrite (deref_ok _ _ _ Htxc), (deref_ok _ _ _ Hrl).
  cbn [mbind outcome_bind fst snd]. rewrite (s32_small (_ * _)) by nia.
  rewrite Z.quot_div_nonneg by nia. set (m := _ / W).
  assert (0 <= m <= 20480000) by (unfold m; split; [apply Z.div_pos; nia|apply Z.div_le_upper_bound; nia]).
  rewrite (u32_small m) by lia. unfold min_t. rewrite (u64_small (txc_max_rate txc)), (u64_small m) by lia.
  rewrite (u32_small (Z.min _ _)) by lia. by destruct (txc_is_static txc =? 0).
Qed.

Lemma weight_le_total s l p txc :
  classes_ok s -> p ∈ l -> tx_txcs s !! p = Some txc -> txc_weight txc <= sumZ (txc_weights (tx_txcs s) l).
Proof.
  intros Hc Hp Htxc. apply elem_le_sumZ.
  - apply Forall_map, Forall_forall. intros r _. destruct (tx_txcs s !! r) as [t|] eqn:E; [|done].
    destruct (cls_ok s Hc r t E). lia.
  - apply list_elem_of_In, in_map_iff. exists p. rewrite Htxc. split; [done|]. by apply list_elem_of_In.
Qed.

(** Recomputation returns; without weight it does nothing, and otherwise it
    rewrites every class and its rate limiter. *)
Lemma recompute_shape s :
  classes_ok s ->
  let l := txx_txc_list (tx_ctx s) in
  let W := sumZ (txc_weights (tx_txcs s) l) in
  txx_total_weight (tx_ctx s) = W -> W < 2147483648 ->
  exists txcs rls, let w := tx_w s in
    iso_txc_recompute_rates s = Ok {| s with tx_txcs := txcs; tx_w := {| w with w_rls := rls |} |} /\
    (forall p, p ∉ l -> txcs !! p = tx_txcs s !! p) /\
    (forall q, (forall p, p ∈ l -> q <> inr p) -> rls !! q = w_rls (tx_w s) !! q) /\
    forall p txc, p ∈ l -> tx_txcs s !! p = Some txc -> exists rl, w_rls (tx_w s) !! inr p = Some rl /\
      if W =? 0 then txcs !! p = Some txc /\ rls !! inr p = Some rl
      else txcs !! p = Some (recomputed W txc rl).1 /\ rls !! inr p = Some (recomputed W txc rl).2.
Proof.
  intros Hc l W HW HWlt. unfold iso_txc_recompute_rates. rewrite HW.
  assert (HWpos : 0 <= W).
  { apply sumZ_nonneg, Forall_map, Forall_forall. intros r _. destruct (tx_txcs s !! r) as [t|] eqn:E; [|done].
    apply (cls_ok s Hc r t E). }
  destruct (Z.eqb_spec W 0) as [HW0|HW0].
  - exists (tx_txcs s), (w_rls (tx_w s)). split; [by destruct s as [? ? ? []]|]. split; [done|]. split; [done|].
    intros p txc Hp Htxc. destruct (cls_live s Hc p Hp) as [_ [rl Hrl]]. eauto.
  - destruct (class_loop (txc_recompute W) (recomputed W) class_ok l) with (s := s)
      as (txcs & rls & E & Hout & Hrls & Hin).
    { intros. apply txc_recompute_eq; (done || lia). }
    { apply Hc. } { apply Hc. } { intros p txc _. apply (cls_ok s Hc). }
    exists txcs, rls. split; [exact E|]. split; [done|]. split; [done|]. intros p txc Hp Htxc.
    destruct (cls_live s Hc p Hp) as [_ [rl Hrl]]. exists rl. split; [done|]. by apply Hin.
Qed.

(** The guarantee of a class is a share of [ISO_MAX_TX_RATE]. *)
Lemma recomputed_ok s l p txc rl :
  let W := sumZ (txc_weights (tx_txcs s) l) in
  classes_ok s -> 0 < W -> p ∈ l -> tx_txcs s !! p = Some txc ->
  class_ok (recomputed W txc rl).1 /\ 0 <= rl_rate (recomputed W txc rl).2 <= ISO_MAX_TX_RATE.
Proof.
  intros W Hc HW Hp Htxc. pose proof max_tx_facts. pose proof (weight_le_total s l p txc Hc Hp Htxc).
  destruct (cls_ok s Hc p txc Htxc) as [Hw Hmin Hmax].
  assert (0 <= txc_weight txc * ISO_MAX_TX_RATE / W <= ISO_MAX_TX_RATE).
  { split; [apply Z.div_pos; nia|]. apply Z.div_le_upper_bound; [done|]. fold W in H0. nia. }
  split; [by split|]. cbn. destruct (_ =? 0); lia.
Qed.

(** The classes stay well-formed. *)
Lemma recompute_classes s txcs rls :
  classes_ok s ->
  let l := txx_txc_list (tx_ctx s) in
  let W := sumZ (txc_weights (tx_txcs s) l) in
  0 <= W ->
  (forall p, p ∉ l -> txcs !! p = tx_txcs s !! p) ->
  (forall p txc, p ∈ l -> tx_txcs s !! p = Some txc -> exists rl, w_rls (tx_w s) !! inr p = Some rl /\
    if W =? 0 then txcs !! p = Some txc /\ rls !! inr p = Some rl
    else txcs !! p = Some (recomputed W txc rl).1 /\ rls !! inr p = Some (recomputed W txc rl).2) ->
  classes_ok (let w := tx_w s in {| s with tx_txcs := txcs; tx_w := {| w with w_rls := rls |} |}).
Proof.
  intros Hc l W HW Hout Hin. split; cbn [tx_ctx tx_txcs tx_w w_rls]; [apply Hc| |].
  - intros p Hp. destruct (cls_live s Hc p Hp) as [[txc Htxc] _].
    destruct (Hin p txc Hp Htxc) as (rl & _ & E). destruct (W =? 0), E as [-> ->]; eauto.
  - intros p txc' Hp'. destruct (decide (p ∈ l)) as [Hp|Hp]; [|rewrite Hout in Hp' by done; by apply (cls_ok s Hc p)].
    destruct (cls_live s Hc p Hp) as [[txc Htxc] _]. destruct (Hin p txc Hp Htxc) as (rl & _ & E).
    destruct (Z.eqb_spec W 0), E as [E _]; rewrite E in Hp'; injection Hp' as <-; [by apply (cls_ok s Hc p)|].
    apply (recomputed_ok s l p txc rl Hc); (done || lia).
Qed.

(** C17: Recomputing the classes' guarantees gives each class ISO_MAX_TX_RATE times its weight
    over the total (capped for static classes), and the guarantees add up to at most
    ISO_MAX_TX_RATE. *)
Theorem recompute_no_oversubscription (s : tx_state) :
  classes_ok s ->
  let l := txx_txc_list (tx_ctx s) in
  let W := sumZ (txc_weights (tx_txcs s) l) in
  txx_total_weight (tx_ctx s) = W -> 0 < W < 2147483648 ->
  exists s', iso_txc_recompute_rates s = Ok s' /\ classes_ok s' /\
    sumZ (min_rates (tx_txcs s') l) <= ISO_MAX_TX_RATE /\
    forall p txc, p ∈ l -> tx_txcs s !! p = Some txc ->
      exists rl', w_rls (tx_w s') !! inr p = Some rl' /\
        let m := ISO_MAX_TX_RATE * txc_weight txc / W in
        txc_min_rate <$> tx_txcs s' !! p = Some m /\
        rl_rate rl' = if txc_is_static txc =? 0 then m else Z.min (txc_max_rate txc) m.
Proof.
  intros Hc l W HW HWr. pose proof max_tx_facts. assert (HW0 : 0 <= W) by lia.
  destruct (recompute_shape s Hc HW (proj2 HWr)) as (txcs & rls & E & Hout & Hrls & Hin).
  pose proof (recompute_classes s txcs rls Hc HW0 Hout Hin) as Hc'.
  fold l W in Hin. replace (W =? 0) with false in Hin by (symmetry; apply Z.eqb_neq; lia).
  eexists. split; [exact E|]. split; [exact Hc'|]. cbn [tx_txcs tx_w w_rls]. split.
  - replace (min_rates txcs l) with (map (fun w => ISO_MAX_TX_RATE * w / W) (txc_weights (tx_txcs s) l)).
    + apply sum_shares_le; [lia|lia|done|]. apply Forall_map, Forall_forall. intros r _.
      destruct (tx_txcs s !! r) as [t|] eqn:E'; [|done]. apply (cls_ok s Hc r t E').
    + unfold txc_weights, min_rates. rewrite map_map. apply map_ext_in. intros p Hp%list_elem_of_In.
      destruct (cls_live s Hc p Hp) as [[txc Htxc] _].
      destruct (Hin p txc Hp Htxc) as (rl & _ & -> & _). rewrite Htxc. cbn. f_equal. lia.
  - intros p txc Hp Htxc. destruct (Hin p txc Hp Htxc) as (rl & _ & -> & ->). eexists. split; [done|].
    cbn. rewrite (Z.mul_comm ISO_MAX_TX_RATE). done.
Qed.
End ClassRates.

(** ** The transmit path *)

Section TxPath.
Context {K : Kernel} {KL : KernelLaws K} {P : params} {PO : params_ok P} {C : IsoClass}.
Context {Env : Oracle} {CL : ClockLaws Env}.

(** The whole transmit side is well-formed: its rate limiters, its classes, and
    the states of destinations, which have live rate limiters. *)
Record tx_inv (R : Z) (s : tx_state) : Prop := {
  ti_R : ISO_MAX_TX_RATE <= R < 2147483648;
  ti_dev : device_inv R (tx_w s);
  ti_cls : classes_ok s;
  ti_bucket b p : p ∈ txx_bucket (tx_ctx s) b -> p ∈ txx_txc_list (tx_ctx s);
  ti_rate : 0 <= txx_rate (tx_ctx s) <= ISO_MAX_TX_RATE;
  ti_state pc txc b p : tx_txcs s !! pc = Some txc -> p ∈ txc_state_bucket txc b ->
    exists st r, tx_states s !! p = Some st /\ ps_rl st = At r /\ is_Some (w_rls (tx_w s) !! inl r)
}.

(** Rewriting rates and statistics keeps a device well-formed. *)
Definition rate_only (R : Z) (rl rl' : iso_rl) : Prop :=
  rl_queue rl' = rl_queue rl /\ rl_total_tokens rl' = rl_total_tokens rl /\
  rl_last_update_time rl' = rl_last_update_time rl /\ rl_txc rl' = rl_txc rl /\ 0 <= rl_rate rl' <= R.

Lemma device_inv_rates R w rls :
  device_inv R w ->
  (forall p, w_rls w !! p = None <-> rls !! p = None) ->
  (forall p rl rl', w_rls w !! p = Some rl -> rls !! p = Some rl' -> rate_only R rl rl') ->
  device_inv R {| w with w_rls := rls |}.
Proof.
  intros [[H1 H2 H3 H4 H5] Hs Ht] Hdom Hrate.
  assert (Hold : forall p rl', rls !! p = Some rl' ->
    exists rl, w_rls w !! p = Some rl /\ rate_only R rl rl').
  { intros p rl' Hp. destruct (w_rls w !! p) as [rl|] eqn:E; [eauto|]. apply Hdom in E. congruence. }
  assert (Hnew : forall p rl, w_rls w !! p = Some rl ->
    exists rl', rls !! p = Some rl' /\ rate_only R rl rl').
  { intros p rl Hp. destruct (rls !! p) as [rl'|] eqn:E; [eauto|]. apply Hdom in E. congruence. }
  split; [split| |done].
  - intros p rl' Hp. destruct (Hold p rl' Hp) as (rl & E & (Eq & Et & El & _ & Er)).
    destruct (H1 p rl E) as [[_ Hwt Hwk] Hl]. split; [|cbn; by rewrite El].
    split; [done|by rewrite Et|by rewrite Eq].
  - intros p rl' i Hp. destruct (Hold p rl' Hp) as (rl & E & (Eq & _)). rewrite Eq. by eapply H2.
  - intros p rl' t Hp Htx. destruct (Hold p rl' Hp) as (rl & E & (_ & _ & _ & Ex & _)).
    destruct (H3 p rl t E) as (g & Hg & Hgt); [congruence|].
    destruct (Hnew _ g Hg) as (g' & Hg' & (_ & _ & _ & Exg & _)). exists g'. split; [done|congruence].
  - intros i p Hp. destruct (H4 i p Hp) as [rl E]. destruct (Hnew p rl E) as (rl' & E' & _). eauto.
  - exact H5.
  - intros i p Hi Hex rl' Hp Hne. destruct (Hold p rl' Hp) as (rl & E & (Eq & _)).
    rewrite Eq in Hne. exact (Hs i p Hi Hex rl E Hne).
Qed.

(** What a tick does to a class. *)
Definition ticked (dt rate : Z) (txc : iso_tx_class) (rl : iso_rl) : iso_tx_class * iso_rl :=
  let rl1 := iso_rl_accum rl in
  let tx_rate := u32 (u64 (Z.shiftl (u64 (rl_accum_xmit rl1 - rl_accum_xmit rl)) 3) / dt) in
  ({| txc with txc_tx_rate := tx_rate;
               txc_tx_rate_smooth := u32 (u32 (txc_tx_rate_smooth txc * 15) + tx_rate) / 16 |},
   {| rl1 with rl_rate := txc_rate rate txc |}).

Lemma txc_tick_eq dt rate s p txc rl :
  dt <> 0 -> tx_txcs s !! p = Some txc -> w_rls (tx_w s) !! inr p = Some rl ->
  txc_tick dt rate s p = Ok (set_w (set_rl (inr p) (ticked dt rate txc rl).2 (tx_w s))
                                   (set_txc p (ticked dt rate txc rl).1 s)).
Proof.
  intros Hdt Htxc Hrl. unfold txc_tick, ticked. rewrite (deref_ok _ _ _ Htxc), (deref_ok _ _ _ Hrl).
  cbn [mbind outcome_bind fst snd]. rewrite div_u_ok by done. reflexivity.
Qed.

Lemma tx_inv_read R s :
  tx_inv R s -> tx_inv R (set_w (let w := tx_w s in {| w with w_reads := S (w_reads w) |}) s).
Proof.
  intros [H1 [Hok Hs Ht] H3 H4 H5 H6]. split; try done.
  - split; [exact (ev_ok _ _ _ _ _ (ev_read R 0%nat [] (tx_w s) Hok))|done|done].
  - split; apply H3.
Qed.

(** What a tick does not write. *)
Definition txc_kept (txcs txcs' : gmap loc iso_tx_class) : Prop :=
  forall A (f : iso_tx_class -> A),
    (forall txc a b, f {| txc with txc_tx_rate := a; txc_tx_rate_smooth := b |} = f txc) ->
    forall p, f <$> txcs' !! p = f <$> txcs !! p.

Definition rl_kept (rls rls' : gmap rlptr iso_rl) : Prop :=
  forall A (f : iso_rl -> A),
    (forall rl a b c, f {| rl with rl_rate := a; rl_accum_xmit := b; rl_accum_enqueued := c |} = f rl) ->
    forall q, f <$> rls' !! q = f <$> rls !! q.

(** One tick: not due or not locked, or every class gets its share of the
    context's new rate. *)
Definition tick_spec (R : Z) (s s' : tx_state) : Prop :=
  tx_inv R s' /\ tx_states s' = tx_states s /\ w_xmit (tx_w s') = w_xmit (tx_w s) /\
  txx_txc_list (tx_ctx s') = txx_txc_list (tx_ctx s) /\
  rl_kept (w_rls (tx_w s)) (w_rls (tx_w s')) /\ txc_kept (tx_txcs s) (tx_txcs s') /\
  (s' = set_w (let w := tx_w s in {| w with w_reads := S (w_reads w) |}) s \/
   ISO_MIN_RFAIR <= txx_rate (tx_ctx s') <= ISO_MAX_TX_RATE /\
   forall p txc, p ∈ txx_txc_list (tx_ctx s) -> tx_txcs s !! p = Some txc ->
     exists rl', w_rls (tx_w s') !! inr p = Some rl' /\
       rl_rate rl' = txc_rate (txx_rate (tx_ctx s')) txc).

Lemma class_or_not (l : list loc) (q : rlptr) :
  (exists p, p ∈ l /\ q = inr p) \/ (forall p, p ∈ l -> q <> inr p).
Proof.
  destruct q as [p|p]; [by right|]. destruct (decide (p ∈ l)); [left; eauto|].
  right. intros r Hr [= ->]. done.
Qed.

(** The rate limiters after a tick. *)
Lemma ticked_device R s dt rate rls :
  ISO_MAX_TX_RATE <= R -> 0 <= rate <= ISO_MAX_TX_RATE -> device_inv R (tx_w s) -> classes_ok s ->
  (forall q, (forall p, p ∈ txx_txc_list (tx_ctx s) -> q <> inr p) -> rls !! q = w_rls (tx_w s) !! q) ->
  (forall p txc rl, p ∈ txx_txc_list (tx_ctx s) -> tx_txcs s !! p = Some txc ->
    w_rls (tx_w s) !! inr p = Some rl -> rls !! inr p = Some (ticked dt rate txc rl).2) ->
  device_inv R (let w := tx_w s in {| w with w_rls := rls |}).
Proof.
  intros HR Hrate Hdev Hc Hrls Hin. apply device_inv_rates; [done| |].
  - intros q. destruct (class_or_not (txx_txc_list (tx_ctx s)) q) as [(p & Hp & ->)|Hno]; [|by rewrite Hrls].
    destruct (cls_live s Hc p Hp) as [[txc Htxc] [rl Hrl]].
    rewrite Hrl, (Hin p txc rl Hp Htxc Hrl). split; discriminate.
  - intros q rl rl' Hq Hq'. destruct (class_or_not (txx_txc_list (tx_ctx s)) q) as [(p & Hp & ->)|Hno].
    + destruct (cls_live s Hc p Hp) as [[txc Htxc] _].
      rewrite (Hin p txc rl Hp Htxc Hq) in Hq'. injection Hq' as <-.
      pose proof (txc_rate_range rate txc (cls_ok s Hc p txc Htxc) Hrate).
      do 4 (split; [done|]). cbn. lia.
    + rewrite Hrls in Hq' by done. assert (rl' = rl) as -> by congruence.
      pose proof (wf_rate R rl (proj1 (wok_rl R _ (dinv_ok R _ Hdev) q rl Hq))). done.
Qed.

Lemma tick_classes_ok R s s1 dt rate :
  tx_inv R s1 -> tx_ctx s1 = tx_ctx s -> ISO_MIN_RFAIR <= rate <= ISO_MAX_TX_RATE ->
  dt <> 0 -> txx_rate (tx_ctx s1) = rate ->
  exists s', foldM (txc_tick dt rate) (txx_txc_list (tx_ctx s)) s1 = Ok s' /\
    tx_inv R s' /\ tx_ctx s' = tx_ctx s1 /\ tx_states s' = tx_states s1 /\
    w_xmit (tx_w s') = w_xmit (tx_w s1) /\
    (forall p, p ∉ txx_txc_list (tx_ctx s) -> tx_txcs s' !! p = tx_txcs s1 !! p) /\
    rl_kept (w_rls (tx_w s1)) (w_rls (tx_w s')) /\
    forall p txc, p ∈ txx_txc_list (tx_ctx s) -> tx_txcs s1 !! p = Some txc ->
      exists rl, tx_txcs s' !! p = Some (ticked dt rate txc rl).1 /\
                 w_rls (tx_w s') !! inr p = Some (ticked dt rate txc rl).2.
Proof.
  intros Hinv Ectx Hrate Hdt Er. pose proof Hinv as [HR Hdev Hc Hb Hr Hst]. rewrite <- Ectx.
  set (l := txx_txc_list (tx_ctx s1)) in *. pok.
  destruct (class_loop (txc_tick dt rate) (ticked dt rate) class_ok l) with (s := s1)
    as (txcs & rls & E & Hout & Hrls & Hin).
  { intros. by apply txc_tick_eq. } { apply Hc. } { apply Hc. } { intros p txc _. apply (cls_ok s1 Hc). }
  assert (Hafter : forall p txc, p ∈ l -> tx_txcs s1 !! p = Some txc -> exists rl,
    w_rls (tx_w s1) !! inr p = Some rl /\
    txcs !! p = Some (ticked dt rate txc rl).1 /\ rls !! inr p = Some (ticked dt rate txc rl).2).
  { intros p txc Hp Htxc. destruct (cls_live s1 Hc p Hp) as [_ [rl Hrl]]. exists rl. split; [done|]. by apply Hin. }
  assert (Hback : forall p txc', txcs !! p = Some txc' -> exists txc, tx_txcs s1 !! p = Some txc /\
    (txc' = txc \/ exists rl, txc' = (ticked dt rate txc rl).1)).
  { intros p txc' Hp'. destruct (decide (p ∈ l)) as [Hp|Hp]; [|rewrite Hout in Hp' by done; eauto].
    destruct (cls_live s1 Hc p Hp) as [[txc Htxc] _].
    destruct (Hafter p txc Hp Htxc) as (rl & _ & E2 & _). exists txc. split; [done|]. right.
    exists rl. congruence. }
  eexists. split; [exact E|]. cbn [tx_ctx tx_states tx_w w_xmit tx_txcs w_rls].
  split; [|do 4 (split; [done|]); split;
    [|intros p txc Hp Htxc; destruct (Hafter p txc Hp Htxc) as (rl & _ & ?); eauto]].
  2:{ intros A f Hf q. destruct (class_or_not l q) as [(p & Hp & ->)|Hno]; [|by rewrite Hrls].
      destruct (cls_live s1 Hc p Hp) as [[txc Htxc] _].
      destruct (Hafter p txc Hp Htxc) as (rl & -> & _ & ->). cbn. f_equal. apply Hf. }
  split; cbn [tx_ctx tx_states tx_w w_xmit tx_txcs w_rls]; try done.
  - apply (ticked_device R s1 dt rate rls); [lia|lia|done|done|done|].
    intros p txc rl Hp Htxc Hrl. by apply (Hin p txc rl).
  - split; cbn [tx_ctx tx_states tx_w w_xmit tx_txcs w_rls]; [apply Hc| |].
    + intros p Hp. destruct (cls_live s1 Hc p Hp) as [[txc Htxc] _].
      destruct (Hafter p txc Hp Htxc) as (rl & _ & -> & ->). eauto.
    + intros p txc' Hp'. destruct (Hback p txc' Hp') as (txc & Htxc & [->|[rl ->]]);
        [by apply (cls_ok s1 Hc p)|]. destruct (cls_ok s1 Hc p txc Htxc). by split.
  - intros pc txc' b p Hpc Hp. destruct (Hback pc txc' Hpc) as (txc & Htxc & Hor).
    assert (Hp0 : p ∈ txc_state_bucket txc b) by (by destruct Hor as [->|[rl ->]]).
    destruct (Hst pc txc b p Htxc Hp0) as (st & r & H1 & H2 & [rl H3]). exists st, r.
    split; [done|]. split; [done|]. rewrite Hrls by done. eauto.
Qed.

Lemma iso_txc_tick_ok R trylock s :
  tx_inv R s -> exists s', iso_txc_tick trylock s = Ok s' /\ tick_spec R s s'.
Proof.
  intros Hinv. pose proof (tx_inv_read R s Hinv) as Hread. unfold iso_txc_tick.
  set (s0 := set_w _ s) in *. set (dt := u64 _).
  assert (Hstay : tick_spec R s s0) by (do 6 (split; [done|]); by left).
  destruct (Z.ltb_spec dt (u64 ISO_TXC_UPDATE_INTERVAL_US)) as [|Hdue]; [eauto|].
  destruct trylock; cbn [negb]; [|eauto]. pok. rewrite u64_small in Hdue by lia.
  rewrite div_u_ok by lia. cbn [mbind outcome_bind].
  set (tx_rate := u32 _). set (ctx1 := tx_ctx (iso_txctx_accum _)).
  destruct (txx_rcp_step_ok (txx_rate ctx1) tx_rate) as (rate & -> & Hrate). cbn [mbind outcome_bind].
  set (s1 := {| tx_ctx := _; tx_txcs := _; tx_states := _; tx_w := _ |}).
  assert (Hinv1 : tx_inv R s1).
  { destruct Hread as [H1 H2 H3 H4 H5 H6]. split; try done; [split; apply H3|cbn; lia]. }
  destruct (tick_classes_ok R s1 s1 dt rate Hinv1 eq_refl Hrate ltac:(lia) eq_refl) as
    (s' & E & Hinv' & Ectx & Est & Ex & Hout & Hqs & Hin).
  exists s'. split; [exact E|].
  assert (Hsame : txc_kept (tx_txcs s) (tx_txcs s')).
  { intros A f Hf p. change (tx_txcs s) with (tx_txcs s1).
    destruct (decide (p ∈ txx_txc_list (tx_ctx s1))) as [Hp|Hp]; [|by rewrite Hout].
    destruct (cls_live s1 (ti_cls _ _ Hinv1) p Hp) as [[txc Htxc] _].
    destruct (Hin p txc Hp Htxc) as (rl & -> & _). rewrite Htxc. cbn [fmap option_fmap option_map].
    f_equal. apply Hf. }
  split; [done|]. split; [done|]. split; [done|]. split; [by rewrite Ectx|].
  split; [exact Hqs|]. split; [exact Hsame|]. right. rewrite Ectx. split; [exact Hrate|].
  intros p txc Hp Htxc. destruct (Hin p txc Hp Htxc) as (rl & _ & E2). eauto.
Qed.
End TxPath.

(** ** A transmit side with one class *)

Definition ex_pkt : sk_buff := {| ex_skb with skb_mark := 7 |}.
Definition ex_dst : Z := ntohl (K := ref_kernel) (iph_daddr (skb_iph ex_pkt)).

(** Class 7 is at 1, with its destination's state at 3 and rate limiter at 2, and a
    state at 4 and a rate limiter at 5 in stock. *)
Definition ex_txc : iso_tx_class := {|
  txc_klass := 7;
  txc_rl_bucket := hlist_add_head (Z.land (jhash_1word (Kernel := ref_kernel) ex_dst 4207868622) (ISO_MAX_RL_BUCKETS - 1)) 2%positive no_buckets;
  txc_state_bucket := hlist_add_head (state_hash (K := ref_kernel) ex_dst) 3%positive no_buckets;
  txc_vq := None; txc_prealloc_state_list := [4%positive]; txc_prealloc_rl_list := [5%positive];
  txc_freelist_count := 1; txc_weight := 1; txc_active := 0; txc_tx_rate := 0; txc_tx_rate_smooth := 0;
  txc_min_rate := 9800; txc_max_rate := 9800; txc_is_static := 0; txc_allocator := false |}.

Definition ex_tx : tx_state := {|
  tx_ctx := {| txx_bucket := hlist_add_head (chain_of (C := Mark.ops) ISO_MAX_TX_BUCKETS 7) 1%positive no_buckets;
               txx_txc_list := [1%positive]; txx_last_update_time := 0; txx_total_weight := 1;
               txx_tx_bytes := 0; txx_tx_rate := 0; txx_rate := 2 |};
  tx_txcs := {[ 1%positive := ex_txc ]};
  tx_states := <[3%positive := {| ps_ip_key := ex_dst; ps_rl := At 2%positive; ps_tx_rc := ex_rc |}]>
              {[ 4%positive := {| ps_ip_key := 0; ps_rl := NULL; ps_tx_rc := ex_rc |} ]};
  tx_w := ex_world |}.

Lemma ex_tx_lookup p txc : tx_txcs ex_tx !! p = Some txc -> p = 1%positive /\ txc = ex_txc.
Proof. cbn [tx_txcs ex_tx]. rewrite lookup_singleton_Some. by intros [-> ->]. Qed.

Lemma ex_classes_ok : classes_ok (P := default_params) ex_tx.
Proof.
  split.
  - cbn. apply NoDup_singleton.
  - intros p ->%list_elem_of_singleton. split; eexists; vm_compute; reflexivity.
  - intros p txc [_ ->]%ex_tx_lookup. split; cbn; lia.
Qed.

Lemma ex_tx_inv : tx_inv (K := ref_kernel) (P := default_params) (Env := ex_env) 10000 ex_tx.
Proof.
  split.
  - cbn. lia.
  - apply ex_world_inv.
  - apply ex_classes_ok.
  - intros b p. cbn [tx_ctx ex_tx txx_bucket txx_txc_list]. unfold hlist_add_head, no_buckets.
    destruct (_ =? _); [done|by intros ?%not_elem_of_nil].
  - cbn. lia.
  - intros pc txc b p [_ ->]%ex_tx_lookup. cbn [txc_state_bucket ex_txc]. unfold hlist_add_head, no_buckets.
    destruct (_ =? _); [|by intros ?%not_elem_of_nil]. intros ->%list_elem_of_singleton.
    eexists _, 2%positive. split; [vm_compute; reflexivity|]. split; [reflexivity|].
    eexists. vm_compute. reflexivity.
Qed.

Lemma txx_rcp_step_control_law_witness :
  exists r, txx_rcp_step (P := default_params) 5000 4900 = Ok r /\ 5000 <= r.
Proof.
  destruct (txx_rcp_step_control_law (P := default_params) 5000 4900) as (r & H1 & _ & H2 & _);
    [cbn; lia|cbn; lia|].
  exists r. split; [exact H1|]. apply H2. cbn. lia.
Defined.

Lemma recompute_no_oversubscription_witness :
  exists s', iso_txc_recompute_rates (P := default_params) ex_tx = Ok s' /\
    sumZ (min_rates (tx_txcs s') [1%positive]) <= 9800.
Proof.
  destruct (recompute_no_oversubscription (P := default_params) ex_tx ex_classes_ok) as (s' & H1 & _ & H2 & _);
    [vm_compute; reflexivity|vm_compute; split; reflexivity|].
  exists s'. split; [exact H1|exact H2].
Defined.
