(* ===== verification/TxPath.v ===== *)
(** * The packet path and the destination table of the transmit side (tx.c)

    [iso_tx] from a well-formed state never faults and keeps it well-formed; how
    [iso_state_get] finds, creates and confuses the states of destinations. *)

From S2P Require Import Prelude Params Kernel Packet Scan Class RateControl HashTable VirtualQueue.
From S2P Require Import VqTable RateLimiter Dequeue Device Tx.

Open Scope Z_scope.

Section Path.
Context {K : Kernel} {KL : KernelLaws K} {P : params} {PO : params_ok P} {C : IsoClass}.
Context {Env : Oracle} {CL : ClockLaws Env}.

(** The cursor after the search: untouched on an empty chain, and otherwise an
    entry, with the key if the chain has it. *)
Lemma state_scan_spec h chain ip : forall cur,
  live h chain ->
  exists c, state_scan h chain ip cur = Ok c /\
    match chain with
    | [] => c = cur
    | _ => exists p st, c = At p /\ p ∈ chain /\ h !! p = Some st /\
        ((exists q st', q ∈ chain /\ h !! q = Some st' /\ ps_ip_key st' = ip) -> ps_ip_key st = ip)
    end.
Proof.
  induction chain as [|q chain IH]; intros cur Hl; [by exists cur|].
  apply Forall_cons in Hl as [[st Hst] Hl]. cbn [state_scan]. rewrite (deref_ok _ _ _ Hst).
  cbn [mbind outcome_bind]. destruct (Z.eqb_spec (ps_ip_key st) ip) as [Heq|Hne].
  - exists (At q). split; [done|]. exists q, st. split; [done|]. split; [apply list_elem_of_here|done].
  - destruct (IH (At q) Hl) as (c & -> & Hc). exists c. split; [done|]. destruct chain as [|q2 chain].
    + subst c. exists q, st. split; [done|]. split; [apply list_elem_of_here|]. split; [done|].
      intros (r & st' & Hr & Hst' & Hk). apply list_elem_of_singleton in Hr as ->. congruence.
    + destruct Hc as (p & st2 & -> & Hp & Hst2 & Hkey). exists p, st2. split; [done|].
      split; [by apply list_elem_of_further|]. split; [done|]. intros (r & st' & Hr & Hst' & Hk).
      apply Hkey. exists r, st'. split; [|done]. apply elem_of_cons in Hr as [->|Hr]; [congruence|done].
Qed.

(** The destination a lookup is about. *)
Definition dest_ip (rx : bool) (skb : sk_buff) : Z :=
  if rx then ntohl (iph_saddr (skb_iph skb)) else ntohl (iph_daddr (skb_iph skb)).

(** Searching a bucket: it is empty, or the search ends on a state with a live
    rate limiter. *)
Lemma bucket_scan R s pc txc ip :
  tx_inv R s -> tx_txcs s !! pc = Some txc ->
  let chain := txc_state_bucket txc (state_hash ip) in
  chain = [] \/
  exists p st r, state_scan (tx_states s) chain ip NULL = Ok (At p) /\
    tx_states s !! p = Some st /\ ps_rl st = At r /\ is_Some (w_rls (tx_w s) !! inl r).
Proof.
  intros Hinv Hpc chain. pose proof (fun p => ti_state R s Hinv pc txc (state_hash ip) p Hpc) as Hst. fold chain in Hst.
  destruct (state_scan_spec (tx_states s) chain ip NULL) as (c & Ec & Hc).
  { apply Forall_forall. intros p Hp. destruct (Hst p Hp) as (st & r & ? & _). eauto. }
  destruct chain as [|q chain']; [by left|]. right. destruct Hc as (p & st & -> & Hp & Hsp & _).
  destruct (Hst p Hp) as (st' & r & H1 & H2 & H3). assert (st' = st) as -> by congruence. eauto 10.
Qed.

(** A lookup that finds an entry in its bucket returns it. *)
Lemma state_get_found s pc txc skb trylock t rx create p :
  is_ip skb = true -> tx_txcs s !! pc = Some txc ->
  state_scan (tx_states s) (txc_state_bucket txc (state_hash (dest_ip rx skb))) (dest_ip rx skb) NULL = Ok (At p) ->
  iso_state_get trylock t pc skb rx create s = Ok (At p, s).
Proof.
  intros Hip Hpc E. unfold iso_state_get. rewrite Hip, (deref_ok _ _ _ Hpc). cbn [negb mbind outcome_bind].
  fold (dest_ip rx skb). by rewrite E.
Qed.

(** A lookup that must not create, or finds the class locked, leaves the state as it is. *)
Lemma state_get_none s pc txc skb trylock t rx create :
  is_ip skb = false \/ (create = ISO_DONT_CREATE_RL \/ trylock = false) /\
    tx_txcs s !! pc = Some txc /\ txc_state_bucket txc (state_hash (dest_ip rx skb)) = [] ->
  iso_state_get trylock t pc skb rx create s = Ok (NULL, s).
Proof.
  intros [Hip|(Hno & Hpc & Eb)]; unfold iso_state_get; [by rewrite Hip|].
  destruct (is_ip skb); [|done]. rewrite (deref_ok _ _ _ Hpc). cbn [negb mbind outcome_bind].
  fold (dest_ip rx skb). rewrite Eb. cbn [state_scan mret outcome_ret mbind outcome_bind].
  destruct Hno as [->| ->]; [by rewrite bool_decide_eq_true_2|by rewrite orb_true_r].
Qed.

(** The lookup of the packet path. *)
Lemma state_get_read R s pc txc skb trylock t rx :
  tx_inv R s -> tx_txcs s !! pc = Some txc ->
  exists c, iso_state_get trylock t pc skb rx ISO_DONT_CREATE_RL s = Ok (c, s) /\
    (c = NULL \/ exists p st r, c = At p /\
       state_scan (tx_states s) (txc_state_bucket txc (state_hash (dest_ip rx skb))) (dest_ip rx skb) NULL = Ok c /\
       tx_states s !! p = Some st /\ ps_rl st = At r /\ is_Some (w_rls (tx_w s) !! inl r)).
Proof.
  intros Hinv Hpc. destruct (is_ip skb) eqn:Eip.
  2:{ exists NULL. split; [apply (state_get_none s pc txc); by left|by left]. }
  destruct (bucket_scan R s pc txc (dest_ip rx skb) Hinv Hpc) as [Eb|(p & st & r & E & Hst)].
  - exists NULL. split; [apply (state_get_none s pc txc); by auto|by left].
  - exists (At p). split; [by apply (state_get_found s pc txc)|]. right. by exists p, st, r.
Qed.

(** What a class has in stock for new destinations. *)
Record stock_ok (s : tx_state) (txc : iso_tx_class) : Prop := {
  stk_states p : p ∈ txc_prealloc_state_list txc -> is_Some (tx_states s !! p);
  stk_rls p : p ∈ txc_prealloc_rl_list txc -> is_Some (w_rls (tx_w s) !! inl p);
  stk_bucket b p : p ∈ txc_rl_bucket txc b -> is_Some (w_rls (tx_w s) !! inl p);
  stk_enough : (length (txc_prealloc_state_list txc) <= length (txc_prealloc_rl_list txc))%nat;
  stk_count : txc_freelist_count txc = Z.of_nat (length (txc_prealloc_state_list txc));
  stk_small : txc_freelist_count txc < 2147483648
}.

(** The transmit side with the stock of its classes, whose own rate limiters are
    the roots of the hierarchy. *)
Record tx_ok (R : Z) (s : tx_state) : Prop := {
  txo_inv : tx_inv R s;
  txo_root p : p ∈ txx_txc_list (tx_ctx s) -> exists g, w_rls (tx_w s) !! inr p = Some g /\ rl_txc g = None;
  txo_stock pc txc : tx_txcs s !! pc = Some txc -> stock_ok s txc
}.

Definition stock (txc : iso_tx_class) : list loc * list loc * buckets * Z :=
  (txc_prealloc_state_list txc, txc_prealloc_rl_list txc, txc_rl_bucket txc, txc_freelist_count txc).

Lemma stock_ok_mono s s' txc txc' :
  (forall p, is_Some (tx_states s !! p) -> is_Some (tx_states s' !! p)) ->
  (forall q, is_Some (w_rls (tx_w s) !! q) -> is_Some (w_rls (tx_w s') !! q)) ->
  stock txc' = stock txc -> stock_ok s txc -> stock_ok s' txc'.
Proof.
  intros Hst Hrl [= E1 E2 E3 E4] [H1 H2 H3 H4 H5 H6]. split; rewrite ?E1, ?E2, ?E3, ?E4; eauto.
Qed.

(** What the rate limiters do keeps the transmit side well-formed. *)
Lemma tx_ok_device R s w :
  tx_ok R s -> device_inv R w -> conforms R (tx_w s) w -> tx_ok R (set_w w s).
Proof.
  intros [[H1 H2 H3 H4 H5 H6] Hroot Hstk] Hdev [_ (l & _ & Hl)].
  assert (Hlive : forall q, is_Some (w_rls (tx_w s) !! q) -> is_Some (w_rls w !! q)).
  { intros q [rl Hq]. destruct (Hl q rl Hq) as (rl' & n & Hq' & _). eauto. }
  split; [split; try done| |].
  - split; [apply H3| |apply H3]. intros p Hp. destruct (cls_live s H3 p Hp). cbn. auto.
  - intros pc txc b p Hpc Hp. destruct (H6 pc txc b p Hpc Hp) as (st & r & ? & ? & ?).
    exists st, r. cbn. auto.
  - intros p Hp. destruct (Hroot p Hp) as (g & Hg & Htx). destruct (Hl _ g Hg) as (g' & n & Hg' & _ & Et & _).
    exists g'. split; [done|congruence].
  - intros pc txc Hpc. by apply (stock_ok_mono s _ txc); [| | |apply (Hstk pc)].
Qed.

(** So does the tick. *)
Lemma tick_ok R trylock s :
  tx_ok R s -> exists s', iso_txc_tick trylock s = Ok s' /\ tick_spec R s s' /\ tx_ok R s'.
Proof.
  intros [Hinv Hroot Hstk]. destruct (iso_txc_tick_ok R trylock s Hinv) as (s' & E & Hs').
  exists s'. split; [done|]. split; [done|]. destruct Hs' as (Hinv' & Est & _ & El & Hq & Hf & _). split; [done| |].
  { intros p. rewrite El. intros Hp. destruct (Hroot p Hp) as (g & Hg & Hgt).
    pose proof (Hq _ rl_txc (fun _ _ _ _ => eq_refl) (inr p)) as Et. rewrite Hg in Et.
    destruct (w_rls (tx_w s') !! inr p) as [g'|]; [|done]. injection Et as Et. exists g'. split; congruence. }
  intros pc txc' Hpc'. pose proof (Hf _ stock (fun _ _ _ => eq_refl) pc) as Hsame. rewrite Hpc' in Hsame.
  destruct (tx_txcs s !! pc) as [txc|] eqn:Hpc; [|done]. apply (inj Some) in Hsame.
  apply (stock_ok_mono s _ txc); [by rewrite Est| |done|by apply (Hstk pc)].
  intros q [rl Hrl]. pose proof (Hq _ rl_queue (fun _ _ _ _ => eq_refl) q) as Hqq. rewrite Hrl in Hqq.
  destruct (w_rls (tx_w s') !! q); [eauto|done].
Qed.

(** The rate limiter of the destination of a packet: that of the state that its class has for it. *)
Definition limiter_of (skb : sk_buff) (s : tx_state) (r : loc) : Prop :=
  let ip := dest_ip false skb in
  exists pc txc p st, iso_txc_find (op_txc_classify skb) s = Ok (Some pc) /\ tx_txcs s !! pc = Some txc /\
    state_scan (tx_states s) (txc_state_bucket txc (state_hash ip)) ip NULL = Ok (At p) /\
    tx_states s !! p = Some st /\ ps_rl st = At r.

(** The packet was offered to the rate limiter of its destination. *)
Definition offered (skb : sk_buff) (cpu : nat) (v : iso_verdict) (s s' : tx_state) : Prop :=
  exists r, limiter_of skb s' r /\ submitted r (iso_enable_ecn skb) cpu v (tx_w s) (tx_w s').

(** No packet was queued or sent. *)
Definition untouched (s s' : tx_state) : Prop :=
  w_xmit (tx_w s') = w_xmit (tx_w s) /\
  forall q, rl_queue <$> w_rls (tx_w s') !! q = rl_queue <$> w_rls (tx_w s) !! q.

(** The tick moves no packet. *)
Lemma tick_untouched R s s1 : tick_spec R s s1 -> untouched s s1.
Proof. intros (_ & _ & Hx & _ & Hq & _). split; [exact Hx|]. exact (Hq _ rl_queue (fun _ _ _ _ => eq_refl)). Qed.

Lemma tick_submitted R r pkt cpu v s s1 w' :
  tick_spec R s s1 -> submitted r pkt cpu v (tx_w s1) w' -> submitted r pkt cpu v (tx_w s) w'.
Proof.
  intros Ht (rl1 & rl' & added & moved & Hr1 & Hr' & Ha & El & Hd). destruct (tick_untouched R s s1 Ht) as [Hx Hq].
  destruct Ht as (_ & _ & _ & _ & Hk & _).
  pose proof (Hq (inl r)) as E1. pose proof (Hk _ rl_txc (fun _ _ _ _ => eq_refl) (inl r)) as E2.
  rewrite Hr1 in E1, E2. destruct (w_rls (tx_w s) !! inl r) as [rl|] eqn:Hr; [|done].
  cbn in E1, E2. injection E1 as E1. injection E2 as E2. rewrite E1 in Ha, El.
  exists rl, rl', added, moved. do 4 (split; [done|]). unfold delivered in *. rewrite E2, Hx in Hd.
  destruct (rl_txc rl) as [t|]; [|done]. unfold qlist in *. pose proof (Hq (inr t)) as E3.
  destruct (w_rls (tx_w s1) !! inr t) as [g1|], (w_rls (tx_w s) !! inr t) as [g|]; try done.
  cbn in E3. injection E3 as E3. by rewrite E3 in Hd.
Qed.

(** The classes a lookup reads are live. *)
Lemma txc_find_live R klass s :
  tx_inv R s -> exists found, iso_txc_find klass s = Ok found /\
    forall pc, found = Some pc -> is_Some (tx_txcs s !! pc).
Proof.
  intros Hinv. unfold iso_txc_find.
  destruct (chain_find_live txc_klass (tx_txcs s) (txx_bucket (tx_ctx s) (chain_of ISO_MAX_TX_BUCKETS klass)) klass)
    as (found & -> & Hin).
  { apply Forall_forall. intros p Hp. apply (cls_live _ (ti_cls R _ Hinv)). by eapply ti_bucket. }
  exists found. split; [done|]. intros pc ->. apply (cls_live _ (ti_cls R _ Hinv) pc).
  by eapply ti_bucket; [done|apply Hin].
Qed.

(** A packet on the way out: it is passed through after the tick, or handed to
    the rate limiter of its destination. *)
Lemma iso_tx_ok R ticklock cpu skb s :
  tx_ok R s -> cpu ∈ possible_cpus -> pkt_ok skb ->
  exists v s1 s', iso_txc_tick ticklock s = Ok s1 /\ tick_spec R s s1 /\
    iso_tx ticklock cpu skb s = Ok (v, s') /\ tx_ok R s' /\
    (v = ISO_VERDICT_PASS /\ s' = s1 \/ is_ip skb = true /\ offered skb cpu v s1 s').
Proof.
  intros Hok Hcpu Hpkt. unfold iso_tx.
  destruct (tick_ok R ticklock s Hok) as (s1 & E1 & Hspec & Hok1). rewrite E1.
  cbn [mbind outcome_bind]. pose proof (txo_inv R s1 Hok1) as Hinv1.
  destruct (txc_find_live R (op_txc_classify skb) s1 Hinv1) as (r & Ef & Hr). rewrite Ef.
  cbn [mbind outcome_bind]. destruct r as [pc|]; [|by eexists _, s1, s1; eauto 10].
  destruct (Hr pc eq_refl) as [txc Hpc].
  destruct (state_get_read R s1 pc txc skb false (fun _ => 0) false Hinv1 Hpc) as (c & E & Hc).
  rewrite E. cbn [mbind outcome_bind]. destruct Hc as [->|(p & st & rp & -> & Hscan & Hst & Hrl & Hlive)];
    [by eexists _, s1, s1; eauto 10|].
  assert (Hip : is_ip skb = true).
  { destruct (is_ip skb) eqn:Eip; [done|]. unfold iso_state_get in E. rewrite Eip in E. discriminate. }
  cbn [deref_ptr]. rewrite (deref_ok _ _ _ Hst). cbn [mbind outcome_bind]. rewrite Hrl.
  assert (HR : 2 <= R < 2147483648) by (pose proof (ti_R R s1 Hinv1); pose proof max_tx_facts; lia).
  destruct (tx_submit_ok R (tx_w s1) (inl rp) (iso_enable_ecn skb) cpu) as (v & w & E2 & Hdev & Hconf).
  { exact HR. } { apply Hinv1. } { done. } { exact Hpkt. } { done. }
  rewrite E2. cbn [mbind outcome_bind]. eexists v, s1, _. split; [done|]. split; [done|]. split; [reflexivity|].
  split; [by apply tx_ok_device|]. right. split; [done|]. exists rp. split; [by exists pc, txc, p, st|].
  apply (tx_submit_flow R); try done. exact (dinv_ok R _ (ti_dev R s1 Hinv1)).
Qed.

(** Transmitting a packet from a well-formed transmit side never faults and keeps it well-
    formed; a packet that is passed through (no class, no state, not IP) is not queued and
    nothing is sent for it. *)
Theorem iso_tx_safe (R : Z) (ticklock : bool) (cpu : nat) (skb : sk_buff) (s : tx_state) :
  tx_ok R s -> cpu ∈ possible_cpus -> pkt_ok skb ->
  exists v s', iso_tx ticklock cpu skb s = Ok (v, s') /\ tx_ok R s' /\
    (v = ISO_VERDICT_PASS ->
       w_xmit (tx_w s') = w_xmit (tx_w s) /\
       forall q, rl_queue <$> w_rls (tx_w s') !! q = rl_queue <$> w_rls (tx_w s) !! q) /\
    (is_ip skb = false -> v = ISO_VERDICT_PASS).
Proof.
  intros Hok Hcpu Hpkt.
  destruct (iso_tx_ok R ticklock cpu skb s Hok Hcpu Hpkt) as (v & s1 & s' & _ & Ht & E & Hok' & Hor).
  exists v, s'. split; [exact E|]. split; [exact Hok'|]. destruct Hor as [[-> ->]|[Hip Hoff]].
  - split; [|done]. intros _. by apply (tick_untouched R).
  - split; [|congruence]. intros ->. by destruct Hoff as (r & _ & rl & rl' & added & moved & _ & _ & [] & _).
Qed.

(** What a verdict of [iso_tx] says of the packet. *)
Lemma iso_tx_verdict R ticklock cpu skb s :
  tx_ok R s -> cpu ∈ possible_cpus -> pkt_ok skb ->
  exists v s', iso_tx ticklock cpu skb s = Ok (v, s') /\ tx_ok R s' /\
    match v with
    | ISO_VERDICT_PASS => untouched s s'
    | _ => is_ip skb = true /\ offered skb cpu v s s'
    end.
Proof.
  intros Hok Hcpu Hpkt. destruct (iso_tx_ok R ticklock cpu skb s Hok Hcpu Hpkt) as (v & s1 & s' & _ & Ht & E & Hok' & Hor).
  exists v, s'. split; [done|]. split; [done|]. destruct Hor as [[-> ->]|(Hip & r & Hl & Hs)]; [by apply (tick_untouched R)|].
  assert (Hoff : offered skb cpu v s s') by (exists r; split; [done|by eapply tick_submitted]).
  destruct v; try done. by destruct Hs as (rl & rl' & added & moved & _ & _ & [] & _).
Qed.

(** A packet that segmentation refused. *)
Lemma offered_error skb cpu s s' :
  offered skb cpu ISO_VERDICT_ERROR s s' -> skb_gso_segment (iso_enable_ecn skb) = GsoErr.
Proof. by intros (r & _ & rl & rl' & added & moved & _ & _ & (_ & _ & E) & _). Qed.

(** C35: A lookup of a destination whose bucket holds only other destinations returns the state
    of one of those, whatever the create flag. *)
Theorem state_get_collision (trylock rx : bool) (t : nat -> Z) (pc : loc) (txc : iso_tx_class)
    (skb : sk_buff) (create : iso_create_t) (s : tx_state) :
  let ip := if rx then ntohl (iph_saddr (skb_iph skb)) else ntohl (iph_daddr (skb_iph skb)) in
  let chain := txc_state_bucket txc (state_hash ip) in
  is_ip skb = true -> tx_txcs s !! pc = Some txc -> live (tx_states s) chain -> chain <> [] ->
  (forall p st, p ∈ chain -> tx_states s !! p = Some st -> ps_ip_key st <> ip) ->
  exists p st, iso_state_get trylock t pc skb rx create s = Ok (At p, s) /\
    tx_states s !! p = Some st /\ ps_ip_key st <> ip.
Proof.
  intros ip chain Hip Hpc Hlive Hne Hno. unfold iso_state_get. rewrite Hip, (deref_ok _ _ _ Hpc).
  cbn [negb mbind outcome_bind]. fold ip. fold chain.
  destruct (state_scan_spec (tx_states s) chain ip NULL Hlive) as (c & -> & Hc).
  cbn [mbind outcome_bind]. destruct chain as [|q chain'] eqn:E; [done|].
  destruct Hc as (p & st & -> & Hp & Hst & _). exists p, st. split; [done|]. split; [done|]. eauto.
Qed.

(** At most one destination per bucket. *)
Definition one_per_bucket (s : tx_state) : Prop :=
  forall pc txc b, tx_txcs s !! pc = Some txc -> (length (txc_state_bucket txc b) <= 1)%nat.

Lemma pick_rl_buckets pc ip s r s' pq :
  iso_pick_rl pc ip s = Ok (r, s') ->
  txc_state_bucket <$> tx_txcs s' !! pq = txc_state_bucket <$> tx_txcs s !! pq.
Proof.
  unfold iso_pick_rl. intros E. apply bind_ok in E as (txc & Hpc & E). apply bind_ok in E as (found & _ & E).
  destruct found as [p|]; [by injection E as <- <-|].
  destruct (txc_prealloc_rl_list txc) as [|p rest]; [by injection E as <- <-|].
  apply bind_ok in E as (rl & _ & E). injection E as <- <-. cbn.
  unfold deref in Hpc. destruct (tx_txcs s !! pc) as [txc0|] eqn:E0; [|discriminate]. injection Hpc as ->.
  destruct (decide (pc = pq)) as [->|Hne]; [by rewrite lookup_insert_eq, E0|by rewrite lookup_insert_ne].
Qed.

Lemma set_txc_one pc txc s :
  one_per_bucket s -> (forall b, (length (txc_state_bucket txc b) <= 1)%nat) -> one_per_bucket (set_txc pc txc s).
Proof.
  intros H1 Hb pq txq b. cbn. destruct (decide (pc = pq)) as [->|Hne].
  - rewrite lookup_insert_eq. intros [= <-]. apply Hb.
  - rewrite lookup_insert_ne by done. apply H1.
Qed.

Lemma state_create_one t pc ip s txc c s' :
  one_per_bucket s -> tx_txcs s !! pc = Some txc -> txc_state_bucket txc (state_hash ip) = [] ->
  state_create t pc ip s = Ok (c, s') -> one_per_bucket s'.
Proof.
  intros H1 Hpc Hempty E. unfold state_create in E. rewrite (deref_ok _ _ _ Hpc) in E.
  cbn [mbind outcome_bind] in E.
  destruct (txc_prealloc_state_list txc) as [|p rest]; [by injection E as <- <-|].
  apply bind_ok in E as (st & _ & E). apply bind_ok in E as ([r s1] & Epick & E).
  assert (H1' : one_per_bucket s1).
  { intros pq txq b Hq. pose proof (pick_rl_buckets _ _ _ _ _ pq Epick) as Hb. rewrite Hq in Hb. cbn in Hb.
    destruct (tx_txcs s !! pq) as [tx0|] eqn:E0; [|discriminate]. injection Hb as ->. by apply (H1 pq). }
  assert (Hins : forall txc1, tx_txcs s1 !! pc = Some txc1 -> forall b,
    (length (hlist_add_head (state_hash ip) p (txc_state_bucket txc1) b) <= 1)%nat).
  { intros txc1 Hpc1 b. pose proof (pick_rl_buckets _ _ _ _ _ pc Epick) as Hb. rewrite Hpc1, Hpc in Hb.
    injection Hb as Hb. unfold hlist_add_head. rewrite Hb.
    destruct (Z.eqb_spec b (state_hash ip)) as [->|]; [by rewrite Hempty|by apply (H1 pc)]. }
  destruct r; [by injection E as <- <-| |]; apply bind_ok in E as (txc1 & Hpc1 & E);
    unfold deref in Hpc1; cbn [tx_txcs] in Hpc1;
    destruct (tx_txcs s1 !! pc) as [tx1|] eqn:E1; try discriminate; injection Hpc1 as ->;
    injection E as <- <-; apply set_txc_one; auto; intros b; by apply Hins.
Qed.

(** A bucket of destinations never holds more than one state: the lookup only creates into an
    empty bucket, so a class distinguishes at most as many destinations as it has buckets. *)
Theorem state_buckets_hold_one (trylock rx : bool) (t : nat -> Z) (pc : loc) (skb : sk_buff)
    (create : iso_create_t) (s s' : tx_state) (c : cptr) :
  one_per_bucket s -> iso_state_get trylock t pc skb rx create s = Ok (c, s') -> one_per_bucket s'.
Proof.
  intros H1 E. unfold iso_state_get in E. destruct (negb _); [by injection E as <- <-|].
  set (ip := if rx then _ else _) in E. apply bind_ok in E as (txc & Hpc & E).
  unfold deref in Hpc. destruct (tx_txcs s !! pc) as [tx0|] eqn:E0; [|discriminate]. injection Hpc as ->.
  apply bind_ok in E as (c1 & Escan & E). destruct c1 as [|p|]; [|by injection E as <- <-|by injection E as <- <-].
  destruct (_ || _); [by injection E as <- <-|]. rewrite Escan in E. cbn [mbind outcome_bind] in E.
  apply bind_ok in E as ([c2 s2] & Ec & E). apply bind_ok in E as (s3 & Em & E). injection E as <- <-.
  assert (Hempty : txc_state_bucket txc (state_hash ip) = []).
  { clear -Escan. destruct (txc_state_bucket txc (state_hash ip)) as [|q l]; [done|]. exfalso.
    revert Escan. enough (H : forall l q, state_scan (tx_states s) (q :: l) ip NULL <> Ok NULL) by apply H.
    enough (H : forall l cur, cur <> NULL -> state_scan (tx_states s) l ip cur <> Ok NULL).
    { intros l' q'. cbn. destruct (deref _ q') as [st|]; cbn; [|done]. destruct (_ =? ip); [done|]. by apply H. }
    induction l0 as [|r l0 IH]; intros cur Hcur; [by intros [= ->]|]. cbn.
    destruct (deref _ r) as [st|]; cbn; [|done]. destruct (_ =? ip); [done|]. by apply IH. }
  pose proof (state_create_one t pc ip s txc c2 s2 H1 E0 Hempty Ec) as H2.
  unfold maybe_schedule in Em. apply bind_ok in Em as (tx2 & Hpc2 & Em).
  destruct (_ <=? 10); [|by injection Em as <-]. injection Em as <-. apply set_txc_one; [done|].
  unfold deref in Hpc2. destruct (tx_txcs s2 !! pc) as [tx3|] eqn:E3; [|discriminate].
  injection Hpc2 as ->. intros b. exact (H2 pc _ b E3).
Qed.

Lemma rl_scan_spec m chain ip :
  (forall p, p ∈ chain -> is_Some (m !! inl p)) ->
  exists r, rl_scan m chain ip = Ok r /\
    match r with
    | Some p => p ∈ chain /\ exists rl, m !! inl p = Some rl /\ rl_ip rl = ip
    | None => forall p rl, p ∈ chain -> m !! inl p = Some rl -> rl_ip rl <> ip
    end.
Proof.
  induction chain as [|q chain IH]; intros Hl.
  { exists None. split; [done|]. by intros p rl ?%not_elem_of_nil. }
  cbn [rl_scan].
  destruct (Hl q (list_elem_of_here _ _)) as [rl Hq]. rewrite (deref_ok _ _ _ Hq). cbn [mbind outcome_bind].
  destruct (Z.eqb_spec (rl_ip rl) ip) as [Heq|Hne].
  - exists (Some q). split; [done|]. split; [apply list_elem_of_here|]. eauto.
  - destruct IH as (r & E & Hr); [intros p Hp; apply Hl; by apply list_elem_of_further|]. exists r. split; [done|].
    destruct r as [p|]; [destruct Hr; split; [by apply list_elem_of_further|done]|].
    intros p rl' [->|Hp]%elem_of_cons Hp'; [congruence|by eapply Hr].
Qed.

(** Rate limiters that changed in their address only. *)
Definition keyed (ip : Z) (rls rls' : gmap rlptr iso_rl) : Prop :=
  forall q, rls' !! q = rls !! q \/
    exists rl, rls !! q = Some rl /\ rls' !! q = Some {| rl with rl_ip := ip |}.

(** The class after it gave a state and a rate limiter to a destination: [rlb]
    and [pre] are its table and its stock of rate limiters, [rest] its stock of
    states, [a] whether the allocator is scheduled. *)
Definition gave (ip : Z) (p : loc) (rlb : buckets) (pre rest : list loc) (a : bool) (txc : iso_tx_class)
    : iso_tx_class :=
  {| txc with txc_rl_bucket := rlb; txc_prealloc_rl_list := pre;
              txc_state_bucket := hlist_add_head (state_hash ip) p (txc_state_bucket txc);
              txc_prealloc_state_list := rest;
              txc_freelist_count := Z.of_nat (length rest);
              txc_allocator := a |}.

(** The transmit side after [state_create]. *)
Definition created (pc p : loc) (txc : iso_tx_class) (st : iso_per_dest_state) (rls : gmap rlptr iso_rl)
    (s : tx_state) : tx_state :=
  let w := tx_w s in
  {| s with tx_txcs := <[pc := txc]> (tx_txcs s); tx_states := <[p := st]> (tx_states s);
            tx_w := {| w with w_rls := rls |} |}.

(** The bucket of the rate limiter of a destination. *)
Definition rl_hash (ip : Z) : Z := Z.land (jhash_1word ip 4207868622) (ISO_MAX_RL_BUCKETS - 1).

(** Where the rate limiter [r] of a new destination comes from: the table has one with the
    address, or the first one in stock is moved to the table and given the address. *)
Definition rl_source (ip : Z) (r : loc) (rlb : buckets) (pre : list loc) (rls : gmap rlptr iso_rl)
    (txc : iso_tx_class) (s : tx_state) : Prop :=
  let have := txc_rl_bucket txc (rl_hash ip) in
  let named q := exists rl, w_rls (tx_w s) !! inl q = Some rl /\ rl_ip rl = ip in
  (r ∈ have /\ named r /\ rlb = txc_rl_bucket txc /\ pre = txc_prealloc_rl_list txc /\ rls = w_rls (tx_w s)) \/
  ((forall q, q ∈ have -> ~ named q) /\ txc_prealloc_rl_list txc = r :: pre /\
   rlb = hlist_add_head (rl_hash ip) r (txc_rl_bucket txc) /\
   exists rl, w_rls (tx_w s) !! inl r = Some rl /\
     rls = <[inl r := {| rl with rl_ip := ip |}]> (w_rls (tx_w s))).

Record picked (ip : Z) (r : loc) (rlb : buckets) (pre : list loc) (rls : gmap rlptr iso_rl)
    (txc : iso_tx_class) (s : tx_state) : Prop := {
  pk_rl : exists rl, rls !! inl r = Some rl /\ rl_ip rl = ip;
  pk_keyed : keyed ip (w_rls (tx_w s)) rls;
  pk_pre q : q ∈ pre -> q ∈ txc_prealloc_rl_list txc;
  pk_length : (length (txc_prealloc_rl_list txc) <= S (length pre))%nat;
  pk_bucket b q : q ∈ rlb b -> q ∈ txc_rl_bucket txc b \/ q = r;
  pk_source : rl_source ip r rlb pre rls txc s
}.

Lemma pick_rl_ok pc ip s txc :
  tx_txcs s !! pc = Some txc -> stock_ok s txc -> txc_prealloc_rl_list txc <> [] ->
  exists r rlb pre rls, let w := tx_w s in
    iso_pick_rl pc ip s = Ok (At r, {| s with
      tx_txcs := <[pc := {| txc with txc_rl_bucket := rlb; txc_prealloc_rl_list := pre |}]> (tx_txcs s);
      tx_w := {| w with w_rls := rls |} |}) /\
    picked ip r rlb pre rls txc s.
Proof.
  intros Hpc Hstk Hne. unfold iso_pick_rl. rewrite (deref_ok _ _ _ Hpc). cbn [mbind outcome_bind].
  fold (rl_hash ip). set (b := rl_hash ip).
  destruct (rl_scan_spec (w_rls (tx_w s)) (txc_rl_bucket txc b) ip (stk_bucket s txc Hstk b)) as (r & -> & Hfound).
  cbn [mbind outcome_bind]. destruct r as [p|].
  - destruct Hfound as (Hin & rl & Hp & Hip).
    exists p, (txc_rl_bucket txc), (txc_prealloc_rl_list txc), (w_rls (tx_w s)). split.
    + replace {| txc with txc_rl_bucket := _; txc_prealloc_rl_list := _ |} with txc by (by destruct txc).
      rewrite insert_id by done. by destruct s as [? ? ? []].
    + split; [by exists rl|by left|done|lia|by left|]. left. split; [done|]. split; [by exists rl|done].
  - destruct (txc_prealloc_rl_list txc) as [|p rest] eqn:Epre; [done|].
    destruct (stk_rls s txc Hstk p) as [rl Hp]; [rewrite Epre; apply list_elem_of_here|].
    rewrite (deref_ok _ _ _ Hp). cbn [mbind outcome_bind].
    exists p, (hlist_add_head b p (txc_rl_bucket txc)), rest, (<[inl p := {| rl with rl_ip := ip |}]> (w_rls (tx_w s))).
    split; [reflexivity|]. split.
    + eexists. by rewrite lookup_insert_eq.
    + intros q. destruct (decide (inl p = q)) as [<-|Hq]; [|left; by rewrite lookup_insert_ne].
      right. exists rl. by rewrite lookup_insert_eq.
    + intros q Hq. rewrite Epre. by apply list_elem_of_further.
    + by rewrite Epre.
    + intros c q. unfold hlist_add_head. destruct (Z.eqb_spec c b) as [->|]; [|by left].
      intros [->|Hq]%elem_of_cons; [by right|by left].
    + right. split; [intros q Hq (rl' & Hq' & Hk); by eapply Hfound|]. split; [done|]. split; [done|]. by exists rl.
Qed.

(** A destination without a state gets the first state in stock. *)
Lemma state_create_ok t pc ip s txc p rest :
  tx_txcs s !! pc = Some txc -> stock_ok s txc -> txc_prealloc_state_list txc = p :: rest ->
  exists st r rlb pre rls,
    state_create t pc ip s =
      Ok (At p, created pc p (gave ip p rlb pre rest (txc_allocator txc) txc) st rls s) /\
    ps_ip_key st = ip /\ ps_rl st = At r /\ picked ip r rlb pre rls txc s.
Proof.
  intros Hpc Hstk Epre.
  destruct (stk_states s txc Hstk p) as [st0 Hst0]; [rewrite Epre; apply list_elem_of_here|].
  assert (Hrls : txc_prealloc_rl_list txc <> []).
  { pose proof (stk_enough s txc Hstk) as H. rewrite Epre in H.
    destruct (txc_prealloc_rl_list txc); [cbn in H; lia|done]. }
  destruct (pick_rl_ok pc ip s txc Hpc Hstk Hrls) as (r & rlb & pre & rls & Epick & Hpk).
  unfold state_create. rewrite (deref_ok _ _ _ Hpc). cbn [mbind outcome_bind]. rewrite Epre.
  rewrite (deref_ok _ _ _ Hst0). cbn [mbind outcome_bind]. rewrite Epick. cbn [mbind outcome_bind].
  unfold deref. cbn [tx_txcs tx_states]. rewrite lookup_insert_eq. cbn [mbind outcome_bind].
  eexists _, r, rlb, pre, rls. split; [|split; [|split; [|exact Hpk]]].
  - unfold set_txc, created, gave. cbn [tx_txcs tx_states tx_w tx_ctx txc_freelist_count txc_state_bucket].
    rewrite insert_insert_eq.
    replace (s32 (txc_freelist_count txc - 1)) with (Z.of_nat (length rest)); [reflexivity|].
    pose proof (stk_small s txc Hstk). rewrite (stk_count s txc Hstk), Epre in *. cbn [length] in *.
    rewrite s32_small by lia. lia.
  - reflexivity.
  - reflexivity.
Qed.

(** Scheduling the allocator leaves everything else. *)
Lemma maybe_schedule_ok pc p txc st rls s :
  exists a, maybe_schedule pc (created pc p txc st rls s) =
      Ok (created pc p {| txc with txc_allocator := a |} st rls s) /\
    (txc_freelist_count txc <= 10 -> a = true).
Proof.
  unfold maybe_schedule, deref, created. cbn [tx_txcs]. rewrite lookup_insert_eq. cbn [mbind outcome_bind].
  destruct (Z.leb_spec (txc_freelist_count txc) 10) as [Hle|Hgt].
  - exists true. split; [|done]. unfold set_txc. cbn. by rewrite insert_insert_eq.
  - exists (txc_allocator txc). split; [|lia]. by destruct txc.
Qed.

(** The whole lookup, for a destination whose bucket is empty. *)
Lemma state_get_new (t : nat -> Z) pc txc skb (rx : bool) s p rest :
  let ip := if rx then ntohl (iph_saddr (skb_iph skb)) else ntohl (iph_daddr (skb_iph skb)) in
  is_ip skb = true -> tx_txcs s !! pc = Some txc -> stock_ok s txc ->
  txc_state_bucket txc (state_hash ip) = [] -> txc_prealloc_state_list txc = p :: rest ->
  exists st r rlb pre rls a,
    iso_state_get true t pc skb rx ISO_CREATE_RL s =
      Ok (At p, created pc p (gave ip p rlb pre rest a txc) st rls s) /\
    ps_ip_key st = ip /\ ps_rl st = At r /\ picked ip r rlb pre rls txc s /\
    (Z.of_nat (length rest) <= 10 -> a = true).
Proof.
  intros ip Hip Hpc Hstk Hempty Epre.
  destruct (state_create_ok t pc ip s txc p rest Hpc Hstk Epre) as (st & r & rlb & pre & rls & Ec & Hk & Hr & Hpk).
  destruct (maybe_schedule_ok pc p (gave ip p rlb pre rest (txc_allocator txc) txc) st rls s) as (a & Em & Ha).
  exists st, r, rlb, pre, rls, a. split; [|done].
  unfold iso_state_get. rewrite Hip, (deref_ok _ _ _ Hpc). cbn [negb mbind outcome_bind]. fold ip.
  rewrite Hempty. cbn [state_scan mret outcome_ret]. rewrite bool_decide_eq_false_2 by done. cbn [orb].
  rewrite Ec. cbn [mbind outcome_bind]. rewrite Em. done.
Qed.

(** C33: For a destination whose bucket is empty, the creating lookup takes the first state in
    stock, keys it with the address and adds it to the bucket; its rate limiter is the one that
    the table of the class already has for the address, or else the first one in stock, which is
    unlinked from the stock, added to its bucket of the table and given the address, and no
    other rate limiter changes. The count of the stock is kept, the allocator is scheduled when
    ten or fewer are left, and in the resulting state every lookup of that address, for any
    packet, direction and create flag, returns the new state and changes nothing. *)
Theorem state_get_creates (rx : bool) (t : nat -> Z) (pc : loc) (txc : iso_tx_class) (skb : sk_buff)
    (s : tx_state) :
  let ip := if rx then ntohl (iph_saddr (skb_iph skb)) else ntohl (iph_daddr (skb_iph skb)) in
  is_ip skb = true -> tx_txcs s !! pc = Some txc -> stock_ok s txc ->
  txc_state_bucket txc (state_hash ip) = [] -> txc_prealloc_state_list txc <> [] ->
  exists p st r rl txc' s', iso_state_get true t pc skb rx ISO_CREATE_RL s = Ok (At p, s') /\
    tx_states s' = <[p := st]> (tx_states s) /\ ps_ip_key st = ip /\ ps_rl st = At r /\
    w_rls (tx_w s') !! inl r = Some rl /\ rl_ip rl = ip /\
    tx_txcs s' = <[pc := txc']> (tx_txcs s) /\
    txc_prealloc_state_list txc = p :: txc_prealloc_state_list txc' /\
    txc_freelist_count txc' = Z.of_nat (length (txc_prealloc_state_list txc')) /\
    (txc_freelist_count txc' <= 10 -> txc_allocator txc' = true) /\
    rl_source ip r (txc_rl_bucket txc') (txc_prealloc_rl_list txc') (w_rls (tx_w s')) txc s /\
    forall lock t' skb' rx' create, is_ip skb' = true -> dest_ip rx' skb' = ip ->
      iso_state_get lock t' pc skb' rx' create s' = Ok (At p, s').
Proof.
  intros ip Hip Hpc Hstk Hempty Hne.
  destruct (txc_prealloc_state_list txc) as [|p rest] eqn:Epre; [done|].
  destruct (state_get_new t pc txc skb rx s p rest Hip Hpc Hstk Hempty Epre) as
    (st & r & rlb & pre & rls & a & E & Hkey & Hr & [(rl & Hrl & Hrip) _ _ _ _ Hsrc] & Ha).
  exists p, st, r, rl. eexists _, _. split; [exact E|]. fold ip. fold ip in Hkey.
  cbn [created tx_states tx_w tx_txcs w_rls]. do 5 (split; [done|]). split; [reflexivity|].
  do 3 (split; [done|]). split; [exact Hsrc|].
  intros lock t' skb' rx' create Hip' Ed.
  apply (state_get_found _ pc (gave ip p rlb pre rest a txc)); [done|apply lookup_insert_eq|]. rewrite Ed.
  cbn [gave txc_state_bucket created tx_states]. unfold hlist_add_head. rewrite Z.eqb_refl, Hempty.
  cbn [state_scan]. unfold deref. rewrite lookup_insert_eq. cbn [mbind outcome_bind]. by rewrite Hkey, Z.eqb_refl.
Qed.

Lemma keyed_live ip rls rls' q : keyed ip rls rls' -> rls !! q = None <-> rls' !! q = None.
Proof. intros H. destruct (H q) as [->|(rl & -> & ->)]; split; done. Qed.

Lemma keyed_some ip rls rls' q : keyed ip rls rls' -> is_Some (rls !! q) -> is_Some (rls' !! q).
Proof. intros H. destruct (H q) as [->|(rl & -> & ->)]; eauto. Qed.

Lemma keyed_device R ip w rls :
  device_inv R w -> keyed ip (w_rls w) rls -> device_inv R {| w with w_rls := rls |}.
Proof.
  intros Hdev Hk. apply device_inv_rates; [done|intros q; by apply (keyed_live ip)|].
  intros q rl rl' Hq Hq'. pose proof (wf_rate R rl (proj1 (wok_rl R _ (dinv_ok R _ Hdev) q rl Hq))).
  destruct (Hk q) as [E|(rl0 & E1 & E2)].
  - assert (rl' = rl) as -> by congruence. done.
  - rewrite Hq in E1. injection E1 as <-. rewrite Hq' in E2. injection E2 as ->. done.
Qed.

(** A new destination keeps the transmit side well-formed. *)
Lemma created_ok R pc p txc st r ip rlb pre rest a rls s :
  tx_ok R s -> tx_txcs s !! pc = Some txc -> txc_prealloc_state_list txc = p :: rest ->
  ps_rl st = At r -> picked ip r rlb pre rls txc s ->
  tx_ok R (created pc p (gave ip p rlb pre rest a txc) st rls s).
Proof.
  intros [[HR Hdev Hc Hb Hrate Hst] Hroot Hstk] Hpc Epre Hr [(rl & Hrl & _) Hk Hpre Hlen Hbk _].
  pose proof (fun q => keyed_some ip _ _ q Hk) as Hlive.
  assert (Htxcs : forall q tx, <[pc := gave ip p rlb pre rest a txc]> (tx_txcs s) !! q = Some tx ->
    q = pc /\ tx = gave ip p rlb pre rest a txc \/ tx_txcs s !! q = Some tx).
  { intros q tx. destruct (decide (pc = q)) as [->|Hq]; [rewrite lookup_insert_eq; intros [= <-]; by left|].
    rewrite lookup_insert_ne by done. by right. }
  assert (Hsts : forall q, is_Some (tx_states s !! q) -> is_Some (<[p := st]> (tx_states s) !! q)).
  { intros q Hq. destruct (decide (p = q)) as [->|]; [rewrite lookup_insert_eq; eauto|by rewrite lookup_insert_ne]. }
  assert (Hnew : exists st0 r0, <[p := st]> (tx_states s) !! p = Some st0 /\ ps_rl st0 = At r0 /\
    is_Some (rls !! inl r0)) by (exists st, r; rewrite lookup_insert_eq; eauto).
  split; [split| |]; cbn [created tx_ctx tx_txcs tx_states tx_w w_rls]; try done.
  - by apply (keyed_device R ip).
  - split; cbn [created tx_ctx tx_txcs tx_states tx_w w_rls]; [apply Hc| |].
    + intros q Hq. destruct (cls_live s Hc q Hq) as [H1 H2]. split; [|by apply Hlive].
      destruct (decide (pc = q)) as [->|]; [rewrite lookup_insert_eq; eauto|by rewrite lookup_insert_ne].
    + intros q tx [[-> ->]|Hq]%Htxcs; [|by apply (cls_ok s Hc q)]. destruct (cls_ok s Hc pc txc Hpc). by split.
  - intros q tx b q' Hq Hin. destruct (decide (p = q')) as [<-|Hne]; [done|].
    assert (exists tx0, tx_txcs s !! q = Some tx0 /\ q' ∈ txc_state_bucket tx0 b) as (tx0 & Hq0 & Hin0).
    { apply Htxcs in Hq as [[-> ->]|Hq]; [|eauto]. exists txc. split; [done|]. cbn in Hin.
      unfold hlist_add_head in Hin. destruct (_ =? _); [|done]. by apply elem_of_cons in Hin as [->|]. }
    destruct (Hst q tx0 b q' Hq0 Hin0) as (st0 & r0 & ? & ? & ?). exists st0, r0.
    rewrite lookup_insert_ne by done. auto.
  - intros q Hq. destruct (Hroot q Hq) as (g & Hg & Hgt).
    destruct (Hk (inr q)) as [E|(g0 & E1 & E2)]; [exists g; split; congruence|]. eexists. split; [exact E2|].
    cbn. congruence.
  - intros q tx [[-> ->]|Hq]%Htxcs.
    + destruct (Hstk pc txc Hpc) as [H1 H2 H3 H4 H5 H6]. rewrite Epre in *. cbn [length] in *.
      split; cbn [created gave tx_states tx_w w_rls txc_prealloc_state_list txc_prealloc_rl_list
        txc_rl_bucket txc_freelist_count]; [| | |lia|done|lia].
      * intros q Hq. apply Hsts, H1. by apply list_elem_of_further.
      * intros q Hq. by apply Hlive, H2, Hpre.
      * intros b q [Hq| ->]%Hbk; [by apply Hlive, (H3 b)|by exists rl].
    + by apply (stock_ok_mono s _ tx); [| | |apply (Hstk q)].
Qed.

(** A lookup that may create, when there is stock, keeps the transmit side
    well-formed and returns a state with a live rate limiter, or NULL if the
    class is locked. *)
Lemma state_get_ok R t pc txc skb rx trylock create s :
  tx_ok R s -> tx_txcs s !! pc = Some txc ->
  (is_ip skb = true -> trylock = true -> create = ISO_CREATE_RL ->
    txc_state_bucket txc (state_hash (dest_ip rx skb)) = [] -> txc_prealloc_state_list txc <> []) ->
  exists c s', iso_state_get trylock t pc skb rx create s = Ok (c, s') /\ tx_ok R s' /\
    (create = ISO_DONT_CREATE_RL -> s' = s) /\
    (c = NULL /\ ~ (is_ip skb = true /\ trylock = true /\ create = ISO_CREATE_RL) \/
     exists p st r, c = At p /\ tx_states s' !! p = Some st /\ ps_rl st = At r /\
       is_Some (w_rls (tx_w s') !! inl r)).
Proof.
  intros Hok Hpc Hne. destruct (is_ip skb) eqn:Eip.
  2:{ exists NULL, s. split; [apply (state_get_none s pc txc); by left|]. split; [done|]. split; [done|].
      left. split; [done|]. by intros (? & _). }
  destruct (bucket_scan R s pc txc (dest_ip rx skb) (txo_inv R s Hok) Hpc) as [Eb|(p & st & r & E & Hst)].
  2:{ exists (At p), s. split; [by apply (state_get_found s pc txc)|]. split; [done|]. split; [done|]. right.
      by exists p, st, r. }
  destruct (decide (trylock = true /\ create = ISO_CREATE_RL)) as [[-> ->]|Hno].
  - destruct (txc_prealloc_state_list txc) as [|p rest] eqn:Epre; [by destruct (Hne eq_refl eq_refl eq_refl Eb)|].
    destruct (state_get_new t pc txc skb rx s p rest Eip Hpc (txo_stock R s Hok pc txc Hpc) Eb Epre) as
      (st & r & rlb & pre & rls & a & E2 & _ & Hr & Hpk & _).
    eexists _, _. split; [exact E2|]. split; [by eapply created_ok|]. split; [done|]. right.
    exists p, st, r. cbn [created tx_states tx_w w_rls]. rewrite lookup_insert_eq.
    destruct Hpk as [(rl & ? & _) _ _ _ _ _]. eauto.
  - exists NULL, s. split; [|split; [done|]; split; [done|]; left; split; [done|]; intros (_ & ?); tauto].
    apply (state_get_none s pc txc). right. split; [|done].
    destruct trylock, create; auto. by destruct Hno.
Qed.

(** When the stock of states is empty, the creating lookup for a new destination
    returns a pointer that is not NULL and not a state: the list cursor at the head. *)
Lemma state_get_wild (rx : bool) (t : nat -> Z) (pc : loc) (txc : iso_tx_class) (skb : sk_buff)
    (s : tx_state) :
  is_ip skb = true -> tx_txcs s !! pc = Some txc ->
  txc_state_bucket txc (state_hash (dest_ip rx skb)) = [] -> txc_prealloc_state_list txc = [] ->
  exists s', iso_state_get true t pc skb rx ISO_CREATE_RL s = Ok (Wild, s').
Proof.
  intros Hip Hpc Hempty Hpre. unfold iso_state_get. rewrite Hip, (deref_ok _ _ _ Hpc).
  cbn [negb mbind outcome_bind]. fold (dest_ip rx skb). rewrite Hempty. cbn [state_scan mret outcome_ret].
  rewrite bool_decide_eq_false_2 by done. cbn [orb].
  unfold state_create. rewrite (deref_ok _ _ _ Hpc). cbn [mbind outcome_bind]. rewrite Hpre.
  cbn [mbind outcome_bind mret outcome_ret]. unfold maybe_schedule. rewrite (deref_ok _ _ _ Hpc).
  cbn [mbind outcome_bind]. destruct (_ <=? 10); eauto.
Qed.
End Path.

(** ** Witnesses *)

Lemma ex_stock_ok : stock_ok ex_tx ex_txc.
Proof.
  split.
  - intros p ->%list_elem_of_singleton. eexists. vm_compute. reflexivity.
  - intros p ->%list_elem_of_singleton. eexists. vm_compute. reflexivity.
  - intros b p. cbn [ex_txc txc_rl_bucket]. unfold hlist_add_head, no_buckets.
    destruct (_ =? _); [intros ->%list_elem_of_singleton; eexists; vm_compute; reflexivity|by intros ?%not_elem_of_nil].
  - cbn. lia.
  - reflexivity.
  - cbn. lia.
Qed.

Lemma ex_tx_ok : tx_ok (K := ref_kernel) (P := default_params) (Env := ex_env) 10000 ex_tx.
Proof.
  split; [exact ex_tx_inv|intros p ->%list_elem_of_singleton; eexists; split; vm_compute; reflexivity|].
  intros pc txc [_ ->]%ex_tx_lookup. apply ex_stock_ok.
Qed.

Lemma iso_tx_safe_witness :
  exists v s', iso_tx (K := ref_kernel) (P := default_params) (C := Mark.ops) (Env := ex_env)
    true 1 ex_pkt ex_tx = Ok (v, s') /\ v = ISO_VERDICT_SUCCESS.
Proof.
  destruct (iso_tx_safe (K := ref_kernel) (P := default_params) (C := Mark.ops) (Env := ex_env)
    10000 true 1 ex_pkt ex_tx ex_tx_ok) as (v & s' & H1 & _).
  - apply (bool_decide_unpack _). vm_compute. exact I.
  - split; vm_compute; discriminate.
  - exists v, s'. split; [exact H1|].
    assert (E : match iso_tx (K := ref_kernel) (P := default_params) (C := Mark.ops) (Env := ex_env)
      true 1 ex_pkt ex_tx with Ok (v, _) => v | Oops _ => ISO_VERDICT_ERROR end = ISO_VERDICT_SUCCESS)
      by (vm_compute; reflexivity).
    rewrite H1 in E. exact E.
Defined.

(** A packet to another address with the same hash. *)
Definition ex_collide : sk_buff :=
  let h := skb_iph ex_pkt in
  {| ex_pkt with skb_iph := {| h with iph_daddr := 33619978 |} |}.

Lemma state_get_collision_witness :
  exists p st, iso_state_get (K := ref_kernel) (P := default_params) false (fun _ => 0) 1%positive ex_collide false
      ISO_DONT_CREATE_RL ex_tx = Ok (At p, ex_tx) /\
    tx_states ex_tx !! p = Some st /\
    ps_ip_key st <> ntohl (K := ref_kernel) (iph_daddr (skb_iph ex_collide)).
Proof.
  apply (state_get_collision (K := ref_kernel) (P := default_params) false false (fun _ => 0) 1%positive ex_txc ex_collide
    ISO_DONT_CREATE_RL ex_tx).
  - vm_compute. reflexivity.
  - vm_compute. reflexivity.
  - assert (E : txc_state_bucket ex_txc (state_hash (K := ref_kernel)
      (ntohl (K := ref_kernel) (iph_daddr (skb_iph ex_collide)))) = [3%positive]) by (vm_compute; reflexivity).
    rewrite E. repeat constructor. eexists. vm_compute. reflexivity.
  - vm_compute. discriminate.
  - assert (E : txc_state_bucket ex_txc (state_hash (K := ref_kernel)
      (ntohl (K := ref_kernel) (iph_daddr (skb_iph ex_collide)))) = [3%positive]) by (vm_compute; reflexivity).
    rewrite E. intros p st ->%list_elem_of_singleton. vm_compute. intros [= <-]. discriminate.
Defined.

Lemma ex_one_per_bucket : one_per_bucket ex_tx.
Proof.
  intros pc txc b [_ ->]%ex_tx_lookup. cbn [txc_state_bucket ex_txc].
  unfold hlist_add_head, no_buckets. destruct (_ =? _); cbn; lia.
Qed.

Lemma state_buckets_hold_one_witness :
  exists c s', iso_state_get (K := ref_kernel) (P := default_params) true (fun _ => 0) 1%positive ex_pkt true
    ISO_CREATE_RL ex_tx = Ok (c, s') /\ one_per_bucket s'.
Proof.
  destruct (iso_state_get (K := ref_kernel) (P := default_params) true (fun _ => 0) 1%positive ex_pkt true
    ISO_CREATE_RL ex_tx) as [[c s']|f] eqn:E; [|exfalso; revert E; vm_compute; discriminate].
  exists c, s'. split; [reflexivity|].
  exact (state_buckets_hold_one (K := ref_kernel) (P := default_params) true true (fun _ => 0) 1%positive
    ex_pkt ISO_CREATE_RL ex_tx s' c ex_one_per_bucket E).
Defined.

Lemma state_get_creates_witness :
  exists p s', iso_state_get (K := ref_kernel) (P := default_params) true (fun _ => 0) 1%positive ex_pkt true
      ISO_CREATE_RL ex_tx = Ok (At p, s') /\
    iso_state_get (K := ref_kernel) (P := default_params) false (fun _ => 0) 1%positive ex_pkt true
      ISO_DONT_CREATE_RL s' = Ok (At p, s').
Proof.
  destruct (state_get_creates (K := ref_kernel) (P := default_params) true (fun _ => 0) 1%positive ex_txc ex_pkt ex_tx)
    as (p & st & r & rl & txc' & s' & H1 & _ & _ & _ & _ & _ & _ & _ & _ & _ & _ & H2);
    [vm_compute; reflexivity|vm_compute; reflexivity|apply ex_stock_ok|vm_compute; reflexivity
    |discriminate|].
  exists p, s'. split; [exact H1|]. apply H2; vm_compute; reflexivity.
Defined.
