(* ===== verification/Rx.v ===== *)
(** * The receive side, and the life of a device's contexts (rx.c, tx.c)

    Every received packet updates the receive statistics and the rate that the
    device can offer, is accounted to the virtual queue of its class, may carry
    feedback for a rate limiter of the transmit side, and may make the module
    send feedback of its own. *)

From S2P Require Import Prelude Params Kernel Packet Scan Class RateControl HashTable VirtualQueue.
From S2P Require Import VqTable RateLimiter Dequeue Device Tx.

Open Scope Z_scope.

(** Both sides of a device. *)
Record host := {
  h_tx : tx_state;
  h_rx : rx_state
}.

(** What one [iso_rx] reads from its environment: the clock, the try-locks, the
    allocator of the feedback packet and of a new destination's state. *)
Record rx_env := {
  rxe_now : nat -> Z;
  rxe_stats_lock : bool;
  rxe_rcp_lock : bool;
  rxe_vq_lock : bool;
  rxe_write_lock : bool;
  rxe_rc_lock : bool;
  rxe_skb : option sk_buff
}.

Section Rx.
Context {K : Kernel} {P : params} {C : IsoClass} {Env : Oracle}.

(** [iso_rx_init(context)]: [stats] is what [alloc_percpu] returned, [hook] the
    result of [iso_rx_hook_init]. *)
Definition iso_rx_init (stats : option (percpu iso_rx_stats)) (t1 t2 t3 hook : Z)
    (ctx : iso_rx_context) : Z * iso_rx_context :=
  let ctx := {| ctx with rxc_stats := stats |} in
  match stats with
  | None => (-1, ctx)
  | Some st =>
      let zero := {| rxs_rx_bytes := 0; rxs_rx_packets := 0 |} in
      let ctx := {| ctx with
        rxc_last_stats_update_time := t1;
        rxc_last_rcp_time := t2;
        rxc_rcp_rate := u32 ISO_VQ_DRAIN_RATE_MBPS;
        rxc_rx_rate := 0;
        rxc_stats := Some (pc_update (fun _ => zero) possible_cpus st);
        rxc_global_stats := zero;
        rxc_global_stats_last := zero |} in
      (hook, iso_vqs_init t3 ctx)
  end.

(** [iso_rx_exit(context)] *)
Definition iso_rx_exit (s : rx_state) : outcome rx_state :=
  s ← iso_vqs_exit s;
  let ctx := rx_ctx s in
  mret {| s with rx_ctx := {| ctx with rxc_stats := None |} |}.

(** [iso_rx_stats_update(rxctx, skb)] on [cpu]. *)
Definition iso_rx_stats_update (trylock : bool) (now : Z) (cpu : nat) (skb : sk_buff)
    (ctx : iso_rx_context) : outcome iso_rx_context :=
  match rxc_stats ctx with
  | None => Oops BadPointer
  | Some stats =>
      let st := stats cpu in
      let stats := pc_set cpu {| rxs_rx_bytes := u64 (rxs_rx_bytes st + u64 (skb_size skb));
                                 rxs_rx_packets := u64 (rxs_rx_packets st + 1) |} stats in
      let ctx := {| ctx with rxc_stats := Some stats |} in
      let dt := u64 (ktime_us_delta now (rxc_last_stats_update_time ctx)) in
      if dt <? u64 ISO_VQ_UPDATE_INTERVAL_US then mret ctx
      else if negb trylock then mret ctx
      else
        let dt := u64 (ktime_us_delta now (rxc_last_stats_update_time ctx)) in
        if dt <? u64 ISO_VQ_UPDATE_INTERVAL_US then mret ctx
        else
        let last := rxc_global_stats ctx in
        let global := {|
          rxs_rx_bytes := pc_sum u64 rxs_rx_bytes stats online_cpus;
          rxs_rx_packets := fold_left (fun _ i => rxs_rx_packets (stats i)) online_cpus 0 |} in
        let rx_bytes := u64 (rxs_rx_bytes global - rxs_rx_bytes last) in
        rx_rate ← div_u (u64 (Z.shiftl rx_bytes 3)) dt;
        mret {| ctx with rxc_last_stats_update_time := now;
                         rxc_global_stats_last := last;
                         rxc_global_stats := global;
                         rxc_rx_rate := u32 rx_rate |}
  end.

(** The locked section of [iso_rx_rcp_update]. *)
Definition rcp_step (rcp_rate rx_rate : Z) : outcome Z :=
  let cap := u32 ISO_VQ_DRAIN_RATE_MBPS in
  let cap2 := u32 (s32 (Z.shiftl ISO_VQ_DRAIN_RATE_MBPS 1)) in
  rate ← div_u (u64 (rcp_rate * u32 (u32 (cap2 + cap) - rx_rate))) cap2;
  let rate := max_t u64 ISO_MIN_RFAIR rate in
  let rate := min_t u64 ISO_VQ_DRAIN_RATE_MBPS rate in
  mret (u32 rate).

(** [iso_rx_rcp_update(rxctx)] *)
Definition iso_rx_rcp_update (trylock : bool) (now : Z) (ctx : iso_rx_context)
    : outcome iso_rx_context :=
  let dt := u64 (ktime_us_delta now (rxc_last_rcp_time ctx)) in
  if dt <? u64 ISO_VQ_HRCP_US then mret ctx
  else if negb trylock then mret ctx
  else
    let dt := u64 (ktime_us_delta now (rxc_last_rcp_time ctx)) in
    if dt <? u64 ISO_VQ_HRCP_US then mret ctx
    else
    rate ← rcp_step (rxc_rcp_rate ctx) (rxc_rx_rate ctx);
    mret {| ctx with rxc_rcp_rate := rate; rxc_last_rcp_time := now |}.

(** The feedback [rate] of a packet is applied to the rate limiter of [state], at
    most once per [ISO_RFAIR_DECREASE_INTERVAL_US]. *)
Definition apply_feedback (lock : bool) (now rate : Z) (state : cptr) (s : tx_state) : outcome tx_state :=
  if (ISO_VQ_DRAIN_RATE_MBPS <=? ISO_MAX_TX_RATE) && negb (rate =? 0) then
    st ← deref_ptr (tx_states s) state;
    let rc := ps_tx_rc st in
    let dt := u64 (ktime_us_delta now (rc_last_rfair_change_time rc)) in
    if (u64 ISO_RFAIR_DECREASE_INTERVAL_US <=? dt) && lock then
      let dt := u64 (ktime_us_delta now (rc_last_rfair_change_time rc)) in
      if negb (u64 ISO_RFAIR_DECREASE_INTERVAL_US <=? dt) then mret s
      else
      match ps_rl st, state with
      | At r, At p =>
          rl ← deref (w_rls (tx_w s)) (inl r);
          let rl := {| rl with rl_rate := u32 rate; rl_last_rate_update_time := now |} in
          let st := {| st with ps_tx_rc := {| rc with rc_last_rfair_change_time := now |} |} in
          let s := set_w (set_rl (inl r) rl (tx_w s)) s in
          mret {| s with tx_states := <[p := st]> (tx_states s) |}
      | _, _ => Oops BadPointer
      end
    else mret s
  else mret s.

(** The end of [iso_rx]: the packet counts towards the next feedback packet of
    the virtual queue, which is sent when it is due.  [now] and [now'] are the
    two readings of the clock. *)
Definition maybe_feedback (now now' : Z) (alloc : option sk_buff) (cpu : nat) (skb : sk_buff)
    (vq : iso_vq) : outcome (option sk_buff * iso_vq) :=
  match vq_percpu_stats vq with
  | None => Oops BadPointer
  | Some stats =>
      let st := stats cpu in
      let dt := u64 (ktime_us_delta now' (vqs_last_feedback_gen_time st)) in
      let st := {| st with vqs_rx_since_last_feedback :=
                     u32 (vqs_rx_since_last_feedback st + u32 (skb_size skb)) |} in
      let '(fb, st) :=
        if (u64 ISO_FEEDBACK_INTERVAL_US <? dt) ||
           (u32 ISO_FEEDBACK_INTERVAL_BYTES <=? vqs_rx_since_last_feedback st)
        then (snd (iso_generate_feedback alloc (iso_vq_over_limits vq) skb),
              {| st with vqs_last_feedback_gen_time := now;
                         vqs_rx_since_last_feedback := 0;
                         vqs_network_marked := 0 |})
        else (None, st) in
      mret (fb, {| vq with vq_percpu_stats := Some (pc_set cpu st stats) |})
  end.

(** The part of [iso_rx] between the class lookup and the feedback: returns the
    verdict, the packet and the transmit side. *)
Definition rx_feedback (e : rx_env) (pc : loc) (skb : sk_buff) (s : tx_state)
    : outcome (iso_verdict * sk_buff * tx_state) :=
  let create := if iso_is_feedback_marked skb =? 0 then ISO_DONT_CREATE_RL else ISO_CREATE_RL in
  '(state, s) ← iso_state_get (rxe_write_lock e) (fun i => rxe_now e (10 + i)%nat) pc skb true create s;
  match state with
  | NULL => mret (ISO_VERDICT_SUCCESS, skb, s)
  | _ =>
      s ← apply_feedback (rxe_rc_lock e) (rxe_now e 4%nat) (skb_has_feedback skb) state s;
      let verdict := if iso_is_generated_feedback skb =? 0
                     then ISO_VERDICT_SUCCESS else ISO_VERDICT_DROP in
      mret (verdict, iso_clear_ecn skb, s)
  end.

(** The rest of [iso_rx] after [iso_vq_enqueue]: [vq] is the virtual queue at [pv]. *)
Definition rx_counted (e : rx_env) (cpu : nat) (skb : sk_buff) (pv : loc) (vq : iso_vq)
    (rx : rx_state) (tx : tx_state) : outcome (iso_verdict * sk_buff * option sk_buff * host) :=
  found ← iso_txc_find (op_rx_classify skb) tx;
  match found with
  | None => mret (ISO_VERDICT_SUCCESS, skb, None, {| h_tx := tx; h_rx := rx |})
  | Some pc =>
      '(verdict, skb, tx) ← rx_feedback e pc skb tx;
      if negb (IsoAutoGenerateFeedback =? 0) && negb (bool_decide (verdict = ISO_VERDICT_DROP)) then
        '(fb, vq) ← maybe_feedback (rxe_now e 5%nat) (rxe_now e 6%nat) (rxe_skb e) cpu skb vq;
        mret (verdict, skb, fb,
              {| h_tx := tx; h_rx := {| rx with rx_vqs := <[pv := vq]> (rx_vqs rx) |} |})
      else mret (verdict, skb, None, {| h_tx := tx; h_rx := rx |})
  end.

(** [iso_rx(skb, in, rxctx)] on [cpu]: the verdict, the packet for the stack, the
    feedback packet that was sent, and the state. *)
Definition iso_rx (e : rx_env) (cpu : nat) (skb : sk_buff) (h : host)
    : outcome (iso_verdict * sk_buff * option sk_buff * host) :=
  let rx := h_rx h in
  ctx ← iso_rx_stats_update (rxe_stats_lock e) (rxe_now e 0%nat) cpu skb (rx_ctx rx);
  ctx ← iso_rx_rcp_update (rxe_rcp_lock e) (rxe_now e 1%nat) ctx;
  let rx := {| rx with rx_ctx := ctx |} in
  found ← iso_vq_find (op_rx_classify skb) rx;
  match found with
  | None => mret (ISO_VERDICT_SUCCESS, skb, None, {| h with h_rx := rx |})
  | Some pv =>
      vq ← deref (rx_vqs rx) pv;
      vq ← iso_vq_enqueue (rxc_rcp_rate ctx) (rxe_now e 2%nat) (rxe_now e 3%nat) (rxe_vq_lock e) cpu skb vq;
      rx_counted e cpu skb pv vq {| rx with rx_vqs := <[pv := vq]> (rx_vqs rx) |} (h_tx h)
  end.

(** ** The life of a transmit context *)

(** [iso_tx_init(context)]: [rlcb] is what [alloc_percpu] returned in
    [iso_rl_prep], [hook] the result of [iso_tx_hook_init]. *)
Definition iso_tx_init (rlcb : option (percpu iso_rl_cb)) (hook : Z) (s : tx_state) : Z * tx_state :=
  let w := tx_w s in
  let ctx := tx_ctx s in
  let r := w_reads w in
  let ctx := {| ctx with txx_txc_list := []; txx_last_update_time := clock r; txx_rate := 2;
                         txx_tx_rate := 0; txx_tx_bytes := 0 |} in
  match iso_rl_prep rlcb (S r) with
  | None => (-1, {| s with tx_ctx := ctx |})
  | Some cbs =>
      let w := {| w with w_cbs := cbs; w_reads := (S r + length possible_cpus)%nat |} in
      (hook, {| s with tx_ctx := {| ctx with txx_total_weight := 0 |}; tx_w := w |})
  end.

(** [iso_rl_free(rl)] *)
Definition iso_rl_free (s : tx_state) (p : loc) : outcome tx_state :=
  _ ← deref (w_rls (tx_w s)) (inl p);
  let w := tx_w s in
  mret (set_w {| w with w_rls := delete (inl p) (w_rls w) |} s).

(** [iso_state_free(state)] *)
Definition iso_state_free (s : tx_state) (p : loc) : outcome tx_state :=
  _ ← deref (tx_states s) p;
  mret {| s with tx_states := delete p (tx_states s) |}.

(** The entries of all chains of a table of [n] buckets, in the order of the loops. *)
Definition all_chains (n : nat) (bk : buckets) : list loc := flat_map (fun i => bk (Z.of_nat i)) (seq 0 n).

(** [iso_txc_free(txc)] *)
Definition iso_txc_free (pc : loc) (h : host) : outcome host :=
  txc ← deref (tx_txcs (h_tx h)) pc;
  tx ← foldM iso_rl_free (all_chains 256 (txc_rl_bucket txc)) (h_tx h);
  tx ← foldM iso_state_free (all_chains 256 (txc_state_bucket txc)) tx;
  tx ← foldM iso_rl_free (txc_prealloc_rl_list txc) tx;
  tx ← foldM iso_state_free (txc_prealloc_state_list txc) tx;
  vqs ← match txc_vq txc with
        | None => mret (rx_vqs (h_rx h))
        | Some pv =>
            vq ← deref (rx_vqs (h_rx h)) pv;
            mret (<[pv := {| vq with vq_refcnt := s32 (vq_refcnt vq - 1) |}]> (rx_vqs (h_rx h)))
        end;
  let w := tx_w tx in
  let tx := set_w {| w with w_rls := delete (inr pc) (w_rls w) |} tx in
  let rx := h_rx h in
  mret {| h_tx := {| tx with tx_txcs := delete pc (tx_txcs tx) |};
          h_rx := {| rx with rx_vqs := vqs |} |}.

(** The body of the loop of [iso_tx_exit]. *)
Definition txc_unhash_free (b : Z) (h : host) (pc : loc) : outcome host :=
  let tx := h_tx h in
  let ctx := tx_ctx tx in
  iso_txc_free pc {| h with h_tx := {| tx with tx_ctx :=
    {| ctx with txx_bucket := hlist_del b pc (txx_bucket ctx) |} |} |}.

(** [iso_tx_exit(context)] *)
Definition iso_tx_exit (h : host) : outcome host :=
  let tx := h_tx h in
  let h := {| h with h_tx := set_w (iso_rl_exit (tx_w tx)) tx |} in
  foldM (fun h i =>
    let b := Z.of_nat i in
    foldM (txc_unhash_free b) (txx_bucket (tx_ctx (h_tx h)) b) h)
    (seq 0 256) h.
End Rx.

(** ** The rate a device offers *)

Section RcpLaw.
Context {P : params} {PO : params_ok P}.

Lemma rcp_step_ok rcp_rate rx_rate :
  exists r, rcp_step rcp_rate rx_rate = Ok r /\ ISO_MIN_RFAIR <= r <= ISO_VQ_DRAIN_RATE_MBPS.
Proof.
  pok. unfold rcp_step. rewrite Z.shiftl_mul_pow2 by lia. change (2 ^ 1) with 2.
  rewrite (s32_small (_ * 2)), (u32_small (_ * 2)) by lia. rewrite div_u_ok by lia.
  cbn [mbind outcome_bind]. eexists. split; [reflexivity|].
  unfold min_t, max_t. pose proof (u64_range (u64 (rcp_rate * u32 (u32 (ISO_VQ_DRAIN_RATE_MBPS * 2 +
    u32 ISO_VQ_DRAIN_RATE_MBPS) - rx_rate)) / (ISO_VQ_DRAIN_RATE_MBPS * 2))) as Hq. unfold is_u64 in Hq.
  set (q := u64 (_ / _)) in *. rewrite (u64_small ISO_MIN_RFAIR), (u64_small ISO_VQ_DRAIN_RATE_MBPS) by lia.
  rewrite (u64_small (Z.max _ q)) by lia. rewrite u32_small by lia. lia.
Qed.

(** C19: The rate offered to senders stays between ISO_MIN_RFAIR and the drain rate, rises when
    less than the drain rate arrives and falls when more arrives; but a measured rate above
    three times the drain rate wraps around and offers the full drain rate. *)
Theorem rcp_step_control_law (rcp_rate rx_rate : Z) :
  let cap := ISO_VQ_DRAIN_RATE_MBPS in
  ISO_MIN_RFAIR <= rcp_rate <= cap -> 0 <= rx_rate < 2147483648 ->
  exists r, rcp_step rcp_rate rx_rate = Ok r /\ ISO_MIN_RFAIR <= r <= cap /\
    (rx_rate <= cap -> rcp_rate <= r) /\
    (cap <= rx_rate <= 3 * cap -> r <= rcp_rate) /\
    (rx_rate = cap -> r = rcp_rate) /\
    (3 * cap < rx_rate -> r = cap).
Proof.
  intros cap Hrcp Hrx. destruct (rcp_step_ok rcp_rate rx_rate) as (r & E & Hr). exists r.
  split; [done|]. split; [done|]. pok. revert E. unfold rcp_step. subst cap. set (cap := ISO_VQ_DRAIN_RATE_MBPS) in *.
  rewrite Z.shiftl_mul_pow2 by lia. change (2 ^ 1) with 2.
  rewrite (s32_small (cap * 2)), (u32_small (cap * 2)), (u32_small cap), (u32_small (cap * 2 + cap)) by lia.
  rewrite div_u_ok by lia. cbn [mbind outcome_bind]. unfold min_t, max_t, mret, outcome_ret.
  rewrite (u64_small ISO_MIN_RFAIR), (u64_small cap) by lia.
  destruct (Z.le_gt_cases rx_rate (3 * cap)) as [Hle|Hgt].
  - rewrite (u32_small (cap * 2 + cap - rx_rate)) by lia. rewrite (u64_small (rcp_rate * _)) by nia.
    set (q := rcp_rate * (cap * 2 + cap - rx_rate) / (cap * 2)).
    assert (0 <= q <= 3 * cap * cap) by (split; [apply Z.div_pos; nia|apply Z.div_le_upper_bound; nia]).
    assert (rx_rate <= cap -> rcp_rate <= q) by (intros; apply mul_div_ge; lia).
    assert (cap <= rx_rate -> q <= rcp_rate) by (intros; apply mul_div_le; lia).
    rewrite (u64_small q), (u64_small (Z.max _ q)), u32_small by nia. intros [= <-]. lia.
  - assert (Hw : u32 (cap * 2 + cap - rx_rate) = cap * 2 + cap - rx_rate + 4294967296)
      by (apply u32_neg; lia). rewrite Hw.
    rewrite (u64_small (rcp_rate * _)) by nia. set (q := rcp_rate * _ / _).
    assert (cap <= q < 18446744073709551616)
      by (split; [apply Z.div_le_lower_bound; nia|apply Z.div_lt_upper_bound; nia]).
    rewrite (u64_small q), (u64_small (Z.max _ q)), u32_small by lia. intros [= <-]. lia.
Qed.
End RcpLaw.

(** ** Statistics and feedback *)

Section RxProps.
Context {K : Kernel} {KL : KernelLaws K} {P : params} {PO : params_ok P} {C : IsoClass}.
Context {Env : Oracle} {CL : ClockLaws Env}.

(** An update of the receive statistics counts the packet on its CPU and sums the bytes of the
    online CPUs, while the packet total is that of the last online CPU only. *)
Theorem rx_stats_update_totals (now : Z) (cpu : nat) (skb : sk_buff) (ctx : iso_rx_context)
    (stats : percpu iso_rx_stats) :
  rxc_stats ctx = Some stats -> cpu ∈ online_cpus ->
  let dt := u64 (ktime_us_delta now (rxc_last_stats_update_time ctx)) in
  ISO_VQ_UPDATE_INTERVAL_US <= dt ->
  exists ctx' stats', iso_rx_stats_update true now cpu skb ctx = Ok ctx' /\
    rxc_stats ctx' = Some stats' /\
    (forall i, rxs_rx_bytes (stats' i) =
       if Nat.eqb i cpu then u64 (rxs_rx_bytes (stats i) + u64 (skb_size skb)) else rxs_rx_bytes (stats i)) /\
    rxs_rx_bytes (rxc_global_stats ctx') = u64 (sumZ (map (fun i => rxs_rx_bytes (stats' i)) online_cpus)) /\
    rxc_global_stats_last ctx' = rxc_global_stats ctx /\
    (forall i0, rxs_rx_packets (rxc_global_stats ctx') = rxs_rx_packets (stats' (List.last online_cpus i0))).
Proof.
  intros Hst Hon dt Hdt. pok. unfold iso_rx_stats_update. rewrite Hst. cbn [rxc_last_stats_update_time].
  fold dt. replace (dt <? u64 ISO_VQ_UPDATE_INTERVAL_US) with false
    by (symmetry; apply Z.ltb_ge; rewrite u64_small by lia; lia).
  cbn [negb]. rewrite div_u_ok by lia. cbn [mbind outcome_bind].
  set (stats' := pc_set _ _ _). eexists _, stats'. split; [reflexivity|].
  cbn [rxc_stats rxc_global_stats rxc_global_stats_last rxs_rx_bytes rxs_rx_packets].
  split; [done|]. split; [|split; [apply pc_sum_u64|split; [done|]]].
  - intros i. unfold stats', pc_set. destruct (Nat.eqb_spec i cpu) as [->|]; done.
  - intros i0. clearbody stats'. generalize 0. destruct online_cpus as [|c l]; [by apply not_elem_of_nil in Hon|].
    clear. revert c. induction l as [|d l IH]; intros c z; [done|]. cbn [fold_left]. cbn [fold_left] in IH.
    rewrite (IH d (rxs_rx_packets (stats' c))). done.
Qed.

(** C20: A feedback value that is due is written to the destination's rate limiter as its rate,
    no other rate limiter changes, and further feedback within ISO_RFAIR_DECREASE_INTERVAL_US is
    ignored. *)
Theorem feedback_rate_applied (now rate : Z) (p r : loc) (st : iso_per_dest_state) (rl : iso_rl) (s : tx_state) :
  tx_states s !! p = Some st -> ps_rl st = At r -> w_rls (tx_w s) !! inl r = Some rl ->
  0 < rate < 65536 -> rc_last_rfair_change_time (ps_tx_rc st) <= now ->
  ISO_RFAIR_DECREASE_INTERVAL_US <= (now - rc_last_rfair_change_time (ps_tx_rc st)) / 1000 < 2 ^ 60 ->
  exists s' rl', apply_feedback true now rate (At p) s = Ok s' /\
    w_rls (tx_w s') !! inl r = Some rl' /\ rl_rate rl' = rate /\
    rl_last_rate_update_time rl' = now /\ rl_queue rl' = rl_queue rl /\
    (forall q, q <> inl r -> w_rls (tx_w s') !! q = w_rls (tx_w s) !! q) /\
    forall lock now2 rate2, now <= now2 -> (now2 - now) / 1000 < ISO_RFAIR_DECREASE_INTERVAL_US ->
      apply_feedback lock now2 rate2 (At p) s' = Ok s'.
Proof.
  intros Hst Hr Hrl Hrate Hle Hdue. pok. change (2 ^ 60) with 1152921504606846976 in Hdue.
  unfold apply_feedback at 1. cbn [deref_ptr]. rewrite (deref_ok _ _ _ Hst). cbn [mbind outcome_bind].
  replace (ISO_VQ_DRAIN_RATE_MBPS <=? ISO_MAX_TX_RATE) with true by (symmetry; apply Z.leb_le; lia).
  replace (rate =? 0) with false by (symmetry; apply Z.eqb_neq; lia). cbn [negb andb].
  rewrite ktime_us_delta_forward by done. rewrite (u64_small (_ / _)), (u64_small ISO_RFAIR_DECREASE_INTERVAL_US) by lia.
  replace (ISO_RFAIR_DECREASE_INTERVAL_US <=? _) with true by (symmetry; apply Z.leb_le; lia). cbn [andb].
  rewrite Hr, (deref_ok _ _ _ Hrl). cbn [mbind outcome_bind]. rewrite (u32_small rate) by lia.
  eexists _, _. split; [reflexivity|]. cbn [tx_w tx_states set_w set_rl w_rls].
  split; [apply lookup_insert_eq|]. do 3 (split; [done|]).
  split; [intros q Hq; by rewrite lookup_insert_ne|].
  intros lock now2 rate2 Hn2 Hearly. unfold apply_feedback. destruct (_ && _); [|done].
  cbn [deref_ptr tx_states]. unfold deref. rewrite lookup_insert_eq. cbn [mbind outcome_bind].
  cbn [ps_tx_rc rc_last_rfair_change_time]. rewrite ktime_us_delta_forward by done.
  assert (0 <= (now2 - now) / 1000) by (apply Z.div_pos; lia).
  rewrite (u64_small (_ / _)), (u64_small ISO_RFAIR_DECREASE_INTERVAL_US) by lia.
  replace (ISO_RFAIR_DECREASE_INTERVAL_US <=? _) with false by (symmetry; apply Z.leb_gt; lia). done.
Qed.
End RxProps.

(** ** Witnesses *)

Lemma rcp_step_control_law_witness :
  exists r, rcp_step (P := default_params) 4000 30000 = Ok r /\ r = 9000.
Proof.
  destruct (rcp_step_control_law (P := default_params) 4000 30000) as (r & H1 & _ & _ & _ & _ & H2);
    [cbn; lia|lia|].
  exists r. split; [exact H1|]. apply H2. cbn. lia.
Defined.

Lemma rx_stats_update_totals_witness :
  exists ctx', iso_rx_stats_update (K := ref_kernel) (P := default_params) true 1000000 1 ex_skb ex_rx_ctx = Ok ctx' /\
    rxs_rx_packets (rxc_global_stats ctx') = 1.
Proof.
  destruct (rx_stats_update_totals (K := ref_kernel) (P := default_params) 1000000 1 ex_skb ex_rx_ctx
    (fun _ => {| rxs_rx_bytes := 0; rxs_rx_packets := 0 |})) as (ctx' & st' & H & _);
    [reflexivity|apply (bool_decide_unpack _); vm_compute; exact I|vm_compute; discriminate|].
  exists ctx'. split; [exact H|].
  assert (E : match iso_rx_stats_update (K := ref_kernel) (P := default_params) true 1000000 1 ex_skb ex_rx_ctx with
    | Ok c => rxs_rx_packets (rxc_global_stats c) | Oops _ => 0 end = 1) by (vm_compute; reflexivity).
  rewrite H in E. exact E.
Defined.

Lemma feedback_rate_applied_witness :
  exists s' rl', apply_feedback (K := ref_kernel) (P := default_params) true 1000000 777 (At 3%positive) ex_tx = Ok s' /\
    w_rls (tx_w s') !! inl 2%positive = Some rl' /\ rl_rate rl' = 777.
Proof.
  destruct (feedback_rate_applied (K := ref_kernel) (P := default_params) 1000000 777 3%positive 2%positive
    {| ps_ip_key := ex_dst; ps_rl := At 2%positive; ps_tx_rc := ex_rc |}
    (ex_rl (Some 1%positive) [ex_skb]) ex_tx) as (s' & rl' & H1 & H2 & H3 & _);
    [vm_compute; reflexivity|reflexivity|vm_compute; reflexivity|lia|cbn; lia|vm_compute; split; [discriminate|reflexivity]|].
  exists s', rl'. split; [exact H1|]. split; [exact H2|exact H3].
Defined.
