(* ===== verification/Host.v ===== *)
(** * Both directions of a device together

    Receiving a packet never faults from a well-formed state and keeps it
    well-formed, as long as there is stock for new destinations; what deleting a
    traffic class leaves behind. *)

From S2P Require Import Prelude Params Kernel Packet Scan Class RateControl HashTable VirtualQueue.
From S2P Require Import VqTable RateLimiter Dequeue Device Tx TxPath Rx.

Open Scope Z_scope.

Section Host.
Context {K : Kernel} {KL : KernelLaws K} {P : params} {PO : params_ok P}.
Context {C : IsoClass} {valid : Z -> Prop} {L : IsoClassLaws C valid}.
Context {Env : Oracle} {CL : ClockLaws Env}.

Record rx_inv (s : rx_state) : Prop := {
  ri_table : vqt_ok (valid := valid) s;
  ri_vq p vq : rx_vqs s !! p = Some vq -> vq_ok vq;
  ri_stats : is_Some (rxc_stats (rx_ctx s));
  ri_rcp : ISO_MIN_RFAIR <= rxc_rcp_rate (rx_ctx s) <= ISO_VQ_DRAIN_RATE_MBPS
}.

Record host_ok (R : Z) (h : host) : Prop := {
  hok_tx : tx_ok R (h_tx h);
  hok_rx : rx_inv (h_rx h)
}.

(** The receive context's own updates. *)
Lemma rx_updates_total ctx trylock1 now1 trylock2 now2 cpu skb :
  is_Some (rxc_stats ctx) -> ISO_MIN_RFAIR <= rxc_rcp_rate ctx <= ISO_VQ_DRAIN_RATE_MBPS ->
  exists ctx1 ctx2, iso_rx_stats_update trylock1 now1 cpu skb ctx = Ok ctx1 /\
    iso_rx_rcp_update trylock2 now2 ctx1 = Ok ctx2 /\
    rxc_vq_list ctx2 = rxc_vq_list ctx /\ rxc_vq_bucket ctx2 = rxc_vq_bucket ctx /\
    is_Some (rxc_stats ctx2) /\ ISO_MIN_RFAIR <= rxc_rcp_rate ctx2 <= ISO_VQ_DRAIN_RATE_MBPS.
Proof.
  intros [st Hst] Hr. pok.
  assert (exists ctx1, iso_rx_stats_update trylock1 now1 cpu skb ctx = Ok ctx1 /\
    rxc_vq_list ctx1 = rxc_vq_list ctx /\ rxc_vq_bucket ctx1 = rxc_vq_bucket ctx /\
    is_Some (rxc_stats ctx1) /\ rxc_rcp_rate ctx1 = rxc_rcp_rate ctx) as (ctx1 & E1 & Hl1 & Hb1 & Hs1 & Hr1).
  { unfold iso_rx_stats_update. rewrite Hst. cbn [rxc_last_stats_update_time].
    destruct (Z.ltb_spec (u64 (ktime_us_delta now1 (rxc_last_stats_update_time ctx))) (u64 ISO_VQ_UPDATE_INTERVAL_US)) as [|Hdt].
    { eexists. split; [reflexivity|]. cbn. eauto. }
    destruct trylock1; cbn [negb]; [|eexists; split; [reflexivity|]; cbn; eauto].
    rewrite (u64_small ISO_VQ_UPDATE_INTERVAL_US) in Hdt by lia. rewrite div_u_ok by lia.
    cbn [mbind outcome_bind]. eexists. split; [reflexivity|]. cbn. eauto. }
  exists ctx1. unfold iso_rx_rcp_update.
  destruct (rcp_step_ok (rxc_rcp_rate ctx1) (rxc_rx_rate ctx1)) as (r & -> & Hrange).
  destruct (_ <? _); [|destruct trylock2]; cbn [negb mbind outcome_bind]; eexists;
    (split; [done|]; split; [reflexivity|]); cbn; rewrite ?Hl1, ?Hb1, ?Hr1; auto.
Qed.

Lemma rx_updates_ok s trylock1 now1 trylock2 now2 cpu skb :
  rx_inv s ->
  exists ctx1 ctx2, iso_rx_stats_update trylock1 now1 cpu skb (rx_ctx s) = Ok ctx1 /\
    iso_rx_rcp_update trylock2 now2 ctx1 = Ok ctx2 /\
    rx_inv {| rx_ctx := ctx2; rx_vqs := rx_vqs s |} /\ rxc_vq_bucket ctx2 = rxc_vq_bucket (rx_ctx s).
Proof.
  intros [Ht Hv Hs Hr].
  destruct (rx_updates_total (rx_ctx s) trylock1 now1 trylock2 now2 cpu skb Hs Hr) as (ctx1 & ctx2 & E1 & E2 & Hl & Hb & Hs2 & Hr2).
  exists ctx1, ctx2. split; [done|]. split; [done|]. split; [|done]. split; [|done|done|done].
  unfold vqt_ok in *. cbn. by rewrite Hl, Hb.
Qed.

(** Rewriting a virtual queue in place. *)
Lemma rx_inv_insert s p vq vq' :
  rx_inv s -> rx_vqs s !! p = Some vq -> vq_ok vq' -> vq_klass vq' = vq_klass vq ->
  rx_inv {| rx_ctx := rx_ctx s; rx_vqs := <[p := vq']> (rx_vqs s) |}.
Proof.
  intros [Ht Hv Hs Hr] Hp Hok Hk. split; [|cbn|done|done].
  - unfold vqt_ok in *. cbn. eapply table_same_keys; [exact Ht|]. intros q.
    destruct (decide (p = q)) as [->|Hne]; [by rewrite lookup_insert_eq, Hp; cbn; rewrite Hk|].
    by rewrite lookup_insert_ne.
  - intros q vq2 Hq. destruct (decide (p = q)) as [->|Hne].
    + rewrite lookup_insert_eq in Hq. by injection Hq as <-.
    + rewrite lookup_insert_ne in Hq by done. by eapply Hv.
Qed.

Lemma maybe_feedback_ok now now' alloc cpu skb vq :
  vq_ok vq -> exists fb vq', maybe_feedback now now' alloc cpu skb vq = Ok (fb, vq') /\
    vq_ok vq' /\ vq_klass vq' = vq_klass vq.
Proof.
  intros [[st Hst] H2 H3 H4 H5]. unfold maybe_feedback. rewrite Hst.
  set (x := if _ || _ then _ else _). destruct x as [fb st']. cbn [mret outcome_ret].
  eexists fb, _. split; [reflexivity|]. split; [|done]. split; cbn; eauto.
Qed.

(** Writing the rate of one rate limiter. *)
Lemma device_inv_set_rate R w p rl rl' :
  device_inv R w -> w_rls w !! p = Some rl -> rate_only R rl rl' -> device_inv R (set_rl p rl' w).
Proof.
  intros Hdev Hp Hrate. unfold set_rl. apply device_inv_rates; [done| |].
  - intros q. destruct (decide (p = q)) as [<-|Hq]; [|by rewrite lookup_insert_ne].
    rewrite lookup_insert_eq, Hp. done.
  - intros q rq rq' Hq Hq'. destruct (decide (p = q)) as [<-|Hne].
    + rewrite lookup_insert_eq in Hq'. congruence.
    + rewrite lookup_insert_ne in Hq' by done. assert (rq' = rq) as -> by congruence.
      pose proof (wf_rate R rq (proj1 (wok_rl R _ (dinv_ok R _ Hdev) q rq Hq))). done.
Qed.

(** Applying feedback to a destination keeps the transmit side well-formed. *)
Lemma apply_feedback_ok R lock now rate p st r s :
  tx_ok R s -> 0 <= rate <= R -> tx_states s !! p = Some st -> ps_rl st = At r ->
  is_Some (w_rls (tx_w s) !! inl r) ->
  exists s', apply_feedback lock now rate (At p) s = Ok s' /\ tx_ok R s' /\ (rate = 0 -> s' = s).
Proof.
  intros Hok Hrate Hst Hr [rl Hrl]. unfold apply_feedback. cbn [deref_ptr]. rewrite (deref_ok _ _ _ Hst).
  destruct (_ && _) eqn:E1; [|by exists s]. cbn [mbind outcome_bind]. destruct (_ <=? u64 (ktime_us_delta _ _)); cbn [andb]; [|by exists s].
  destruct lock; [|by exists s]. cbn [negb].
  rewrite Hr, (deref_ok _ _ _ Hrl). cbn [mbind outcome_bind]. eexists. split; [reflexivity|].
  split; [|intros ->; by rewrite andb_false_r in E1].
  destruct Hok as [[HR Hdev Hc Hb Hra Hs] Hroot Hstk]. pose proof max_tx_facts.
  assert (Hlive : forall rl' q, is_Some (w_rls (tx_w s) !! q) -> is_Some (<[inl r := rl']> (w_rls (tx_w s)) !! q)).
  { intros rl' q Hq. destruct (decide (inl r = q)) as [<-|]; [rewrite lookup_insert_eq; eauto|by rewrite lookup_insert_ne]. }
  assert (Hsts : forall st' q, is_Some (tx_states s !! q) -> is_Some (<[p := st']> (tx_states s) !! q)).
  { intros st' q Hq. destruct (decide (p = q)) as [<-|]; [rewrite lookup_insert_eq; eauto|by rewrite lookup_insert_ne]. }
  split; [split| |]; cbn [set_w set_rl tx_ctx tx_txcs tx_states tx_w w_rls]; try done.
  - apply (device_inv_set_rate R (tx_w s) _ rl); [done|done|]. do 4 (split; [done|]). cbn. rewrite u32_small; lia.
  - split; cbn [set_w set_rl tx_ctx tx_txcs tx_states tx_w w_rls]; [apply Hc| |apply Hc].
    intros q Hq. destruct (cls_live s Hc q Hq). auto.
  - intros pc txc b q Hpc Hq. destruct (Hs pc txc b q Hpc Hq) as (st0 & r0 & H1 & H2 & H3).
    destruct (decide (p = q)) as [<-|Hne].
    + rewrite lookup_insert_eq. eexists _, r. split; [reflexivity|]. eauto.
    + exists st0, r0. rewrite lookup_insert_ne by done. auto.
  - intros q Hq. destruct (Hroot q Hq) as (g & Hg & Hgt). exists g. by rewrite lookup_insert_ne.
  - intros pc txc Hpc. apply (stock_ok_mono s _ txc); cbn [set_w set_rl tx_states tx_w w_rls]; eauto.
Qed.

(** A packet that carries feedback is one that the module generated. *)
Lemma marked_generated skb :
  iso_is_feedback_marked skb <> 0 -> iso_is_generated_feedback skb = 1 /\ is_ip skb = true.
Proof.
  unfold iso_is_feedback_marked, iso_is_generated_feedback. destruct (is_ip skb); [|done].
  cbn. by destruct (_ =? _).
Qed.

(** The transmit side of a received packet. *)
Lemma rx_feedback_ok R e pc txc skb s :
  tx_ok R s -> tx_txcs s !! pc = Some txc -> 0 <= skb_has_feedback skb <= R ->
  (iso_is_feedback_marked skb <> 0 -> rxe_write_lock e = true ->
    txc_state_bucket txc (state_hash (dest_ip true skb)) = [] -> txc_prealloc_state_list txc <> []) ->
  exists v skb' s', rx_feedback e pc skb s = Ok (v, skb', s') /\ tx_ok R s' /\ skb_len skb' = skb_len skb /\
    (v = ISO_VERDICT_SUCCESS \/ v = ISO_VERDICT_DROP /\ iso_is_generated_feedback skb = 1) /\
    (iso_is_feedback_marked skb = 0 -> s' = s) /\
    (iso_is_feedback_marked skb <> 0 -> rxe_write_lock e = true -> v = ISO_VERDICT_DROP).
Proof.
  intros Hok Hpc Hfb Hne. unfold rx_feedback. set (create := if iso_is_feedback_marked skb =? 0 then _ else _).
  assert (Hcr : create = if decide (iso_is_feedback_marked skb = 0) then ISO_DONT_CREATE_RL else ISO_CREATE_RL).
  { unfold create. destruct (Z.eqb_spec (iso_is_feedback_marked skb) 0), (decide _); done. }
  destruct (state_get_ok R (fun i => rxe_now e (10 + i)%nat) pc txc skb true (rxe_write_lock e) create s Hok Hpc)
    as (c & s1 & -> & Hok1 & Hsame & Hc).
  { rewrite Hcr. destruct (decide _); [done|]. intros _ Hw _. by apply Hne. }
  cbn [mbind outcome_bind]. destruct Hc as [[-> Hno]|(p & st & r & -> & Hst & Hr & Hlive)].
  - exists ISO_VERDICT_SUCCESS, skb, s1. split; [done|]. split; [done|]. split; [done|]. split; [by left|].
    split; [intros E; apply Hsame; rewrite Hcr, E; by destruct (decide _)|].
    intros Hm Hw. destruct Hno. split; [by apply marked_generated|]. split; [done|]. rewrite Hcr. by destruct (decide _).
  - destruct (apply_feedback_ok R (rxe_rc_lock e) (rxe_now e 4%nat) (skb_has_feedback skb) p st r s1 Hok1 Hfb Hst Hr Hlive)
      as (s2 & -> & Hok2 & Hsame2). cbn [mbind outcome_bind mret outcome_ret].
    eexists _, _, s2. split; [reflexivity|]. split; [done|]. split; [done|].
    split; [|split].
    + unfold iso_is_generated_feedback. destruct (is_ip skb); [|by left].
      destruct (iph_protocol _ =? _); cbn; auto.
    + intros E. rewrite Hsame2 by (by rewrite <- is_feedback_marked_has). apply Hsame. rewrite Hcr, E.
      by destruct (decide _).
    + intros Hm _. by destruct (marked_generated skb Hm) as [-> _].
Qed.

(** The first half of [iso_rx]: the packet has no virtual queue, or is accounted to it. *)
Lemma rx_prefix_ok e cpu skb h :
  rx_inv (h_rx h) -> valid (op_rx_classify skb) ->
  exists found, iso_vq_find (op_rx_classify skb) (h_rx h) = Ok found /\
    exists rx, rx_inv rx /\
    match found with
    | None => iso_rx e cpu skb h = Ok (ISO_VERDICT_SUCCESS, skb, None, {| h_tx := h_tx h; h_rx := rx |})
    | Some pv => exists vq, rx_vqs rx !! pv = Some vq /\ iso_rx e cpu skb h = rx_counted e cpu skb pv vq rx (h_tx h)
    end.
Proof.
  intros Hrx Hvalid. unfold iso_rx. set (klass := op_rx_classify skb) in *.
  destruct (rx_updates_ok (h_rx h) (rxe_stats_lock e) (rxe_now e 0%nat) (rxe_rcp_lock e) (rxe_now e 1%nat)
    cpu skb Hrx) as (ctx1 & ctx & -> & E2 & Hrx1 & Hbk). cbn [mbind outcome_bind]. rewrite E2. cbn [mbind outcome_bind].
  set (rx1 := {| rx_ctx := ctx; rx_vqs := rx_vqs (h_rx h) |}) in *.
  assert (Hfind : iso_vq_find klass (h_rx h) = iso_vq_find klass rx1) by (unfold iso_vq_find; cbn; by rewrite Hbk).
  destruct (table_find vq_klass ISO_MAX_VQ_BUCKETS (valid := valid) _ _ _ klass (ri_table rx1 Hrx1) Hvalid)
    as (found & Efind & Hfound).
  change (iso_vq_find klass rx1 = Ok found) in Efind. rewrite Efind in *. cbn [mbind outcome_bind].
  exists found. split; [done|]. destruct found as [pv|]; [|by exists rx1].
  destruct Hfound as (_ & vq & Hvq & _). rewrite (deref_ok _ _ _ Hvq). cbn [mbind outcome_bind].
  pok. pose proof (ri_rcp rx1 Hrx1) as Hrcp.
  destruct (iso_vq_enqueue_ok (rxc_rcp_rate ctx) (rxe_now e 2%nat) (rxe_now e 3%nat) (rxe_vq_lock e) cpu skb vq
    (ri_vq rx1 Hrx1 pv vq Hvq) ltac:(cbn in Hrcp; lia)) as (vq1 & Eenq & Hok1 & _).
  rewrite Eenq. cbn [mbind outcome_bind]. eexists. split; [|exists vq1; split; [|reflexivity]].
  - exact (rx_inv_insert rx1 pv vq vq1 Hrx1 Hvq Hok1 (iso_vq_enqueue_klass _ _ _ _ _ _ _ _ Eenq)).
  - apply lookup_insert_eq.
Qed.

(** A feedback packet for a destination whose bucket is empty, while the class has
    no state in stock. *)
Definition starved (e : rx_env) (skb : sk_buff) (h : host) : Prop :=
  iso_is_feedback_marked skb <> 0 /\ rxe_write_lock e = true /\
  exists pv pc txc, iso_vq_find (op_rx_classify skb) (h_rx h) = Ok (Some pv) /\
    iso_txc_find (op_rx_classify skb) (h_tx h) = Ok (Some pc) /\ tx_txcs (h_tx h) !! pc = Some txc /\
    txc_state_bucket txc (state_hash (dest_ip true skb)) = [] /\ txc_prealloc_state_list txc = [].

(** A received packet: it has no virtual queue or class, or its class handles it. *)
Lemma iso_rx_ok R e cpu skb h :
  host_ok R h -> valid (op_rx_classify skb) -> 0 <= skb_has_feedback skb <= R -> ~ starved e skb h ->
  exists v skb' fb h' vq txc, iso_rx e cpu skb h = Ok (v, skb', fb, h') /\ host_ok R h' /\
    iso_vq_find (op_rx_classify skb) (h_rx h) = Ok vq /\ iso_txc_find (op_rx_classify skb) (h_tx h) = Ok txc /\
    ((vq = None \/ txc = None) /\ v = ISO_VERDICT_SUCCESS /\ skb' = skb /\ fb = None /\ h_tx h' = h_tx h \/
     exists pv pc, vq = Some pv /\ txc = Some pc /\ rx_feedback e pc skb (h_tx h) = Ok (v, skb', h_tx h') /\
       (v = ISO_VERDICT_DROP -> fb = None)).
Proof.
  intros [Htx Hrx] Hvalid Hfb Hstock.
  destruct (rx_prefix_ok e cpu skb h Hrx Hvalid) as (found & Evq & rx & Hrx1 & Erx).
  destruct (txc_find_live R (op_rx_classify skb) (h_tx h) (txo_inv R _ Htx)) as (txcf & Etx & Hin).
  destruct found as [pv|].
  2:{ eexists _, _, _, _, None, txcf. split; [exact Erx|]. split; [by split|]. split; [done|]. split; [done|]. left. auto. }
  destruct Erx as (vq & Hvq & ->). unfold rx_counted. rewrite Etx. cbn [mbind outcome_bind].
  destruct txcf as [pc|].
  2:{ eexists _, _, _, _, (Some pv), None. split; [reflexivity|]. split; [by split|]. auto 10. }
  destruct (Hin pc eq_refl) as [txc Hpc].
  destruct (rx_feedback_ok R e pc txc skb (h_tx h) Htx Hpc Hfb) as (v & skb' & tx' & Efb & Htx' & _).
  { intros Hm Hw Hb Hp. apply Hstock. split; [done|]. split; [done|]. by exists pv, pc, txc. }
  rewrite Efb. cbn [mbind outcome_bind]. destruct (negb (IsoAutoGenerateFeedback =? 0) && _) eqn:Eauto.
  - destruct (maybe_feedback_ok (rxe_now e 5%nat) (rxe_now e 6%nat) (rxe_skb e) cpu skb' vq (ri_vq rx Hrx1 pv vq Hvq))
      as (fb & vq2 & -> & Hok2 & Hk2). cbn [mbind outcome_bind].
    eexists v, skb', fb, _, (Some pv), (Some pc). split; [reflexivity|].
    split; [split; [done|by apply (rx_inv_insert rx pv vq)]|]. split; [done|]. split; [done|]. right. exists pv, pc.
    do 3 (split; [done|]). intros ->. by rewrite bool_decide_eq_true_2, andb_false_r in Eauto.
  - eexists v, skb', None, _, (Some pv), (Some pc). split; [reflexivity|]. split; [by split|]. eauto 12.
Qed.

(** Receiving a packet, with what becomes of it. *)
Lemma iso_rx_total (R : Z) (e : rx_env) (cpu : nat) (skb : sk_buff) (h : host) :
  let klass := op_rx_classify skb in
  host_ok R h -> valid klass -> 0 <= skb_has_feedback skb <= R ->
  ~ starved e skb h ->
  exists v skb' fb h', iso_rx e cpu skb h = Ok (v, skb', fb, h') /\ host_ok R h' /\
    skb_len skb' = skb_len skb /\
    (v = ISO_VERDICT_SUCCESS \/ v = ISO_VERDICT_DROP /\ iso_is_generated_feedback skb = 1 /\ fb = None) /\
    (iso_is_feedback_marked skb = 0 -> h_tx h' = h_tx h) /\
    (forall pv pc, iso_is_feedback_marked skb <> 0 -> rxe_write_lock e = true ->
      iso_vq_find klass (h_rx h) = Ok (Some pv) -> iso_txc_find klass (h_tx h) = Ok (Some pc) ->
      v = ISO_VERDICT_DROP).
Proof.
  intros klass Hok Hvalid Hfb Hstock.
  destruct (iso_rx_ok R e cpu skb h Hok Hvalid Hfb Hstock) as (v & skb' & fb & h' & vq & txcf & E & Hok' & Evq & Etx & Hor).
  exists v, skb', fb, h'. split; [exact E|]. split; [exact Hok'|]. subst klass.
  destruct Hor as [(Hnone & -> & -> & -> & Eh)|(pv & pc & -> & -> & Efb & Hdrop)].
  - do 3 (split; [by auto|]). intros pv pc _ _ E1 E2. destruct Hnone; congruence.
  - destruct (txc_find_live R (op_rx_classify skb) (h_tx h) (txo_inv R _ (hok_tx R h Hok))) as (f & Ef & Hin). rewrite Etx in Ef.
    injection Ef as <-. destruct (Hin pc eq_refl) as [txc Hpc].
    destruct (rx_feedback_ok R e pc txc skb (h_tx h) (hok_tx R h Hok) Hpc Hfb) as
      (v2 & skb2 & tx2 & Efb2 & _ & Hlen & Hv & Hsame & Hd).
    { intros Hm Hw Hb Hp. apply Hstock. split; [done|]. split; [done|]. by exists pv, pc, txc. }
    rewrite Efb in Efb2. injection Efb2 as <- <- <-.
    split; [done|]. split; [destruct Hv as [->|[-> ?]]; auto|]. split; [done|]. intros; by apply Hd.
Qed.

(** C10: Receiving any packet on a well-formed device never faults and keeps it well-formed,
    unless it carries feedback for a new destination of a class without a state in stock; a
    packet without feedback leaves the transmit side unchanged and is delivered unless the
    module generated it, and a feedback packet of a known class is dropped when the class is not
    locked. *)
Theorem iso_rx_safe (R : Z) (e : rx_env) (cpu : nat) (skb : sk_buff) (h : host) :
  let klass := op_rx_classify skb in
  host_ok R h -> valid klass -> 0 <= skb_has_feedback skb <= R ->
  ~ starved e skb h ->
  exists v skb' fb h', iso_rx e cpu skb h = Ok (v, skb', fb, h') /\ host_ok R h' /\
    skb_len skb' = skb_len skb /\
    (v = ISO_VERDICT_SUCCESS \/ v = ISO_VERDICT_DROP /\ iso_is_generated_feedback skb = 1 /\ fb = None) /\
    (iso_is_feedback_marked skb = 0 -> h_tx h' = h_tx h) /\
    (forall pv pc, iso_is_feedback_marked skb <> 0 -> rxe_write_lock e = true ->
      iso_vq_find klass (h_rx h) = Ok (Some pv) -> iso_txc_find klass (h_tx h) = Ok (Some pc) ->
      v = ISO_VERDICT_DROP).
Proof. exact (iso_rx_total R e cpu skb h). Qed.

(** The creating lookup hands out the list head as a state, and the rate is
    written through it. *)
Lemma rx_starved e cpu skb h :
  rx_inv (h_rx h) -> valid (op_rx_classify skb) -> starved e skb h ->
  iso_rx e cpu skb h = Oops BadPointer.
Proof.
  intros Hrx Hvalid (Hm & Hw & pv & pc & txc & Evq & Etx & Hpc & Hb & Hp).
  destruct (rx_prefix_ok e cpu skb h Hrx Hvalid) as (found & Evq' & rx & _ & Erx).
  rewrite Evq in Evq'. injection Evq' as <-. destruct Erx as (vq & _ & ->).
  unfold rx_counted. rewrite Etx. cbn [mbind outcome_bind]. unfold rx_feedback.
  destruct (marked_generated skb Hm) as [_ Hip]. pose proof Hm as Hm'. apply Z.eqb_neq in Hm. rewrite Hm, Hw.
  destruct (state_get_wild true (fun i => rxe_now e (10 + i)%nat) pc txc skb (h_tx h) Hip Hpc Hb Hp) as (s1 & ->).
  cbn [mbind outcome_bind]. unfold apply_feedback. rewrite <- is_feedback_marked_has, Hm. pok.
  rewrite (proj2 (Z.leb_le _ _)) by lia. done.
Qed.

(** ** Deleting a class *)

Lemma rl_free_all l : forall s s',
  foldM iso_rl_free l s = Ok s' ->
  w_cbs (tx_w s') = w_cbs (tx_w s) /\ w_exiting (tx_w s') = w_exiting (tx_w s) /\
  (forall q, w_rls (tx_w s) !! q = None -> w_rls (tx_w s') !! q = None) /\
  (forall p, p ∈ l -> w_rls (tx_w s') !! inl p = None).
Proof.
  induction l as [|q l IH]; intros s s' E.
  - injection E as <-. split; [done|]. split; [done|]. split; [done|]. intros p H. by apply not_elem_of_nil in H.
  - cbn [foldM] in E. apply bind_ok in E as (s1 & E1 & E). unfold iso_rl_free in E1.
    apply bind_ok in E1 as (rl & _ & E1). injection E1 as <-.
    destruct (IH _ _ E) as (H1 & H2 & H3 & H4). cbn [tx_w set_w w_rls w_cbs w_exiting] in *.
    split; [done|]. split; [done|]. split.
    + intros r Hr. apply H3. destruct (decide (inl q = r)) as [<-|]; [apply lookup_delete_eq|].
      by rewrite lookup_delete_ne.
    + intros p [->|Hp]%elem_of_cons; [|auto]. apply H3, lookup_delete_eq.
Qed.

Lemma state_free_all l : forall s s', foldM iso_state_free l s = Ok s' -> tx_w s' = tx_w s.
Proof.
  induction l as [|q l IH]; intros s s' E; [by injection E as <-|].
  cbn [foldM] in E. apply bind_ok in E as (s1 & E1 & E). unfold iso_state_free in E1.
  apply bind_ok in E1 as (st & _ & E1). injection E1 as <-. by rewrite (IH _ _ E).
Qed.

(** The rate limiters of a freed class are gone; the CPUs' lists are as they were. *)
Lemma txc_free_world pc h h' txc :
  iso_txc_free pc h = Ok h' -> tx_txcs (h_tx h) !! pc = Some txc ->
  w_cbs (tx_w (h_tx h')) = w_cbs (tx_w (h_tx h)) /\
  w_exiting (tx_w (h_tx h')) = w_exiting (tx_w (h_tx h)) /\
  forall p, p ∈ all_chains 256 (txc_rl_bucket txc) \/ p ∈ txc_prealloc_rl_list txc ->
    w_rls (tx_w (h_tx h')) !! inl p = None.
Proof.
  intros E Hpc. unfold iso_txc_free in E. rewrite (deref_ok _ _ _ Hpc) in E. cbn [mbind outcome_bind] in E.
  apply bind_ok in E as (t1 & E1 & E). apply bind_ok in E as (t2 & E2 & E).
  apply bind_ok in E as (t3 & E3 & E). apply bind_ok in E as (t4 & E4 & E). apply bind_ok in E as (vqs & _ & E).
  injection E as <-. apply state_free_all in E2, E4.
  destruct (rl_free_all _ _ _ E1) as (C1 & X1 & N1 & D1). destruct (rl_free_all _ _ _ E3) as (C3 & X3 & N3 & D3).
  cbn [h_tx tx_w set_w w_cbs w_exiting w_rls]. rewrite E4, C3, X3, E2, C1, X1.
  split; [done|]. split; [done|]. intros p Hp. rewrite lookup_delete_ne by done.
  destruct Hp as [Hp|Hp]; [|auto]. apply N3. rewrite E2. auto.
Qed.

(** Freeing a class while the queue of one of its rate limiters waits at the head of a CPU's
    active list makes the next tasklet there dereference freed memory. *)
Theorem txc_free_leaves_dangling_timer (cpu : nat) (pc p : loc) (txc : iso_tx_class) (h h' : host) (l : list rlptr) :
  tx_txcs (h_tx h) !! pc = Some txc -> iso_txc_free pc h = Ok h' ->
  p ∈ all_chains 256 (txc_rl_bucket txc) \/ p ∈ txc_prealloc_rl_list txc ->
  w_exiting (tx_w (h_tx h)) = false ->
  cb_active_list (w_cbs (tx_w (h_tx h)) cpu) = inl p :: l -> NoDup (inl p :: l) ->
  iso_rl_xmit_tasklet cpu (tx_w (h_tx h')) = Oops BadPointer.
Proof.
  intros Hpc E Hp Hex Hact Hnd. destruct (txc_free_world pc h h' txc E Hpc) as (Hcb & Hx & Hgone).
  specialize (Hgone p Hp). set (w := tx_w (h_tx h')) in *. rewrite <- Hcb in Hact. rewrite <- Hx in Hex.
  unfold iso_rl_xmit_tasklet. change (w_exiting (set_cb cpu _ w)) with (w_exiting w). rewrite Hex.
  set (w2 := set_cb cpu _ {| w_rls := _ |}).
  assert (Ha2 : active w2 cpu = inl p :: l).
  { unfold w2, active, set_cb. cbn [w_cbs]. rewrite !pc_set_eq. cbn [cb_active_list]. exact Hact. }
  change (cb_active_list (w_cbs w2 cpu)) with (active w2 cpu). rewrite Ha2. cbn [head]. unfold xmit_fuel.
  cbn [xmit_loop]. fold (active w2 cpu).
  change (bool_decide (list_next (inl p) (active w2 cpu) = Some (inl p)) || (budget <? 0 + 1) ||
    (u32 (s32 (2 * ISO_MIN_BURST_BYTES)) <? 0)) with (xmit_stop cpu w2 (Some (inl p)) (inl p) 0 0).
  rewrite (xmit_first_runs cpu w2 (inl p) l Ha2 Hnd). unfold w_clock, deref. cbn [active_del set_cb w_rls].
  change (w_rls w2 !! inl p) with (w_rls w !! inl p). rewrite Hgone. done.
Qed.
End Host.

(** ** Witnesses *)

Definition ex_host : host := {| h_tx := ex_tx; h_rx := ex_rx1 |}.

Lemma ex_host_ok :
  host_ok (K := ref_kernel) (P := default_params) (C := Mark.ops) (valid := is_u32) (Env := ex_env) 10000 ex_host.
Proof.
  split; [exact ex_tx_ok|]. split.
  - exact ex_rx1_ok.
  - intros p vq. cbn [h_rx ex_host rx_vqs ex_rx1]. rewrite lookup_singleton_Some. intros [_ <-].
    destruct ex_vq_ok. by split.
  - cbn. eauto.
  - cbn. lia.
Qed.

Definition ex_rx_env : rx_env := {|
  rxe_now := fun _ => 1000000; rxe_stats_lock := true; rxe_rcp_lock := true; rxe_vq_lock := true;
  rxe_write_lock := true; rxe_rc_lock := true; rxe_skb := Some ex_skb |}.

(** A feedback packet from a new destination: rate 100. *)
Definition ex_fb : sk_buff :=
  let h := skb_iph ex_pkt in {| ex_pkt with skb_iph := {| h with iph_protocol := 143; iph_id := 100 |} |}.

(** Its destination gets a state and the rate, and the packet is dropped. *)
Lemma iso_rx_safe_witness :
  exists skb' fb h', iso_rx (K := ref_kernel) (P := default_params) (C := Mark.ops)
      ex_rx_env 1 ex_fb ex_host = Ok (ISO_VERDICT_DROP, skb', fb, h') /\ h_tx h' <> ex_tx.
Proof.
  destruct (iso_rx_safe (K := ref_kernel) (P := default_params) (C := Mark.ops) (valid := is_u32)
    (Env := ex_env) 10000 ex_rx_env 1 ex_fb ex_host ex_host_ok) as (v & skb' & fb & h' & H & _ & _ & _ & _ & Hv).
  - vm_compute. split; [discriminate|reflexivity].
  - vm_compute. split; discriminate.
  - intros (_ & _ & pv & pc & txc & _ & _ & [_ ->]%ex_tx_lookup & _ & E). discriminate E.
  - exists skb', fb, h'. split.
    + rewrite H. rewrite (Hv 1%positive 1%positive); [reflexivity|discriminate|reflexivity| |]; vm_compute; reflexivity.
    + intros E. assert (E2 : match iso_rx (K := ref_kernel) (P := default_params) (C := Mark.ops)
        ex_rx_env 1 ex_fb ex_host with
        | Ok (_, _, _, h') => (fun txc => length (txc_prealloc_state_list txc)) <$> tx_txcs (h_tx h') !! 1%positive
        | Oops _ => None end = Some 0%nat) by (vm_compute; reflexivity).
      rewrite H, E in E2. discriminate E2.
Defined.

(** Class 7 is deleted while the rate limiter at 5 waits on CPU 1. *)
Definition ex_host_waiting : host := {|
  h_tx := set_w {| ex_world with w_cbs := pc_set 1 {| ex_cb0 with cb_active_list := [inl 5%positive] |}
                                            (w_cbs ex_world) |} ex_tx;
  h_rx := ex_rx1 |}.

Lemma txc_free_leaves_dangling_timer_witness :
  exists h', iso_txc_free 1%positive ex_host_waiting = Ok h' /\
    iso_rl_xmit_tasklet (K := ref_kernel) (P := default_params) (Env := ex_env) 1 (tx_w (h_tx h')) = Oops BadPointer.
Proof.
  destruct (iso_txc_free 1%positive ex_host_waiting) as [h'|f] eqn:E; [|exfalso; revert E; vm_compute; discriminate].
  exists h'. split; [reflexivity|].
  apply (txc_free_leaves_dangling_timer (K := ref_kernel) (P := default_params) (Env := ex_env)
    1%nat 1%positive 5%positive ex_txc ex_host_waiting h' []).
  - vm_compute. reflexivity.
  - exact E.
  - right. apply list_elem_of_here.
  - reflexivity.
  - vm_compute. reflexivity.
  - apply NoDup_singleton.
Defined.
