(* ===== verification/System.v ===== *)
(** * The module in operation

    Packets in both directions, timers, tasklets and the allocator of a class, in
    any order: the module faults only on a feedback packet that needs a state
    when its class has none in stock. *)

From S2P Require Import Prelude Params Kernel Packet Scan Class RateControl HashTable VirtualQueue.
From S2P Require Import VqTable RateLimiter Dequeue Device Tx TxPath Rx Host.

Open Scope Z_scope.

Section System.
Context {K : Kernel} {KL : KernelLaws K} {P : params} {PO : params_ok P}.
Context {C : IsoClass} {valid : Z -> Prop} {L : IsoClassLaws C valid}.
Context {Env : Oracle} {CL : ClockLaws Env}.

(** ** The allocator *)

(** A new rate limiter, with empty queues and a live parent, joins a device. *)
Lemma device_inv_add R w p rl :
  device_inv R w -> w_rls w !! p = None -> rl_wf R rl ->
  0 <= rl_last_update_time rl <= clock (w_reads w) ->
  (forall i, queue_ok (rl_queue rl i)) -> (forall i, i ∈ possible_cpus -> rlq_list (rl_queue rl i) = []) ->
  (forall t, rl_txc rl = Some t -> exists g, w_rls w !! inr t = Some g /\ rl_txc g = None) ->
  device_inv R (set_rl p rl w).
Proof.
  intros [[H1 H2 H3 H4 H5] Hs Ht] Hp Hwf Hlast Hq Hempty Hpar.
  assert (Hnew : forall q rq, <[p := rl]> (w_rls w) !! q = Some rq -> q = p /\ rq = rl \/ w_rls w !! q = Some rq).
  { intros q rq. destruct (decide (p = q)) as [->|Hne]; [rewrite lookup_insert_eq; intros [= <-]; by left|].
    rewrite lookup_insert_ne by done. by right. }
  assert (Hold : forall q rq, w_rls w !! q = Some rq -> <[p := rl]> (w_rls w) !! q = Some rq).
  { intros q rq Hrq. rewrite lookup_insert_ne; [done|]. intros ->. congruence. }
  split; [split| |done]; unfold set_rl; cbn [w_rls w_reads].
  - intros q rq [[-> ->]|Hrq]%Hnew; [done|exact (H1 q rq Hrq)].
  - intros q rq i [[-> ->]|Hrq]%Hnew; [done|by apply (H2 q)].
  - intros q rq t Hrq Htx. assert (exists g, w_rls w !! inr t = Some g /\ rl_txc g = None) as (g & Hg & Hgt).
    { apply Hnew in Hrq as [[-> ->]|Hrq]; [by apply Hpar|by apply (H3 q rq)]. }
    exists g. split; [by apply Hold|done].
  - intros i q Hq'. destruct (H4 i q Hq') as [rq Hrq]. exists rq. by apply Hold.
  - exact H5.
  - intros i q Hi Hex rq [[-> ->]|Hrq]%Hnew Hne; [by rewrite Hempty in Hne|by apply (Hs i q Hi Hex rq)].
Qed.

(** What the allocators give to one round: addresses that are not in use, a
    per-CPU area that is zero, and the clock as it is. *)
Record alloc_ok (s : tx_state) (e : prealloc_env) : Prop := {
  ao_state p st : pa_state e = Some (p, st) -> tx_states s !! p = None;
  ao_rl p rl : pa_rl e = Some (p, rl) -> w_rls (tx_w s) !! inl p = None;
  ao_queue : exists q, pa_queue e = Some q /\
    forall i, rlq_list (q i) = [] /\ rlq_bytes_enqueued (q i) = 0 /\ rlq_tokens (q i) = 0;
  ao_time : 0 <= pa_times e 3%nat <= clock (w_reads (tx_w s))
}.

(** The same for a sequence of rounds. *)
Fixpoint allocs_ok (pc : loc) (es : list prealloc_env) (s : tx_state) : Prop :=
  match es with
  | [] => True
  | e :: es => alloc_ok s e /\ forall s', prealloc_one pc e s = Ok (true, s') -> allocs_ok pc es s'
  end.

(** Every queue of a new rate limiter is empty. *)
Lemma rl_init_queue t1 t2 queue rl :
  (forall i, rlq_list (queue i) = [] /\ rlq_bytes_enqueued (queue i) = 0 /\ rlq_tokens (queue i) = 0) ->
  forall i, rlq_list (rl_queue (iso_rl_init t1 t2 queue rl) i) = [] /\
    rlq_bytes_enqueued (rl_queue (iso_rl_init t1 t2 queue rl) i) = 0 /\
    rlq_tokens (rl_queue (iso_rl_init t1 t2 queue rl) i) = 0.
Proof.
  intros Hz i. cbn [iso_rl_init rl_queue].
  destruct (decide (i ∈ possible_cpus)) as [Hi|Hi]; [by rewrite pc_update_in by (done || apply possible_nodup)|by rewrite pc_update_notin].
Qed.

Lemma new_rl_ok R t1 t2 queue rl pc w :
  ISO_MAX_TX_RATE <= R -> 0 <= t1 <= clock (w_reads w) ->
  (forall i, rlq_list (queue i) = [] /\ rlq_bytes_enqueued (queue i) = 0 /\ rlq_tokens (queue i) = 0) ->
  (exists g, w_rls w !! inr pc = Some g /\ rl_txc g = None) ->
  forall p, device_inv R w -> w_rls w !! p = None ->
  device_inv R (set_rl p (let rl := iso_rl_init t1 t2 queue rl in {| rl with rl_txc := Some pc |}) w).
Proof.
  intros HR Ht Hz Hroot p Hdev Hp. pose proof (rl_init_queue t1 t2 queue rl Hz) as Hq.
  pose proof max_tx_facts. pok. apply device_inv_add; [done|done| |exact Ht| | |by intros t [= <-]].
  - split; [cbn; rewrite u32_small; lia|cbn; lia|]. intros i. destruct (Hq i) as (_ & _ & Htok).
    cbn [rl_queue] in *. rewrite Htok. unfold is_u64. lia.
  - intros i. destruct (Hq i) as (El & Eb & _). cbn [rl_queue] in *. split; rewrite ?El, ?Eb; [done|constructor|].
    unfold MAX_SKB_BYTES. lia.
  - intros i _. apply Hq.
Qed.

(** The rate limiter of a class is a root of the hierarchy. *)
Definition rooted (pc : loc) (s : tx_state) : Prop :=
  exists g, w_rls (tx_w s) !! inr pc = Some g /\ rl_txc g = None.

(** One round of the allocator. *)
Lemma prealloc_one_ok R pc txc e s :
  tx_ok R s -> rooted pc s -> tx_txcs s !! pc = Some txc ->
  txc_freelist_count txc < 2147483647 -> alloc_ok s e ->
  exists more s' txc', prealloc_one pc e s = Ok (more, s') /\ tx_ok R s' /\ tx_ctx s' = tx_ctx s /\
    tx_txcs s' !! pc = Some txc' /\ txc_freelist_count txc' <= txc_freelist_count txc + 1 /\ rooted pc s'.
Proof.
  intros Hok Hpr Hpc Hcnt [Hst Hrl (queue & Eq & Hz) Ht]. unfold prealloc_one. rewrite Eq.
  destruct (pa_state e) as [[ps st]|]; [|exists false, s, txc; split_and!; (done || lia)].
  destruct (pa_stats e) as [stats|]; [|exists false, s, txc; split_and!; (done || lia)].
  destruct (pa_rl e) as [[pr rl]|]; [|exists false, s, txc; split_and!; (done || lia)].
  specialize (Hst ps st eq_refl). specialize (Hrl pr rl eq_refl).
  rewrite (deref_ok _ _ _ Hpc). cbn [mbind outcome_bind].
  pose proof Hok as [[HR Hdev Hc Hb Hrate Hbk] Hroot Hstk]. destruct (Hstk pc txc Hpc) as [K1 K2 K3 K4 K5 K6].
  rewrite s32_small by lia.
  eexists true, _, _. split; [reflexivity|]. split; [|split; [done|split; [apply lookup_insert_eq|split; [cbn; lia|]]]].
  2:{ destruct Hpr as (g & Hg & Hgt). exists g. cbn [set_w set_txc set_rl tx_w w_rls]. by rewrite lookup_insert_ne. }
  split; [split| |]; cbn [set_w set_txc set_rl tx_ctx tx_txcs tx_states tx_w w_rls]; try done.
  - apply new_rl_ok; [lia|done|done|exact Hpr|done|done].
  - split; cbn [set_w set_txc set_rl tx_ctx tx_txcs tx_states tx_w w_rls]; [apply Hc| |].
    + intros q Hq. destruct (cls_live s Hc q Hq). by rewrite !lookup_insert_is_Some'; auto.
    + intros q tx [[<- <-]|[_ Hq]]%lookup_insert_Some; [|by apply (cls_ok s Hc q)].
      destruct (cls_ok s Hc pc txc Hpc). by split.
  - intros q tx b p Hq Hp. assert (exists tx0, tx_txcs s !! q = Some tx0 /\ p ∈ txc_state_bucket tx0 b) as (tx0 & Hq0 & Hp0).
    { apply lookup_insert_Some in Hq as [[<- <-]|[_ Hq]]; eauto. }
    destruct (Hbk q tx0 b p Hq0 Hp0) as (st0 & r0 & E1 & E2 & E3). exists st0, r0.
    rewrite lookup_insert_ne by congruence. rewrite lookup_insert_is_Some'. auto.
  - intros q Hq. destruct (Hroot q Hq) as (g & Hg & Hgt). exists g. by rewrite lookup_insert_ne.
  - intros q tx [[<- <-]|[_ Hq]]%lookup_insert_Some.
    + split; cbn [set_w set_txc set_rl tx_states tx_w w_rls txc_prealloc_state_list txc_prealloc_rl_list
        txc_rl_bucket txc_freelist_count]; rewrite ?length_app; cbn [length]; [| | |lia|lia|lia].
      * intros q [Hq|Hq%list_elem_of_singleton]%elem_of_app; rewrite lookup_insert_is_Some'; auto.
      * intros q [Hq|Hq%list_elem_of_singleton]%elem_of_app; rewrite lookup_insert_is_Some'; [auto|left; congruence].
      * intros b q Hq. rewrite lookup_insert_is_Some'. eauto.
    + apply (stock_ok_mono s _ tx); [| |done|by apply (Hstk q)]; intros x Hx;
        cbn [set_w set_txc set_rl tx_states tx_w w_rls]; rewrite lookup_insert_is_Some'; auto.
Qed.

Lemma prealloc_ok R pc es : forall txc s,
  tx_ok R s -> rooted pc s -> tx_txcs s !! pc = Some txc ->
  txc_freelist_count txc + Z.of_nat (length es) < 2147483648 -> allocs_ok pc es s ->
  exists s', iso_txc_prealloc pc es s = Ok s' /\ tx_ok R s' /\ rooted pc s'.
Proof.
  induction es as [|e es IH]; intros txc s Hok Hpr Hpc Hcnt Hal; [by exists s|].
  destruct Hal as [He Hes]. cbn [length] in Hcnt.
  destruct (prealloc_one_ok R pc txc e s Hok Hpr Hpc ltac:(lia) He) as (more & s1 & txc1 & E & Hok1 & Ec & Hpc1 & Hc1 & Hpr1).
  cbn [iso_txc_prealloc]. rewrite E. cbn [mbind outcome_bind]. destruct more; [|by exists s1].
  apply (IH txc1); [done|done|done|lia|by apply Hes].
Qed.

(** Scheduling and running the allocator only touches its flag and the stock. *)
Lemma tx_ok_flag R pc txc a s :
  tx_ok R s -> tx_txcs s !! pc = Some txc -> tx_ok R (set_txc pc {| txc with txc_allocator := a |} s).
Proof.
  intros [[HR Hdev Hc Hb Hrate Hbk] Hroot Hstk] Hpc.
  split; [split| |]; cbn [set_txc tx_ctx tx_txcs tx_states tx_w]; try done.
  - split; cbn [set_txc tx_ctx tx_txcs tx_states tx_w]; [apply Hc| |].
    + intros q Hq. destruct (cls_live s Hc q Hq). by rewrite lookup_insert_is_Some'; auto.
    + intros q tx [[<- <-]|[_ Hq]]%lookup_insert_Some; [|by apply (cls_ok s Hc q)].
      destruct (cls_ok s Hc pc txc Hpc). by split.
  - intros q tx b p [[<- <-]|[_ Hq]]%lookup_insert_Some Hp; [by apply (Hbk pc txc b)|by apply (Hbk q tx b)].
  - intros q tx [[<- <-]|[_ Hq]]%lookup_insert_Some.
    + by apply (stock_ok_mono s _ txc); [| | |apply (Hstk pc)].
    + by apply (stock_ok_mono s _ tx); [| | |apply (Hstk q)].
Qed.

(** ** Events *)

Inductive hevent :=
| Send (ticklock : bool) (cpu : nat) (skb : sk_buff)
| Receive (e : rx_env) (cpu : nat) (skb : sk_buff)
| Timer (cpu : nat)
| Tasklet (cpu : nat)
| Allocator (pc : loc) (es : list prealloc_env).

Definition set_tx (tx : tx_state) (h : host) : host := {| h with h_tx := tx |}.

Definition hstep (h : host) (ev : hevent) : outcome host :=
  let tx := h_tx h in
  match ev with
  | Send ticklock cpu skb => '(_, tx) ← iso_tx ticklock cpu skb tx; mret (set_tx tx h)
  | Receive e cpu skb => '(_, _, _, h) ← iso_rx e cpu skb h; mret h
  | Timer cpu => mret (set_tx (set_w (iso_rl_timeout cpu (tx_w tx)) tx) h)
  | Tasklet cpu => w ← iso_rl_xmit_tasklet cpu (tx_w tx); mret (set_tx (set_w w tx) h)
  | Allocator pc es => tx ← iso_txc_allocator pc es tx; mret (set_tx tx h)
  end.

(** Events name CPUs and classes of the device; packets have sizes of packets,
    a class for the table and a rate within [R]; the kernel's allocators keep
    their promise; the count of the stock stays an [int]. *)
Definition hevent_ok (R : Z) (h : host) (ev : hevent) : Prop :=
  match ev with
  | Send _ cpu skb => cpu ∈ possible_cpus /\ pkt_ok skb
  | Receive e cpu skb => valid (op_rx_classify skb) /\ 0 <= skb_has_feedback skb <= R
  | Timer cpu | Tasklet cpu => cpu ∈ possible_cpus
  | Allocator pc es =>
      pc ∈ txx_txc_list (tx_ctx (h_tx h)) /\
      exists txc, tx_txcs (h_tx h) !! pc = Some txc /\
        txc_freelist_count txc + Z.of_nat (length es) < 2147483648 /\
        allocs_ok pc es (set_txc pc {| txc with txc_allocator := false |} (h_tx h))
  end.

Ltac unstarved := right; intros (_ & _ & ? & ? & ? & ? & ? & ? & ? & ?); congruence.

#[global] Instance starved_dec e skb h : Decision (starved e skb h).
Proof.
  unfold Decision, starved.
  destruct (decide (iso_is_feedback_marked skb = 0)) as [|Hm]; [right; tauto|].
  destruct (rxe_write_lock e); [|right; by intros (_ & ? & _)].
  destruct (iso_vq_find _ _) as [[pv|]|]; [|unstarved|unstarved].
  destruct (iso_txc_find _ _) as [[pc|]|]; [|unstarved|unstarved].
  destruct (tx_txcs (h_tx h) !! pc) as [txc|] eqn:Hpc; [|unstarved].
  destruct (txc_state_bucket txc (state_hash (dest_ip true skb))) eqn:Eb; [|unstarved].
  destruct (txc_prealloc_state_list txc) eqn:Ep; [|unstarved].
  left. split; [done|]. split; [done|]. by exists pv, pc, txc.
Defined.

Lemma device_event R h ev :
  host_ok (valid := valid) R h -> event_ok R (tx_w (h_tx h)) ev ->
  exists w, handle (tx_w (h_tx h)) ev = Ok w /\ host_ok (valid := valid) R (set_tx (set_w w (h_tx h)) h).
Proof.
  intros [Htx Hrx] He. pose proof (ti_R R _ (txo_inv R _ Htx)). pose proof max_tx_facts.
  destruct (handle_ok R (tx_w (h_tx h)) ev ltac:(lia) (ti_dev R _ (txo_inv R _ Htx)) He) as (w & E & Hdev & Hconf).
  exists w. split; [done|]. split; [by apply tx_ok_device|done].
Qed.

(** An event is handled, or it is a feedback packet that finds no stock. *)
Lemma hstep_ok R h ev :
  host_ok (valid := valid) R h -> hevent_ok R h ev ->
  (exists h', hstep h ev = Ok h' /\ host_ok (valid := valid) R h') \/
  (exists e cpu skb, ev = Receive e cpu skb /\ starved e skb h) /\ hstep h ev = Oops BadPointer.
Proof.
  intros Hok He. pose proof Hok as [Htx Hrx].
  destruct ev as [ticklock cpu skb|e cpu skb|cpu|cpu|pc es]; cbn [hstep hevent_ok] in *.
  - left. destruct (iso_tx_ok R ticklock cpu skb (h_tx h) Htx (proj1 He) (proj2 He)) as (v & _ & s' & _ & _ & -> & Hok' & _).
    cbn [mbind outcome_bind]. by eexists.
  - destruct He as [Hv Hfb]. destruct (decide (starved e skb h)) as [Hst|Hst].
    + right. split; [by exists e, cpu, skb|]. by rewrite (rx_starved e cpu skb h Hrx Hv Hst).
    + left. destruct (iso_rx_ok R e cpu skb h Hok Hv Hfb Hst) as (v & skb' & fb & h' & _ & _ & -> & Hok' & _).
      cbn [mbind outcome_bind]. by exists h'.
  - left. destruct (device_event R h (TimerFires cpu) Hok He) as (w & [= <-] & Hok'). by eexists.
  - left. destruct (device_event R h (TaskletRuns cpu) Hok He) as (w & E & Hok'). cbn [handle] in E. rewrite E. by eexists.
  - left. destruct He as (Hin & txc & Hpc & Hcnt & Hal). unfold iso_txc_allocator. rewrite (deref_ok _ _ _ Hpc).
    cbn [mbind outcome_bind]. pose proof (tx_ok_flag R pc txc false (h_tx h) Htx Hpc) as Hok1.
    destruct (prealloc_ok R pc es {| txc with txc_allocator := false |} _ Hok1 (txo_root R _ Htx pc Hin) (lookup_insert_eq _ _ _) Hcnt Hal)
      as (s' & -> & Hok' & _). cbn [mbind outcome_bind]. by eexists.
Qed.

End System.
