(* ===== verification/Netdev.v ===== *)
(** * Network devices with a queueing discipline (qdisc.h, iso_txctx_dev, iso_rxctx_dev)

    What the module keeps with a device when it is built as a queueing
    discipline: the root discipline's private data holds the transmit and the
    receive context.  A device has at most one root discipline, of this module
    or of another. *)

From Stdlib Require Import Ascii String.
From S2P Require Import Prelude Params Kernel Packet Scan Class RateControl HashTable VirtualQueue.
From S2P Require Import VqTable RateLimiter Dequeue Device Tx Rx.

Open Scope Z_scope.

Record bstats := { bs_bytes : Z; bs_packets : Z }.                       (** u64, u32 *)
Record qstats := { qs_qlen : Z; qs_backlog : Z; qs_drops : Z; qs_requeues : Z; qs_overlimits : Z }.

(** [struct Qdisc], without its private data. *)
Record Qdisc := {
  sch_flags : Z;
  sch_parent : Z;                      (** u32 *)
  sch_handle : Z;                      (** u32 *)
  sch_qlen : Z;                        (** q.qlen *)
  sch_bstats : bstats;
  sch_qstats : qstats
}.

(** [net_device_ops->ndo_start_xmit]: the driver's, or this module's. *)
Inductive ndo_xmit := DriverXmit (id : nat) | iso_ndo_start_xmit_ptr.

(** The handler a device runs on received packets. *)
Inductive rx_handler := IsoRxHandler | OtherRxHandler (id : nat).

#[export] Instance ndo_xmit_eq_dec : EqDecision ndo_xmit.
Proof. solve_decision. Defined.
#[export] Instance rx_handler_eq_dec : EqDecision rx_handler.
Proof. solve_decision. Defined.

(** An allocated transmit context: whether it is linked into [txctx_list], its
    pointer to the driver, the GSO size to restore, and its contents. *)
Record tx_ctxt := {
  cx_linked : bool;
  cx_xmit : option ndo_xmit;
  cx_prev_gso : Z;
  cx_state : tx_state
}.

(** An allocated receive context. *)
Record rx_ctxt := {
  rcx_linked : bool;
  rcx_state : rx_state
}.

(** The contexts as [kzalloc] returns them; [reads] and [tries] are the state of
    the environment of the device. *)
Definition zero_tx (reads tries : nat) (exiting : bool) : tx_state := {|
  tx_ctx := {| txx_bucket := no_buckets; txx_txc_list := []; txx_last_update_time := 0; txx_total_weight := 0;
               txx_tx_bytes := 0; txx_tx_rate := 0; txx_rate := 0 |};
  tx_txcs := ∅;
  tx_states := ∅;
  tx_w := {| w_rls := ∅;
             w_cbs := fun _ => {| cb_timer := false; cb_xmit_timeout := false; cb_active_list := []; cb_last := 0;
                                  cb_avg_us := 0; cb_tx_bytes := 0 |};
             w_xmit := []; w_reads := reads; w_tries := tries; w_exiting := exiting |} |}.

Definition zero_rx_stats : iso_rx_stats := {| rxs_rx_bytes := 0; rxs_rx_packets := 0 |}.

Definition zero_rx : rx_state := {|
  rx_ctx := {| rxc_vq_last_update_time := 0; rxc_vq_list := []; rxc_vq_bucket := no_buckets; rxc_vq_active_rate := 0;
               rxc_stats := None; rxc_global_stats := zero_rx_stats; rxc_global_stats_last := zero_rx_stats;
               rxc_last_stats_update_time := 0; rxc_last_rcp_time := 0; rxc_rcp_rate := 0; rxc_rx_rate := 0 |};
  rx_vqs := ∅ |}.

(** [struct mq_sched]; [None] is a NULL pointer. *)
Record mq_sched := {
  mq_qdiscs : option (list (option Qdisc));
  mq_txc : option tx_ctxt;
  mq_rxc : option rx_ctxt
}.

Record netdev_queue := {
  txq_qdisc_sleeping : Qdisc;
  txq_stopped : bool
}.

(** [nd_qdisc] is [dev->qdisc], with the private data when it is this module's. *)
Record net_device := {
  nd_name : cstring;
  nd_txqs : list netdev_queue;
  nd_ops : option (option ndo_xmit);   (** netdev_ops, ndo_start_xmit *)
  nd_rx_handler : option rx_handler;
  nd_gso_max_size : Z;
  nd_qdisc : option (Qdisc * option mq_sched)
}.

Definition num_tx_queues (dev : net_device) : nat := length (nd_txqs dev).

Definition TCQ_F_EYEQ : Z := Z.shiftl 1 4.

(** [strncmp(a, b, n)], up to the sign's magnitude. *)
Fixpoint strncmp (a b : cstring) (n : nat) : Z :=
  match n, a, b with
  | O, _, _ => 0
  | _, [], [] => 0
  | _, [], _ :: _ => -1
  | _, _ :: _, [] => 1
  | S n, x :: a, y :: b => if code x =? code y then strncmp a b n else if code x <? code y then -1 else 1
  end.

Definition IFNAMSIZ : nat := 16.

(** [iso_search_netdev(name)] over the devices of all name spaces, in order: the
    index of the first whose name matches. *)
Fixpoint iso_search_netdev (name : cstring) (devs : list net_device) : option nat :=
  match devs with
  | [] => None
  | dev :: devs => if strncmp name (nd_name dev) IFNAMSIZ =? 0 then Some O
                   else S <$> iso_search_netdev name devs
  end.

(** [iso_enabled(dev)] *)
Definition iso_enabled (dev : net_device) : Z :=
  match nd_qdisc dev with
  | Some (qdisc, _) => Z.land (sch_flags qdisc) TCQ_F_EYEQ
  | None => 0
  end.

(** [qdisc_priv(dev->qdisc)] as this module's private data. *)
Definition dev_priv (dev : net_device) : outcome mq_sched :=
  match nd_qdisc dev with
  | Some (_, Some mq) => mret mq
  | _ => Oops BadPointer
  end.

(** The context that [iso_txctx_dev(dev)] points to. *)
Definition iso_txctx_dev (dev : net_device) : outcome tx_ctxt :=
  mq ← dev_priv dev;
  match mq_txc mq with Some cx => mret cx | None => Oops BadPointer end.

(** The context that [iso_rxctx_dev(dev)] points to. *)
Definition iso_rxctx_dev (dev : net_device) : outcome rx_ctxt :=
  mq ← dev_priv dev;
  match mq_rxc mq with Some cx => mret cx | None => Oops BadPointer end.

(** Both contexts of a device. *)
Definition dev_host (dev : net_device) : outcome host :=
  tx ← iso_txctx_dev dev;
  rx ← iso_rxctx_dev dev;
  mret {| h_tx := cx_state tx; h_rx := rcx_state rx |}.

(** The device after its contexts were written. *)
Definition set_priv (mq : mq_sched) (dev : net_device) : net_device :=
  {| dev with nd_qdisc := (fun q => (q.1, Some mq)) <$> nd_qdisc dev |}.

Definition set_dev_host (h : host) (dev : net_device) : net_device :=
  match dev_priv dev with
  | Ok mq =>
      set_priv {| mq with
        mq_txc := (fun cx => {| cx with cx_state := h_tx h |}) <$> mq_txc mq;
        mq_rxc := (fun cx => {| cx with rcx_state := h_rx h |}) <$> mq_rxc mq |} dev
  | Oops _ => dev
  end.

(** ** Writing the contexts back *)

Lemma dev_host_set h0 h dev : dev_host dev = Ok h0 -> dev_host (set_dev_host h dev) = Ok h.
Proof.
  destruct dev as [n q o r g [[sch [[qs [tx|] [rx|]]|]]|]]; try discriminate. intros _.
  unfold set_dev_host. cbn. by destruct h.
Qed.

Lemma set_dev_host_eq h dev : dev_host dev = Ok h -> set_dev_host h dev = dev.
Proof.
  destruct dev as [n q o r g [[sch [[qs [tx|] [rx|]]|]]|]]; try discriminate. intros [= <-].
  unfold set_dev_host. cbn. by destruct tx, rx.
Qed.

Lemma set_dev_host_twice h1 h2 dev : set_dev_host h2 (set_dev_host h1 dev) = set_dev_host h2 dev.
Proof. by destruct dev as [n q o r g [[sch [[qs [tx|] [rx|]]|]]|]]. Qed.

Lemma set_dev_host_name h dev : nd_name (set_dev_host h dev) = nd_name dev.
Proof. unfold set_dev_host. by destruct (dev_priv dev). Qed.

Lemma set_dev_host_enabled h dev : iso_enabled (set_dev_host h dev) = iso_enabled dev.
Proof. by destruct dev as [n q o r g [[sch [[qs [tx|] [rx|]]|]]|]]. Qed.

(** The search finds a device, the first whose name agrees on [IFNAMSIZ] characters. *)
Lemma search_netdev_spec name devs i :
  iso_search_netdev name devs = Some i <->
  exists dev, devs !! i = Some dev /\ strncmp name (nd_name dev) IFNAMSIZ = 0 /\
    forall j d, (j < i)%nat -> devs !! j = Some d -> strncmp name (nd_name d) IFNAMSIZ <> 0.
Proof.
  revert i. induction devs as [|dev devs IH]; intros i; cbn [iso_search_netdev].
  - split; [discriminate|]. intros (d & Hd & _). discriminate.
  - destruct (Z.eqb_spec (strncmp name (nd_name dev) IFNAMSIZ) 0) as [E|E]; split.
    + intros [= <-]. exists dev. split; [done|]. split; [done|]. intros j d Hj. lia.
    + intros (d & Hd & Hm & Hfirst). destruct i as [|i]; [done|].
      exfalso. apply (Hfirst 0%nat dev); [lia|done|done].
    + intros (k & Ek & ->)%fmap_Some.
      apply IH in Ek as (d & Hd & Hm & Hfirst). exists d. split; [done|]. split; [done|].
      intros [|j] d' Hj; [by intros [= <-]|]. apply Hfirst. lia.
    + intros (d & Hd & Hm & Hfirst). destruct i as [|i]; [injection Hd as <-; done|].
      assert (Hi : iso_search_netdev name devs = Some i).
      { apply IH. exists d. split; [done|]. split; [done|]. intros j d' Hj. apply (Hfirst (S j)). lia. }
      by rewrite Hi.
Qed.

(** Writing a device in place does not change what names find. *)
Lemma search_netdev_insert name i dev dev' devs :
  devs !! i = Some dev -> nd_name dev' = nd_name dev ->
  iso_search_netdev name (<[i := dev']> devs) = iso_search_netdev name devs.
Proof.
  intros Hi Hn. revert i Hi. induction devs as [|d devs IH]; intros [|i] Hi; try done.
  - injection Hi as ->. cbn. by rewrite Hn.
  - cbn in *. by rewrite IH.
Qed.
