(* ===== verification/Control.v ===== *)
(** * The control plane (params.c)

    Writes to the files under /sys/module/perfiso/parameters create, associate,
    configure and delete the classes and the virtual queues of the devices.  A
    handler scans a command line, takes [config_mutex], looks up the device and
    works on its contexts. *)

From Stdlib Require Import Ascii String.
From S2P Require Import Prelude Params Kernel Packet Scan Class RateControl HashTable VirtualQueue.
From S2P Require Import VqTable RateLimiter Dequeue Device Tx TxPath Rx Host System Netdev.

Open Scope Z_scope.

(** The devices, whether [config_mutex] is taken, and whether a signal interrupts the writer
    if it sleeps. *)
Record sys := {
  sys_devs : list net_device;
  sys_locked : bool;
  sys_signal : bool
}.

Definition EINTR : Z := 4.

(** [down_interruptible(&config_mutex)]: handlers run one after the other, so a call that
    finds the semaphore taken sleeps, until a signal interrupts it. *)
Definition down_interruptible (s : sys) : outcome (Z * sys) :=
  if sys_locked s then (if sys_signal s then mret (- EINTR, s) else Oops Asleep)
  else mret (0, {| s with sys_locked := true |}).

Definition up (s : sys) : sys := {| s with sys_locked := false |}.

Section Handlers.
Context {K : Kernel} {P : params} {C : IsoClass} {Env : Oracle}.

(** ** Work on the contexts of a device *)

(** Look up a class by name and continue with it. *)
Definition on_txc (name : cstring) (body : loc -> iso_tx_class -> host -> outcome (Z * host)) (h : host)
    : outcome (Z * host) :=
  found ← iso_txc_find (op_parse name) (h_tx h);
  match found with
  | None => mret (- EINVAL, h)
  | Some pc => txc ← deref (tx_txcs (h_tx h)) pc; body pc txc h
  end.

(** The same for a virtual queue. *)
Definition on_vq (name : cstring) (body : loc -> iso_vq -> host -> outcome (Z * host)) (h : host)
    : outcome (Z * host) :=
  found ← iso_vq_find (op_parse name) (h_rx h);
  match found with
  | None => mret (- EINVAL, h)
  | Some pv => vq ← deref (rx_vqs (h_rx h)) pv; body pv vq h
  end.

(** [atomic_add(n, &vq->refcnt)] *)
Definition vq_ref (n : Z) (pv : loc) (rx : rx_state) : outcome rx_state :=
  vq ← deref (rx_vqs rx) pv;
  mret {| rx with rx_vqs := <[pv := {| vq with vq_refcnt := s32 (vq_refcnt vq + n) |}]> (rx_vqs rx) |}.

Definition assoc_txc_vq (_txc _vqc : cstring) : host -> outcome (Z * host) :=
  on_txc _txc (fun pc txc => on_vq _vqc (fun pv _ h =>
    rx ← match txc_vq txc with
         | Some old => vq_ref (-1) old (h_rx h)
         | None => mret (h_rx h)
         end;
    let tx := set_txc pc {| txc with txc_vq := Some pv |} (h_tx h) in
    rx ← vq_ref 1 pv rx;
    mret (0, {| h_tx := tx; h_rx := rx |}))).

Definition set_txc_weight (_txc : cstring) (weight : Z) : host -> outcome (Z * host) :=
  on_txc _txc (fun pc txc h =>
    if (weight <? 0) || (1024 <? weight) then mret (- EINVAL, h)
    else
      let tx := h_tx h in
      let ctx := tx_ctx tx in
      let total := s32 (txx_total_weight ctx - txc_weight txc) in
      let txc := {| txc with txc_weight := s32 (u32 weight) |} in
      let total := s32 (total + txc_weight txc) in
      let tx := set_txc pc txc {| tx with tx_ctx := {| ctx with txx_total_weight := total |} |} in
      tx ← iso_txc_recompute_rates tx;
      mret (0, set_tx tx h)).

Definition set_txc_rate (_txc : cstring) (rate : Z) : host -> outcome (Z * host) :=
  on_txc _txc (fun pc txc h =>
    if (rate <? 0) || (1024 <? rate) then mret (- EINVAL, h)
    else
      let txc := if rate =? 0
                 then {| txc with txc_is_static := 0; txc_max_rate := u32 ISO_MAX_TX_RATE |}
                 else {| txc with txc_is_static := 1; txc_max_rate := u32 rate |} in
      tx ← iso_txc_recompute_rates (set_txc pc txc (h_tx h));
      mret (0, set_tx tx h)).

Definition set_rx (rx : rx_state) (h : host) : host := {| h with h_rx := rx |}.

Definition set_vq (pv : loc) (vq : iso_vq) (rx : rx_state) : rx_state :=
  {| rx with rx_vqs := <[pv := vq]> (rx_vqs rx) |}.

Definition set_vq_weight (_vqc : cstring) (weight : Z) : host -> outcome (Z * host) :=
  on_vq _vqc (fun pv vq h =>
    if (weight <? 0) || (1024 <? weight) then mret (- EINVAL, h)
    else
      rx ← iso_vq_calculate_rates (set_vq pv {| vq with vq_weight := u64 weight |} (h_rx h));
      mret (0, set_rx rx h)).

Definition set_vq_rate (_vqc : cstring) (rate : Z) : host -> outcome (Z * host) :=
  on_vq _vqc (fun pv vq h =>
    if (rate <? 0) || (ISO_VQ_DRAIN_RATE_MBPS <? rate) then mret (- EINVAL, h)
    else if 0 <? rate then
      mret (0, set_rx (set_vq pv {| vq with vq_rate := u64 rate; vq_is_static := 1 |} (h_rx h)) h)
    else
      rx ← iso_vq_calculate_rates (set_vq pv {| vq with vq_is_static := 0 |} (h_rx h));
      mret (0, set_rx rx h)).

Definition delete_txc (_txc : cstring) : host -> outcome (Z * host) :=
  on_txc _txc (fun pc txc h =>
    let tx := h_tx h in
    let ctx := tx_ctx tx in
    let ctx := {| ctx with
      txx_bucket := hlist_del (chain_of ISO_MAX_TX_BUCKETS (txc_klass txc)) pc (txx_bucket ctx);
      txx_total_weight := s32 (txx_total_weight ctx - txc_weight txc) |} in
    tx ← iso_txc_recompute_rates {| tx with tx_ctx := ctx |};
    h ← iso_txc_free pc (set_tx tx h);
    mret (0, h)).

Definition delete_vq (_rxc : cstring) : host -> outcome (Z * host) :=
  on_vq _rxc (fun pv vq h =>
    if 0 <? vq_refcnt vq then mret (- EINVAL, h)
    else rx ← iso_vq_free pv (h_rx h); mret (0, set_rx rx h)).

Definition create_txc (e : txc_alloc_env) (klass : cstring) (h : host) : outcome (Z * host) :=
  '(ret, tx) ← iso_txc_install e klass (h_tx h);
  mret (ret, set_tx tx h).

Definition create_vq (e : vq_alloc_env) (klass : cstring) (h : host) : outcome (Z * host) :=
  '(ret, rx) ← iso_vq_install e klass (h_rx h);
  mret (ret, set_rx rx h).

Definition recompute (h : host) : outcome (Z * host) :=
  tx ← iso_txc_recompute_rates (h_tx h);
  rx ← iso_vq_calculate_rates (h_rx h);
  mret (0, {| h_tx := tx; h_rx := rx |}).

(** ** The handlers *)

(** Find the device and work on it when the module runs there; [missing] is the
    result otherwise. *)
Definition on_dev (missing : Z) (name : cstring) (body : host -> outcome (Z * host)) (s : sys)
    : outcome (Z * sys) :=
  match iso_search_netdev name (sys_devs s) with
  | None => mret (missing, s)
  | Some i =>
      match sys_devs s !! i with
      | None => mret (missing, s)
      | Some dev =>
          if iso_enabled dev =? 0 then mret (missing, s)
          else
            h ← dev_host dev;
            '(ret, h) ← body h;
            mret (ret, {| s with sys_devs := <[i := set_dev_host h dev]> (sys_devs s) |})
      end
  end.

(** Take the mutex, run, release it. *)
Definition with_mutex (body : sys -> outcome (Z * sys)) (s : sys) : outcome (Z * sys) :=
  '(r, s) ← down_interruptible s;
  if negb (r =? 0) then mret (- EINVAL, s)
  else
    '(ret, s) ← body s;
    mret (ret, up s).

(** [if(ret) return -EINVAL; return 0] *)
Definition einval (ret : Z) : Z := if ret =? 0 then 0 else - EINVAL.

(** The two arrays that [sscanf(buff, "dev %s %s", devname, klass)] fills, from
    what the stack held; the result of [sscanf] is not looked at. *)
Definition scan_dev_klass (junk : cstring * cstring) (buff : cstring) : outcome (cstring * cstring) :=
  vs ← scan_into 128 buff (fmt_of "dev %s %s");
  match vs with
  | [VStr devname; VStr klass] => mret (devname, klass)
  | [VStr devname] => mret (devname, junk.2)
  | _ => mret junk
  end.

Definition iso_sys_create_txc (e : txc_alloc_env) (junk : cstring * cstring) (val : cstring) (s : sys)
    : outcome (Z * sys) :=
  let buff := take 127 val in
  '(ret, s) ← with_mutex (fun s =>
    '(devname, klass) ← scan_dev_klass junk buff;
    on_dev (- EINVAL) devname (create_txc e klass) s) s;
  mret (einval ret, s).

Definition iso_sys_create_vq (e : vq_alloc_env) (junk : cstring * cstring) (val : cstring) (s : sys)
    : outcome (Z * sys) :=
  let buff := take 127 val in
  '(ret, s) ← with_mutex (fun s =>
    '(devname, klass) ← scan_dev_klass junk buff;
    on_dev (- EINVAL) devname (create_vq e klass) s) s;
  mret (einval ret, s).

(** The result for a device that is not found or not managed is 0. *)
Definition iso_sys_assoc_txc_vq (val : cstring) (s : sys) : outcome (Z * sys) :=
  vs ← scan_into 128 val (fmt_of "dev %s associate txc %s vq %s");
  with_mutex (fun s =>
    match vs with
    | [VStr _devname; VStr _txc; VStr _vqc] => on_dev 0 _devname (assoc_txc_vq _txc _vqc) s
    | _ => mret (- EINVAL, s)
    end) s.

(** [sscanf(val, "dev %s %s <word> %d", ...)] and the setting. *)
Definition iso_sys_set_txc_weight (val : cstring) : sys -> outcome (Z * sys) :=
  with_mutex (fun s =>
    vs ← scan_into 128 val (fmt_of "dev %s %s weight %d");
    match vs with
    | [VStr _devname; VStr _txc; VInt weight] => on_dev (- EINVAL) _devname (set_txc_weight _txc weight) s
    | _ => mret (- EINVAL, s)
    end).

Definition iso_sys_set_txc_rate (val : cstring) : sys -> outcome (Z * sys) :=
  with_mutex (fun s =>
    vs ← scan_into 128 val (fmt_of "dev %s %s rate %d");
    match vs with
    | [VStr _devname; VStr _txc; VInt rate] => on_dev (- EINVAL) _devname (set_txc_rate _txc rate) s
    | _ => mret (- EINVAL, s)
    end).

Definition iso_sys_set_vq_weight (val : cstring) : sys -> outcome (Z * sys) :=
  with_mutex (fun s =>
    vs ← scan_into 128 val (fmt_of "dev %s %s weight %d");
    match vs with
    | [VStr _devname; VStr _vqc; VInt weight] => on_dev (- EINVAL) _devname (set_vq_weight _vqc weight) s
    | _ => mret (- EINVAL, s)
    end).

Definition iso_sys_set_vq_rate (val : cstring) : sys -> outcome (Z * sys) :=
  with_mutex (fun s =>
    vs ← scan_into 128 val (fmt_of "dev %s %s rate %d");
    match vs with
    | [VStr _devname; VStr _vqc; VInt rate] => on_dev (- EINVAL) _devname (set_vq_rate _vqc rate) s
    | _ => mret (- EINVAL, s)
    end).

Definition iso_sys_delete_txc (val : cstring) : sys -> outcome (Z * sys) :=
  with_mutex (fun s =>
    vs ← scan_into 128 val (fmt_of "dev %s txc %s");
    match vs with
    | [VStr _devname; VStr _txc] => on_dev (- EINVAL) _devname (delete_txc _txc) s
    | _ => mret (- EINVAL, s)
    end).

Definition iso_sys_delete_vq (val : cstring) : sys -> outcome (Z * sys) :=
  with_mutex (fun s =>
    vs ← scan_into 128 val (fmt_of "dev %s vq %s");
    match vs with
    | [VStr _devname; VStr _rxc] => on_dev (- EINVAL) _devname (delete_vq _rxc) s
    | _ => mret (- EINVAL, s)
    end).

(** On a malformed line the handler jumps over [up(&config_mutex)]. *)
Definition iso_sys_recompute_dev (val : cstring) (s : sys) : outcome (Z * sys) :=
  let buff := take 127 val in
  '(r, s) ← down_interruptible s;
  if negb (r =? 0) then mret (- EINVAL, s)
  else
    vs ← scan_into 128 buff (fmt_of "dev %s");
    match vs with
    | [VStr devname] =>
        '(ret, s) ← on_dev (- EINVAL) devname recompute s;
        mret (einval ret, up s)
    | _ => mret (- EINVAL, s)
    end.

(** A write to one of the files. *)
Inductive command :=
| CreateTxc (e : txc_alloc_env) (junk : cstring * cstring) (val : cstring)
| CreateVq (e : vq_alloc_env) (junk : cstring * cstring) (val : cstring)
| AssocTxcVq (val : cstring)
| SetTxcWeight (val : cstring)
| SetTxcRate (val : cstring)
| SetVqWeight (val : cstring)
| SetVqRate (val : cstring)
| DeleteTxc (val : cstring)
| DeleteVq (val : cstring)
| RecomputeDev (val : cstring).

Definition run (c : command) : sys -> outcome (Z * sys) :=
  match c with
  | CreateTxc e junk val => iso_sys_create_txc e junk val
  | CreateVq e junk val => iso_sys_create_vq e junk val
  | AssocTxcVq val => iso_sys_assoc_txc_vq val
  | SetTxcWeight val => iso_sys_set_txc_weight val
  | SetTxcRate val => iso_sys_set_txc_rate val
  | SetVqWeight val => iso_sys_set_vq_weight val
  | SetVqRate val => iso_sys_set_vq_rate val
  | DeleteTxc val => iso_sys_delete_txc val
  | DeleteVq val => iso_sys_delete_vq val
  | RecomputeDev val => iso_sys_recompute_dev val
  end.
End Handlers.
