(* ===== verification/Config.v ===== *)
(** * What the control plane promises: a finite map of settings

    The settings of a device are two finite maps: the transmit classes, with
    weight, rate cap and associated virtual queue, and the virtual queues.  The
    commands of the control plane are the obvious updates of these maps
    ([spec]), and this file proves that the code's hash tables, lists, counters
    and reference counts implement them. *)

From Stdlib Require Import Ascii String.
From S2P Require Import Prelude Params Kernel Packet Scan Class RateControl HashTable VirtualQueue.
From S2P Require Import VqTable RateLimiter Dequeue Device Tx TxPath Rx Host System Netdev Control.

Open Scope Z_scope.

(** ** The abstract state and its commands *)

Record tclass := { tc_weight : Z; tc_cap : option Z; tc_vq : option Z }.
Record vclass := { vc_weight : Z; vc_cap : option Z }.
Record config := { cfg_txcs : gmap Z tclass; cfg_vqs : gmap Z vclass }.

(** A command on one device, with what the allocators return. *)
Inductive ccmd :=
| CCreateTxc (e : txc_alloc_env) (name : cstring)
| CCreateVq (e : vq_alloc_env) (name : cstring)
| CAssoc (txc vq : cstring)
| CTxcWeight (txc : cstring) (weight : Z)
| CTxcRate (txc : cstring) (rate : Z)
| CVqWeight (vq : cstring) (weight : Z)
| CVqRate (vq : cstring) (rate : Z)
| CRecompute.

Section Spec.
Context {K : Kernel} {P : params} {C : IsoClass} {Env : Oracle}.

(** What the code does. *)
Definition exec (c : ccmd) : host -> outcome (Z * host) :=
  match c with
  | CCreateTxc e name => create_txc e name
  | CCreateVq e name => create_vq e name
  | CAssoc txc vq => assoc_txc_vq txc vq
  | CTxcWeight txc w => set_txc_weight txc w
  | CTxcRate txc r => set_txc_rate txc r
  | CVqWeight vq w => set_vq_weight vq w
  | CVqRate vq r => set_vq_rate vq r
  | CRecompute => recompute
  end.

(** What it promises. *)
Definition spec_txc (name : cstring) (f : tclass -> tclass) (c : config) : Z * config :=
  match cfg_txcs c !! op_parse name with
  | Some t => (0, {| c with cfg_txcs := <[op_parse name := f t]> (cfg_txcs c) |})
  | None => (- EINVAL, c)
  end.

Definition spec_vq (name : cstring) (f : vclass -> vclass) (c : config) : Z * config :=
  match cfg_vqs c !! op_parse name with
  | Some v => (0, {| c with cfg_vqs := <[op_parse name := f v]> (cfg_vqs c) |})
  | None => (- EINVAL, c)
  end.

Definition cap_of (rate : Z) : option Z := if rate =? 0 then None else Some rate.

Definition spec (cmd : ccmd) (c : config) : Z * config :=
  match cmd with
  | CCreateTxc e name =>
      match cfg_txcs c !! op_parse name, ta_txc e with
      | None, Some _ => (0, {| c with cfg_txcs :=
          <[op_parse name := {| tc_weight := 1; tc_cap := None; tc_vq := None |}]> (cfg_txcs c) |})
      | _, _ => (-1, c)
      end
  | CCreateVq e name =>
      match cfg_vqs c !! op_parse name, va_kmalloc e with
      | None, Some _ => (0, {| c with cfg_vqs :=
          <[op_parse name := {| vc_weight := 1; vc_cap := None |}]> (cfg_vqs c) |})
      | _, _ => (-1, c)
      end
  | CAssoc txc vq =>
      match cfg_vqs c !! op_parse vq with
      | Some _ => spec_txc txc (fun t => {| t with tc_vq := Some (op_parse vq) |}) c
      | None => (- EINVAL, c)
      end
  | CTxcWeight txc w =>
      if (w <? 0) || (1024 <? w) then (- EINVAL, c)
      else spec_txc txc (fun t => {| t with tc_weight := w |}) c
  | CTxcRate txc r =>
      if (r <? 0) || (1024 <? r) then (- EINVAL, c)
      else spec_txc txc (fun t => {| t with tc_cap := cap_of r |}) c
  | CVqWeight vq w =>
      if (w <? 0) || (1024 <? w) then (- EINVAL, c)
      else spec_vq vq (fun v => {| v with vc_weight := w |}) c
  | CVqRate vq r =>
      if (r <? 0) || (ISO_VQ_DRAIN_RATE_MBPS <? r) then (- EINVAL, c)
      else spec_vq vq (fun v => {| v with vc_cap := cap_of r |}) c
  | CRecompute => (0, c)
  end.
End Spec.

(** ** The abstraction *)

Definition tclass_of (vqs : gmap loc iso_vq) (txc : iso_tx_class) : tclass := {|
  tc_weight := txc_weight txc;
  tc_cap := if txc_is_static txc =? 0 then None else Some (txc_max_rate txc);
  tc_vq := pv ← txc_vq txc; vq_klass <$> vqs !! pv
|}.

Definition vclass_of (vq : iso_vq) : vclass := {|
  vc_weight := vq_weight vq;
  vc_cap := if vq_is_static vq =? 0 then None else Some (vq_rate vq)
|}.

Definition tx_list (h : host) : list loc := txx_txc_list (tx_ctx (h_tx h)).
Definition vq_list (h : host) : list loc := rxc_vq_list (rx_ctx (h_rx h)).

Definition view (h : host) : config := {|
  cfg_txcs := table_view txc_klass (tclass_of (rx_vqs (h_rx h))) (tx_list h) (tx_txcs (h_tx h));
  cfg_vqs := table_view vq_klass vclass_of (vq_list h) (rx_vqs (h_rx h))
|}.

(** 1 for a class that is associated with the virtual queue at [pv]. *)
Definition points_to (pv : loc) (txc : iso_tx_class) : Z := if decide (txc_vq txc = Some pv) then 1 else 0.

(** The classes a device can have before the int of their total weight overflows. *)
Definition MAX_CLASSES : Z := 1000000.

Section Config.
Context {K : Kernel} {KL : KernelLaws K} {P : params} {PO : params_ok P}.
Context {C : IsoClass} {valid : Z -> Prop} {L : IsoClassLaws C valid}.
Context {Env : Oracle} {CL : ClockLaws Env}.

(** The device is well-formed; its classes are a finite map; the total weight is
    the sum of the weights; a virtual queue's reference count is the number of
    classes that point to it, and no class points elsewhere. *)
Record ctl_pre (R : Z) (h : host) : Prop := {
  co_host : host_ok (valid := valid) R h;
  co_table : table_ok txc_klass ISO_MAX_TX_BUCKETS (valid := valid) (tx_list h)
               (txx_bucket (tx_ctx (h_tx h))) (tx_txcs (h_tx h));
  co_weight : txx_total_weight (tx_ctx (h_tx h)) = heap_sum txc_weight (tx_txcs (h_tx h)) (tx_list h);
  co_count : Z.of_nat (length (tx_list h)) <= MAX_CLASSES;
  co_refs pv vq : rx_vqs (h_rx h) !! pv = Some vq ->
    vq_refcnt vq = heap_sum (points_to pv) (tx_txcs (h_tx h)) (tx_list h);
  co_vqs p txc pv : p ∈ tx_list h -> tx_txcs (h_tx h) !! p = Some txc -> txc_vq txc = Some pv -> pv ∈ vq_list h
}.

(** Every class has its share of [ISO_MAX_TX_RATE]. *)
Definition shares_ok (h : host) : Prop :=
  let W := txx_total_weight (tx_ctx (h_tx h)) in
  0 < W -> forall p txc, p ∈ tx_list h -> tx_txcs (h_tx h) !! p = Some txc ->
    txc_min_rate txc = txc_weight txc * ISO_MAX_TX_RATE / W.

Definition ctl_ok (R : Z) (h : host) : Prop := ctl_pre R h /\ shares_ok h.

Lemma weights_small R h :
  ctl_pre R h -> 0 <= heap_sum txc_weight (tx_txcs (h_tx h)) (tx_list h) <= 1024000000.
Proof.
  intros H. pose proof (co_count R h H) as Hc. unfold MAX_CLASSES in Hc.
  pose proof (heap_sum_bounds txc_weight (tx_txcs (h_tx h)) (tx_list h) 1024) as Hb.
  enough (0 <= heap_sum txc_weight (tx_txcs (h_tx h)) (tx_list h) <= 1024 * Z.of_nat (length (tx_list h))) by lia.
  apply Hb; [|lia]. intros p v _ Hv. exact (cok_weight v (cls_ok _ (ti_cls R _ (txo_inv R _ (hok_tx R h (co_host R h H)))) p v Hv)).
Qed.

Lemma refs_small pv l (h : gmap loc iso_tx_class) :
  0 <= heap_sum (points_to pv) h l <= Z.of_nat (length l).
Proof.
  pose proof (heap_sum_bounds (points_to pv) h l 1) as H. rewrite Z.mul_1_l in H. apply H; [|lia].
  intros p v _ _. unfold points_to. destruct (decide _); lia.
Qed.

(** ** Recomputing the guarantees *)

(** Recomputing only writes the guarantee of a class and the rate of its rate
    limiter. *)
Lemma recompute_effect s :
  classes_ok s -> txx_total_weight (tx_ctx s) = heap_sum txc_weight (tx_txcs s) (txx_txc_list (tx_ctx s)) ->
  0 <= heap_sum txc_weight (tx_txcs s) (txx_txc_list (tx_ctx s)) < 2147483648 ->
  exists txcs rls, let w := tx_w s in
    iso_txc_recompute_rates s = Ok {| s with tx_txcs := txcs; tx_w := {| w with w_rls := rls |} |} /\
    classes_ok {| s with tx_txcs := txcs; tx_w := {| w with w_rls := rls |} |} /\
    (forall p, exists m, txcs !! p = (fun txc => {| txc with txc_min_rate := m |}) <$> tx_txcs s !! p) /\
    (forall q, exists r, rls !! q = (fun rl => {| rl with rl_rate := r |}) <$> w_rls (tx_w s) !! q /\
      (rls !! q = w_rls (tx_w s) !! q \/ 0 <= r <= ISO_MAX_TX_RATE)) /\
    (0 < txx_total_weight (tx_ctx s) -> forall p txc, p ∈ txx_txc_list (tx_ctx s) -> txcs !! p = Some txc ->
      txc_min_rate txc = txc_weight txc * ISO_MAX_TX_RATE / txx_total_weight (tx_ctx s)).
Proof.
  intros Hc HW [HW0 HWlt]. set (l := txx_txc_list (tx_ctx s)) in *.
  destruct (recompute_shape s Hc HW HWlt) as (txcs & rls & E & Hout & Hrls & Hin). fold l in Hout, Hrls, Hin.
  change (sumZ (txc_weights (tx_txcs s) l)) with (heap_sum txc_weight (tx_txcs s) l) in Hin.
  exists txcs, rls. split; [exact E|]. split; [by apply recompute_classes|]. rewrite HW. set (W := heap_sum _ _ _) in *. split_and!.
  - intros p. destruct (decide (p ∈ l)) as [Hp|Hp].
    + destruct (cls_live s Hc p Hp) as [[txc Htxc] _]. destruct (Hin p txc Hp Htxc) as (rl & _ & H). rewrite Htxc.
      destruct (W =? 0), H as [-> _]; [exists (txc_min_rate txc); by destruct txc|by eexists].
    + rewrite Hout by done. destruct (tx_txcs s !! p) as [txc|]; [|by exists 0].
      exists (txc_min_rate txc). by destruct txc.
  - intros q. destruct (class_or_not l q) as [(p & Hp & ->)|Hno].
    + destruct (cls_live s Hc p Hp) as [[txc Htxc] _]. destruct (Hin p txc Hp Htxc) as (rl & Hrl & H). rewrite Hrl.
      destruct (Z.eqb_spec W 0), H as [_ ->]; [exists (rl_rate rl); split; [by destruct rl|by left]|].
      eexists. split; [reflexivity|]. right. apply (recomputed_ok s l p txc rl Hc); [change (0 < W); lia|done|done].
    + rewrite Hrls by done. destruct (w_rls (tx_w s) !! q) as [rl|]; [|exists 0; auto].
      exists (rl_rate rl). split; [by destruct rl|by left].
  - intros HWpos p txc Hp Htxc'. destruct (cls_live s Hc p Hp) as [[txc0 Htxc] _].
    destruct (Hin p txc0 Hp Htxc) as (rl & _ & H). replace (W =? 0) with false in H by (symmetry; apply Z.eqb_neq; lia).
    destruct H as [H _]. rewrite H in Htxc'. by injection Htxc' as <-.
Qed.

(** Rewriting settings, rates and guarantees keeps the transmit side well-formed. *)
Lemma tx_ok_rewrite R s txcs rls :
  let w := tx_w s in
  tx_ok R s -> classes_ok {| s with tx_txcs := txcs; tx_w := {| w with w_rls := rls |} |} ->
  (forall p, (fun txc => (txc_state_bucket txc, stock txc)) <$> txcs !! p =
             (fun txc => (txc_state_bucket txc, stock txc)) <$> tx_txcs s !! p) ->
  (forall q, exists r, rls !! q = (fun rl => {| rl with rl_rate := r |}) <$> w_rls (tx_w s) !! q /\
      (rls !! q = w_rls (tx_w s) !! q \/ 0 <= r <= ISO_MAX_TX_RATE)) ->
  tx_ok R {| s with tx_txcs := txcs; tx_w := {| w with w_rls := rls |} |}.
Proof.
  intros w [[HR Hdev Hc Hb Hrate Hst] Hroot Hstk] Hc' Htxc Hrl.
  assert (Hlive : forall q, is_Some (w_rls (tx_w s) !! q) -> is_Some (rls !! q)).
  { intros q [rl Hq]. destruct (Hrl q) as (r & E & _). rewrite Hq in E. rewrite E. by eexists. }
  assert (Hback : forall p txc', txcs !! p = Some txc' -> exists txc, tx_txcs s !! p = Some txc /\
    txc_state_bucket txc' = txc_state_bucket txc /\ stock txc' = stock txc).
  { intros p txc' Hp. specialize (Htxc p). rewrite Hp in Htxc. destruct (tx_txcs s !! p) as [txc|]; [|done].
    exists txc. split; [done|]. apply (inj Some) in Htxc. split; [exact (f_equal fst Htxc)|exact (f_equal snd Htxc)]. }
  split; [split| |]; cbn [tx_ctx tx_txcs tx_states tx_w w_rls]; try done.
  - apply device_inv_rates; [done| |].
    + intros q. destruct (Hrl q) as (r & -> & _). by rewrite fmap_None.
    + intros q rl rl' Hq Hq'. destruct (Hrl q) as (r & E & Hor). fold w in E, Hor. rewrite Hq in E, Hor.
      rewrite E in Hq'. injection Hq' as <-. do 4 (split; [done|]). cbn.
      destruct Hor as [Hsame|]; [|lia]. rewrite E in Hsame. apply (inj Some) in Hsame. apply (f_equal rl_rate) in Hsame. cbn in Hsame. rewrite Hsame.
      exact (wf_rate R rl (proj1 (wok_rl R _ (dinv_ok R _ Hdev) q rl Hq))).
  - intros pc txc' b p (txc & Hpc & Eb & _)%Hback Hp. rewrite Eb in Hp.
    destruct (Hst pc txc b p Hpc Hp) as (st & r & H1 & H2 & H3). exists st, r. auto.
  - intros p Hp. destruct (Hroot p Hp) as (g & Hg & Hgt). destruct (Hrl (inr p)) as (r & E & _).
    rewrite Hg in E. exists ({| g with rl_rate := r |}). split; [exact E|exact Hgt].
  - intros pc txc' (txc & Hpc & _ & Es)%Hback. apply (stock_ok_mono s _ txc); [done|exact Hlive|done|by apply (Hstk pc)].
Qed.

Lemma tx_ok_recompute R s :
  tx_ok R s -> txx_total_weight (tx_ctx s) = heap_sum txc_weight (tx_txcs s) (txx_txc_list (tx_ctx s)) ->
  0 <= heap_sum txc_weight (tx_txcs s) (txx_txc_list (tx_ctx s)) < 2147483648 ->
  exists s', iso_txc_recompute_rates s = Ok s' /\ tx_ok R s' /\ tx_ctx s' = tx_ctx s /\
    (forall p, exists m, tx_txcs s' !! p = (fun txc => {| txc with txc_min_rate := m |}) <$> tx_txcs s !! p) /\
    (0 < txx_total_weight (tx_ctx s) -> forall p txc, p ∈ txx_txc_list (tx_ctx s) -> tx_txcs s' !! p = Some txc ->
      txc_min_rate txc = txc_weight txc * ISO_MAX_TX_RATE / txx_total_weight (tx_ctx s)).
Proof.
  intros Hok HW HWr. destruct (recompute_effect s (ti_cls R s (txo_inv R s Hok)) HW HWr) as (txcs & rls & E & Hc & Ht & Hr & Hsh).
  eexists. split; [exact E|]. split; [|split; [done|split; [exact Ht|exact Hsh]]].
  apply tx_ok_rewrite; [done|done| |done]. intros p. destruct (Ht p) as (m & ->). by destruct (tx_txcs s !! p).
Qed.

(** ** What the settings depend on *)

Definition txc_setting (txc : iso_tx_class) : Z * Z * option loc * Z * Z :=
  (txc_klass txc, txc_weight txc, txc_vq txc, txc_is_static txc, txc_max_rate txc).

Definition vq_setting (vq : iso_vq) : Z * Z * Z * option Z :=
  (vq_klass vq, vq_refcnt vq, vq_weight vq, vc_cap (vclass_of vq)).

(** Two states with the same settings. *)
Record same_cfg (h h' : host) : Prop := {
  sc_list : tx_list h' = tx_list h;
  sc_bucket : txx_bucket (tx_ctx (h_tx h')) = txx_bucket (tx_ctx (h_tx h));
  sc_total : txx_total_weight (tx_ctx (h_tx h')) = txx_total_weight (tx_ctx (h_tx h));
  sc_txc p : txc_setting <$> tx_txcs (h_tx h') !! p = txc_setting <$> tx_txcs (h_tx h) !! p;
  sc_vlist : vq_list h' = vq_list h;
  sc_vq p : vq_setting <$> rx_vqs (h_rx h') !! p = vq_setting <$> rx_vqs (h_rx h) !! p
}.

#[global] Instance same_cfg_preorder : PreOrder same_cfg.
Proof.
  split; [by split|]. intros h1 h2 h3 [A1 A2 A3 A4 A5 A6] [B1 B2 B3 B4 B5 B6].
  split; [congruence|congruence|congruence|intros p; by rewrite B4|congruence|intros p; by rewrite B6].
Qed.

(** A projection of the settings agrees when the settings do. *)
Lemma fmap_through {A S B} (f : A -> S) (g : S -> B) (x y : option A) :
  f <$> x = f <$> y -> (fun a => g (f a)) <$> x = (fun a => g (f a)) <$> y.
Proof. intros E. rewrite !(option_fmap_compose f g). by rewrite E. Qed.

Lemma same_cfg_view h h' : same_cfg h h' -> view h' = view h.
Proof.
  intros [E1 E2 E3 E4 E5 E6].
  assert (Hvk : forall p, vq_klass <$> rx_vqs (h_rx h') !! p = vq_klass <$> rx_vqs (h_rx h) !! p)
    by (intros p; exact (fmap_through vq_setting (fun x => x.1.1.1) _ _ (E6 p))).
  unfold view. rewrite E1, E5. f_equal; apply view_ext; intros p _.
  - specialize (E4 p). destruct (tx_txcs (h_tx h') !! p) as [txc'|], (tx_txcs (h_tx h) !! p) as [txc|]; try done.
    injection E4 as Ek Ew Ev Es Em. cbn. unfold tclass_of. rewrite Ek, Ew, Ev, Es, Em. do 3 f_equal.
    destruct (txc_vq txc) as [pv|]; [exact (Hvk pv)|done].
  - specialize (E6 p). destruct (rx_vqs (h_rx h') !! p) as [vq'|], (rx_vqs (h_rx h) !! p) as [vq|]; try done.
    unfold vq_setting in E6. cbn [fmap option_fmap option_map] in *. apply (inj Some) in E6.
    unfold vclass_of in *. cbn [vc_cap] in E6. injection E6 as Ek _ Ew Ec. by rewrite Ek, Ew, Ec.
Qed.

Lemma same_cfg_frame R h h' :
  host_ok (valid := valid) R h' -> same_cfg h h' -> ctl_pre R h -> ctl_pre R h' /\ view h' = view h.
Proof.
  intros Hok Hcfg [_ T HW Hn Hr Hv]. split; [|by apply same_cfg_view]. destruct Hcfg as [E1 E2 E3 E4 E5 E6].
  assert (Hk : forall p, txc_klass <$> tx_txcs (h_tx h') !! p = txc_klass <$> tx_txcs (h_tx h) !! p)
    by (intros p; exact (fmap_through txc_setting (fun x => x.1.1.1.1) _ _ (E4 p))).
  split.
  - done.
  - rewrite E1, E2. by apply (table_same_keys _ _ _ _ (tx_txcs (h_tx h))).
  - rewrite E3, HW, E1. apply heap_sum_ext. intros p _.
    exact (fmap_through txc_setting (fun x => x.1.1.1.2) _ _ (eq_sym (E4 p))).
  - by rewrite E1.
  - intros pv vq' Hp. specialize (E6 pv). rewrite Hp in E6. destruct (rx_vqs (h_rx h) !! pv) as [vq|] eqn:Hp0; [|done].
    injection E6 as _ E6 _ _. rewrite E6, (Hr pv vq Hp0), E1. apply heap_sum_ext. intros p _.
    exact (fmap_through txc_setting (fun x => if decide (x.1.1.2 = Some pv) then 1 else 0) _ _ (eq_sym (E4 p))).
  - intros p txc' pv Hp Htxc' Hpv. rewrite E5. specialize (E4 p). rewrite Htxc' in E4. rewrite E1 in Hp.
    destruct (tx_txcs (h_tx h) !! p) as [txc|] eqn:Htxc; [|done]. injection E4 as _ _ E4 _ _.
    apply (Hv p txc pv Hp Htxc). congruence.
Qed.

(** Recomputing the guarantees balances them and keeps the settings. *)
Lemma recompute_ctl R h :
  ctl_pre R h -> exists s', iso_txc_recompute_rates (h_tx h) = Ok s' /\ ctl_ok R (set_tx s' h) /\
    view (set_tx s' h) = view h.
Proof.
  intros Hpre. pose proof (weights_small R h Hpre) as HWr. pose proof (co_weight R h Hpre) as HW.
  destruct (co_host R h Hpre) as [Htx Hrx].
  destruct (tx_ok_recompute R (h_tx h) Htx HW ltac:(unfold tx_list in HWr; lia)) as (s' & E & Hok & Ec & Ht & Hsh).
  exists s'. split; [done|].
  assert (Hcfg : same_cfg h (set_tx s' h)).
  { split; unfold tx_list; cbn [h_tx h_rx set_tx]; rewrite ?Ec; try done.
    intros p. destruct (Ht p) as (m & ->). by destruct (tx_txcs (h_tx h) !! p). }
  destruct (same_cfg_frame R h (set_tx s' h) ltac:(by split) Hcfg Hpre) as [Hpre' Hview].
  split; [|done]. split; [done|]. unfold shares_ok, tx_list. cbn [h_tx set_tx]. rewrite Ec. exact Hsh.
Qed.

(** ** Lookups by name *)

Lemma on_txc_spec R h name body :
  ctl_pre R h ->
  (exists pc txc, on_txc name body h = body pc txc h /\ pc ∈ tx_list h /\ tx_txcs (h_tx h) !! pc = Some txc /\
    txc_klass txc = op_parse name /\
    cfg_txcs (view h) !! op_parse name = Some (tclass_of (rx_vqs (h_rx h)) txc)) \/
  on_txc name body h = Ok (- EINVAL, h) /\ cfg_txcs (view h) !! op_parse name = None.
Proof.
  intros Hpre. unfold on_txc, iso_txc_find.
  destruct (find_view txc_klass ISO_MAX_TX_BUCKETS (tclass_of (rx_vqs (h_rx h))) _ _ _ (op_parse name)
    (co_table R h Hpre) (parse_valid name)) as (r & -> & Hr). cbn [mbind outcome_bind].
  destruct r as [pc|]; [|by right]. destruct Hr as (Hpc & txc & Htxc & Hk & Hview).
  left. exists pc, txc. rewrite (deref_ok _ _ _ Htxc). done.
Qed.

Lemma on_vq_spec R h name body :
  ctl_pre R h ->
  (exists pv vq, on_vq name body h = body pv vq h /\ pv ∈ vq_list h /\ rx_vqs (h_rx h) !! pv = Some vq /\
    vq_klass vq = op_parse name /\ cfg_vqs (view h) !! op_parse name = Some (vclass_of vq)) \/
  on_vq name body h = Ok (- EINVAL, h) /\ cfg_vqs (view h) !! op_parse name = None.
Proof.
  intros Hpre. unfold on_vq, iso_vq_find.
  destruct (find_view vq_klass ISO_MAX_VQ_BUCKETS vclass_of _ _ _ (op_parse name)
    (ri_table _ (hok_rx R h (co_host R h Hpre))) (parse_valid name)) as (r & -> & Hr). cbn [mbind outcome_bind].
  destruct r as [pv|]; [|by right]. destruct Hr as (Hpv & vq & Hvq & Hk & Hview).
  left. exists pv, vq. rewrite (deref_ok _ _ _ Hvq). done.
Qed.

(** Split on whether the command finds its class or virtual queue. *)
Ltac find_txc Hpre :=
  let E := fresh "E" in
  match goal with |- context [on_txc ?name ?body ?h] =>
    destruct (on_txc_spec _ h name body Hpre) as [(pc & txc & E & Hin & Hpc & Hk & Hview)|[E Hview]]
  end; rewrite E; clear E; cbn beta.

Ltac find_vq Hpre :=
  let E := fresh "E" in
  match goal with |- context [on_vq ?name ?body ?h] =>
    destruct (on_vq_spec _ h name body Hpre) as [(pv & vq & E & Hvin & Hvq & Hvk & Hvview)|[E Hvview]]
  end; rewrite E; clear E; cbn beta.

(** ** Settings of a class *)

(** A class with new settings, and the new total weight. *)
Definition set_class (pc : loc) (txc : iso_tx_class) (total : Z) (s : tx_state) : tx_state :=
  let ctx := tx_ctx s in set_txc pc txc {| s with tx_ctx := {| ctx with txx_total_weight := total |} |}.

Lemma set_class_tx R s pc txc txc' total :
  tx_ok R s -> tx_txcs s !! pc = Some txc -> class_ok txc' ->
  txc_state_bucket txc' = txc_state_bucket txc -> stock txc' = stock txc ->
  tx_ok R (set_class pc txc' total s).
Proof.
  intros Hok Hpc Hc Hb Hs.
  assert (Hok1 : tx_ok R (let ctx := tx_ctx s in {| s with tx_ctx := {| ctx with txx_total_weight := total |} |})).
  { destruct Hok as [[H1 H2 [H3a H3b H3c] H4 H5 H6] H7 H8]. split; [split; try done; by split|done|].
    intros q tx Hq. by apply (stock_ok_mono s _ tx); [| | |apply (H8 q)]. }
  pose proof (tx_ok_rewrite R _ (<[pc := txc']> (tx_txcs s)) (w_rls (tx_w s)) Hok1) as H.
  assert (E : set_class pc txc' total s = let s1 := set_class pc txc' total s in let w := tx_w s in
    {| s1 with tx_w := {| w with w_rls := w_rls (tx_w s) |} |}) by (by destruct s as [? ? ? []]).
  rewrite E. apply H; cbn [tx_ctx tx_txcs tx_w w_rls tx_states].
  - destruct (ti_cls R _ (txo_inv R _ Hok)) as [C1 C2 C3]. split; cbn [tx_ctx tx_txcs tx_w w_rls tx_states]; [done| |].
    + intros p Hp. destruct (C2 p Hp). split; [|done]. rewrite lookup_insert_is_Some'. auto.
    + intros p tx [[<- <-]|[_ Hp]]%lookup_insert_Some; [done|by apply (C3 p)].
  - intros p. destruct (decide (pc = p)) as [<-|]; [|by rewrite lookup_insert_ne].
    rewrite lookup_insert_eq, Hpc. cbn [fmap option_fmap option_map]. by rewrite Hb, Hs.
  - intros q. destruct (w_rls (tx_w s) !! q) as [rl|]; [|exists 0; auto].
    exists (rl_rate rl). split; [by destruct rl|by left].
Qed.

Lemma set_class_ctl R h pc txc txc' total :
  ctl_pre R h -> pc ∈ tx_list h -> tx_txcs (h_tx h) !! pc = Some txc -> class_ok txc' ->
  txc_klass txc' = txc_klass txc -> txc_vq txc' = txc_vq txc ->
  txc_state_bucket txc' = txc_state_bucket txc -> stock txc' = stock txc ->
  total = txx_total_weight (tx_ctx (h_tx h)) - txc_weight txc + txc_weight txc' ->
  let h' := set_tx (set_class pc txc' total (h_tx h)) h in
  ctl_pre R h' /\ view h' = let c := view h in
    {| c with cfg_txcs := <[txc_klass txc := tclass_of (rx_vqs (h_rx h)) txc']> (cfg_txcs c) |}.
Proof.
  intros Hpre Hin Hpc Hok Hk Hv Hb Hs Ht h'. pose proof Hpre as [[Htx Hrx] T HW Hn Hr Hvq].
  pose proof (tok_nodup _ _ _ _ _ T) as Hnd. split; [split|].
  - split; [|exact Hrx]. exact (set_class_tx R _ pc txc txc' total Htx Hpc Hok Hb Hs).
  - change (tx_list h') with (tx_list h). cbn [h' h_tx set_tx set_class set_txc tx_ctx txx_bucket tx_txcs].
    apply (table_same_keys _ _ _ _ (tx_txcs (h_tx h))); [exact T|]. intros p.
    destruct (decide (pc = p)) as [<-|]; [|by rewrite lookup_insert_ne].
    rewrite lookup_insert_eq, Hpc. cbn. by rewrite Hk.
  - change (tx_list h') with (tx_list h). cbn [h' h_tx set_tx set_class set_txc tx_ctx txx_total_weight tx_txcs].
    rewrite (heap_sum_insert txc_weight _ _ pc txc txc' Hnd Hin Hpc). lia.
  - exact Hn.
  - intros pv vq Hpv. rewrite (Hr pv vq Hpv). change (tx_list h') with (tx_list h).
    cbn [h' h_tx set_tx set_class set_txc tx_txcs]. rewrite (heap_sum_insert _ _ _ pc txc txc' Hnd Hin Hpc).
    unfold points_to. rewrite Hv. lia.
  - intros p tx pv Hp Htx' Hpv. change (vq_list h') with (vq_list h).
    cbn [h' h_tx set_tx set_class set_txc tx_txcs] in Htx'. apply lookup_insert_Some in Htx' as [[<- <-]|[_ Htx']]; [|by apply (Hvq p tx)].
    apply (Hvq pc txc pv Hin Hpc). congruence.
  - unfold view. change (tx_list h') with (tx_list h). change (vq_list h') with (vq_list h).
    cbn [h' h_tx h_rx set_tx set_class set_txc tx_txcs cfg_txcs cfg_vqs]. f_equal.
    exact (view_insert txc_klass ISO_MAX_TX_BUCKETS _ _ _ _ pc txc txc' T Hin Hpc Hk).
Qed.

(** A command on a class: it fails without a change, or it sets the class. *)
Lemma set_class_commit R h pc txc txc' total :
  ctl_pre R h -> pc ∈ tx_list h -> tx_txcs (h_tx h) !! pc = Some txc -> class_ok txc' ->
  txc_klass txc' = txc_klass txc -> txc_vq txc' = txc_vq txc ->
  txc_state_bucket txc' = txc_state_bucket txc -> stock txc' = stock txc ->
  total = txx_total_weight (tx_ctx (h_tx h)) - txc_weight txc + txc_weight txc' ->
  exists s', iso_txc_recompute_rates (set_class pc txc' total (h_tx h)) = Ok s' /\ ctl_ok R (set_tx s' h) /\
    view (set_tx s' h) = let c := view h in
      {| c with cfg_txcs := <[txc_klass txc := tclass_of (rx_vqs (h_rx h)) txc']> (cfg_txcs c) |}.
Proof.
  intros Hpre Hin Hpc Hok Hk Hv Hb Hs Ht.
  destruct (set_class_ctl R h pc txc txc' total Hpre Hin Hpc Hok Hk Hv Hb Hs Ht) as [Hpre' Hview].
  destruct (recompute_ctl R _ Hpre') as (s' & E & Hctl & Hview'). exists s'. split; [exact E|].
  split; [exact Hctl|]. rewrite <- Hview. exact Hview'.
Qed.

Lemma set_txc_weight_refines R h name w :
  ctl_ok R h -> exists ret h', set_txc_weight name w h = Ok (ret, h') /\ ctl_ok R h' /\
    (ret, view h') = spec (CTxcWeight name w) (view h).
Proof.
  intros [Hpre Hsh]. cbn [spec]. unfold set_txc_weight, spec_txc.
  find_txc Hpre.
  2:{ eexists _, _. split; [reflexivity|]. split; [done|]. rewrite Hview. by destruct (_ || _). }
  destruct ((w <? 0) || (1024 <? w)) eqn:Ew; [eexists _, _; split; [reflexivity|]; split; done|].
  apply orb_false_iff in Ew as [Ew1%Z.ltb_ge Ew2%Z.ltb_ge]. rewrite Hview.
  pose proof (weights_small R h Hpre) as HW. pose proof (co_weight R h Hpre) as Htot.
  pose proof (cls_ok _ (ti_cls R _ (txo_inv R _ (hok_tx R h (co_host R h Hpre)))) pc txc Hpc) as [Cw Cmin Cmax].
  rewrite (u32_small w), (s32_small w), (s32_small (_ - _)) by lia. cbn [txc_weight]. rewrite s32_small by lia.
  destruct (set_class_commit R h pc txc {| txc with txc_weight := w |}
    (txx_total_weight (tx_ctx (h_tx h)) - txc_weight txc + w) Hpre Hin Hpc) as (s' & E & Hctl & Hv'); try done.
  change (set_txc pc _ _) with (set_class pc {| txc with txc_weight := w |}
    (txx_total_weight (tx_ctx (h_tx h)) - txc_weight txc + w) (h_tx h)). rewrite E. cbn [mbind outcome_bind].
  eexists _, _. split; [reflexivity|]. split; [exact Hctl|]. rewrite Hv', Hk. done.
Qed.

Lemma set_txc_rate_refines R h name r :
  ctl_ok R h -> exists ret h', set_txc_rate name r h = Ok (ret, h') /\ ctl_ok R h' /\
    (ret, view h') = spec (CTxcRate name r) (view h).
Proof.
  intros [Hpre Hsh]. cbn [spec]. unfold set_txc_rate, spec_txc.
  find_txc Hpre.
  2:{ eexists _, _. split; [reflexivity|]. split; [done|]. rewrite Hview. by destruct (_ || _). }
  destruct ((r <? 0) || (1024 <? r)) eqn:Er; [eexists _, _; split; [reflexivity|]; split; done|].
  apply orb_false_iff in Er as [Er1%Z.ltb_ge Er2%Z.ltb_ge]. rewrite Hview.
  pose proof (cls_ok _ (ti_cls R _ (txo_inv R _ (hok_tx R h (co_host R h Hpre)))) pc txc Hpc) as [Cw Cmin Cmax].
  pose proof max_tx_facts. pok. rewrite (u32_small r), (u32_small ISO_MAX_TX_RATE) by lia.
  set (txc' := if r =? 0 then _ else _).
  destruct (set_class_commit R h pc txc txc' (txx_total_weight (tx_ctx (h_tx h))) Hpre Hin Hpc) as (s' & E & Hctl & Hv').
  all: try (unfold txc'; by destruct (r =? 0)).
  { unfold txc'. destruct (r =? 0); split; cbn; lia. }
  { unfold txc'. destruct (r =? 0); cbn; lia. }
  replace (set_txc pc txc' (h_tx h)) with (set_class pc txc' (txx_total_weight (tx_ctx (h_tx h))) (h_tx h))
    by (by destruct h as [[[]] ?]).
  rewrite E. cbn [mbind outcome_bind]. eexists _, _. split; [reflexivity|]. split; [exact Hctl|]. rewrite Hv', Hk.
  unfold txc', cap_of, tclass_of. by destruct (r =? 0).
Qed.

(** ** Settings of a virtual queue *)

Lemma vq_shared_ok total vq : vq_ok vq -> vq_ok (vq_shared total vq).
Proof. intros [H1 H2 H3 H4 H5]. unfold vq_shared. destruct (Z.eqb_spec (vq_is_static vq) 0); cbn [negb]; by split. Qed.

Lemma vq_shared_setting total vq : vq_setting (vq_shared total vq) = vq_setting vq.
Proof.
  unfold vq_shared. destruct (Z.eqb_spec (vq_is_static vq) 0) as [E|E]; cbn [negb]; [|done].
  unfold vq_setting, vclass_of. cbn. by rewrite E.
Qed.

Lemma calculate_cfg h :
  NoDup (vq_list h) -> live (rx_vqs (h_rx h)) (vq_list h) ->
  exists rx, iso_vq_calculate_rates (h_rx h) = Ok rx /\ same_cfg h (set_rx rx h).
Proof.
  intros Hnd Hl. destruct (calculate_rates_shape (h_rx h) Hnd Hl) as (vqs & E & total & _ & Hvqs).
  eexists. split; [exact E|]. split; try done. intros p. cbn [set_rx h_rx rx_vqs]. rewrite Hvqs. destruct (decide _); [|done].
  destruct (rx_vqs (h_rx h) !! p) as [vq|]; [|done]. cbn [fmap option_fmap option_map].
  destruct (0 <? total); [|done]. f_equal. apply vq_shared_setting.
Qed.

(** Dividing the drain rate keeps the settings. *)
Lemma calculate_ctl R h :
  ctl_ok R h -> exists rx, iso_vq_calculate_rates (h_rx h) = Ok rx /\ ctl_ok R (set_rx rx h) /\
    view (set_rx rx h) = view h.
Proof.
  intros [Hpre Hsh]. destruct (co_host R h Hpre) as [Htx [T Hv Hs Hr]].
  destruct (calculate_rates_shape (h_rx h) (tok_nodup _ _ _ _ _ T) (tok_live _ _ _ _ _ T)) as (vqs & E & total & _ & Hvqs).
  assert (Hset : forall p vq', vqs !! p = Some vq' -> vq_ok vq').
  { intros p vq' Hp. rewrite Hvqs in Hp. destruct (decide _); [|by apply (Hv p)].
    destruct (rx_vqs (h_rx h) !! p) as [vq|] eqn:Hvq; [|done]. injection Hp as <-.
    destruct (0 <? total); [apply vq_shared_ok|]; by apply (Hv p). }
  destruct (calculate_cfg h (tok_nodup _ _ _ _ _ T) (tok_live _ _ _ _ _ T)) as (rx0 & E0 & Hcfg).
  rewrite E in E0. injection E0 as <-.
  eexists. split; [exact E|].
  destruct (calculate_rates_ok (valid := valid) (h_rx h) T) as (rx & E2 & T2 & _). rewrite E in E2. injection E2 as <-.
  assert (Hok : host_ok (valid := valid) R (set_rx {| rx_ctx := rx_ctx (h_rx h); rx_vqs := vqs |} h))
    by (split; [done|by split]).
  destruct (same_cfg_frame R h _ Hok Hcfg Hpre) as [Hpre' Hview]. by split; [split|].
Qed.

(** Rewriting a virtual queue, whatever it is rewritten to. *)
Lemma set_vq_view R h pv vq vq' :
  ctl_ok R h -> pv ∈ vq_list h -> rx_vqs (h_rx h) !! pv = Some vq -> vq_klass vq' = vq_klass vq ->
  let h' := set_rx (set_vq pv vq' (h_rx h)) h in
  NoDup (vq_list h') /\ live (rx_vqs (h_rx h')) (vq_list h') /\
  view h' = let c := view h in {| c with cfg_vqs := <[vq_klass vq := vclass_of vq']> (cfg_vqs c) |}.
Proof.
  intros [[[Htx [T _ _ _]] _ _ _ _ _] _] Hin Hpv Hk h'.
  assert (Hkeys : forall p, vq_klass <$> <[pv := vq']> (rx_vqs (h_rx h)) !! p = vq_klass <$> rx_vqs (h_rx h) !! p).
  { intros p. destruct (decide (pv = p)) as [<-|]; [|by rewrite lookup_insert_ne].
    rewrite lookup_insert_eq, Hpv. cbn. by rewrite Hk. }
  split; [exact (tok_nodup _ _ _ _ _ T)|]. split.
  - exact (tok_live _ _ _ _ _ (table_same_keys _ _ _ _ (rx_vqs (h_rx h)) _ T Hkeys)).
  - unfold view. change (tx_list h') with (tx_list h). change (vq_list h') with (vq_list h).
    cbn [h' h_tx h_rx set_rx set_vq rx_vqs cfg_txcs cfg_vqs]. f_equal.
    + apply view_ext. intros p Hp. destruct (tx_txcs (h_tx h) !! p) as [txc|]; [|done]. cbn. unfold tclass_of.
      do 3 f_equal. destruct (txc_vq txc) as [q|]; [exact (Hkeys q)|done].
    + exact (view_insert vq_klass ISO_MAX_VQ_BUCKETS _ _ _ _ pv vq vq' T Hin Hpv Hk).
Qed.

Lemma set_vq_ctl R h pv vq vq' :
  ctl_ok R h -> pv ∈ vq_list h -> rx_vqs (h_rx h) !! pv = Some vq -> vq_ok vq' ->
  vq_klass vq' = vq_klass vq -> vq_refcnt vq' = vq_refcnt vq ->
  let h' := set_rx (set_vq pv vq' (h_rx h)) h in
  ctl_ok R h' /\ view h' = let c := view h in {| c with cfg_vqs := <[vq_klass vq := vclass_of vq']> (cfg_vqs c) |}.
Proof.
  intros Hctl Hin Hpv Hok Hk Hc h'. split; [|by apply (set_vq_view R)].
  destruct Hctl as [[[Htx Hrx] T HW Hn Hr Hv] Hsh]. split; [split|exact Hsh]; try done.
  - split; [done|]. exact (rx_inv_insert (h_rx h) pv vq vq' Hrx Hpv Hok Hk).
  - cbn [h' set_rx set_vq h_rx rx_vqs].
    intros q vq2 [[<- <-]|[_ Hq]]%lookup_insert_Some; [|by apply Hr]. rewrite Hc. by apply Hr.
Qed.

Lemma set_vq_weight_refines R h name w :
  ctl_ok R h -> exists ret h', set_vq_weight name w h = Ok (ret, h') /\ (w <> 0 -> ctl_ok R h') /\
    (ret, view h') = spec (CVqWeight name w) (view h).
Proof.
  intros Hctl. pose proof Hctl as [Hpre Hsh]. cbn [spec]. unfold set_vq_weight, spec_vq. find_vq Hpre.
  2:{ eexists _, _. split; [reflexivity|]. split; [done|]. rewrite Hvview. by destruct (_ || _). }
  destruct ((w <? 0) || (1024 <? w)) eqn:Ew; [eexists _, _; split; [reflexivity|]; split; done|].
  apply orb_false_iff in Ew as [Ew1%Z.ltb_ge Ew2%Z.ltb_ge]. rewrite Hvview. rewrite (u64_small w) by lia.
  destruct (set_vq_view R h pv vq {| vq with vq_weight := w |} Hctl Hvin Hvq eq_refl) as (Hnd & Hl & Hview').
  destruct (calculate_cfg _ Hnd Hl) as (rx & E & Hcfg). cbn [set_rx h_rx] in E. rewrite E. cbn [mbind outcome_bind].
  eexists _, _. split; [reflexivity|]. split.
  - intros Hw. destruct (ri_vq _ (hok_rx R h (co_host R h Hpre)) pv vq Hvq) as [V1 V2 V3 V4 V5].
    destruct (set_vq_ctl R h pv vq {| vq with vq_weight := w |} Hctl Hvin Hvq) as [Hctl' _]; [split; cbn; (done || lia)|done|done|].
    destruct (calculate_ctl R _ Hctl') as (rx' & E' & Hctl2 & _). cbn [set_rx h_rx] in E'. rewrite E in E'.
    injection E' as <-. exact Hctl2.
  - change (view (set_rx rx h)) with (view (set_rx rx (set_rx (set_vq pv {| vq with vq_weight := w |} (h_rx h)) h))).
    rewrite (same_cfg_view _ _ Hcfg), Hview', Hvk. done.
Qed.

Lemma set_vq_rate_refines R h name r :
  ctl_ok R h -> exists ret h', set_vq_rate name r h = Ok (ret, h') /\ ctl_ok R h' /\
    (ret, view h') = spec (CVqRate name r) (view h).
Proof.
  intros Hctl. pose proof Hctl as [Hpre Hsh]. cbn [spec]. unfold set_vq_rate, spec_vq. find_vq Hpre.
  2:{ eexists _, _. split; [reflexivity|]. split; [done|]. rewrite Hvview. by destruct (_ || _). }
  destruct ((r <? 0) || (ISO_VQ_DRAIN_RATE_MBPS <? r)) eqn:Er; [eexists _, _; split; [reflexivity|]; split; done|].
  apply orb_false_iff in Er as [Er1%Z.ltb_ge Er2%Z.ltb_ge]. rewrite Hvview. pok.
  destruct (ri_vq _ (hok_rx R h (co_host R h Hpre)) pv vq Hvq) as [V1 V2 V3 V4 V5].
  destruct (Z.ltb_spec 0 r) as [Hr|Hr].
  - rewrite (u64_small r) by lia.
    destruct (set_vq_ctl R h pv vq {| vq with vq_rate := r; vq_is_static := 1 |} Hctl Hvin Hvq) as [Hctl' Hview'];
      [split; cbn; (done || lia)|done|done|].
    eexists _, _. split; [reflexivity|]. split; [exact Hctl'|]. rewrite Hview', Hvk. unfold cap_of.
    replace (r =? 0) with false by (symmetry; apply Z.eqb_neq; lia). done.
  - destruct (set_vq_ctl R h pv vq {| vq with vq_is_static := 0 |} Hctl Hvin Hvq) as [Hctl' Hview'];
      [split; cbn; (done || lia)|done|done|].
    destruct (calculate_ctl R _ Hctl') as (rx & E & Hctl2 & Hview2). cbn [set_rx h_rx] in E. rewrite E. cbn [mbind outcome_bind].
    eexists _, _. split; [reflexivity|]. split; [exact Hctl2|].
    change (view (set_rx rx h)) with (view (set_rx rx (set_rx (set_vq pv {| vq with vq_is_static := 0 |} (h_rx h)) h))).
    rewrite Hview2, Hview', Hvk. unfold cap_of. replace (r =? 0) with true by (symmetry; apply Z.eqb_eq; lia). done.
Qed.

Lemma recompute_refines R h :
  ctl_ok R h -> exists ret h', recompute h = Ok (ret, h') /\ ctl_ok R h' /\ (ret, view h') = spec CRecompute (view h).
Proof.
  intros [Hpre _]. unfold recompute. destruct (recompute_ctl R h Hpre) as (tx & E & Hctl & Hview).
  destruct (calculate_ctl R _ Hctl) as (rx & E2 & Hctl2 & Hview2). cbn [set_tx h_rx] in E2.
  rewrite E. cbn [mbind outcome_bind]. rewrite E2. cbn [mbind outcome_bind].
  eexists _, _. split; [reflexivity|]. split; [exact Hctl2|]. cbn [spec]. rewrite <- Hview, <- Hview2. done.
Qed.

(** ** Associating a class with a virtual queue *)

(** A queue with another reference count. *)
Definition with_refs (n : Z) (vq : iso_vq) : iso_vq := {| vq with vq_refcnt := vq_refcnt vq + n |}.

Lemma vq_ref_ok n p vq rx :
  rx_vqs rx !! p = Some vq -> -2147483648 <= vq_refcnt vq + n < 2147483648 ->
  vq_ref n p rx = Ok (set_vq p (with_refs n vq) rx).
Proof. intros Hp Hn. unfold vq_ref. rewrite (deref_ok _ _ _ Hp). cbn [mbind outcome_bind]. by rewrite s32_small. Qed.

(** The two updates of the reference counts, for the old queue and the new. *)
Lemma move_refs rx txc pv :
  (forall q vq, rx_vqs rx !! q = Some vq -> 0 <= vq_refcnt vq <= MAX_CLASSES) ->
  (forall old, txc_vq txc = Some old -> is_Some (rx_vqs rx !! old)) -> is_Some (rx_vqs rx !! pv) ->
  exists rx1 rx2, match txc_vq txc with Some old => vq_ref (-1) old rx | None => mret rx end = Ok rx1 /\
    vq_ref 1 pv rx1 = Ok rx2 /\ rx_ctx rx2 = rx_ctx rx /\
    forall q, rx_vqs rx2 !! q =
      with_refs (points_to q {| txc with txc_vq := Some pv |} - points_to q txc) <$> rx_vqs rx !! q.
Proof.
  intros Hb Hold Hnew. unfold MAX_CLASSES in Hb.
  assert (exists rx1, match txc_vq txc with Some old => vq_ref (-1) old rx | None => mret rx end = Ok rx1 /\
    rx_ctx rx1 = rx_ctx rx /\ forall q, rx_vqs rx1 !! q = with_refs (- points_to q txc) <$> rx_vqs rx !! q)
    as (rx1 & E1 & Ec1 & H1).
  { unfold points_to. destruct (txc_vq txc) as [old|].
    - destruct (Hold old eq_refl) as [vq Hvq]. specialize (Hb old vq Hvq). rewrite (vq_ref_ok _ _ _ _ Hvq) by lia.
      eexists. split; [reflexivity|]. split; [done|]. intros q. cbn [set_vq rx_vqs].
      destruct (decide (old = q)) as [<-|Hne]; [by rewrite lookup_insert_eq, decide_True, Hvq by done|].
      rewrite lookup_insert_ne by done. rewrite decide_False by congruence.
      destruct (rx_vqs rx !! q) as [v|]; [|done]. cbn. f_equal. unfold with_refs. destruct v; cbn. f_equal. lia.
    - exists rx. split; [done|]. split; [done|]. intros q. rewrite decide_False by done.
      destruct (rx_vqs rx !! q) as [v|]; [|done]. cbn. f_equal. unfold with_refs. destruct v; cbn. f_equal. lia. }
  assert (Hpt : forall q, points_to q {| txc with txc_vq := Some pv |} = if decide (pv = q) then 1 else 0).
  { intros q. unfold points_to. cbn [txc_vq]. destruct (decide (pv = q)) as [<-|]; [by rewrite decide_True|].
    rewrite decide_False; congruence. }
  destruct Hnew as [vq Hvq]. pose proof (H1 pv) as Hvq1. rewrite Hvq in Hvq1.
  pose proof (Hb pv vq Hvq). assert (0 <= points_to pv txc <= 1) by (unfold points_to; destruct (decide _); lia).
  exists rx1. rewrite (vq_ref_ok 1 pv _ rx1 Hvq1) by (cbn; lia).
  eexists. split; [done|]. split; [reflexivity|]. split; [exact Ec1|]. intros q. cbn [set_vq rx_vqs]. rewrite Hpt.
  destruct (decide (pv = q)) as [<-|Hne].
  - rewrite lookup_insert_eq, Hvq. cbn. f_equal. unfold with_refs. destruct vq; cbn. f_equal. lia.
  - rewrite lookup_insert_ne, H1 by done. by destruct (rx_vqs rx !! q).
Qed.

Lemma assoc_refines R h txcn vqn :
  ctl_ok R h -> exists ret h', assoc_txc_vq txcn vqn h = Ok (ret, h') /\ ctl_ok R h' /\
    (ret, view h') = spec (CAssoc txcn vqn) (view h).
Proof.
  intros Hctl. pose proof Hctl as [Hpre Hsh]. cbn [spec]. unfold assoc_txc_vq, spec_txc. find_txc Hpre.
  2:{ eexists _, _. split; [reflexivity|]. split; [done|]. rewrite Hview. by destruct (_ !! op_parse vqn). }
  find_vq Hpre; rewrite Hvview; [|eexists _, _; split; [reflexivity|]; split; done]. rewrite Hview.
  pose proof Hpre as [[Htx Hrx] T HW Hn Hr Hv]. destruct Hrx as [Tv Hvok Hst Hrcp].
  destruct (move_refs (h_rx h) txc pv) as (rx1 & rx2 & E1 & E2 & Ec & Hvqs).
  { intros q v Hq. rewrite (Hr q v Hq). pose proof (refs_small q (tx_list h) (tx_txcs (h_tx h))). lia. }
  { intros old Hold. exact (live_lookup _ _ _ (tok_live _ _ _ _ _ Tv) (Hv pc txc old Hin Hpc Hold)). }
  { eauto. }
  rewrite E1. cbn [mbind outcome_bind]. rewrite E2. cbn [mbind outcome_bind]. eexists _, _. split; [reflexivity|].
  set (txc' := {| txc with txc_vq := Some pv |}) in *. set (h' := {| h_tx := _; h_rx := rx2 |}).
  assert (Hkeys : forall q, vq_klass <$> rx_vqs rx2 !! q = vq_klass <$> rx_vqs (h_rx h) !! q)
    by (intros q; rewrite Hvqs; by destruct (rx_vqs (h_rx h) !! q)).
  assert (Hset : set_txc pc txc' (h_tx h) = set_class pc txc' (txx_total_weight (tx_ctx (h_tx h))) (h_tx h))
    by (by destruct h as [[[]] ?]).
  pose proof (cls_ok _ (ti_cls R _ (txo_inv R _ Htx)) pc txc Hpc) as Hcok.
  assert (Hcok' : class_ok txc') by (by destruct Hcok; split). pose proof (tok_nodup _ _ _ _ _ T) as Hnd.
  assert (Hvl : vq_list h' = vq_list h) by (unfold vq_list; cbn; by rewrite Ec).
  split; [split; [split|]|].
  - split; [cbn [h' h_tx]; rewrite Hset; by apply (set_class_tx R _ pc txc)|].
    split; cbn [h' h_rx]; rewrite ?Ec; try done.
    + unfold vqt_ok. rewrite Ec. by apply (table_same_keys _ _ _ _ (rx_vqs (h_rx h))).
    + intros q v. rewrite Hvqs. intros (v0 & Hq & ->)%fmap_Some. destruct (Hvok q v0 Hq). by split.
  - apply (table_same_keys _ _ _ _ (tx_txcs (h_tx h))); [exact T|]. intros p. cbn [h' h_tx set_txc tx_txcs].
    destruct (decide (pc = p)) as [<-|]; [|by rewrite lookup_insert_ne]. by rewrite lookup_insert_eq, Hpc.
  - change (tx_list h') with (tx_list h). cbn [h' h_tx set_txc tx_ctx tx_txcs]. rewrite HW.
    rewrite (heap_sum_insert txc_weight _ _ pc txc txc' Hnd Hin Hpc). cbn. lia.
  - exact Hn.
  - intros q v. cbn [h' h_rx]. rewrite Hvqs. intros (v0 & Hq & ->)%fmap_Some. change (tx_list h') with (tx_list h).
    cbn [h' h_tx set_txc tx_txcs with_refs vq_refcnt]. rewrite (Hr q v0 Hq).
    rewrite (heap_sum_insert (points_to q) _ _ pc txc txc' Hnd Hin Hpc). lia.
  - intros p tx q Hp Htx' Hq. rewrite Hvl. cbn [h' h_tx set_txc tx_txcs] in Htx'.
    apply lookup_insert_Some in Htx' as [[<- <-]|[_ Htx']]; [by injection Hq as <-|by apply (Hv p tx)].
  - intros HWpos p tx Hp Htx'. cbn [h' h_tx set_txc tx_txcs tx_ctx] in *.
    apply lookup_insert_Some in Htx' as [[<- <-]|[_ Htx']]; [exact (Hsh HWpos pc txc Hin Hpc)|exact (Hsh HWpos p tx Hp Htx')].
  - unfold view. rewrite Hvl. change (tx_list h') with (tx_list h). cbn [h' h_tx h_rx set_txc tx_txcs cfg_txcs cfg_vqs].
    do 2 f_equal.
    + etransitivity; [|etransitivity; [exact (view_insert txc_klass ISO_MAX_TX_BUCKETS (tclass_of (rx_vqs (h_rx h)))
        _ _ _ pc txc txc' T Hin Hpc eq_refl)|]].
      * apply view_ext. intros p _. destruct (_ !! p) as [tx|]; [|done]. cbn. unfold tclass_of. do 3 f_equal.
        destruct (txc_vq tx) as [q|]; [exact (Hkeys q)|done].
      * rewrite Hk. f_equal. unfold tclass_of, txc'. cbn. by rewrite Hvq, <- Hvk.
    + apply view_ext. intros q _. rewrite Hvqs. by destruct (rx_vqs (h_rx h) !! q).
Qed.

(** ** Creating a virtual queue *)

Lemma no_refs h l pv :
  (forall p txc, p ∈ l -> h !! p = Some txc -> txc_vq txc <> Some pv) -> heap_sum (points_to pv) h l = 0.
Proof.
  intros Hno. pose proof (heap_sum_bounds (points_to pv) h l 0) as H. rewrite Z.mul_0_l in H.
  enough (0 <= heap_sum (points_to pv) h l <= 0) by lia. apply H; [|lia]. intros p txc Hp Htxc.
  unfold points_to. rewrite decide_False; [lia|by apply (Hno p)].
Qed.

(** A new queue in the table, before the rates are divided. *)
Definition with_vq (p : loc) (vq : iso_vq) (rx : rx_state) : rx_state :=
  let ctx := rx_ctx rx in
  {| rx_vqs := <[p := vq]> (rx_vqs rx);
     rx_ctx := {| ctx with
       rxc_vq_list := rxc_vq_list ctx ++ [p];
       rxc_vq_bucket := hlist_add_head (chain_of ISO_MAX_VQ_BUCKETS (vq_klass vq)) p (rxc_vq_bucket ctx) |} |}.

Lemma add_vq_view R h p vq :
  ctl_ok R h -> rx_vqs (h_rx h) !! p = None -> valid (vq_klass vq) -> cfg_vqs (view h) !! vq_klass vq = None ->
  let rx := with_vq p vq (h_rx h) in
  vqt_ok (valid := valid) rx /\
  (forall q txc, q ∈ tx_list h -> tx_txcs (h_tx h) !! q = Some txc -> txc_vq txc <> Some p) /\
  view (set_rx rx h) = let c := view h in {| c with cfg_vqs := <[vq_klass vq := vclass_of vq]> (cfg_vqs c) |}.
Proof.
  intros [[[Htx [Tv _ _ _]] _ _ _ _ Hv] _] Hp Hval Hnone rx.
  assert (Hnew : forall q w, q ∈ vq_list h -> rx_vqs (h_rx h) !! q = Some w -> vq_klass w <> vq_klass vq).
  { intros q w Hq Hw E. cut (cfg_vqs (view h) !! vq_klass vq = Some (vclass_of w)); [congruence|].
    apply (view_lookup vq_klass ISO_MAX_VQ_BUCKETS vclass_of _ _ _ _ _ Tv). eauto 6. }
  assert (Hunref : forall q txc, q ∈ tx_list h -> tx_txcs (h_tx h) !! q = Some txc -> txc_vq txc <> Some p).
  { intros q txc Hq Htxc E. destruct (live_lookup _ _ _ (tok_live _ _ _ _ _ Tv) (Hv q txc p Hq Htxc E)). congruence. }
  split; [exact (table_add vq_klass ISO_MAX_VQ_BUCKETS _ _ _ p vq Tv Hp Hval Hnew)|]. split; [exact Hunref|].
  unfold view. change (tx_list (set_rx rx h)) with (tx_list h).
  cbn [set_rx h_tx h_rx rx with_vq rx_vqs cfg_txcs cfg_vqs]. f_equal.
  - apply view_ext. intros q Hq. destruct (tx_txcs (h_tx h) !! q) as [txc|] eqn:Htxc; [|done]. cbn. unfold tclass_of.
    do 3 f_equal. destruct (txc_vq txc) as [r|] eqn:Er; [|done]. cbn. rewrite lookup_insert_ne; [done|].
    intros ->. by apply (Hunref q txc).
  - exact (view_add vq_klass ISO_MAX_VQ_BUCKETS vclass_of _ _ _ p vq Tv Hp Hval Hnew).
Qed.

Lemma add_vq_ctl R h p vq :
  ctl_ok R h -> rx_vqs (h_rx h) !! p = None -> vq_ok vq -> valid (vq_klass vq) -> vq_refcnt vq = 0 ->
  cfg_vqs (view h) !! vq_klass vq = None -> ctl_ok R (set_rx (with_vq p vq (h_rx h)) h).
Proof.
  intros Hctl Hp Hok Hval H0 Hnone. destruct (add_vq_view R h p vq Hctl Hp Hval Hnone) as (T' & Hunref & _).
  destruct Hctl as [[[Htx Hrx] T HW Hn Hr Hv] Hsh]. destruct Hrx as [Tv Hvok Hst Hrcp].
  split; [split|exact Hsh]; try done.
  - split; [done|]. split; [exact T'| |done|done].
    cbn [set_rx h_rx with_vq rx_vqs]. intros q v [[<- <-]|[_ Hq]]%lookup_insert_Some; [done|by apply (Hvok q)].
  - cbn [set_rx h_rx with_vq rx_vqs]. intros q v [[<- <-]|[_ Hq]]%lookup_insert_Some; [|by apply Hr].
    rewrite H0. symmetry. by apply no_refs.
  - intros q txc pv Hq Htxc Hpv. apply elem_of_app. left. by apply (Hv q txc).
Qed.

Lemma vq_init_ok now stats mem klass :
  let vq := (iso_vq_init now stats mem).2 in
  let vq := {| vq with vq_klass := klass |} in
  (is_Some stats -> vq_ok vq) /\ (is_Some stats -> vq_refcnt vq = 0) /\ vclass_of vq = {| vc_weight := 1; vc_cap := None |}.
Proof.
  cbv zeta. destruct stats as [st|]; cbn [iso_vq_init snd].
  - split; [intros _|done]. pok. split; cbn; [eauto|lia| |lia|lia]. unfold max_rate. rewrite u64_small by lia. lia.
  - split; [by intros []|]. split; [by intros []|done].
Qed.

Lemma create_vq_refines R h e name :
  ctl_ok R h -> exists ret h', create_vq e name h = Ok (ret, h') /\ (is_Some (va_percpu e) -> ctl_ok R h') /\
    (ret, view h') = spec (CCreateVq e name) (view h).
Proof.
  intros Hctl. pose proof Hctl as [Hpre Hsh]. unfold create_vq, iso_vq_install, iso_vq_find. cbn [spec].
  destruct (find_view vq_klass ISO_MAX_VQ_BUCKETS vclass_of _ _ _ (op_parse name)
    (ri_table _ (hok_rx R h (co_host R h Hpre))) (parse_valid name)) as (r & -> & Hr). cbn [mbind outcome_bind].
  assert (Hsame : set_rx (h_rx h) h = h) by (by destruct h).
  destruct r as [pv|].
  - destruct Hr as (_ & vq & _ & _ & Hview). cbn [cfg_vqs view]. unfold vq_list. rewrite Hview.
    cbn [mbind outcome_bind mret outcome_ret]. rewrite Hsame. by eexists _, _.
  - cbn [cfg_vqs view]. unfold vq_list. rewrite Hr. unfold iso_vq_alloc. destruct (va_kmalloc e) as [mem|].
    2:{ cbn [mbind outcome_bind mret outcome_ret]. rewrite Hsame. by eexists _, _. }
    pose proof (vq_init_ok (va_now e) (va_percpu e) mem (op_parse name)) as (Hok & H0 & Hcls).
    destruct (iso_vq_init (va_now e) (va_percpu e) mem) as [ret vq0]. cbn [snd] in *.
    set (vq := {| vq0 with vq_klass := op_parse name |}) in *. set (p := fresh _).
    assert (Hp : rx_vqs (h_rx h) !! p = None) by (apply not_elem_of_dom, is_fresh).
    destruct (add_vq_view R h p vq Hctl Hp (parse_valid name) Hr) as (T & _ & Hview1).
    change {| rx_ctx := _; rx_vqs := <[p := vq]> _ |} with (with_vq p vq (h_rx h)).
    destruct (calculate_cfg (set_rx (with_vq p vq (h_rx h)) h) (tok_nodup _ _ _ _ _ T) (tok_live _ _ _ _ _ T)) as (rx & E & Hcfg).
    cbn [set_rx h_rx] in E. rewrite E. cbn [mbind outcome_bind]. eexists _, _. split; [reflexivity|]. split.
    + intros Hst. pose proof (add_vq_ctl R h p vq Hctl Hp (Hok Hst) (parse_valid name) (H0 Hst) Hr) as Hctl1.
      destruct (calculate_ctl R _ Hctl1) as (rx' & E' & Hctl2 & _). cbn [set_rx h_rx] in E'. rewrite E in E'.
      injection E' as <-. exact Hctl2.
    + f_equal. etransitivity; [exact (same_cfg_view _ _ Hcfg)|]. rewrite Hview1, Hcls. done.
Qed.

(** ** Creating a class *)

(** What the allocators give to a new class: an address that is not in use, arrays
    without entries outside their bounds, a zero per-CPU area, the clock as it
    is, and stock. *)
Record txc_env_ok (s : tx_state) (e : txc_alloc_env) (p : loc) (mem : iso_tx_class) (klass : Z) : Prop := {
  te_fresh : tx_txcs s !! p = None;
  te_fresh_rl : w_rls (tx_w s) !! inr p = None;
  te_arrays i : ~ 0 <= i < 256 -> txc_rl_bucket mem i = [] /\ txc_state_bucket mem i = [];
  te_queue : exists q, ta_queue e = Some q /\
    (forall i, rlq_list (q i) = [] /\ rlq_bytes_enqueued (q i) = 0 /\ rlq_tokens (q i) = 0) /\
    let rl := iso_rl_init (ta_times e 0%nat) (ta_times e 1%nat) q (ta_rl e) in
    let txc := iso_txc_init mem in
    allocs_ok p (ta_prealloc e) (set_w (set_rl (inr p) rl (tx_w s)) (set_txc p {| txc with txc_klass := klass |} s));
  te_time : 0 <= ta_times e 0%nat <= clock (w_reads (tx_w s));
  te_rounds : Z.of_nat (length (ta_prealloc e)) < 2147483648
}.

Definition txc_conf (txc : iso_tx_class) : Z * Z * option loc * Z * Z * Z := (txc_setting txc, txc_min_rate txc).

(** The allocator only writes the stock of the class. *)
Lemma prealloc_frame pc es : forall s s',
  iso_txc_prealloc pc es s = Ok s' ->
  tx_ctx s' = tx_ctx s /\ forall q, txc_conf <$> tx_txcs s' !! q = txc_conf <$> tx_txcs s !! q.
Proof.
  induction es as [|e es IH]; intros s s' E; [by injection E as <-|]. cbn [iso_txc_prealloc] in E.
  apply bind_ok in E as ([more s1] & E1 & E). unfold prealloc_one in E1.
  assert (tx_ctx s1 = tx_ctx s /\ forall q, txc_conf <$> tx_txcs s1 !! q = txc_conf <$> tx_txcs s !! q) as [Ec1 H1].
  { destruct (pa_state e) as [[ps st]|]; [|by injection E1 as <- <-].
    destruct (pa_stats e); [|by injection E1 as <- <-]. destruct (pa_rl e) as [[pr rl]|]; [|by injection E1 as <- <-].
    destruct (pa_queue e); [|discriminate]. apply bind_ok in E1 as (txc & Htxc & E1). injection E1 as <- <-.
    split; [done|]. intros q. cbn [set_w set_txc tx_txcs]. unfold deref in Htxc.
    destruct (tx_txcs s !! pc) as [txc0|] eqn:Hpc; [|discriminate]. injection Htxc as <-.
    destruct (decide (pc = q)) as [<-|]; [by rewrite lookup_insert_eq, Hpc|by rewrite lookup_insert_ne]. }
  destruct more; [|by injection E as <-]. destruct (IH s1 s' E) as [Ec2 H2]. split; [congruence|]. intros q. by rewrite H2.
Qed.

(** A class just initialised. *)
Lemma new_class_ok R s e p mem klass q :
  tx_ok R s -> txc_env_ok s e p mem klass -> ta_queue e = Some q ->
  (forall i, rlq_list (q i) = [] /\ rlq_bytes_enqueued (q i) = 0 /\ rlq_tokens (q i) = 0) ->
  let rl := iso_rl_init (ta_times e 0%nat) (ta_times e 1%nat) q (ta_rl e) in
  let txc := iso_txc_init mem in
  let s1 := set_w (set_rl (inr p) rl (tx_w s)) (set_txc p {| txc with txc_klass := klass |} s) in
  tx_ok R s1 /\ rooted p s1.
Proof.
  intros Hok He Hq Hz rl txc s1. pose proof (te_fresh _ _ _ _ _ He) as Hp. pose proof (te_fresh_rl _ _ _ _ _ He) as Hpr.
  pose proof max_tx_facts. pok. destruct Hok as [[HR Hdev Hc Hb Hrate Hst] Hroot Hstk].
  assert (Hlive : forall x, is_Some (w_rls (tx_w s) !! x) -> is_Some (<[inr p := rl]> (w_rls (tx_w s)) !! x))
    by (intros x Hx; rewrite lookup_insert_is_Some'; auto).
  assert (Hrb : forall i, txc_rl_bucket txc i = [] /\ txc_state_bucket txc i = []).
  { intros i. unfold txc. cbn. unfold ISO_MAX_RL_BUCKETS, ISO_MAX_STATE_BUCKETS.
    destruct (Z.leb_spec 0 i), (Z.ltb_spec i 256); cbn; try done; apply (te_arrays _ _ _ _ _ He); lia. }
  pose proof (rl_init_queue (ta_times e 0%nat) (ta_times e 1%nat) q (ta_rl e) Hz) as Hqs. fold rl in Hqs.
  split; [split; [split| |]|]; cbn [s1 set_w set_txc set_rl tx_ctx tx_txcs tx_states tx_w w_rls]; try done.
  - apply device_inv_add; [done|done| |exact (te_time _ _ _ _ _ He)| | |done].
    + split; [cbn; rewrite u32_small; lia|cbn; lia|]. intros i. destruct (Hqs i) as (_ & _ & ->). unfold is_u64. lia.
    + intros i. destruct (Hqs i) as (El & Eb & _). split; rewrite ?El, ?Eb; [done|constructor|unfold MAX_SKB_BYTES; lia].
    + intros i _. apply Hqs.
  - destruct Hc as [C1 C2 C3]. split; cbn [s1 set_w set_txc set_rl tx_ctx tx_txcs tx_w w_rls]; [done| |].
    + intros x Hx. destruct (C2 x Hx). split; [rewrite lookup_insert_is_Some'; auto|auto].
    + intros x tx [[<- <-]|[_ Hx]]%lookup_insert_Some; [|by apply (C3 x)]. split; cbn; rewrite ?u32_small; lia.
  - intros pc tx b x [[<- <-]|[_ Hpc]]%lookup_insert_Some Hx.
    + cbn [txc_state_bucket] in Hx. fold txc in Hx. rewrite (proj2 (Hrb b)) in Hx. by apply not_elem_of_nil in Hx.
    + destruct (Hst pc tx b x Hpc Hx) as (st & r & H1 & H2 & H3). exists st, r. auto.
  - intros x Hx. destruct (Hroot x Hx) as (g & Hg & Hgt). exists g. split; [|done].
    rewrite lookup_insert_ne; [done|]. intros [= ->]. congruence.
  - intros pc tx [[<- <-]|[_ Hpc]]%lookup_insert_Some.
    + split; cbn [txc_prealloc_state_list txc_prealloc_rl_list txc_rl_bucket txc_freelist_count];
        [intros x Hx; by apply not_elem_of_nil in Hx|intros x Hx; by apply not_elem_of_nil in Hx| |done|done|cbn; lia].
      intros b x Hx. fold txc in Hx. rewrite (proj1 (Hrb b)) in Hx. by apply not_elem_of_nil in Hx.
    + apply (stock_ok_mono s _ tx); [done|exact Hlive|done|by apply (Hstk pc)].
  - exists rl. split; [apply lookup_insert_eq|done].
Qed.

(** The context after [iso_txc_alloc] linked the class [p]. *)
Definition link_class (klass : Z) (p : loc) (weight : Z) (ctx : iso_tx_context) : iso_tx_context :=
  {| ctx with
     txx_bucket := hlist_add_head (chain_of ISO_MAX_TX_BUCKETS klass) p (txx_bucket ctx);
     txx_txc_list := txx_txc_list ctx ++ [p];
     txx_total_weight := s32 (txx_total_weight ctx + weight) |}.

Lemma link_class_tx R s p txc klass weight :
  tx_ok R s -> p ∉ txx_txc_list (tx_ctx s) -> tx_txcs s !! p = Some txc -> rooted p s ->
  tx_ok R {| s with tx_ctx := link_class klass p weight (tx_ctx s) |}.
Proof.
  intros [[HR Hdev [C1 C2 C3] Hb Hrate Hst] Hroot Hstk] Hnin Hp Hpr.
  split; [split| |]; cbn [tx_ctx tx_txcs tx_states tx_w link_class txx_txc_list txx_bucket txx_rate]; try done.
  - split; cbn [tx_ctx tx_txcs tx_states tx_w link_class txx_txc_list]; [| |done].
    + apply NoDup_app. split; [done|]. split; [|apply NoDup_singleton]. intros q Hq Hqp%list_elem_of_singleton. congruence.
    + intros q [Hq|Hq%list_elem_of_singleton]%elem_of_app; [auto|subst q]. split; [eauto|]. destruct Hpr as (g & Hg & _). eauto.
  - intros b q Hq. apply elem_of_app. unfold hlist_add_head in Hq. destruct (b =? _).
    + apply elem_of_cons in Hq as [->|Hq]; [right; by apply list_elem_of_singleton|left; by apply (Hb b)].
    + left. by apply (Hb b).
  - intros q [Hq|Hq%list_elem_of_singleton]%elem_of_app; [by apply Hroot|by subst q].
  - intros q tx Hq. by apply (stock_ok_mono s _ tx); [| | |apply (Hstk q)].
Qed.

Lemma link_class_ctl R h p txc s2 :
  ctl_pre R h -> tx_txcs (h_tx h) !! p = None -> valid (txc_klass txc) -> txc_vq txc = None -> txc_weight txc = 1 ->
  cfg_txcs (view h) !! txc_klass txc = None -> Z.of_nat (length (tx_list h)) < MAX_CLASSES ->
  tx_ok R s2 -> rooted p s2 -> tx_ctx s2 = tx_ctx (h_tx h) ->
  (forall q, txc_conf <$> tx_txcs s2 !! q = txc_conf <$> <[p := txc]> (tx_txcs (h_tx h)) !! q) ->
  let h' := set_tx {| s2 with tx_ctx := link_class (txc_klass txc) p 1 (tx_ctx s2) |} h in
  ctl_pre R h' /\ view h' = let c := view h in
    {| c with cfg_txcs := <[txc_klass txc := tclass_of (rx_vqs (h_rx h)) txc]> (cfg_txcs c) |}.
Proof.
  intros Hpre Hp Hval Hvq Hw Hnone Hcnt Hok Hpr Ec Hset h'. pose proof (weights_small R h Hpre) as HWs.
  destruct Hpre as [[_ Hrx] T HW Hn Hr Hv].
  assert (Hnin : p ∉ tx_list h).
  { intros Hin. destruct (live_lookup _ _ _ (tok_live _ _ _ _ _ T) Hin). congruence. }
  assert (Hnew : forall q w, q ∈ tx_list h -> tx_txcs (h_tx h) !! q = Some w -> txc_klass w <> txc_klass txc).
  { intros q w Hq Hqw E. cut (cfg_txcs (view h) !! txc_klass txc = Some (tclass_of (rx_vqs (h_rx h)) w)); [congruence|].
    apply (view_lookup txc_klass ISO_MAX_TX_BUCKETS _ _ _ _ _ _ T). eauto 6. }
  assert (Hset' : forall q, txc_setting <$> tx_txcs s2 !! q = txc_setting <$> <[p := txc]> (tx_txcs (h_tx h)) !! q)
    by (intros q; exact (fmap_through txc_conf fst _ _ (Hset q))).
  assert (Hlist : tx_list h' = tx_list h ++ [p]) by (unfold tx_list; cbn; by rewrite Ec).
  assert (Hsum : forall g : iso_tx_class -> Z,
    (forall q, g <$> tx_txcs s2 !! q = g <$> <[p := txc]> (tx_txcs (h_tx h)) !! q) ->
    heap_sum g (tx_txcs s2) (tx_list h') = heap_sum g (tx_txcs (h_tx h)) (tx_list h) + g txc).
  { intros g Hg. rewrite Hlist, heap_sum_app.
    rewrite (heap_sum_ext g g (tx_txcs s2) (tx_txcs (h_tx h)) (tx_list h)).
    - f_equal. unfold heap_sum. cbn. specialize (Hg p). rewrite lookup_insert_eq in Hg.
      destruct (tx_txcs s2 !! p); [|done]. injection Hg as ->. lia.
    - intros q Hq. rewrite Hg, lookup_insert_ne; [done|]. congruence. }
  assert (Hp2 : exists txc2, tx_txcs s2 !! p = Some txc2).
  { specialize (Hset' p). rewrite lookup_insert_eq in Hset'. destruct (tx_txcs s2 !! p); [eauto|done]. }
  destruct Hp2 as [txc2 Hp2]. split; [split|].
  - split; [|exact Hrx]. apply (link_class_tx R s2 p txc2); [done|by rewrite Ec|done|done].
  - rewrite Hlist. cbn [h' set_tx h_tx tx_ctx tx_txcs link_class txx_bucket]. rewrite Ec.
    apply (table_same_keys _ _ _ _ (<[p := txc]> (tx_txcs (h_tx h)))).
    + exact (table_add txc_klass ISO_MAX_TX_BUCKETS _ _ _ p txc T Hp Hval Hnew).
    + intros q. exact (fmap_through txc_setting (fun x => x.1.1.1.1) _ _ (Hset' q)).
  - cbn [h' set_tx h_tx tx_ctx tx_txcs link_class txx_total_weight]. fold h'. rewrite Ec.
    rewrite (Hsum txc_weight) by (intros q; exact (fmap_through txc_setting (fun x => x.1.1.1.2) _ _ (Hset' q))).
    rewrite HW, Hw, s32_small by lia. done.
  - rewrite Hlist, length_app. cbn. lia.
  - intros pv vq Hpv. rewrite (Hr pv vq Hpv). cbn [h' set_tx h_tx tx_txcs]. fold h'.
    rewrite (Hsum (points_to pv)); [|intros q;
      exact (fmap_through txc_setting (fun x => if decide (x.1.1.2 = Some pv) then 1 else 0) _ _ (Hset' q))].
    unfold points_to at 3. rewrite Hvq, decide_False by done. lia.
  - intros q tx pv Hq Htx Hpv. rewrite Hlist in Hq. cbn [h' set_tx h_tx tx_txcs] in Htx. change (vq_list h') with (vq_list h).
    specialize (Hset' q). rewrite Htx in Hset'. destruct (decide (p = q)) as [<-|Hne].
    + rewrite lookup_insert_eq in Hset'. injection Hset' as _ _ E _ _. congruence.
    + rewrite lookup_insert_ne in Hset' by done. destruct (tx_txcs (h_tx h) !! q) as [tx0|] eqn:Hq0; [|done].
      injection Hset' as _ _ E _ _. apply elem_of_app in Hq as [Hq|Hq%list_elem_of_singleton]; [|congruence].
      apply (Hv q tx0 pv Hq Hq0). congruence.
  - unfold view. rewrite Hlist. change (vq_list h') with (vq_list h). cbn [h' set_tx h_tx h_rx tx_txcs cfg_txcs cfg_vqs]. f_equal.
    rewrite <- (view_add txc_klass ISO_MAX_TX_BUCKETS _ _ _ _ p txc T Hp Hval Hnew). apply view_ext. intros q _.
    specialize (Hset' q). destruct (tx_txcs s2 !! q) as [a|], (<[p := txc]> (tx_txcs (h_tx h)) !! q) as [b|]; try done.
    injection Hset' as Ek Ew Ev Es Em. cbn. unfold tclass_of. by rewrite Ek, Ew, Ev, Es, Em.
Qed.

Lemma create_txc_refines R h e name :
  ctl_ok R h -> Z.of_nat (length (tx_list h)) < MAX_CLASSES ->
  (forall p mem, ta_txc e = Some (p, mem) -> txc_env_ok (h_tx h) e p mem (op_parse name)) ->
  exists ret h', create_txc e name h = Ok (ret, h') /\ ctl_ok R h' /\
    (ret, view h') = spec (CCreateTxc e name) (view h).
Proof.
  intros Hctl Hcnt He. pose proof Hctl as [Hpre Hsh]. unfold create_txc, iso_txc_install, iso_txc_find. cbn [spec].
  destruct (find_view txc_klass ISO_MAX_TX_BUCKETS (tclass_of (rx_vqs (h_rx h))) _ _ _ (op_parse name)
    (co_table R h Hpre) (parse_valid name)) as (r & -> & Hr). cbn [mbind outcome_bind].
  assert (Hsame : set_tx (h_tx h) h = h) by (by destruct h).
  destruct r as [pc|].
  - destruct Hr as (_ & txc & _ & _ & Hview). change (cfg_txcs (view h)) with
      (table_view txc_klass (tclass_of (rx_vqs (h_rx h))) (tx_list h) (tx_txcs (h_tx h))). rewrite Hview.
    cbn [mbind outcome_bind mret outcome_ret]. rewrite Hsame. by eexists _, _.
  - change (table_view txc_klass _ (tx_list h) (tx_txcs (h_tx h))) with (cfg_txcs (view h)) in Hr. rewrite Hr.
    unfold iso_txc_alloc. destruct (ta_txc e) as [[p mem]|].
    2:{ cbn [mbind outcome_bind mret outcome_ret]. rewrite Hsame. by eexists _, _. }
    specialize (He p mem eq_refl). destruct (te_queue _ _ _ _ _ He) as (q & Hq & Hz & Hal). rewrite Hq.
    destruct (new_class_ok R (h_tx h) e p mem (op_parse name) q (hok_tx R h (co_host R h Hpre)) He Hq Hz) as [Hok1 Hpr1].
    set (s1 := set_w _ _) in *. set (txc := let txc := iso_txc_init mem in {| txc with txc_klass := op_parse name |}) in *.
    destruct (prealloc_ok R p (ta_prealloc e) txc s1 Hok1 Hpr1 (lookup_insert_eq _ _ _)) as (s2 & E2 & Hok2 & Hpr2).
    { exact (te_rounds _ _ _ _ _ He). } { exact Hal. }
    destruct (prealloc_frame p _ s1 s2 E2) as [Ec2 Hset2]. rewrite E2. cbn [mbind outcome_bind].
    destruct (tx_txcs s2 !! p) as [txc2|] eqn:Hp2.
    2:{ specialize (Hset2 p). rewrite Hp2 in Hset2. cbn [s1 set_w set_txc tx_txcs] in Hset2. by rewrite lookup_insert_eq in Hset2. }
    rewrite (deref_ok _ _ _ Hp2). cbn [mbind outcome_bind].
    assert (txc_weight txc2 = 1) as ->.
    { pose proof (fmap_through txc_conf (fun x => x.1.1.1.1.2) _ _ (Hset2 p)) as E. rewrite Hp2 in E.
      cbn [s1 set_w set_txc tx_txcs] in E. rewrite lookup_insert_eq in E. by injection E. }
    destruct (link_class_ctl R h p txc s2 Hpre (te_fresh _ _ _ _ _ He)) as [Hpre3 Hview3]; try done.
    { apply (parse_valid name). }
    destruct (recompute_ctl R _ Hpre3) as (s' & E & Hctl' & Hview'). cbn [set_tx h_tx] in E.
    change (link_class (txc_klass txc) p 1 (tx_ctx s2)) with (link_class (op_parse name) p 1 (tx_ctx s2)) in E.
    unfold link_class in E. rewrite E. cbn [mbind outcome_bind]. eexists _, _. split; [reflexivity|].
    split; [exact Hctl'|]. f_equal. etransitivity; [exact Hview'|]. rewrite Hview3. done.
Qed.

(** ** The refinement *)

(** What a new class needs: room for it and memory. *)
Definition mem_ok (h : host) (c : ccmd) : Prop :=
  match c with
  | CCreateTxc e name => Z.of_nat (length (tx_list h)) < MAX_CLASSES /\
      forall p mem, ta_txc e = Some (p, mem) -> txc_env_ok (h_tx h) e p mem (op_parse name)
  | _ => True
  end.

(** The commands that leave a device which can go on: a virtual queue gets its per-CPU
    statistics and not the weight 0. *)
Definition sound (c : ccmd) : Prop :=
  match c with
  | CCreateVq e name => is_Some (va_percpu e)
  | CVqWeight vq w => w <> 0
  | _ => True
  end.

Definition ccmd_ok (h : host) (c : ccmd) : Prop := mem_ok h c /\ sound c.

Lemma exec_refines R h c :
  ctl_ok R h -> mem_ok h c ->
  exists ret h', exec c h = Ok (ret, h') /\ (sound c -> ctl_ok R h') /\ (ret, view h') = spec c (view h).
Proof.
  intros Hctl Hc. destruct c; cbn [exec mem_ok sound] in *.
  - destruct Hc. destruct (create_txc_refines R h e name) as (ret & h' & ? & ? & ?); eauto 10.
  - by apply create_vq_refines.
  - destruct (assoc_refines R h txc vq Hctl) as (ret & h' & ? & ? & ?); eauto 10.
  - destruct (set_txc_weight_refines R h txc weight Hctl) as (ret & h' & ? & ? & ?); eauto 10.
  - destruct (set_txc_rate_refines R h txc rate Hctl) as (ret & h' & ? & ? & ?); eauto 10.
  - by apply set_vq_weight_refines.
  - destruct (set_vq_rate_refines R h vq rate Hctl) as (ret & h' & ? & ? & ?); eauto 10.
  - destruct (recompute_refines R h Hctl) as (ret & h' & ? & ? & ?); eauto 10.
Qed.

(** C23: The hashed lookups of transmit classes and of virtual queues return exactly what a
    search of the whole list by class returns. *)
Theorem lookups_are_linear_search R h klass :
  ctl_pre R h -> valid klass ->
  iso_txc_find klass (h_tx h) = Ok (linear_find txc_klass (tx_list h) (tx_txcs (h_tx h)) klass) /\
  iso_vq_find klass (h_rx h) = Ok (linear_find vq_klass (vq_list h) (rx_vqs (h_rx h)) klass).
Proof.
  intros Hpre Hk. split.
  - exact (find_linear txc_klass ISO_MAX_TX_BUCKETS _ _ _ klass (co_table R h Hpre) Hk).
  - exact (find_linear vq_klass ISO_MAX_VQ_BUCKETS _ _ _ klass (ri_table _ (hok_rx R h (co_host R h Hpre))) Hk).
Qed.
End Config.

(** ** A device with a class and a virtual queue *)

Lemma ex_ctl_ok :
  ctl_ok (K := ref_kernel) (P := default_params) (C := Mark.ops) (valid := is_u32) (Env := ex_env) 10000 ex_host.
Proof.
  split; [split|].
  - exact ex_host_ok.
  - change (tx_txcs (h_tx ex_host)) with (<[1%positive := ex_txc]> ∅ : gmap loc iso_tx_class).
    apply (table_add (C := Mark.ops) txc_klass ISO_MAX_TX_BUCKETS (valid := is_u32) [] no_buckets ∅ 1%positive ex_txc).
    + apply table_empty.
    + reflexivity.
    + unfold is_u32; cbn; lia.
    + intros q w Hq. by apply not_elem_of_nil in Hq.
  - vm_compute. reflexivity.
  - vm_compute. discriminate.
  - intros pv vq. cbn [h_rx ex_host rx_vqs ex_rx1]. rewrite lookup_singleton_Some. intros [<- <-]. vm_compute. reflexivity.
  - intros p txc pv _ [_ ->]%ex_tx_lookup. discriminate.
  - intros _ p txc _ [_ ->]%ex_tx_lookup. vm_compute. reflexivity.
Qed.

Lemma lookups_are_linear_search_witness :
  iso_txc_find (C := Mark.ops) 7 (h_tx ex_host) = Ok (Some 1%positive) /\
  iso_vq_find (C := Mark.ops) 7 (h_rx ex_host) = Ok (Some 1%positive).
Proof.
  destruct (lookups_are_linear_search (K := ref_kernel) (P := default_params) (C := Mark.ops) (valid := is_u32) (Env := ex_env)
    10000 ex_host 7 (proj1 ex_ctl_ok) ltac:(unfold is_u32; lia)) as [H1 H2].
  split; [rewrite H1|rewrite H2]; vm_compute; reflexivity.
Defined.
