(* ===== verification/CommandLine.v ===== *)
(** * Command lines

    The text of a command, as the comments of params.c document it, does to the
    named device what the command says, and nothing else; what other texts do. *)

From Stdlib Require Import Ascii String.
From S2P Require Import Prelude Params Kernel Packet Scan Class RateControl HashTable VirtualQueue.
From S2P Require Import VqTable RateLimiter Dequeue Device Tx TxPath Rx Host System Netdev Control.
From S2P Require Import Config.

Open Scope Z_scope.

(** The characters of a literal. *)
Abbreviation text := list_ascii_of_string.

(** ** Scanning words *)

Definition word (w : cstring) : Prop := w <> [] /\ forallb (fun c => negb (isspace c)) w = true.

Lemma word_cons w : word w -> exists c w', w = c :: w' /\ isspace c = false.
Proof.
  intros [Hne Hw]. destruct w as [|c w]; [done|]. cbn in Hw. apply andb_prop in Hw as [Hc _].
  exists c, w. split; [done|]. by destruct (isspace c).
Qed.

Lemma skip_spaces_word w r : word w -> skip_spaces (w ++ r) = w ++ r.
Proof. intros (c & w' & -> & Hc)%word_cons. cbn. by rewrite Hc. Qed.

(** The end of the input or white space. *)
Definition ends_word (r : cstring) : Prop := match r with [] => True | c :: _ => isspace c = true end.

Lemma scan_word_app w r : forallb (fun c => negb (isspace c)) w = true -> ends_word r -> scan_word (w ++ r) = (w, r).
Proof.
  induction w as [|c w IH]; cbn [forallb app scan_word]; intros Hw Hr.
  - destruct r as [|c r]; [done|]. cbn in *. by rewrite Hr.
  - apply andb_prop in Hw as [Hc Hw]. destruct (isspace c); [done|]. by rewrite IH.
Qed.

Lemma sscanf_word w r f : word w -> ends_word r -> sscanf (w ++ r) (FStr :: f) = VStr w :: sscanf r f.
Proof.
  intros Hw Hr. cbn [sscanf]. rewrite skip_spaces_word by done.
  destruct (word_cons w Hw) as (c & w' & E & _). rewrite E. cbn [app].
  change (c :: w' ++ r) with ((c :: w') ++ r). rewrite <- E. destruct Hw as [_ Hw]. by rewrite scan_word_app.
Qed.

(** White space, then a word. *)
Lemma sscanf_space_word w r f : word w -> sscanf (text " " ++ w ++ r) (FSpace :: f) = sscanf (w ++ r) f.
Proof. intros Hw. cbn [sscanf list_ascii_of_string app skip_spaces]. change (isspace " ") with true. cbv iota. by rewrite skip_spaces_word. Qed.

Lemma sprintf_d_word n : -2147483648 <= n < 2147483648 -> word (sprintf_d n).
Proof.
  intros Hn. assert (Hd : forall m, 0 <= m < 18446744073709551616 -> word (dec_digits 20 m)).
  { intros m Hm. pose proof (sprintf_u_nonempty m ltac:(lia)) as Hs. unfold sprintf_u in Hs.
    pose proof (dec_digits_digits 20 m ltac:(lia)) as Hdig. split; [by destruct (dec_digits 20 m)|].
    revert Hdig. generalize (dec_digits 20 m). intros l. induction l as [|c l IH]; [done|]. cbn.
    intros [Hc Hl]%andb_prop. rewrite digit_not_space by done. by apply IH. }
  unfold sprintf_d. destruct (Z.ltb_spec n 0); [|apply Hd; lia].
  destruct (Hd (- n) ltac:(lia)) as [_ Hw]. split; [done|]. cbn [forallb]. by rewrite Hw.
Qed.

(** ** The text of a command *)

Section Lines.
Context {K : Kernel} {P : params} {C : IsoClass} {Env : Oracle}.

(** The write that asks for [c] on [dev]; [junk] is what the stack holds. *)
Definition line (junk : cstring * cstring) (dev : cstring) (c : ccmd) : command :=
  match c with
  | CCreateTxc e name => CreateTxc e junk (text "dev " ++ dev ++ text " " ++ name ++ [])
  | CCreateVq e name => CreateVq e junk (text "dev " ++ dev ++ text " " ++ name ++ [])
  | CAssoc txc vq => AssocTxcVq (text "dev " ++ dev ++ text " associate txc " ++ txc ++ text " vq " ++ vq ++ [])
  | CTxcWeight txc w => SetTxcWeight (text "dev " ++ dev ++ text " " ++ txc ++ text " weight " ++ sprintf_d w ++ [])
  | CTxcRate txc r => SetTxcRate (text "dev " ++ dev ++ text " " ++ txc ++ text " rate " ++ sprintf_d r ++ [])
  | CVqWeight vq w => SetVqWeight (text "dev " ++ dev ++ text " " ++ vq ++ text " weight " ++ sprintf_d w ++ [])
  | CVqRate vq r => SetVqRate (text "dev " ++ dev ++ text " " ++ vq ++ text " rate " ++ sprintf_d r ++ [])
  | CRecompute => RecomputeDev (text "dev " ++ dev ++ [])
  end.

(** The names are words that fit the handlers' arrays, the numbers are ints. *)
Definition line_ok (dev : cstring) (c : ccmd) : Prop :=
  word dev /\ (length dev < 120)%nat /\
  match c with
  | CCreateTxc _ name | CCreateVq _ name => word name /\ (length dev + length name <= 122)%nat
  | CAssoc txc vq => (word txc /\ (length txc < 128)%nat) /\ word vq /\ (length vq < 128)%nat
  | CTxcWeight name n | CTxcRate name n | CVqWeight name n | CVqRate name n =>
      (word name /\ (length name < 128)%nat) /\ -2147483648 <= n < 2147483648
  | CRecompute => True
  end.

Lemma no_overrun n (vs : list value) :
  Forall (fun v => match v with VStr w => (length w < n)%nat | VInt _ => True end) vs -> existsb (overruns n) vs = false.
Proof.
  induction 1 as [|v vs Hv Hvs IH]; [done|]. cbn. rewrite IH. destruct v; [done|]. cbn in *.
  rewrite orb_false_r. apply Nat.leb_gt. lia.
Qed.

(** The scan starts with the device. *)
Lemma scan_dev dev r f : word dev -> ends_word r ->
  sscanf (text "dev " ++ dev ++ r) (fmt_of "dev %s" ++ f) = VStr dev :: sscanf r f.
Proof.
  intros Hd Hr. change (fmt_of "dev %s" ++ f) with
    ([FLit "d"; FLit "e"; FLit "v"] ++ FSpace :: FStr :: f)%char. cbn [list_ascii_of_string app sscanf Ascii.eqb Bool.eqb].
  change (skip_spaces (" "%char :: dev ++ r)) with (skip_spaces (dev ++ r)).
  rewrite skip_spaces_word by done. exact (sscanf_word dev r f Hd Hr).
Qed.

Lemma sscanf_dev_klass dev name : word dev -> word name ->
  sscanf (text "dev " ++ dev ++ text " " ++ name ++ []) (fmt_of "dev %s %s") = [VStr dev; VStr name].
Proof.
  intros Hd Hn. change (fmt_of "dev %s %s") with (fmt_of "dev %s" ++ [FSpace; FStr]). rewrite scan_dev by done.
  rewrite sscanf_space_word by done. by rewrite sscanf_word.
Qed.

(** The end of a line with a number, after its key word. *)
Lemma sscanf_last_int n : -2147483648 <= n < 2147483648 ->
  sscanf (skip_spaces (sprintf_d n ++ [])) [FInt] = [VInt n].
Proof. intros Hn. rewrite skip_spaces_word by (by apply sprintf_d_word). by rewrite (sscanf_int n [] []). Qed.

Lemma sscanf_setting dev name n kw :
  word dev -> word name -> -2147483648 <= n < 2147483648 -> kw = "weight"%string \/ kw = "rate"%string ->
  sscanf (text "dev " ++ dev ++ text " " ++ name ++ text (" " ++ kw ++ " ") ++ sprintf_d n ++ [])
    (fmt_of ("dev %s %s " ++ kw ++ " %d")) = [VStr dev; VStr name; VInt n].
Proof.
  intros Hd Hn Hr [-> | ->].
  - change (fmt_of _) with (fmt_of "dev %s" ++ FSpace :: FStr :: fmt_of " weight %d"). rewrite scan_dev by done.
    rewrite sscanf_space_word, sscanf_word by done. do 2 f_equal. by apply sscanf_last_int.
  - change (fmt_of _) with (fmt_of "dev %s" ++ FSpace :: FStr :: fmt_of " rate %d"). rewrite scan_dev by done.
    rewrite sscanf_space_word, sscanf_word by done. do 2 f_equal. by apply sscanf_last_int.
Qed.

Lemma sscanf_assoc dev txc vq :
  word dev -> word txc -> word vq ->
  sscanf (text "dev " ++ dev ++ text " associate txc " ++ txc ++ text " vq " ++ vq ++ [])
    (fmt_of "dev %s associate txc %s vq %s") = [VStr dev; VStr txc; VStr vq].
Proof.
  intros Hd Ht Hv. change (fmt_of _) with (fmt_of "dev %s" ++ fmt_of " associate txc" ++ FSpace :: FStr :: fmt_of " vq %s").
  rewrite scan_dev by done. f_equal.
  transitivity (sscanf (text " " ++ txc ++ text " vq " ++ vq ++ []) (FSpace :: FStr :: fmt_of " vq %s")); [reflexivity|].
  rewrite sscanf_space_word, sscanf_word by done. f_equal.
  transitivity (sscanf (text " " ++ vq ++ []) [FSpace; FStr]); [reflexivity|].
  rewrite sscanf_space_word by done. by rewrite sscanf_word.
Qed.

(** ** Running a line *)

Lemma on_dev_found missing name body s i dev h ret h' :
  iso_search_netdev name (sys_devs s) = Some i -> sys_devs s !! i = Some dev -> iso_enabled dev <> 0 ->
  dev_host dev = Ok h -> body h = Ok (ret, h') ->
  on_dev missing name body s = Ok (ret, {| s with sys_devs := <[i := set_dev_host h' dev]> (sys_devs s) |}).
Proof.
  intros Hs Hi He Hh Hb. unfold on_dev. rewrite Hs, Hi. rewrite (proj2 (Z.eqb_neq _ _) He), Hh.
  cbn [mbind outcome_bind]. rewrite Hb. done.
Qed.

Lemma with_mutex_free body s :
  sys_locked s = false ->
  with_mutex body s = ('(ret, s') ← body {| s with sys_locked := true |}; mret (ret, up s')).
Proof. intros Hl. unfold with_mutex, down_interruptible. by rewrite Hl. Qed.

Lemma scan_into_ok n s f vs :
  sscanf s f = vs -> Forall (fun v => match v with VStr w => (length w < n)%nat | VInt _ => True end) vs ->
  scan_into n s f = Ok vs.
Proof. intros <- Hf. unfold scan_into. by rewrite no_overrun. Qed.

(** What the write returns. *)
Definition line_result (c : ccmd) (ret : Z) : Z :=
  match c with CCreateTxc _ _ | CCreateVq _ _ | CRecompute => einval ret | _ => ret end.

Ltac fits_arrays := repeat apply Forall_cons_2; try apply Forall_nil_2; first [exact I|lia].

(** The result when the module does not run on the device. *)
Definition line_missing (c : ccmd) : Z := match c with CAssoc _ _ => 0 | _ => - EINVAL end.

(** The text of a command scans to its values, and the handler runs it on the device. *)
Lemma line_on_dev junk name c s :
  line_ok name c -> sys_locked s = false ->
  run (line junk name c) s =
    ('(ret, s') ← on_dev (line_missing c) name (exec c) {| s with sys_locked := true |};
     mret (line_result c ret, up s')).
Proof.
  intros (Hd & Hdl & Hc) Hl. destruct c; cbn [line run line_result line_missing exec] in *.
  - destruct Hc as [Hn Hnl]. unfold iso_sys_create_txc. rewrite take_ge by (rewrite !length_app; cbn; lia).
    rewrite with_mutex_free by done. unfold scan_dev_klass.
    rewrite (scan_into_ok _ _ _ _ (sscanf_dev_klass name name0 Hd Hn)) by fits_arrays. cbn [mbind outcome_bind mret outcome_ret].
    by destruct (on_dev _ _ _ _) as [[ret s1]|].
  - destruct Hc as [Hn Hnl]. unfold iso_sys_create_vq. rewrite take_ge by (rewrite !length_app; cbn; lia).
    rewrite with_mutex_free by done. unfold scan_dev_klass.
    rewrite (scan_into_ok _ _ _ _ (sscanf_dev_klass name name0 Hd Hn)) by fits_arrays. cbn [mbind outcome_bind mret outcome_ret].
    by destruct (on_dev _ _ _ _) as [[ret s1]|].
  - destruct Hc as ([Ht Htl] & Hv & Hvl). unfold iso_sys_assoc_txc_vq.
    rewrite (scan_into_ok _ _ _ _ (sscanf_assoc name txc vq Hd Ht Hv)) by fits_arrays. cbn [mbind outcome_bind].
    by rewrite with_mutex_free.
  - destruct Hc as ([Ht Htl] & Hn). unfold iso_sys_set_txc_weight. rewrite with_mutex_free by done.
    by rewrite (scan_into_ok _ _ _ _ (sscanf_setting name txc weight "weight" Hd Ht Hn (or_introl eq_refl))) by fits_arrays.
  - destruct Hc as ([Ht Htl] & Hn). unfold iso_sys_set_txc_rate. rewrite with_mutex_free by done.
    by rewrite (scan_into_ok _ _ _ _ (sscanf_setting name txc rate "rate" Hd Ht Hn (or_intror eq_refl))) by fits_arrays.
  - destruct Hc as ([Ht Htl] & Hn). unfold iso_sys_set_vq_weight. rewrite with_mutex_free by done.
    by rewrite (scan_into_ok _ _ _ _ (sscanf_setting name vq weight "weight" Hd Ht Hn (or_introl eq_refl))) by fits_arrays.
  - destruct Hc as ([Ht Htl] & Hn). unfold iso_sys_set_vq_rate. rewrite with_mutex_free by done.
    by rewrite (scan_into_ok _ _ _ _ (sscanf_setting name vq rate "rate" Hd Ht Hn (or_intror eq_refl))) by fits_arrays.
  - unfold iso_sys_recompute_dev, down_interruptible. rewrite Hl. cbn [negb Z.eqb].
    rewrite take_ge by (rewrite !length_app; cbn; lia).
    pose proof (scan_dev name [] [] Hd I) as E. change (fmt_of "dev %s" ++ []) with (fmt_of "dev %s") in E.
    by rewrite (scan_into_ok _ _ _ _ E) by fits_arrays.
Qed.
End Lines.

(** ** The theorems *)

Section LineProps.
Context {K : Kernel} {KL : KernelLaws K} {P : params} {PO : params_ok P}.
Context {C : IsoClass} {valid : Z -> Prop} {L : IsoClassLaws C valid}.
Context {Env : Oracle} {CL : ClockLaws Env}.

(** C8: Writing a well-formed line (words that fit the handler's arrays) for a managed device,
    with the mutex free, does to the configuration of the named device, and to nothing else,
    what the abstract command says: a map from classes to weights, rate caps and associations,
    with the limits that the handlers check (0 to 1024 for a class's weight and rate, where the
    messages promise others). The handler returns the abstract result and releases the mutex,
    and the device stays well-formed unless the command gave a virtual queue the weight 0 or a
    virtual queue was created without per-CPU statistics. Deletions are not among the commands,
    and a new class gets its memory. *)
Theorem command_line_refines (R : Z) (junk : cstring * cstring) (name : cstring) (c : ccmd) (s : sys) (i : nat)
    (dev : net_device) (h : host) :
  sys_locked s = false -> iso_search_netdev name (sys_devs s) = Some i -> sys_devs s !! i = Some dev ->
  iso_enabled dev <> 0 -> dev_host dev = Ok h -> ctl_ok (valid := valid) R h -> line_ok name c -> mem_ok h c ->
  exists ret h', run (line junk name c) s =
      Ok (line_result c ret, {| sys_devs := <[i := set_dev_host h' dev]> (sys_devs s); sys_locked := false; sys_signal := sys_signal s |}) /\
    (ret, view h') = spec c (view h) /\ (sound c -> ctl_ok (valid := valid) R h').
Proof.
  intros Hl Hs Hi He Hh Hctl Hline Hc. destruct (exec_refines R h c Hctl Hc) as (ret & h' & E & Hctl' & Hspec).
  exists ret, h'. split; [|done]. rewrite line_on_dev by done.
  rewrite (on_dev_found _ _ _ {| s with sys_locked := true |} i dev h ret h' Hs Hi He Hh E). done.
Qed.

(** A line that its handler refuses: the words fit the arrays, and the scan does not give what
    the handler asks for. *)
Definition misread (val : cstring) (f : string) (expected : list value -> bool) : Prop :=
  exists vs, scan_into 128 val (fmt_of f) = Ok vs /\ expected vs = false.

Definition two_words (vs : list value) : bool := match vs with [VStr _; VStr _] => true | _ => false end.
Definition three_words (vs : list value) : bool := match vs with [VStr _; VStr _; VStr _] => true | _ => false end.
Definition words_number (vs : list value) : bool := match vs with [VStr _; VStr _; VInt _] => true | _ => false end.

Definition refused (c : command) : Prop :=
  match c with
  | AssocTxcVq val => misread val "dev %s associate txc %s vq %s" three_words
  | SetTxcWeight val | SetVqWeight val => misread val "dev %s %s weight %d" words_number
  | SetTxcRate val | SetVqRate val => misread val "dev %s %s rate %d" words_number
  | DeleteTxc val => misread val "dev %s txc %s" two_words
  | DeleteVq val => misread val "dev %s vq %s" two_words
  | CreateTxc _ _ _ | CreateVq _ _ _ | RecomputeDev _ => False
  end.

Lemma refused_unchanged c s : sys_locked s = false -> refused c -> run c s = Ok (- EINVAL, s).
Proof.
  intros Hl Hc. assert (Hback : up {| s with sys_locked := true |} = s) by (destruct s; cbn in *; by subst).
  destruct c; try done; destruct Hc as (vs & E & Hvs); cbn [run];
    unfold iso_sys_assoc_txc_vq, iso_sys_set_txc_weight, iso_sys_set_txc_rate, iso_sys_set_vq_weight, iso_sys_set_vq_rate,
      iso_sys_delete_txc, iso_sys_delete_vq.
  { rewrite E. cbn [mbind outcome_bind]. rewrite (with_mutex_free _ s Hl).
    destruct vs as [|[] [|[] [|[] []]]]; try discriminate Hvs; cbn [mbind outcome_bind mret outcome_ret]; by rewrite Hback. }
  all: rewrite (with_mutex_free _ s Hl), E; destruct vs as [|[] [|[] [|[] []]]]; try discriminate Hvs;
    cbn [mbind outcome_bind mret outcome_ret]; by rewrite Hback.
Qed.

(** Scanning can only fail by overrunning the arrays. *)
Lemma scan_into_cases n s f : scan_into n s f = Ok (sscanf s f) \/ scan_into n s f = Oops StackSmash.
Proof. unfold scan_into. destruct (existsb _ _); auto. Qed.

(** What a handler does when the mutex is taken. *)
Definition waits_for_mutex (s : sys) : outcome (Z * sys) :=
  if sys_signal s then Ok (- EINVAL, s) else Oops Asleep.

Lemma locked_waits body s : sys_locked s = true -> with_mutex body s = waits_for_mutex s.
Proof. intros Hl. unfold with_mutex, down_interruptible, waits_for_mutex. rewrite Hl. by destruct (sys_signal s). Qed.

Lemma malformed_locks val s :
  sys_locked s = false -> (forall devname, sscanf (take 127 val) (fmt_of "dev %s") <> [VStr devname]) ->
  iso_sys_recompute_dev val s = Ok (- EINVAL, {| s with sys_locked := true |}).
Proof.
  intros Hl Hbad. unfold iso_sys_recompute_dev, down_interruptible. rewrite Hl. cbn [mret outcome_ret mbind outcome_bind negb Z.eqb].
  assert (Hlen : (length (take 127 val) < 128)%nat) by (rewrite length_take; lia).
  revert Hlen Hbad. generalize (take 127 val). intros buff Hlen Hbad.
  rewrite (scan_into_short _ _ _ Hlen). cbn [mbind outcome_bind].
  destruct (sscanf buff (fmt_of "dev %s")) as [|[n|w] [|v vs]]; [done|done|done|by destruct (Hbad w)|done].
Qed.

#[local] Opaque scan_into.

Lemma locked_command c s :
  sys_locked s = true ->
  run c s = waits_for_mutex s \/
  (exists val, c = AssocTxcVq val /\ scan_into 128 val (fmt_of "dev %s associate txc %s vq %s") = Oops StackSmash) /\
    run c s = Oops StackSmash.
Proof.
  intros Hl. destruct c; cbn [run]; try (left; exact (locked_waits _ _ Hl)).
  - left. unfold iso_sys_create_txc. rewrite locked_waits by done. unfold waits_for_mutex. by destruct (sys_signal s).
  - left. unfold iso_sys_create_vq. rewrite locked_waits by done. unfold waits_for_mutex. by destruct (sys_signal s).
  - unfold iso_sys_assoc_txc_vq.
    destruct (scan_into_cases 128 val (fmt_of "dev %s associate txc %s vq %s")) as [E|E]; rewrite E; cbn [mbind outcome_bind].
    + left. exact (locked_waits _ _ Hl).
    + right. eauto.
  - left. unfold iso_sys_recompute_dev, down_interruptible, waits_for_mutex. rewrite Hl. by destruct (sys_signal s).
Qed.

(** C36: A malformed line written to recompute_dev returns -EINVAL with config_mutex still
    taken. Every command on every device after that sleeps for ever, or, when a signal
    interrupts it, returns -EINVAL and changes nothing; only an association with a word that
    overruns an array smashes the stack first, because it scans before it takes the mutex. *)
Theorem recompute_dev_leaks_mutex (val : cstring) (s : sys) :
  sys_locked s = false -> (forall devname, sscanf (take 127 val) (fmt_of "dev %s") <> [VStr devname]) ->
  run (RecomputeDev val) s = Ok (- EINVAL, {| s with sys_locked := true |}) /\
  forall c signal, let s' := {| s with sys_locked := true; sys_signal := signal |} in
    run c s' = (if signal then Ok (- EINVAL, s') else Oops Asleep) \/
    (exists val, c = AssocTxcVq val /\ scan_into 128 val (fmt_of "dev %s associate txc %s vq %s") = Oops StackSmash) /\
      run c s' = Oops StackSmash.
Proof. intros Hl Hbad. split; [by apply malformed_locks|]. intros c signal s'. by apply locked_command. Qed.

#[local] Transparent scan_into.

(** A device name that overruns the first array. *)
Lemma scan_long n w r f :
  word w -> (n <= length w)%nat -> ends_word r ->
  scan_into n (text "dev " ++ w ++ r) (fmt_of "dev %s" ++ f) = Oops StackSmash.
Proof.
  intros Hw Hn Hr. unfold scan_into. rewrite scan_dev by done. cbn [existsb overruns].
  by rewrite (proj2 (Nat.leb_le _ _) Hn).
Qed.

(** C37: A device name of 128 characters or more in a line of the seven handlers that scan the
    line itself is written past the end of the handler's array. *)
Theorem long_device_name_smashes_stack (w r : cstring) (s : sys) :
  word w -> (128 <= length w)%nat -> ends_word r -> sys_locked s = false ->
  let val := text "dev " ++ w ++ r in
  Forall (fun c => run c s = Oops StackSmash)
    [AssocTxcVq val; SetTxcWeight val; SetTxcRate val; SetVqWeight val; SetVqRate val; DeleteTxc val; DeleteVq val] /\
  forall junk, exists names, scan_dev_klass junk (take 127 val) = Ok names.
Proof.
  intros Hw Hn Hr Hl val.
  assert (Hlong : forall g f, fmt_of g = fmt_of "dev %s" ++ f -> scan_into 128 val (fmt_of g) = Oops StackSmash)
    by (intros g f ->; by apply scan_long).
  split.
  - repeat apply Forall_cons_2; try apply Forall_nil_2; cbn [run].
    { unfold iso_sys_assoc_txc_vq. by rewrite (Hlong "dev %s associate txc %s vq %s"%string (fmt_of " associate txc %s vq %s") eq_refl). }
    all: unfold iso_sys_set_txc_weight, iso_sys_set_txc_rate, iso_sys_set_vq_weight, iso_sys_set_vq_rate,
      iso_sys_delete_txc, iso_sys_delete_vq; rewrite (with_mutex_free _ s Hl).
    + by rewrite (Hlong "dev %s %s weight %d"%string (fmt_of " %s weight %d") eq_refl).
    + by rewrite (Hlong "dev %s %s rate %d"%string (fmt_of " %s rate %d") eq_refl).
    + by rewrite (Hlong "dev %s %s weight %d"%string (fmt_of " %s weight %d") eq_refl).
    + by rewrite (Hlong "dev %s %s rate %d"%string (fmt_of " %s rate %d") eq_refl).
    + by rewrite (Hlong "dev %s txc %s"%string (fmt_of " txc %s") eq_refl).
    + by rewrite (Hlong "dev %s vq %s"%string (fmt_of " vq %s") eq_refl).
  - intros junk. unfold scan_dev_klass. rewrite scan_into_short by (rewrite length_take; lia). cbn [mbind outcome_bind].
    destruct (sscanf _ _) as [|[?|?] [|[?|?] [|? ?]]]; eauto.
Qed.

(** A command for a device that does not exist or that the module does not manage changes
    nothing; it returns -EINVAL, except that the association returns 0. *)
Theorem unmanaged_device_unchanged (junk : cstring * cstring) (name : cstring) (c : ccmd) (s : sys) :
  sys_locked s = false -> line_ok name c ->
  (forall i dev, iso_search_netdev name (sys_devs s) = Some i -> sys_devs s !! i = Some dev -> iso_enabled dev = 0) ->
  run (line junk name c) s = Ok (match c with CAssoc _ _ => 0 | _ => - EINVAL end, s).
Proof.
  intros Hl Hline Hno. rewrite line_on_dev by done. unfold on_dev. cbn [sys_devs].
  assert (Hback : up {| s with sys_locked := true |} = s) by (destruct s; cbn in *; by subst).
  destruct (iso_search_netdev name (sys_devs s)) as [i|].
  - destruct (sys_devs s !! i) as [dev|] eqn:Hi; [rewrite (Hno i dev eq_refl Hi); cbn [Z.eqb]|];
      cbn [mbind outcome_bind mret outcome_ret]; rewrite Hback; by destruct c.
  - cbn [mbind outcome_bind mret outcome_ret]. rewrite Hback. by destruct c.
Qed.
End LineProps.

(** ** Witnesses *)

Definition ex_dev : net_device := {|
  nd_name := text "eth0"; nd_txqs := []; nd_ops := Some (Some (DriverXmit 1));
  nd_rx_handler := Some IsoRxHandler; nd_gso_max_size := 65536;
  nd_qdisc := Some ({| sch_flags := TCQ_F_EYEQ; sch_parent := 4294967295; sch_handle := 65536; sch_qlen := 0;
                       sch_bstats := {| bs_bytes := 0; bs_packets := 0 |};
                       sch_qstats := {| qs_qlen := 0; qs_backlog := 0; qs_drops := 0; qs_requeues := 0; qs_overlimits := 0 |} |},
    Some {| mq_qdiscs := None;
            mq_txc := Some {| cx_linked := true; cx_xmit := Some (DriverXmit 1); cx_prev_gso := 65536; cx_state := ex_tx |};
            mq_rxc := Some {| rcx_linked := true; rcx_state := ex_rx1 |} |}) |}.

Definition ex_sys : sys := {| sys_devs := [{| ex_dev with nd_name := text "lo"; nd_qdisc := None |}; ex_dev]; sys_locked := false; sys_signal := false |}.

(** The text of the comment of [iso_sys_set_txc_weight], for class 7 of eth0. *)
Lemma command_line_refines_witness :
  exists h', run (K := ref_kernel) (P := default_params) (C := Mark.ops)
      (SetTxcWeight (text "dev eth0 7 weight 5")) ex_sys =
      Ok (0, {| sys_devs := <[1%nat := set_dev_host h' ex_dev]> (sys_devs ex_sys); sys_locked := false; sys_signal := false |}) /\
    cfg_txcs (view h') !! 7 = Some {| tc_weight := 5; tc_cap := None; tc_vq := None |}.
Proof.
  destruct (command_line_refines (K := ref_kernel) (P := default_params) (C := Mark.ops) (valid := is_u32) (Env := ex_env)
    10000 ([], []) (text "eth0") (CTxcWeight (text "7") 5) ex_sys 1 ex_dev ex_host) as (ret & h' & E & Hspec & _);
    [reflexivity|vm_compute; reflexivity|reflexivity|vm_compute; discriminate|reflexivity|exact ex_ctl_ok| |exact I|].
  - split; [split; [discriminate|reflexivity]|]. split; [cbn; lia|]. split; [|lia]. split; [split; [discriminate|reflexivity]|cbn; lia].
  - assert (Hv : spec (P := default_params) (C := Mark.ops) (CTxcWeight (text "7") 5) (view ex_host) =
      (0, {| cfg_txcs := {[ 7 := {| tc_weight := 5; tc_cap := None; tc_vq := None |} ]};
             cfg_vqs := {[ 7 := {| vc_weight := 1; vc_cap := None |} ]} |})) by (vm_compute; reflexivity).
    rewrite Hv in Hspec. assert (ret = 0) as -> by exact (f_equal fst Hspec).
    exists h'. split; [exact E|]. assert (view h' = (0, view h').2) as -> by reflexivity. rewrite Hspec. reflexivity.
Defined.

Lemma recompute_dev_leaks_mutex_witness :
  exists s', run (K := ref_kernel) (P := default_params) (C := Mark.ops) (RecomputeDev (text "eth0")) ex_sys =
      Ok (- EINVAL, s') /\
    run (K := ref_kernel) (P := default_params) (C := Mark.ops) (RecomputeDev (text "dev eth0")) s' = Oops Asleep.
Proof.
  destruct (recompute_dev_leaks_mutex (K := ref_kernel) (P := default_params) (C := Mark.ops)
    (text "eth0") ex_sys eq_refl) as [E H]; [intros devname; vm_compute; discriminate|].
  eexists. split; [exact E|].
  destruct (H (RecomputeDev (text "dev eth0")) false) as [E2|[(val & Ec & _) _]]; [exact E2|discriminate Ec].
Defined.

Lemma long_device_name_smashes_stack_witness :
  run (K := ref_kernel) (P := default_params) (C := Mark.ops)
    (DeleteVq (text "dev " ++ repeat "x"%char 128 ++ [])) ex_sys = Oops StackSmash.
Proof.
  destruct (long_device_name_smashes_stack (K := ref_kernel) (P := default_params) (C := Mark.ops)
    (repeat "x"%char 128) [] ex_sys) as [H _];
    [split; [discriminate|reflexivity]|rewrite repeat_length; lia|exact I|reflexivity|].
  rewrite Forall_forall in H. apply H. vm_compute. do 6 right. left.
Defined.

Lemma unmanaged_device_unchanged_witness :
  run (K := ref_kernel) (P := default_params) (C := Mark.ops)
    (AssocTxcVq (text "dev lo associate txc 7 vq 7")) ex_sys = Ok (0, ex_sys).
Proof.
  apply (unmanaged_device_unchanged (K := ref_kernel) (P := default_params) (C := Mark.ops)
    ([], []) (text "lo") (CAssoc (text "7") (text "7")) ex_sys eq_refl).
  - split; [split; [discriminate|reflexivity]|]. split; [cbn; lia|].
    split; (split; [split; [discriminate|reflexivity]|cbn; lia]).
  - intros i dev Hi Hd. vm_compute in Hi. injection Hi as <-. injection Hd as <-. reflexivity.
Defined.
