(* ===== verification/Module.v ===== *)
(** * The whole module in operation

    The data path never touches the settings of a device, and the control plane
    keeps what the data path needs: packets, timers, tasklets, allocators and
    commands can be interleaved in any order. *)

From Stdlib Require Import Ascii String.
From S2P Require Import Prelude Params Kernel Packet Scan Class RateControl HashTable VirtualQueue.
From S2P Require Import VqTable RateLimiter Dequeue Device Tx TxPath Rx Host System Netdev Control.
From S2P Require Import Config.

Open Scope Z_scope.

Section Module.
Context {K : Kernel} {KL : KernelLaws K} {P : params} {PO : params_ok P}.
Context {C : IsoClass} {valid : Z -> Prop} {L : IsoClassLaws C valid}.
Context {Env : Oracle} {CL : ClockLaws Env}.

(** ** What the data path leaves alone *)

(** The transmit side with the same classes, settings and guarantees. *)
Record tx_frame (s s' : tx_state) : Prop := {
  fr_list : txx_txc_list (tx_ctx s') = txx_txc_list (tx_ctx s);
  fr_bucket : txx_bucket (tx_ctx s') = txx_bucket (tx_ctx s);
  fr_total : txx_total_weight (tx_ctx s') = txx_total_weight (tx_ctx s);
  fr_txc p : txc_conf <$> tx_txcs s' !! p = txc_conf <$> tx_txcs s !! p
}.

#[global] Instance tx_frame_preorder : PreOrder tx_frame.
Proof.
  split; [by split|]. intros s1 s2 s3 [A1 A2 A3 A4] [B1 B2 B3 B4].
  split; [congruence|congruence|congruence|intros p; by rewrite B4].
Qed.

Lemma deref_inv {A} (h : gmap loc A) p v : deref h p = Ok v -> h !! p = Some v.
Proof. unfold deref. destruct (h !! p); [by intros [= ->]|discriminate]. Qed.

Lemma frame_set_w w s : tx_frame s (set_w w s).
Proof. by split. Qed.

Lemma frame_states states s : tx_frame s {| s with tx_states := states |}.
Proof. by split. Qed.

Lemma frame_set_txc p txc txc' s :
  deref (tx_txcs s) p = Ok txc -> txc_conf txc' = txc_conf txc -> tx_frame s (set_txc p txc' s).
Proof.
  intros Hp%deref_inv Hc. split; try done. intros q. cbn [set_txc tx_txcs].
  destruct (decide (p = q)) as [<-|]; [|by rewrite lookup_insert_ne].
  rewrite lookup_insert_eq, Hp. cbn [fmap option_fmap option_map]. by rewrite Hc.
Qed.

(** A loop frames what its body frames. *)
Lemma foldM_frame {A} (f : tx_state -> A -> outcome tx_state) l :
  (forall s a s', f s a = Ok s' -> tx_frame s s') -> forall s s', foldM f l s = Ok s' -> tx_frame s s'.
Proof.
  intros Hf. induction l as [|a l IH]; intros s s' E; [by injection E as <-|]. cbn [foldM] in E.
  apply bind_ok in E as (s1 & E1 & E). etransitivity; eauto.
Qed.

Lemma tick_frame trylock s s' : iso_txc_tick trylock s = Ok s' -> tx_frame s s'.
Proof.
  unfold iso_txc_tick. destruct (_ <? _); [intros [= <-]; apply frame_set_w|].
  destruct (negb trylock); [intros [= <-]; apply frame_set_w|]. intros E.
  apply bind_ok in E as (tx_rate & _ & E). apply bind_ok in E as (rate & _ & E).
  match type of E with foldM _ _ ?s1 = _ => transitivity s1; [by split|] end.
  eapply foldM_frame; [|exact E]. intros s1 p s2 E2. unfold txc_tick in E2.
  apply bind_ok in E2 as (txc & Htxc & E2). apply bind_ok in E2 as (rl & _ & E2). apply bind_ok in E2 as (r & _ & E2).
  injection E2 as <-. etransitivity; [|apply frame_set_w]. by apply (frame_set_txc p txc).
Qed.

Lemma pick_rl_frame pc ip s r s' : iso_pick_rl pc ip s = Ok (r, s') -> tx_frame s s'.
Proof.
  unfold iso_pick_rl. intros E. apply bind_ok in E as (txc & Htxc & E). apply bind_ok in E as (found & _ & E).
  destruct found; [by injection E as _ <-|]. destruct (txc_prealloc_rl_list txc); [by injection E as _ <-|].
  apply bind_ok in E as (rl & _ & E). injection E as _ <-. etransitivity; [|apply frame_set_w].
  by apply (frame_set_txc pc txc).
Qed.

Lemma state_create_frame t pc ip s r s' : state_create t pc ip s = Ok (r, s') -> tx_frame s s'.
Proof.
  unfold state_create. intros E. apply bind_ok in E as (txc & _ & E).
  destruct (txc_prealloc_state_list txc); [by injection E as _ <-|].
  apply bind_ok in E as (state & _ & E). apply bind_ok in E as ([rl s1] & E1 & E). apply pick_rl_frame in E1.
  transitivity s1; [exact E1|]. destruct rl; [injection E as _ <-; apply frame_states| |];
    (apply bind_ok in E as (txc1 & Htxc1 & E); injection E as _ <-; etransitivity; [apply frame_states|];
     by apply (frame_set_txc pc txc1)).
Qed.

Lemma state_get_frame trylock t pc skb rx create s r s' :
  iso_state_get trylock t pc skb rx create s = Ok (r, s') -> tx_frame s s'.
Proof.
  unfold iso_state_get. destruct (negb (is_ip skb)); [by intros [= _ <-]|]. intros E.
  apply bind_ok in E as (txc & _ & E). apply bind_ok in E as (st & _ & E).
  destruct st; [|by injection E as _ <-|by injection E as _ <-].
  destruct (_ || _); [by injection E as _ <-|]. apply bind_ok in E as (st & _ & E).
  destruct st; [|by injection E as _ <-|by injection E as _ <-].
  apply bind_ok in E as ([st s1] & E1 & E). apply bind_ok in E as (s2 & E2 & E). injection E as _ <-.
  transitivity s1; [by eapply state_create_frame|]. unfold maybe_schedule in E2. apply bind_ok in E2 as (txc1 & Htxc1 & E2).
  destruct (_ <=? _); injection E2 as <-; [by apply (frame_set_txc pc txc1)|done].
Qed.

Lemma iso_tx_frame ticklock cpu skb s v s' : iso_tx ticklock cpu skb s = Ok (v, s') -> tx_frame s s'.
Proof.
  unfold iso_tx. intros E. apply bind_ok in E as (s1 & E1 & E). apply tick_frame in E1. transitivity s1; [done|].
  apply bind_ok in E as (found & _ & E). destruct found as [pc|]; [|by injection E as _ <-].
  apply bind_ok in E as ([st s2] & E2 & E). apply state_get_frame in E2. transitivity s2; [done|].
  destruct st; [by injection E as _ <-| |]; (apply bind_ok in E as (st & _ & E); destruct (ps_rl st); [discriminate| |discriminate];
    apply bind_ok in E as ([v1 w1] & _ & E); injection E as _ <-; apply frame_set_w).
Qed.

Lemma rx_feedback_frame e pc skb s v skb' s' : rx_feedback e pc skb s = Ok (v, skb', s') -> tx_frame s s'.
Proof.
  unfold rx_feedback. intros E. apply bind_ok in E as ([st s1] & E1 & E). apply state_get_frame in E1. transitivity s1; [done|].
  assert (Hfb : forall s2, apply_feedback (rxe_rc_lock e) (rxe_now e 4%nat) (skb_has_feedback skb) st s1 = Ok s2 -> tx_frame s1 s2).
  { unfold apply_feedback. intros s2 E2. destruct (_ && _); [|by injection E2 as <-]. apply bind_ok in E2 as (ps & _ & E2).
    destruct (_ && _); [|by injection E2 as <-]. destruct (negb _); [by injection E2 as <-|].
    destruct (ps_rl ps); [discriminate| |discriminate].
    destruct st; [discriminate| |discriminate]. apply bind_ok in E2 as (rl & _ & E2). injection E2 as <-. by split. }
  destruct st; [by injection E as _ _ <-| |]; (apply bind_ok in E as (s2 & E2 & E); injection E as _ _ <-; by apply Hfb).
Qed.

Lemma allocator_frame pc es s s' : iso_txc_allocator pc es s = Ok s' -> tx_frame s s'.
Proof.
  unfold iso_txc_allocator. intros E. apply bind_ok in E as (txc & Htxc & E).
  etransitivity; [by apply (frame_set_txc pc txc {| txc with txc_allocator := false |})|].
  apply prealloc_frame in E as [Ec Hc]. split; [by rewrite Ec..|exact Hc].
Qed.

(** Virtual queues keep their settings. *)
Lemma stats_update_setting cpu f vq vq' : vq_stats_update cpu f vq = Ok vq' -> vq_setting vq' = vq_setting vq.
Proof. unfold vq_stats_update. destruct (vq_percpu_stats vq); [|discriminate]. by intros [= <-]. Qed.

Lemma drain_setting rcp_rate now dt vq vq' : iso_vq_drain rcp_rate now dt vq = Ok vq' -> vq_setting vq' = vq_setting vq.
Proof.
  unfold iso_vq_drain. destruct (_ <? _); [by intros [= <-]|]. cbn [vq_percpu_stats].
  destruct (vq_percpu_stats vq); [|discriminate]. intros H. do 4 (apply bind_ok in H as (? & _ & H)). by injection H as <-.
Qed.

Lemma enqueue_setting rcp_rate now now' trylock cpu pkt vq vq' :
  iso_vq_enqueue rcp_rate now now' trylock cpu pkt vq = Ok vq' -> vq_setting vq' = vq_setting vq.
Proof.
  unfold iso_vq_enqueue. intros H. apply bind_ok in H as (vq1 & E1 & H). apply bind_ok in H as (vq2 & E2 & H).
  apply bind_ok in H as (vq3 & E3 & E4). apply stats_update_setting in E1, E4.
  assert (vq_setting vq2 = vq_setting vq1) as E2' by (destruct (_ && _); [by eapply stats_update_setting|by injection E2 as <-]).
  assert (vq_setting vq3 = vq_setting vq2) as E3'
    by (destruct (_ <? _); [destruct trylock; [by eapply drain_setting|]|]; by injection E3 as <-).
  congruence.
Qed.

Lemma maybe_feedback_setting now now' alloc cpu skb vq fb vq' :
  maybe_feedback now now' alloc cpu skb vq = Ok (fb, vq') -> vq_setting vq' = vq_setting vq.
Proof.
  unfold maybe_feedback. destruct (vq_percpu_stats vq); [|discriminate].
  match goal with |- context [if ?b then _ else _] => destruct b end; by intros [= _ <-].
Qed.

(** Both sides. *)
Record frame (h h' : host) : Prop := {
  fr_tx : tx_frame (h_tx h) (h_tx h');
  fr_vlist : vq_list h' = vq_list h;
  fr_vq p : vq_setting <$> rx_vqs (h_rx h') !! p = vq_setting <$> rx_vqs (h_rx h) !! p
}.

#[global] Instance frame_preorder : PreOrder frame.
Proof.
  split; [by split|]. intros h1 h2 h3 [A1 A2 A3] [B1 B2 B3].
  split; [by transitivity (h_tx h2)|congruence|intros p; by rewrite B3].
Qed.

Lemma frame_set_tx tx h : tx_frame (h_tx h) tx -> frame h (set_tx tx h).
Proof. by split. Qed.

Lemma frame_set_vq pv vq vq' rx h :
  deref (rx_vqs (h_rx h)) pv = Ok vq -> vq_setting vq' = vq_setting vq ->
  rxc_vq_list (rx_ctx rx) = vq_list h -> rx_vqs rx = rx_vqs (h_rx h) -> frame h (set_rx (set_vq pv vq' rx) h).
Proof.
  intros Hp%deref_inv Hs Hl Hv. split; [done|exact Hl|]. intros q. cbn [set_rx set_vq h_rx rx_vqs]. rewrite Hv.
  destruct (decide (pv = q)) as [<-|]; [|by rewrite lookup_insert_ne].
  rewrite lookup_insert_eq, Hp. cbn [fmap option_fmap option_map]. by rewrite Hs.
Qed.

Lemma rx_counted_frame e cpu skb pv vq h v skb' fb h' :
  rx_vqs (h_rx h) !! pv = Some vq ->
  rx_counted e cpu skb pv vq (h_rx h) (h_tx h) = Ok (v, skb', fb, h') -> frame h h'.
Proof.
  unfold rx_counted. intros Hpv E. apply bind_ok in E as (found & _ & E).
  destruct found as [pc|]; [|by injection E as _ _ _ <-; split].
  apply bind_ok in E as ([[v1 skb1] tx1] & E1 & E). apply rx_feedback_frame in E1.
  transitivity (set_tx tx1 h); [by apply frame_set_tx|]. destruct (_ && _); [|by injection E as _ _ _ <-; split].
  apply bind_ok in E as ([fb1 vq1] & E2 & E). injection E as _ _ _ <-.
  apply (frame_set_vq pv vq vq1 (h_rx h) (set_tx tx1 h)); [by apply deref_ok|by eapply maybe_feedback_setting|done|done].
Qed.

Lemma iso_rx_frame e cpu skb h v skb' fb h' : iso_rx e cpu skb h = Ok (v, skb', fb, h') -> frame h h'.
Proof.
  unfold iso_rx. intros E. apply bind_ok in E as (ctx1 & E1 & E). apply bind_ok in E as (ctx2 & E2 & E).
  assert (Hl : rxc_vq_list ctx2 = vq_list h).
  { unfold iso_rx_stats_update in E1. destruct (rxc_stats (rx_ctx (h_rx h))); [|discriminate].
    assert (rxc_vq_list ctx1 = vq_list h) as <-.
    { destruct (_ <? _); [by injection E1 as <-|]. destruct (negb _); [by injection E1 as <-|].
      apply bind_ok in E1 as (r & _ & E1). by injection E1 as <-. }
    clear E1. unfold iso_rx_rcp_update in E2. destruct (_ <? _); [by injection E2 as <-|]. destruct (negb _); [by injection E2 as <-|].
    apply bind_ok in E2 as (r & _ & E2). by injection E2 as <-. }
  apply bind_ok in E as (found & _ & E). destruct found as [pv|]; [|by injection E as _ _ _ <-; split].
  apply bind_ok in E as (vq & Hvq & E). apply bind_ok in E as (vq1 & Eq & E). apply enqueue_setting in Eq.
  cbn [rx_vqs] in *. pose proof (frame_set_vq pv vq vq1 {| rx_ctx := ctx2; rx_vqs := rx_vqs (h_rx h) |} h Hvq Eq Hl eq_refl) as Hf.
  etransitivity; [exact Hf|]. eapply rx_counted_frame; [apply lookup_insert_eq|exact E].
Qed.

(** No event of the data path changes the settings of a device. *)
Lemma hstep_frame h ev h' : hstep h ev = Ok h' -> frame h h'.
Proof.
  destruct ev as [ticklock cpu skb|e cpu skb|cpu|cpu|pc es]; cbn [hstep]; intros E.
  - apply bind_ok in E as ([v tx] & E & E'). injection E' as <-. apply frame_set_tx. by eapply iso_tx_frame.
  - apply bind_ok in E as ([[[v skb'] fb] h1] & E & E'). injection E' as <-. by eapply iso_rx_frame.
  - injection E as <-. apply frame_set_tx, frame_set_w.
  - apply bind_ok in E as (w & _ & E). injection E as <-. apply frame_set_tx, frame_set_w.
  - apply bind_ok in E as (tx & E & E'). injection E' as <-. apply frame_set_tx. by eapply allocator_frame.
Qed.

Lemma frame_ctl R h h' :
  frame h h' -> host_ok (valid := valid) R h' -> ctl_ok (valid := valid) R h -> ctl_ok (valid := valid) R h' /\ view h' = view h.
Proof.
  intros [[F1 F2 F3 F4] F5 F6] Hok [Hpre Hsh].
  assert (Hcfg : same_cfg h h').
  { split; try done. intros p. exact (fmap_through txc_conf fst _ _ (F4 p)). }
  destruct (same_cfg_frame R h h' Hok Hcfg Hpre) as [Hpre' Hview]. split; [split; [done|]|done].
  unfold shares_ok, tx_list. rewrite F1, F3. intros HW p txc' Hp Htxc'. specialize (F4 p). rewrite Htxc' in F4.
  destruct (tx_txcs (h_tx h) !! p) as [txc|] eqn:Htxc; [|done]. injection F4 as _ Ew _ _ _ Em. rewrite Ew, Em. by apply (Hsh HW p).
Qed.

(** ** Events and commands *)

Inductive mevent :=
| Data (ev : hevent)
| Ctl (c : ccmd).

Definition mstep (h : host) (m : mevent) : outcome host :=
  match m with
  | Data ev => hstep h ev
  | Ctl c => '(_, h) ← exec c h; mret h
  end.

(** The events that can come next. *)
Definition mevent_pre (R : Z) (h : host) (m : mevent) : Prop :=
  match m with
  | Data ev => hevent_ok (valid := valid) R h ev
  | Ctl c => mem_ok h c
  end.

(** Those after which the device can go on: not a command that gives a virtual queue the weight
    0 or no statistics. *)
Definition mevent_ok (R : Z) (h : host) (m : mevent) : Prop :=
  mevent_pre R h m /\ match m with Data _ => True | Ctl c => sound c end.

(** The states that a device reaches from [h], and the settings that its commands
    ask for. *)
Inductive mreach (R : Z) (h : host) : host -> config -> Prop :=
| mreach_refl : mreach R h h (view h)
| mreach_step h1 c m h2 : mreach R h h1 c -> mevent_ok R h1 m -> mstep h1 m = Ok h2 ->
    mreach R h h2 match m with Data _ => c | Ctl cmd => (spec cmd c).2 end.

Lemma mstep_ok R h m :
  ctl_ok (valid := valid) R h -> mevent_pre R h m ->
  (exists h', mstep h m = Ok h' /\ (mevent_ok R h m -> ctl_ok (valid := valid) R h') /\
     view h' = match m with Data _ => view h | Ctl cmd => (spec cmd (view h)).2 end) \/
  (exists e cpu skb, m = Data (Receive e cpu skb) /\ starved e skb h) /\ mstep h m = Oops BadPointer.
Proof.
  intros Hctl Hm. destruct m as [ev|c]; cbn [mstep mevent_pre] in *.
  - destruct (hstep_ok R h ev (co_host R h (proj1 Hctl)) Hm) as [(h' & E & Hok)|((e & cpu & skb & -> & Hst) & E)].
    + left. exists h'. split; [done|].
      destruct (frame_ctl R h h') as [Hctl' Hview]; [by eapply hstep_frame|done|done|]. by split.
    + right. split; [by exists e, cpu, skb|done].
  - left. destruct (exec_refines R h c Hctl Hm) as (ret & h' & E & Hctl' & Hspec). rewrite E. cbn [mbind outcome_bind].
    exists h'. split; [done|]. split; [intros [_ Hs]; by apply Hctl'|]. by rewrite <- Hspec.
Qed.

Lemma mreach_ok R h h' c : ctl_ok (valid := valid) R h -> mreach R h h' c -> ctl_ok (valid := valid) R h' /\ view h' = c.
Proof.
  intros Hctl Hr. induction Hr as [|h1 c m h2 Hr IH Hm E]; [done|]. destruct IH as [Hctl1 Hview].
  destruct (mstep_ok R h1 m Hctl1 (proj1 Hm)) as [(h3 & E3 & H3 & Hv3)|[_ E3]]; [|congruence].
  assert (h3 = h2) as -> by congruence. split; [by apply H3|]. rewrite Hv3. by rewrite Hview.
Qed.

(** The guarantees of the classes of a device do not exceed [ISO_MAX_TX_RATE]. *)
Lemma guarantees_bounded R h :
  ctl_ok (valid := valid) R h -> 0 < txx_total_weight (tx_ctx (h_tx h)) ->
  heap_sum txc_min_rate (tx_txcs (h_tx h)) (tx_list h) <= ISO_MAX_TX_RATE.
Proof.
  intros [Hpre Hsh] HW. pose proof max_tx_facts. set (W := txx_total_weight _) in *.
  transitivity (sumZ (map (fun w => ISO_MAX_TX_RATE * w / W) (txc_weights (tx_txcs (h_tx h)) (tx_list h)))).
  - unfold heap_sum, txc_weights. rewrite map_map. apply sumZ_map_le. intros p Hp.
    destruct (tx_txcs (h_tx h) !! p) as [txc|] eqn:Htxc; [|apply Z.div_pos; lia].
    rewrite (Hsh HW p txc Hp Htxc). fold W. by rewrite Z.mul_comm.
  - apply sum_shares_le; [lia|lia| |].
    + change (sumZ (txc_weights _ _)) with (heap_sum txc_weight (tx_txcs (h_tx h)) (tx_list h)).
      rewrite <- (co_weight R h Hpre). done.
    + apply Forall_map, Forall_forall. intros p _. destruct (tx_txcs (h_tx h) !! p) as [txc|] eqn:Htxc; [|done].
      apply (cls_ok _ (ti_cls R _ (txo_inv R _ (hok_tx R h (co_host R h Hpre)))) p txc Htxc).
Qed.
End Module.

Section ModuleSafe.
Context {K : Kernel} {KL : KernelLaws K} {P : params} {PO : params_ok P}.
Context {C : IsoClass} {valid : Z -> Prop} {L : IsoClassLaws C valid}.
Context {Env : Oracle} {CL : ClockLaws Env}.

End ModuleSafe.

