(* ===== verification/Delete.v ===== *)
(** * What deletion and unsound settings leave behind (delete_txc, delete_vq, set_vq_weight and
    create_vq of params.c)

    A deleted class is unlinked from its hash chain but stays on the list of
    classes; a deleted virtual queue is unlinked from the list but stays in its
    hash chain.  Both are freed, so the next walk over them is a use after free.
    A virtual queue of weight 0, and one whose per-CPU statistics could not be allocated, are
    accepted; the packets of their class stop the kernel. *)

From Stdlib Require Import Ascii String.
From S2P Require Import Prelude Params Kernel Packet Scan Class RateControl HashTable VirtualQueue.
From S2P Require Import VqTable RateLimiter Dequeue Device Tx TxPath Rx Host System Netdev Control.
From S2P Require Import Config CommandLine Module.

Open Scope Z_scope.

Section Delete.
Context {K : Kernel} {KL : KernelLaws K} {P : params} {PO : params_ok P}.
Context {C : IsoClass} {valid : Z -> Prop} {L : IsoClassLaws C valid}.
Context {Env : Oracle} {CL : ClockLaws Env}.

(** A class with its rate limiter. *)
Definition class_live (s : tx_state) (p : loc) : Prop :=
  is_Some (tx_txcs s !! p) /\ is_Some (w_rls (tx_w s) !! inr p).

(** A loop over the classes that needs them to be live. *)
Definition needs_class (body : tx_state -> loc -> outcome tx_state) : Prop :=
  forall s p,
    (tx_txcs s !! p = None -> body s p = Oops BadPointer) /\
    (class_live s p -> exists s', body s p = Ok s' /\ tx_ctx s' = tx_ctx s /\
       (forall q, class_live s' q <-> class_live s q) /\ (forall q, tx_txcs s' !! q = None <-> tx_txcs s !! q = None)).

(** Rewriting a live class and its rate limiter. *)
Lemma rewrite_class s p txc rl :
  class_live s p ->
  let s' := set_w (set_rl (inr p) rl (tx_w s)) (set_txc p txc s) in
  (forall q, class_live s' q <-> class_live s q) /\ (forall q, tx_txcs s' !! q = None <-> tx_txcs s !! q = None).
Proof.
  intros [[t Ht] [r Hr]] s'. unfold class_live. cbn [s' set_w set_txc set_rl tx_txcs tx_w w_rls].
  split; intros q; (destruct (decide (p = q)) as [<-|]; [|rewrite !lookup_insert_ne by congruence; done]).
  - rewrite !lookup_insert_eq, Ht, Hr. by split; intros _; split; eexists.
  - rewrite !lookup_insert_eq, Ht. done.
Qed.

Lemma recompute_needs W : needs_class (txc_recompute W).
Proof.
  intros s p. unfold txc_recompute. split; [unfold deref; by intros ->|]. intros Hl. pose proof Hl as [[txc Ht] [rl Hr]].
  rewrite (deref_ok _ _ _ Ht), (deref_ok _ _ _ Hr). cbn [mbind outcome_bind].
  eexists. split; [reflexivity|]. split; [done|]. by apply rewrite_class.
Qed.

Lemma tick_needs dt rate : dt <> 0 -> needs_class (txc_tick dt rate).
Proof.
  intros Hdt s p. unfold txc_tick. split; [unfold deref; by intros ->|]. intros Hl. pose proof Hl as [[txc Ht] [rl Hr]].
  rewrite (deref_ok _ _ _ Ht), (deref_ok _ _ _ Hr). cbn [mbind outcome_bind]. rewrite div_u_ok by done. cbn [mbind outcome_bind].
  eexists. split; [reflexivity|]. split; [done|]. by apply rewrite_class.
Qed.

(** Such a loop faults when a freed class is on its list. *)
Lemma loop_dangling body l : needs_class body -> forall s p,
  p ∈ l -> tx_txcs s !! p = None -> (forall q, q ∈ l -> q <> p -> class_live s q) ->
  foldM body l s = Oops BadPointer.
Proof.
  intros Hb. induction l as [|q l IH]; intros s p Hp Hnone Hlive; [by apply not_elem_of_nil in Hp|].
  cbn [foldM]. destruct (decide (q = p)) as [->|Hne]; [by rewrite (proj1 (Hb s p) Hnone)|].
  apply elem_of_cons in Hp as [?|Hp]; [congruence|].
  destruct (proj2 (Hb s q) (Hlive q (list_elem_of_here _ _) Hne)) as (s' & -> & _ & Hl & Hn). cbn [mbind outcome_bind].
  apply (IH s' p); [done|by apply Hn|]. intros r Hr Hrp. apply Hl, Hlive; [by apply list_elem_of_further|done].
Qed.

(** And otherwise it keeps the classes. *)
Lemma loop_keeps body l : needs_class body -> forall s s',
  (forall q, q ∈ l -> class_live s q) -> foldM body l s = Ok s' ->
  tx_ctx s' = tx_ctx s /\ forall q, class_live s' q <-> class_live s q.
Proof.
  intros Hb. induction l as [|q l IH]; intros s s' Hlive E; [by injection E as <-|]. cbn [foldM] in E.
  destruct (proj2 (Hb s q) (Hlive q (list_elem_of_here _ _))) as (s1 & E1 & Ec1 & Hl1 & _). rewrite E1 in E.
  destruct (IH s1 s') as [Ec Hl]; [|done|].
  - intros r Hr. apply Hl1, Hlive. by apply list_elem_of_further.
  - split; [congruence|]. intros r. by rewrite Hl, Hl1.
Qed.

(** Freeing a class does not touch the others. *)
Lemma rl_free_frame l : forall s s',
  foldM iso_rl_free l s = Ok s' ->
  tx_ctx s' = tx_ctx s /\ tx_txcs s' = tx_txcs s /\ forall q, w_rls (tx_w s') !! inr q = w_rls (tx_w s) !! inr q.
Proof.
  induction l as [|p l IH]; intros s s' E; [by injection E as <-|]. cbn [foldM] in E. apply bind_ok in E as (s1 & E1 & E).
  unfold iso_rl_free in E1. apply bind_ok in E1 as (rl & _ & E1). injection E1 as <-.
  destruct (IH _ _ E) as (H1 & H2 & H3). split; [done|]. split; [done|]. intros q. rewrite H3. cbn. by rewrite lookup_delete_ne.
Qed.

Lemma state_free_frame l : forall s s',
  foldM iso_state_free l s = Ok s' ->
  tx_ctx s' = tx_ctx s /\ tx_txcs s' = tx_txcs s /\ forall q, w_rls (tx_w s') !! inr q = w_rls (tx_w s) !! inr q.
Proof.
  induction l as [|p l IH]; intros s s' E; [by injection E as <-|]. cbn [foldM] in E. apply bind_ok in E as (s1 & E1 & E).
  unfold iso_state_free in E1. apply bind_ok in E1 as (st & _ & E1). injection E1 as <-.
  destruct (IH _ _ E) as (H1 & H2 & H3). done.
Qed.

Lemma txc_free_others pc h h' :
  iso_txc_free pc h = Ok h' ->
  tx_ctx (h_tx h') = tx_ctx (h_tx h) /\ tx_txcs (h_tx h') !! pc = None /\
  forall q, q <> pc -> class_live (h_tx h) q -> class_live (h_tx h') q.
Proof.
  unfold iso_txc_free. intros E. apply bind_ok in E as (txc & _ & E).
  apply bind_ok in E as (t1 & E1 & E). apply bind_ok in E as (t2 & E2 & E). apply bind_ok in E as (t3 & E3 & E).
  apply bind_ok in E as (t4 & E4 & E). apply bind_ok in E as (vqs & _ & E). injection E as <-.
  apply rl_free_frame in E1 as (A1 & A2 & A3), E3 as (C1 & C2 & C3). apply state_free_frame in E2 as (B1 & B2 & B3), E4 as (D1 & D2 & D3).
  unfold class_live. cbn [h_tx tx_ctx tx_txcs tx_w set_w w_rls]. split; [congruence|]. split; [apply lookup_delete_eq|].
  intros q Hq [Ht Hr]. rewrite !lookup_delete_ne by congruence. rewrite D2, C2, B2, A2, D3, C3, B3, A3. done.
Qed.

(** C38: Deleting a transmit class frees it but leaves it on the list of classes of its device,
    so the next recomputation of the rates and the next due tick dereference freed memory. *)
Theorem delete_txc_leaves_class_on_list (R : Z) (name : cstring) (h h' : host) :
  ctl_ok (valid := valid) R h -> delete_txc name h = Ok (0, h') ->
  exists pc, pc ∈ tx_list h' /\ tx_txcs (h_tx h') !! pc = None /\
    (txx_total_weight (tx_ctx (h_tx h')) <> 0 -> iso_txc_recompute_rates (h_tx h') = Oops BadPointer) /\
    (u64 ISO_TXC_UPDATE_INTERVAL_US <=
       u64 (ktime_us_delta (clock (w_reads (tx_w (h_tx h')))) (txx_last_update_time (tx_ctx (h_tx h')))) ->
     iso_txc_tick true (h_tx h') = Oops BadPointer).
Proof.
  intros [Hpre _] E. unfold delete_txc in E.
  match type of E with on_txc ?n ?b ?h0 = _ =>
    destruct (on_txc_spec R h0 n b Hpre) as [(pc & txc & E1 & Hin & Hpc & _)|[E1 _]] end;
    rewrite E1 in E; [|discriminate]. clear E1.
  apply bind_ok in E as (tx & Etx & E). apply bind_ok in E as (h2 & Efree & E). injection E as <-.
  pose proof (ti_cls R _ (txo_inv R _ (hok_tx R h (co_host R h Hpre)))) as Hc.
  set (s1 := {| tx_ctx := _; tx_txcs := _; tx_states := _; tx_w := _ |}) in Etx.
  assert (Hl1 : forall q, q ∈ tx_list h -> class_live s1 q) by (intros q Hq; exact (cls_live _ Hc q Hq)).
  assert (tx_ctx tx = tx_ctx s1 /\ forall q, class_live tx q <-> class_live s1 q) as [Ec2 Hl2].
  { unfold iso_txc_recompute_rates in Etx. destruct (_ =? 0); [by injection Etx as <-|].
    exact (loop_keeps _ _ (recompute_needs _) s1 tx Hl1 Etx). }
  destruct (txc_free_others pc (set_tx tx h) h2 Efree) as (Ec3 & Hnone & Hothers). cbn [set_tx h_tx] in Ec3, Hothers.
  rewrite Ec2 in Ec3. assert (Hlist : tx_list h2 = tx_list h) by (unfold tx_list; by rewrite Ec3).
  assert (Hlive : forall q, q ∈ tx_list h -> q <> pc -> class_live (h_tx h2) q).
  { intros q Hq Hne. apply Hothers; [done|]. apply Hl2, Hl1. done. }
  exists pc. rewrite Hlist. split; [done|]. split; [done|]. unfold tx_list in Hlist. split.
  - intros HW. unfold iso_txc_recompute_rates. rewrite (proj2 (Z.eqb_neq _ _) HW), Hlist.
    by apply (loop_dangling _ _ (recompute_needs _) _ pc).
  - set (dt := u64 (ktime_us_delta _ _)). intros Hdue. unfold iso_txc_tick. cbn [set_w tx_ctx tx_w]. fold dt.
    rewrite (proj2 (Z.ltb_ge _ _) Hdue). cbn [negb]. pok. rewrite (u64_small ISO_TXC_UPDATE_INTERVAL_US) in Hdue by lia.
    assert (Hdt : dt <> 0) by lia. rewrite div_u_ok by done. cbn [mbind outcome_bind].
    match goal with |- context [txx_rcp_step ?a ?b] => destruct (txx_rcp_step_ok a b) as (rate & -> & _) end.
    cbn [mbind outcome_bind iso_txctx_accum tx_ctx txx_txc_list]. rewrite Hlist.
    apply (loop_dangling _ _ (tick_needs dt rate Hdt) _ pc); [done|exact Hnone|exact Hlive].
Qed.

(** C39: Deleting an unreferenced virtual queue succeeds but leaves it in its hash chain: in the
    state it leaves, a received packet of its class, and creating, deleting, weighting or rating
    that virtual queue or associating an existing class with it, each dereference freed memory. *)
Theorem delete_vq_poisons_class (R : Z) (name : cstring) (h h' : host) :
  ctl_ok (valid := valid) R h -> delete_vq name h = Ok (0, h') ->
  (forall e cpu skb, op_rx_classify skb = op_parse name -> iso_rx e cpu skb h' = Oops BadPointer) /\
  (forall e, create_vq e name h' = Oops BadPointer) /\
  (forall weight, set_vq_weight name weight h' = Oops BadPointer) /\
  (forall rate, set_vq_rate name rate h' = Oops BadPointer) /\
  delete_vq name h' = Oops BadPointer /\
  (forall txc pc, iso_txc_find (op_parse txc) (h_tx h) = Ok (Some pc) -> assoc_txc_vq txc name h' = Oops BadPointer).
Proof.
  intros [Hpre _] E. unfold delete_vq in E. pose proof (hok_rx R h (co_host R h Hpre)) as [T _ Hs Hr].
  destruct (table_find vq_klass ISO_MAX_VQ_BUCKETS (valid := valid) _ _ _ (op_parse name) T (parse_valid name)) as (r & Efind & _).
  unfold on_vq, iso_vq_find in E. rewrite Efind in E. cbn [mbind outcome_bind] in E. destruct r as [pv|]; [|discriminate].
  apply bind_ok in E as (vq & Hvq & E). destruct (0 <? vq_refcnt vq) eqn:Href; [discriminate|].
  apply bind_ok in E as (rx & Efree & E). injection E as <-. unfold iso_vq_free in Efree. rewrite Hvq in Efree.
  cbn [mbind outcome_bind] in Efree. rewrite Href in Efree. injection Efree as <-.
  assert (Hgone : forall ctx, rxc_vq_bucket ctx = rxc_vq_bucket (rx_ctx (h_rx h)) ->
    iso_vq_find (op_parse name) {| rx_ctx := ctx; rx_vqs := delete pv (rx_vqs (h_rx h)) |} = Oops BadPointer).
  { intros ctx Hb. unfold iso_vq_find. cbn [rx_ctx rx_vqs]. rewrite Hb. by apply chain_find_dangling. }
  split.
  - intros e cpu skb Hk. unfold iso_rx. cbn [set_rx h_rx rx_ctx].
    set (ctx := {| rxc_vq_last_update_time := _ |}).
    destruct (rx_updates_total ctx (rxe_stats_lock e) (rxe_now e 0%nat) (rxe_rcp_lock e) (rxe_now e 1%nat) cpu skb Hs Hr)
      as (ctx1 & ctx2 & -> & E2 & _ & Hb & _). cbn [mbind outcome_bind]. rewrite E2. cbn [mbind outcome_bind rx_vqs].
    rewrite Hk, (Hgone ctx2); [done|]. exact Hb.
  - assert (Hon : forall body ctx, rxc_vq_bucket ctx = rxc_vq_bucket (rx_ctx (h_rx h)) ->
      on_vq name body (set_rx {| rx_ctx := ctx; rx_vqs := delete pv (rx_vqs (h_rx h)) |} h) = Oops BadPointer).
    { intros body ctx Hb. unfold on_vq. cbn [set_rx h_rx]. by rewrite Hgone. }
    split_and!.
    + intros e. unfold create_vq, iso_vq_install. cbn [set_rx h_rx]. by rewrite Hgone.
    + intros weight. by apply Hon.
    + intros rate. by apply Hon.
    + by apply Hon.
    + intros txc pc Htxc. unfold assoc_txc_vq, on_txc. cbn [set_rx h_tx]. rewrite Htxc. cbn [mbind outcome_bind].
      unfold deref. destruct (tx_txcs (h_tx h) !! pc); [|done]. cbn [mbind outcome_bind]. by apply Hon.
Qed.

(** ** Virtual queues that cannot be drained *)

(** A received packet whose accounting faults. *)
Lemma rx_enqueue_fault f e cpu skb h pv vq :
  is_Some (rxc_stats (rx_ctx (h_rx h))) ->
  ISO_MIN_RFAIR <= rxc_rcp_rate (rx_ctx (h_rx h)) <= ISO_VQ_DRAIN_RATE_MBPS ->
  iso_vq_find (op_rx_classify skb) (h_rx h) = Ok (Some pv) -> rx_vqs (h_rx h) !! pv = Some vq ->
  (forall rcp, iso_vq_enqueue rcp (rxe_now e 2%nat) (rxe_now e 3%nat) (rxe_vq_lock e) cpu skb vq = Oops f) ->
  iso_rx e cpu skb h = Oops f.
Proof.
  intros Hs Hr Hf Hpv Hq. unfold iso_rx.
  destruct (rx_updates_total (rx_ctx (h_rx h)) (rxe_stats_lock e) (rxe_now e 0%nat) (rxe_rcp_lock e) (rxe_now e 1%nat) cpu skb Hs Hr)
    as (ctx1 & ctx2 & -> & E2 & _ & Hb & _). cbn [mbind outcome_bind]. rewrite E2. cbn [mbind outcome_bind].
  assert (iso_vq_find (op_rx_classify skb) {| rx_ctx := ctx2; rx_vqs := rx_vqs (h_rx h) |} = Ok (Some pv)) as ->
    by (rewrite <-Hf; unfold iso_vq_find; cbn [rx_ctx]; by rewrite Hb).
  cbn [mbind outcome_bind rx_vqs]. rewrite (deref_ok _ _ _ Hpv). cbn [mbind outcome_bind]. by rewrite Hq.
Qed.

(** The packet that drains a dynamic queue of weight 0. *)
Lemma enqueue_zero_weight rcp now now' cpu pkt vq :
  vq_weight vq = 0 -> vq_is_static vq = 0 -> is_Some (vq_percpu_stats vq) ->
  u64 ISO_VQ_UPDATE_INTERVAL_US < u64 (ktime_us_delta now (vq_last_update_time vq)) ->
  u64 ISO_VQ_UPDATE_INTERVAL_US <= u64 (ktime_us_delta now' (vq_last_update_time vq)) ->
  iso_vq_enqueue rcp now now' true cpu pkt vq = Oops DivideError.
Proof.
  intros Hw Hs [st Hst] Hdue Hdue'. pok.
  assert (Hdt : u64 (ktime_us_delta now (vq_last_update_time vq)) <> 0)
    by (rewrite (u64_small ISO_VQ_UPDATE_INTERVAL_US) in Hdue by lia; lia).
  apply Z.ltb_lt in Hdue. unfold iso_vq_enqueue, vq_stats_update. rewrite Hst. cbn [mbind outcome_bind mret outcome_ret].
  destruct (_ && _); cbn [vq_percpu_stats mbind outcome_bind mret outcome_ret vq_last_update_time]; rewrite Hdue;
    (rewrite iso_vq_drain_zero_weight; [done|done|by eexists|done|done|done]).
Qed.

(** What is left of a queue after the rates were divided. *)
Lemma calculate_entry rx p vq :
  vqt_ok (valid := valid) rx -> p ∈ rxc_vq_list (rx_ctx rx) -> rx_vqs rx !! p = Some vq ->
  exists rx' vq', iso_vq_calculate_rates rx = Ok rx' /\ rx_ctx rx' = rx_ctx rx /\ rx_vqs rx' !! p = Some vq' /\
    iso_vq_find (vq_klass vq) rx' = Ok (Some p) /\
    vq_weight vq' = vq_weight vq /\ vq_is_static vq' = vq_is_static vq /\ vq_percpu_stats vq' = vq_percpu_stats vq.
Proof.
  intros T Hp Hvq. destruct (calculate_rates_shape rx (tok_nodup _ _ _ _ _ T) (tok_live _ _ _ _ _ T)) as (vqs & E & total & _ & Hvqs).
  destruct (calculate_rates_ok (valid := valid) rx T) as (rx' & E' & T' & Hctx & Hk). rewrite E in E'. injection E' as <-.
  eexists _, (if 0 <? total then vq_shared total vq else vq). split; [exact E|]. split; [done|].
  assert (Hlook : vqs !! p = Some (if 0 <? total then vq_shared total vq else vq)) by (by rewrite Hvqs, decide_True, Hvq).
  split; [done|]. split; [|unfold vq_shared; destruct (0 <? total); [by destruct (negb _)|done]].
  apply (table_find_unique vq_klass ISO_MAX_VQ_BUCKETS (valid := valid) _ _ _ (vq_klass vq) p
    (if 0 <? total then vq_shared total vq else vq) T'); [|done|exact Hlook|].
  - exact (tok_valid _ _ _ _ _ T p vq Hp Hvq).
  - pose proof (Hk p) as Hkp. cbn [rx_vqs] in Hkp. rewrite Hlook, Hvq in Hkp. by injection Hkp.
Qed.

Lemma zero_weight_host R h k v :
  ctl_ok (valid := valid) R h -> cfg_vqs (view h) !! op_parse k = Some v -> vc_cap v = None ->
  exists h' pv vq, set_vq_weight k 0 h = Ok (0, h') /\
    iso_vq_find (op_parse k) (h_rx h') = Ok (Some pv) /\ rx_vqs (h_rx h') !! pv = Some vq /\
    forall e cpu skb, op_rx_classify skb = op_parse k -> rxe_vq_lock e = true ->
      u64 ISO_VQ_UPDATE_INTERVAL_US < u64 (ktime_us_delta (rxe_now e 2%nat) (vq_last_update_time vq)) ->
      u64 ISO_VQ_UPDATE_INTERVAL_US <= u64 (ktime_us_delta (rxe_now e 3%nat) (vq_last_update_time vq)) ->
      iso_rx e cpu skb h' = Oops DivideError.
Proof.
  intros Hctl Hv Hcap. pose proof Hctl as [Hpre _]. pose proof (hok_rx R h (co_host R h Hpre)) as [T Hvok Hs Hr]. unfold set_vq_weight.
  match goal with |- context [on_vq ?n ?b ?h0] =>
    destruct (on_vq_spec R h0 n b Hpre) as [(pv & vq & -> & Hin & Hvq & Hk & Hview)|[_ Hno]] end; [|congruence].
  cbn [Z.ltb Z.compare orb]. rewrite (u64_small 0) by lia.
  rewrite Hview in Hv. injection Hv as <-. unfold vclass_of in Hcap. cbn [vc_cap] in Hcap.
  destruct (Z.eqb_spec (vq_is_static vq) 0) as [Hst|]; [|discriminate].
  destruct (calculate_entry (set_vq pv {| vq with vq_weight := 0 |} (h_rx h)) pv {| vq with vq_weight := 0 |})
    as (rx' & vq' & E & Hctx & Hpv & Hf & Hw' & Hs' & Hp').
  { unfold vqt_ok in *. cbn [set_vq rx_vqs rx_ctx]. apply (table_same_keys _ _ _ _ (rx_vqs (h_rx h))); [exact T|]. intros q.
    destruct (decide (pv = q)) as [<-|]; [by rewrite lookup_insert_eq, Hvq|by rewrite lookup_insert_ne]. }
  { exact Hin. } { apply lookup_insert_eq. }
  rewrite E. cbn [mbind outcome_bind]. eexists _, pv, vq'. split; [reflexivity|]. cbn [set_rx h_rx]. rewrite <-Hk.
  split; [exact Hf|]. split; [exact Hpv|]. intros e cpu skb Hskb Hlock Hd1 Hd2.
  apply (rx_enqueue_fault _ e cpu skb _ pv vq'); cbn [set_rx h_rx]; rewrite ?Hctx; [exact Hs|exact Hr|by rewrite Hskb|done|].
  intros rcp. rewrite Hlock. apply enqueue_zero_weight; [done|by rewrite Hs'| |done|done].
  rewrite Hp'. cbn [vq_percpu_stats]. by destruct (Hvok pv vq Hvq).
Qed.

Lemma no_stats_host R h k e :
  ctl_ok (valid := valid) R h -> cfg_vqs (view h) !! op_parse k = None -> is_Some (va_kmalloc e) -> va_percpu e = None ->
  exists h', create_vq e k h = Ok (0, h') /\
    forall e' cpu skb, op_rx_classify skb = op_parse k -> iso_rx e' cpu skb h' = Oops BadPointer.
Proof.
  intros Hctl Hnone [mem Hmem] Hpc. pose proof Hctl as [Hpre _]. pose proof (hok_rx R h (co_host R h Hpre)) as [T _ Hs Hr].
  unfold create_vq, iso_vq_install, iso_vq_find.
  destruct (find_view vq_klass ISO_MAX_VQ_BUCKETS vclass_of _ _ _ (op_parse k) T (parse_valid k)) as (r & -> & Hfound).
  destruct r as [pv|]; [destruct Hfound as (_ & vq & _ & _ & Hview); cbn [cfg_vqs view] in Hnone; unfold vq_list in Hnone; congruence|].
  cbn [mbind outcome_bind]. unfold iso_vq_alloc. rewrite Hmem, Hpc. cbn [iso_vq_init].
  match goal with |- context [<[?p0 := ?v0]> (rx_vqs (h_rx h))] => set (p := p0); set (vq := v0) end.
  assert (Hp : rx_vqs (h_rx h) !! p = None) by (apply not_elem_of_dom, is_fresh).
  destruct (add_vq_view R h p vq Hctl Hp (parse_valid k) Hnone) as (T' & _ & _).
  change {| rx_ctx := _; rx_vqs := <[p := vq]> _ |} with (with_vq p vq (h_rx h)).
  destruct (calculate_entry (with_vq p vq (h_rx h)) p vq T') as (rx' & vq' & E & Hctx & Hpv & Hf & _ & _ & Hp').
  { apply elem_of_app. right. by apply list_elem_of_singleton. } { apply lookup_insert_eq. }
  rewrite E. cbn [mbind outcome_bind mret outcome_ret]. eexists. split; [reflexivity|]. intros e' cpu skb Hskb.
  apply (rx_enqueue_fault _ e' cpu skb _ p vq'); cbn [set_rx h_rx]; rewrite ?Hctx; [exact Hs|exact Hr|by rewrite Hskb|done|].
  intros rcp. unfold iso_vq_enqueue, vq_stats_update. rewrite Hp'. reflexivity.
Qed.

(** C18: The line that sets the weight of a dynamic virtual queue to 0 is accepted with result
    0, and then the received packet of its class that drains the queue (the lock is free and the
    interval is over) divides by zero; the line that creates a virtual queue whose per-CPU
    statistics could not be allocated is accepted with result 0, and then every received packet
    of its class dereferences NULL. *)
Theorem unsound_vq_stops_kernel (R : Z) (junk : cstring * cstring) (name k : cstring) (s : sys) (i : nat)
    (dev : net_device) (h : host) :
  sys_locked s = false -> iso_search_netdev name (sys_devs s) = Some i -> sys_devs s !! i = Some dev ->
  iso_enabled dev <> 0 -> dev_host dev = Ok h -> ctl_ok (valid := valid) R h ->
  let after h' := {| sys_devs := <[i := set_dev_host h' dev]> (sys_devs s); sys_locked := false; sys_signal := sys_signal s |} in
  (forall v, line_ok name (CVqWeight k 0) -> cfg_vqs (view h) !! op_parse k = Some v -> vc_cap v = None ->
    exists h' pv vq, run (line junk name (CVqWeight k 0)) s = Ok (0, after h') /\
      iso_vq_find (op_parse k) (h_rx h') = Ok (Some pv) /\ rx_vqs (h_rx h') !! pv = Some vq /\
      forall e cpu skb, op_rx_classify skb = op_parse k -> rxe_vq_lock e = true ->
        u64 ISO_VQ_UPDATE_INTERVAL_US < u64 (ktime_us_delta (rxe_now e 2%nat) (vq_last_update_time vq)) ->
        u64 ISO_VQ_UPDATE_INTERVAL_US <= u64 (ktime_us_delta (rxe_now e 3%nat) (vq_last_update_time vq)) ->
        iso_rx e cpu skb h' = Oops DivideError) /\
  (forall e, line_ok name (CCreateVq e k) -> cfg_vqs (view h) !! op_parse k = None ->
    is_Some (va_kmalloc e) -> va_percpu e = None ->
    exists h', run (line junk name (CCreateVq e k)) s = Ok (0, after h') /\
      forall e' cpu skb, op_rx_classify skb = op_parse k -> iso_rx e' cpu skb h' = Oops BadPointer).
Proof.
  intros Hl Hs Hi He Hh Hctl after. split.
  - intros v Hline Hv Hcap. destruct (zero_weight_host R h k v Hctl Hv Hcap) as (h' & pv & vq & E & H).
    exists h', pv, vq. split; [|exact H]. rewrite line_on_dev by done.
    by rewrite (on_dev_found _ _ (exec (CVqWeight k 0)) {| s with sys_locked := true |} i dev h 0 h' Hs Hi He Hh E).
  - intros e Hline Hnone Hmem Hpc. destruct (no_stats_host R h k e Hctl Hnone Hmem Hpc) as (h' & E & H).
    exists h'. split; [|exact H]. rewrite line_on_dev by done.
    by rewrite (on_dev_found _ _ (exec (CCreateVq e k)) {| s with sys_locked := true |} i dev h 0 h' Hs Hi He Hh E).
Qed.
End Delete.

(** ** Witnesses *)

(** Class 7 is deleted; the next tick that is due reads it. *)
Lemma delete_txc_leaves_class_on_list_witness :
  exists h', delete_txc (P := default_params) (C := Mark.ops) (sprintf_d 7) ex_host = Ok (0, h') /\
    iso_txc_tick (K := ref_kernel) (P := default_params) (Env := ex_env) true (h_tx h') = Oops BadPointer.
Proof.
  destruct (delete_txc (P := default_params) (C := Mark.ops) (sprintf_d 7) ex_host) as [[r h']|f] eqn:E;
    [|exfalso; revert E; vm_compute; discriminate].
  assert (E2 : match delete_txc (P := default_params) (C := Mark.ops) (sprintf_d 7) ex_host with
    | Ok (r, h) => (r =? 0) && (u64 200 <=? u64 (ktime_us_delta (Kernel := ref_kernel)
        (clock (Oracle := ex_env) (w_reads (tx_w (h_tx h)))) (txx_last_update_time (tx_ctx (h_tx h)))))
    | Oops _ => false end = true) by (vm_compute; reflexivity).
  rewrite E in E2. apply andb_prop in E2 as [->%Z.eqb_eq Hdue%Z.leb_le].
  exists h'. split; [reflexivity|].
  destruct (delete_txc_leaves_class_on_list (K := ref_kernel) (P := default_params) (C := Mark.ops) (valid := is_u32)
    (Env := ex_env) 10000 (sprintf_d 7) ex_host h' ex_ctl_ok E) as (pc & _ & _ & _ & H).
  apply H. exact Hdue.
Defined.

Lemma delete_vq_poisons_class_witness :
  exists h', delete_vq (C := Mark.ops) (sprintf_d 7) ex_host = Ok (0, h') /\
    iso_rx (K := ref_kernel) (P := default_params) (C := Mark.ops) ex_rx_env 1 ex_fb h' = Oops BadPointer.
Proof.
  destruct (delete_vq (C := Mark.ops) (sprintf_d 7) ex_host) as [[r h']|f] eqn:E;
    [|exfalso; revert E; vm_compute; discriminate].
  assert (E2 : match delete_vq (C := Mark.ops) (sprintf_d 7) ex_host with Ok (r, _) => r | Oops _ => 1 end = 0)
    by (vm_compute; reflexivity).
  rewrite E in E2. subst r.
  exists h'. split; [reflexivity|].
  destruct (delete_vq_poisons_class (K := ref_kernel) (P := default_params) (C := Mark.ops) (valid := is_u32)
    (Env := ex_env) 10000 (sprintf_d 7) ex_host h' ex_ctl_ok E) as [H _].
  apply H. vm_compute. reflexivity.
Defined.

(** Weight 0 for the virtual queue 7 of eth0, and a virtual queue 8 without statistics. *)
Lemma unsound_vq_stops_kernel_witness :
  (exists s', run (K := ref_kernel) (P := default_params) (C := Mark.ops) (SetVqWeight (text "dev eth0 7 weight 0")) ex_sys = Ok (0, s')) /\
  exists h' s', run (K := ref_kernel) (P := default_params) (C := Mark.ops)
      (CreateVq {| va_now := 0; va_kmalloc := Some ex_vq; va_percpu := None |} ([], []) (text "dev eth0 8")) ex_sys = Ok (0, s') /\
    (forall e' cpu skb, op_rx_classify (IsoClass := Mark.ops) skb = op_parse (IsoClass := Mark.ops) (text "8") ->
      iso_rx (K := ref_kernel) (P := default_params) (C := Mark.ops) e' cpu skb h' = Oops BadPointer).
Proof.
  pose proof (fun k => unsound_vq_stops_kernel (K := ref_kernel) (P := default_params) (C := Mark.ops) (valid := is_u32) (Env := ex_env)
    10000 ([], []) (text "eth0") k ex_sys 1 ex_dev ex_host eq_refl ltac:(vm_compute; reflexivity) eq_refl
    ltac:(vm_compute; discriminate) eq_refl ex_ctl_ok) as H.
  assert (Hname : word (text "eth0") /\ (length (text "eth0") < 128)%nat) by (split; [split; [discriminate|reflexivity]|cbn; lia]).
  split.
  - destruct (proj1 (H (text "7")) {| vc_weight := 1; vc_cap := None |}) as (h' & pv & vq & E & _).
    + split; [apply Hname|]. split; [cbn; lia|]. split; [|lia]. split; [split; [discriminate|reflexivity]|cbn; lia].
    + vm_compute. reflexivity.
    + reflexivity.
    + eexists. exact E.
  - destruct (proj2 (H (text "8")) {| va_now := 0; va_kmalloc := Some ex_vq; va_percpu := None |}) as (h' & E & Hrx).
    + split; [apply Hname|]. split; [cbn; lia|]. split; [split; [discriminate|reflexivity]|cbn; lia].
    + vm_compute. reflexivity.
    + eexists. reflexivity.
    + reflexivity.
    + eexists h', _. split; [exact E|]. exact Hrx.
Defined.
