(* ===== verification/Ownership.v ===== *)
(** * Who owns the memory of a device

    Every destination state and every rate limiter of a destination is held by
    one class, once: in a bucket or in the stock.  The operations move and add
    entries but never share or lose one, so that leaving the contexts frees
    every object of the device exactly once. *)

From Stdlib Require Import Ascii String.
From S2P Require Import Prelude Params Kernel Packet Scan Class RateControl HashTable VirtualQueue.
From S2P Require Import VqTable RateLimiter Dequeue Device Tx TxPath Rx Host System Netdev Control.
From S2P Require Import Config CommandLine Module.

Open Scope Z_scope.

(** Take apart [E : c1 ≫= ... = Ok _] for a chain of calls. *)
Ltac bind_inv E x Ex := let E' := fresh in apply bind_ok in E as (x & Ex & E'); rename E' into E.

(** ** The rate limiters of a device stay where they are *)

Section SameRls.
Context {K : Kernel} {P : params} {Env : Oracle}.

Definition same_rls (w w' : rl_world) : Prop := dom (w_rls w') = dom (w_rls w).

#[global] Instance same_rls_preorder : PreOrder same_rls.
Proof. split; [done|]. unfold same_rls. intros ???. congruence. Qed.

Lemma deref_some `{Countable L} {A} (h : gmap L A) p v : deref h p = Ok v -> is_Some (h !! p).
Proof. unfold deref. destruct (h !! p); [eauto|discriminate]. Qed.

Lemma same_insert p rl w w' : w_rls w' = <[p := rl]> (w_rls w) -> is_Some (w_rls w !! p) -> same_rls w w'.
Proof. unfold same_rls. intros ->. by apply dom_insert_lookup_L. Qed.

Lemma same_set_rl p rl w : is_Some (w_rls w !! p) -> same_rls w (set_rl p rl w).
Proof. by apply (same_insert p rl). Qed.

Lemma same_live w w' p : same_rls w w' -> is_Some (w_rls w !! p) -> is_Some (w_rls w' !! p).
Proof. unfold same_rls. rewrite <- !elem_of_dom. by intros ->. Qed.

Lemma enqueue_same p pkt cpu w v w' : w_enqueue p pkt cpu w = Ok (v, w') -> same_rls w w'.
Proof.
  unfold w_enqueue. intros E. bind_inv E rl Hrl. bind_inv E r Er. destruct r as [v1 rl1]. injection E as _ <-.
  apply deref_some in Hrl. by apply (same_insert p rl1).
Qed.

Lemma borrow_same p cpu w t w' : w_borrow p cpu w = Ok (t, w') -> same_rls w w'.
Proof.
  unfold w_borrow. intros E. bind_inv E rl Hrl. bind_inv E r Er. destruct r as [v1 rl1]. injection E as _ <-.
  apply deref_some in Hrl. by apply (same_insert p rl1).
Qed.

Lemma clock_same p w w' : w_clock p w = Ok w' -> same_rls w w'.
Proof.
  unfold w_clock. intros E. bind_inv E rl Hrl. injection E as <-. apply deref_some in Hrl.
  by eapply same_insert.
Qed.

Lemma dequeue_one_same p cpu pkt size w w' : dequeue_one p cpu pkt size w = Ok (Some w') -> same_rls w w'.
Proof.
  unfold dequeue_one. intros E. bind_inv E rl Hrl. apply deref_some in Hrl. destruct (rl_txc rl) as [t|].
  - bind_inv E g Hg. destruct (iso_rl_has_space_for g pkt cpu); [|discriminate]. bind_inv E r Er. destruct r as [v w1].
    bind_inv E rl1 Hrl1. injection E as <-. apply deref_some in Hrl1. apply enqueue_same in Er.
    transitivity (set_rl p (rl_pop cpu rl) w); [by apply same_set_rl|]. etransitivity; [exact Er|]. by apply same_set_rl.
  - bind_inv E rl1 Hrl1. injection E as <-. apply deref_some in Hrl1.
    transitivity (set_rl p (rl_pop cpu rl) w); [by apply same_set_rl|].
    by apply (same_set_rl p _ (w_skb_xmit p pkt (set_rl p (rl_pop cpu rl) w))).
Qed.

Lemma dequeue_loop_same fuel : forall p cpu pkt size sum w t sm w',
  dequeue_loop fuel p cpu pkt size sum w = Ok (t, sm, w') -> same_rls w w'.
Proof.
  induction fuel as [|fuel IH]; intros p cpu pkt size sum w t sm w' E; [discriminate|]. cbn [dequeue_loop] in E.
  bind_inv E rl Hrl. destruct (_ && _); [|by injection E as _ _ <-]. bind_inv E sent Es.
  destruct sent as [w1|]; [|by injection E as _ _ <-]. apply dequeue_one_same in Es. transitivity w1; [done|].
  bind_inv E rl1 Hrl1. apply deref_some in Hrl1. destruct (rlq_list (rl_queue rl1 cpu)); [by injection E as _ _ <-|].
  apply IH in E. etransitivity; [|exact E]. by apply same_set_rl.
Qed.

Lemma dequeue_same depth : forall p cpu w n w', iso_rl_dequeue depth p cpu w = Ok (n, w') -> same_rls w w'.
Proof.
  assert (Harm : forall t p cpu w, same_rls w (dequeue_arm t p cpu w)) by (intros; unfold dequeue_arm; by destruct (_ && _)).
  induction depth as [|depth IH]; intros p cpu w n w' E; [discriminate|]. cbn [iso_rl_dequeue] in E.
  bind_inv E rl Hrl. bind_inv E b Eb. destruct b as [t w1].
  assert (same_rls w w1) by (destruct (_ <? _); [by eapply borrow_same|by injection Eb as _ <-]).
  destruct (negb _); [injection E as _ <-; by transitivity w1|]. bind_inv E b2 Eb2. destruct b2 as [[t2 sum] w2].
  assert (same_rls w1 w2).
  { unfold dequeue_burst in Eb2. bind_inv Eb2 rl2 Hrl2. apply deref_some in Hrl2.
    destruct (rlq_list (rl_queue rl2 cpu)); [by injection Eb2 as _ _ <-|]. apply dequeue_loop_same in Eb2.
    etransitivity; [|exact Eb2]. by apply same_set_rl. }
  bind_inv E rl3 Hrl3. bind_inv E w3 E3. injection E as _ <-. transitivity w1; [done|]. transitivity w2; [done|].
  transitivity w3; [|apply Harm]. destruct (rl_txc rl3); [|by injection E3 as <-]. bind_inv E3 r Er. destruct r.
  injection E3 as <-. by eapply IH.
Qed.

Lemma submit_same p pkt cpu w v w' : tx_submit p pkt cpu w = Ok (v, w') -> same_rls w w'.
Proof.
  unfold tx_submit. intros E. bind_inv E r Er. destruct r as [v1 w1]. bind_inv E r2 Er2. destruct r2. injection E as _ <-.
  transitivity w1; [by eapply enqueue_same|by eapply dequeue_same].
Qed.

Lemma xmit_loop_same fuel : forall cpu first pos count sent w w',
  xmit_loop fuel cpu first pos count sent w = Ok w' -> same_rls w w'.
Proof.
  induction fuel as [|fuel IH]; intros cpu first [q|] count sent w w' E; cbn [xmit_loop] in E;
    try discriminate; try by injection E as <-.
  destruct (_ || _); [by injection E as <-|]. bind_inv E w1 E1. bind_inv E r Er. destruct r as [n w2].
  apply clock_same in E1. apply dequeue_same in Er. apply IH in E. by transitivity w1; [exact E1|]; transitivity w2.
Qed.

Lemma tasklet_same cpu w w' : iso_rl_xmit_tasklet cpu w = Ok w' -> same_rls w w'.
Proof.
  unfold iso_rl_xmit_tasklet. destruct (w_exiting _); [by intros [= <-]|]. intros E. bind_inv E w1 E1.
  apply xmit_loop_same in E1. etransitivity; [exact E1|]. by destruct (_ && _); injection E as <-.
Qed.
End SameRls.

(** ** What a class holds *)

Definition class_rls (txc : iso_tx_class) : list loc := all_chains 256 (txc_rl_bucket txc) ++ txc_prealloc_rl_list txc.
Definition class_states (txc : iso_tx_class) : list loc := all_chains 256 (txc_state_bucket txc) ++ txc_prealloc_state_list txc.

(** What the classes [l] hold. *)
Definition held (f : iso_tx_class -> list loc) (l : list loc) (txcs : gmap loc iso_tx_class) : list loc :=
  flat_map (fun p => match txcs !! p with Some txc => f txc | None => [] end) l.

(** The classes [l] are the classes of the transmit side, and every object of the heaps is held once. *)
Record holds (l : list loc) (s : tx_state) : Prop := {
  ho_nodup : NoDup l;
  ho_class p : p ∈ l <-> is_Some (tx_txcs s !! p);
  ho_root p : p ∈ l <-> is_Some (w_rls (tx_w s) !! inr p);
  ho_rls : NoDup (held class_rls l (tx_txcs s));
  ho_rl p : p ∈ held class_rls l (tx_txcs s) <-> is_Some (w_rls (tx_w s) !! inl p);
  ho_states : NoDup (held class_states l (tx_txcs s));
  ho_state p : p ∈ held class_states l (tx_txcs s) <-> is_Some (tx_states s !! p)
}.

(** A device: the classes are those on the list, each is on its hash chain once, and the virtual queues
    are those on the list. *)
Record owned (h : host) : Prop := {
  ow_tx : holds (tx_list h) (h_tx h);
  ow_chains b : NoDup (txx_bucket (tx_ctx (h_tx h)) b);
  ow_vqs p : is_Some (rx_vqs (h_rx h) !! p) -> p ∈ vq_list h
}.

Lemma all_chains_add n b p bk : 0 <= b < Z.of_nat n -> all_chains n (hlist_add_head b p bk) ≡ₚ p :: all_chains n bk.
Proof.
  intros Hb. unfold all_chains. assert (Hz : exists i, (i < n)%nat /\ Z.of_nat i = b) by (exists (Z.to_nat b); lia).
  destruct Hz as (i & Hi & <-). assert (Hnd : NoDup (seq 0 n)) by apply NoDup_seq.
  assert (Hin : i ∈ seq 0 n) by (apply elem_of_seq; lia). clear Hi Hb. induction (seq 0 n) as [|j l IH]; [by apply not_elem_of_nil in Hin|].
  apply NoDup_cons in Hnd as [Hj Hnd]. cbn [flat_map]. unfold hlist_add_head at 1. destruct (Z.eqb_spec (Z.of_nat j) (Z.of_nat i)) as [E|E].
  - assert (j = i) as -> by lia. cbn [app]. f_equiv. f_equiv. clear -Hj. induction l as [|k l IH]; [done|].
    cbn [flat_map]. apply not_elem_of_cons in Hj as [Hk Hj]. rewrite IH by done. unfold hlist_add_head.
    destruct (Z.eqb_spec (Z.of_nat k) (Z.of_nat i)); [lia|done].
  - rewrite IH; [|done|]; [|by apply elem_of_cons in Hin as [->|?]]. by rewrite Permutation_middle.
Qed.

(** ** What moves entries without sharing or losing one *)

Definition same_class (a b : option iso_tx_class) : Prop :=
  match a, b with
  | Some t, Some t' => class_rls t' ≡ₚ class_rls t /\ class_states t' ≡ₚ class_states t
  | None, None => True
  | _, _ => False
  end.

Record moves (s s' : tx_state) : Prop := {
  mv_list : txx_txc_list (tx_ctx s') = txx_txc_list (tx_ctx s);
  mv_bucket : txx_bucket (tx_ctx s') = txx_bucket (tx_ctx s);
  mv_rls : same_rls (tx_w s) (tx_w s');
  mv_states : dom (tx_states s') = dom (tx_states s);
  mv_class p : same_class (tx_txcs s !! p) (tx_txcs s' !! p)
}.

Lemma same_class_refl a : same_class a a.
Proof. by destruct a. Qed.

#[export] Instance moves_preorder : PreOrder moves.
Proof.
  split; [intros s; split; try done; intros; apply same_class_refl|].
  intros s1 s2 s3 [A1 A2 A3 A4 A5] [B1 B2 B3 B4 B5]. split; [congruence|congruence|by transitivity (tx_w s2)|congruence|].
  intros p. specialize (A5 p). specialize (B5 p). destruct (tx_txcs s1 !! p), (tx_txcs s2 !! p), (tx_txcs s3 !! p); try done.
  destruct A5, B5. split; by etransitivity.
Qed.

Lemma held_same f l txcs txcs' :
  (forall p, match txcs !! p, txcs' !! p with Some t, Some t' => f t' ≡ₚ f t | None, None => True | _, _ => False end) ->
  held f l txcs' ≡ₚ held f l txcs.
Proof.
  intros H. induction l as [|p l IH]; [done|]. cbn [held flat_map]. apply Permutation_app; [|exact IH]. specialize (H p).
  destruct (txcs !! p), (txcs' !! p); done.
Qed.

Lemma dom_some `{Countable L} {A} (m m' : gmap L A) p : dom m' = dom m -> is_Some (m' !! p) <-> is_Some (m !! p).
Proof. rewrite <- !elem_of_dom. by intros ->. Qed.

Lemma moves_holds l s s' : moves s s' -> holds l s -> holds l s'.
Proof.
  intros [_ _ Hr Hs Hc] [H1 H2 H3 H4 H5 H6 H7].
  assert (held class_rls l (tx_txcs s') ≡ₚ held class_rls l (tx_txcs s)) as E1.
  { apply held_same. intros p. specialize (Hc p). unfold same_class in Hc.
    destruct (tx_txcs s !! p), (tx_txcs s' !! p); tauto. }
  assert (held class_states l (tx_txcs s') ≡ₚ held class_states l (tx_txcs s)) as E2.
  { apply held_same. intros p. specialize (Hc p). unfold same_class in Hc.
    destruct (tx_txcs s !! p), (tx_txcs s' !! p); tauto. }
  split; [done| | |by rewrite E1| |by rewrite E2|].
  - intros p. rewrite H2. specialize (Hc p). unfold same_class in Hc. destruct (tx_txcs s !! p), (tx_txcs s' !! p); try done; split; eauto.
  - intros p. rewrite H3. symmetry. by apply dom_some.
  - intros p. rewrite E1, H5. symmetry. by apply dom_some.
  - intros p. rewrite E2, H7. symmetry. by apply dom_some.
Qed.

Section Moves.
Context {K : Kernel} {P : params} {C : IsoClass} {Env : Oracle}.

Lemma moves_w w s : same_rls (tx_w s) w -> moves s (set_w w s).
Proof. intros H. split; try done. intros p. apply same_class_refl. Qed.

Lemma moves_ctx ctx s :
  txx_txc_list ctx = txx_txc_list (tx_ctx s) -> txx_bucket ctx = txx_bucket (tx_ctx s) -> moves s {| s with tx_ctx := ctx |}.
Proof. intros H1 H2. split; try done. intros p. apply same_class_refl. Qed.

Lemma moves_state p st s : is_Some (tx_states s !! p) -> moves s {| s with tx_states := <[p := st]> (tx_states s) |}.
Proof. intros H. split; try done; [by apply dom_insert_lookup_L|]. intros q. apply same_class_refl. Qed.

Lemma moves_txc p txc txc' s :
  deref (tx_txcs s) p = Ok txc -> class_rls txc' ≡ₚ class_rls txc -> class_states txc' ≡ₚ class_states txc ->
  moves s (set_txc p txc' s).
Proof.
  intros Hp%deref_inv Hr Hs. split; try done. intros q. cbn [set_txc tx_txcs].
  destruct (decide (p = q)) as [<-|]; [rewrite lookup_insert_eq, Hp; done|rewrite lookup_insert_ne by done; apply same_class_refl].
Qed.

Lemma foldM_moves {A} (f : tx_state -> A -> outcome tx_state) l :
  (forall s a s', f s a = Ok s' -> moves s s') -> forall s s', foldM f l s = Ok s' -> moves s s'.
Proof.
  intros Hf. induction l as [|a l IH]; intros s s' E; [by injection E as <-|]. cbn [foldM] in E.
  bind_inv E s1 E1. etransitivity; eauto.
Qed.

Lemma recompute_moves s s' : iso_txc_recompute_rates s = Ok s' -> moves s s'.
Proof.
  unfold iso_txc_recompute_rates. destruct (_ =? _); [by intros [= <-]|]. apply foldM_moves.
  intros s1 p s2 E. unfold txc_recompute in E. bind_inv E txc Htxc. bind_inv E rl Hrl. injection E as <-.
  apply deref_some in Hrl. etransitivity; [|apply moves_w; by apply same_set_rl]. by apply (moves_txc p txc).
Qed.

Lemma tick_moves trylock s s' : iso_txc_tick trylock s = Ok s' -> moves s s'.
Proof.
  unfold iso_txc_tick. destruct (_ <? _); [intros [= <-]; by apply moves_w|].
  destruct (negb trylock); [intros [= <-]; by apply moves_w|]. intros E. bind_inv E tx_rate E1. bind_inv E rate E2.
  match type of E with foldM _ _ ?s1 = _ => transitivity s1; [split; try done; intros p; apply same_class_refl|] end.
  eapply foldM_moves; [|exact E]. intros s1 p s2 E3. unfold txc_tick in E3. bind_inv E3 txc Htxc. bind_inv E3 rl Hrl. bind_inv E3 r Hr.
  injection E3 as <-. apply deref_some in Hrl. etransitivity; [|apply moves_w; by apply same_set_rl]. by apply (moves_txc p txc).
Qed.

Lemma land_255_range x : 0 <= Z.land x 255 < 256.
Proof. rewrite land_255. apply Z.mod_pos_bound. lia. Qed.

Lemma pick_rl_moves pc ip s r s' : iso_pick_rl pc ip s = Ok (r, s') ->
  moves s s' /\ tx_states s' = tx_states s /\
  forall txc', tx_txcs s' !! pc = Some txc' -> exists txc, tx_txcs s !! pc = Some txc /\
    txc_prealloc_state_list txc' = txc_prealloc_state_list txc /\ txc_state_bucket txc' = txc_state_bucket txc.
Proof.
  unfold iso_pick_rl. intros E. bind_inv E txc Htxc. bind_inv E found Ef.
  destruct found; [injection E as _ <-; by split_and!; eauto|]. destruct (txc_prealloc_rl_list txc) as [|p rest] eqn:Ep;
    [injection E as _ <-; by split_and!; eauto|]. bind_inv E rl Hrl. injection E as _ <-. apply deref_some in Hrl.
  split; [|split; [done|]].
  - etransitivity; [|apply moves_w; by apply same_set_rl]. apply (moves_txc pc txc); [done| |done].
    unfold class_rls. cbn [txc_rl_bucket txc_prealloc_rl_list]. rewrite all_chains_add by (apply (land_255_range (jhash_1word ip 4207868622))).
    rewrite Ep. by rewrite <- Permutation_middle.
  - intros txc'. cbn [set_w set_txc tx_txcs]. rewrite lookup_insert_eq. intros [= <-]. exists txc. by apply deref_inv in Htxc.
Qed.

Lemma state_create_moves t pc ip s r s' : state_create t pc ip s = Ok (r, s') -> moves s s'.
Proof.
  unfold state_create. intros E. bind_inv E txc Htxc. destruct (txc_prealloc_state_list txc) as [|p rest] eqn:Ep; [by injection E as _ <-|].
  bind_inv E state Hst. apply deref_some in Hst. bind_inv E r1 E1. destruct r1 as [rl s1]. apply pick_rl_moves in E1 as (Hm & Hs & Htx).
  transitivity s1; [exact Hm|]. rewrite <- Hs in Hst.
  destruct rl; [injection E as _ <-; by apply moves_state| |];
    (bind_inv E txc1 Htxc1; injection E as _ <-; etransitivity; [by apply moves_state|]; apply (moves_txc pc txc1); [done|done|];
     apply deref_inv in Htxc1, Htxc; destruct (Htx txc1 Htxc1) as (txc2 & Htxc2 & E1 & E2); rewrite Htxc in Htxc2; injection Htxc2 as <-;
     unfold class_states; cbn [txc_state_bucket txc_prealloc_state_list]; rewrite E1, Ep;
     rewrite all_chains_add by (apply (land_255_range (jhash_1word ip 4207861421))); by rewrite <- Permutation_middle).
Qed.

Lemma state_get_moves trylock t pc skb rx create s r s' :
  iso_state_get trylock t pc skb rx create s = Ok (r, s') -> moves s s'.
Proof.
  unfold iso_state_get. destruct (negb (is_ip skb)); [by intros [= _ <-]|]. intros E.
  bind_inv E txc Htxc. bind_inv E st Est. destruct st; [|by injection E as _ <-|by injection E as _ <-].
  destruct (_ || _); [by injection E as _ <-|]. bind_inv E st2 Est2.
  destruct st2; [|by injection E as _ <-|by injection E as _ <-]. bind_inv E r1 E1. destruct r1 as [st3 s1]. bind_inv E s2 E2. injection E as _ <-.
  transitivity s1; [by eapply state_create_moves|]. unfold maybe_schedule in E2. bind_inv E2 txc1 Htxc1.
  destruct (_ <=? _); injection E2 as <-; [by apply (moves_txc pc txc1)|done].
Qed.

Lemma iso_tx_moves ticklock cpu skb s v s' : iso_tx ticklock cpu skb s = Ok (v, s') -> moves s s'.
Proof.
  unfold iso_tx. intros E. bind_inv E s1 E1. apply tick_moves in E1. transitivity s1; [done|].
  bind_inv E found Ef. destruct found as [pc|]; [|by injection E as _ <-].
  bind_inv E r2 E2. destruct r2 as [st s2]. apply state_get_moves in E2. transitivity s2; [done|].
  destruct st; [by injection E as _ <-| |]; (bind_inv E ps Eps; destruct (ps_rl ps); [discriminate| |discriminate];
    bind_inv E r3 E3; destruct r3; injection E as _ <-; apply moves_w; by eapply submit_same).
Qed.

Lemma rx_feedback_moves e pc skb s v skb' s' : rx_feedback e pc skb s = Ok (v, skb', s') -> moves s s'.
Proof.
  unfold rx_feedback. intros E. bind_inv E r1 E1. destruct r1 as [st s1]. apply state_get_moves in E1. transitivity s1; [done|].
  assert (Hfb : forall s2, apply_feedback (rxe_rc_lock e) (rxe_now e 4%nat) (skb_has_feedback skb) st s1 = Ok s2 -> moves s1 s2).
  { unfold apply_feedback. intros s2 E2. destruct (_ && _); [|by injection E2 as <-]. bind_inv E2 ps Hps.
    destruct (_ && _); [|by injection E2 as <-]. destruct (negb _); [by injection E2 as <-|]. destruct (ps_rl ps) as [|r|]; [discriminate| |discriminate].
    destruct st as [|p|]; [discriminate| |discriminate]. bind_inv E2 rl Hrl. injection E2 as <-. apply deref_some in Hrl, Hps.
    match goal with |- moves s1 {| tx_ctx := _; tx_txcs := _; tx_states := _; tx_w := ?w |} => transitivity (set_w w s1) end;
      [apply moves_w; by apply (same_set_rl (inl r))|]. by apply (moves_state p _ (set_w _ s1)). }
  destruct st; [by injection E as _ _ <-| |]; (bind_inv E s2 E2; injection E as _ _ <-; by apply Hfb).
Qed.
End Moves.

(** ** What adds entries *)

Lemma held_insert_ne f l txcs p txc : p ∉ l -> held f l (<[p := txc]> txcs) = held f l txcs.
Proof.
  induction l as [|q l IH]; [done|]. intros [Hq Hl]%not_elem_of_cons. cbn [held flat_map]. unfold held in IH.
  rewrite lookup_insert_ne by done. by rewrite IH.
Qed.

Lemma held_add f l txcs pc txc txc' x :
  NoDup l -> pc ∈ l -> txcs !! pc = Some txc -> f txc' ≡ₚ x :: f txc ->
  held f l (<[pc := txc']> txcs) ≡ₚ x :: held f l txcs.
Proof.
  intros Hnd Hin Hpc Hf. induction l as [|q l IH]; [by apply not_elem_of_nil in Hin|].
  apply NoDup_cons in Hnd as [Hq Hnd]. destruct (decide (pc = q)) as [<-|Hne]; cbn [held flat_map].
  - rewrite lookup_insert_eq, Hpc. fold (held f l (<[pc := txc']> txcs)). rewrite held_insert_ne by done. by rewrite Hf.
  - rewrite lookup_insert_ne by done. fold (held f l (<[pc := txc']> txcs)). rewrite IH; [|done|by apply elem_of_cons in Hin as [?|?]].
    by rewrite Permutation_middle.
Qed.

Lemma insert_some `{Countable L} {A} (m : gmap L A) p q v : is_Some (<[p := v]> m !! q) <-> q = p \/ is_Some (m !! q).
Proof. rewrite lookup_insert_is_Some'. naive_solver. Qed.

Section Adds.
Context {K : Kernel} {P : params} {C : IsoClass} {Env : Oracle}.

Lemma prealloc_one_holds l pc e s more s' :
  holds l s -> pc ∈ l -> alloc_ok s e -> prealloc_one pc e s = Ok (more, s') -> holds l s' /\ tx_ctx s' = tx_ctx s.
Proof.
  intros H Hin He E. unfold prealloc_one in E. destruct (pa_state e) as [[ps st]|] eqn:Es; [|by injection E as _ <-].
  destruct (pa_stats e); [|by injection E as _ <-]. destruct (pa_rl e) as [[pr rl]|] eqn:Er; [|by injection E as _ <-].
  destruct (pa_queue e); [|discriminate]. bind_inv E txc Htxc. injection E as _ <-. apply deref_inv in Htxc.
  pose proof (ao_state s e He ps st Es) as Hps. pose proof (ao_rl s e He pr rl Er) as Hpr.
  destruct H as [H1 H2 H3 H4 H5 H6 H7].
  split; [|done]. set (txc' := {| txc_klass := _ |}).
  assert (E1 : held class_rls l (<[pc := txc']> (tx_txcs s)) ≡ₚ pr :: held class_rls l (tx_txcs s)).
  { apply (held_add _ _ _ _ txc); [done..|]. unfold class_rls, txc'. cbn. rewrite app_assoc. by rewrite <- Permutation_cons_append. }
  assert (E2 : held class_states l (<[pc := txc']> (tx_txcs s)) ≡ₚ ps :: held class_states l (tx_txcs s)).
  { apply (held_add _ _ _ _ txc); [done..|]. unfold class_states, txc'. cbn. rewrite app_assoc. by rewrite <- Permutation_cons_append. }
  split; cbn [set_w set_txc set_rl tx_txcs tx_w tx_states w_rls].
  - done.
  - intros q. rewrite insert_some, H2. naive_solver.
  - intros q. rewrite insert_some, H3. naive_solver.
  - rewrite E1. apply NoDup_cons. split; [|done]. rewrite H5, Hpr. by intros [? ?].
  - intros q. rewrite E1, elem_of_cons, insert_some, H5. naive_solver.
  - rewrite E2. apply NoDup_cons. split; [|done]. rewrite H7, Hps. by intros [? ?].
  - intros q. rewrite E2, elem_of_cons, insert_some, H7. done.
Qed.

Lemma prealloc_holds l pc es : forall s s',
  holds l s -> pc ∈ l -> allocs_ok pc es s -> iso_txc_prealloc pc es s = Ok s' -> holds l s' /\ tx_ctx s' = tx_ctx s.
Proof.
  induction es as [|e es IH]; intros s s' H Hin Hal E; [by injection E as <-|]. cbn [iso_txc_prealloc allocs_ok] in *.
  destruct Hal as [He Hes]. bind_inv E r E1. destruct r as [more s1]. destruct (prealloc_one_holds l pc e s more s1 H Hin He E1) as [H1 Hc1].
  destruct more; [|by injection E as <-]. destruct (IH s1 s' H1 Hin (Hes s1 E1) E) as [? Hc]. split; [done|congruence].
Qed.

(** A new class holds nothing yet. *)
Lemma new_class_holds l p txc rl s :
  holds l s -> tx_txcs s !! p = None -> w_rls (tx_w s) !! inr p = None -> class_rls txc = [] -> class_states txc = [] ->
  holds (l ++ [p]) (set_w (set_rl (inr p) rl (tx_w s)) (set_txc p txc s)).
Proof.
  intros [H1 H2 H3 H4 H5 H6 H7] Hp Hpr Er Es. assert (Hnin : p ∉ l) by (rewrite H2, Hp; by intros [? ?]).
  assert (Hh : forall f, f txc = [] -> held f (l ++ [p]) (<[p := txc]> (tx_txcs s)) = held f l (tx_txcs s)).
  { intros f Hf. unfold held. rewrite flat_map_app. cbn [flat_map]. rewrite lookup_insert_eq, Hf, !app_nil_r. by apply held_insert_ne. }
  split; cbn [set_w set_txc set_rl tx_txcs tx_w tx_states w_rls]; rewrite ?(Hh class_rls Er), ?(Hh class_states Es); try done.
  - apply NoDup_app. split; [done|]. split; [|apply NoDup_singleton]. intros q Hq. rewrite list_elem_of_singleton. by intros ->.
  - intros q. rewrite insert_some, elem_of_app, list_elem_of_singleton, H2. tauto.
  - intros q. rewrite insert_some, elem_of_app, list_elem_of_singleton, H3. naive_solver.
  - intros q. rewrite H5, insert_some. naive_solver.
Qed.
End Adds.

(** ** Every operation keeps ownership *)

Section Keeps.
Context {K : Kernel} {KL : KernelLaws K} {P : params} {PO : params_ok P}.
Context {C : IsoClass} {valid : Z -> Prop} {L : IsoClassLaws C valid}.
Context {Env : Oracle} {CL : ClockLaws Env}.

(** The virtual queues of a receive side that has the same ones. *)
Definition same_vqs (s s' : rx_state) : Prop :=
  dom (rx_vqs s') = dom (rx_vqs s) /\ rxc_vq_list (rx_ctx s') = rxc_vq_list (rx_ctx s).

#[local] Instance same_vqs_preorder : PreOrder same_vqs.
Proof. split; [done|]. unfold same_vqs. intros s1 s2 s3 [] []. split; congruence. Qed.

Lemma owned_moves h h' : owned h -> moves (h_tx h) (h_tx h') -> same_vqs (h_rx h) (h_rx h') -> owned h'.
Proof.
  intros [H1 H2 H3] Hm [Hd Hl]. split.
  - unfold tx_list. rewrite (mv_list _ _ Hm). by apply (moves_holds _ (h_tx h)).
  - intros b. by rewrite (mv_bucket _ _ Hm).
  - intros p Hp. unfold vq_list. rewrite Hl. apply H3. by rewrite <- (dom_some _ _ p Hd).
Qed.

Lemma same_set_vq pv vq rx : is_Some (rx_vqs rx !! pv) -> same_vqs rx (set_vq pv vq rx).
Proof. intros H. split; [|done]. by apply dom_insert_lookup_L. Qed.

Lemma for_each_dom {A} (g : A -> outcome A) l : forall (m m' : gmap loc A), for_each_ptr g l m = Ok m' -> dom m' = dom m.
Proof.
  unfold for_each_ptr. induction l as [|p l IH]; intros m m' E; [by injection E as <-|]. cbn [foldM] in E. bind_inv E m1 E1.
  rewrite (IH _ _ E). bind_inv E1 v Hv. bind_inv E1 v1 Hv1. injection E1 as <-. apply deref_some in Hv. by apply dom_insert_lookup_L.
Qed.

Lemma calculate_same s s' : iso_vq_calculate_rates s = Ok s' -> same_vqs s s'.
Proof.
  unfold iso_vq_calculate_rates. intros E. bind_inv E W EW. destruct (_ <? _); [|by injection E as <-].
  bind_inv E m Em. injection E as <-. split; [|done]. by eapply for_each_dom.
Qed.

Lemma vq_ref_same n pv rx rx' : vq_ref n pv rx = Ok rx' -> same_vqs rx rx'.
Proof. unfold vq_ref. intros E. bind_inv E vq Hvq. injection E as <-. apply deref_some in Hvq. by apply same_set_vq. Qed.

Lemma frame_same_vqs h h' : frame h h' -> same_vqs (h_rx h) (h_rx h').
Proof.
  intros [_ Hl Hv]. split; [|done]. apply set_eq. intros p. rewrite !elem_of_dom, <- !(fmap_is_Some vq_setting). by rewrite Hv.
Qed.

(** The data path. *)
Lemma hstep_owned R h ev h' :
  host_ok (valid := valid) R h -> hevent_ok (valid := valid) R h ev -> hstep h ev = Ok h' -> owned h -> owned h'.
Proof.
  intros Hok He E Hown. pose proof (frame_same_vqs h h' (hstep_frame h ev h' E)) as Hvq.
  destruct ev as [ticklock cpu skb|e cpu skb|cpu|cpu|pc es]; cbn [hstep hevent_ok] in *.
  - bind_inv E r Er. destruct r as [v tx]. injection E as <-. apply (owned_moves h); [done| |done]. by eapply iso_tx_moves.
  - bind_inv E r Er. destruct r as [[[v skb'] fb] h1]. injection E as <-. apply (owned_moves h); [done| |done].
    unfold iso_rx in Er. bind_inv Er ctx1 E1. bind_inv Er ctx2 E2. bind_inv Er found Ef. destruct found as [pv|]; [|by injection Er as _ _ _ <-].
    bind_inv Er vq Hv. bind_inv Er vq1 Hv1. unfold rx_counted in Er. bind_inv Er found2 Ef2.
    destruct found2 as [pc|]; [|by injection Er as _ _ _ <-]. bind_inv Er r1 Er1. destruct r1 as [[v1 skb1] tx1]. apply rx_feedback_moves in Er1.
    destruct (_ && _); [|by injection Er as _ _ _ <-]. bind_inv Er r2 Er2. destruct r2. by injection Er as _ _ _ <-.
  - injection E as <-. apply (owned_moves h); [done|by apply moves_w|done].
  - bind_inv E w Ew. injection E as <-. apply (owned_moves h); [done| |done]. apply moves_w. by eapply tasklet_same.
  - bind_inv E tx Etx. injection E as <-. destruct He as (Hin & txc & Hpc & _ & Hal). unfold iso_txc_allocator in Etx.
    bind_inv Etx txc0 Htxc0. pose proof (deref_inv _ _ _ Htxc0) as Htxc. rewrite Hpc in Htxc. injection Htxc as <-.
    set (s1 := set_txc pc {| txc with txc_allocator := false |} (h_tx h)) in *.
    assert (Hm : moves (h_tx h) s1) by (by apply (moves_txc pc txc)). destruct Hown as [H1 H2 H3].
    destruct (prealloc_holds _ pc es s1 tx (moves_holds _ _ _ Hm H1) Hin Hal Etx) as [Hh Hc].
    split; [|intros b; cbn; rewrite Hc; apply H2|done]. unfold tx_list. cbn. rewrite Hc. exact Hh.
Qed.

(** Leave a command that does not find its class or virtual queue. *)
Ltac owned_missing E := injection E as _ <-; done.

Lemma on_txc_inv name body h ret h' : on_txc name body h = Ok (ret, h') ->
  h' = h \/ exists pc txc, deref (tx_txcs (h_tx h)) pc = Ok txc /\ body pc txc h = Ok (ret, h').
Proof.
  unfold on_txc. intros E. bind_inv E found Ef. destruct found as [pc|]; [|injection E as _ <-; by left].
  bind_inv E txc Htxc. right. by exists pc, txc.
Qed.

Lemma on_vq_inv name body h ret h' : on_vq name body h = Ok (ret, h') ->
  h' = h \/ exists pv vq, deref (rx_vqs (h_rx h)) pv = Ok vq /\ body pv vq h = Ok (ret, h').
Proof.
  unfold on_vq. intros E. bind_inv E found Ef. destruct found as [pv|]; [|injection E as _ <-; by left].
  bind_inv E vq Hvq. right. by exists pv, vq.
Qed.

Lemma settings_owned c h ret h' :
  match c with CCreateTxc _ _ | CCreateVq _ _ => False | _ => True end -> exec c h = Ok (ret, h') -> owned h -> owned h'.
Proof.
  intros Hc E Hown. destruct c as [| |txc vq|txc w|txc r|vq w|vq r|]; try done; cbn [exec] in E.
  - apply on_txc_inv in E as [->|(pc & t & Ht & E)]; [done|]. apply on_vq_inv in E as [->|(pv & v & Hv & E)]; [done|].
    bind_inv E rx1 E1. bind_inv E rx2 E2. injection E as _ <-. apply (owned_moves h); [done|by apply (moves_txc pc t)|].
    transitivity rx1; [destruct (txc_vq t); [by eapply vq_ref_same|by injection E1 as <-]|by eapply vq_ref_same].
  - apply on_txc_inv in E as [->|(pc & t & Ht & E)]; [done|]. destruct (_ || _); [owned_missing E|]. bind_inv E tx Etx. injection E as _ <-.
    apply (owned_moves h); [done| |done]. apply recompute_moves in Etx. etransitivity; [|exact Etx].
    match goal with |- moves _ (set_txc _ _ ?s1) => transitivity s1; [by apply moves_ctx|] end. by apply (moves_txc pc t).
  - apply on_txc_inv in E as [->|(pc & t & Ht & E)]; [done|]. destruct (_ || _); [owned_missing E|]. bind_inv E tx Etx. injection E as _ <-.
    apply (owned_moves h); [done| |done]. apply recompute_moves in Etx. etransitivity; [|exact Etx]. by destruct (r =? 0); apply (moves_txc pc t).
  - apply on_vq_inv in E as [->|(pv & v & Hv & E)]; [done|]. destruct (_ || _); [owned_missing E|]. bind_inv E rx Erx. injection E as _ <-.
    apply deref_some in Hv. apply (owned_moves h); [done|done|]. apply calculate_same in Erx. etransitivity; [|exact Erx]. by apply same_set_vq.
  - apply on_vq_inv in E as [->|(pv & v & Hv & E)]; [done|]. apply deref_some in Hv. destruct (_ || _); [owned_missing E|].
    destruct (0 <? r); [injection E as _ <-; apply (owned_moves h); [done|done|by apply same_set_vq]|]. bind_inv E rx Erx. injection E as _ <-.
    apply (owned_moves h); [done|done|]. apply calculate_same in Erx. etransitivity; [|exact Erx]. by apply same_set_vq.
  - unfold recompute in E. bind_inv E tx Etx. bind_inv E rx Erx. injection E as _ <-.
    apply (owned_moves h); [done|by apply recompute_moves|by apply calculate_same].
Qed.

Lemma create_vq_owned e name h ret h' : create_vq e name h = Ok (ret, h') -> owned h -> owned h'.
Proof.
  unfold create_vq, iso_vq_install. intros E [H1 H2 H3]. bind_inv E r Er. destruct r as [ret1 rx]. injection E as _ <-.
  bind_inv Er found Ef. destruct found; [by injection Er as _ <-|]. bind_inv Er r2 E2. destruct r2 as [o rx2].
  assert (forall p, is_Some (rx_vqs rx2 !! p) -> p ∈ rxc_vq_list (rx_ctx rx2)) as Hvqs.
  { unfold iso_vq_alloc in E2. destruct (va_kmalloc e) as [mem|]; [|injection E2 as _ <-; exact H3].
    destruct (iso_vq_init _ _ _) as [iret vq]. bind_inv E2 rx3 E3. injection E2 as _ <-. apply calculate_same in E3 as [Ed El].
    intros p Hp. rewrite El. apply (dom_some _ _ p Ed) in Hp. cbn [rx_vqs rx_ctx rxc_vq_list] in *.
    rewrite insert_some in Hp. rewrite elem_of_app, list_elem_of_singleton. destruct Hp as [->|Hp]; [by right|left; by apply H3]. }
  assert (rx2 = rx) as -> by (destruct o; by injection Er as _ <-). by split.
Qed.

Lemma create_txc_owned R e name h ret h' :
  ctl_ok (valid := valid) R h -> ccmd_ok h (CCreateTxc e name) -> create_txc e name h = Ok (ret, h') -> owned h -> owned h'.
Proof.
  intros [Hpre _] [[_ He] _] E Hown. pose proof Hown as [H1 H2 H3]. unfold create_txc, iso_txc_install in E. bind_inv E r Er.
  destruct r as [ret1 tx]. injection E as _ <-. bind_inv Er found Ef. destruct found; [injection Er as _ <-; by destruct h|].
  bind_inv Er r2 E2. destruct r2 as [o tx2]. assert (tx2 = tx) as -> by (destruct o; by injection Er as _ <-). clear Er ret1.
  unfold iso_txc_alloc in E2. destruct (ta_txc e) as [[p mem]|]; [|injection E2 as _ <-; by destruct h].
  destruct (ta_queue e) as [q|] eqn:Eq; [|discriminate]. bind_inv E2 s1 E1. bind_inv E2 txc Htxc. bind_inv E2 s2 E3. injection E2 as _ <-.
  destruct (He p mem eq_refl) as [Hp Hpr Harr (q' & Eq' & _ & Hal) _ _]. rewrite Eq in Eq'. injection Eq' as <-.
  assert (Hnil : forall bk : buckets, (forall i, ~ 0 <= i < 256 -> bk i = []) ->
    all_chains 256 (fun i => if (0 <=? i) && (i <? 256) then [] else bk i) = []).
  { intros bk Hbk. unfold all_chains. induction (seq 0 256) as [|i l IH]; [done|]. cbn [flat_map]. rewrite IH, app_nil_r.
    destruct (Z.leb_spec 0 (Z.of_nat i)), (Z.ltb_spec (Z.of_nat i) 256); cbn; try done; apply Hbk; lia. }
  set (rl := iso_rl_init _ _ _ _) in *. set (txc0 := {| txc_klass := _ |}) in E1, Hal.
  assert (Hnew : holds (tx_list h ++ [p]) (set_w (set_rl (inr p) rl (tx_w (h_tx h))) (set_txc p txc0 (h_tx h)))).
  { apply new_class_holds; [done|done|done| |].
    - unfold class_rls, txc0. cbn [txc_rl_bucket txc_prealloc_rl_list iso_txc_init]. rewrite app_nil_r. apply Hnil. intros i Hi. by apply Harr.
    - unfold class_states, txc0. cbn [txc_state_bucket txc_prealloc_state_list iso_txc_init]. rewrite app_nil_r. apply Hnil. intros i Hi. by apply Harr. }
  destruct (prealloc_holds _ p _ _ s1 Hnew ltac:(set_solver) Hal E1) as [Hh1 Hc1].
  apply recompute_moves in E3. split; [|intros b; cbn [set_tx h_tx]|exact H3].
  - unfold tx_list. cbn [set_tx h_tx]. rewrite (mv_list _ _ E3). cbn [tx_ctx txx_txc_list]. rewrite Hc1.
    apply (moves_holds _ _ _ E3). by destruct Hh1.
  - rewrite (mv_bucket _ _ E3). cbn [tx_ctx txx_bucket]. rewrite Hc1. cbn [set_w set_txc tx_ctx]. unfold hlist_add_head.
    destruct (_ =? _); [|apply H2]. apply NoDup_cons. split; [|apply H2]. intros Hb.
    apply (tok_chain _ _ _ _ _ (co_table R h Hpre)) in Hb as [_ (v & Hv & _)]. congruence.
Qed.

Lemma exec_owned R c h ret h' :
  ctl_ok (valid := valid) R h -> ccmd_ok h c -> exec c h = Ok (ret, h') -> owned h -> owned h'.
Proof.
  intros Hctl Hc E Hown. destruct c; [by eapply create_txc_owned|by eapply create_vq_owned|..].
  all: eapply settings_owned; [|exact E|exact Hown]; exact I.
Qed.

Lemma mstep_owned R h m h' :
  ctl_ok (valid := valid) R h -> mevent_ok (valid := valid) R h m -> mstep h m = Ok h' -> owned h -> owned h'.
Proof.
  intros Hctl Hm E Hown. destruct m as [ev|c]; cbn [mstep mevent_ok] in *.
  - by apply (hstep_owned R h ev h'); [apply Hctl|apply Hm| |].
  - bind_inv E r Er. destruct r as [ret h1]. injection E as <-. by apply (exec_owned R c h ret h1).
Qed.
End Keeps.
