(* ===== verification/Qdisc.v ===== *)
(** * The queueing discipline (qdisc.c)

    Attaching the discipline to a device creates its contexts, one leaf per
    transmit queue, and takes over its received packets; the leaves hand every
    packet to [iso_tx].  The kernel's [qdisc_create_dflt],
    [netdev_rx_handler_register] and driver are parameters or records. *)

From Stdlib Require Import Ascii String.
From S2P Require Import Prelude Params Kernel Packet Scan Class RateControl HashTable VirtualQueue.
From S2P Require Import VqTable RateLimiter Dequeue Device Tx TxPath Rx Host System Netdev Control.
From S2P Require Import Config CommandLine Module.

Open Scope Z_scope.

Definition TC_H_ROOT : Z := 4294967295.
Definition TC_H_MAJ (h : Z) : Z := Z.land h 4294901760.
Definition TC_H_MIN (h : Z) : Z := Z.land h 65535.
Definition TC_H_MAKE (maj min : Z) : Z := Z.lor (TC_H_MAJ maj) (TC_H_MIN min).
Definition TCQ_F_MQROOT : Z := 8.
Definition EOPNOTSUPP : Z := 95.
Definition EBUSY : Z := 16.

(** ** Hooks *)

(** [netdev_rx_handler_register(dev, iso_rx_handler, NULL)]: a device has one handler. *)
Definition iso_rx_hook_init (dev : net_device) : Z * net_device :=
  match nd_rx_handler dev with
  | Some _ => (- EBUSY, dev)
  | None => (0, {| dev with nd_rx_handler := Some IsoRxHandler |})
  end.

(** [netdev_rx_handler_unregister(dev)] *)
Definition iso_rx_hook_exit (dev : net_device) : net_device := {| dev with nd_rx_handler := None |}.

(** [iso_tx_hook_init(context)] *)
Definition iso_tx_hook_init (dev : net_device) (cx : tx_ctxt) : Z * tx_ctxt :=
  match nd_ops dev with
  | None => (1, cx)
  | Some xmit => (0, {| cx with cx_xmit := xmit |})
  end.

(** What the allocators return to one [mq_init], and the clock; [ie_create] is
    [qdisc_create_dflt] on a queue with a class id. *)
Record init_env := {
  ie_qdiscs : bool;
  ie_txc : bool;
  ie_rxc : bool;
  ie_rlcb : option (percpu iso_rl_cb);
  ie_stats : option (percpu iso_rx_stats);
  ie_now : nat -> Z;
  ie_reads : nat;
  ie_tries : nat;
  ie_create : nat -> Z -> option Qdisc
}.

Section Qdisc.
Context {K : Kernel} {P : params} {C : IsoClass} {Env : Oracle}.

(** [iso_tx_init(context)] with what it does to the device: the context is linked
    into [txctx_list] once the control blocks are allocated. *)
Definition tx_context_init (rlcb : option (percpu iso_rl_cb)) (dev : net_device) (cx : tx_ctxt)
    : Z * tx_ctxt * net_device :=
  let '(hook, hooked) := iso_tx_hook_init dev cx in
  let '(ret, s) := iso_tx_init rlcb hook (cx_state cx) in
  match rlcb with
  | None => (ret, {| cx with cx_state := s |}, dev)
  | Some _ =>
      (ret, {| hooked with cx_linked := true; cx_prev_gso := nd_gso_max_size dev; cx_state := s |},
       {| dev with nd_gso_max_size := ISO_GSO_MAX_SIZE |})
  end.

(** [iso_rx_init(context)], likewise. *)
Definition rx_context_init (stats : option (percpu iso_rx_stats)) (now : nat -> Z) (dev : net_device) (cx : rx_ctxt)
    : Z * rx_ctxt * net_device :=
  let '(hook, hooked) := iso_rx_hook_init dev in
  let s := rcx_state cx in
  let '(ret, ctx) := iso_rx_init stats (now 0%nat) (now 1%nat) (now 2%nat) hook (rx_ctx s) in
  match stats with
  | None => (ret, {| cx with rcx_state := {| s with rx_ctx := ctx |} |}, dev)
  | Some _ => (ret, {| rcx_linked := true; rcx_state := {| s with rx_ctx := ctx |} |}, hooked)
  end.

(** [iso_tx_exit(priv->txc)]: unlinking a context that was never linked follows
    the NULL pointers of its list entry. *)
Definition tx_context_exit (rx : rx_state) (cx : tx_ctxt) (dev : net_device) : outcome (host * net_device) :=
  if negb (cx_linked cx) then Oops BadPointer
  else
    h ← iso_tx_exit {| h_tx := cx_state cx; h_rx := rx |};
    mret (h, {| dev with nd_gso_max_size := cx_prev_gso cx |}).

(** [iso_rx_exit(priv->rxc)] *)
Definition rx_context_exit (linked : bool) (rx : rx_state) (dev : net_device) : outcome (rx_state * net_device) :=
  if negb linked then Oops BadPointer
  else
    rx ← iso_rx_exit rx;
    mret (rx, iso_rx_hook_exit dev).

(** The leaves that [mq_destroy] destroys: those before the first NULL. *)
Fixpoint leaves (l : list (option Qdisc)) : list Qdisc :=
  match l with
  | Some q :: l => q :: leaves l
  | _ => []
  end.

(** [mq_destroy(sch)]: the device, and the leaves destroyed; the contexts and the
    array of the private data are freed. *)
Definition mq_destroy (priv : mq_sched) (dev : net_device) : outcome (net_device * list Qdisc) :=
  let rx := match mq_rxc priv with Some rcx => rcx_state rcx | None => zero_rx end in
  '(rx, dev) ←
    match mq_txc priv with
    | Some cx => '(h, dev) ← tx_context_exit rx cx dev; mret (h_rx h, dev)
    | None => mret (rx, dev)
    end;
  dev ←
    match mq_rxc priv with
    | Some rcx => '(_, dev) ← rx_context_exit (rcx_linked rcx) rx dev; mret dev
    | None => mret dev
    end;
  mret (dev, match mq_qdiscs priv with None => [] | Some l => leaves l end).

(** The loop of [mq_init] from queue [ntx], [n] queues to go: the array's
    contents, and whether every leaf was created. *)
Fixpoint create_leaves (create : nat -> Z -> option Qdisc) (handle : Z) (ntx n : nat) : list (option Qdisc) * bool :=
  match n with
  | O => ([], true)
  | S n =>
      match create ntx (TC_H_MAKE (TC_H_MAJ handle) (TC_H_MIN (Z.of_nat (ntx + 1)))) with
      | None => (repeat None (S n), false)
      | Some q => let '(l, ok) := create_leaves create handle (S ntx) n in (Some q :: l, ok)
      end
  end.

(** The label [err] of [mq_init]: what the private data pointed to is freed. *)
Definition mq_init_err (priv : mq_sched) (dev : net_device) (sch : Qdisc)
    : outcome (Z * option mq_sched * net_device * Qdisc * list Qdisc) :=
  '(dev, gone) ← mq_destroy priv dev;
  mret (- ENOMEM, None, dev, sch, gone).

(** [mq_init(sch, opt)]: the result, the private data unless what it points to was
    freed, the device, the discipline, and the leaves it destroyed again. *)
Definition mq_init (e : init_env) (dev : net_device) (sch : Qdisc) (priv : mq_sched)
    : outcome (Z * option mq_sched * net_device * Qdisc * list Qdisc) :=
  if negb (sch_parent sch =? TC_H_ROOT) then mret (- EOPNOTSUPP, Some priv, dev, sch, [])
  else
    let n := num_tx_queues dev in
    if negb (ie_qdiscs e)
    then mret (- ENOMEM, Some {| mq_qdiscs := None; mq_txc := None; mq_rxc := None |}, dev, sch, [])
    else
      let priv := {| mq_qdiscs := Some (repeat None n); mq_txc := None; mq_rxc := None |} in
      if negb (ie_txc e) then mq_init_err priv dev sch
      else
        let txc := {| cx_linked := false; cx_xmit := None; cx_prev_gso := 0;
                      cx_state := zero_tx (ie_reads e) (ie_tries e) false |} in
        let priv := {| priv with mq_txc := Some txc |} in
        if negb (ie_rxc e) then mq_init_err priv dev sch
        else
          let rxc := {| rcx_linked := false; rcx_state := zero_rx |} in
          let '(ret, txc, dev) := tx_context_init (ie_rlcb e) dev txc in
          let priv := {| priv with mq_txc := Some txc; mq_rxc := Some rxc |} in
          if negb (ret =? 0) then mq_init_err priv dev sch
          else
            let '(ret, rxc, dev) := rx_context_init (ie_stats e) (ie_now e) dev rxc in
            let priv := {| priv with mq_rxc := Some rxc |} in
            if negb (ret =? 0) then mq_init_err priv dev sch
            else
              let '(l, ok) := create_leaves (ie_create e) (sch_handle sch) 0 n in
              let priv := {| priv with mq_qdiscs := Some l |} in
              if negb ok then mq_init_err priv dev sch
              else
                let flags := Z.lor (Z.lor (sch_flags sch) TCQ_F_MQROOT) TCQ_F_EYEQ in
                mret (0, Some priv, dev, {| sch with sch_flags := flags |}, []).

(** The loop of [mq_attach]: [dev_graft_qdisc] puts each leaf on its queue and
    returns the discipline that was there. *)
Fixpoint graft_leaves (l : list (option Qdisc)) (txqs : list netdev_queue) : outcome (list netdev_queue * list Qdisc) :=
  match txqs with
  | [] => mret ([], [])
  | q :: txqs =>
      match l with
      | Some leaf :: l =>
          '(txqs, old) ← graft_leaves l txqs;
          mret ({| q with txq_qdisc_sleeping := leaf |} :: txqs, txq_qdisc_sleeping q :: old)
      | _ => Oops BadPointer
      end
  end.

(** [mq_attach(sch)]: the private data, the device, and the disciplines destroyed. *)
Definition mq_attach (priv : mq_sched) (dev : net_device) : outcome (mq_sched * net_device * list Qdisc) :=
  match mq_qdiscs priv with
  | None => if Nat.eqb (num_tx_queues dev) 0 then mret (priv, dev, []) else Oops BadPointer
  | Some l =>
      '(txqs, old) ← graft_leaves l (nd_txqs dev);
      mret ({| priv with mq_qdiscs := None |}, {| dev with nd_txqs := txqs |}, old)
  end.

(** ** Classes: one per transmit queue *)

(** [mq_queue_get(sch, cl)]: the index of the queue, or NULL. *)
Definition mq_queue_get (dev : net_device) (cl : Z) : option nat :=
  let ntx := u64 (cl - 1) in
  if Z.of_nat (num_tx_queues dev) <=? ntx then None else Some (Z.to_nat ntx).

Definition mq_select_queue (dev : net_device) (tcm_parent : Z) : nat :=
  let ntx := TC_H_MIN tcm_parent in
  match mq_queue_get dev ntx with
  | None => O
  | Some q => q
  end.

Definition mq_get (dev : net_device) (classid : Z) : Z :=
  let ntx := TC_H_MIN classid in
  match mq_queue_get dev ntx with
  | None => 0
  | Some _ => ntx
  end.

(** The queue a class names; a NULL queue is dereferenced. *)
Definition class_queue (dev : net_device) (cl : Z) : outcome (nat * netdev_queue) :=
  match mq_queue_get dev cl with
  | None => Oops BadPointer
  | Some i => match nd_txqs dev !! i with Some q => mret (i, q) | None => Oops BadPointer end
  end.

Definition mq_leaf (dev : net_device) (cl : Z) : outcome Qdisc :=
  '(_, q) ← class_queue dev cl; mret (txq_qdisc_sleeping q).

(** [mq_graft(sch, cl, new, old)]: the old leaf and the device. *)
Definition mq_graft (dev : net_device) (cl : Z) (new : Qdisc) : outcome (Qdisc * net_device) :=
  '(i, q) ← class_queue dev cl;
  mret (txq_qdisc_sleeping q, {| dev with nd_txqs := <[i := {| q with txq_qdisc_sleeping := new |}]> (nd_txqs dev) |}).

(** [mq_dump_class]: the parent, handle and info of the message. *)
Definition mq_dump_class (dev : net_device) (cl tcm_handle : Z) : outcome (Z * Z * Z) :=
  '(_, q) ← class_queue dev cl;
  mret (TC_H_ROOT, Z.lor tcm_handle (TC_H_MIN cl), sch_handle (txq_qdisc_sleeping q)).

(** [mq_dump_class_stats]: the statistics copied; [copied] is whether
    [gnet_stats_copy_*] succeeded. *)
Definition mq_dump_class_stats (copied : bool) (dev : net_device) (cl : Z)
    : outcome (Z * (bstats * qstats) * net_device) :=
  '(i, q) ← class_queue dev cl;
  let sch := txq_qdisc_sleeping q in
  let qs := sch_qstats sch in
  let sch := {| sch with sch_qstats := {| qs with qs_qlen := sch_qlen sch |} |} in
  mret (if copied then 0 else -1, (sch_bstats sch, sch_qstats sch),
        {| dev with nd_txqs := <[i := {| q with txq_qdisc_sleeping := sch |}]> (nd_txqs dev) |}).

(** The loop of [mq_walk] from queue [ntx], [n] queues to go; [fn] is the
    walker's result on a class.  Returns the classes visited, [count] and [stop]. *)
Fixpoint walk_loop (fn : Z -> Z) (ntx n : nat) (count : Z) : list Z * Z * bool :=
  match n with
  | O => ([], count, false)
  | S n =>
      let cl := Z.of_nat (ntx + 1) in
      if fn cl <? 0 then ([cl], count, true)
      else let '(l, count, stop) := walk_loop fn (S ntx) n (count + 1) in (cl :: l, count, stop)
  end.

Definition mq_walk (fn : Z -> Z) (dev : net_device) (skip : nat) (count : Z) (stop : bool) : list Z * Z * bool :=
  if stop then ([], count, stop)
  else walk_loop fn skip (num_tx_queues dev - skip) (Z.of_nat skip).

(** The body of the loop of [mq_dump]. *)
Definition dump_add (sch : Qdisc) (q : netdev_queue) : Qdisc :=
  let qdisc := txq_qdisc_sleeping q in
  let b := sch_bstats sch in
  let s := sch_qstats sch in
  let b' := sch_bstats qdisc in
  let s' := sch_qstats qdisc in
  {| sch with
     sch_qlen := u32 (sch_qlen sch + sch_qlen qdisc);
     sch_bstats := {| bs_bytes := u64 (bs_bytes b + bs_bytes b'); bs_packets := u32 (bs_packets b + bs_packets b') |};
     sch_qstats := {| qs_qlen := u32 (qs_qlen s + qs_qlen s'); qs_backlog := u32 (qs_backlog s + qs_backlog s');
                      qs_drops := u32 (qs_drops s + qs_drops s'); qs_requeues := u32 (qs_requeues s + qs_requeues s');
                      qs_overlimits := u32 (qs_overlimits s + qs_overlimits s') |} |}.

(** The counters that [mq_dump] clears. *)
Definition dump_zero (sch : Qdisc) : Qdisc :=
  {| sch with sch_qlen := 0; sch_bstats := {| bs_bytes := 0; bs_packets := 0 |};
              sch_qstats := {| qs_qlen := 0; qs_backlog := 0; qs_drops := 0; qs_requeues := 0; qs_overlimits := 0 |} |}.

(** [mq_dump(sch, skb)] *)
Definition mq_dump (dev : net_device) (sch : Qdisc) : Qdisc := fold_left dump_add (nd_txqs dev) (dump_zero sch).

(** ** Packets *)

(** Where a packet goes. *)
Inductive fate :=
| SentBy (xmit : ndo_xmit)     (** given to the driver *)
| FreedPkt                     (** kfree_skb *)
| TakenPkt                     (** taken by [iso_tx]: queued, sent from the queue, or split *)
| ToStack (skb : sk_buff)      (** up the protocol stack *)
| Returned                     (** left to the caller *)
| LeakedPkt.                   (** nobody has it, and nobody freed it *)

Definition NET_XMIT_SUCCESS : Z := 0.
Definition NET_XMIT_DROP : Z := 1.

(** [skb_xmit(skb)] on a packet for [out]. *)
Definition skb_xmit (out : net_device) (skb : sk_buff) : outcome fate :=
  cx ← iso_txctx_dev out;
  match cx_xmit cx with
  | None => mret LeakedPkt
  | Some xmit =>
      match nd_txqs out !! skb_queue_mapping skb with
      | None => Oops BadPointer
      | Some txq => mret (if txq_stopped txq then FreedPkt else SentBy xmit)
      end
  end.

(** The device after its transmit context was written. *)
Definition set_txctx (s : tx_state) (dev : net_device) : net_device :=
  match dev_priv dev with
  | Ok mq => set_priv {| mq with mq_txc := (fun cx => {| cx with cx_state := s |}) <$> mq_txc mq |} dev
  | Oops _ => dev
  end.

(** [iso_enqueue(skb, sch)] on [cpu], for a leaf of [out]. *)
Definition iso_enqueue (ticklock : bool) (cpu : nat) (skb : sk_buff) (out : net_device)
    : outcome (Z * fate * net_device) :=
  '(verdict, out) ←
    (if IsoGlobalEnabled =? 0 then mret (ISO_VERDICT_PASS, out)
     else
       cx ← iso_txctx_dev out;
       '(verdict, s) ← iso_tx ticklock cpu skb (cx_state cx);
       mret (verdict, set_txctx s out));
  match verdict with
  | ISO_VERDICT_DROP => mret (NET_XMIT_DROP, FreedPkt, out)
  | ISO_VERDICT_PASS => f ← skb_xmit out skb; mret (NET_XMIT_SUCCESS, f, out)
  | ISO_VERDICT_SUCCESS => mret (NET_XMIT_SUCCESS, TakenPkt, out)
  | ISO_VERDICT_ERROR => mret (NET_XMIT_SUCCESS, LeakedPkt, out)
  end.

Inductive rx_handler_result := RX_HANDLER_PASS | RX_HANDLER_CONSUMED.

(** [iso_rx_handler(pskb)] on [cpu], for a packet from [dev]: the result, the
    packet, the feedback packet sent, and the device. *)
Definition iso_rx_handler (e : rx_env) (cpu : nat) (skb : sk_buff) (dev : net_device)
    : outcome (rx_handler_result * fate * option sk_buff * net_device) :=
  match skb_pkt_type skb with
  | PACKET_LOOPBACK => mret (RX_HANDLER_PASS, ToStack skb, None, dev)
  | _ =>
      if (iso_enabled dev =? 0) || (IsoGlobalEnabled =? 0)
      then mret (RX_HANDLER_PASS, ToStack skb, None, dev)
      else
        h ← dev_host dev;
        '(verdict, skb, fb, h) ← iso_rx e cpu skb h;
        match verdict with
        | ISO_VERDICT_DROP => mret (RX_HANDLER_CONSUMED, FreedPkt, fb, set_dev_host h dev)
        | _ => mret (RX_HANDLER_PASS, ToStack skb, fb, set_dev_host h dev)
        end
  end.
End Qdisc.

(** ** Initialisation and its error paths *)

Section QdiscProps.
Context {K : Kernel} {KL : KernelLaws K} {P : params} {PO : params_ok P}.
Context {C : IsoClass} {valid : Z -> Prop} {L : IsoClassLaws C valid}.
Context {Env : Oracle} {CL : ClockLaws Env}.

(** Leaving a context without classes. *)
Lemma tx_exit_empty h :
  txx_bucket (tx_ctx (h_tx h)) = no_buckets ->
  exists h', iso_tx_exit h = Ok h' /\ h_rx h' = h_rx h.
Proof.
  intros Hb. unfold iso_tx_exit. set (h0 := {| h_tx := _; h_rx := _ |}).
  assert (Hb0 : txx_bucket (tx_ctx (h_tx h0)) = no_buckets) by done.
  exists h0. split; [|done]. clearbody h0. generalize (seq 0 256). intros l. clear h Hb.
  induction l as [|i l IH]; [done|]. cbn [foldM]. rewrite Hb0. cbn [no_buckets foldM mbind outcome_bind mret outcome_ret]. exact IH.
Qed.

(** The contexts that initialisation leaves. *)
Lemma tx_init_zero rlcb hook r t ex ret s :
  iso_tx_init rlcb hook (zero_tx r t ex) = (ret, s) ->
  txx_bucket (tx_ctx s) = no_buckets /\ ret = match rlcb with None => -1 | Some _ => hook end.
Proof. unfold iso_tx_init. destruct rlcb as [cb|]; cbn; by intros [= <- <-]. Qed.

Lemma rx_exit_empty s : rxc_vq_list (rx_ctx s) = [] -> exists s', iso_rx_exit s = Ok s'.
Proof. intros Hl. unfold iso_rx_exit, iso_vqs_exit. rewrite Hl. by eexists. Qed.

(** A pointer that is not NULL. *)
Definition given {A} (o : option A) : bool := match o with Some _ => true | None => false end.

Definition created (e : init_env) (sch : Qdisc) (i : nat) : option Qdisc :=
  ie_create e i (TC_H_MAKE (TC_H_MAJ (sch_handle sch)) (TC_H_MIN (Z.of_nat (i + 1)))).

Lemma create_leaves_spec create handle n : forall ntx,
  let f i := create i (TC_H_MAKE (TC_H_MAJ handle) (TC_H_MIN (Z.of_nat (i + 1)))) in
  (create_leaves create handle ntx n).2 = forallb (fun i => given (f i)) (seq ntx n) /\
  length (create_leaves create handle ntx n).1 = n /\
  ((create_leaves create handle ntx n).2 = true -> (create_leaves create handle ntx n).1 = map f (seq ntx n)).
Proof.
  induction n as [|n IH]; intros ntx f; [done|]. cbn [create_leaves seq forallb map]. fold (f ntx).
  destruct (f ntx) as [q|] eqn:Ef.
  - specialize (IH (S ntx)). fold f in IH. destruct (create_leaves create handle (S ntx) n) as [l ok]. cbn [fst snd] in *.
    destruct IH as (H1 & H2 & H3). cbn [given andb length].
    split; [done|]. split; [lia|]. intros Hok. by rewrite (H3 Hok).
  - cbn [fst snd given andb]. by rewrite repeat_length.
Qed.

(** A device whose contexts were just created. *)
Lemma prep_active rlcb r cbs i :
  (forall j, cb_active_list (rlcb j) = []) -> iso_rl_prep (Some rlcb) r = Some cbs -> cb_active_list (cbs i) = [].
Proof.
  intros Hz [= <-]. generalize possible_cpus. intros cpus. revert r rlcb Hz.
  induction cpus as [|c cpus IH]; intros r rlcb Hz; [apply Hz|]. cbn [fold_left]. apply IH. intros j. unfold pc_set.
  by destruct (Nat.eqb j c).
Qed.

Lemma fresh_device_inv R w :
  w_rls w = ∅ -> (forall i, cb_active_list (w_cbs w i) = []) -> device_inv R w.
Proof.
  intros Hr Ha. split; [split|..]; rewrite ?Hr; try (intros; done).
  - intros cpu p Hp. unfold active in Hp. rewrite Ha in Hp. by apply not_elem_of_nil in Hp.
  - intros cpu. unfold active. rewrite Ha. constructor.
  - intros cpu p _ _ rl Hp. by rewrite Hr in Hp.
  - intros cpu _ _ Hne. unfold active in Hne. by rewrite Ha in Hne.
Qed.

Lemma fresh_tx_ok R s :
  ISO_MAX_TX_RATE <= R < 2147483648 -> tx_txcs s = ∅ -> w_rls (tx_w s) = ∅ ->
  (forall i, cb_active_list (w_cbs (tx_w s) i) = []) ->
  txx_txc_list (tx_ctx s) = [] -> txx_bucket (tx_ctx s) = no_buckets -> txx_rate (tx_ctx s) = 2 -> tx_ok R s.
Proof.
  intros HR Ht Hr Ha Hl Hb Hrate. pose proof max_tx_facts. pok.
  split; [split; [done|by apply fresh_device_inv|split| | |]| |]; rewrite ?Hl, ?Hb, ?Ht, ?Hrate; try done.
  all: try (by constructor); try lia; intros; exfalso; by eapply not_elem_of_nil.
Qed.

Lemma fresh_ctl_ok R rlcb stats hook hook' r t now ret s ret' ctx :
  ISO_MAX_TX_RATE <= R < 2147483648 -> (forall j, cb_active_list (rlcb j) = []) ->
  iso_tx_init (Some rlcb) hook (zero_tx r t false) = (ret, s) ->
  iso_rx_init (Some stats) (now 0%nat) (now 1%nat) (now 2%nat) hook' (rx_ctx zero_rx) = (ret', ctx) ->
  let h := {| h_tx := s; h_rx := {| rx_ctx := ctx; rx_vqs := ∅ |} |} in
  ctl_ok (valid := valid) R h /\ view h = {| cfg_txcs := ∅; cfg_vqs := ∅ |}.
Proof.
  intros HR Hz Etx Erx h. unfold iso_tx_init in Etx. destruct (iso_rl_prep (Some rlcb) _) as [cbs|] eqn:Ecb; [|discriminate].
  injection Etx as _ <-. injection Erx as _ <-. pose proof (fun i => prep_active rlcb _ cbs i Hz Ecb) as Hact. pok.
  split; [|done]. split; [split; [split| | | | |]|].
  - by apply fresh_tx_ok.
  - split; cbn [h h_rx rx_ctx rx_vqs]; [|done|by eexists|cbn; rewrite u32_small by lia; lia].
    apply table_nil. intros b. cbn. by destruct (_ && _).
  - by apply table_nil.
  - done.
  - done.
  - done.
  - by intros p txc pv ?%not_elem_of_nil.
  - intros _ p txc ?%not_elem_of_nil. done.
Qed.
(** Every resource of [mq_init] was acquired. *)
Definition acquired (e : init_env) (dev : net_device) (sch : Qdisc) : bool :=
  ie_qdiscs e && ie_txc e && ie_rxc e && given (ie_rlcb e) && given (nd_ops dev) && given (ie_stats e) &&
  negb (given (nd_rx_handler dev)) && forallb (fun i => given (created e sch i)) (seq 0 (num_tx_queues dev)).

(** A context was allocated, and not linked when an allocation failed. *)
Definition init_fatal (e : init_env) (dev : net_device) : bool :=
  ie_qdiscs e && ie_txc e && negb (ie_rxc e && given (ie_rlcb e) && given (nd_ops dev) && given (ie_stats e)).

(** The device once the kernel made [sch] its root discipline. *)
Definition installed (dev : net_device) (sch : Qdisc) (mq : mq_sched) : net_device :=
  {| dev with nd_qdisc := Some (sch, Some mq) |}.

(** The contexts of [mq_init] when nothing failed before the leaves. *)
Definition init_tx (e : init_env) (cbs : percpu iso_rl_cb) : tx_state :=
  (iso_tx_init (Some cbs) 0 (zero_tx (ie_reads e) (ie_tries e) false)).2.

Definition init_rx (e : init_env) (st : percpu iso_rx_stats) (hook : Z) : rx_state :=
  let rx := zero_rx in
  {| rx with rx_ctx := (iso_rx_init (Some st) (ie_now e 0%nat) (ie_now e 1%nat) (ie_now e 2%nat) hook (rx_ctx zero_rx)).2 |}.

(** Leaving the contexts that [mq_init] made gives the device back. *)
Lemma destroy_fresh e cbs st hook xmit gso qs dev :
  mq_destroy {| mq_qdiscs := qs;
                mq_txc := Some {| cx_linked := true; cx_xmit := xmit; cx_prev_gso := gso; cx_state := init_tx e cbs |};
                mq_rxc := Some {| rcx_linked := true; rcx_state := init_rx e st hook |} |} dev
  = Ok ({| dev with nd_gso_max_size := gso; nd_rx_handler := None |}, match qs with None => [] | Some l => leaves l end).
Proof.
  unfold mq_destroy, tx_context_exit. cbn [mq_txc mq_rxc rcx_state cx_linked negb cx_state cx_prev_gso rcx_linked].
  destruct (tx_exit_empty {| h_tx := init_tx e cbs; h_rx := init_rx e st hook |}) as (h' & -> & Hrx); [done|].
  cbn [mbind outcome_bind mret outcome_ret fst snd]. rewrite Hrx. unfold rx_context_exit. cbn [negb h_rx].
  destruct (rx_exit_empty (init_rx e st hook)) as [s' ->]; [done|]. done.
Qed.

(** [mq_init] once both contexts are allocated. *)
Lemma mq_init_contexts e dev sch priv cbs xmit st :
  sch_parent sch = TC_H_ROOT -> ie_qdiscs e = true -> ie_txc e = true -> ie_rxc e = true ->
  ie_rlcb e = Some cbs -> nd_ops dev = Some xmit -> ie_stats e = Some st ->
  let mq l hook := {| mq_qdiscs := Some l;
    mq_txc := Some {| cx_linked := true; cx_xmit := xmit; cx_prev_gso := nd_gso_max_size dev; cx_state := init_tx e cbs |};
    mq_rxc := Some {| rcx_linked := true; rcx_state := init_rx e st hook |} |} in
  let '(l, ok) := create_leaves (ie_create e) (sch_handle sch) 0 (num_tx_queues dev) in
  mq_init e dev sch priv =
    if negb (given (nd_rx_handler dev)) then
      if ok then
        Ok (0, Some (mq l 0), {| dev with nd_gso_max_size := ISO_GSO_MAX_SIZE; nd_rx_handler := Some IsoRxHandler |},
            {| sch with sch_flags := Z.lor (Z.lor (sch_flags sch) TCQ_F_MQROOT) TCQ_F_EYEQ |}, [])
      else Ok (- ENOMEM, None, dev, sch, leaves l)
    else Ok (- ENOMEM, None, {| dev with nd_rx_handler := None |}, sch, leaves (repeat None (num_tx_queues dev))).
Proof.
  intros Hroot Hq Ht Hr Hcb Hops Hst mq. destruct (create_leaves _ _ _ _) as [l ok] eqn:El.
  unfold mq_init. rewrite Hroot, Z.eqb_refl, Hq, Ht, Hr, Hcb, Hst. cbn [negb].
  unfold tx_context_init, iso_tx_hook_init. rewrite Hops. cbn [negb].
  replace (iso_tx_init (Some cbs) 0 _) with (0, init_tx e cbs) by done.
  unfold rx_context_init, iso_rx_hook_init. cbn [negb Z.eqb nd_rx_handler cx_state].
  destruct (nd_rx_handler dev) as [hd|] eqn:Eh.
  - cbn [given negb].
    replace (iso_rx_init (Some st) _ _ _ _ _) with (- EBUSY, rx_ctx (init_rx e st (- EBUSY))) by done.
    change (- EBUSY =? 0) with false. cbn [negb].
    unfold mq_init_err. cbn [mq_qdiscs mq_txc mq_rxc cx_xmit].
    change {| rx_ctx := rx_ctx (init_rx e st (- EBUSY)); rx_vqs := _ |} with (init_rx e st (- EBUSY)).
    rewrite destroy_fresh. done.
  - cbn [given negb].
    replace (iso_rx_init (Some st) _ _ _ _ _) with (0, rx_ctx (init_rx e st 0)) by done.
    cbn [negb Z.eqb]. rewrite El. destruct ok; [done|]. cbn [negb].
    unfold mq_init_err. cbn [mq_qdiscs mq_txc mq_rxc cx_xmit]. change {| rx_ctx := rx_ctx (init_rx e st 0); rx_vqs := _ |} with (init_rx e st 0).
    rewrite destroy_fresh. cbn [mbind outcome_bind mret outcome_ret].
    destruct dev as [a b c d g q]. cbn in Eh, Hops. by subst.
Qed.

(** Leaving a context that is not linked crashes, whatever was done for the other. *)
Lemma destroy_unlinked_tx mq cx dev :
  mq_txc mq = Some cx -> cx_linked cx = false -> mq_destroy mq dev = Oops BadPointer.
Proof. intros Hc Hl. unfold mq_destroy, tx_context_exit. by rewrite Hc, Hl. Qed.

Lemma destroy_unlinked_rx mq cx rcx dev :
  mq_txc mq = Some cx -> cx_linked cx = true -> txx_bucket (tx_ctx (cx_state cx)) = no_buckets ->
  mq_rxc mq = Some rcx -> rcx_linked rcx = false -> mq_destroy mq dev = Oops BadPointer.
Proof.
  intros Hc Hl Hb Hr Hrl. unfold mq_destroy, tx_context_exit, rx_context_exit. rewrite Hc, Hl, Hr, Hrl. cbn [negb].
  destruct (tx_exit_empty {| h_tx := cx_state cx; h_rx := rcx_state rcx |} Hb) as (h' & -> & _). done.
Qed.

Lemma mq_init_unlinked e dev sch priv :
  sch_parent sch = TC_H_ROOT -> init_fatal e dev = true -> mq_init e dev sch priv = Oops BadPointer.
Proof.
  intros Hroot. unfold init_fatal, mq_init. rewrite Hroot, Z.eqb_refl.
  destruct (ie_qdiscs e); [|done]. destruct (ie_txc e); [|done]. cbn [negb andb].
  destruct (ie_rxc e); cbn [negb andb]; [|intros _; unfold mq_init_err; by erewrite destroy_unlinked_tx].
  unfold tx_context_init, iso_tx_hook_init.
  destruct (ie_rlcb e) as [cbs|].
  2: { intros _. by destruct (nd_ops dev). }
  destruct (nd_ops dev) as [xmit|]; cbn [given andb negb cx_state];
    destruct (iso_tx_init _ _ _) as [ret s] eqn:E; apply tx_init_zero in E as [Hb ->].
  2: { intros _. cbn [Z.eqb negb]. unfold mq_init_err. by erewrite destroy_unlinked_rx. }
  destruct (ie_stats e) as [st|]; [done|]. intros _. cbn [Z.eqb negb]. unfold rx_context_init.
  destruct (iso_rx_hook_init _) as [hook hooked]. cbn [rcx_state iso_rx_init].
  unfold mq_init_err. by erewrite destroy_unlinked_rx.
Qed.

(** A failed attempt to attach. *)
Lemma mq_init_undone e dev sch priv :
  sch_parent sch = TC_H_ROOT -> acquired e dev sch = false ->
  if init_fatal e dev then mq_init e dev sch priv = Oops BadPointer
  else exists priv' gone,
    mq_init e dev sch priv =
      Ok (- ENOMEM, priv', if ie_qdiscs e && ie_txc e then {| dev with nd_rx_handler := None |} else dev, sch, gone).
Proof.
  intros Hroot Hacq. destruct (init_fatal e dev) eqn:Ef; [by apply mq_init_unlinked|].
  pose proof (mq_init_contexts e dev sch priv) as Hctx.
  pose proof (create_leaves_spec (ie_create e) (sch_handle sch) (num_tx_queues dev) 0) as (Hok & _).
  revert Hacq Ef. unfold acquired, init_fatal.
  destruct (ie_qdiscs e) eqn:Eq; cbn [negb andb].
  2: { unfold mq_init. rewrite Hroot, Z.eqb_refl, Eq. by eauto. }
  destruct (ie_txc e) eqn:Et; cbn [negb andb].
  2: { unfold mq_init. rewrite Hroot, Z.eqb_refl, Eq, Et. by eauto. }
  destruct (ie_rxc e) eqn:Er; [|done]. destruct (ie_rlcb e) as [cbs|] eqn:Ecb; [|done].
  destruct (nd_ops dev) as [xmit|] eqn:Eops; [|done]. destruct (ie_stats e) as [st|] eqn:Est; [|done].
  specialize (Hctx cbs xmit st Hroot eq_refl eq_refl eq_refl eq_refl eq_refl eq_refl). cbv zeta in Hctx.
  destruct (create_leaves _ _ _ _) as [l ok]. cbn [fst snd] in Hok. rewrite Hctx. cbn [given andb negb].
  unfold created. rewrite <-Hok. destruct (nd_rx_handler dev) as [hd|] eqn:Eh; cbn [given negb andb].
  - by eauto.
  - intros -> _. rewrite <-Eops. destruct dev. cbn in *. subst. by eauto.
Qed.

(** C25: When attaching the discipline fails, either the error path itself dereferences a NULL
    list entry, because a context was allocated and not linked, or it returns -ENOMEM with the
    device as before, except that a packet handler registered by another module is unregistered
    when that one made it fail. *)
Theorem mq_init_rollback e dev sch priv :
  sch_parent sch = TC_H_ROOT -> acquired e dev sch = false ->
  if init_fatal e dev then mq_init e dev sch priv = Oops BadPointer
  else exists priv' gone,
    mq_init e dev sch priv =
      Ok (- ENOMEM, priv', if ie_qdiscs e && ie_txc e then {| dev with nd_rx_handler := None |} else dev, sch, gone).
Proof. apply mq_init_undone. Qed.

(** Attaching the leaves puts each on its queue. *)
Lemma graft_leaves_ok f txqs : forall ntx,
  forallb (fun i => given (f i)) (seq ntx (length txqs)) = true ->
  exists txqs', graft_leaves (map f (seq ntx (length txqs))) txqs = Ok (txqs', map txq_qdisc_sleeping txqs) /\
    map (fun q => Some (txq_qdisc_sleeping q)) txqs' = map f (seq ntx (length txqs)) /\
    map txq_stopped txqs' = map txq_stopped txqs.
Proof.
  induction txqs as [|q txqs IH]; intros ntx Hf; [by exists []|]. cbn [length seq forallb map graft_leaves] in *.
  apply andb_prop in Hf as [Hq Hf]. destruct (f ntx) as [leaf|]; [|done].
  destruct (IH _ Hf) as (txqs' & -> & Hl & Hs). cbn [mbind outcome_bind mret outcome_ret].
  eexists. split; [reflexivity|]. cbn [map]. by rewrite Hl, Hs.
Qed.

Lemma flags_enabled dev sch mq fl :
  iso_enabled (installed dev {| sch with sch_flags := Z.lor fl TCQ_F_EYEQ |} mq) = TCQ_F_EYEQ.
Proof. unfold iso_enabled. cbn [installed nd_qdisc sch_flags]. apply land_lor_absorb. Qed.

(** Contexts that own nothing yet. *)
Record empty_host (h : host) : Prop := {
  eh_txcs : tx_txcs (h_tx h) = ∅;
  eh_states : tx_states (h_tx h) = ∅;
  eh_rls : w_rls (tx_w (h_tx h)) = ∅;
  eh_list : tx_list h = [];
  eh_bucket : txx_bucket (tx_ctx (h_tx h)) = no_buckets;
  eh_vqs : rx_vqs (h_rx h) = ∅
}.

(** The private data of a device with both contexts linked. *)
Definition linked (dev : net_device) : Prop :=
  exists mq cx rcx, dev_priv dev = Ok mq /\ mq_txc mq = Some cx /\ mq_rxc mq = Some rcx /\
    cx_linked cx = true /\ rcx_linked rcx = true.

(** The device after a successful attachment. *)
Lemma mq_init_attached R e dev sch priv cbs :
  sch_parent sch = TC_H_ROOT -> acquired e dev sch = true -> ISO_MAX_TX_RATE <= R < 2147483648 ->
  ie_rlcb e = Some cbs -> (forall i, cb_active_list (cbs i) = []) ->
  exists mq dev1 sch1 mq2 dev2 cx h,
    mq_init e dev sch priv = Ok (0, Some mq, dev1, sch1, []) /\
    mq_attach mq dev1 = Ok (mq2, dev2, map txq_qdisc_sleeping (nd_txqs dev)) /\
    map (fun q => Some (txq_qdisc_sleeping q)) (nd_txqs dev2) = map (created e sch) (seq 0 (num_tx_queues dev)) /\
    let up := installed dev2 sch1 mq2 in
    iso_enabled up = TCQ_F_EYEQ /\ nd_rx_handler up = Some IsoRxHandler /\ nd_gso_max_size up = ISO_GSO_MAX_SIZE /\
    iso_txctx_dev up = Ok cx /\ nd_ops dev = Some (cx_xmit cx) /\
    dev_host up = Ok h /\ linked up /\ empty_host h /\
    ctl_ok (valid := valid) R h /\ view h = {| cfg_txcs := ∅; cfg_vqs := ∅ |} /\
    mq_destroy mq2 up =
      Ok ({| up with nd_gso_max_size := nd_gso_max_size dev; nd_rx_handler := nd_rx_handler dev |}, []).
Proof.
  intros Hroot Hacq HR Hcb Hz. pose proof (mq_init_contexts e dev sch priv cbs) as Hctx.
  pose proof (create_leaves_spec (ie_create e) (sch_handle sch) (num_tx_queues dev) 0) as (Hok & _ & Hl).
  revert Hacq. unfold acquired. rewrite Hcb. intros [[[[[[[Eq Et]%andb_prop Er]%andb_prop _]%andb_prop
    Eops]%andb_prop Est]%andb_prop Eh]%andb_prop Hall]%andb_prop.
  destruct (nd_ops dev) as [xmit|] eqn:Eo; [|done]. destruct (ie_stats e) as [st|]; [|done].
  destruct (nd_rx_handler dev) eqn:Ehd; [done|].
  specialize (Hctx xmit st Hroot Eq Et Er Hcb eq_refl eq_refl). cbv zeta in Hctx.
  destruct (create_leaves _ _ _ _) as [l ok]. cbn [fst snd] in *. unfold created in Hall. rewrite Hok, Hall in Hctx.
  specialize (Hl (eq_trans Hok Hall)).
  destruct (graft_leaves_ok (created e sch) (nd_txqs dev) 0 Hall) as (txqs' & Hg & Hleaf & _).
  destruct (fresh_ctl_ok R cbs st 0 0 (ie_reads e) (ie_tries e) (ie_now e) 0 (init_tx e cbs) 0
              (rx_ctx (init_rx e st 0)) HR Hz eq_refl eq_refl) as [Hctl Hview].
  do 7 eexists. split; [exact Hctx|]. unfold mq_attach. cbn [mq_qdiscs nd_txqs].
  split; [rewrite Hl; fold (created e sch); unfold num_tx_queues; rewrite Hg; reflexivity|].
  split; [exact Hleaf|]. cbv zeta. split; [apply flags_enabled|]. split; [done|]. split; [done|]. split; [reflexivity|].
  split; [done|]. split; [reflexivity|]. split; [by do 3 eexists|]. split; [by split|]. split; [exact Hctl|]. split; [exact Hview|].
  apply destroy_fresh.
Qed.

(** C24: When every allocation succeeds and no other handler receives the device's packets,
    attaching the discipline returns 0 and puts one new leaf on each transmit queue; the device
    is then managed, transmits through its driver, receives through the module, satisfies the
    invariant of the control plane with no classes, and destroying the discipline gives the GSO
    size and the handler back. *)
Theorem mq_init_ready R e dev sch priv cbs :
  sch_parent sch = TC_H_ROOT -> acquired e dev sch = true -> ISO_MAX_TX_RATE <= R < 2147483648 ->
  ie_rlcb e = Some cbs -> (forall i, cb_active_list (cbs i) = []) ->
  exists mq dev1 sch1 mq2 dev2 cx h,
    mq_init e dev sch priv = Ok (0, Some mq, dev1, sch1, []) /\
    mq_attach mq dev1 = Ok (mq2, dev2, map txq_qdisc_sleeping (nd_txqs dev)) /\
    map (fun q => Some (txq_qdisc_sleeping q)) (nd_txqs dev2) = map (created e sch) (seq 0 (num_tx_queues dev)) /\
    let up := installed dev2 sch1 mq2 in
    iso_enabled up = TCQ_F_EYEQ /\ nd_rx_handler up = Some IsoRxHandler /\ nd_gso_max_size up = ISO_GSO_MAX_SIZE /\
    iso_txctx_dev up = Ok cx /\ nd_ops dev = Some (cx_xmit cx) /\
    dev_host up = Ok h /\ linked up /\ empty_host h /\
    ctl_ok (valid := valid) R h /\ view h = {| cfg_txcs := ∅; cfg_vqs := ∅ |} /\
    mq_destroy mq2 up =
      Ok ({| up with nd_gso_max_size := nd_gso_max_size dev; nd_rx_handler := nd_rx_handler dev |}, []).
Proof. apply mq_init_attached. Qed.
(** ** What happens to a packet *)

Lemma txctx_set cx s dev : iso_txctx_dev dev = Ok cx -> iso_txctx_dev (set_txctx s dev) = Ok {| cx with cx_state := s |}.
Proof. destruct dev as [n q o r g [[sch [[qs [tx|] rx]|]]|]]; try discriminate. by intros [= <-]. Qed.

Lemma set_txctx_txqs s dev : nd_txqs (set_txctx s dev) = nd_txqs dev.
Proof. unfold set_txctx. by destruct (dev_priv dev). Qed.

(** C26: A packet enqueued to a leaf of a managed device is handled without a fault, and one of
    these happens. Given to the driver, or freed because the driver's queue is stopped, while no
    queue of the module changes. Taken: it was offered to the rate limiter of its destination,
    which appended it to its queue, up to the ECN mark, because it fits, or, for a large packet,
    appended its segments up to the one that fills the queue, the others being freed; the queue
    then sent from its front, and what left, when the class does not segment it, went behind the
    class's packets, which the class sends from the front, in order. Dropped with NET_XMIT_DROP
    because the queue has no room for it. Or, when segmentation failed, lost without being freed
    while success is reported, with nothing queued. *)
Theorem iso_enqueue_fate R ticklock cpu skb out cx xmit txq :
  iso_txctx_dev out = Ok cx -> tx_ok R (cx_state cx) -> cx_xmit cx = Some xmit ->
  nd_txqs out !! skb_queue_mapping skb = Some txq -> cpu ∈ possible_cpus -> pkt_ok skb ->
  exists ret f out' cx', iso_enqueue ticklock cpu skb out = Ok (ret, f, out') /\
    iso_txctx_dev out' = Ok cx' /\ tx_ok R (cx_state cx') /\ cx_xmit cx' = Some xmit /\
    match f with
    | SentBy x => ret = NET_XMIT_SUCCESS /\ x = xmit /\ txq_stopped txq = false /\ untouched (cx_state cx) (cx_state cx')
    | TakenPkt => ret = NET_XMIT_SUCCESS /\ is_ip skb = true /\ IsoGlobalEnabled <> 0 /\
        offered skb cpu ISO_VERDICT_SUCCESS (cx_state cx) (cx_state cx')
    | FreedPkt =>
        ret = NET_XMIT_DROP /\ is_ip skb = true /\ offered skb cpu ISO_VERDICT_DROP (cx_state cx) (cx_state cx') \/
        ret = NET_XMIT_SUCCESS /\ txq_stopped txq = true /\ untouched (cx_state cx) (cx_state cx')
    | LeakedPkt => ret = NET_XMIT_SUCCESS /\ skb_gso_segment (iso_enable_ecn skb) = GsoErr /\
        offered skb cpu ISO_VERDICT_ERROR (cx_state cx) (cx_state cx')
    | ToStack _ | Returned => False
    end.
Proof.
  intros Hcx Hok Hxmit Hq Hcpu Hpkt. unfold iso_enqueue.
  assert (Hpass : forall out' cx', iso_txctx_dev out' = Ok cx' -> cx_xmit cx' = Some xmit -> nd_txqs out' = nd_txqs out ->
    skb_xmit out' skb = Ok (if txq_stopped txq then FreedPkt else SentBy xmit)).
  { intros out' cx' Hc Hx Hn. unfold skb_xmit. rewrite Hc. cbn [mbind outcome_bind]. by rewrite Hx, Hn, Hq. }
  destruct (Z.eqb_spec IsoGlobalEnabled 0) as [|Hen]; cbn [mbind outcome_bind mret outcome_ret].
  { rewrite (Hpass out cx) by done. cbn [mbind outcome_bind]. do 4 eexists. split; [done|]. split; [done|].
    split; [done|]. split; [done|].
    destruct (txq_stopped txq); [right|]; by repeat (split; [done|]). }
  rewrite Hcx. cbn [mbind outcome_bind].
  destruct (iso_tx_verdict R ticklock cpu skb (cx_state cx) Hok Hcpu Hpkt) as (v & s' & E & Hok' & Hv).
  rewrite E. cbn [mbind outcome_bind]. pose proof (txctx_set cx s' out Hcx) as Hcx'.
  destruct v; cbn [mret outcome_ret mbind outcome_bind];
    rewrite ?(Hpass _ _ Hcx' Hxmit (set_txctx_txqs _ _)); cbn [mbind outcome_bind]; do 4 eexists;
    (split; [reflexivity|]; split; [exact Hcx'|]; split; [exact Hok'|]; split; [exact Hxmit|]).
  - destruct Hv. auto.
  - destruct Hv. auto.
  - destruct (txq_stopped txq); auto.
  - destruct Hv as [_ Hv]. split; [done|]. split; [by eapply offered_error|done].
Qed.

(** The packets that the module looks at. *)
Definition handled (dev : net_device) (skb : sk_buff) : bool :=
  negb (iso_enabled dev =? 0) && negb (IsoGlobalEnabled =? 0) &&
  match skb_pkt_type skb with PACKET_LOOPBACK => false | _ => true end.

(** C27: A received packet is passed on unchanged when the module is disabled or does not manage
    the device. Otherwise, if it is feedback for a new destination whose class has no state in
    stock, the handler dereferences a list head; if not, the packet is passed on with its length
    or, when it is feedback that the module generated, consumed and freed, no fault occurs and
    the device stays well-formed. *)
Theorem iso_rx_handler_fate R e cpu skb dev h :
  dev_host dev = Ok h -> host_ok (valid := valid) R h -> valid (op_rx_classify skb) ->
  0 <= skb_has_feedback skb <= R ->
  if handled dev skb then
    starved e skb h /\ iso_rx_handler e cpu skb dev = Oops BadPointer \/
    ~ starved e skb h /\ exists res f fb dev' h', iso_rx_handler e cpu skb dev = Ok (res, f, fb, dev') /\
      dev_host dev' = Ok h' /\ host_ok (valid := valid) R h' /\
      match res with
      | RX_HANDLER_PASS => exists skb', f = ToStack skb' /\ skb_len skb' = skb_len skb
      | RX_HANDLER_CONSUMED => f = FreedPkt /\ fb = None /\ iso_is_generated_feedback skb = 1
      end
  else iso_rx_handler e cpu skb dev = Ok (RX_HANDLER_PASS, ToStack skb, None, dev).
Proof.
  intros Hh Hok Hv Hfb. unfold handled, iso_rx_handler.
  destruct (iso_enabled dev =? 0); [by destruct (skb_pkt_type skb)|].
  destruct (IsoGlobalEnabled =? 0); [by destruct (skb_pkt_type skb)|].
  destruct (decide (starved e skb h)) as [Hst|Hst].
  { pose proof (rx_starved e cpu skb h (hok_rx _ _ Hok) Hv Hst) as E. rewrite Hh. cbn [mbind outcome_bind]. rewrite E.
    destruct (skb_pkt_type skb); [by left..|done]. }
  destruct (iso_rx_total R e cpu skb h Hok Hv Hfb Hst) as (v & skb' & fb & h' & E & Hok' & Hlen & Hverdict & _).
  rewrite Hh. cbn [mbind outcome_bind]. rewrite E.
  destruct (skb_pkt_type skb); cbn [negb andb orb mbind outcome_bind mret outcome_ret]; [| |done];
    right; (split; [done|]); destruct Hverdict as [->|(-> & Hg & ->)]; do 5 eexists;
    (split; [reflexivity|]; split; [by eapply dev_host_set|]; split; [done|]; eauto).
Qed.

(** ** The classes of the discipline *)

Lemma queue_get_small dev cl :
  0 < cl < 2 ^ 64 -> mq_queue_get dev cl = if cl <=? Z.of_nat (num_tx_queues dev) then Some (Z.to_nat (cl - 1)) else None.
Proof.
  intros Hcl. unfold mq_queue_get. rewrite u64_small by lia.
  destruct (Z.leb_spec (Z.of_nat (num_tx_queues dev)) (cl - 1)), (Z.leb_spec cl (Z.of_nat (num_tx_queues dev))); lia || done.
Qed.

Lemma class_queue_spec dev cl i q :
  nd_txqs dev !! i = Some q -> cl = Z.of_nat (i + 1) -> Z.of_nat (num_tx_queues dev) < 2 ^ 64 ->
  class_queue dev cl = Ok (i, q).
Proof.
  intros Hi -> Hn. unfold class_queue. pose proof (lookup_lt_Some _ _ _ Hi) as Hlt. unfold num_tx_queues in *.
  rewrite queue_get_small by lia. unfold num_tx_queues.
  rewrite (proj2 (Z.leb_le _ _)) by lia.
  replace (Z.to_nat (Z.of_nat (i + 1) - 1)) with i by lia. by rewrite Hi.
Qed.

Lemma walk_all fn n : forall ntx count,
  (forall cl, 0 <= fn cl) -> walk_loop fn ntx n count = (map (fun i => Z.of_nat (i + 1)) (seq ntx n), count + Z.of_nat n, false).
Proof.
  intros ntx count Hfn. revert ntx count. induction n as [|n IH]; intros ntx count; cbn [walk_loop seq map]; [by rewrite Z.add_0_r|].
  replace (fn _ <? 0) with false by (specialize (Hfn (Z.of_nat (ntx + 1))); lia).
  rewrite IH. do 2 f_equal. lia.
Qed.

(** The minor number of a handle made of two parts. *)
Lemma min_small c : 0 <= c < 65536 -> TC_H_MIN c = c.
Proof. intros Hc. unfold TC_H_MIN. change 65535 with (Z.ones 16). rewrite Z.land_ones by lia. apply Z.mod_small. lia. Qed.

Lemma min_make maj c : 0 <= c < 65536 -> TC_H_MIN (TC_H_MAKE maj c) = c.
Proof.
  intros Hc. unfold TC_H_MAKE. rewrite (min_small c) by done. unfold TC_H_MIN, TC_H_MAJ.
  rewrite Z.land_lor_distr_l, <-Z.land_assoc. change (Z.land 4294901760 65535) with 0. rewrite Z.land_0_r, Z.lor_0_l.
  exact (min_small c Hc).
Qed.

(** Every class that a walk of the discipline visits names a transmit queue: its lookup gives it
    back, its leaf and its dump are those of the queue, and grafting a discipline replaces that
    leaf and no other. *)
Theorem mq_class_operations fn dev cl new maj hd :
  (forall cl, 0 <= fn cl) -> Z.of_nat (num_tx_queues dev) < 65536 ->
  cl ∈ (mq_walk fn dev 0 0 false).1.1 ->
  exists q, nd_txqs dev !! Z.to_nat (cl - 1) = Some q /\
    mq_get dev (TC_H_MAKE maj cl) = cl /\ mq_select_queue dev (TC_H_MAKE maj cl) = Z.to_nat (cl - 1) /\
    mq_leaf dev cl = Ok (txq_qdisc_sleeping q) /\
    mq_dump_class dev cl hd = Ok (TC_H_ROOT, Z.lor hd cl, sch_handle (txq_qdisc_sleeping q)) /\
    exists dev', mq_graft dev cl new = Ok (txq_qdisc_sleeping q, dev') /\ mq_leaf dev' cl = Ok new /\
      forall cl', 0 <= cl' < 2 ^ 64 -> cl' <> cl -> mq_leaf dev' cl' = mq_leaf dev cl'.
Proof.
  intros Hfn Hn Hcl. unfold mq_walk in Hcl. rewrite walk_all, Nat.sub_0_r in Hcl by done. cbn [fst] in Hcl.
  apply list_elem_of_fmap in Hcl as (i & -> & Hi). apply elem_of_seq in Hi.
  destruct (lookup_lt_is_Some_2 (nd_txqs dev) i) as [q Hq]; [unfold num_tx_queues in Hi; lia|].
  replace (Z.to_nat (Z.of_nat (i + 1) - 1)) with i by lia.
  assert (Hcq : class_queue dev (Z.of_nat (i + 1)) = Ok (i, q)) by (apply class_queue_spec; lia || done).
  exists q. split; [done|]. unfold mq_get, mq_select_queue. rewrite min_make by lia.
  rewrite queue_get_small, (proj2 (Z.leb_le _ _)) by lia. split; [done|]. split; [lia|].
  unfold mq_leaf at 1, mq_dump_class, mq_graft. rewrite Hcq. cbn [mbind outcome_bind mret outcome_ret].
  split; [done|]. split; [by rewrite min_small by lia|]. eexists. split; [reflexivity|].
  split.
  - unfold mq_leaf. erewrite class_queue_spec; [|  |done|]; cycle 1.
    + apply list_lookup_insert_eq. by eapply lookup_lt_Some.
    + unfold num_tx_queues in *. cbn [nd_txqs]. rewrite length_insert. lia.
    + done.
  - intros cl' Hr Hne. unfold mq_leaf, class_queue, mq_queue_get, num_tx_queues. cbn [nd_txqs]. rewrite length_insert.
    destruct (Z.leb_spec (Z.of_nat (length (nd_txqs dev))) (u64 (cl' - 1))) as [|Hlt]; [done|].
    rewrite list_lookup_insert_ne; [done|]. unfold num_tx_queues in *. intros Hi'. apply Hne.
    destruct (decide (cl' = 0)) as [->|]; [change (u64 (0 - 1)) with 18446744073709551615 in *; lia|]. rewrite u64_small in Hi' by lia. lia.
Qed.

(** A counter that the dump adds up at its width. *)
Lemma dump_counter (get : Qdisc -> Z) (wrap : Z -> Z) txqs : forall sch,
  (forall a b, wrap (wrap a + b) = wrap (a + b)) ->
  (forall sch q, get (dump_add sch q) = wrap (get sch + get (txq_qdisc_sleeping q))) ->
  get sch = wrap (get sch) ->
  get (fold_left dump_add txqs sch) = wrap (get sch + sumZ (map (fun q => get (txq_qdisc_sleeping q)) txqs)).
Proof.
  intros sch Hw Hadd. revert sch. induction txqs as [|q txqs IH]; intros sch Hr; cbn [fold_left map sumZ].
  - by rewrite Z.add_0_r.
  - rewrite IH; rewrite Hadd; [by rewrite Hw, <-Z.add_assoc|].
    match goal with |- wrap ?x = _ => pose proof (Hw x 0) as E end. by rewrite !Z.add_0_r in E.
Qed.

(** The counters that the discipline reports are the sums of those of its leaves, at their
    widths. *)
Theorem mq_dump_totals dev sch :
  let total (get : Qdisc -> Z) := sumZ (map (fun q => get (txq_qdisc_sleeping q)) (nd_txqs dev)) in
  let out := mq_dump dev sch in
  sch_qlen out = u32 (total sch_qlen) /\
  bs_bytes (sch_bstats out) = u64 (total (fun s => bs_bytes (sch_bstats s))) /\
  bs_packets (sch_bstats out) = u32 (total (fun s => bs_packets (sch_bstats s))) /\
  qs_qlen (sch_qstats out) = u32 (total (fun s => qs_qlen (sch_qstats s))) /\
  qs_backlog (sch_qstats out) = u32 (total (fun s => qs_backlog (sch_qstats s))) /\
  qs_drops (sch_qstats out) = u32 (total (fun s => qs_drops (sch_qstats s))) /\
  qs_requeues (sch_qstats out) = u32 (total (fun s => qs_requeues (sch_qstats s))) /\
  qs_overlimits (sch_qstats out) = u32 (total (fun s => qs_overlimits (sch_qstats s))).
Proof.
  cbv zeta. unfold mq_dump.
  assert (Z32 : 0 = u32 0) by (by rewrite u32_small). assert (Z64 : 0 = u64 0) by (by rewrite u64_small).
  repeat split.
  - by apply (dump_counter sch_qlen u32 (nd_txqs dev) (dump_zero sch) u32_add_l).
  - by apply (dump_counter (fun s => bs_bytes (sch_bstats s)) u64 (nd_txqs dev) (dump_zero sch) u64_add_l).
  - by apply (dump_counter (fun s => bs_packets (sch_bstats s)) u32 (nd_txqs dev) (dump_zero sch) u32_add_l).
  - by apply (dump_counter (fun s => qs_qlen (sch_qstats s)) u32 (nd_txqs dev) (dump_zero sch) u32_add_l).
  - by apply (dump_counter (fun s => qs_backlog (sch_qstats s)) u32 (nd_txqs dev) (dump_zero sch) u32_add_l).
  - by apply (dump_counter (fun s => qs_drops (sch_qstats s)) u32 (nd_txqs dev) (dump_zero sch) u32_add_l).
  - by apply (dump_counter (fun s => qs_requeues (sch_qstats s)) u32 (nd_txqs dev) (dump_zero sch) u32_add_l).
  - by apply (dump_counter (fun s => qs_overlimits (sch_qstats s)) u32 (nd_txqs dev) (dump_zero sch) u32_add_l).
Qed.
End QdiscProps.

(** ** A device with two queues *)

Definition ex_sch (handle : Z) : Qdisc := {|
  sch_flags := 0; sch_parent := TC_H_ROOT; sch_handle := handle; sch_qlen := 3;
  sch_bstats := {| bs_bytes := 100; bs_packets := 2 |};
  sch_qstats := {| qs_qlen := 0; qs_backlog := 0; qs_drops := 0; qs_requeues := 0; qs_overlimits := 0 |} |}.

Definition ex_txq (handle : Z) : netdev_queue := {| txq_qdisc_sleeping := ex_sch handle; txq_stopped := false |}.

(** Before the discipline is attached: another module receives its packets or none does. *)
Definition ex_plain (handler : option rx_handler) : net_device := {|
  nd_name := text "eth0"; nd_txqs := [ex_txq 1; ex_txq 2]; nd_ops := Some (Some (DriverXmit 1));
  nd_rx_handler := handler; nd_gso_max_size := 65536; nd_qdisc := None |}.

(** After, with class 7. *)
Definition ex_up : net_device :=
  {| nd_name := text "eth0"; nd_txqs := [ex_txq 1; ex_txq 2]; nd_ops := Some (Some (DriverXmit 1));
     nd_rx_handler := Some IsoRxHandler; nd_gso_max_size := 65536;
     nd_qdisc := (let sch := ex_sch 65536 in Some ({| sch with sch_flags := TCQ_F_EYEQ |},
       Some {| mq_qdiscs := None;
               mq_txc := Some {| cx_linked := true; cx_xmit := Some (DriverXmit 1); cx_prev_gso := 65536; cx_state := ex_tx |};
               mq_rxc := Some {| rcx_linked := true; rcx_state := ex_rx1 |} |})) |}.

Definition ex_cb (_ : nat) : iso_rl_cb :=
  {| cb_timer := false; cb_xmit_timeout := false; cb_active_list := []; cb_last := 0; cb_avg_us := 0; cb_tx_bytes := 0 |}.

Definition ex_init : init_env := {|
  ie_qdiscs := true; ie_txc := true; ie_rxc := true; ie_rlcb := Some ex_cb; ie_stats := Some (fun _ => zero_rx_stats);
  ie_now := fun _ => 0; ie_reads := 0; ie_tries := 0; ie_create := fun _ classid => Some (ex_sch classid) |}.

(** A bridge receives the packets of the device: the failed attempt takes them from it. *)
Lemma mq_init_rollback_witness :
  exists priv' gone, mq_init (K := ref_kernel) (P := default_params) (Env := ex_env)
    ex_init (ex_plain (Some (OtherRxHandler 4))) (ex_sch 65536) {| mq_qdiscs := None; mq_txc := None; mq_rxc := None |} =
    Ok (- ENOMEM, priv', ex_plain None, ex_sch 65536, gone).
Proof.
  apply (mq_init_rollback (K := ref_kernel) (P := default_params) (Env := ex_env)
    ex_init (ex_plain (Some (OtherRxHandler 4))) (ex_sch 65536)); vm_compute; reflexivity.
Defined.

Lemma mq_init_ready_witness :
  exists mq dev1 sch1, mq_init (K := ref_kernel) (P := default_params) (Env := ex_env)
    ex_init (ex_plain None) (ex_sch 65536) {| mq_qdiscs := None; mq_txc := None; mq_rxc := None |} =
    Ok (0, Some mq, dev1, sch1, []).
Proof.
  destruct (mq_init_ready (K := ref_kernel) (P := default_params) (C := Mark.ops) (valid := is_u32) (Env := ex_env)
    10000 ex_init (ex_plain None) (ex_sch 65536) {| mq_qdiscs := None; mq_txc := None; mq_rxc := None |} ex_cb)
    as (mq & dev1 & sch1 & mq2 & dev2 & cx & h & H & _);
    [vm_compute; reflexivity|vm_compute; reflexivity|vm_compute; split; [discriminate|reflexivity]|reflexivity|reflexivity|].
  exists mq, dev1, sch1. exact H.
Defined.

Lemma iso_enqueue_fate_witness :
  exists out', iso_enqueue (K := ref_kernel) (P := default_params) (C := Mark.ops) (Env := ex_env) true 1 ex_pkt ex_up =
    Ok (NET_XMIT_SUCCESS, TakenPkt, out').
Proof.
  destruct (iso_enqueue_fate (K := ref_kernel) (P := default_params) (C := Mark.ops) (Env := ex_env)
    10000 true 1 ex_pkt ex_up _ (DriverXmit 1) (ex_txq 1) eq_refl ex_tx_ok eq_refl eq_refl)
    as (ret & f & out' & cx' & E & _ & _ & _ & Hf).
  - apply (bool_decide_unpack _). vm_compute. exact I.
  - split; vm_compute; discriminate.
  - exists out'. rewrite E.
    assert (E2 : match iso_enqueue (K := ref_kernel) (P := default_params) (C := Mark.ops) (Env := ex_env) true 1 ex_pkt ex_up
      with Ok (_, TakenPkt, _) => true | _ => false end = true) by (vm_compute; reflexivity).
    rewrite E in E2. destruct f; try discriminate E2. destruct Hf as [-> _]. reflexivity.
Defined.

Lemma iso_rx_handler_fate_witness :
  exists fb dev', iso_rx_handler (K := ref_kernel) (P := default_params) (C := Mark.ops) ex_rx_env 1 ex_fb ex_up =
    Ok (RX_HANDLER_CONSUMED, FreedPkt, fb, dev').
Proof.
  pose proof (iso_rx_handler_fate (K := ref_kernel) (P := default_params) (C := Mark.ops) (valid := is_u32) (Env := ex_env)
    10000 ex_rx_env 1 ex_fb ex_up ex_host eq_refl ex_host_ok) as H.
  change (handled (P := default_params) ex_up ex_fb) with true in H. cbv iota in H.
  destruct H as [[(_ & _ & pv & pc & txc & _ & _ & [_ ->]%ex_tx_lookup & _ & E) _]
    |(_ & res & f & fb & dev' & h' & E & _ & _ & Hres)].
  - vm_compute. split; [discriminate|reflexivity].
  - vm_compute. split; discriminate.
  - discriminate E.
  - exists fb, dev'. rewrite E.
    assert (E2 : match iso_rx_handler (K := ref_kernel) (P := default_params) (C := Mark.ops) ex_rx_env 1 ex_fb ex_up
      with Ok (RX_HANDLER_CONSUMED, _, _, _) => true | _ => false end = true) by (vm_compute; reflexivity).
    rewrite E in E2. destruct res; [discriminate E2|]. destruct Hres as (-> & _ & _). reflexivity.
Defined.

Lemma mq_class_operations_witness :
  exists dev', mq_graft ex_up 2 (ex_sch 9) = Ok (ex_sch 2, dev') /\ mq_leaf dev' 1 = Ok (ex_sch 1) /\ mq_leaf dev' 2 = Ok (ex_sch 9).
Proof.
  destruct (mq_class_operations (fun _ => 0) ex_up 2 (ex_sch 9) 65536 0) as (q & Hq & _ & _ & _ & _ & dev' & E & E2 & E3);
    [lia|vm_compute; reflexivity|apply (bool_decide_unpack _); vm_compute; exact I|].
  injection Hq as <-. exists dev'. split; [exact E|]. split; [|exact E2]. rewrite E3; [reflexivity|lia|lia].
Defined.
