(* ===== verification/Teardown.v ===== *)
(** * Leaving the contexts of a device (iso_tx_exit, iso_rx_exit, mq_destroy)

    With the ownership of Ownership, the loops that free the classes, their
    destination states, their rate limiters and the virtual queues free every
    object once and leave nothing behind. *)

From Stdlib Require Import Ascii String.
From S2P Require Import Prelude Params Kernel Packet Scan Class RateControl HashTable VirtualQueue.
From S2P Require Import VqTable RateLimiter Dequeue Device Tx TxPath Rx Host System Netdev Control.
From S2P Require Import Config CommandLine Module Ownership Qdisc.

Open Scope Z_scope.

(** ** Freeing a list of objects *)

Definition set_rls (rls : gmap rlptr iso_rl) (s : tx_state) : tx_state :=
  let w := tx_w s in set_w {| w with w_rls := rls |} s.

Definition set_states (sts : gmap loc iso_per_dest_state) (s : tx_state) : tx_state := {| s with tx_states := sts |}.

(** What is left of a heap without [l]. *)
Definition without `{Countable L} {A} (l : list L) (m m' : gmap L A) : Prop :=
  forall q, m' !! q = if bool_decide (q ∈ l) then None else m !! q.

Lemma without_some `{Countable L} {A} (l : list L) (m m' : gmap L A) q :
  without l m m' -> (is_Some (m' !! q) <-> (q ∉ l) /\ is_Some (m !! q)).
Proof. intros E. rewrite (E q). destruct (bool_decide_reflect (q ∈ l)); [|tauto]. split; [by intros [? ?]|tauto]. Qed.

Lemma without_trans `{Countable L} {A} (l l' : list L) (m m' m'' : gmap L A) :
  without l m m' -> without l' m' m'' -> without (l ++ l') m m''.
Proof.
  intros H1 H2 q. rewrite (H2 q), (H1 q). destruct (bool_decide_reflect (q ∈ l')), (bool_decide_reflect (q ∈ l)),
    (bool_decide_reflect (q ∈ l ++ l')) as [E|E]; try done; rewrite elem_of_app in E; tauto.
Qed.

(** A loop that deletes [key p] from a heap for every [p] of a list without repetition. *)
Lemma free_list `{Countable L} {A} (key : loc -> L) (get : tx_state -> gmap L A) (put : gmap L A -> tx_state -> tx_state)
    (free : tx_state -> loc -> outcome tx_state) l :
  Inj (=) (=) key ->
  (forall s m, get (put m s) = m) -> (forall s m m', put m (put m' s) = put m s) -> (forall s, put (get s) s = s) ->
  (forall s p, is_Some (get s !! key p) -> free s p = Ok (put (delete (key p) (get s)) s)) ->
  forall s, NoDup l -> (forall p, p ∈ l -> is_Some (get s !! key p)) ->
  exists m, foldM free l s = Ok (put m s) /\ without (key <$> l) (get s) m.
Proof.
  intros Hinj Hgp Hpp Hpg Hfree. induction l as [|p l IH]; intros s Hnd Hlive.
  - exists (get s). cbn. rewrite Hpg. split; [done|]. intros q. rewrite bool_decide_eq_false_2; [done|apply not_elem_of_nil].
  - apply NoDup_cons in Hnd as [Hp Hnd]. cbn [foldM]. rewrite Hfree by (apply Hlive; constructor). cbn [mbind outcome_bind].
    destruct (IH (put (delete (key p) (get s)) s)) as (m & E & Hm); [done| |].
    + intros q Hq. rewrite Hgp. rewrite lookup_delete_ne; [apply Hlive; by constructor|]. intros ->%Hinj. done.
    + rewrite Hpp in E. rewrite Hgp in Hm. exists m. split; [done|]. intros q. rewrite (Hm q). cbn [fmap list_fmap].
      destruct (bool_decide_reflect (q ∈ key <$> l)), (bool_decide_reflect (q ∈ key p :: (key <$> l))) as [Hq|Hq]; try done.
      * rewrite elem_of_cons in Hq. tauto.
      * apply elem_of_cons in Hq as [->|?]; [apply lookup_delete_eq|done].
      * rewrite lookup_delete_ne; [done|]. intros <-. apply Hq. constructor.
Qed.

Lemma free_rls l s : NoDup l -> (forall p, p ∈ l -> is_Some (w_rls (tx_w s) !! inl p)) ->
  exists rls, foldM iso_rl_free l s = Ok (set_rls rls s) /\ without (inl <$> l) (w_rls (tx_w s)) rls.
Proof.
  apply (free_list (L := rlptr) inl (fun s => w_rls (tx_w s)) set_rls iso_rl_free); try done; try apply _.
  - by intros [? ? ? []].
  - intros s0 p [rl Hp]. unfold iso_rl_free. by rewrite (deref_ok _ _ _ Hp).
Qed.

Lemma free_states l s : NoDup l -> (forall p, p ∈ l -> is_Some (tx_states s !! p)) ->
  exists sts, foldM iso_state_free l s = Ok (set_states sts s) /\ without l (tx_states s) sts.
Proof.
  intros Hnd Hl. destruct (free_list (fun p => p) tx_states set_states iso_state_free l) with (s := s) as (m & E & Hm); try done; try apply _.
  - by intros [].
  - intros s0 p [st Hp]. unfold iso_state_free. by rewrite (deref_ok _ _ _ Hp).
  - exists m. split; [done|]. by rewrite list_fmap_id in Hm.
Qed.

(** ** Freeing a class *)

Lemma held_cons f p l txcs txc : txcs !! p = Some txc -> held f (p :: l) txcs = f txc ++ held f l txcs.
Proof. intros Hp. cbn [held flat_map]. by rewrite Hp. Qed.

Lemma held_delete f l (txcs : gmap loc iso_tx_class) p : p ∉ l -> held f l (delete p txcs) = held f l txcs.
Proof.
  induction l as [|q l IH]; [done|]. intros [Hq Hl]%not_elem_of_cons. cbn [held flat_map]. unfold held in IH.
  rewrite lookup_delete_ne by done. by rewrite IH.
Qed.

(** The rate limiters and the states of a class, freed from the buckets and from the stock. *)
Lemma free_class_lists pc l s txc :
  holds (pc :: l) s -> tx_txcs s !! pc = Some txc ->
  exists rls sts s',
    (t1 ← foldM iso_rl_free (all_chains 256 (txc_rl_bucket txc)) s;
     t2 ← foldM iso_state_free (all_chains 256 (txc_state_bucket txc)) t1;
     t3 ← foldM iso_rl_free (txc_prealloc_rl_list txc) t2;
     foldM iso_state_free (txc_prealloc_state_list txc) t3) = Ok s' /\
    s' = set_states sts (set_rls rls s) /\
    without (inl <$> class_rls txc) (w_rls (tx_w s)) rls /\ without (class_states txc) (tx_states s) sts.
Proof.
  intros [_ _ _ Hr Hrl Hs Hst] Hpc.
  assert (forall p, p ∈ class_rls txc -> is_Some (w_rls (tx_w s) !! inl p)) as Hlr
    by (intros p Hp; apply Hrl; rewrite (held_cons _ _ _ _ _ Hpc), elem_of_app; by left).
  assert (forall p, p ∈ class_states txc -> is_Some (tx_states s !! p)) as Hls
    by (intros p Hp; apply Hst; rewrite (held_cons _ _ _ _ _ Hpc), elem_of_app; by left).
  rewrite (held_cons class_rls _ _ _ _ Hpc) in Hr. rewrite (held_cons class_states _ _ _ _ Hpc) in Hs. apply NoDup_app in Hr as (Hr & _ & _), Hs as (Hs & _ & _).
  unfold class_rls, class_states in *. apply NoDup_app in Hr as (Hr1 & Hr12 & Hr2), Hs as (Hs1 & Hs12 & Hs2).
  destruct (free_rls _ s Hr1) as (rls1 & -> & Hw1); [intros p Hp; apply Hlr, elem_of_app; by left|]. cbn [mbind outcome_bind].
  destruct (free_states _ (set_rls rls1 s) Hs1) as (sts1 & -> & Hw2); [intros p Hp; apply Hls, elem_of_app; by left|]. cbn [mbind outcome_bind].
  destruct (free_rls _ (set_states sts1 (set_rls rls1 s)) Hr2) as (rls2 & -> & Hw3).
  { intros p Hp. cbn. apply (without_some _ _ _ _ Hw1). split; [|apply Hlr, elem_of_app; by right].
    intros (q & [= ->] & Hq)%list_elem_of_fmap. by apply (Hr12 q). }
  cbn [mbind outcome_bind].
  destruct (free_states _ (set_rls rls2 (set_states sts1 (set_rls rls1 s))) Hs2) as (sts2 & -> & Hw4).
  { intros p Hp. cbn. apply (without_some _ _ _ _ Hw2). split; [|apply Hls, elem_of_app; by right]. intros Hq. by apply (Hs12 p). }
  exists rls2, sts2. eexists. split; [reflexivity|]. split; [done|]. rewrite fmap_app. split.
  - exact (without_trans _ _ _ _ _ Hw1 Hw3).
  - exact (without_trans _ _ _ _ _ Hw2 Hw4).
Qed.

(** The transmit side after the class is gone. *)
Lemma holds_free pc l s txc rls sts :
  holds (pc :: l) s -> tx_txcs s !! pc = Some txc ->
  without (inl <$> class_rls txc) (w_rls (tx_w s)) rls -> without (class_states txc) (tx_states s) sts ->
  let s' := set_rls (delete (inr pc) rls) (set_states sts s) in
  holds l {| s' with tx_txcs := delete pc (tx_txcs s) |}.
Proof.
  intros [H1 H2 H3 H4 H5 H6 H7] Hpc Hrls Hsts s'. apply NoDup_cons in H1 as [Hnin Hnd].
  rewrite (held_cons class_rls _ _ _ _ Hpc) in *. rewrite (held_cons class_states _ _ _ _ Hpc) in *. apply NoDup_app in H4 as (_ & Hd4 & H4), H6 as (_ & Hd6 & H6).
  assert (Hdel : forall `{Countable A} {B} (m : gmap A B) p q, is_Some (delete p m !! q) <-> q <> p /\ is_Some (m !! q)).
  { intros A ? ? B m p q. destruct (decide (q = p)) as [->|Hne]; [rewrite lookup_delete_eq; split; [by intros [? ?]|tauto]|].
    rewrite lookup_delete_ne by done. tauto. }
  split; cbn [s' set_rls set_states set_w tx_txcs tx_states tx_w w_rls]; rewrite ?held_delete by done; try done.
  - intros p. rewrite Hdel, <- H2, elem_of_cons. split; [|tauto]. intros Hp. split; [by intros ->|by right].
  - intros p. rewrite Hdel, (without_some _ _ _ _ Hrls), <- H3, elem_of_cons. split.
    + intros Hp. split; [by intros [= ->]|]. split; [|by right]. by intros (q & ? & _)%list_elem_of_fmap.
    + intros (Hne & _ & [->|?]); [done|done].
  - intros p. rewrite Hdel, (without_some _ _ _ _ Hrls), <- H5, elem_of_app. split.
    + intros Hp. split; [done|]. split; [|by right]. intros (q & [= ->] & Hq)%list_elem_of_fmap. by apply (Hd4 q).
    + intros (_ & Hno & [Hp|Hp]); [|done]. destruct Hno. apply list_elem_of_fmap. eauto.
  - intros p. rewrite (without_some _ _ _ _ Hsts), <- H7, elem_of_app. split; [|tauto].
    intros Hp. split; [|by right]. intros Hq. by apply (Hd6 p).
Qed.

(** ** Freeing all classes *)

(** While the contexts are left: the classes [l] are not freed yet. *)
Record freeing (l : list loc) (h : host) : Prop := {
  fg_tx : holds l (h_tx h);
  fg_vqs p txc pv : p ∈ l -> tx_txcs (h_tx h) !! p = Some txc -> txc_vq txc = Some pv -> is_Some (rx_vqs (h_rx h) !! pv);
  fg_refs pv vq : rx_vqs (h_rx h) !! pv = Some vq -> vq_refcnt vq = heap_sum (points_to pv) (tx_txcs (h_tx h)) l;
  fg_small : Z.of_nat (length l) <= MAX_CLASSES
}.

(** What freeing classes leaves alone. *)
Record rest_same (h h' : host) : Prop := {
  rs_list : txx_txc_list (tx_ctx (h_tx h')) = txx_txc_list (tx_ctx (h_tx h));
  rs_rx : rx_ctx (h_rx h') = rx_ctx (h_rx h);
  rs_vqs : dom (rx_vqs (h_rx h')) = dom (rx_vqs (h_rx h));
  rs_xmit : w_xmit (tx_w (h_tx h')) = w_xmit (tx_w (h_tx h))
}.

#[export] Instance rest_same_preorder : PreOrder rest_same.
Proof. split; [by split|]. intros h1 h2 h3 [] []. split; congruence. Qed.

Lemma heap_sum_delete {A} (g : A -> Z) (h : gmap loc A) l p : p ∉ l -> heap_sum g (delete p h) l = heap_sum g h l.
Proof. intros Hp. apply heap_sum_ext. intros q Hq. rewrite lookup_delete_ne; [done|]. by intros ->. Qed.

Lemma txc_free_one pc l h :
  freeing (pc :: l) h ->
  exists h', iso_txc_free pc h = Ok h' /\ freeing l h' /\ rest_same h h' /\ tx_ctx (h_tx h') = tx_ctx (h_tx h).
Proof.
  intros [Htx Hv Hrefs Hlen]. destruct (ho_class _ _ Htx pc) as [[txc Hpc] _]; [constructor|].
  pose proof (ho_nodup _ _ Htx) as [Hnin _]%NoDup_cons.
  destruct (free_class_lists pc l (h_tx h) txc Htx Hpc) as (rls & sts & s' & E & -> & Hrls & Hsts).
  pose proof (holds_free pc l (h_tx h) txc rls sts Htx Hpc Hrls Hsts) as Hh.
  assert (Hsum : forall pv, heap_sum (points_to pv) (tx_txcs (h_tx h)) (pc :: l) =
    points_to pv txc + heap_sum (points_to pv) (delete pc (tx_txcs (h_tx h))) l).
  { intros pv. rewrite heap_sum_delete by done. unfold heap_sum. cbn [map sumZ]. by rewrite Hpc. }
  assert (exists vqs, match txc_vq txc with
      | None => mret (rx_vqs (h_rx h))
      | Some pv => vq ← deref (rx_vqs (h_rx h)) pv;
          mret (<[pv := {| vq with vq_refcnt := s32 (vq_refcnt vq - 1) |}]> (rx_vqs (h_rx h)))
      end = Ok vqs /\ dom vqs = dom (rx_vqs (h_rx h)) /\
      forall pv vq, vqs !! pv = Some vq -> vq_refcnt vq = heap_sum (points_to pv) (delete pc (tx_txcs (h_tx h))) l)
    as (vqs & Evq & Hdom & Hrefs').
  { unfold MAX_CLASSES in Hlen. cbn [length] in Hlen. destruct (txc_vq txc) as [pv|] eqn:Ev.
    - destruct (Hv pc txc pv) as [vq Hvq]; [constructor|done|done|]. rewrite (deref_ok _ _ _ Hvq). eexists. split; [reflexivity|].
      split; [apply dom_insert_lookup_L; eauto|]. intros q vq'. pose proof (refs_small q l (delete pc (tx_txcs (h_tx h)))) as Hb.
      intros [[<- <-]|[Hne Hq]]%lookup_insert_Some; cbn [vq_refcnt].
      + rewrite (Hrefs _ _ Hvq), Hsum. unfold points_to at 1. rewrite Ev, decide_True by done. rewrite s32_small by lia. lia.
      + rewrite (Hrefs _ _ Hq), Hsum. unfold points_to at 1. rewrite Ev, decide_False by congruence. lia.
    - eexists. split; [reflexivity|]. split; [done|]. intros q vq' Hq. rewrite (Hrefs _ _ Hq), Hsum. unfold points_to at 1.
      rewrite Ev, decide_False by done. lia. }
  unfold iso_txc_free. rewrite (deref_ok _ _ _ Hpc). cbn [mbind outcome_bind]. revert E. cbn [mbind outcome_bind].
  destruct (foldM iso_rl_free _ (h_tx h)) as [t1|]; [|done]. cbn [mbind outcome_bind].
  destruct (foldM iso_state_free _ t1) as [t2|]; [|done]. cbn [mbind outcome_bind].
  destruct (foldM iso_rl_free _ t2) as [t3|]; [|done]. cbn [mbind outcome_bind]. intros ->. cbn [mbind outcome_bind].
  rewrite Evq. cbn [mbind outcome_bind mret outcome_ret]. eexists. split; [reflexivity|]. split; [|by split].
  split; cbn [h_tx h_rx rx_vqs tx_txcs]; [exact Hh| |exact Hrefs'|cbn [length] in Hlen; lia].
  intros p tx pv Hp. rewrite lookup_delete_Some. intros [_ Htxp] Evp. rewrite (dom_some _ _ pv Hdom).
  apply (Hv p tx); [by constructor|done|done].
Qed.

Lemma sumZ_perm l l' : l ≡ₚ l' -> sumZ l = sumZ l'.
Proof. induction 1; cbn; lia. Qed.

Lemma freeing_perm l l' h : l ≡ₚ l' -> freeing l h -> freeing l' h.
Proof.
  intros Hp [[H1 H2 H3 H4 H5 H6 H7] Hv Hr Hl].
  assert (Hheld : forall f, held f l' (tx_txcs (h_tx h)) ≡ₚ held f l (tx_txcs (h_tx h))).
  { intros f. unfold held. by rewrite Hp. }
  split; [split| | |].
  - by rewrite <- Hp.
  - intros p. by rewrite <- Hp.
  - intros p. by rewrite <- Hp.
  - by rewrite Hheld.
  - intros p. by rewrite Hheld.
  - by rewrite Hheld.
  - intros p. by rewrite Hheld.
  - intros p txc pv. rewrite <- Hp. apply Hv.
  - intros pv vq Hq. rewrite (Hr pv vq Hq). unfold heap_sum. by apply sumZ_perm, Permutation_map.
  - by rewrite <- Hp.
Qed.

Lemma freeing_unhash l bk h : freeing l h -> let tx := h_tx h in let ctx := tx_ctx tx in
  freeing l {| h with h_tx := {| tx with tx_ctx := {| ctx with txx_bucket := bk |} |} |}.
Proof. intros [[H1 H2 H3 H4 H5 H6 H7] Hv Hr Hl]. by split. Qed.

(** One chain of the hash table. *)
Lemma chain_free b chain : forall l h,
  freeing (chain ++ l) h ->
  exists h', foldM (txc_unhash_free b) chain h = Ok h' /\ freeing l h' /\ rest_same h h' /\
    forall b', b' <> b -> txx_bucket (tx_ctx (h_tx h')) b' = txx_bucket (tx_ctx (h_tx h)) b'.
Proof.
  induction chain as [|pc chain IH]; intros l h Hf; [exists h; by split_and!|]. cbn [foldM app] in *.
  destruct (txc_free_one pc (chain ++ l) _ (freeing_unhash _ (hlist_del b pc (txx_bucket (tx_ctx (h_tx h)))) h Hf)) as (h1 & E1 & Hf1 & Hs1 & Hc1).
  replace (txc_unhash_free b h pc) with (Ok h1) by (symmetry; exact E1). cbn [mbind outcome_bind]. destruct (IH l h1 Hf1) as (h2 & E2 & Hf2 & Hs2 & Hb2). exists h2. split; [exact E2|]. split; [done|].
  split; [etransitivity; [|exact Hs2]; by destruct Hs1; split|].
  intros b' Hb'. rewrite Hb2 by done. rewrite Hc1. cbn [h_tx tx_ctx txx_bucket]. unfold hlist_del.
  by destruct (Z.eqb_spec b' b).
Qed.

(** All chains. *)
Lemma chains_free idx : forall l h,
  NoDup idx -> freeing (flat_map (fun i => txx_bucket (tx_ctx (h_tx h)) (Z.of_nat i)) idx ++ l) h ->
  exists h', foldM (fun h i => let b := Z.of_nat i in foldM (txc_unhash_free b) (txx_bucket (tx_ctx (h_tx h)) b) h) idx h = Ok h' /\
    freeing l h' /\ rest_same h h'.
Proof.
  induction idx as [|i idx IH]; intros l h Hnd Hf; [exists h; by split_and!|]. apply NoDup_cons in Hnd as [Hi Hnd].
  cbn [foldM flat_map] in *. rewrite <- app_assoc in Hf. destruct (chain_free (Z.of_nat i) _ _ h Hf) as (h1 & -> & Hf1 & Hs1 & Hb1).
  cbn [mbind outcome_bind]. destruct (IH l h1 Hnd) as (h2 & E2 & Hf2 & Hs2).
  - assert (flat_map (fun i => txx_bucket (tx_ctx (h_tx h1)) (Z.of_nat i)) idx = flat_map (fun i => txx_bucket (tx_ctx (h_tx h)) (Z.of_nat i)) idx) as ->; [|done].
    clear -Hb1 Hi. induction idx as [|j idx IH]; [done|]. apply not_elem_of_cons in Hi as [Hj Hi]. cbn [flat_map].
    rewrite IH, Hb1 by (done || lia). done.
  - exists h2. split; [exact E2|]. split; [done|]. by transitivity h1.
Qed.

(** ** Leaving both contexts *)

Section Exit.
Context {K : Kernel} {KL : KernelLaws K} {P : params} {PO : params_ok P}.
Context {C : IsoClass} {valid : Z -> Prop} {L : IsoClassLaws C valid}.
Context {Env : Oracle} {CL : ClockLaws Env}.

(** The hash chains of a device hold its classes. *)
Lemma chains_list R h : ctl_pre (valid := valid) R h -> owned h -> all_chains 256 (txx_bucket (tx_ctx (h_tx h))) ≡ₚ tx_list h.
Proof.
  intros Hpre Hown. pose proof (co_table R h Hpre) as Ht. apply NoDup_Permutation; [|apply (tok_nodup _ _ _ _ _ Ht)|].
  - unfold all_chains. assert (Hnd : NoDup (seq 0 256)) by apply NoDup_seq. induction Hnd as [|i l Hi Hnd IH]; [constructor|].
    cbn [flat_map]. apply NoDup_app. split; [apply (ow_chains h Hown)|]. split; [|exact IH].
    intros p Hp Hq. apply list_elem_of_In, in_flat_map in Hq as (j & Hj & Hq). apply list_elem_of_In in Hj, Hq.
    apply (tok_chain _ _ _ _ _ Ht) in Hp as [_ (v & Hv & Hb)], Hq as [_ (v' & Hv' & Hb')]. rewrite Hv in Hv'. injection Hv' as <-.
    assert (i = j) as -> by lia. done.
  - intros p. unfold all_chains. rewrite list_elem_of_In, in_flat_map. split.
    + intros (i & _ & Hp). apply list_elem_of_In in Hp. by apply (tok_chain _ _ _ _ _ Ht) in Hp as [? _].
    + intros Hp. destruct (live_lookup _ _ p (tok_live _ _ _ _ _ Ht) Hp) as [v Hv].
      pose proof (land_255_range (op_hash (txc_klass v))) as Hr. exists (Z.to_nat (Z.land (op_hash (txc_klass v)) 255)).
      rewrite <- !list_elem_of_In. split; [apply elem_of_seq; lia|]. rewrite Z2Nat.id by lia.
      apply (tok_chain _ _ _ _ _ Ht). eauto.
Qed.

Lemma freeing_start R h : ctl_pre (valid := valid) R h -> owned h -> freeing (tx_list h) h.
Proof.
  intros Hpre Hown. split; [apply Hown| |apply (co_refs R h Hpre)|apply (co_count R h Hpre)].
  intros p txc pv Hp Htxc Hv. pose proof (co_vqs R h Hpre p txc pv Hp Htxc Hv) as Hin.
  exact (live_lookup _ _ pv (tok_live _ _ _ _ _ (ri_table _ (hok_rx R h (co_host R h Hpre)))) Hin).
Qed.

(** No object of the transmit side is left. *)
Definition tx_freed (s : tx_state) : Prop := tx_txcs s = ∅ /\ tx_states s = ∅ /\ w_rls (tx_w s) = ∅.

Lemma freeing_done h : freeing [] h -> tx_freed (h_tx h) /\ forall pv vq, rx_vqs (h_rx h) !! pv = Some vq -> vq_refcnt vq = 0.
Proof.
  intros [[_ H2 H3 _ H5 _ H7] _ Hr _]. cbn in *.
  assert (Hnone : forall `{Countable A} {B} (m : gmap A B), (forall p, ~ is_Some (m !! p)) -> m = ∅).
  { intros A ? ? B m Hm. apply map_eq. intros p. rewrite lookup_empty. specialize (Hm p). destruct (m !! p); [|done]. by destruct Hm. }
  split; [|intros pv vq Hq; by rewrite (Hr pv vq Hq)]. split; [|split]; apply Hnone.
  - intros p. rewrite <- H2. apply not_elem_of_nil.
  - intros p. rewrite <- H7. apply not_elem_of_nil.
  - intros [p|p]; [rewrite <- H5|rewrite <- H3]; apply not_elem_of_nil.
Qed.

Lemma tx_exit_frees R h : ctl_pre (valid := valid) R h -> owned h ->
  exists h', iso_tx_exit h = Ok h' /\ tx_freed (h_tx h') /\ w_xmit (tx_w (h_tx h')) = w_xmit (tx_w (h_tx h)) /\
    tx_list h' = tx_list h /\ rx_ctx (h_rx h') = rx_ctx (h_rx h) /\ dom (rx_vqs (h_rx h')) = dom (rx_vqs (h_rx h)) /\
    (forall pv vq, rx_vqs (h_rx h') !! pv = Some vq -> vq_refcnt vq = 0).
Proof.
  intros Hpre Hown. unfold iso_tx_exit. set (h0 := {| h_tx := _; h_rx := _ |}).
  assert (Hf : freeing (tx_list h) h0).
  { destruct (freeing_start R h Hpre Hown) as [[H1 H2 H3 H4 H5 H6 H7] Hv Hr Hl]. by split. }
  assert (Hc : all_chains 256 (txx_bucket (tx_ctx (h_tx h0))) ≡ₚ tx_list h) by exact (chains_list R h Hpre Hown).
  destruct (chains_free (seq 0 256) [] h0 (NoDup_seq 0 256)) as (h' & E & Hf' & [Hl Hrx Hd Hx]).
  { rewrite app_nil_r. apply (freeing_perm (tx_list h)); [|done]. symmetry. exact Hc. }
  exists h'. split; [exact E|]. destruct (freeing_done h' Hf') as [Hfreed Hrefs]. by split_and!.
Qed.

(** The loop of [iso_vqs_exit]. *)
Lemma vqs_free l : forall s, NoDup l -> (forall p, p ∈ l -> is_Some (rx_vqs s !! p)) ->
  (forall p vq, rx_vqs s !! p = Some vq -> vq_refcnt vq <= 0) ->
  exists s', foldM (fun s p => iso_vq_free p s) l s = Ok s' /\ without l (rx_vqs s) (rx_vqs s').
Proof.
  induction l as [|p l IH]; intros s Hnd Hlive Href; cbn [foldM].
  { exists s. split; [done|]. intros q. rewrite bool_decide_eq_false_2; [done|apply not_elem_of_nil]. }
  apply NoDup_cons in Hnd as [Hp Hnd]. destruct (Hlive p) as [vq Hvq]; [constructor|].
  assert (exists s1, iso_vq_free p s = Ok s1 /\ rx_vqs s1 = delete p (rx_vqs s)) as (s1 & -> & E1).
  { unfold iso_vq_free. rewrite (deref_ok _ _ _ Hvq). cbn [mbind outcome_bind].
    rewrite (proj2 (Z.ltb_ge 0 (vq_refcnt vq))) by by apply (Href p). by eexists. }
  cbn [mbind outcome_bind]. destruct (IH s1 Hnd) as (s' & E & Hw); rewrite ?E1 in *.
  - intros q Hq. rewrite lookup_delete_ne; [apply Hlive; by constructor|]. by intros ->.
  - intros q v [_ Hq]%lookup_delete_Some. by apply (Href q).
  - exists s'. split; [exact E|]. intros q. rewrite (Hw q). cbn [rx_vqs].
    destruct (bool_decide_reflect (q ∈ l)), (bool_decide_reflect (q ∈ p :: l)) as [Hq|Hq]; try done.
    + rewrite elem_of_cons in Hq. tauto.
    + apply elem_of_cons in Hq as [->|?]; [apply lookup_delete_eq|done].
    + rewrite lookup_delete_ne; [done|]. intros <-. apply Hq. constructor.
Qed.

Lemma rx_exit_frees s : NoDup (rxc_vq_list (rx_ctx s)) ->
  (forall p, p ∈ rxc_vq_list (rx_ctx s) <-> is_Some (rx_vqs s !! p)) ->
  (forall p vq, rx_vqs s !! p = Some vq -> vq_refcnt vq = 0) ->
  exists s', iso_rx_exit s = Ok s' /\ rx_vqs s' = ∅.
Proof.
  intros Hnd Hl Href. unfold iso_rx_exit, iso_vqs_exit.
  destruct (vqs_free (rxc_vq_list (rx_ctx s)) s Hnd) as (s' & -> & Hw); [intros p; apply Hl|intros p vq Hp; by rewrite (Href p vq)|].
  cbn [mbind outcome_bind]. eexists. split; [reflexivity|]. cbn [rx_vqs]. apply map_eq. intros p. rewrite lookup_empty, (Hw p).
  destruct (bool_decide_reflect (p ∈ rxc_vq_list (rx_ctx s))) as [|Hp]; [done|]. rewrite Hl in Hp. by destruct (rx_vqs s !! p); [destruct Hp|].
Qed.

Lemma empty_owned h : empty_host h -> owned h.
Proof.
  intros [H1 H2 H3 H4 H5 H6]. split.
  - rewrite H4. split; rewrite ?H1, ?H2, ?H3; try constructor; intros; by (apply not_elem_of_nil in H || destruct H).
  - intros b. rewrite H5. constructor.
  - intros p. rewrite H6, lookup_empty. by intros [? ?].
Qed.

Lemma destroy_frees R dev h :
  dev_host dev = Ok h -> linked dev -> ctl_pre (valid := valid) R h -> owned h ->
  exists mq h1 rx2 dev' ls, dev_priv dev = Ok mq /\
    iso_tx_exit h = Ok h1 /\ tx_freed (h_tx h1) /\
    iso_rx_exit (h_rx h1) = Ok rx2 /\ rx_vqs rx2 = ∅ /\
    mq_destroy mq dev = Ok (dev', ls) /\ nd_rx_handler dev' = None /\
    (exists cx, iso_txctx_dev dev = Ok cx /\ nd_gso_max_size dev' = cx_prev_gso cx) /\
    w_xmit (tx_w (h_tx h1)) = w_xmit (tx_w (h_tx h)).
Proof.
  intros Hh (mq & cx & rcx & Hmq & Hcx & Hrcx & Hl & Hrl) Hpre Hown.
  assert (h = {| h_tx := cx_state cx; h_rx := rcx_state rcx |}) as Eh.
  { unfold dev_host, iso_txctx_dev, iso_rxctx_dev in Hh. rewrite Hmq in Hh. cbn [mbind outcome_bind] in Hh. rewrite Hcx, Hrcx in Hh. by injection Hh as <-. }
  destruct (tx_exit_frees R h Hpre Hown) as (h1 & E1 & Hfreed & Hx & _ & Hrx & Hd & Hrefs).
  destruct (rx_exit_frees (h_rx h1)) as (rx2 & E2 & Hrx2); [| |exact Hrefs|].
  - rewrite Hrx. exact (tok_nodup _ _ _ _ _ (ri_table _ (hok_rx R h (co_host R h Hpre)))).
  - intros p. rewrite Hrx, (dom_some _ _ p Hd). split; [|apply (ow_vqs h Hown)].
    exact (live_lookup _ _ p (tok_live _ _ _ _ _ (ri_table _ (hok_rx R h (co_host R h Hpre))))).
  - exists mq, h1, rx2. unfold mq_destroy, tx_context_exit, rx_context_exit. rewrite Hcx, Hrcx. rewrite Hl, Hrl, <- Eh, E1.
    cbn [negb mbind outcome_bind mret outcome_ret]. rewrite E2. cbn [mbind outcome_bind mret outcome_ret].
    do 2 eexists. do 6 (split; [done|]). split; [done|]. split; [|done]. exists cx. unfold iso_txctx_dev. by rewrite Hmq; cbn; rewrite Hcx.
Qed.

Lemma mq_destroy_ok R dev h :
  dev_host dev = Ok h -> linked dev -> ctl_pre (valid := valid) R h -> owned h ->
  exists mq dev' ls, dev_priv dev = Ok mq /\ mq_destroy mq dev = Ok (dev', ls) /\ nd_rx_handler dev' = None.
Proof.
  intros Hh Hl Hpre Hown. destruct (destroy_frees R dev h Hh Hl Hpre Hown) as (mq & h1 & rx2 & dev' & ls & Hmq & _ & _ & _ & _ & E & Hn & _).
  by exists mq, dev', ls.
Qed.

Lemma mreach_owned R h h' c : ctl_ok (valid := valid) R h -> owned h -> mreach (valid := valid) R h h' c ->
  ctl_ok (valid := valid) R h' /\ owned h'.
Proof.
  intros Hctl Hown Hr. induction Hr as [|h1 c m h2 Hr IH Hm E]; [done|]. destruct IH as [Hctl1 Hown1].
  split; [|by apply (mstep_owned R h1 m h2)].
  destruct (mstep_ok R h1 m Hctl1 (proj1 Hm)) as [(h3 & E3 & Hctl3 & _)|[_ E3]]; [|congruence].
  assert (h3 = h2) as -> by congruence. by apply Hctl3.
Qed.

Lemma linked_set h dev : linked dev -> linked (set_dev_host h dev).
Proof.
  intros (mq & cx & rcx & Hmq & Hcx & Hrcx & Hl & Hrl). destruct dev as [n q o r g [[sch [[qs [tx|] [rx|]]|]]|]];
    try discriminate Hmq; injection Hmq as <-; try discriminate. injection Hcx as <-. injection Hrcx as <-. by do 3 eexists.
Qed.


(** Leaving the transmit context does not cancel the work that a class scheduled for its
    allocator: the class is freed, and the work that runs afterwards dereferences it. *)
Theorem teardown_leaves_work_pending R h pc txc es :
  ctl_pre (valid := valid) R h -> owned h -> tx_txcs (h_tx h) !! pc = Some txc -> txc_allocator txc = true ->
  exists h1, iso_tx_exit h = Ok h1 /\ pc ∈ tx_list h1 /\ tx_txcs (h_tx h1) !! pc = None /\
    iso_txc_allocator pc es (h_tx h1) = Oops BadPointer.
Proof.
  intros Hpre Hown Hpc _. destruct (tx_exit_frees R h Hpre Hown) as (h1 & E & (Ht & _) & _ & Hl & _). exists h1. split; [done|].
  split; [rewrite Hl; apply (ho_class _ _ (ow_tx h Hown)); eauto|]. unfold iso_txc_allocator, deref. by rewrite Ht, lookup_empty.
Qed.
End Exit.

(** ** The device of the examples *)

(** Ownership from the domains of the heaps. *)
Lemma holds_doms l s :
  NoDup l -> NoDup (held class_rls l (tx_txcs s)) -> NoDup (held class_states l (tx_txcs s)) ->
  dom (tx_txcs s) = list_to_set l -> dom (tx_states s) = list_to_set (held class_states l (tx_txcs s)) ->
  dom (w_rls (tx_w s)) = list_to_set ((inl <$> held class_rls l (tx_txcs s)) ++ (inr <$> l)) -> holds l s.
Proof.
  intros H1 H2 H3 Ht Hs Hr. split; [done| | |done| |done|].
  - intros p. by rewrite <- elem_of_dom, Ht, elem_of_list_to_set.
  - intros p. rewrite <- elem_of_dom, Hr, elem_of_list_to_set, elem_of_app, !list_elem_of_fmap. split; [eauto|].
    by intros [(q & ? & _)|(q & [= ->] & ?)].
  - intros p. rewrite <- elem_of_dom, Hr, elem_of_list_to_set, elem_of_app, !list_elem_of_fmap. split; [eauto|].
    by intros [(q & [= ->] & ?)|(q & ? & _)].
  - intros p. by rewrite <- elem_of_dom, Hs, elem_of_list_to_set.
Qed.

Lemma ex_owned : owned ex_host.
Proof.
  split.
  - apply holds_doms; try (by apply (bool_decide_unpack _); vm_compute); by vm_compute.
  - intros b. unfold ex_host. cbn [h_tx ex_tx tx_ctx txx_bucket]. unfold hlist_add_head, no_buckets. destruct (_ =? _); [apply NoDup_singleton|constructor].
  - intros p Hp. apply elem_of_dom in Hp. revert Hp. change (dom (rx_vqs (h_rx ex_host))) with ({[ 1%positive ]} : gset loc).
    rewrite elem_of_singleton. intros ->. by apply (bool_decide_unpack _); vm_compute.
Qed.

Lemma ex_linked : linked ex_up.
Proof. by do 3 eexists. Qed.


(** The same device while the allocator of class 7 waits for its turn. *)
Definition ex_pending : host := set_tx (set_txc 1%positive {| ex_txc with txc_allocator := true |} ex_tx) ex_host.

Lemma ex_pending_ok :
  ctl_ok (K := ref_kernel) (P := default_params) (C := Mark.ops) (valid := is_u32) (Env := ex_env) 10000 ex_pending /\ owned ex_pending.
Proof.
  assert (Hpc : tx_txcs ex_tx !! 1%positive = Some ex_txc) by reflexivity. split.
  - eapply frame_ctl; [apply (frame_set_tx _ ex_host), (frame_set_txc _ ex_txc); [by apply deref_ok|done]| |exact ex_ctl_ok].
    split; [|apply ex_host_ok]. by apply tx_ok_flag; [apply ex_tx_ok|].
  - apply (owned_moves ex_host); [exact ex_owned| |done]. apply (moves_txc _ ex_txc); [by apply deref_ok|done|done].
Qed.

Lemma teardown_leaves_work_pending_witness :
  exists h1, iso_tx_exit (K := ref_kernel) ex_pending = Ok h1 /\
    iso_txc_allocator (K := ref_kernel) (P := default_params) 1%positive [] (h_tx h1) = Oops BadPointer.
Proof.
  destruct (teardown_leaves_work_pending (K := ref_kernel) (P := default_params) (C := Mark.ops) (valid := is_u32) (Env := ex_env)
    10000 ex_pending 1%positive {| ex_txc with txc_allocator := true |} []) as (h1 & E & _ & _ & Hw).
  - apply ex_pending_ok.
  - apply ex_pending_ok.
  - reflexivity.
  - reflexivity.
  - exists h1. split; [exact E|exact Hw].
Defined.
