(* ===== verification/Direct.v ===== *)
(** * The build that replaces the driver's transmit function (direct.c)

    One device, [iso_netdev], with the global contexts of tx.c and rx.c.  The
    module puts its own function in place of the driver's [ndo_start_xmit] and
    keeps the driver's to transmit. *)

From S2P Require Import Prelude Params Kernel Packet Scan Class RateControl HashTable VirtualQueue.
From S2P Require Import VqTable RateLimiter Dequeue Device Tx TxPath Rx Host Netdev Qdisc.

Open Scope Z_scope.

(** [iso_netdev], [old_ndo_start_xmit], [global_txcontext] and [global_rxcontext]. *)
Record direct := {
  dr_dev : option net_device;
  dr_old : option ndo_xmit;
  dr_tx : tx_ctxt;
  dr_rx : rx_ctxt
}.

Definition NETDEV_TX_OK : Z := 0.
Definition NETDEV_TX_BUSY : Z := 16.

Module Direct.
Section Direct.
Context {K : Kernel} {P : params} {C : IsoClass} {Env : Oracle}.

(** [skb_xmit(skb)] *)
Definition skb_xmit (d : direct) (skb : sk_buff) : outcome fate :=
  match dr_old d with
  | None => mret LeakedPkt
  | Some xmit =>
      match dr_dev d with
      | None => Oops BadPointer
      | Some dev =>
          match nd_txqs dev !! skb_queue_mapping skb with
          | None => Oops BadPointer
          | Some txq => mret (if txq_stopped txq then FreedPkt else SentBy xmit)
          end
      end
  end.

(** [iso_tx_hook_init(txctx)] *)
Definition iso_tx_hook_init (d : direct) : Z * direct :=
  match dr_dev d with
  | None => (1, d)
  | Some dev =>
      match nd_ops dev with
      | None => (1, d)
      | Some xmit =>
          let cx := dr_tx d in
          (0, {| d with dr_old := xmit; dr_tx := {| cx with cx_xmit := xmit |};
                        dr_dev := Some {| dev with nd_ops := Some (Some iso_ndo_start_xmit_ptr) |} |})
      end
  end.

(** [iso_tx_hook_exit(txctx)] *)
Definition iso_tx_hook_exit (d : direct) : outcome direct :=
  match dr_dev d with
  | None => Oops BadPointer
  | Some dev =>
      match nd_ops dev with
      | None => Oops BadPointer
      | Some _ => mret {| d with dr_dev := Some {| dev with nd_ops := Some (cx_xmit (dr_tx d)) |} |}
      end
  end.

(** [iso_rx_hook_init(rxctx)] *)
Definition iso_rx_hook_init (d : direct) : Z * direct :=
  match dr_dev d with
  | None => (1, d)
  | Some dev =>
      match nd_rx_handler dev with
      | Some _ => (- EBUSY, d)
      | None => (0, {| d with dr_dev := Some {| dev with nd_rx_handler := Some IsoRxHandler |} |})
      end
  end.

(** [iso_rx_hook_exit(rxctx)] *)
Definition iso_rx_hook_exit (d : direct) : outcome direct :=
  match dr_dev d with
  | None => Oops BadPointer
  | Some dev => mret {| d with dr_dev := Some {| dev with nd_rx_handler := None |} |}
  end.

Definition set_tx (s : tx_state) (d : direct) : direct :=
  let cx := dr_tx d in {| d with dr_tx := {| cx with cx_state := s |} |}.

(** [iso_ndo_start_xmit(skb, out)] on [cpu]: a packet that is reported busy stays
    with the caller. *)
Definition iso_ndo_start_xmit (ticklock : bool) (cpu : nat) (skb : sk_buff) (d : direct)
    : outcome (Z * fate * direct) :=
  '(verdict, s) ← iso_tx ticklock cpu skb (cx_state (dr_tx d));
  let d := set_tx s d in
  match verdict with
  | ISO_VERDICT_DROP => mret (NETDEV_TX_BUSY, Returned, d)
  | ISO_VERDICT_PASS => f ← skb_xmit d skb; mret (NETDEV_TX_OK, f, d)
  | ISO_VERDICT_SUCCESS => mret (NETDEV_TX_OK, TakenPkt, d)
  | ISO_VERDICT_ERROR => mret (NETDEV_TX_OK, LeakedPkt, d)
  end.

Definition host_of (d : direct) : host := {| h_tx := cx_state (dr_tx d); h_rx := rcx_state (dr_rx d) |}.

Definition set_host (h : host) (d : direct) : direct :=
  let cx := dr_tx d in
  let rx := dr_rx d in
  {| d with dr_tx := {| cx with cx_state := h_tx h |}; dr_rx := {| rx with rcx_state := h_rx h |} |}.

(** [iso_rx_handler(pskb)] *)
Definition iso_rx_handler (e : rx_env) (cpu : nat) (skb : sk_buff) (d : direct)
    : outcome (rx_handler_result * fate * option sk_buff * direct) :=
  match skb_pkt_type skb with
  | PACKET_LOOPBACK => mret (RX_HANDLER_PASS, ToStack skb, None, d)
  | _ =>
      '(verdict, skb, fb, h) ← iso_rx e cpu skb (host_of d);
      match verdict with
      | ISO_VERDICT_DROP => mret (RX_HANDLER_CONSUMED, FreedPkt, fb, set_host h d)
      | _ => mret (RX_HANDLER_PASS, ToStack skb, fb, set_host h d)
      end
  end.

(** [iso_tx_init(&global_txcontext)] and [iso_rx_init(&global_rxcontext)] with what
    they do to the device. *)
Definition tx_context_init (rlcb : option (percpu iso_rl_cb)) (d : direct) : outcome (Z * direct) :=
  match dr_dev d with
  | None => Oops BadPointer
  | Some dev =>
      match rlcb with
      | None => let '(ret, s) := iso_tx_init rlcb 0 (cx_state (dr_tx d)) in mret (ret, set_tx s d)
      | Some _ =>
          let cx := dr_tx d in
          let d := {| d with dr_tx := {| cx with cx_linked := true; cx_prev_gso := nd_gso_max_size dev |};
                             dr_dev := Some {| dev with nd_gso_max_size := ISO_GSO_MAX_SIZE |} |} in
          let '(hook, d) := iso_tx_hook_init d in
          let '(ret, s) := iso_tx_init rlcb hook (cx_state (dr_tx d)) in
          mret (ret, set_tx s d)
      end
  end.

Definition rx_context_init (stats : option (percpu iso_rx_stats)) (now : nat -> Z) (d : direct) : outcome (Z * direct) :=
  match dr_dev d with
  | None => Oops BadPointer
  | Some _ =>
      let '(hook, hooked) := iso_rx_hook_init d in
      let s := rcx_state (dr_rx d) in
      let '(ret, ctx) := iso_rx_init stats (now 0%nat) (now 1%nat) (now 2%nat) hook (rx_ctx s) in
      mret (ret, match stats with
                 | None => let rx := dr_rx d in {| d with dr_rx := {| rx with rcx_state := {| s with rx_ctx := ctx |} |} |}
                 | Some _ => {| hooked with dr_rx := {| rcx_linked := true; rcx_state := {| s with rx_ctx := ctx |} |} |}
                 end)
  end.

(** [iso_tx_exit(&global_txcontext)] *)
Definition tx_context_exit (d : direct) : outcome direct :=
  if negb (cx_linked (dr_tx d)) then Oops BadPointer
  else
    h ← iso_tx_exit (host_of d);
    match dr_dev d with
    | None => Oops BadPointer
    | Some dev =>
        let cx := dr_tx d in
        let d := {| d with dr_dev := Some {| dev with nd_gso_max_size := cx_prev_gso cx |};
                           dr_tx := {| cx with cx_linked := false |} |} in
        mret (set_host h d)
    end.

(** [iso_rx_exit(&global_rxcontext)] *)
Definition rx_context_exit (d : direct) : outcome direct :=
  if negb (rcx_linked (dr_rx d)) then Oops BadPointer
  else
    rx ← iso_rx_exit (rcx_state (dr_rx d));
    iso_rx_hook_exit {| d with dr_rx := {| rcx_linked := false; rcx_state := rx |} |}.
End Direct.
End Direct.

(** ** Properties *)

Section DirectProps.
Context {K : Kernel} {KL : KernelLaws K} {P : params} {PO : params_ok P}.
Context {C : IsoClass} {valid : Z -> Prop} {L : IsoClassLaws C valid}.
Context {Env : Oracle} {CL : ClockLaws Env}.

(** A packet given to the replaced transmit function ends in exactly one place: sent, freed
    because the queue is stopped, taken by the rate limiter of its destination, left to the
    caller with NETDEV_TX_BUSY, or, when segmentation failed, lost without being freed. *)
Theorem direct_xmit_fate R ticklock cpu skb d dev xmit txq :
  tx_ok R (cx_state (dr_tx d)) -> dr_dev d = Some dev -> dr_old d = Some xmit ->
  nd_txqs dev !! skb_queue_mapping skb = Some txq -> cpu ∈ possible_cpus -> pkt_ok skb ->
  exists ret f d', Direct.iso_ndo_start_xmit ticklock cpu skb d = Ok (ret, f, d') /\
    tx_ok R (cx_state (dr_tx d')) /\ dr_dev d' = Some dev /\ dr_old d' = Some xmit /\
    match f with
    | SentBy x => ret = NETDEV_TX_OK /\ x = xmit /\ txq_stopped txq = false
    | TakenPkt => ret = NETDEV_TX_OK /\ is_ip skb = true /\
        offered skb cpu ISO_VERDICT_SUCCESS (cx_state (dr_tx d)) (cx_state (dr_tx d'))
    | Returned => ret = NETDEV_TX_BUSY /\ is_ip skb = true /\
        offered skb cpu ISO_VERDICT_DROP (cx_state (dr_tx d)) (cx_state (dr_tx d'))
    | FreedPkt => ret = NETDEV_TX_OK /\ txq_stopped txq = true
    | LeakedPkt => ret = NETDEV_TX_OK /\ skb_gso_segment (iso_enable_ecn skb) = GsoErr
    | ToStack _ => False
    end.
Proof.
  intros Hok Hd Hold Hq Hcpu Hpkt. unfold Direct.iso_ndo_start_xmit.
  destruct (iso_tx_verdict R ticklock cpu skb _ Hok Hcpu Hpkt) as (v & s' & E & Hok' & Hv).
  rewrite E. cbn [mbind outcome_bind].
  assert (Hx : Direct.skb_xmit (Direct.set_tx s' d) skb = Ok (if txq_stopped txq then FreedPkt else SentBy xmit)).
  { unfold Direct.skb_xmit, Direct.set_tx. cbn [dr_old dr_dev]. by rewrite Hold, Hd, Hq. }
  destruct v; cbn [mret outcome_ret mbind outcome_bind]; rewrite ?Hx; cbn [mbind outcome_bind]; do 3 eexists;
    (split; [reflexivity|]; split; [exact Hok'|]; split; [exact Hd|]; split; [exact Hold|]);
    try (destruct Hv as [Hip Hoff]); try destruct (txq_stopped txq); eauto using offered_error.
Qed.

(** The hook's round trip: the driver's function is put back. *)
Lemma direct_hook_roundtrip d dev xmit :
  dr_dev d = Some dev -> nd_ops dev = Some xmit ->
  exists d', Direct.iso_tx_hook_init d = (0, d') /\ dr_old d' = xmit /\
    exists d'', Direct.iso_tx_hook_exit d' = Ok d'' /\ dr_dev d'' = Some dev.
Proof.
  intros Hd Hops. unfold Direct.iso_tx_hook_init. rewrite Hd, Hops. eexists. split; [reflexivity|]. split; [done|].
  eexists. split; [reflexivity|]. cbn [dr_dev]. destruct dev. cbn in *. by subst.
Qed.
End DirectProps.

(** ** A device with class 7 *)

Definition ex_direct : direct := {|
  dr_dev := Some (ex_plain (Some IsoRxHandler)); dr_old := Some (DriverXmit 1);
  dr_tx := {| cx_linked := true; cx_xmit := Some (DriverXmit 1); cx_prev_gso := 65536; cx_state := ex_tx |};
  dr_rx := {| rcx_linked := true; rcx_state := ex_rx1 |} |}.

Lemma direct_xmit_fate_witness :
  exists d', Direct.iso_ndo_start_xmit (K := ref_kernel) (P := default_params) (C := Mark.ops) (Env := ex_env)
    true 1 ex_pkt ex_direct = Ok (NETDEV_TX_OK, TakenPkt, d').
Proof.
  destruct (direct_xmit_fate (K := ref_kernel) (P := default_params) (C := Mark.ops) (Env := ex_env)
    10000 true 1 ex_pkt ex_direct _ (DriverXmit 1) (ex_txq 1) ex_tx_ok eq_refl eq_refl eq_refl)
    as (ret & f & d' & E & _ & _ & _ & Hf).
  - apply (bool_decide_unpack _). vm_compute. exact I.
  - split; vm_compute; discriminate.
  - exists d'. rewrite E.
    assert (E2 : match Direct.iso_ndo_start_xmit (K := ref_kernel) (P := default_params) (C := Mark.ops) (Env := ex_env)
      true 1 ex_pkt ex_direct with Ok (_, TakenPkt, _) => true | _ => false end = true) by (vm_compute; reflexivity).
    rewrite E in E2. destruct f; try discriminate E2. destruct Hf as [-> _]. reflexivity.
Defined.
