(* ===== verification/Bridge.v ===== *)
(** * The build that hooks into the bridge (bridge.c)

    Two netfilter hooks on the packets of one device.  bridge.c declares and
    calls [iso_tx] and [iso_rx] with two arguments although they take the context
    as a third, so that they find it in whatever the register of the third
    argument holds: that register is an argument of the hooks. *)

From S2P Require Import Prelude Params Kernel Packet Scan Class RateControl HashTable VirtualQueue.
From S2P Require Import VqTable RateLimiter Dequeue Device Tx TxPath Rx Host.

Open Scope Z_scope.

Module Bridge.

Definition NF_DROP : Z := 0.
Definition NF_ACCEPT : Z := 1.
Definition NF_STOLEN : Z := 2.

(** The functions that are hooked. *)
Inductive nf_hookfn := iso_rx_bridge_ptr | iso_tx_bridge_ptr.

Inductive nf_hooknum := NF_BR_PRE_ROUTING | NF_BR_POST_ROUTING.
Inductive nf_priority := NF_BR_PRI_FIRST | NF_BR_PRI_BRNF.

(** [struct nf_hook_ops], with [pf = PF_BRIDGE]. *)
Record nf_hook_ops := { nf_hook : nf_hookfn; nf_num : nf_hooknum; nf_prio : nf_priority }.

#[global] Instance nf_hookfn_eq_dec : EqDecision nf_hookfn.
Proof. solve_decision. Defined.
#[global] Instance nf_hooknum_eq_dec : EqDecision nf_hooknum.
Proof. solve_decision. Defined.
#[global] Instance nf_priority_eq_dec : EqDecision nf_priority.
Proof. solve_decision. Defined.
#[global] Instance nf_hook_ops_eq_dec : EqDecision nf_hook_ops.
Proof. solve_decision. Defined.

Definition hook_out : nf_hook_ops := {| nf_hook := iso_tx_bridge_ptr; nf_num := NF_BR_POST_ROUTING; nf_prio := NF_BR_PRI_BRNF |}.
Definition hook_in : nf_hook_ops := {| nf_hook := iso_rx_bridge_ptr; nf_num := NF_BR_PRE_ROUTING; nf_prio := NF_BR_PRI_FIRST |}.

(** The netfilter hooks of the machine; [ret] is what [nf_register_hook] returns. *)
Definition nf_register_hook (ret : Z) (ops : nf_hook_ops) (hooks : list nf_hook_ops) : Z * list nf_hook_ops :=
  (ret, if ret =? 0 then ops :: hooks else hooks).

Definition nf_unregister_hook (ops : nf_hook_ops) (hooks : list nf_hook_ops) : list nf_hook_ops :=
  filter (fun o => o <> ops) hooks.

Definition iso_tx_hook_init (ret : Z) : list nf_hook_ops -> Z * list nf_hook_ops := nf_register_hook ret hook_out.
Definition iso_rx_hook_init (ret : Z) : list nf_hook_ops -> Z * list nf_hook_ops := nf_register_hook ret hook_in.
Definition iso_tx_hook_exit : list nf_hook_ops -> list nf_hook_ops := nf_unregister_hook hook_out.
Definition iso_rx_hook_exit : list nf_hook_ops -> list nf_hook_ops := nf_unregister_hook hook_in.

(** The register of the third argument: the address of the context, by accident, or something else. *)
Inductive register := TheContext | Junk.

Section Hooks.
Context {K : Kernel} {P : params} {C : IsoClass} {Env : Oracle}.

(** The packet that [skb_xmit(skb)] gives to [dev_queue_xmit]: the link header is uncovered. *)
Definition skb_xmit (skb : sk_buff) : sk_buff := skb_push skb ETH_HLEN.

(** [iso_rx_bridge(hooknum, skb, in, out, okfn)]; devices are their addresses. *)
Definition iso_rx_bridge (iso_netdev : option loc) (reg : register) (e : rx_env) (cpu : nat) (skb : sk_buff)
    (dev_in : option loc) (h : host) : outcome (Z * sk_buff * option sk_buff * host) :=
  if negb (bool_decide (dev_in = iso_netdev)) then mret (NF_ACCEPT, skb, None, h)
  else
    match reg with
    | Junk => Oops BadPointer
    | TheContext =>
        '(verdict, skb, fb, h) ← iso_rx e cpu skb h;
        mret (match verdict with ISO_VERDICT_DROP => NF_DROP | _ => NF_ACCEPT end, skb, fb, h)
    end.

(** [iso_tx_bridge(hooknum, skb, in, out, okfn)] *)
Definition iso_tx_bridge (iso_netdev : option loc) (reg : register) (ticklock : bool) (cpu : nat) (skb : sk_buff)
    (out : option loc) (s : tx_state) : outcome (Z * tx_state) :=
  if negb (bool_decide (out = iso_netdev)) then mret (NF_ACCEPT, s)
  else
    match reg with
    | Junk => Oops BadPointer
    | TheContext =>
        '(verdict, s) ← iso_tx ticklock cpu skb s;
        mret (match verdict with
              | ISO_VERDICT_DROP => NF_DROP
              | ISO_VERDICT_SUCCESS => NF_STOLEN
              | _ => NF_ACCEPT
              end, s)
    end.
End Hooks.
End Bridge.

Section BridgeProps.
Context {K : Kernel} {KL : KernelLaws K} {P : params} {PO : params_ok P}.
Context {C : IsoClass} {valid : Z -> Prop} {L : IsoClassLaws C valid}.
Context {Env : Oracle} {CL : ClockLaws Env}.

(** Unregistering what was registered gives the hooks back, whatever the registrations returned. *)
Lemma bridge_hooks_restored ret ret' hooks :
  Bridge.hook_out ∉ hooks -> Bridge.hook_in ∉ hooks ->
  Bridge.iso_rx_hook_exit (Bridge.iso_tx_hook_exit (Bridge.iso_rx_hook_init ret' (Bridge.iso_tx_hook_init ret hooks).2).2) = hooks.
Proof.
  intros Ho Hi.
  assert (Hc : forall o x l, Bridge.nf_unregister_hook o (x :: l) =
    if decide (x = o) then Bridge.nf_unregister_hook o l else x :: Bridge.nf_unregister_hook o l).
  { intros o x l. unfold Bridge.nf_unregister_hook. rewrite filter_cons. repeat case_decide; done. }
  assert (Hid : forall o, o ∉ hooks -> Bridge.nf_unregister_hook o hooks = hooks).
  { intros o. clear -Hc. induction hooks as [|x l IH]; [done|]. intros [Hx Hl]%not_elem_of_cons. rewrite Hc, decide_False, IH by done. done. }
  unfold Bridge.iso_rx_hook_exit, Bridge.iso_tx_hook_exit, Bridge.iso_rx_hook_init, Bridge.iso_tx_hook_init, Bridge.nf_register_hook.
  cbn [fst snd]. destruct (ret' =? 0), (ret =? 0); 
    repeat first [rewrite Hc|rewrite (Hid _ Ho)|rewrite (Hid _ Hi)|rewrite decide_True by done|rewrite decide_False by done]; done.
Qed.

(** A packet that the bridge hooks took is sent with the length of the frame it came from. *)
Lemma bridge_skb_xmit_frame skb : is_u32 (skb_len skb) -> Bridge.skb_xmit (skb_pull skb ETH_HLEN) = skb.
Proof.
  unfold is_u32, Bridge.skb_xmit, ETH_HLEN. intros H. rewrite skb_push_eq, skb_pull_eq. destruct skb. cbn in *. f_equal.
  rewrite u32_add_l, Z.sub_add. by apply u32_small.
Qed.

(** The bridge hooks accept the packets of other devices unchanged; on the device of the module
    they fault unless the register of the missing third argument happens to hold the context,
    and then they give the verdict of iso_tx and iso_rx to netfilter and keep the device well-
    formed. *)
Theorem bridge_hooks_fate R netdev reg ticklock e cpu skb dev h :
  host_ok (valid := valid) R h -> cpu ∈ possible_cpus -> pkt_ok skb ->
  valid (op_rx_classify skb) -> 0 <= skb_has_feedback skb <= R -> ~ starved e skb h ->
  (dev <> netdev ->
     Bridge.iso_tx_bridge netdev reg ticklock cpu skb dev (h_tx h) = Ok (Bridge.NF_ACCEPT, h_tx h) /\
     Bridge.iso_rx_bridge netdev reg e cpu skb dev h = Ok (Bridge.NF_ACCEPT, skb, None, h)) /\
  (dev = netdev -> reg = Bridge.Junk ->
     Bridge.iso_tx_bridge netdev reg ticklock cpu skb dev (h_tx h) = Oops BadPointer /\
     Bridge.iso_rx_bridge netdev reg e cpu skb dev h = Oops BadPointer) /\
  (dev = netdev -> reg = Bridge.TheContext ->
     (exists nf s', Bridge.iso_tx_bridge netdev reg ticklock cpu skb dev (h_tx h) = Ok (nf, s') /\ tx_ok R s' /\
        (nf = Bridge.NF_STOLEN -> is_ip skb = true) /\
        (is_ip skb = false -> nf = Bridge.NF_ACCEPT)) /\
     (exists nf skb' fb h', Bridge.iso_rx_bridge netdev reg e cpu skb dev h = Ok (nf, skb', fb, h') /\ host_ok (valid := valid) R h' /\
        (nf = Bridge.NF_DROP -> iso_is_generated_feedback skb = 1 /\ fb = None))).
Proof.
  intros Hok Hcpu Hpkt Hv Hfb Hst. unfold Bridge.iso_tx_bridge, Bridge.iso_rx_bridge.
  split; [|split]; intros Hdev; [rewrite bool_decide_eq_false_2 by done; done|rewrite bool_decide_eq_true_2 by done..]; cbn [negb]; intros ->.
  - done.
  - destruct (iso_tx_verdict R ticklock cpu skb (h_tx h) (hok_tx _ _ Hok) Hcpu Hpkt) as (v & s' & -> & Hok' & Hverd).
    destruct (iso_rx_total R e cpu skb h Hok Hv Hfb Hst) as (v2 & skb' & fb & h' & -> & Hok2 & _ & Hv2 & _).
    cbn [mbind outcome_bind mret outcome_ret]. split.
    + do 2 eexists. split; [reflexivity|]. split; [done|]. destruct v; try (destruct Hverd as [Hip _]); (split; [|try done]); try done; congruence.
    + do 4 eexists. split; [reflexivity|]. split; [done|]. by destruct Hv2 as [->|(-> & ? & ?)].
Qed.
End BridgeProps.

Lemma bridge_hooks_fate_witness :
  (exists nf s', Bridge.iso_tx_bridge (K := ref_kernel) (P := default_params) (C := Mark.ops) (Env := ex_env)
     (Some 1%positive) Bridge.TheContext true 1 ex_fb (Some 1%positive) ex_tx = Ok (nf, s')) /\
  Bridge.iso_tx_bridge (K := ref_kernel) (P := default_params) (C := Mark.ops) (Env := ex_env)
     (Some 1%positive) Bridge.Junk true 1 ex_fb (Some 1%positive) ex_tx = Oops BadPointer.
Proof.
  assert (Hst : ~ starved (K := ref_kernel) (P := default_params) (C := Mark.ops) ex_rx_env ex_fb ex_host)
    by (intros (_ & _ & pv & pc & txc & _ & _ & [_ ->]%ex_tx_lookup & _ & E); discriminate E).
  assert (Hcpu : 1%nat ∈ possible_cpus (Kernel := ref_kernel)) by (apply (bool_decide_unpack _); vm_compute; reflexivity).
  assert (Hpkt : pkt_ok ex_fb) by (vm_compute; repeat split; discriminate).
  assert (Hv : is_u32 (op_rx_classify (IsoClass := Mark.ops) ex_fb)) by (vm_compute; split; [discriminate|reflexivity]).
  assert (Hfb : 0 <= skb_has_feedback (K := ref_kernel) (P := default_params) ex_fb <= 10000) by (vm_compute; split; discriminate).
  destruct (bridge_hooks_fate (K := ref_kernel) (P := default_params) (C := Mark.ops) (valid := is_u32) (Env := ex_env) 10000 (Some 1%positive)
    Bridge.TheContext true ex_rx_env 1 ex_fb (Some 1%positive) ex_host ex_host_ok Hcpu Hpkt Hv Hfb Hst) as (_ & _ & H1).
  destruct (bridge_hooks_fate (K := ref_kernel) (P := default_params) (C := Mark.ops) (valid := is_u32) (Env := ex_env) 10000 (Some 1%positive)
    Bridge.Junk true ex_rx_env 1 ex_fb (Some 1%positive) ex_host ex_host_ok Hcpu Hpkt Hv Hfb Hst) as (_ & H2 & _).
  destruct (H1 eq_refl eq_refl) as [(nf & s' & E & _) _]. split; [by exists nf, s'|]. by apply H2.
Defined.
