(* ===== verification/Main.v ===== *)
(** * Loading and unloading the module (main.c, iso_stats_init, iso_stats_exit)

    What the module registers with the kernel is a record of the entries that
    exist; the registrations' results are the environment's. *)

From Stdlib Require Import Ascii String.
From S2P Require Import Prelude Params Kernel Packet Scan Class RateControl HashTable VirtualQueue.
From S2P Require Import VqTable RateLimiter Dequeue Device Tx TxPath Rx Host Netdev Qdisc Direct.

Open Scope Z_scope.

(** What is registered: the sysctl table, the files [perfiso_stats] and
    [csv_perfiso_stats] with whether they have their operations, the discipline;
    [rg_refs] counts the references that the module holds to its device. *)
Record registry := {
  rg_sysctl : option (list ctl_table);
  rg_stats : option bool;
  rg_csvstats : option bool;
  rg_qdisc : bool;
  rg_refs : Z
}.

Definition nothing : registry := {|
  rg_sysctl := None; rg_stats := None; rg_csvstats := None; rg_qdisc := false; rg_refs := 0 |}.

(** The results of [register_sysctl_paths], of the two [create_proc_entry], and of
    [register_qdisc]. *)
Record load_env := {
  le_sysctl : bool;
  le_stats : bool;
  le_csvstats : bool;
  le_qdisc : Z
}.

(** [iso_stats_init()] *)
Definition iso_stats_init (e : load_env) (g : registry) : Z * registry :=
  if negb (le_stats e) then (1, g)
  else
    let g := {| g with rg_stats := Some false |} in
    let g := {| g with rg_stats := Some true |} in
    if negb (le_csvstats e) then (1, {| g with rg_stats := None |})
    else
      let g := {| g with rg_csvstats := Some false |} in
      (0, {| g with rg_csvstats := Some true |}).

(** [iso_stats_exit()] *)
Definition iso_stats_exit (g : registry) : registry :=
  let g := {| g with rg_stats := None |} in
  {| g with rg_csvstats := None |}.

(** [iso_params_init()] on the registry, and [iso_params_exit()], which is given
    the pointer that the registration returned. *)
Definition params_init (e : load_env) (g : registry) : Z * registry :=
  let '(table, ret) := iso_params_init (le_sysctl e) in
  (ret, if le_sysctl e then {| g with rg_sysctl := Some table |} else g).

Definition iso_params_exit (g : registry) : registry := {| g with rg_sysctl := None |}.

(** The loop of [iso_init] that trims [iso_param_dev], [n] characters to go. *)
Fixpoint trim_loop (n : nat) (s : cstring) : cstring :=
  match n, s with
  | O, _ => s
  | _, [] => []
  | S n, c :: s => if code c =? 10 then [] else c :: trim_loop n s
  end.

Definition trim (dev : option cstring) : cstring :=
  trim_loop 32 (match dev with None => list_ascii_of_string "peth2" | Some s => s end).

(** ** The build with the queueing discipline *)

(** The module's variables: [iso_exiting] and [iso_param_dev]. *)
Record modvars := { mv_exiting : Z; mv_param_dev : option cstring }.

(** [iso_init()] with -DQDISC *)
Definition iso_init (e : load_env) (v : modvars) (g : registry) : Z * modvars * registry :=
  let v := {| mv_exiting := 0; mv_param_dev := Some (trim (mv_param_dev v)) |} in
  let '(ret, g) := params_init e g in
  if negb (ret =? 0) then (-1, v, g)
  else
    let '(ret, g) := iso_stats_init e g in
    if negb (ret =? 0) then (-1, v, iso_params_exit g)
    else if negb (le_qdisc e =? 0) then (-1, v, iso_params_exit (iso_stats_exit g))
    else (0, v, {| g with rg_qdisc := true |}).

(** [iso_exit()] with -DQDISC *)
Definition iso_exit (v : modvars) (g : registry) : modvars * registry :=
  let v := {| v with mv_exiting := 1 |} in
  let g := iso_params_exit (iso_stats_exit g) in
  (v, {| g with rg_qdisc := false |}).

(** ** The build for one device *)

Section MainDirect.
Context {K : Kernel} {P : params} {C : IsoClass} {Env : Oracle}.

(** The allocators' results, the clock, and [dev_get_by_name]. *)
Record direct_env := {
  de_load : load_env;
  de_dev : cstring -> option net_device;
  de_stats : option (percpu iso_rx_stats);
  de_rlcb : option (percpu iso_rl_cb);
  de_now : nat -> Z;
  de_reads : nat;
  de_tries : nat
}.

(** [dev_put(iso_netdev)] *)
Definition put_netdev (g : registry) : registry := {| g with rg_refs := rg_refs g - 1 |}.

(** The label [out_3] of [iso_init]. *)
Definition init_out3 (g : registry) : registry := iso_params_exit (iso_stats_exit g).

(** [iso_init()] without -DQDISC: the result, the device and its contexts, and
    [__prev__ISO_GSO_MAX_SIZE]. *)
Definition iso_init_direct (e : direct_env) (v : modvars) (g : registry)
    : outcome (Z * modvars * registry * direct * Z) :=
  let name := trim (mv_param_dev v) in
  let v := {| mv_exiting := 0; mv_param_dev := Some name |} in
  let d := {| dr_dev := None; dr_old := None;
              dr_tx := {| cx_linked := false; cx_xmit := None; cx_prev_gso := 0;
                          cx_state := zero_tx (de_reads e) (de_tries e) false |};
              dr_rx := {| rcx_linked := false; rcx_state := zero_rx |} |} in
  let '(ret, g) := params_init (de_load e) g in
  if negb (ret =? 0) then mret (-1, v, g, d, 0)
  else
    let '(ret, g) := iso_stats_init (de_load e) g in
    if negb (ret =? 0) then mret (-1, v, iso_params_exit g, d, 0)
    else
      match de_dev e name with
      | None => mret (-1, v, init_out3 g, d, 0)
      | Some dev =>
          let d := {| d with dr_dev := Some dev |} in
          let g := {| g with rg_refs := rg_refs g + 1 |} in
          '(ret, d) ← Direct.rx_context_init (de_stats e) (de_now e) d;
          if negb (ret =? 0) then mret (-1, v, init_out3 (put_netdev g), d, 0)
          else
            '(ret, d) ← Direct.tx_context_init (de_rlcb e) d;
            if negb (ret =? 0) then
              d ← Direct.rx_context_exit d;
              mret (-1, v, init_out3 (put_netdev g), d, 0)
            else
              match dr_dev d with
              | None => Oops BadPointer
              | Some dev =>
                  let prev := nd_gso_max_size dev in
                  mret (0, v, g, {| d with dr_dev := Some {| dev with nd_gso_max_size := ISO_GSO_MAX_SIZE |} |}, prev)
              end
      end.

(** [iso_exit()] without -DQDISC *)
Definition iso_exit_direct (v : modvars) (g : registry) (d : direct) (prev : Z)
    : outcome (modvars * registry * direct) :=
  let v := {| v with mv_exiting := 1 |} in
  let g := iso_params_exit (iso_stats_exit g) in
  d ← Direct.iso_tx_hook_exit d;
  d ← Direct.iso_rx_hook_exit d;
  d ← Direct.tx_context_exit d;
  d ← Direct.rx_context_exit d;
  match dr_dev d with
  | None => Oops BadPointer
  | Some dev => mret (v, put_netdev g, {| d with dr_dev := Some {| dev with nd_gso_max_size := prev |} |})
  end.
End MainDirect.

(** ** Properties *)

Lemma trim_loop_spec n s :
  exists rest, s = trim_loop n s ++ rest /\ Forall (fun c => code c <> 10) (firstn n (trim_loop n s)) /\
    (rest = [] \/ exists c rest', rest = c :: rest' /\ code c = 10 /\ (length (trim_loop n s) < n)%nat).
Proof.
  revert s. induction n as [|n IH]; intros s; [exists []; rewrite app_nil_r; by destruct s; eauto|].
  destruct s as [|c s]; [exists []; auto|]. cbn [trim_loop]. destruct (Z.eqb_spec (code c) 10) as [E|E].
  - exists (c :: s). cbn. split; [done|]. split; [constructor|]. right. exists c, s. split; [done|]. split; [done|lia].
  - destruct (IH s) as (rest & Es & Hf & Hr). exists rest. cbn [app firstn length]. split; [by f_equal|].
    split; [by constructor|]. destruct Hr as [->|(c' & r & -> & Hc & Hl)]; [by left|]. right. exists c', r. split; [done|]. split; [done|lia].
Qed.

(** C31: Loading the module either registers the sysctl table, both statistics files and the
    discipline and returns 0, or returns -1 with nothing registered; unloading then removes
    everything. *)
Theorem iso_init_all_or_nothing (e : load_env) (v : modvars) :
  let '(ret, v', g) := iso_init e v nothing in
  mv_exiting v' = 0 /\
  (ret = 0 <-> le_sysctl e = true /\ le_stats e = true /\ le_csvstats e = true /\ le_qdisc e = 0) /\
  (if ret =? 0 then
     g = {| rg_sysctl := Some (iso_params_init true).1; rg_stats := Some true; rg_csvstats := Some true;
            rg_qdisc := true; rg_refs := 0 |} /\
     iso_exit v' g = ({| v' with mv_exiting := 1 |}, nothing)
   else ret = -1 /\ g = nothing).
Proof.
  unfold iso_init, params_init, iso_params_init, iso_stats_init.
  destruct (le_sysctl e); [|cbn; split; [done|]; split; [by split; [|intros [? _]]|done]].
  destruct (le_stats e); [|cbn; split; [done|]; split; [by split; [|intros (_ & ? & _)]|done]].
  destruct (le_csvstats e); [|cbn; split; [done|]; split; [by split; [|intros (_ & _ & ? & _)]|done]].
  cbn [negb Z.eqb Z.opp]. destruct (Z.eqb_spec (le_qdisc e) 0) as [E|E]; cbn [negb Z.eqb].
  - split; [done|]. split; [done|]. done.
  - split; [done|]. split; [|done]. split; [done|]. by intros (_ & _ & _ & ?).
Qed.

Section MainProps.
Context {K : Kernel} {P : params} {Env : Oracle}.

Definition loads (e : load_env) : bool := le_sysctl e && le_stats e && le_csvstats e.

(** What initialisation finds when its registrations succeed. *)
Lemma loads_inv e g :
  loads e = true ->
  params_init e g = (0, {| g with rg_sysctl := Some (iso_params_init true).1 |}) /\
  forall g, iso_stats_init e g = (0, {| g with rg_stats := Some true; rg_csvstats := Some true |}).
Proof.
  unfold loads, params_init, iso_stats_init. intros [[-> ->]%andb_prop ->]%andb_prop.
  unfold iso_params_init. done.
Qed.

(** The contexts of a device that was just set up, before and after leaving them. *)
Definition direct_ready (e : direct_env) (dev : net_device) (cbs : percpu iso_rl_cb) (st : percpu iso_rx_stats)
    (xmit : option ndo_xmit) : direct := {|
  dr_dev := Some {| dev with nd_ops := Some (Some iso_ndo_start_xmit_ptr); nd_rx_handler := Some IsoRxHandler;
                             nd_gso_max_size := ISO_GSO_MAX_SIZE |};
  dr_old := xmit;
  dr_tx := {| cx_linked := true; cx_xmit := xmit; cx_prev_gso := nd_gso_max_size dev;
              cx_state := (iso_tx_init (Some cbs) 0 (zero_tx (de_reads e) (de_tries e) false)).2 |};
  dr_rx := {| rcx_linked := true;
              rcx_state := let rx := zero_rx in
                {| rx with rx_ctx := (iso_rx_init (Some st) (de_now e 0%nat) (de_now e 1%nat) (de_now e 2%nat) 0 (rx_ctx zero_rx)).2 |} |}
|}.

Lemma direct_exit v g e dev cbs st xmit prev :
  exists v2 g2 d2, iso_exit_direct v g (direct_ready e dev cbs st xmit) prev = Ok (v2, g2, d2) /\
    g2 = {| rg_sysctl := None; rg_stats := None; rg_csvstats := None; rg_qdisc := rg_qdisc g; rg_refs := rg_refs g - 1 |} /\
    dr_dev d2 = Some {| dev with nd_ops := Some xmit; nd_rx_handler := None; nd_gso_max_size := prev |} /\
    cx_linked (dr_tx d2) = false /\ rcx_linked (dr_rx d2) = false.
Proof.
  unfold iso_exit_direct, Direct.iso_tx_hook_exit, Direct.iso_rx_hook_exit. unfold direct_ready.
  cbn [dr_dev nd_ops mbind outcome_bind mret outcome_ret].
  unfold Direct.tx_context_exit. cbn [dr_tx cx_linked negb].
  match goal with |- context [iso_tx_exit ?h] => destruct (tx_exit_empty h) as (h' & -> & Hrx); [done|] end.
  cbn [mbind outcome_bind mret outcome_ret dr_dev dr_tx]. unfold Direct.rx_context_exit, Direct.set_host. cbn [dr_rx rcx_linked negb].
  cbn [rcx_state]. rewrite Hrx. match goal with |- context [iso_rx_exit ?s] => destruct (rx_exit_empty s) as [s' ->]; [done|] end.
  cbn [mbind outcome_bind]. unfold Direct.iso_rx_hook_exit. cbn [dr_dev mbind outcome_bind mret outcome_ret].
  do 3 eexists. split; [reflexivity|]. done.
Qed.

(** C32: In the build for one device, loading and unloading the module restores the driver's
    transmit function, the packet handler and the device's reference count, but leaves the
    device with the module's GSO size: the size to restore is read after it was changed. *)
Theorem direct_unload_gso (e : direct_env) (v : modvars) (dev : net_device) xmit cbs st :
  loads (de_load e) = true -> de_dev e (trim (mv_param_dev v)) = Some dev ->
  de_rlcb e = Some cbs -> de_stats e = Some st -> nd_ops dev = Some xmit -> nd_rx_handler dev = None ->
  exists v1 g1 d1 prev v2 d2,
    iso_init_direct e v nothing = Ok (0, v1, g1, d1, prev) /\
    (exists dev1, dr_dev d1 = Some dev1 /\ nd_ops dev1 = Some (Some iso_ndo_start_xmit_ptr) /\
                  nd_rx_handler dev1 = Some IsoRxHandler) /\ rg_refs g1 = 1 /\
    iso_exit_direct v1 g1 d1 prev = Ok (v2, nothing, d2) /\
    dr_dev d2 = Some {| dev with nd_gso_max_size := ISO_GSO_MAX_SIZE |} /\
    cx_linked (dr_tx d2) = false /\ rcx_linked (dr_rx d2) = false.
Proof.
  intros Hl Hd Hcb Hst Hops Hrx. destruct (loads_inv (de_load e) nothing Hl) as [Hp Hs].
  assert (Hinit : exists g, iso_init_direct e v nothing =
    Ok (0, {| mv_exiting := 0; mv_param_dev := Some (trim (mv_param_dev v)) |}, g,
        direct_ready e dev cbs st xmit, ISO_GSO_MAX_SIZE) /\ rg_refs g = 1 /\ rg_qdisc g = false).
  { unfold iso_init_direct. rewrite Hp. cbn [negb Z.eqb]. rewrite Hs. cbn [negb Z.eqb]. rewrite Hd.
    unfold Direct.rx_context_init, Direct.iso_rx_hook_init. cbn [dr_dev]. rewrite Hrx, Hst.
    cbn [mbind outcome_bind mret outcome_ret iso_rx_init fst snd negb Z.eqb].
    unfold Direct.tx_context_init. cbn [dr_dev]. rewrite Hcb. unfold Direct.iso_tx_hook_init. cbn [dr_dev nd_ops].
    rewrite Hops. cbn [mbind outcome_bind mret outcome_ret fst snd].
    pose proof (tx_init_zero (Some cbs) 0 (de_reads e) (de_tries e) false) as Hz.
    unfold direct_ready. cbn [dr_tx cx_state] in *. destruct (iso_tx_init _ _ _) as [ret s].
    destruct (Hz _ _ eq_refl) as [_ ->]. cbn. eexists. split; [reflexivity|done]. }
  destruct Hinit as (g & Hinit & Hrefs & Hq).
  destruct (direct_exit {| mv_exiting := 0; mv_param_dev := Some (trim (mv_param_dev v)) |} g e dev cbs st xmit ISO_GSO_MAX_SIZE)
    as (v2 & g2 & d2 & Hexit & Hg2 & Hd2 & Hl1 & Hl2).
  do 6 eexists. split; [exact Hinit|]. split; [by eexists|]. split; [done|]. rewrite Hexit, Hg2, Hrefs, Hq.
  split; [reflexivity|]. rewrite Hd2. split; [|done]. destruct dev. cbn in *. by subst.
Qed.
(** In the build for one device a failed load releases every registration, but leaves the
    receive context on its list when another module receives the packets of the device, and the
    transmit context on its list, with the GSO size changed, when the device has no operations. *)
Theorem direct_load_failure (e : direct_env) (v : modvars) (dev : net_device) :
  loads (de_load e) = true -> de_dev e (trim (mv_param_dev v)) = Some dev ->
  (de_stats e = None \/ nd_rx_handler dev <> None \/ de_rlcb e = None \/ nd_ops dev = None) ->
  exists v1 d1 dev1, iso_init_direct e v nothing = Ok (-1, v1, nothing, d1, 0) /\ dr_dev d1 = Some dev1 /\
    nd_ops dev1 = nd_ops dev /\ nd_rx_handler dev1 = nd_rx_handler dev /\
    (rcx_linked (dr_rx d1) = given (de_stats e) && given (nd_rx_handler dev)) /\
    (cx_linked (dr_tx d1) = given (de_stats e) && negb (given (nd_rx_handler dev)) && given (de_rlcb e)) /\
    nd_gso_max_size dev1 = if cx_linked (dr_tx d1) then ISO_GSO_MAX_SIZE else nd_gso_max_size dev.
Proof.
  intros Hl Hd Hfail. destruct (loads_inv (de_load e) nothing Hl) as [Hp Hs].
  unfold iso_init_direct. rewrite Hp. cbn [negb Z.eqb]. rewrite Hs. cbn [negb Z.eqb]. rewrite Hd.
  unfold Direct.rx_context_init, Direct.iso_rx_hook_init. cbn [dr_dev].
  destruct (de_stats e) as [st|]; cbn [given andb].
  2: { destruct (nd_rx_handler dev) eqn:Eh; cbn; do 3 eexists; (split; [reflexivity|]); cbn; rewrite ?Eh; done. }
  destruct (nd_rx_handler dev) as [hd|] eqn:Eh.
  { cbn. do 3 eexists. split; [reflexivity|]. cbn. rewrite Eh. done. }
  cbn [mbind outcome_bind mret outcome_ret iso_rx_init fst snd negb Z.eqb given andb].
  unfold Direct.tx_context_init. cbn [dr_dev]. destruct (de_rlcb e) as [cbs|].
  - destruct Hfail as [?|[?|[?|Hops]]]; try done. unfold Direct.iso_tx_hook_init. cbn [dr_dev nd_ops]. rewrite Hops. cbn.
    do 3 eexists. split; [reflexivity|]. cbn. done.
  - cbn. do 3 eexists. split; [reflexivity|]. cbn. done.
Qed.
End MainProps.

(** ** Loading for the device eth0, with a newline after its name *)

Definition ex_load : load_env := {| le_sysctl := true; le_stats := true; le_csvstats := true; le_qdisc := 0 |}.

Definition ex_direct_env (handler : option rx_handler) : direct_env := {|
  de_load := ex_load;
  de_dev := fun name => if bool_decide (name = list_ascii_of_string "eth0") then Some (ex_plain handler) else None;
  de_stats := Some (fun _ => zero_rx_stats); de_rlcb := Some ex_cb; de_now := fun _ => 0; de_reads := 0; de_tries := 0 |}.

Definition ex_vars : modvars := {|
  mv_exiting := 0; mv_param_dev := Some (list_ascii_of_string "eth0" ++ [char 10]) |}.

Lemma direct_unload_gso_witness :
  exists v1 g1 d1 prev v2 d2,
    iso_init_direct (K := ref_kernel) (P := default_params) (Env := ex_env) (ex_direct_env None) ex_vars nothing =
      Ok (0, v1, g1, d1, prev) /\
    iso_exit_direct (K := ref_kernel) v1 g1 d1 prev = Ok (v2, nothing, d2) /\
    nd_gso_max_size <$> dr_dev d2 <> Some (nd_gso_max_size (ex_plain None)).
Proof.
  destruct (direct_unload_gso (K := ref_kernel) (P := default_params) (Env := ex_env) (ex_direct_env None) ex_vars (ex_plain None)
    (Some (DriverXmit 1)) ex_cb (fun _ => zero_rx_stats)) as (v1 & g1 & d1 & prev & v2 & d2 & E1 & _ & _ & E2 & E3 & _);
    [reflexivity|vm_compute; reflexivity|reflexivity|reflexivity|reflexivity|reflexivity|].
  exists v1, g1, d1, prev, v2, d2. split; [exact E1|]. split; [exact E2|]. rewrite E3. vm_compute. discriminate.
Defined.

Lemma direct_load_failure_witness :
  exists v1 d1, iso_init_direct (K := ref_kernel) (P := default_params) (Env := ex_env)
    (ex_direct_env (Some (OtherRxHandler 4))) ex_vars nothing = Ok (-1, v1, nothing, d1, 0) /\ rcx_linked (dr_rx d1) = true.
Proof.
  destruct (direct_load_failure (K := ref_kernel) (P := default_params) (Env := ex_env)
    (ex_direct_env (Some (OtherRxHandler 4))) ex_vars (ex_plain (Some (OtherRxHandler 4))))
    as (v1 & d1 & dev1 & E & _ & _ & _ & H & _);
    [reflexivity|vm_compute; reflexivity|right; left; discriminate|].
  exists v1, d1. split; [exact E|]. rewrite H. reflexivity.
Defined.
