(* ===== verification/Stats.v ===== *)
(** * The statistics files (stats.c, iso_txc_show, iso_vq_show, iso_rl_show, iso_rc_show)

    What a read of /proc/perfiso_stats and /proc/csv_perfiso_stats prints.  A
    show function appends to the file, so it is the text that it appends; [%p]
    is a parameter. *)

From Stdlib Require Import Ascii String.
From S2P Require Import Prelude Params Kernel Packet Scan Class RateControl HashTable VirtualQueue.
From S2P Require Import VqTable RateLimiter Dequeue Device Tx TxPath Rx Host System Netdev Control.
From S2P Require Import Config CommandLine ClassVariants.

Open Scope Z_scope.

(** ** Conversions of [seq_printf] *)

Definition nl : cstring := [char 10].
Definition tab : cstring := [char 9].

(** [%x] and [%llx], of at most 16 digits *)
Fixpoint hex_digits (fuel : nat) (n : Z) : cstring :=
  match fuel with
  | O => []
  | S k => if n <? 16 then [hex_digit n] else hex_digits k (n / 16) ++ [hex_digit (n mod 16)]
  end.

Definition sprintf_x (n : Z) : cstring := hex_digits 16 (u32 n).
Definition sprintf_llx (n : Z) : cstring := hex_digits 16 (u64 n).

(** [%llu], [%u] and [%d] of what has another type *)
Definition sprintf_llu (n : Z) : cstring := sprintf_u (u64 n).
Definition pr_u (n : Z) : cstring := sprintf_u (u32 n).
Definition pr_d (n : Z) : cstring := sprintf_d (s32 n).

(** A minimum field width. *)
Definition pad (w : nat) (s : cstring) : cstring := repeat " "%char (w - length s) ++ s.

Fixpoint concatM {A} (f : A -> outcome cstring) (l : list A) : outcome cstring :=
  match l with
  | [] => mret []
  | x :: l => s ← f x; r ← concatM f l; mret (s ++ r)
  end.

(** ** The sequence of one record *)

(** [iso_stats_proc_seq_start(s, pos)]: whether there is a record, and the position. *)
Definition iso_stats_proc_seq_start (pos : Z) : bool * Z := if pos =? 0 then (true, pos) else (false, 0).

(** [iso_stats_proc_seq_next(s, v, pos)]: the counter, and whether there is a record. *)
Definition iso_stats_proc_seq_next (counter : Z) : Z * bool := (u64 (counter + 1), false).

Section Stats.
Context {K : Kernel} {P : params} {C : IsoClass} (sprintf_p : rlptr -> cstring).

(** [iso_rc_show(rc, s)] *)
Definition iso_rc_show (rc : iso_rc_state) : cstring :=
  tab ++ text "rfair " ++ sprintf_llu (rc_rfair rc) ++ text " (" ++ sprintf_llu (rc_rfair_target rc) ++
  text ")   alpha " ++ sprintf_llu (rc_alpha rc) ++
  text "   state " ++ match rc_state rc with RC_FAST_RECOVERY => text "RC_FAST_RECOVERY" | RC_AI => text "RC_AI" end ++
  text "   last_change " ++ sprintf_llx (rc_last_rfair_change_time rc) ++
  text "   last_decrease " ++ sprintf_llx (rc_last_rfair_decrease_time rc) ++
  text "   last_feedback " ++ sprintf_llx (rc_last_feedback_time rc) ++ nl ++ nl.

(** The line of one CPU in [iso_rl_show]. *)
Definition rl_show_cpu (w : rl_world) (p : rlptr) (rl : iso_rl) (i : nat) : cstring :=
  let q := rl_queue rl i in
  if (0 <? rlq_tokens q) || (0 <? Z.of_nat (length (rlq_list q))) then
    tab ++ pad 3 (sprintf_d (Z.of_nat i)) ++ text "   " ++ pad 3 (sprintf_d (Z.of_nat (length (rlq_list q)))) ++
    text "   " ++ pad 3 (pr_d (rlq_first_pkt_size q)) ++ text "   " ++ pad 10 (sprintf_llu (rlq_bytes_enqueued q)) ++
    text "   " ++ pad 6 (sprintf_llu (rlq_feedback_backlog q)) ++ text "   " ++ pad 10 (sprintf_llu (rlq_tokens q)) ++
    text "   " ++ sprintf_d (if bool_decide (p ∈ active w i) then 1 else 0) ++ text "," ++
    sprintf_d (if cb_timer (w_cbs w i) then 1 else 0) ++ nl
  else [].

(** [iso_rl_show(rl, s)] *)
Definition iso_rl_show (w : rl_world) (p : rlptr) : outcome cstring :=
  rl ← deref (w_rls w) p;
  let line := text "ip " ++ sprintf_x (rl_ip rl) ++ text "   rate " ++ pr_u (rl_rate rl) ++
    text "   total_tokens " ++ sprintf_llu (rl_total_tokens rl) ++
    text "   last " ++ sprintf_llx (rl_last_update_time rl) ++ text "   " ++ sprintf_p p ++ nl in
  let header := match online_cpus with
                | [] => []
                | _ => tab ++ text "cpu   len   first_len   queued   fbacklog   tokens  active?" ++ nl
                end in
  mret (line ++ header ++ concat (map (rl_show_cpu w p rl) online_cpus)).

(** The rate limiters of bucket [i] in [iso_txc_show]. *)
Definition rl_bucket_show (w : rl_world) (txc : iso_tx_class) (i : nat) : outcome cstring :=
  let l := txc_rl_bucket txc (Z.of_nat i) in
  s ← concatM (fun p => iso_rl_show w (inl p)) l;
  mret ((match l with [] => [] | _ => text "hash " ++ sprintf_d (Z.of_nat i) ++ text " " end) ++ s).

(** [iso_txc_show(txc, s)], built without PERDESTSTATE *)
Definition iso_txc_show (h : host) (pc : loc) : outcome cstring :=
  let s := h_tx h in
  txc ← deref (tx_txcs s) pc;
  rl ← deref (w_rls (tx_w s)) (inr pc);
  vqc ← match txc_vq txc with
        | Some pv => vq ← deref (rx_vqs (h_rx h)) pv; mret (op_show (vq_klass vq))
        | None => mret (text "(none)")
        end;
  own ← iso_rl_show (tx_w s) (inr pc);
  rls ← concatM (rl_bucket_show (tx_w s) txc) (seq 0 (Z.to_nat ISO_MAX_RL_BUCKETS));
  mret (text "txc class " ++ op_show (txc_klass txc) ++ text "   weight " ++ pr_d (txc_weight txc) ++
        text "   assoc vq " ++ vqc ++ text "   freelist " ++ pr_d (txc_freelist_count txc) ++ nl ++
        text "txc rl tx_rate " ++ pr_u (txc_tx_rate txc) ++ text "," ++ pr_u (txc_tx_rate_smooth txc) ++
        text "   rate " ++ pr_u (rl_rate rl) ++ text "   min_rate " ++ pr_u (txc_min_rate txc) ++
        text "   xmit " ++ sprintf_llu (rl_accum_xmit rl) ++ text "   queued " ++ sprintf_llu (rl_accum_enqueued rl) ++ nl ++
        own ++ nl ++ text "rate limiters:" ++ nl ++ rls ++ nl).

(** The line of one CPU in [iso_vq_show]. *)
Definition vq_show_cpu (st : percpu iso_vq_stats) (i : nat) : cstring :=
  let stats := st i in
  if (0 <? vqs_bytes_queued stats) || (0 <? vqs_network_marked stats) then
    tab ++ text " " ++ pad 3 (sprintf_d (Z.of_nat i)) ++ text "   " ++ pad 8 (sprintf_llu (vqs_bytes_queued stats)) ++
    text "  " ++ pad 12 (sprintf_llu (vqs_network_marked stats)) ++ text "   " ++ sprintf_llu (vqs_rx_bytes stats) ++ nl
  else [].

(** [iso_vq_show(vq, s)] *)
Definition iso_vq_show (s : rx_state) (pv : loc) : outcome cstring :=
  vq ← deref (rx_vqs s) pv;
  cpus ← match online_cpus, vq_percpu_stats vq with
         | [], _ => mret []
         | _, None => Oops BadPointer
         | _, Some st => mret (tab ++ text " cpu   enqueued   network-mark   rx" ++ nl ++ concat (map (vq_show_cpu st) online_cpus))
         end;
  mret (text "vq class " ++ op_show (vq_klass vq) ++ text "   flags " ++ pr_d (vq_enabled vq) ++ text "," ++ pr_d (vq_is_static vq) ++
        text "   rate " ++ sprintf_llu (vq_rate vq) ++ text "  rx_rate " ++ sprintf_llu (vq_rx_rate vq) ++
        text "  fb_rate " ++ sprintf_llu (vq_feedback_rate vq) ++ text "  alpha " ++ pr_u (vq_alpha vq) ++
        text "/" ++ pr_u 1024 ++ text "   backlog -   weight " ++ sprintf_llu (vq_weight vq) ++
        text "   refcnt " ++ pr_d (vq_refcnt vq) ++ nl ++ cpus).

(** The transmit context of a device in [iso_stats_proc_seq_show], and the receive context. *)
Definition tx_context_show (d : cstring * host) : outcome cstring :=
  let '(name, h) := d in
  let ctx := tx_ctx (h_tx h) in
  classes ← concatM (fun i => concatM (iso_txc_show h) (txx_bucket ctx (Z.of_nat i))) (seq 0 (Z.to_nat ISO_MAX_TX_BUCKETS));
  mret (text "tx->dev " ++ name ++ text ", tx_rate " ++ pr_u (txx_tx_rate ctx) ++ text ", rate " ++ pr_u (txx_rate ctx) ++ nl ++ classes).

Definition rx_context_show (d : cstring * host) : outcome cstring :=
  let '(name, h) := d in
  let ctx := rx_ctx (h_rx h) in
  vqs ← concatM (iso_vq_show (h_rx h)) (rxc_vq_list ctx);
  mret (nl ++ text "vqs->dev " ++ name ++ text "   last_update " ++ sprintf_llx (rxc_vq_last_update_time ctx) ++
        text "   active_rate " ++ pr_d (rxc_vq_active_rate ctx) ++ text "   rx_rate " ++ pr_d (rxc_rx_rate ctx) ++
        text "   rcp_rate " ++ pr_d (rxc_rcp_rate ctx) ++ nl ++ vqs).

(** [iso_stats_proc_seq_show(s, v)] for the devices, in the order of the lists of contexts. *)
Definition iso_stats_proc_seq_show (devs : list (cstring * host)) : outcome cstring :=
  tx ← concatM tx_context_show devs;
  rx ← concatM rx_context_show devs;
  mret (tx ++ rx).

(** The lines of one context in [iso_csvstats_proc_seq_show]. *)
Definition csv_txc (h : host) (pc : loc) : outcome cstring :=
  txc ← deref (tx_txcs (h_tx h)) pc;
  rl ← deref (w_rls (tx_w (h_tx h))) (inr pc);
  mret (text "tx," ++ op_show (txc_klass txc) ++ text "," ++ sprintf_llu (rl_accum_xmit rl) ++ nl).

Definition csv_vq (h : host) (pv : loc) : outcome cstring :=
  vq ← deref (rx_vqs (h_rx h)) pv;
  rx_bytes ← foldM (fun rx_bytes i =>
    match vq_percpu_stats vq with
    | None => Oops BadPointer
    | Some st => mret (u64 (rx_bytes + vqs_rx_bytes (st i)))
    end) online_cpus 0;
  mret (text "rx," ++ op_show (vq_klass vq) ++ text "," ++ sprintf_llu rx_bytes ++ nl).

(** [iso_csvstats_proc_seq_show(s, v)] *)
Definition iso_csvstats_proc_seq_show (devs : list (cstring * host)) : outcome cstring :=
  tx ← concatM (fun d => concatM (csv_txc d.2) (txx_txc_list (tx_ctx (h_tx d.2)))) devs;
  rx ← concatM (fun d => concatM (csv_vq d.2) (rxc_vq_list (rx_ctx (h_rx d.2)))) devs;
  mret (tx ++ rx).
End Stats.

(** ** Totality *)

Lemma concatM_map {A} (f : A -> outcome cstring) (g : A -> cstring) l :
  (forall x, x ∈ l -> f x = Ok (g x)) -> concatM f l = Ok (concat (map g l)).
Proof.
  induction l as [|x l IH]; intros Hf; [done|]. cbn [concatM map concat]. rewrite Hf by constructor.
  cbn [mbind outcome_bind]. rewrite IH by (intros; apply Hf; by constructor). done.
Qed.

Lemma concatM_ok {A} (f : A -> outcome cstring) l :
  (forall x, x ∈ l -> exists s, f x = Ok s) -> exists s, concatM f l = Ok s.
Proof.
  induction l as [|x l IH]; intros Hf; [by exists []|]. cbn [concatM]. destruct (Hf x) as [s ->]; [constructor|].
  destruct IH as [r ->]; [intros; apply Hf; by constructor|]. by eexists.
Qed.

(** What is printed before what is printed next. *)
Ltac show_ok := cbn [mbind outcome_bind mret outcome_ret]; eauto.

Section StatsProps.
Context {K : Kernel} {KL : KernelLaws K} {P : params} {PO : params_ok P}.
Context {C : IsoClass} {valid : Z -> Prop} {L : IsoClassLaws C valid}.
Context {Env : Oracle} {CL : ClockLaws Env} (sprintf_p : rlptr -> cstring).

Lemma rl_show_ok w p : is_Some (w_rls w !! p) -> exists s, iso_rl_show sprintf_p w p = Ok s.
Proof. intros [rl Hp]. unfold iso_rl_show. rewrite (deref_ok _ _ _ Hp). show_ok. Qed.

Lemma txc_show_ok R h pc :
  ctl_pre (valid := valid) R h -> pc ∈ tx_list h -> exists s, iso_txc_show sprintf_p h pc = Ok s.
Proof.
  intros Hpre Hin. pose proof (co_host R h Hpre) as Hh. pose proof (hok_tx R h Hh) as Htx.
  destruct (cls_live _ (ti_cls _ _ (txo_inv _ _ Htx)) pc Hin) as [[txc Hpc] Hrl].
  unfold iso_txc_show. rewrite (deref_ok _ _ _ Hpc). destruct Hrl as [rl Hrl]. rewrite (deref_ok _ _ _ Hrl).
  cbn [mbind outcome_bind].
  assert (exists vqc, match txc_vq txc with
        | Some pv => vq ← deref (rx_vqs (h_rx h)) pv; mret (op_show (vq_klass vq))
        | None => mret (text "(none)")
        end = Ok vqc) as [vqc ->].
  { destruct (txc_vq txc) as [pv|] eqn:Ev; [|by eexists].
    pose proof (co_vqs R h Hpre pc txc pv Hin Hpc Ev) as Hv.
    destruct (live_lookup _ _ pv (tok_live _ _ _ _ _ (ri_table _ (hok_rx R h Hh))) Hv) as [vq Hvq]. rewrite (deref_ok _ _ _ Hvq). show_ok. }
  cbn [mbind outcome_bind]. destruct (rl_show_ok (tx_w (h_tx h)) (inr pc)) as [own ->]; [by eexists|]. cbn [mbind outcome_bind].
  destruct (concatM_ok (rl_bucket_show sprintf_p (tx_w (h_tx h)) txc) (seq 0 (Z.to_nat ISO_MAX_RL_BUCKETS))) as [rls ->]; [|show_ok].
  intros i _. unfold rl_bucket_show.
  destruct (concatM_ok (fun p => iso_rl_show sprintf_p (tx_w (h_tx h)) (inl p)) (txc_rl_bucket txc (Z.of_nat i))) as [s ->]; [|show_ok].
  intros p Hp. apply rl_show_ok. exact (stk_bucket _ _ (txo_stock _ _ Htx pc txc Hpc) _ p Hp).
Qed.

Lemma vq_show_ok R h pv :
  ctl_pre (valid := valid) R h -> pv ∈ vq_list h -> exists s, iso_vq_show (h_rx h) pv = Ok s.
Proof.
  intros Hpre Hin. pose proof (hok_rx R h (co_host R h Hpre)) as Hrx.
  destruct (live_lookup _ _ pv (tok_live _ _ _ _ _ (ri_table _ Hrx)) Hin) as [vq Hvq].
  destruct (vq_ok_stats vq (ri_vq _ Hrx pv vq Hvq)) as [st Hst].
  unfold iso_vq_show. rewrite (deref_ok _ _ _ Hvq). cbn [mbind outcome_bind].
  destruct online_cpus; [show_ok|]. rewrite Hst. show_ok.
Qed.

(** Reading /proc/perfiso_stats of well-formed devices never dereferences a bad pointer. *)
Theorem stats_show_total R devs :
  Forall (fun d => ctl_pre (valid := valid) R d.2) devs -> exists s, iso_stats_proc_seq_show sprintf_p devs = Ok s.
Proof.
  rewrite Forall_forall. intros Hall. unfold iso_stats_proc_seq_show.
  destruct (concatM_ok (tx_context_show sprintf_p) devs) as [tx ->].
  { intros [name h] Hd. specialize (Hall _ Hd). cbn [snd] in Hall. unfold tx_context_show.
    destruct (concatM_ok (fun i => concatM (iso_txc_show sprintf_p h) (txx_bucket (tx_ctx (h_tx h)) (Z.of_nat i)))
      (seq 0 (Z.to_nat ISO_MAX_TX_BUCKETS))) as [s ->]; [|show_ok].
    intros i _. apply concatM_ok. intros p Hp. apply (txc_show_ok R); [done|].
    exact (ti_bucket _ _ (txo_inv _ _ (hok_tx _ _ (co_host _ _ Hall))) _ p Hp). }
  cbn [mbind outcome_bind]. destruct (concatM_ok rx_context_show devs) as [rx ->]; [|show_ok].
  intros [name h] Hd. specialize (Hall _ Hd). cbn [snd] in Hall. unfold rx_context_show.
  destruct (concatM_ok (iso_vq_show (h_rx h)) (rxc_vq_list (rx_ctx (h_rx h)))) as [s ->]; [|show_ok].
  intros p Hp. by apply (vq_show_ok R).
Qed.
End StatsProps.

(** ** The program-friendly file *)

(** A row: whether it is of a transmit class, the class, and the bytes. *)
Record csv_row := { row_tx : bool; row_class : cstring; row_bytes : Z }.

Definition comma : ascii := ","%char.

(** What a reader of the file does: lines, fields, and the number. *)
Fixpoint split_on (sep : ascii) (s : cstring) : list cstring :=
  match s with
  | [] => [[]]
  | c :: s =>
      match split_on sep s with
      | [] => [[c]]
      | f :: fs => if Ascii.eqb c sep then [] :: f :: fs else (c :: f) :: fs
      end
  end.

Definition parse_row (line : cstring) : option csv_row :=
  match split_on comma line with
  | [kind; klass; bytes] =>
      let '(n, rest) := scan_digits 0 bytes in
      if bool_decide (rest = []) then
        if bool_decide (kind = text "tx") then Some {| row_tx := true; row_class := klass; row_bytes := n |}
        else if bool_decide (kind = text "rx") then Some {| row_tx := false; row_class := klass; row_bytes := n |}
        else None
      else None
  | _ => None
  end.

(** The lines of a text, each ended by a newline. *)
Definition lines (s : cstring) : list cstring := removelast (split_on (char 10) s).

Definition print_row (r : csv_row) : cstring :=
  (if row_tx r then text "tx," else text "rx,") ++ row_class r ++ text "," ++ sprintf_llu (row_bytes r) ++ nl.

(** Text without separators. *)
Definition plain (s : cstring) : Prop := Forall (fun c => Ascii.eqb c comma = false /\ Ascii.eqb c (char 10) = false) s.

Lemma split_on_nil sep s : split_on sep s <> [].
Proof. destruct s as [|c s]; cbn; [done|]. destruct (split_on sep s); [done|]. by destruct (Ascii.eqb c sep). Qed.

Lemma split_on_app sep a s : Forall (fun c => Ascii.eqb c sep = false) a ->
  split_on sep (a ++ sep :: s) = a :: split_on sep s.
Proof.
  induction 1 as [|c a Hc Ha IH]; cbn [app split_on].
  - rewrite Ascii.eqb_refl. pose proof (split_on_nil sep s). by destruct (split_on sep s).
  - rewrite IH. by rewrite Hc.
Qed.

Lemma split_on_end sep a : Forall (fun c => Ascii.eqb c sep = false) a -> split_on sep a = [a].
Proof. induction 1 as [|c a Hc Ha IH]; cbn; [done|]. by rewrite IH, Hc. Qed.

Lemma digit_plain c : isdigit c = true -> Ascii.eqb c comma = false /\ Ascii.eqb c (char 10) = false.
Proof.
  intros Hd. split; apply Ascii.eqb_neq; intros ->; vm_compute in Hd; discriminate.
Qed.

Lemma digits_plain n : 0 <= n -> plain (sprintf_u n).
Proof.
  intros Hn. unfold plain. apply List.Forall_forall. intros c Hc. apply digit_plain.
  pose proof (dec_digits_digits 20 n Hn) as H. rewrite forallb_forall in H. by apply H.
Qed.

Lemma plain_comma s : plain s -> Forall (fun c => Ascii.eqb c comma = false) s.
Proof. intros H. eapply Forall_impl; [exact H|]. by intros c [? _]. Qed.

Lemma plain_line s : plain s -> Forall (fun c => Ascii.eqb c (char 10) = false) s.
Proof. intros H. eapply Forall_impl; [exact H|]. by intros c [_ ?]. Qed.

Lemma plain_app a b : plain a -> plain b -> plain (a ++ b).
Proof. intros. by apply Forall_app. Qed.

Lemma plain_text s : forallb (fun c => negb (Ascii.eqb c comma) && negb (Ascii.eqb c (char 10))) s = true -> plain s.
Proof.
  intros H. apply List.Forall_forall. intros c Hc. rewrite forallb_forall in H. specialize (H c Hc).
  apply andb_prop in H as [H1 H2]. by apply negb_true_iff in H1, H2.
Qed.

(** A row without its newline. *)
Definition row_line (r : csv_row) : cstring :=
  (if row_tx r then text "tx" else text "rx") ++ comma :: row_class r ++ comma :: sprintf_u (row_bytes r).

Definition row_ok (r : csv_row) : Prop := plain (row_class r) /\ is_u64 (row_bytes r).

Lemma parse_row_line r : row_ok r -> parse_row (row_line r) = Some r.
Proof.
  intros [Hc Hb]. unfold is_u64 in Hb. unfold parse_row, row_line.
  assert (Hk : plain (if row_tx r then text "tx" else text "rx")) by (destruct (row_tx r); by apply plain_text).
  rewrite split_on_app, split_on_app by (by apply plain_comma).
  rewrite split_on_end by (apply plain_comma, digits_plain; lia).
  pose proof (scan_sprintf_u (row_bytes r) [] ltac:(lia) eq_refl) as Hs. rewrite app_nil_r in Hs. rewrite Hs.
  rewrite bool_decide_eq_true_2 by done. destruct r as [[] k n]; cbn; by rewrite ?bool_decide_eq_true_2 by done.
Qed.

Lemma line_plain r : row_ok r -> Forall (fun c => Ascii.eqb c (char 10) = false) (row_line r).
Proof.
  intros [Hc Hb]. unfold is_u64 in Hb. unfold row_line. rewrite !Forall_app, !Forall_cons, Forall_app, Forall_cons.
  split; [destruct (row_tx r); apply plain_line, plain_text; reflexivity|]. split; [done|].
  split; [by apply plain_line|]. split; [done|]. apply plain_line, digits_plain. lia.
Qed.

Lemma print_row_line r : is_u64 (row_bytes r) -> print_row r = row_line r ++ nl.
Proof.
  unfold is_u64. intros Hb. unfold print_row, row_line, sprintf_llu. rewrite u64_small by lia.
  destruct (row_tx r); cbn [app list_ascii_of_string]; by rewrite <-!app_assoc.
Qed.

Lemma lines_rows rows : Forall row_ok rows -> lines (concat (map print_row rows)) = map row_line rows.
Proof.
  unfold lines. induction 1 as [|r rows Hr Hrows IH]; [done|]. cbn [map concat].
  rewrite print_row_line by apply Hr. rewrite <-app_assoc. cbn [nl app]. rewrite split_on_app by (by apply line_plain).
  rewrite <-IH. pose proof (split_on_nil (char 10) (concat (map print_row rows))). by destruct (split_on _ _).
Qed.

Lemma parse_printed rows : Forall row_ok rows -> map parse_row (lines (concat (map print_row rows))) = map Some rows.
Proof.
  intros Hrows. rewrite lines_rows by done. induction Hrows as [|r rows Hr _ IH]; [done|]. cbn [map].
  by rewrite parse_row_line, IH.
Qed.

(** What a class prints has no separators. *)
Class PlainShow (C : IsoClass) (valid : Z -> Prop) : Prop := {
  plain_show k : valid k -> plain (op_show k)
}.

Lemma plain_d n : plain (sprintf_d n).
Proof.
  unfold sprintf_d. destruct (Z.ltb_spec n 0); [|by apply (digits_plain n)].
  apply Forall_cons. split; [done|]. apply (digits_plain (- n)). lia.
Qed.

#[export] Instance mark_plain : PlainShow Mark.ops is_u32.
Proof. split. intros k _. apply plain_d. Qed.

#[export] Instance l4port_plain {K : Kernel} {KL : KernelLaws K} : PlainShow L4port.ops is_u32.
Proof. split. intros k _. pose proof (htons_range k) as H. unfold is_u16 in H. apply (digits_plain (htons k)). lia. Qed.

#[export] Instance ipaddr_plain {K : Kernel} {KL : KernelLaws K} : PlainShow Ipaddr.ops is_u32.
Proof.
  split. intros k Hk. change (plain (Ipaddr.iso_class_show k)). rewrite ipaddr_show_bytes by done.
  assert (Hb : forall i s, plain s -> plain (sprintf_u (byte_of i (htonl k)) ++ s)).
  { intros i s Hs. apply plain_app; [|done]. apply digits_plain. apply byte_of_range. }
  repeat (apply Hb; try (apply Forall_cons; split; [done|])). constructor.
Qed.

(** The rows that the file should have. *)
Definition tx_row {C : IsoClass} (h : host) (pc : loc) : csv_row := {|
  row_tx := true;
  row_class := match tx_txcs (h_tx h) !! pc with Some txc => op_show (txc_klass txc) | None => [] end;
  row_bytes := match w_rls (tx_w (h_tx h)) !! inr pc with Some rl => u64 (rl_accum_xmit rl) | None => 0 end |}.

Definition rx_row {K : Kernel} {C : IsoClass} (h : host) (pv : loc) : csv_row := {|
  row_tx := false;
  row_class := match rx_vqs (h_rx h) !! pv with Some vq => op_show (vq_klass vq) | None => [] end;
  row_bytes := match rx_vqs (h_rx h) !! pv with
    | Some vq => match vq_percpu_stats vq with
                 | Some st => u64 (sumZ (map (fun i => vqs_rx_bytes (st i)) online_cpus))
                 | None => 0 end
    | None => 0 end |}.

Definition csv_rows {K : Kernel} {C : IsoClass} (devs : list (cstring * host)) : list csv_row :=
  concat (map (fun d => map (tx_row d.2) (tx_list d.2)) devs) ++ concat (map (fun d => map (rx_row d.2) (vq_list d.2)) devs).

Section Csv.
Context {K : Kernel} {KL : KernelLaws K} {P : params} {PO : params_ok P}.
Context {C : IsoClass} {valid : Z -> Prop} {L : IsoClassLaws C valid} {PS : PlainShow C valid}.
Context {Env : Oracle} {CL : ClockLaws Env}.

Lemma csv_txc_row R h pc :
  ctl_pre (valid := valid) R h -> pc ∈ tx_list h -> csv_txc h pc = Ok (print_row (tx_row h pc)) /\ row_ok (tx_row h pc).
Proof.
  intros Hpre Hin. destruct (cls_live _ (ti_cls _ _ (txo_inv _ _ (hok_tx R h (co_host R h Hpre)))) pc Hin) as [[txc Hpc] [rl Hrl]].
  unfold csv_txc, print_row, tx_row, row_ok, sprintf_llu. rewrite (deref_ok _ _ _ Hpc), (deref_ok _ _ _ Hrl), Hpc, Hrl.
  cbn [mbind outcome_bind mret outcome_ret row_tx row_class row_bytes]. rewrite u64_idem. split; [done|].
  split; [|apply u64_range]. apply plain_show. exact (tok_valid _ _ _ _ _ (co_table R h Hpre) pc txc Hin Hpc).
Qed.

Lemma foldM_rx_bytes (st : percpu iso_vq_stats) l acc :
  foldM (fun rx_bytes i => mret (u64 (rx_bytes + vqs_rx_bytes (st i)))) l (u64 acc) =
  Ok (u64 (acc + sumZ (map (fun i => vqs_rx_bytes (st i)) l))).
Proof.
  revert acc. induction l as [|i l IH]; intros acc; cbn [foldM map sumZ]; [by rewrite Z.add_0_r|].
  cbn [mbind outcome_bind mret outcome_ret]. rewrite u64_add_l, IH. do 2 f_equal. lia.
Qed.

Lemma csv_vq_row R h pv :
  ctl_pre (valid := valid) R h -> pv ∈ vq_list h -> csv_vq h pv = Ok (print_row (rx_row h pv)) /\ row_ok (rx_row h pv).
Proof.
  intros Hpre Hin. pose proof (hok_rx R h (co_host R h Hpre)) as Hrx.
  destruct (live_lookup _ _ pv (tok_live _ _ _ _ _ (ri_table _ Hrx)) Hin) as [vq Hvq].
  destruct (vq_ok_stats vq (ri_vq _ Hrx pv vq Hvq)) as [st Hst].
  unfold csv_vq, print_row, rx_row, row_ok, sprintf_llu. rewrite (deref_ok _ _ _ Hvq), Hvq. cbn [mbind outcome_bind]. rewrite Hst.
  pose proof (foldM_rx_bytes st online_cpus 0) as E. rewrite u64_small in E by lia. rewrite E.
  cbn [mbind outcome_bind mret outcome_ret row_tx row_class row_bytes]. split; [done|].
  split; [|apply u64_range]. apply plain_show. exact (tok_valid _ _ _ _ _ (ri_table _ Hrx) pv vq Hin Hvq).
Qed.

(** The loops over devices and their lists. *)
Lemma csv_loop (f : host -> loc -> outcome cstring) (row : host -> loc -> csv_row) (l : host -> list loc) devs :
  (forall d p, d ∈ devs -> p ∈ l d.2 -> f d.2 p = Ok (print_row (row d.2 p)) /\ row_ok (row d.2 p)) ->
  let rows := concat (map (fun d : cstring * host => map (row d.2) (l d.2)) devs) in
  concatM (fun d => concatM (f d.2) (l d.2)) devs = Ok (concat (map print_row rows)) /\ Forall row_ok rows.
Proof.
  intros Hf rows. split.
  - rewrite (concatM_map _ (fun d => concat (map print_row (map (row d.2) (l d.2))))).
    + subst rows. f_equal. clear. induction devs as [|d devs IH]; [done|]. cbn [map concat]. by rewrite map_app, concat_app, IH.
    + intros d Hd. rewrite (concatM_map _ (fun p => print_row (row d.2 p))) by (intros p Hp; by apply Hf). by rewrite map_map.
  - subst rows. apply Forall_concat, Forall_fmap, Forall_forall. intros d Hd. apply Forall_fmap, Forall_forall.
    intros p Hp. by apply Hf.
Qed.

(** C29: Reading /proc/csv_perfiso_stats of well-formed devices never faults, and splitting the
    text into lines and fields gives back one row per transmit class with the bytes it sent and
    one per virtual queue with the bytes of the online CPUs, in the order of the lists. *)
Theorem csv_stats_roundtrip R devs :
  Forall (fun d => ctl_pre (valid := valid) R d.2) devs ->
  exists s, iso_csvstats_proc_seq_show devs = Ok s /\ map parse_row (lines s) = map Some (csv_rows devs).
Proof.
  rewrite Forall_forall. intros Hall. unfold iso_csvstats_proc_seq_show, csv_rows.
  destruct (csv_loop csv_txc tx_row tx_list devs) as [E1 H1]; [intros d p Hd Hp; apply (csv_txc_row R); auto|].
  destruct (csv_loop csv_vq rx_row vq_list devs) as [E2 H2]; [intros d p Hd Hp; apply (csv_vq_row R); auto|].
  unfold tx_list, vq_list in *. rewrite E1. cbn [mbind outcome_bind]. rewrite E2. cbn [mbind outcome_bind mret outcome_ret].
  eexists. split; [reflexivity|]. rewrite <-concat_app, <-map_app. apply parse_printed. by apply Forall_app.
Qed.
End Csv.

(** ** One device with class 7 *)

Lemma stats_show_total_witness :
  exists s, iso_stats_proc_seq_show (K := ref_kernel) (C := Mark.ops) (fun _ => text "(ptr)")
    [(text "eth0", ex_host)] = Ok s.
Proof.
  apply (stats_show_total (K := ref_kernel) (P := default_params) (C := Mark.ops) (valid := is_u32) (Env := ex_env)
    (fun _ => text "(ptr)") 10000). apply Forall_singleton. exact (proj1 ex_ctl_ok).
Defined.

Lemma csv_stats_roundtrip_witness :
  exists s, iso_csvstats_proc_seq_show (K := ref_kernel) (C := Mark.ops) [(text "eth0", ex_host)] = Ok s /\
    s = text "tx,7,0" ++ nl ++ text "rx,7,0" ++ nl /\
    map parse_row (lines s) = [Some {| row_tx := true; row_class := text "7"; row_bytes := 0 |};
                               Some {| row_tx := false; row_class := text "7"; row_bytes := 0 |}].
Proof.
  destruct (csv_stats_roundtrip (K := ref_kernel) (P := default_params) (C := Mark.ops) (valid := is_u32) (Env := ex_env)
    10000 [(text "eth0", ex_host)]) as (s & E & H).
  - apply Forall_singleton. exact (proj1 ex_ctl_ok).
  - exists s. split; [exact E|]. split; [|rewrite H; vm_compute; reflexivity].
    assert (E2 : iso_csvstats_proc_seq_show (K := ref_kernel) (C := Mark.ops) [(text "eth0", ex_host)] =
      Ok (text "tx,7,0" ++ nl ++ text "rx,7,0" ++ nl)) by (vm_compute; reflexivity).
    rewrite E in E2. by injection E2.
Defined.
