(* ===== verification/Monitor.v ===== *)
(** * The monitoring program (tools/monitor/pimonitor.cc)

    A user program that samples /proc/csv_perfiso_stats and prints the rate of
    every class between two samples.  The text of the file at each sample and
    the clock are arguments; a [std::map] is a finite map that is iterated in
    the order of its keys; a [double] is an IEEE binary64 number of the Standard
    Library's SpecFloat. *)

From Stdlib Require Import Ascii String.
From Stdlib Require SpecFloat.
From stdpp Require Import sorting.
From S2P Require Import Prelude Params Kernel Packet Scan Class RateControl HashTable VirtualQueue.
From S2P Require Import VqTable RateLimiter Dequeue Device Tx TxPath Rx Host System Netdev Control.
From S2P Require Import Config CommandLine ClassVariants Stats.

Open Scope Z_scope.

(** ** stdio: the stream, [fscanf], [sscanf] *)

(** What is left to read, and the end-of-file indicator. *)
Record stream := { st_rest : cstring; st_eof : bool }.

Definition rewind (file : cstring) : stream := {| st_rest := file; st_eof := false |}.

(** [fscanf(fp, "%s\n", line)]: the word, if there is one before the end of the file. *)
Definition fscanf_word (fp : stream) : option cstring * stream :=
  match skip_spaces (st_rest fp) with
  | [] => (None, {| st_rest := []; st_eof := true |})
  | s =>
      let '(w, r) := scan_word s in
      let r := skip_spaces r in
      (Some w, {| st_rest := r; st_eof := match r with [] => true | _ => false end |})
  end.

(** The value of a run of digits, and what follows it. *)
Fixpoint take_digits (acc : Z) (s : cstring) : Z * cstring :=
  match s with
  | c :: s' => if isdigit c then take_digits (acc * 10 + digit_val c) s' else (acc, s)
  | [] => (acc, [])
  end.

Definition ULLONG_MAX : Z := 18446744073709551615.

(** [strtoull] of an optional sign and digits: the largest value when it does not fit. *)
Definition strtoull (neg : bool) (n : Z) : Z :=
  if ULLONG_MAX <? n then ULLONG_MAX else if neg then u64 (- n) else n.

Definition sign_of (s : cstring) : bool * cstring :=
  match s with
  | c :: s' => if Ascii.eqb c "-"%char then (true, s') else if Ascii.eqb c "+"%char then (false, s') else (false, s)
  | [] => (false, [])
  end.

(** [sscanf(line, "%s %s %llu", dir, klass, &bytes)] *)
Definition sscanf_row (line : cstring) : list value :=
  match skip_spaces line with
  | [] => []
  | s =>
      let '(dir, r) := scan_word s in
      match skip_spaces r with
      | [] => [VStr dir]
      | s =>
          let '(klass, r) := scan_word s in
          let '(neg, s) := sign_of (skip_spaces r) in
          if starts_digit s then [VStr dir; VStr klass; VInt (strtoull neg (take_digits 0 s).1)]
          else [VStr dir; VStr klass]
      end
  end.

(** [atoi]: [strtol] of 64 bits converted to int. *)
Definition LONG_MAX : Z := 9223372036854775807.

Definition atoi (s : cstring) : Z :=
  let '(neg, s) := sign_of (skip_spaces s) in
  let n := (take_digits 0 s).1 in
  s32 (if neg then Z.max (- LONG_MAX - 1) (- n) else Z.min LONG_MAX n).

(** ** Numbers of type double, and [%.3f] *)

Abbreviation double := SpecFloat.spec_float.

Definition double_of (n : Z) : double := SpecFloat.binary_normalize 53 1024 n 0 false.
Definition dmul : double -> double -> double := SpecFloat.SFmul 53 1024.
Definition ddiv : double -> double -> double := SpecFloat.SFdiv 53 1024.
Definition dadd : double -> double -> double := SpecFloat.SFadd 53 1024.

(** The integer nearest to [n / d], the even one of two. *)
Definition round_half_even (n d : Z) : Z :=
  let q := n / d in
  match 2 * (n mod d) ?= d with
  | Lt => q
  | Gt => q + 1
  | Eq => if Z.even q then q else q + 1
  end.

(** Thousandths of [m * 2^e]. *)
Definition thousandths (m e : Z) : Z :=
  if 0 <=? e then m * 2 ^ e * 1000 else round_half_even (m * 1000) (2 ^ (- e)).

Definition sprintf_nat (n : Z) : cstring := dec_digits (S (Z.to_nat (Z.log2 n))) n.

Definition print_thousandths (n : Z) : cstring :=
  sprintf_nat (n / 1000) ++ text "." ++
  [char (48 + n / 100 mod 10); char (48 + n / 10 mod 10); char (48 + n mod 10)].

(** [printf("%.3f")] *)
Definition sprintf_f3 (x : double) : cstring :=
  let signed (s : bool) (t : cstring) := if s then "-"%char :: t else t in
  match x with
  | SpecFloat.S754_zero s => signed s (text "0.000")
  | SpecFloat.S754_infinity s => signed s (text "inf")
  | SpecFloat.S754_nan => text "nan"
  | SpecFloat.S754_finite s m e => signed s (print_thousandths (thousandths (Zpos m) e))
  end.

(** ** The program *)

Record stats := { st_tx : Z; st_rx : Z }.

(** [stats()] *)
Definition stats_zero : stats := {| st_tx := 0; st_rx := 0 |}.

Abbreviation samples := (gmap cstring stats).

(** [map::operator[]]: the entry, made when it is not there. *)
Definition entry (m : samples) (k : cstring) : stats := default stats_zero (m !! k).

(** [db[i][klass].tx = bytes], or [.rx] *)
Definition record_bytes (dir klass : cstring) (bytes : Z) (m : samples) : samples :=
  let old := entry m klass in
  match dir with
  | c :: _ =>
      if Ascii.eqb c "t"%char then <[klass := {| st_tx := bytes; st_rx := st_rx old |}]> m
      else <[klass := {| st_tx := st_tx old; st_rx := bytes |}]> m
  | [] => <[klass := {| st_tx := st_tx old; st_rx := bytes |}]> m
  end.

Definition LINE_SIZE : nat := 256.
Definition FIELD_SIZE : nat := 32.

(** The array [line] after [fscanf]: a word that is too long overruns it, and without a word it keeps
    what it had. *)
Definition line_after (word line : option cstring) : outcome cstring :=
  match word, line with
  | Some w, _ => if Nat.leb LINE_SIZE (length w) then Oops StackSmash else Ok w
  | None, Some l => Ok l
  | None, None => Oops Uninitialised
  end.

Definition comma_to_space (c : ascii) : ascii := if Ascii.eqb c comma then " "%char else c.

(** The loop of [read_data]. *)
Fixpoint read_loop (fuel : nat) (fp : stream) (line : option cstring) (m : samples) : outcome samples :=
  if st_eof fp then Ok m else
  match fuel with
  | O => Oops OutOfFuel
  | S k =>
      let '(word, fp) := fscanf_word fp in
      l ← line_after word line;
      let l := map comma_to_space l in
      let vs := sscanf_row l in
      if existsb (overruns FIELD_SIZE) vs then Oops StackSmash else
      match vs with
      | [VStr dir; VStr klass; VInt bytes] => read_loop k fp (Some l) (record_bytes dir klass bytes m)
      | _ => Ok m
      end
  end.

(** [read_data(i)] with the text of the file, on [db[i]]. *)
Definition read_data (file : cstring) (m : samples) : outcome samples :=
  read_loop (S (length file)) (rewind file) None m.

(** [rate(bytes, us)] *)
Definition rate (bytes us : Z) : double := ddiv (dmul (double_of bytes) (double_of 8)) (double_of us).

(** [gtod()] *)
Definition gtod (tv : Z * Z) : double := dadd (double_of tv.1) (ddiv (double_of tv.2) (double_of 1000000)).

(** The order of [std::string], and the entries of a map in that order. *)
Fixpoint key_leb (a b : cstring) : bool :=
  match a, b with
  | [], _ => true
  | _ :: _, [] => false
  | x :: a, y :: b => (code x <? code y) || ((code x =? code y) && key_leb a b)
  end.

Definition entry_le (a b : cstring * stats) : Prop := key_leb a.1 b.1 = true.

#[export] Instance entry_le_dec a b : Decision (entry_le a b).
Proof. unfold entry_le. apply _. Defined.

Definition entries (m : samples) : list (cstring * stats) := merge_sort entry_le (map_to_list m).

(** The state: [db], the index of the next sample, and how often the clock was read. *)
Record monitor := { mon_db : nat -> samples; mon_i : nat; mon_clock : nat }.

Section Program.
Context (interval_us : Z) (now : nat -> Z * Z).

(** The line of one class. *)
Definition print_row_rates (t : nat) (key : cstring) (value value2 : stats) : cstring :=
  let tx_bytes := u64 (st_tx value2 - st_tx value) in
  let rx_bytes := u64 (st_rx value2 - st_rx value) in
  sprintf_f3 (gtod (now t)) ++ text "," ++ key ++ text "," ++ sprintf_f3 (rate tx_bytes interval_us) ++
  text "," ++ sprintf_f3 (rate rx_bytes interval_us) ++ nl.

(** The loop of [print_data] over the entries of [db[prev]]: [db[curr]], the clock and the output. *)
Fixpoint print_loop (l : list (cstring * stats)) (cur : samples) (t : nat) : samples * nat * cstring :=
  match l with
  | [] => (cur, t, [])
  | (key, value) :: l =>
      let value2 := entry cur key in
      let cur := <[key := value2]> cur in
      let '(cur', t', out) := print_loop l cur (S t) in
      (cur', t', print_row_rates t key value value2 ++ out)
  end.

(** [print_data(curr)] *)
Definition print_data (db : nat -> samples) (curr : nat) (t : nat) : (nat -> samples) * nat * cstring :=
  let prev := Nat.land (curr + 1) 1 in
  let '(cur, t, out) := print_loop (entries (db prev)) (db curr) t in
  (pc_set curr cur db, t, out).

(** [monitor_loop()]: the first sample, and one iteration. *)
Definition monitor_first (file : cstring) : outcome monitor :=
  m ← read_data file ∅;
  mret {| mon_db := pc_set 0 m (fun _ => ∅); mon_i := 1; mon_clock := 0 |}.

Definition monitor_step (st : monitor) (file : cstring) : outcome (monitor * cstring) :=
  m ← read_data file (mon_db st (mon_i st));
  let '(db, t, out) := print_data (pc_set (mon_i st) m (mon_db st)) (mon_i st) (mon_clock st) in
  mret ({| mon_db := db; mon_i := Nat.land (mon_i st + 1) 1; mon_clock := t |}, out).

Fixpoint monitor_steps (st : monitor) (files : list cstring) : outcome (monitor * cstring) :=
  match files with
  | [] => mret (st, [])
  | file :: files =>
      '(st, out) ← monitor_step st file;
      '(st, rest) ← monitor_steps st files;
      mret (st, out ++ rest)
  end.
End Program.

(** [main(argc, argv)]: the exit status with what is written to stderr, or the interval
    and what is written to stdout before the loop. *)
Definition pimonitor_main (argv1 : option cstring) (file_found : bool) : (Z * cstring) + (Z * cstring) :=
  let interval_us := match argv1 with Some s => Z.max 1000 (atoi s) | None => 100 * 1000 end in
  if file_found then inr (interval_us, text "#time,class,txrate,rxrate" ++ nl)
  else inl (1, text "CSV file not found" ++ nl).

(** ** Reading one row *)

(** A word is not empty and without white space. *)
Lemma word_spec s : word s <-> s <> [] /\ Forall (fun c => isspace c = false) s.
Proof.
  unfold word. rewrite forallb_forall, List.Forall_forall. setoid_rewrite negb_true_iff. done.
Qed.

(** A field that the arrays of [read_data] hold. *)
Definition field (s : cstring) : Prop := word s /\ plain s /\ (length s < FIELD_SIZE)%nat.

Lemma skip_spaces_blank r : skip_spaces (" "%char :: r) = skip_spaces r.
Proof. done. Qed.

Lemma take_digits_app ds : forall acc r, forallb isdigit ds = true ->
  take_digits acc (ds ++ r) = take_digits (fold_left (fun a c => a * 10 + digit_val c) ds acc) r.
Proof.
  induction ds as [|c ds IH]; intros acc r Hds; [done|]. cbn in *. apply andb_prop in Hds as [Hc Hds]. rewrite Hc. by apply IH.
Qed.

Lemma take_dec_digits fuel : forall n, 0 <= n < 10 ^ Z.of_nat fuel ->
  fold_left (fun a c => a * 10 + digit_val c) (dec_digits fuel n) 0 = n.
Proof.
  induction fuel as [|k IH]; intros n Hn; [change (10 ^ Z.of_nat 0) with 1 in Hn; cbn; lia|].
  rewrite Nat2Z.inj_succ, Z.pow_succ_r in Hn by lia. cbn [dec_digits]. destruct (Z.ltb_spec n 10).
  - cbn. rewrite digit_val_char; lia.
  - rewrite fold_left_app, IH by (Z.div_mod_to_equations; lia). cbn.
    rewrite digit_val_char by (apply Z.mod_pos_bound; lia). Z.div_mod_to_equations; lia.
Qed.

Lemma take_sprintf_u n : is_u64 n -> take_digits 0 (sprintf_u n) = (n, []).
Proof.
  unfold is_u64. intros Hn. rewrite <-(app_nil_r (sprintf_u n)), take_digits_app by (apply dec_digits_digits; lia).
  unfold sprintf_u. rewrite take_dec_digits; [done|]. change (10 ^ Z.of_nat 20) with 100000000000000000000. lia.
Qed.

Lemma sign_of_digits s : starts_digit s = true -> sign_of s = (false, s).
Proof.
  destruct s as [|c s]; [done|]. cbn. intros Hc.
  destruct (Ascii.eqb_spec c "-"%char) as [->|]; [by vm_compute in Hc|].
  destruct (Ascii.eqb_spec c "+"%char) as [->|]; [by vm_compute in Hc|]. done.
Qed.

Lemma map_comma_plain s : plain s -> map comma_to_space s = s.
Proof. induction 1 as [|c s [Hc _] _ IH]; [done|]. cbn. unfold comma_to_space at 1. by rewrite Hc, IH. Qed.

Definition row_dir (r : csv_row) : cstring := if row_tx r then text "tx" else text "rx".

(** A row that fits. *)
Definition row_fits (r : csv_row) : Prop := field (row_class r) /\ is_u64 (row_bytes r).

Lemma dir_word r : word (row_dir r).
Proof. unfold row_dir. by destruct (row_tx r); apply word_spec; split; [done|repeat constructor|done|repeat constructor]. Qed.

Lemma sscanf_row_line r : row_fits r ->
  sscanf_row (map comma_to_space (row_line r)) = [VStr (row_dir r); VStr (row_class r); VInt (row_bytes r)].
Proof.
  intros [(Hw & Hp & _) Hb]. unfold row_line. fold (row_dir r).
  assert (plain (row_dir r)) as Hd by (unfold row_dir; destruct (row_tx r); by apply plain_text).
  rewrite !map_app, !map_cons, map_app, map_cons. rewrite !map_comma_plain by (done || (apply digits_plain; apply Hb)).
  change (comma_to_space comma) with " "%char. unfold sscanf_row. rewrite skip_spaces_word by apply dir_word.
  assert (Hcons : forall (w t : cstring), word w -> exists c l, w ++ t = c :: l) by (intros [|c w] t [? ?]; [done|]; eauto).
  destruct (Hcons (row_dir r) (" "%char :: row_class r ++ " "%char :: sprintf_u (row_bytes r)) (dir_word r)) as (c & l & E).
  rewrite E, <-E. clear c l E. rewrite scan_word_app by (apply dir_word || done). rewrite skip_spaces_blank.
  rewrite skip_spaces_word by done.
  destruct (Hcons (row_class r) (" "%char :: sprintf_u (row_bytes r)) Hw) as (c & l & E).
  rewrite E, <-E. clear c l E. rewrite scan_word_app by (apply Hw || done).
  rewrite skip_spaces_blank. pose proof (sprintf_u_nonempty (row_bytes r) ltac:(apply Hb)) as Hs.
  rewrite skip_spaces_digit, sign_of_digits by done. rewrite Hs, take_sprintf_u by done. cbn [fst].
  unfold strtoull, ULLONG_MAX. unfold is_u64 in Hb. destruct (Z.ltb_spec 18446744073709551615 (row_bytes r)); [lia|done].
Qed.

(** ** Reading the file *)

Lemma dec_digits_length fuel n : (length (dec_digits fuel n) <= fuel)%nat.
Proof. revert n. induction fuel as [|k IH]; intros n; [done|]. cbn. destruct (n <? 10); cbn; [lia|]. rewrite length_app. specialize (IH (n / 10)). cbn. lia. Qed.

Lemma row_line_word r : row_fits r -> word (row_line r).
Proof.
  intros [([_ Hc]%word_spec & _ & _) Hb]. unfold row_line. fold (row_dir r). destruct (proj1 (word_spec _) (dir_word r)) as [Hne Hd].
  apply word_spec. split; [by destruct (row_dir r)|]. rewrite !Forall_app, !Forall_cons, Forall_app, Forall_cons. do 4 (split; [done|]).
  pose proof (dec_digits_digits 20 (row_bytes r) ltac:(apply Hb)) as H. rewrite forallb_forall in H.
  apply List.Forall_forall. intros c Hin. by apply digit_not_space, H.
Qed.

Lemma row_line_short r : row_fits r -> (length (row_line r) < LINE_SIZE)%nat.
Proof.
  intros [(_ & _ & Hc) _]. unfold row_line, FIELD_SIZE, LINE_SIZE in *. rewrite !length_app. cbn [length]. rewrite length_app. cbn [length].
  pose proof (dec_digits_length 20 (row_bytes r)) as H. fold (sprintf_u (row_bytes r)) in H.
  assert (length (if row_tx r then text "tx" else text "rx") = 2%nat) as -> by by destruct (row_tx r). lia.
Qed.

Definition file_of (rows : list csv_row) : cstring := concat (map print_row rows).

Lemma skip_file rows : Forall row_fits rows -> skip_spaces (file_of rows) = file_of rows.
Proof.
  intros Hr. destruct Hr as [|r rows Hr _]; [done|]. unfold file_of. cbn [map concat]. rewrite print_row_line by apply Hr.
  rewrite <-app_assoc. by apply skip_spaces_word, row_line_word.
Qed.

Lemma fscanf_word_file r rows : row_fits r -> Forall row_fits rows ->
  fscanf_word {| st_rest := file_of (r :: rows); st_eof := false |} =
  (Some (row_line r), {| st_rest := file_of rows; st_eof := match rows with [] => true | _ => false end |}).
Proof.
  intros Hr Hrows. unfold fscanf_word. cbn [st_rest]. rewrite skip_file by by constructor.
  change (file_of (r :: rows)) with (print_row r ++ file_of rows). rewrite print_row_line by apply Hr. rewrite <-app_assoc.
  pose proof (row_line_word r Hr) as Hw. destruct (row_line r ++ nl ++ file_of rows) as [|c l] eqn:E.
  { destruct Hw as [Hne _]. by destruct (row_line r). }
  rewrite <-E. rewrite scan_word_app by (apply Hw || done). cbn [nl app].
  change (skip_spaces (char 10 :: file_of rows)) with (skip_spaces (file_of rows)). rewrite skip_file by done. do 2 f_equal.
  destruct Hrows as [|r' rows Hr' _]; [done|]. unfold file_of. cbn [map concat]. rewrite print_row_line by apply Hr'.
  destruct (row_line_word r' Hr') as [Hne _]. by destruct (row_line r').
Qed.

(** What a row does to the samples. *)
Definition record_row (m : samples) (r : csv_row) : samples := record_bytes (row_dir r) (row_class r) (row_bytes r) m.

Lemma read_loop_rows rows : Forall row_fits rows -> forall fuel line m, (length rows <= fuel)%nat ->
  read_loop fuel {| st_rest := file_of rows; st_eof := match rows with [] => true | _ => false end |} line m =
  Ok (fold_left record_row rows m).
Proof.
  induction 1 as [|r rows Hr Hrows IH]; intros fuel line m Hf; [by destruct fuel|].
  destruct fuel as [|k]; [cbn in Hf; lia|]. cbn [read_loop st_eof]. rewrite fscanf_word_file by done. cbn [line_after].
  rewrite (proj2 (Nat.leb_gt _ _)) by by apply row_line_short. cbn [mbind outcome_bind]. rewrite sscanf_row_line by done.
  replace (existsb _ _) with false; [apply IH; cbn in Hf; lia|]. symmetry. cbn [existsb overruns]. destruct Hr as [(_ & _ & Hc) _].
  rewrite (proj2 (Nat.leb_gt FIELD_SIZE (length (row_class r)))) by done. by unfold row_dir; destruct (row_tx r).
Qed.

Lemma file_length rows : Forall row_fits rows -> (length rows <= length (file_of rows))%nat.
Proof.
  induction 1 as [|r rows Hr _ IH]; [done|]. unfold file_of in *. cbn [map concat length]. rewrite length_app, print_row_line by apply Hr.
  rewrite length_app. cbn. lia.
Qed.

Lemma read_data_rows rows m : Forall row_fits rows -> rows <> [] ->
  read_data (file_of rows) m = Ok (fold_left record_row rows m).
Proof.
  intros Hrows Hne. unfold read_data, rewind. pose proof (file_length rows Hrows).
  destruct rows as [|r rows]; [done|]. apply (read_loop_rows (r :: rows)); [done|]. lia.
Qed.

(** The bytes of the last row of a class in a direction. *)
Definition last_bytes (tx : bool) (k : cstring) (rows : list csv_row) : option Z :=
  fold_left (fun acc r => if Bool.eqb (row_tx r) tx && bool_decide (row_class r = k) then Some (row_bytes r) else acc) rows None.

Lemma last_bytes_snoc tx k rows r : last_bytes tx k (rows ++ [r]) =
  if Bool.eqb (row_tx r) tx && bool_decide (row_class r = k) then Some (row_bytes r) else last_bytes tx k rows.
Proof. unfold last_bytes. by rewrite fold_left_app. Qed.

(** The sample of a class that [rows] leave when it was [old]. *)
Definition sample_of (rows : list csv_row) (k : cstring) (old : stats) : stats :=
  {| st_tx := default (st_tx old) (last_bytes true k rows); st_rx := default (st_rx old) (last_bytes false k rows) |}.

Lemma entry_rows rows : forall m k, entry (fold_left record_row rows m) k = sample_of rows k (entry m k).
Proof.
  induction rows as [|r rows IH] using rev_ind; intros m k; [unfold sample_of; cbn; by destruct (entry m k)|].
  rewrite fold_left_app. cbn [fold_left]. unfold sample_of. rewrite !last_bytes_snoc.
  specialize (IH m k). set (m' := fold_left record_row rows m) in *. unfold record_row, record_bytes, row_dir.
  destruct (row_tx r); cbn; destruct (decide (row_class r = k)) as [<-|Hne]; unfold entry at 1.
  all: rewrite ?lookup_insert_eq, ?lookup_insert_ne by done; cbn; rewrite ?bool_decide_eq_true_2, ?bool_decide_eq_false_2 by done.
  all: cbn; try (fold (entry m' (row_class r)); by rewrite IH). all: exact IH.
Qed.

Lemma dom_rows rows : forall m k, k ∈ dom (fold_left record_row rows m) <-> k ∈ dom m \/ k ∈ map row_class rows.
Proof.
  induction rows as [|r rows IH]; intros m k; cbn [fold_left map]; [set_solver|]. rewrite IH.
  assert (dom (record_row m r) = {[row_class r]} ∪ dom m) as ->.
  { unfold record_row, record_bytes, row_dir. destruct (row_tx r); cbn; apply dom_insert_L. }
  set_solver.
Qed.

(** Every iteration consumes a word, so the bound is never reached. *)
Lemma fscanf_word_shorter fp w fp' : fscanf_word fp = (Some w, fp') -> (length (st_rest fp') < length (st_rest fp))%nat.
Proof.
  unfold fscanf_word. pose proof (skip_spaces_length (st_rest fp)) as H1. destruct (skip_spaces (st_rest fp)) as [|c s] eqn:E; [done|].
  pose proof (scan_word_length (c :: s)) as H2. destruct (scan_word (c :: s)) as [w' r] eqn:Ew. intros [= <- <-]. cbn in *.
  pose proof (skip_spaces_length r). assert (isspace c = false).
  { destruct (isspace c) eqn:Hc; [|done]. exfalso. clear -E Hc. induction (st_rest fp) as [|c' l IH]; [done|]. cbn in E.
    destruct (isspace c') eqn:Hc'; [auto|]. congruence. }
  destruct (isspace c); [done|]. destruct (scan_word s) as [w0 r0]. injection Ew as <- <-. cbn in *. lia.
Qed.

Definition read_fault (f : fault) : Prop := f = StackSmash \/ f = Uninitialised.

Lemma read_loop_total fuel : forall fp line m, (length (st_rest fp) < fuel)%nat ->
  match read_loop fuel fp line m with Ok _ => True | Oops f => read_fault f end.
Proof.
  unfold read_fault. induction fuel as [|k IH]; intros fp line m Hf; [lia|]. cbn [read_loop]. destruct (st_eof fp); [done|].
  destruct (fscanf_word fp) as [word fp'] eqn:E. unfold line_after.
  assert (Hloop : forall line m, match read_loop k fp' line m with Ok _ => True | Oops f => read_fault f end).
  { intros line' m'. destruct word as [w|].
    - apply IH. apply fscanf_word_shorter in E. lia.
    - unfold fscanf_word in E. destruct (skip_spaces (st_rest fp)); [|by destruct (scan_word _)].
      injection E as <-. by destruct k. }
  destruct word as [w|]; [destruct (Nat.leb LINE_SIZE (length w)); [auto|]|destruct line; [|auto]]; cbn [mbind outcome_bind]; auto.
  all: match goal with |- context [existsb ?f ?l] => destruct (existsb f l); [auto|] end.
  all: destruct (sscanf_row _) as [|[] [|[] [|[] []]]]; auto; apply Hloop.
Qed.

(** ** Printing the rates *)

Lemma print_row_ext (f g : nat -> cstring * stats -> cstring) l :
  (forall j kv, f j kv = g j kv) -> concat (imap f l) = concat (imap g l).
Proof. intros H. f_equal. apply imap_ext. auto. Qed.

(** The output has a line for every entry in order; [db[curr]] only gets empty entries. *)
Lemma print_loop_spec iv now l : forall cur t, exists cur',
  print_loop iv now l cur t =
    (cur', (t + length l)%nat, concat (imap (fun j kv => print_row_rates iv now (t + j) kv.1 kv.2 (entry cur kv.1)) l)) /\
  (forall k, entry cur' k = entry cur k) /\ (forall k, k ∈ dom cur' <-> k ∈ dom cur \/ k ∈ l.*1).
Proof.
  induction l as [|[k v] l IH]; intros cur t; cbn [print_loop].
  { exists cur. rewrite Nat.add_0_r. split; [done|]. set_solver. }
  assert (He : forall k', entry (<[k := entry cur k]> cur) k' = entry cur k').
  { intros k'. unfold entry at 1. destruct (decide (k = k')) as [<-|?]; [by rewrite lookup_insert_eq|by rewrite lookup_insert_ne]. }
  destruct (IH (<[k := entry cur k]> cur) (S t)) as (cur' & -> & Hent & Hdom). exists cur'. split; [|split].
  - f_equal; [f_equal; cbn; lia|]. cbn [imap concat fst snd]. rewrite Nat.add_0_r. f_equal. apply print_row_ext.
    intros j kv. cbn. by rewrite He, Nat.add_succ_r.
  - intros k'. by rewrite Hent, He.
  - intros k'. rewrite Hdom, dom_insert_L. set_solver.
Qed.

(** The order of the names *)

Lemma code_inj a b : code a = code b -> a = b.
Proof. unfold code. intros H. rewrite <-(ascii_nat_embedding a), <-(ascii_nat_embedding b). f_equal. lia. Qed.

Lemma key_leb_total a b : key_leb a b = true \/ key_leb b a = true.
Proof. revert b. induction a as [|x a IH]; intros [|y b]; cbn; auto. rewrite !orb_true_iff, !andb_true_iff, !Z.ltb_lt, !Z.eqb_eq.
  destruct (Z.lt_total (code x) (code y)) as [?|[?|?]]; [auto|destruct (IH b)|]; auto. Qed.

Lemma key_leb_antisym a b : key_leb a b = true -> key_leb b a = true -> a = b.
Proof.
  revert b. induction a as [|x a IH]; intros [|y b]; cbn; try done. intros H1 H2.
  rewrite orb_true_iff, andb_true_iff, Z.ltb_lt, Z.eqb_eq in H1, H2.
  f_equal; [apply code_inj; lia|apply IH; intuition lia].
Qed.

Lemma key_leb_trans a b c : key_leb a b = true -> key_leb b c = true -> key_leb a c = true.
Proof.
  revert b c. induction a as [|x a IH]; intros [|y b] [|z c]; cbn; try done. intros H1 H2.
  rewrite orb_true_iff, andb_true_iff, Z.ltb_lt, Z.eqb_eq in *.
  destruct H1 as [?|[? H1]], H2 as [?|[? H2]]; try (left; lia). right. split; [lia|]. by apply (IH b).
Qed.

#[export] Instance entry_le_total : Total entry_le.
Proof. intros a b. apply key_leb_total. Qed.

#[export] Instance entry_le_trans : Transitive entry_le.
Proof. intros a b c. apply key_leb_trans. Qed.

(** A map is iterated once over each of its keys, in increasing order. *)
Lemma entries_spec m :
  StronglySorted (fun a b => key_leb a b = true) (entries m).*1 /\ NoDup (entries m).*1 /\
  (forall k v, (k, v) ∈ entries m <-> m !! k = Some v).
Proof.
  unfold entries. pose proof (merge_sort_Permutation entry_le (map_to_list m)) as Hp. split; [|split].
  - pose proof (StronglySorted_merge_sort entry_le (map_to_list m)) as H. clear Hp. induction H as [|a l Hs IH Ha]; cbn; [constructor|].
    constructor; [done|]. by apply Forall_fmap.
  - rewrite Hp. apply NoDup_fst_map_to_list.
  - intros k v. rewrite Hp. apply elem_of_map_to_list.
Qed.

Lemma entries_keys m k : k ∈ (entries m).*1 <-> k ∈ dom m.
Proof.
  destruct (entries_spec m) as (_ & _ & H). rewrite list_elem_of_fmap, elem_of_dom. split.
  - intros ([k' v] & -> & Hin). apply H in Hin. by eexists.
  - intros [v Hv]. exists (k, v). split; [done|]. by apply H.
Qed.

(** ** One sample after another *)

(** The lines of a sample: for every class of the previous sample, in the order of the names,
    the rates between what it had and [new]. *)
Definition report (iv : Z) (now : nat -> Z * Z) (t : nat) (prev : samples) (new : cstring -> stats) : cstring :=
  concat (imap (fun j kv => print_row_rates iv now (t + j) kv.1 kv.2 (new kv.1)) (entries prev)).

Lemma monitor_step_rows iv now st rows :
  Forall row_fits rows -> rows <> [] -> (mon_i st < 2)%nat ->
  let i := mon_i st in
  let new k := sample_of rows k (entry (mon_db st i) k) in
  exists st', monitor_step iv now st (file_of rows) = Ok (st', report iv now (mon_clock st) (mon_db st (1 - i)%nat) new) /\
    mon_i st' = (1 - i)%nat /\
    (forall k, entry (mon_db st' i) k = new k) /\
    (forall k, k ∈ dom (mon_db st' i) <-> k ∈ dom (mon_db st i) \/ k ∈ map row_class rows \/ k ∈ dom (mon_db st (1 - i)%nat)) /\
    mon_db st' (1 - i)%nat = mon_db st (1 - i)%nat.
Proof.
  intros Hrows Hne Hi i new. unfold monitor_step. rewrite read_data_rows by done. cbn [mbind outcome_bind].
  set (m := fold_left record_row rows (mon_db st (mon_i st))). unfold print_data.
  assert (Nat.land (mon_i st + 1) 1 = 1 - i)%nat as -> by (subst i; destruct (mon_i st) as [|[]]; [done|done|lia]).
  rewrite pc_set_eq, pc_set_ne by (subst i; lia).
  destruct (print_loop_spec iv now (entries (mon_db st (1 - i)%nat)) m (mon_clock st)) as (cur' & -> & Hent & Hdom).
  eexists. split; [cbn [mret outcome_ret]; do 2 f_equal; unfold report|cbn [mon_i mon_db]].
  - apply print_row_ext. intros j kv. subst m new. by rewrite entry_rows.
  - rewrite pc_set_eq. split; [done|]. split; [intros k; rewrite Hent; subst m; by rewrite entry_rows|].
    split; [|by rewrite !pc_set_ne by (subst i; lia)].
    intros k. rewrite Hdom, entries_keys. subst m. rewrite dom_rows. subst i. tauto.
Qed.

Lemma last_bytes_absent tx k rows : k ∉ map row_class rows -> last_bytes tx k rows = None.
Proof.
  induction rows as [|r rows IH] using rev_ind; [done|]. rewrite map_app, last_bytes_snoc. intros Hk.
  rewrite bool_decide_eq_false_2, andb_false_r by set_solver. apply IH. set_solver.
Qed.

Lemma report_line iv now t prev new k : k ∈ dom prev ->
  exists a j b, report iv now t prev new = a ++ print_row_rates iv now (t + j) k (entry prev k) (new k) ++ b.
Proof.
  rewrite elem_of_dom. intros [v Hv]. pose proof Hv as Hin. apply (entries_spec prev) in Hin. apply list_elem_of_split in Hin as (l1 & l2 & E).
  unfold report, entry. rewrite Hv, E, imap_app, concat_app. cbn. rewrite Nat.add_0_r. by do 3 eexists.
Qed.

(** A sample without a class that was seen before prints it all the same. *)
Lemma step_vanished iv now st rows k :
  Forall row_fits rows -> rows <> [] -> (mon_i st < 2)%nat -> k ∉ map row_class rows ->
  (forall i, (i < 2)%nat -> k ∈ dom (mon_db st i)) ->
  let i := mon_i st in
  let v := entry (mon_db st i) k in
  let v' := entry (mon_db st (1 - i)%nat) k in
  exists st' a b t, monitor_step iv now st (file_of rows) = Ok (st', a ++ print_row_rates iv now t k v' v ++ b) /\
    mon_i st' = (1 - i)%nat /\ entry (mon_db st' i) k = v /\ entry (mon_db st' (1 - i)%nat) k = v' /\
    (forall j, (j < 2)%nat -> k ∈ dom (mon_db st' j)).
Proof.
  intros Hfit Hne Hi Hk Hdom i v v'.
  destruct (monitor_step_rows iv now st rows Hfit Hne Hi) as (st' & E & Hi' & Hent & Hd & Hprev). fold i in E, Hi', Hent, Hd, Hprev.
  assert (Hs : sample_of rows k (entry (mon_db st i) k) = v).
  { unfold sample_of. rewrite !last_bytes_absent by done. by destruct v eqn:Ev; subst v; rewrite Ev. }
  destruct (report_line iv now (mon_clock st) (mon_db st (1 - i)%nat) (fun k => sample_of rows k (entry (mon_db st i) k)) k)
    as (a & j & b & Hrep); [apply Hdom; lia|].
  exists st', a, b, (mon_clock st + j)%nat. rewrite E, Hrep, Hs. split; [done|]. split; [done|].
  split; [by rewrite Hent|]. split; [by rewrite Hprev|]. intros j' Hj'. destruct (decide (j' = i)) as [->|Hij].
  - apply Hd. left. apply Hdom. done.
  - replace j' with (1 - i)%nat by lia. rewrite Hprev. apply Hdom. lia.
Qed.

Lemma monitor_steps_rows iv now (files : list (list csv_row)) : forall st,
  Forall (fun rows => Forall row_fits rows /\ rows <> []) files -> (mon_i st < 2)%nat ->
  exists r, monitor_steps iv now st (map file_of files) = Ok r.
Proof.
  induction files as [|rows files IH]; intros st Hall Hi; cbn [map monitor_steps]; [by eexists|].
  apply Forall_cons in Hall as [[Hr Hne] Hall].
  destruct (monitor_step_rows iv now st rows Hr Hne Hi) as (st' & -> & Hi' & _). cbn [mbind outcome_bind].
  destruct (IH st' Hall) as [[st'' out] ->]; [lia|]. by eexists.
Qed.

Lemma read_loop_written fuel : forall fp l m, read_loop fuel fp (Some l) m <> Oops Uninitialised.
Proof.
  induction fuel as [|k IH]; intros fp l m; cbn [read_loop]; destruct (st_eof fp); try done.
  destruct (fscanf_word fp) as [word fp']. unfold line_after.
  destruct word as [w|]; [destruct (Nat.leb LINE_SIZE (length w)); [done|]|]; cbn [mbind outcome_bind].
  all: match goal with |- context [existsb ?f ?l] => destruct (existsb f l); [done|] end.
  all: destruct (sscanf_row _) as [|[] [|[] [|[] []]]]; try done; apply IH.
Qed.

(** C30: Whatever the statistics file holds, pimonitor reads it to an end, or stops in one of
    two ways: a word that is longer than the array it is scanned into, or the array line read
    before anything was written to it, which happens exactly when the file has no word. *)
Theorem read_data_total file m :
  match read_data file m with Ok _ => True | Oops f => f = StackSmash \/ f = Uninitialised end /\
  (read_data file m = Oops Uninitialised <-> skip_spaces file = []).
Proof.
  split; [apply read_loop_total; cbn; lia|]. unfold read_data. cbn [read_loop rewind st_eof].
  unfold fscanf_word. change (st_rest (rewind file)) with file. destruct (skip_spaces file) as [|c s]; [done|].
  destruct (scan_word (c :: s)) as [w r]. split; [|done]. cbn [line_after]. destruct (Nat.leb LINE_SIZE (length w)); [done|]. cbn [mbind outcome_bind].
  match goal with |- context [existsb ?f ?l] => destruct (existsb f l); [done|] end.
  destruct (sscanf_row _) as [|[] [|[] [|[] []]]]; try done. intros H. by apply read_loop_written in H.
Qed.

(** ** With the file that the module writes *)

(** What a class prints is a field that the monitor can read. *)
Class FieldShow (C : IsoClass) (valid : Z -> Prop) : Prop := { field_show k : valid k -> field (op_show k) }.

Lemma digits_word n : 0 <= n -> word (sprintf_u n).
Proof.
  intros Hn. pose proof (sprintf_u_nonempty n Hn) as H. apply word_spec. split; [by intros E; rewrite E in H|].
  pose proof (dec_digits_digits 20 n Hn) as Hd. rewrite forallb_forall in Hd. apply List.Forall_forall.
  intros c Hc. by apply digit_not_space, Hd.
Qed.

Lemma dec_digits_short k : forall fuel n, 0 <= n < 10 ^ Z.of_nat (S k) -> (length (dec_digits fuel n) <= S k)%nat.
Proof.
  induction k as [|k IH]; intros fuel n Hn; (destruct fuel as [|fuel]; [cbn; lia|]); cbn [dec_digits]; destruct (Z.ltb_spec n 10); try (cbn; lia).
  rewrite Nat2Z.inj_succ, Z.pow_succ_r in Hn by lia. rewrite length_app. cbn [length].
  specialize (IH fuel (n / 10) ltac:(Z.div_mod_to_equations; lia)). lia.
Qed.

#[export] Instance mark_field : FieldShow Mark.ops is_u32.
Proof.
  split. intros k _. change (field (sprintf_d (s32 k))). split; [|split; [apply plain_d|]]; unfold sprintf_d.
  - destruct (Z.ltb_spec (s32 k) 0); [|by apply (digits_word (s32 k))].
    destruct (proj1 (word_spec _) (digits_word (- s32 k) ltac:(lia))) as [_ Hw]. apply word_spec. split; [done|]. by constructor.
  - unfold FIELD_SIZE. destruct (s32 k <? 0); cbn [length].
    + pose proof (dec_digits_length 20 (- s32 k)). lia.
    + pose proof (dec_digits_length 20 (s32 k)). lia.
Qed.

#[export] Instance l4port_field {K : Kernel} {KL : KernelLaws K} : FieldShow L4port.ops is_u32.
Proof.
  split. intros k Hk. pose proof (htons_range k) as H. unfold is_u16 in H. change (field (sprintf_u (htons k))).
  split; [apply digits_word; lia|]. split; [apply digits_plain; lia|].
  pose proof (dec_digits_length 20 (htons k)) as Hl. unfold FIELD_SIZE, sprintf_u. lia.
Qed.

#[export] Instance ipaddr_field {K : Kernel} {KL : KernelLaws K} : FieldShow Ipaddr.ops is_u32.
Proof.
  split. intros k Hk. pose proof (plain_show (C := Ipaddr.ops) k Hk) as Hp. change (field (Ipaddr.iso_class_show k)).
  change (plain (Ipaddr.iso_class_show k)) in Hp. rewrite ipaddr_show_bytes in * by done.
  assert (Hb : forall i, word (sprintf_u (byte_of i (htonl k))) /\ (length (sprintf_u (byte_of i (htonl k))) <= 3)%nat).
  { intros i. pose proof (byte_of_range i (htonl k)). split; [apply digits_word; lia|]. apply (dec_digits_short 2).
    change (10 ^ Z.of_nat 3) with 1000. lia. }
  split; [|split; [done|]].
  - destruct (Hb 0) as [[_ H0]%word_spec _], (Hb 1) as [[_ H1]%word_spec _], (Hb 2) as [[_ H2]%word_spec _], (Hb 3) as [[Hne H3]%word_spec _].
    apply word_spec. split; [by destruct (sprintf_u _)|]. repeat (rewrite Forall_app || rewrite Forall_cons || split || constructor || done).
  - pose proof (Hb 0) as [_ H0]. pose proof (Hb 1) as [_ H1]. pose proof (Hb 2) as [_ H2]. pose proof (Hb 3) as [_ H3].
    unfold FIELD_SIZE. repeat (rewrite length_app || cbn [length]). lia.
Qed.

Section WithModule.
Context {K : Kernel} {KL : KernelLaws K} {P : params} {PO : params_ok P}.
Context {C : IsoClass} {valid : Z -> Prop} {L : IsoClassLaws C valid} {PS : PlainShow C valid} {FS : FieldShow C valid}.
Context {Env : Oracle} {CL : ClockLaws Env} (iv : Z) (now : nat -> Z * Z).

(** Devices that the module can print, with at least one class. *)
Definition printable (R : Z) (devs : list (cstring * host)) : Prop :=
  Forall (fun d => ctl_pre (valid := valid) R d.2) devs /\ csv_rows devs <> [].

Lemma tx_row_fits R h pc : ctl_pre (valid := valid) R h -> pc ∈ tx_list h -> row_fits (tx_row h pc).
Proof.
  intros Hpre Hin. destruct (csv_txc_row R h pc Hpre Hin) as [_ [_ Hb]]. split; [|done].
  destruct (cls_live _ (ti_cls _ _ (txo_inv _ _ (hok_tx R h (co_host R h Hpre)))) pc Hin) as [[txc Hpc] _].
  unfold tx_row. cbn [row_class]. rewrite Hpc. apply field_show. exact (tok_valid _ _ _ _ _ (co_table R h Hpre) pc txc Hin Hpc).
Qed.

Lemma rx_row_fits R h pv : ctl_pre (valid := valid) R h -> pv ∈ vq_list h -> row_fits (rx_row h pv).
Proof.
  intros Hpre Hin. destruct (csv_vq_row R h pv Hpre Hin) as [_ [_ Hb]]. split; [|done].
  pose proof (hok_rx R h (co_host R h Hpre)) as Hrx.
  destruct (live_lookup _ _ pv (tok_live _ _ _ _ _ (ri_table _ Hrx)) Hin) as [vq Hvq].
  unfold rx_row. cbn [row_class]. rewrite Hvq. apply field_show. exact (tok_valid _ _ _ _ _ (ri_table _ Hrx) pv vq Hin Hvq).
Qed.

(** The text of the file is the rows, each of which the monitor can read. *)
Lemma csv_file R devs : Forall (fun d => ctl_pre (valid := valid) R d.2) devs ->
  iso_csvstats_proc_seq_show devs = Ok (file_of (csv_rows devs)) /\ Forall row_fits (csv_rows devs).
Proof.
  rewrite Forall_forall. intros Hall. unfold iso_csvstats_proc_seq_show, csv_rows.
  destruct (csv_loop csv_txc tx_row tx_list devs) as [E1 _]; [intros d p Hd Hp; apply (csv_txc_row R); auto|].
  destruct (csv_loop csv_vq rx_row vq_list devs) as [E2 _]; [intros d p Hd Hp; apply (csv_vq_row R); auto|].
  unfold tx_list, vq_list in *. rewrite E1. cbn [mbind outcome_bind]. rewrite E2. cbn [mbind outcome_bind mret outcome_ret]. split.
  - f_equal. unfold file_of. by rewrite map_app, concat_app.
  - apply Forall_app. split; apply Forall_concat, Forall_fmap, Forall_forall; intros d Hd; apply Forall_fmap, Forall_forall.
    + intros p Hp. apply (tx_row_fits R); auto.
    + intros p Hp. apply (rx_row_fits R); auto.
Qed.

(** C28: One round of pimonitor on the statistics file that the module writes for well-formed
    devices: if they have no class and no virtual queue the file is empty and the program reads
    a line that was never written; otherwise it does not fault, prints one line for each class
    of the previous sample, in the order of their names, with the difference of the two samples
    as rates, stores for each class of the file the bytes of its last rows, keeps the others,
    and the sample it stored is the previous one of the next round. *)
Theorem monitor_step_reports R st devs :
  Forall (fun d => ctl_pre (valid := valid) R d.2) devs -> (mon_i st < 2)%nat ->
  let i := mon_i st in
  let prev := mon_db st (1 - i)%nat in
  let new k := sample_of (csv_rows devs) k (entry (mon_db st i) k) in
  exists file, iso_csvstats_proc_seq_show devs = Ok file /\
    (csv_rows devs = [] /\ file = [] /\ monitor_step iv now st file = Oops Uninitialised \/
     csv_rows devs <> [] /\ exists st',
       monitor_step iv now st file = Ok (st', report iv now (mon_clock st) prev new) /\
       mon_i st' = (1 - i)%nat /\ mon_db st' (1 - i)%nat = prev /\
       (forall k, entry (mon_db st' i) k = new k) /\
       (forall k, k ∈ map row_class (csv_rows devs) -> k ∈ dom (mon_db st' i)) /\
       StronglySorted (fun a b => key_leb a b = true) (entries prev).*1 /\ NoDup (entries prev).*1 /\
       (forall k v, (k, v) ∈ entries prev <-> prev !! k = Some v)).
Proof.
  intros Hall Hi i prev new. destruct (csv_file R devs Hall) as [E Hfit].
  exists (file_of (csv_rows devs)). split; [done|].
  destruct (decide (csv_rows devs = [])) as [Hno|Hne]; [left; by rewrite Hno|right; split; [done|]].
  destruct (monitor_step_rows iv now st (csv_rows devs) Hfit Hne Hi) as (st' & Hs & Hi' & Hent & Hdom & Hprev).
  exists st'. do 4 (split; [done|]). split; [intros k Hk; apply Hdom; auto|]. apply entries_spec.
Qed.

(** pimonitor never faults on the files that the module writes for well-formed devices with at
    least one class or virtual queue, however many samples it takes. *)
Theorem monitor_never_faults R first (snaps : list (list (cstring * host))) :
  printable R first -> Forall (printable R) snaps ->
  exists file files st r,
    iso_csvstats_proc_seq_show first = Ok file /\
    Forall2 (fun devs s => iso_csvstats_proc_seq_show devs = Ok s) snaps files /\
    monitor_first file = Ok st /\ monitor_steps iv now st files = Ok r.
Proof.
  intros [Hall Hne] Hsnaps. destruct (csv_file R first Hall) as [E Hfit].
  destruct (monitor_steps_rows iv now (map csv_rows snaps)
    {| mon_db := pc_set 0 (fold_left record_row (csv_rows first) ∅) (fun _ => ∅); mon_i := 1; mon_clock := 0 |}) as [r Hr].
  - apply Forall_fmap. eapply Forall_impl; [exact Hsnaps|]. intros devs [Hd Hdn]. split; [by apply (csv_file R)|done].
  - cbn. lia.
  - do 4 eexists. split; [exact E|]. split; [|split; [|exact Hr]].
    + rewrite map_map. apply Forall2_fmap_r, Forall_Forall2_diag. eapply Forall_impl; [exact Hsnaps|].
      intros devs [Hd _]. by apply (csv_file R).
    + unfold monitor_first. by rewrite read_data_rows.
Qed.

(** C40: A class that was in two samples and is no longer in the file is reported for ever: the
    samples are never cleared, so that its rate is printed from the difference of its two last
    values in one round and from the opposite difference, which wraps at 64 bits, in the next. *)
Theorem vanished_class_alternates R st devs1 devs2 k :
  printable R devs1 -> printable R devs2 -> (mon_i st < 2)%nat ->
  k ∉ map row_class (csv_rows devs1) -> k ∉ map row_class (csv_rows devs2) ->
  (forall i, (i < 2)%nat -> k ∈ dom (mon_db st i)) ->
  let i := mon_i st in
  let v := entry (mon_db st i) k in
  let v' := entry (mon_db st (1 - i)%nat) k in
  exists st1 st2 a1 b1 t1 a2 b2 t2,
    monitor_step iv now st (file_of (csv_rows devs1)) = Ok (st1, a1 ++ print_row_rates iv now t1 k v' v ++ b1) /\
    monitor_step iv now st1 (file_of (csv_rows devs2)) = Ok (st2, a2 ++ print_row_rates iv now t2 k v v' ++ b2) /\
    entry (mon_db st2 i) k = v /\ entry (mon_db st2 (1 - i)%nat) k = v' /\ mon_i st2 = i /\
    (forall j, (j < 2)%nat -> k ∈ dom (mon_db st2 j)).
Proof.
  intros [Hall1 Hne1] [Hall2 Hne2] Hi Hk1 Hk2 Hdom i v v'.
  destruct (csv_file R devs1 Hall1) as [_ Hfit1]. destruct (csv_file R devs2 Hall2) as [_ Hfit2].
  destruct (step_vanished iv now st (csv_rows devs1) k Hfit1 Hne1 Hi Hk1 Hdom) as (st1 & a1 & b1 & t1 & E1 & Hi1 & Hv1 & Hv1' & Hdom1).
  destruct (step_vanished iv now st1 (csv_rows devs2) k Hfit2 Hne2) as (st2 & a2 & b2 & t2 & E2 & Hi2 & Hv2 & Hv2' & Hdom2);
    [lia|done|done|].
  exists st1, st2, a1, b1, t1, a2, b2, t2. split; [exact E1|]. rewrite Hi1 in *.
  assert (1 - (1 - mon_i st) = mon_i st)%nat as Hinv by lia. rewrite Hinv in *. subst i v v'.
  rewrite Hv1, Hv1' in *. by split_and!.
Qed.
End WithModule.

(** ** One device with class 7 *)

Definition ex_devs : list (cstring * host) := [(text "eth0", ex_host)].

Lemma ex_rows : csv_rows (K := ref_kernel) (C := Mark.ops) ex_devs =
  [{| row_tx := true; row_class := text "7"; row_bytes := 0 |}; {| row_tx := false; row_class := text "7"; row_bytes := 0 |}].
Proof. vm_compute. reflexivity. Qed.

Lemma ex_printable : printable (K := ref_kernel) (P := default_params) (C := Mark.ops) (valid := is_u32) (Env := ex_env) 10000 ex_devs.
Proof.
  split; [apply Forall_singleton; exact (proj1 (ex_ctl_ok))|]. rewrite ex_rows. done.
Qed.

(** Class 7 sent 1250 bytes and received none at the last sample, and class 9 is gone. *)
Definition ex_monitor : monitor := {|
  mon_db := fun i => <[text "7" := {| st_tx := u64 (-1250); st_rx := 0 |}]>
                     {[text "9" := {| st_tx := if Nat.eqb i 0 then 5 else 9; st_rx := 0 |}]};
  mon_i := 1; mon_clock := 0 |}.

Lemma monitor_step_reports_witness : exists file st',
  iso_csvstats_proc_seq_show (K := ref_kernel) (C := Mark.ops) ex_devs = Ok file /\
  monitor_step 1000 (fun _ => (1, 500000)) ex_monitor file =
    Ok (st', text "1.500,7,10.000,0.000" ++ nl ++ text "1.500,9,0.032,0.000" ++ nl).
Proof.
  destruct (monitor_step_reports (K := ref_kernel) (P := default_params) (C := Mark.ops) (valid := is_u32) (Env := ex_env)
    1000 (fun _ => (1, 500000)) 10000 ex_monitor ex_devs (proj1 ex_printable) ltac:(cbn; lia)) as (file & E & [(H & _)|(_ & st' & Hs & _)]);
    [rewrite ex_rows in H; discriminate H|].
  exists file, st'. split; [exact E|]. rewrite Hs. rewrite ex_rows. vm_compute. reflexivity.
Defined.

Lemma monitor_never_faults_witness : exists file files st r,
  iso_csvstats_proc_seq_show (K := ref_kernel) (C := Mark.ops) ex_devs = Ok file /\
  Forall2 (fun devs s => iso_csvstats_proc_seq_show (K := ref_kernel) (C := Mark.ops) devs = Ok s) [ex_devs; ex_devs] files /\
  monitor_first file = Ok st /\ monitor_steps 1000 (fun _ => (0, 0)) st files = Ok r.
Proof.
  apply (monitor_never_faults (K := ref_kernel) (P := default_params) (C := Mark.ops) (valid := is_u32) (Env := ex_env)
    1000 (fun _ => (0, 0)) 10000 ex_devs [ex_devs; ex_devs] ex_printable).
  apply Forall_cons. split; [apply ex_printable|]. apply Forall_singleton, ex_printable.
Defined.

Lemma vanished_class_alternates_witness : exists st1 st2 a1 b1 t1 a2 b2 t2,
  monitor_step 1000 (fun _ => (0, 0)) ex_monitor (file_of (csv_rows (K := ref_kernel) (C := Mark.ops) ex_devs)) =
    Ok (st1, a1 ++ print_row_rates 1000 (fun _ => (0, 0)) t1 (text "9") {| st_tx := 5; st_rx := 0 |} {| st_tx := 9; st_rx := 0 |} ++ b1) /\
  monitor_step 1000 (fun _ => (0, 0)) st1 (file_of (csv_rows (K := ref_kernel) (C := Mark.ops) ex_devs)) =
    Ok (st2, a2 ++ print_row_rates 1000 (fun _ => (0, 0)) t2 (text "9") {| st_tx := 9; st_rx := 0 |} {| st_tx := 5; st_rx := 0 |} ++ b2).
Proof.
  destruct (vanished_class_alternates (K := ref_kernel) (P := default_params) (C := Mark.ops) (valid := is_u32) (Env := ex_env)
    1000 (fun _ => (0, 0)) 10000 ex_monitor ex_devs ex_devs (text "9") ex_printable ex_printable ltac:(cbn; lia))
    as (st1 & st2 & a1 & b1 & t1 & a2 & b2 & t2 & H1 & H2 & _).
  - rewrite ex_rows. cbn [map row_class]. rewrite !not_elem_of_cons. split_and!; [done..|apply not_elem_of_nil].
  - rewrite ex_rows. cbn [map row_class]. rewrite !not_elem_of_cons. split_and!; [done..|apply not_elem_of_nil].
  - intros i _. cbn [mon_db ex_monitor]. set_solver.
  - exists st1, st2, a1, b1, t1, a2, b2, t2. split; [exact H1|exact H2].
Defined.

(** [main] prints the header and samples at least every 1000 us and at most every 2^31 - 1, whatever the
    argument is, or exits with status 1 when the file is not there. *)
Lemma pimonitor_main_spec argv1 found :
  match pimonitor_main argv1 found with
  | inr (iv, out) => found = true /\ 1000 <= iv < 2147483648 /\ out = text "#time,class,txrate,rxrate" ++ nl
  | inl (status, _) => found = false /\ status = 1
  end.
Proof.
  unfold pimonitor_main. destruct found; [|done]. split; [done|]. split; [|done].
  destruct argv1 as [s|]; [|lia]. unfold atoi. destruct (sign_of (skip_spaces s)) as [neg s'].
  match goal with |- context [s32 ?x] => pose proof (s32_range x) as H end. unfold is_s32 in H. lia.
Qed.
