(* ===== verification/World.v ===== *)
(** * All devices, commands and packets together

    The machine that runs the module: devices with and without the discipline,
    the control files, packets in both directions, timers, tasklets, the
    allocators, disciplines attached and deleted, in any order. *)

From Stdlib Require Import Ascii String.
From S2P Require Import Prelude Params Kernel Packet Scan Class RateControl HashTable VirtualQueue.
From S2P Require Import VqTable RateLimiter Dequeue Device Tx TxPath Rx Host System Netdev Control.
From S2P Require Import Config CommandLine Module Ownership Qdisc Teardown.

Open Scope Z_scope.

(** An event: a line written to a control file, well-formed or refused, a discipline attached
    to a device or deleted, a packet given to a leaf of a device, a packet received from a device, or
    work in the background of a device. *)
Inductive wevent :=
| Write (junk : cstring * cstring) (name : cstring) (c : ccmd)
| Scribble (c : command)
| Attach (i : nat) (e : init_env) (sch : Qdisc)
| Detach (i : nat)
| Enqueue (i : nat) (ticklock : bool) (cpu : nat) (skb : sk_buff)
| Arrive (i : nat) (e : rx_env) (cpu : nat) (skb : sk_buff)
| Background (i : nat) (ev : hevent).

Section World.
Context {K : Kernel} {P : params} {C : IsoClass} {Env : Oracle}.

(** Work on one device. *)
Definition at_dev (i : nat) (body : net_device -> outcome net_device) (s : sys) : outcome sys :=
  match sys_devs s !! i with
  | None => mret s
  | Some dev => dev ← body dev; mret {| s with sys_devs := <[i := dev]> (sys_devs s) |}
  end.

(** The kernel's side of attaching a discipline: initialise, make it the root,
    attach; a failure leaves the device without it. *)
Definition attach (e : init_env) (sch : Qdisc) (dev : net_device) : outcome net_device :=
  '(ret, mq, dev, sch, _) ← mq_init e dev sch {| mq_qdiscs := None; mq_txc := None; mq_rxc := None |};
  match mq with
  | Some mq =>
      if ret =? 0 then '(mq, dev, _) ← mq_attach mq dev; mret (installed dev sch mq)
      else mret dev
  | None => mret dev
  end.

(** Deleting it: the device is left without a discipline of the module. *)
Definition detach (dev : net_device) : outcome net_device :=
  mq ← dev_priv dev; '(dev, _) ← mq_destroy mq dev; mret {| dev with nd_qdisc := None |}.

Definition background (ev : hevent) (dev : net_device) : outcome net_device :=
  h ← dev_host dev; h ← hstep h ev; mret (set_dev_host h dev).

Definition wstep (s : sys) (ev : wevent) : outcome sys :=
  match ev with
  | Write junk name c => '(_, s) ← run (line junk name c) s; mret s
  | Scribble c => '(_, s) ← run c s; mret s
  | Attach i e sch => at_dev i (attach e sch) s
  | Detach i => at_dev i detach s
  | Enqueue i ticklock cpu skb => at_dev i (fun dev => '(_, _, dev) ← iso_enqueue ticklock cpu skb dev; mret dev) s
  | Arrive i e cpu skb => at_dev i (fun dev => '(_, _, _, dev) ← iso_rx_handler e cpu skb dev; mret dev) s
  | Background i ev => at_dev i (background ev) s
  end.
End World.

Section WorldOk.
Context {K : Kernel} {KL : KernelLaws K} {P : params} {PO : params_ok P}.
Context {C : IsoClass} {valid : Z -> Prop} {L : IsoClassLaws C valid}.
Context {Env : Oracle} {CL : ClockLaws Env}.

(** A device that the module manages: its contexts are well-formed, linked and own
    what they hold, and it has a transmit function. *)
Definition managed (R : Z) (dev : net_device) (h : host) : Prop :=
  iso_enabled dev <> 0 /\ dev_host dev = Ok h /\ (ctl_ok (valid := valid) R h /\ owned h /\ linked dev) /\
  exists cx xmit, iso_txctx_dev dev = Ok cx /\ cx_xmit cx = Some xmit.

Definition dev_ok (R : Z) (dev : net_device) : Prop := iso_enabled dev = 0 \/ exists h, managed R dev h.

Record sys_ok (R : Z) (s : sys) : Prop := {
  so_R : ISO_MAX_TX_RATE <= R < 2147483648;
  so_mutex : sys_locked s = false;
  so_devs i dev : sys_devs s !! i = Some dev -> dev_ok R dev
}.

(** What an event needs. *)
Definition wevent_ok (R : Z) (s : sys) (ev : wevent) : Prop :=
  match ev with
  | Write _ name c => line_ok name c /\ forall i dev h, iso_search_netdev name (sys_devs s) = Some i ->
      sys_devs s !! i = Some dev -> managed R dev h -> ccmd_ok h c
  | Scribble c => refused c
  | Attach i e sch => forall dev, sys_devs s !! i = Some dev ->
      iso_enabled dev = 0 /\ sch_parent sch = TC_H_ROOT /\ init_fatal e dev = false /\
      (exists xmit, nd_ops dev = Some (Some xmit)) /\
      forall cbs j, ie_rlcb e = Some cbs -> cb_active_list (cbs j) = []
  | Detach i => forall dev, sys_devs s !! i = Some dev -> iso_enabled dev <> 0
  | Enqueue i _ cpu skb => cpu ∈ possible_cpus /\ pkt_ok skb /\ forall dev, sys_devs s !! i = Some dev ->
      iso_enabled dev <> 0 /\ is_Some (nd_txqs dev !! skb_queue_mapping skb)
  | Arrive _ _ _ skb => valid (op_rx_classify skb) /\ 0 <= skb_has_feedback skb <= R
  | Background i ev => match ev with Send _ _ _ | Receive _ _ _ => False | _ => True end /\
      forall dev, sys_devs s !! i = Some dev ->
        iso_enabled dev <> 0 /\ forall h, managed R dev h -> hevent_ok (valid := valid) R h ev
  end.

(** The one fault: feedback for a new destination whose class has no state in stock. *)
Definition starving (s : sys) (ev : wevent) : Prop :=
  match ev with
  | Arrive i e _ skb => exists dev h, sys_devs s !! i = Some dev /\ dev_host dev = Ok h /\ starved e skb h
  | _ => False
  end.

(** The device that an event is for. *)
Definition target (s : sys) (ev : wevent) : option nat :=
  match ev with
  | Write _ name _ => iso_search_netdev name (sys_devs s)
  | Scribble _ => None
  | Attach i _ _ | Detach i | Enqueue i _ _ _ | Arrive i _ _ _ | Background i _ => Some i
  end.

(** The settings of a device. *)
Definition settings (dev : net_device) : config :=
  match dev_host dev with Ok h => view h | Oops _ => {| cfg_txcs := ∅; cfg_vqs := ∅ |} end.

Lemma managed_set R dev h h' :
  managed R dev h -> ctl_ok (valid := valid) R h' -> owned h' -> managed R (set_dev_host h' dev) h'.
Proof.
  intros (He & Hh & (_ & _ & mq & cx0 & rcx & Hmq & Hcx0 & Hrcx & Hl & Hrl) & cx & xmit & Hcx & Hx) Hctl Hown.
  split; [by rewrite set_dev_host_enabled|]. split; [by eapply dev_host_set|].
  destruct dev as [n q o r g [[sch [[qs [tx|] [rx|]]|]]|]]; try discriminate Hh. injection Hcx as <-. injection Hmq as <-.
  injection Hcx0 as <-. injection Hrcx as <-. split; [|by do 2 eexists]. split; [done|]. split; [done|]. by do 3 eexists.
Qed.

Lemma dev_host_txctx h s dev : dev_host dev = Ok h -> dev_host (set_txctx s dev) = Ok (set_tx s h).
Proof. destruct dev as [n q o r g [[sch [[qs [tx|] [rx|]]|]]|]]; try discriminate. by intros [= <-]. Qed.

Lemma linked_txctx s dev : linked dev -> linked (set_txctx s dev).
Proof.
  intros (mq & cx & rcx & Hmq & Hcx & Hrcx & Hl & Hrl). destruct dev as [n q o r g [[sch [[qs [tx|] [rx|]]|]]|]];
    try discriminate Hmq; injection Hmq as <-; try discriminate. injection Hcx as <-. injection Hrcx as <-. by do 3 eexists.
Qed.

(** A packet through the discipline, seen from the contexts of the device. *)
Lemma enqueue_managed R ticklock cpu skb dev h txq :
  managed R dev h -> cpu ∈ possible_cpus -> pkt_ok skb -> nd_txqs dev !! skb_queue_mapping skb = Some txq ->
  exists ret f dev' h', iso_enqueue ticklock cpu skb dev = Ok (ret, f, dev') /\ managed R dev' h' /\ view h' = view h.
Proof.
  intros (He & Hh & (Hctl & Hown & Hlk) & cx & xmit & Hcx & Hx) Hcpu Hpkt Hq. unfold iso_enqueue.
  assert (Hp : forall s, skb_xmit (set_txctx s dev) skb = Ok (if txq_stopped txq then FreedPkt else SentBy xmit)).
  { intros s. unfold skb_xmit. rewrite (txctx_set cx s dev Hcx). cbn [mbind outcome_bind cx_xmit]. by rewrite Hx, set_txctx_txqs, Hq. }
  destruct (IsoGlobalEnabled =? 0); cbn [mbind outcome_bind mret outcome_ret].
  { unfold skb_xmit. rewrite Hcx. cbn [mbind outcome_bind]. rewrite Hx, Hq. do 4 eexists. split; [reflexivity|].
    split; [|reflexivity]. split; [done|]. split; [done|]. split; [by split_and!|]. by do 2 eexists. }
  rewrite Hcx. cbn [mbind outcome_bind].
  destruct (mstep_ok R h (Data (Send ticklock cpu skb)) Hctl (conj Hcpu Hpkt)) as [(h' & E & Hctl' & Hview)|((? & ? & ? & ? & _) & _)]; [|done].
  pose proof (mstep_owned R h (Data (Send ticklock cpu skb)) h' Hctl (conj (conj Hcpu Hpkt) I) E Hown) as Hown'.
  specialize (Hctl' (conj (conj Hcpu Hpkt) I)).
  cbn [mstep hstep] in E. apply bind_ok in E as ([v tx'] & E & E'). injection E' as <-.
  assert (cx_state cx = h_tx h) as ->. { unfold dev_host in Hh. rewrite Hcx in Hh. apply bind_ok in Hh as (? & [= <-] & Hh).
    apply bind_ok in Hh as (rx & _ & Hh). by injection Hh as <-. }
  rewrite E. cbn [mbind outcome_bind].
  assert (Hm : managed R (set_txctx tx' dev) (set_tx tx' h)).
  { split; [by destruct dev as [n q o r g [[sch [[qs [tx|] rx]|]]|]]|]. split; [by apply dev_host_txctx|].
    split; [split; [exact Hctl'|]; split; [exact Hown'|by apply linked_txctx]|].
    exists {| cx with cx_state := tx' |}, xmit. split; [by apply txctx_set|done]. }
  destruct v; cbn [mret outcome_ret mbind outcome_bind]; rewrite ?Hp; cbn [mbind outcome_bind];
    do 4 eexists; (split; [reflexivity|]; split; [exact Hm|exact Hview]).
Qed.
Lemma arrive_managed R e cpu skb dev h :
  managed R dev h -> valid (op_rx_classify skb) -> 0 <= skb_has_feedback skb <= R ->
  (exists res f fb dev' h', iso_rx_handler e cpu skb dev = Ok (res, f, fb, dev') /\ managed R dev' h' /\ view h' = view h) \/
  starved e skb h /\ iso_rx_handler e cpu skb dev = Oops BadPointer.
Proof.
  intros Hm Hv Hfb. pose proof Hm as (He & Hh & (Hctl & Hown & _) & _). unfold iso_rx_handler.
  assert (Hpass : exists res f fb dev' h', Ok (RX_HANDLER_PASS, ToStack skb, None (A := sk_buff), dev) = Ok (res, f, fb, dev') /\
    managed R dev' h' /\ view h' = view h) by (do 5 eexists; eauto).
  rewrite (proj2 (Z.eqb_neq _ _) He). cbn [orb]. destruct (IsoGlobalEnabled =? 0); [left; by destruct (skb_pkt_type skb)|].
  rewrite Hh. cbn [mbind outcome_bind].
  destruct (mstep_ok R h (Data (Receive e cpu skb)) Hctl (conj Hv Hfb)) as [(h' & E & Hctl' & Hview)|[(e' & cpu' & skb' & [= <- <- <-] & Hst) E]];
    cbn [mstep hstep] in E.
  - left. pose proof (mstep_owned R h (Data (Receive e cpu skb)) h' Hctl (conj (conj Hv Hfb) I) E Hown) as Hown'.
    specialize (Hctl' (conj (conj Hv Hfb) I)).
    apply bind_ok in E as ([[[v skb2] fb] h2] & E & E'). injection E' as <-. rewrite E.
    assert (Hm' : managed R (set_dev_host h2 dev) h2) by (by eapply managed_set).
    destruct (skb_pkt_type skb); [| |exact Hpass]; cbn [mbind outcome_bind]; destruct v; do 5 eexists; eauto.
  - destruct (skb_pkt_type skb); [right|right|left; exact Hpass]; (split; [done|]).
    all: destruct (iso_rx e cpu skb h) as [[[[v2 skb2] fb2] h2]|f]; [discriminate E|by injection E as ->].
Qed.

Lemma background_managed R ev dev h :
  managed R dev h -> hevent_ok (valid := valid) R h ev -> match ev with Send _ _ _ | Receive _ _ _ => False | _ => True end ->
  exists dev' h', background ev dev = Ok dev' /\ managed R dev' h' /\ view h' = view h.
Proof.
  intros Hm Hev Hk. pose proof Hm as (_ & Hh & (Hctl & Hown & _) & _). unfold background. rewrite Hh. cbn [mbind outcome_bind].
  destruct (mstep_ok R h (Data ev) Hctl Hev) as [(h' & E & Hctl' & Hview)|[(e' & cpu' & skb' & [= ->] & _) _]]; [|done].
  pose proof (mstep_owned R h (Data ev) h' Hctl (conj Hev I) E Hown) as Hown'. specialize (Hctl' (conj Hev I)). cbn [mstep] in E. rewrite E. cbn [mbind outcome_bind]. do 2 eexists. split; [reflexivity|]. split; [by eapply managed_set|done].
Qed.

Lemma attach_managed R e sch dev :
  ISO_MAX_TX_RATE <= R < 2147483648 -> sch_parent sch = TC_H_ROOT -> acquired e dev sch = true ->
  (exists xmit, nd_ops dev = Some (Some xmit)) -> (forall cbs j, ie_rlcb e = Some cbs -> cb_active_list (cbs j) = []) ->
  exists dev' h', attach e sch dev = Ok dev' /\ managed R dev' h' /\ view h' = {| cfg_txcs := ∅; cfg_vqs := ∅ |}.
Proof.
  intros HR Hroot Hacq [xmit Hops] Hz. destruct (ie_rlcb e) as [cbs|] eqn:Ecb.
  2: { unfold acquired in Hacq. rewrite Ecb in Hacq. by rewrite !andb_false_r in Hacq. }
  destruct (mq_init_attached (valid := valid) R e dev sch {| mq_qdiscs := None; mq_txc := None; mq_rxc := None |} cbs Hroot Hacq HR Ecb)
    as (mq & dev1 & sch1 & mq2 & dev2 & cx & h & E1 & E2 & _ & Hen & _ & _ & Hcx & Hx & Hh & Hlk & Hemp & Hctl & Hview & _); [eauto|].
  unfold attach. rewrite E1. cbn [mbind outcome_bind Z.eqb]. rewrite E2. cbn [mbind outcome_bind mret outcome_ret].
  do 2 eexists. split; [reflexivity|]. split; [|exact Hview]. split; [by rewrite Hen|]. split; [done|].
  split; [split; [done|]; split; [by apply empty_owned|done]|].
  exists cx, xmit. split; [done|]. rewrite Hops in Hx. by injection Hx.
Qed.
(** An attempt that fails leaves the device without the discipline. *)
Lemma attach_undone e sch dev :
  sch_parent sch = TC_H_ROOT -> init_fatal e dev = false -> acquired e dev sch = false -> iso_enabled dev = 0 ->
  exists dev', attach e sch dev = Ok dev' /\ iso_enabled dev' = 0.
Proof.
  intros Hroot Hf Hacq He. unfold attach.
  pose proof (mq_init_undone e dev sch {| mq_qdiscs := None; mq_txc := None; mq_rxc := None |} Hroot Hacq) as H.
  rewrite Hf in H. destruct H as (priv' & gone & ->). cbn [mbind outcome_bind].
  eexists. split; [by destruct priv'|]. by destruct (_ && _).
Qed.

(** A device that gives up the discipline has nothing of the module left. *)
Lemma detach_managed R dev h :
  managed R dev h -> exists dev', detach dev = Ok dev' /\ dev_ok R dev' /\
    (iso_enabled dev <> 0 -> settings dev' = {| cfg_txcs := ∅; cfg_vqs := ∅ |}).
Proof.
  intros (_ & Hh & ([Hpre _] & Hown & Hlk) & _). destruct (mq_destroy_ok R dev h Hh Hlk Hpre Hown) as (mq & dev' & ls & Hmq & E & _).
  unfold detach. rewrite Hmq. cbn [mbind outcome_bind]. rewrite E. cbn [mbind outcome_bind mret outcome_ret].
  eexists. split; [reflexivity|]. split; [by left|done].
Qed.

(** What an event does to the settings of the device it is for. *)
Definition settings_after (ev : wevent) (c : config) : config :=
  match ev with
  | Write _ _ cmd => (spec cmd c).2
  | Detach _ => {| cfg_txcs := ∅; cfg_vqs := ∅ |}
  | _ => c
  end.

(** Nothing changes on the other devices, and the settings of the event's device
    change as its commands say. *)
Definition local_step (s : sys) (ev : wevent) (s' : sys) : Prop :=
  (forall j, target s ev <> Some j -> sys_devs s' !! j = sys_devs s !! j) /\
  (forall i dev, target s ev = Some i -> sys_devs s !! i = Some dev -> iso_enabled dev <> 0 ->
     exists dev', sys_devs s' !! i = Some dev' /\ settings dev' = settings_after ev (settings dev)).

Lemma settings_managed R dev h : managed R dev h -> settings dev = view h.
Proof. intros (_ & Hh & _). unfold settings. by rewrite Hh. Qed.

(** Writing one device back. *)
Lemma write_back R s i dev dev' :
  sys_ok R s -> sys_devs s !! i = Some dev -> dev_ok R dev' ->
  sys_ok R {| s with sys_devs := <[i := dev']> (sys_devs s) |}.
Proof.
  intros [HR Hl Hd] Hi Hdev. split; [done|done|]. cbn [sys_devs]. intros j d.
  rewrite list_lookup_insert_Some. intros [(-> & <- & _)|[_ Hj]]; [done|by apply (Hd j)].
Qed.

Lemma local_insert s ev i dev dev' :
  target s ev = Some i -> sys_devs s !! i = Some dev ->
  (iso_enabled dev <> 0 -> settings dev' = settings_after ev (settings dev)) ->
  local_step s ev {| s with sys_devs := <[i := dev']> (sys_devs s) |}.
Proof.
  intros Ht Hi Hset. split; cbn [sys_devs].
  - intros j Hj. apply list_lookup_insert_ne. congruence.
  - intros j d Hj Hd He. assert (j = i) as -> by congruence. assert (d = dev) as -> by congruence. exists dev'.
    split; [|by apply Hset]. apply list_lookup_insert_eq. by eapply lookup_lt_Some.
Qed.

Lemma local_stay s ev : (forall i dev, target s ev = Some i -> sys_devs s !! i = Some dev -> iso_enabled dev = 0) -> local_step s ev s.
Proof. intros H. split; [done|]. intros i dev Ht Hi He. by destruct He, (H i dev). Qed.

(** Work on one device that leaves it well-formed. *)
Lemma at_dev_ok R s ev i body :
  sys_ok R s -> target s ev = Some i ->
  (forall dev, sys_devs s !! i = Some dev -> dev_ok R dev ->
     exists dev', body dev = Ok dev' /\ dev_ok R dev' /\ (iso_enabled dev <> 0 -> settings dev' = settings_after ev (settings dev))) ->
  exists s', at_dev i body s = Ok s' /\ sys_ok R s' /\ local_step s ev s'.
Proof.
  intros Hs Ht Hbody. unfold at_dev. destruct (sys_devs s !! i) as [dev|] eqn:Hi.
  - destruct (Hbody dev eq_refl (so_devs R s Hs i dev Hi)) as (dev' & -> & Hok & Hset). cbn [mbind outcome_bind].
    eexists. split; [reflexivity|]. split; [by eapply write_back|]. eapply local_insert; [done|done|done].
  - exists s. split; [done|]. split; [done|]. apply local_stay. intros j dev Hj Hd. congruence.
Qed.

Lemma managed_or_not R dev : dev_ok R dev -> iso_enabled dev <> 0 -> exists h, managed R dev h.
Proof. intros [He|H]; [done|by intros _]. Qed.

Lemma dev_ok_managed R dev h : managed R dev h -> dev_ok R dev.
Proof. right. by exists h. Qed.

Lemma write_ok R s junk name c :
  sys_ok R s -> wevent_ok R s (Write junk name c) ->
  exists s', wstep s (Write junk name c) = Ok s' /\ sys_ok R s' /\ local_step s (Write junk name c) s'.
Proof.
  intros Hs [Hline Hc]. pose proof (so_mutex R s Hs) as Hl. cbn [wstep].
  destruct (iso_search_netdev name (sys_devs s)) as [i|] eqn:Hi; [destruct (sys_devs s !! i) as [dev|] eqn:Hd;
    [destruct (decide (iso_enabled dev = 0)) as [He|He]|]|].
  - rewrite unmanaged_device_unchanged by (done || (intros j d; rewrite Hi; intros [= <-]; rewrite Hd; by intros [= <-])).
    exists s. split; [done|]. split; [done|]. apply local_stay. cbn [target]. intros j d Hj Hdj. congruence.
  - destruct (managed_or_not R dev (so_devs R s Hs i dev Hd) He) as [h Hm]. pose proof Hm as (_ & Hh & (Hctl & Hown & _) & _).
    destruct (exec_refines R h c Hctl (proj1 (Hc i dev h eq_refl Hd Hm))) as (ret & h' & E & Hctl' & Hspec).
    specialize (Hctl' (proj2 (Hc i dev h eq_refl Hd Hm))).
    rewrite line_on_dev by done. rewrite (on_dev_found _ _ _ {| s with sys_locked := true |} i dev h ret h' Hi Hd He Hh E).
    cbn [mbind outcome_bind mret outcome_ret]. pose proof (managed_set R dev h h' Hm Hctl' (exec_owned R c h ret h' Hctl (Hc i dev h eq_refl Hd Hm) E Hown)) as Hm'.
    exists {| s with sys_devs := <[i := set_dev_host h' dev]> (sys_devs s) |}. split; [by rewrite Hl|]. split; [by eapply write_back; [| |eapply dev_ok_managed]|].
    eapply local_insert; [done|done|]. intros _. cbn [settings_after].
    rewrite (settings_managed R _ _ Hm), (settings_managed R _ _ Hm'), <-Hspec. done.
  - rewrite unmanaged_device_unchanged by (done || (intros j d; rewrite Hi; intros [= <-]; by rewrite Hd)).
    exists s. split; [done|]. split; [done|]. apply local_stay. cbn [target]. intros j d Hj Hdj. congruence.
  - rewrite unmanaged_device_unchanged by (done || (intros j d; by rewrite Hi)).
    exists s. split; [done|]. split; [done|]. apply local_stay. cbn [target]. intros j d Hj Hdj. congruence.
Qed.
(** Every event. *)
Lemma wstep_ok R s ev :
  sys_ok R s -> wevent_ok R s ev ->
  (exists s', wstep s ev = Ok s' /\ sys_ok R s' /\ local_step s ev s') \/ starving s ev /\ wstep s ev = Oops BadPointer.
Proof.
  intros Hs Hev. destruct ev as [junk name c|c|i e sch|i|i ticklock cpu skb|i e cpu skb|i ev]; [left; by apply write_ok|..]; cbn [wstep wevent_ok] in *.
  - left. exists s. rewrite (refused_unchanged c s (so_mutex R s Hs) Hev). split; [done|]. split; [done|]. by split.
  - left. apply (at_dev_ok R); [done|done|]. intros dev Hi _. destruct (Hev dev Hi) as (He & Hroot & Hf & Hops & Hz).
    destruct (acquired e dev sch) eqn:Hacq.
    2: { destruct (attach_undone e sch dev Hroot Hf Hacq He) as (dev' & E & He'). exists dev'. split; [done|]. split; [by left|done]. }
    destruct (attach_managed R e sch dev (so_R R s Hs) Hroot Hacq Hops Hz) as (dev' & h' & E & Hm & _).
    exists dev'. split; [done|]. split; [by eapply dev_ok_managed|done].
  - left. apply (at_dev_ok R); [done|done|]. intros dev Hi Hok. destruct (managed_or_not R dev Hok (Hev dev Hi)) as [h Hm].
    by apply (detach_managed R dev h).
  - left. destruct Hev as (Hcpu & Hpkt & Hdev). apply (at_dev_ok R); [done|done|]. intros dev Hi Hok.
    destruct (Hdev dev Hi) as [He [txq Hq]]. destruct (managed_or_not R dev Hok He) as [h Hm].
    destruct (enqueue_managed R ticklock cpu skb dev h txq Hm Hcpu Hpkt Hq) as (ret & f & dev' & h' & -> & Hm' & Hv).
    exists dev'. split; [done|]. split; [by eapply dev_ok_managed|]. intros _. by rewrite (settings_managed R _ _ Hm), (settings_managed R _ _ Hm').
  - destruct Hev as [Hv Hfb]. destruct (sys_devs s !! i) as [dev|] eqn:Hi.
    2: { left. exists s. unfold at_dev. rewrite Hi. split; [done|]. split; [done|]. apply local_stay. cbn [target]. intros j d Hj Hd. congruence. }
    destruct (so_devs R s Hs i dev Hi) as [He|[h Hm]].
    + left. apply (at_dev_ok R); [done|done|]. rewrite Hi. intros d [= <-] Hok. exists dev. unfold iso_rx_handler. rewrite He.
      split; [by destruct (skb_pkt_type skb)|done].
    + destruct (arrive_managed R e cpu skb dev h Hm Hv Hfb) as [(res & f & fb & dev' & h' & E & Hm' & Hvw)|[Hst E]].
      * left. apply (at_dev_ok R); [done|done|]. rewrite Hi. intros d [= <-] _. rewrite E. exists dev'. split; [done|].
        split; [by eapply dev_ok_managed|]. intros _. by rewrite (settings_managed R _ _ Hm), (settings_managed R _ _ Hm').
      * right. split; [exists dev, h; split_and!; [done|apply Hm|done]|]. unfold at_dev. by rewrite Hi, E.
  - left. destruct Hev as [Hk Hdev]. apply (at_dev_ok R); [done|done|]. intros dev Hi Hok. destruct (Hdev dev Hi) as [He Hh].
    destruct (managed_or_not R dev Hok He) as [h Hm].
    destruct (background_managed R ev dev h Hm (Hh h Hm) Hk) as (dev' & h' & E & Hm' & Hv). exists dev'. split; [done|].
    split; [by eapply dev_ok_managed|]. intros _. by rewrite (settings_managed R _ _ Hm), (settings_managed R _ _ Hm').
Qed.

(** The states that the machine reaches. *)
Inductive wreach (R : Z) (s : sys) : sys -> Prop :=
| wreach_refl : wreach R s s
| wreach_step s1 ev s2 : wreach R s s1 -> wevent_ok R s1 ev -> wstep s1 ev = Ok s2 -> wreach R s s2.

Lemma wreach_ok R s s' : sys_ok R s -> wreach R s s' -> sys_ok R s'.
Proof.
  intros Hs Hr. induction Hr as [|s1 ev s2 Hr IH Hev E]; [done|].
  destruct (wstep_ok R s1 ev IH Hev) as [(s3 & E3 & Hok & _)|[_ E3]]; congruence.
Qed.

End WorldOk.

(** ** Two devices, eth1 without the discipline and eth0 with class 7 *)

Definition ex_machine : sys := {|
  sys_devs := [(let dev := ex_plain None in {| dev with nd_name := text "eth1" |}); ex_up]; sys_locked := false; sys_signal := false |}.

Lemma ex_machine_ok :
  sys_ok (K := ref_kernel) (P := default_params) (C := Mark.ops) (valid := is_u32) (Env := ex_env) 10000 ex_machine.
Proof.
  split; [vm_compute; split; [discriminate|reflexivity]|reflexivity|].
  intros [|[|i]] dev [= <-]; [left; reflexivity|]. right. exists ex_host.
  split; [vm_compute; discriminate|]. split; [reflexivity|].
  split; [|by do 2 eexists]. split; [exact ex_ctl_ok|]. split; [exact ex_owned|]. by do 3 eexists.
Qed.

